(* ===== verification/_CoqProject ===== *)
-Q . S2P
Prelude.v
State.v
Monad.v
Logic.v
Strings.v
Screen.v
ScreenSpec.v
Pic.v
Mem.v
Proc.v
ProcSpec.v
Fs.v
FsSpec.v
Rtc.v
Terminal.v
TerminalSpec.v
Keyboard.v
EditorSpec.v
Interrupts.v
Descriptors.v
Syscalls.v
PagingSpec.v
SchedSpec.v
Exceptions.v
Kernel.v
Asm.v
Demo.v
MemSpec.v
AsmSpec.v
DescriptorSpec.v
Invariant.v
InvariantProps.v
User.v
UserLib.v
UserRun.v
Emulate.v
EmulateProps.v
Fish.v
FishSpec.v
FishProps.v
SchedProps.v
DriverSpec.v
KeyboardSpec.v
InputSpec.v
HistorySpec.v
HistoryProps.v
RtcSpec.v
SwitchSpec.v
DisplaySpec.v
ProcessSpec.v
HaltSpec.v
FsProps.v
ProcessProps.v
ExecProps.v
LifeProps.v
ArgsProps.v
DirSpec.v
UserSpec.v
UserProps.v
UserFiles.v
UserDirs.v
UserPrints.v
