(* ===== verification/Prelude.v ===== *)
(** * The ECE391 kernel, verified

    The program is a small operating system for a 32-bit x86 machine in
    src/student-distrib (the kernel) with its user programs in src/syscalls
    and the demonstration program in src/fish. The development translates the
    C and the assembly of all three to functions over an explicit state and
    proves what they do.

    ** The parts and how they interact

    - Prelude.v: C integers as [Z] with the conversions [u8] ... [s32], array
      access that fails out of range ([lget], [lset], [lget2], [lset2]),
      lemmas on lists, the tactics and the hint databases all files share.
    - State.v: the globals of the kernel, one record per component ([proc_t],
      [pag_t], [sched_t], [term_t], [kbd_t], [rtc_t], [irq_t], [fs_t], the
      screen, the hardware [s_hw]) joined in [kstate], with physical memory as
      a map of bytes. The class [Platform] holds what is not in the source: the
      addresses the linker chooses, the answers of devices, what an
      uninitialised variable holds, the register that the compiler gives the
      status in [halt]'s assembly, and how many unused bytes follow the array
      [read_buffer]. The last two matter: the register decides what [execute]
      returns (0 in the shipped image, where it is eax, which is cleared
      first), and the shell's reads store a terminator behind the array. Demo.v
      takes both from the image mp3.img of the repository.
    - Monad.v: [M A], a routine from a state to [Ret a s] or [Stop w s], where
      [w] says why control has left for good: a fault, an endless loop, the
      entry of a program, the resumption of another stack. Port accesses are
      logged; an interrupt that is pending when a routine spins with the
      interrupt flag set is delivered there. Addresses are translated through
      the page directory when paging is on.
    - Logic.v: weakest preconditions [wp] over [M] and their rules.

    One file per file of the kernel, with the C names:

    - Strings.v, Mem.v, Screen.v: lib.c. Pic.v: i8259.c.
    - Proc.v: process_control.c. Fs.v: filesystem_driver.c. Rtc.v:
      rtc_driver.c. Terminal.v: terminal.c. Keyboard.v: keyboard.c, keyboard.h.
    - Interrupts.v: interrupts.c, schedule_wrapper.S, paging.S, the constants
      of x86_desc.h. Syscalls.v: syscalls.c, syscalls_wrapper.S.
      Exceptions.v: exception-handlers.c. Kernel.v: kernel.c, multiboot.h, and
      the step of the whole machine ([kernel_step]: an interrupt, a system
      call or an exception reaching the kernel).
    - Descriptors.v: x86_desc.h and x86_desc.S, and the parts of kernel.c that
      build the LDT and TSS descriptors. Asm.v: boot.S and the four wrappers
      (syscalls_wrapper.S, keyboard_wrapper.S, rtc_wrapper.S,
      schedule_wrapper.S) on the registers and the kernel stack.

    The system calls dispatch on the operations of a descriptor to the
    drivers; the keyboard handler edits the line buffers that terminal_read
    waits for; the timer handler moves between the schedules that execute
    pushes and halt pops; execute reads the program with the file system driver.

    - User.v: the user library (ece391support.c, ece391syscall.S) and the
      programs of src/syscalls as interaction trees over the system calls.
    - Fish.v: the fish program with its blink module.
    - Emulate.v: the calls of the user library on a Linux host.
    - UserRun.v: those trees on the kernel: a call puts its arguments and
      arrays into the program's memory, runs [system_call] and reads the arrays
      back.
    - Demo.v: a concrete platform, memory and file system image for witnesses.

    ** What the theorems show

    - The screen and the line editor: ScreenSpec.v and TerminalSpec.v say what
      each output routine writes and where the cursor goes; EditorSpec.v has
      the abstract editor (text before and after the cursor) and
      KeyboardSpec.v the refinement: every sequence of keys keeps the kernel's
      buffer equal to the editor. InputSpec.v carries the edited line through
      Enter into the program that reads. HistorySpec.v shows what the arrows
      Up and Down put in the place of the line and HistoryProps.v that the
      ring of lines refines a list of the last nineteen.
    - The file system: FsSpec.v and FsProps.v say what a read returns in each
      case, what a program that reads in chunks gets, which entry a name
      finds; DirSpec.v lists a directory; DriverSpec.v has the contract of a
      driver with named files ([FdDriver], with instances for files and
      directories and the clock) and the opening and closing of descriptors.
    - Paging: PagingSpec.v gives the memory map of a program as a function of
      addresses and SchedProps.v shows that the page tables implement it and
      keep the programs apart.
    - The scheduler: SchedSpec.v and SchedProps.v: what a tick does, that an
      interrupted program continues where it was, that the search for the next
      terminal ends and no terminal starves.
    - Processes: ProcSpec.v, ProcessSpec.v, HaltSpec.v, ProcessProps.v and
      LifeProps.v: execute enters a program, halt undoes it, the last shell of
      a terminal starts again, an exception ends the program; ExecProps.v: the
      commands that execute refuses leave everything as it was, and what is
      left open when all descriptors are in use.
    - Memory: MemSpec.v, the block operations of lib.c against byte-wise
      definitions.
    - The whole kernel: Invariant.v and InvariantProps.v, the well-formedness
      of every table in every reachable state.
    - The user programs: UserLib.v (the user library against the kernel's),
      UserSpec.v (what a call does for a program), UserProps.v (the error tests
      of ece391syserr.c pass), UserFiles.v (cat), UserDirs.v (ls), UserPrints.v
      (counter, pingpong).
    - The assembly: AsmSpec.v, that the wrappers give every register back and
      pass the arguments on; DescriptorSpec.v, the types and bases of the
      descriptors, and the way from boot.S to entry.
    - The clock: RtcSpec.v, the rates and the wait for a tick; the device's
      frequency for each code of register A is a parameter that the data sheet
      describes.
    - Fish: Fish.v (fish.c and blink.S), FishSpec.v the list of blinking
      characters its linked structures represent, FishProps.v the refinement,
      the period of a character in any such list and the corner where the list
      loops.
    - Terminals and arguments: SwitchSpec.v, that switching back and forth
      keeps every terminal's screen and cursor; DisplaySpec.v, that the screen
      refines a display of 25 rows of 80 cells; ArgsProps.v, that the bytes
      after the command's name reach getargs.
    - The Linux emulation: Emulate.v, ece391emulate.c over the calls of the
      host; EmulateProps.v, how the words of a command reach a program there.

    ** Bounds and fuel

    Loops of the C code with a constant bound are recursions on that bound.
    The other loops take fuel that the theorems show to be enough: string
    loops the length of the object (a string without terminator leaves the
    object and is a fault), itoa 33 rounds (32 digits in base 2), the
    scheduler's search NUM_TERMINALS rounds (after which it has seen every
    terminal, and only [Hang] is left), waiting loops the length of the list of
    pending interrupts (after which nothing can end the wait: [Blocked]), user
    programs the [run] fuel that the theorems exhibit. The loops of fish over
    its list take one round for each of the CELLS structures: a list without
    a cycle cannot be longer, and with a cycle the loop never ends, which is
    their outcome [Loops].

    ** Not modelled

    - Interrupts at other points than the waiting loops and the returns to
      user mode: between two instructions of a routine that has enabled them.
    - The TLB beyond a flag that says it is stale; caches; segmentation apart
      from the descriptors, the checks of ltr, lldt and of a load of a
      selector; lgdt and lidt, which are that the tables are in force.
    - The contents of kernel stacks, except those of the assembly routines of
      Asm.v: a switch of stacks is the outcome [Stop (Resume ...)] with the
      stack pointer it goes to.
    - Stores beyond [read_buffer] and its unused bytes, and beyond the screen's
      page (after a carriage return on the last row): they are faults. The
      theorems on the screen and on cat are for texts without carriage returns.
    - The registers and stack frames of blink.S; ece391support.c in src/fish
      is an older copy of the one in src/syscalls.
    - A user program's arrays lie at one address for the time of a call; a
      program that aliases its buffers with video memory is not modelled.
    - tests.c (tests that the kernel does not call unless RUN_TESTS is
      defined), communication.h (macros for ports that no code uses).
    - The Linux host under ece391emulate.c, whose calls are events. *)
From stdpp Require Export base functions gmap list numbers fin_maps strings.
From Stdlib Require Export ZArith Lia.

#[export] Set Default Goal Selector "!".

Declare Scope kernel_scope.
Delimit Scope kernel_scope with kernel.
#[global] Open Scope Z_scope.

(** ** Machine integers

    A C integer is a [Z]; the functions below are the conversions the C
    types of [types.h] stand for. *)

Definition u8 (z : Z) : Z := z mod 256.
Definition u16 (z : Z) : Z := z mod 65536.
Definition u32 (z : Z) : Z := z mod 4294967296.
Definition s8 (z : Z) : Z := (z + 128) mod 256 - 128.
Definition s32 (z : Z) : Z := (z + 2147483648) mod 4294967296 - 2147483648.

Ltac divlia := Z.div_mod_to_equations; lia.

Lemma u8_range z : 0 <= u8 z < 256.
Proof. unfold u8. divlia. Qed.
Lemma u16_range z : 0 <= u16 z < 65536.
Proof. unfold u16. divlia. Qed.
Lemma u32_range z : 0 <= u32 z < 4294967296.
Proof. unfold u32. divlia. Qed.
Lemma s32_range z : -2147483648 <= s32 z < 2147483648.
Proof. unfold s32. divlia. Qed.
Lemma u8_small z : 0 <= z < 256 -> u8 z = z.
Proof. unfold u8. apply Z.mod_small. Qed.
Lemma u16_small z : 0 <= z < 65536 -> u16 z = z.
Proof. unfold u16. apply Z.mod_small. Qed.
Lemma u32_small z : 0 <= z < 4294967296 -> u32 z = z.
Proof. unfold u32. apply Z.mod_small. Qed.
Lemma s32_small z : -2147483648 <= z < 2147483648 -> s32 z = z.
Proof. intros. unfold s32. rewrite Z.mod_small; lia. Qed.
Lemma s8_eq_iff a b : 0 <= a < 256 -> 0 <= b < 256 -> s8 a - s8 b = 0 <-> a = b.
Proof. intros. unfold s8. divlia. Qed.

Create Rewrite HintDb width.
#[export] Hint Rewrite u8_small u16_small u32_small s32_small using lia : width.

(** ** Arrays

    A C array is a list; an access outside it has no defined result. *)

Section arrays.
Context {A : Type}.
Implicit Types (l : list A) (i : Z) (v : A).

Definition lget l i : option A :=
  if decide (0 <= i) then l !! Z.to_nat i else None.

Definition lset l i v : option (list A) :=
  if decide (0 <= i < Z.of_nat (length l)) then Some (<[Z.to_nat i := v]> l)
  else None.

Lemma lget_Some l i : 0 <= i < Z.of_nat (length l) -> exists v, lget l i = Some v.
Proof.
  intros H. unfold lget. rewrite decide_True by lia.
  destruct (lookup_lt_is_Some_2 l (Z.to_nat i)) as [v Hv]; [lia|eauto].
Qed.

Lemma lget_range l i v : lget l i = Some v -> 0 <= i < Z.of_nat (length l).
Proof.
  unfold lget. case_decide; [|done]. intros ?%lookup_lt_Some. lia.
Qed.

Lemma lget_None l i : Z.of_nat (length l) <= i -> lget l i = None.
Proof.
  intros. unfold lget. case_decide; [|done]. apply lookup_ge_None_2. lia.
Qed.

Lemma lset_Some l i v :
  0 <= i < Z.of_nat (length l) -> lset l i v = Some (<[Z.to_nat i := v]> l).
Proof. intros. unfold lset. by rewrite decide_True. Qed.

Lemma lset_length l i v l' : lset l i v = Some l' -> length l' = length l.
Proof. unfold lset. case_decide; [|done]. intros [= <-]. apply length_insert. Qed.

Lemma lget_lset_eq l i v l' : lset l i v = Some l' -> lget l' i = Some v.
Proof.
  unfold lset, lget. case_decide; [|done]. intros [= <-].
  rewrite decide_True by lia. apply list_lookup_insert_eq. lia.
Qed.

Lemma lget_lset_ne l i j v l' : lset l i v = Some l' -> i <> j -> lget l' j = lget l j.
Proof.
  unfold lset, lget. case_decide; [|done]. intros [= <-] ?.
  case_decide; [|done]. apply list_lookup_insert_ne. lia.
Qed.

Lemma lget_app_l l k i : i < Z.of_nat (length l) -> lget (l ++ k) i = lget l i.
Proof. intros. unfold lget. case_decide; [|done]. apply lookup_app_l. lia. Qed.

Lemma lget_replicate (n : nat) v i : 0 <= i < Z.of_nat n -> lget (replicate n v) i = Some v.
Proof. intros. unfold lget. rewrite decide_True by lia. apply lookup_replicate_2. lia. Qed.
End arrays.

Lemma list_eq_lget {A} (l k : list A) :
  length l = length k ->
  (forall i, 0 <= i < Z.of_nat (length l) -> lget l i = lget k i) -> l = k.
Proof.
  intros Hlen H. apply list_eq_same_length with (n := length k); [done|lia|].
  intros i x y ? Hx Hy. specialize (H (Z.of_nat i)). unfold lget in H.
  rewrite !decide_True, Nat2Z.id, Hx, Hy in H by lia.
  assert (Some x = Some y) by (apply H; lia). congruence.
Qed.

Create Rewrite HintDb arr.
#[export] Hint Rewrite @length_insert @length_replicate @length_app @length_take
  @length_drop : arr.

(** A row of a two-dimensional array. *)
Definition lget2 {A} (l : list (list A)) (i j : Z) : option A :=
  r ← lget l i; lget r j.
Definition lset2 {A} (l : list (list A)) (i j : Z) (v : A) : option (list (list A)) :=
  r ← lget l i; r' ← lset r j v; lset l i r'.
