(* ===== verification/State.v ===== *)
(** * State of the kernel

    The C globals of the kernel as records, one per component, with a setter
    per field; the memory of the machine; the answers of its devices. *)
From S2P Require Import Prelude.

(** The handlers installed in the interrupt descriptor table, in the order of
    the vectors of [interrupts.c]. *)
Inductive handler :=
  | exception_div_zero | exception_debug | exception_nonmaskable_interrupt
  | exception_breakpoint | exception_overflow | exception_bound_range_exceeded
  | exception_invalid_opcode | exception_device_not_available
  | exception_double_fault | exception_coprocessor_segment_overrun
  | exception_invalid_TSS | exception_segment_not_present
  | exception_stack_segment_fault | exception_general_protection_fault
  | exception_page_fault | exception_reserved | exception_x87_floating_point
  | exception_alignment_check | exception_machine_check
  | exception_SIMD_floating_point | exception_virtualization
  | exception_security | schedule_wrapper | keyboard_wrapper | rtc_wrapper
  | system_call_wrapper.
#[export] Instance handler_eq_dec : EqDecision handler.
Proof. solve_decision. Defined.

(** The byte registers a compiler can give an ["r"] operand of one byte. *)
Inductive byte_register := AL | BL | CL | DL.
#[export] Instance byte_register_eq_dec : EqDecision byte_register.
Proof. solve_decision. Defined.

(** ** What the kernel does not define

    [process_tables_addr] is the address the linker gives [process_tables]
    (4096-aligned by its attribute, inside the 4 MB kernel page);
    [port_in] is what the device behind a port answers, given the bytes sent
    to ports so far; [stack_junk] is the value of an uninitialised stack
    word; [handler_address], [ldt_address] and [tss_address] the linker's
    addresses of a handler, of [ldt] and of [tss]; [halt_status_register] the
    register the compiler keeps the status in that [halt]'s inline assembly
    reads ([AL] in the image of the repository, mp3.img);
    [unused_after_read_buffer] the number of bytes that the linker places
    behind the array [read_buffer] of terminal.c and that no code uses (in
    mp3.img the 6000 bytes of [vid_save_arr], which is declared and never
    used); like the rest of the bss they are zero. *)
Class Platform := {
  process_tables_addr : Z;
  process_tables_aligned : process_tables_addr mod 4096 = 0;
  process_tables_range : 4194304 <= process_tables_addr < 8388608;
  port_in : list (Z * Z) -> Z -> Z;
  stack_junk : Z;
  handler_address : handler -> Z;
  ldt_address : Z;
  tss_address : Z;
  halt_status_register : byte_register;
  unused_after_read_buffer : Z;
}.

(** ** Record update *)

Class Eta (R : Type) := eta : R -> R.
Class Setter {R T : Type} (proj : R -> T) := set : (T -> T) -> R -> R.
Arguments set {R T} proj {_} _ _.
#[global] Hint Mode Setter - - + : typeclass_instances.

Ltac setter :=
  match goal with
  | |- @Setter ?R ?T ?p =>
      let f := fresh "f" in
      let r := fresh "r" in
      refine (fun (f : T -> T) (r : R) => _);
      let h := eval cbv beta iota delta [eta] in (eta r) in
      let h := (match h with ?e r => let e' := eval unfold e in (e r) in e' end) in
      let h := eval cbv beta in h in
      match eval pattern (p r) in h with
      | ?g _ => let t := eval cbv beta in (g (f (p r))) in exact t
      end
  end.


(** ** Components of the state *)

(** lib.c: the cursor and the base of the video memory it writes to. *)
Record scr_t := mk_scr {
  screen_x : Z;
  screen_y : Z;
  video_mem : Z;
}.
#[export] Instance eta_scr : Eta scr_t := fun r =>
  mk_scr (screen_x r) (screen_y r) (video_mem r).
#[export] Instance screen_x_upd : Setter screen_x := ltac:(setter).
#[export] Instance screen_y_upd : Setter screen_y := ltac:(setter).
#[export] Instance video_mem_upd : Setter video_mem := ltac:(setter).

(** process_control.h: the operation tables a file descriptor points to, and
    the functions they hold. *)
Inductive optab := file_table | dir_table | rtc_table | stdin_table | stdout_table.
#[export] Instance optab_eq_dec : EqDecision optab.
Proof. solve_decision. Defined.

Inductive open_fn := fn_file_open | fn_directory_open | fn_rtc_open
  | fn_keyboard_open | fn_terminal_open.
Inductive read_fn := fn_file_read | fn_directory_read | fn_rtc_read
  | fn_terminal_read | fn_terminal_read_fail.
Inductive write_fn := fn_file_write | fn_directory_write | fn_rtc_write
  | fn_keyboard_write | fn_terminal_write.
Inductive close_fn := fn_file_close | fn_directory_close | fn_rtc_close
  | fn_keyboard_close | fn_terminal_close.

Record optable_t := mk_optable {
  op_open : open_fn;
  op_read : read_fn;
  op_write : write_fn;
  op_close : close_fn;
}.

(** A file descriptor; [None] is the NULL operations pointer, [fd_inode] is the unsigned value of the field, [fd_flags] the signed one. *)
Record fd_block_t := mk_fd {
  file_operations_pointer : option optab;
  fd_inode : Z;
  file_position : Z;
  fd_flags : Z;
}.
#[export] Instance eta_fd_block : Eta fd_block_t := fun r =>
  mk_fd (file_operations_pointer r) (fd_inode r) (file_position r) (fd_flags r).
#[export] Instance file_operations_pointer_upd : Setter file_operations_pointer := ltac:(setter).
#[export] Instance fd_inode_upd : Setter fd_inode := ltac:(setter).
#[export] Instance file_position_upd : Setter file_position := ltac:(setter).
#[export] Instance fd_flags_upd : Setter fd_flags := ltac:(setter).

(** A process control block. *)
Record pcb_t := mk_pcb {
  fd_table : list fd_block_t;
  pcb_pid : Z;
  pcb_parent : Z;
  stack_pos : Z;
  pcb_ss : Z;
  pcb_esp : Z;
  pcb_args : list Z;
}.
#[export] Instance eta_pcb : Eta pcb_t := fun r =>
  mk_pcb (fd_table r) (pcb_pid r) (pcb_parent r) (stack_pos r) (pcb_ss r) (pcb_esp r)
    (pcb_args r).
#[export] Instance fd_table_upd : Setter fd_table := ltac:(setter).
#[export] Instance pcb_pid_upd : Setter pcb_pid := ltac:(setter).
#[export] Instance pcb_parent_upd : Setter pcb_parent := ltac:(setter).
#[export] Instance stack_pos_upd : Setter stack_pos := ltac:(setter).
#[export] Instance pcb_ss_upd : Setter pcb_ss := ltac:(setter).
#[export] Instance pcb_esp_upd : Setter pcb_esp := ltac:(setter).
#[export] Instance pcb_args_upd : Setter pcb_args := ltac:(setter).

(** process_control.h: the process table; [optables t] is [None] while the table [t] still holds zeros. *)
Record proc_t := mk_proc {
  control_blocks : list pcb_t;
  num_active_processes : Z;
  current_pid : Z;
  past_pid : Z;
  optables : optab -> option optable_t;
}.
#[export] Instance eta_proc : Eta proc_t := fun r =>
  mk_proc (control_blocks r) (num_active_processes r) (current_pid r) (past_pid r)
    (optables r).
#[export] Instance control_blocks_upd : Setter control_blocks := ltac:(setter).
#[export] Instance num_active_processes_upd : Setter num_active_processes := ltac:(setter).
#[export] Instance current_pid_upd : Setter current_pid := ltac:(setter).
#[export] Instance past_pid_upd : Setter past_pid := ltac:(setter).
#[export] Instance optables_upd : Setter optables := ltac:(setter).

(** The page directory and the page table; [paging_on] is the bit PG of cr0, [tlb_stale] holds between a change of an entry and the next load of cr3. *)
Record pag_t := mk_pag {
  process_pages : list Z;
  process_tables : list Z;
  paging_on : bool;
  tlb_stale : bool;
}.
#[export] Instance eta_pag : Eta pag_t := fun r =>
  mk_pag (process_pages r) (process_tables r) (paging_on r) (tlb_stale r).
#[export] Instance process_pages_upd : Setter process_pages := ltac:(setter).
#[export] Instance process_tables_upd : Setter process_tables := ltac:(setter).
#[export] Instance paging_on_upd : Setter paging_on := ltac:(setter).
#[export] Instance tlb_stale_upd : Setter tlb_stale := ltac:(setter).

(** The fields of the task state segment that the kernel writes. *)
Record tss_t := mk_tss {
  esp0 : Z;
  ss0 : Z;
  ldt_segment_selector : Z;
}.
#[export] Instance eta_tss : Eta tss_t := fun r =>
  mk_tss (esp0 r) (ss0 r) (ldt_segment_selector r).
#[export] Instance esp0_upd : Setter esp0 := ltac:(setter).
#[export] Instance ss0_upd : Setter ss0 := ltac:(setter).
#[export] Instance ldt_segment_selector_upd : Setter ldt_segment_selector := ltac:(setter).

(** syscalls.h and interrupts.h: the schedule of the three terminals. *)
Record sched_t := mk_sched {
  shell_pid : list Z;
  schedule_top : list Z;
  schedule_stack : list (list Z);
  schedule_tss : list (list tss_t);
  schedule_esp : list (list Z);
  schedule_ebp : list (list Z);
  current_process : Z;
  terminal_request : Z;
  schedule_tick : Z;
  last_esp : Z;
  last_ebp : Z;
  sanity_check : Z;
  timer_ticks : Z;
  schedule_info_arr : list (Z * Z);
  strand_type_lock : Z;
}.
#[export] Instance eta_sched : Eta sched_t := fun r =>
  mk_sched (shell_pid r) (schedule_top r) (schedule_stack r) (schedule_tss r)
    (schedule_esp r) (schedule_ebp r) (current_process r) (terminal_request r)
    (schedule_tick r) (last_esp r) (last_ebp r) (sanity_check r) (timer_ticks r)
    (schedule_info_arr r) (strand_type_lock r).
#[export] Instance shell_pid_upd : Setter shell_pid := ltac:(setter).
#[export] Instance schedule_top_upd : Setter schedule_top := ltac:(setter).
#[export] Instance schedule_stack_upd : Setter schedule_stack := ltac:(setter).
#[export] Instance schedule_tss_upd : Setter schedule_tss := ltac:(setter).
#[export] Instance schedule_esp_upd : Setter schedule_esp := ltac:(setter).
#[export] Instance schedule_ebp_upd : Setter schedule_ebp := ltac:(setter).
#[export] Instance current_process_upd : Setter current_process := ltac:(setter).
#[export] Instance terminal_request_upd : Setter terminal_request := ltac:(setter).
#[export] Instance schedule_tick_upd : Setter schedule_tick := ltac:(setter).
#[export] Instance last_esp_upd : Setter last_esp := ltac:(setter).
#[export] Instance last_ebp_upd : Setter last_ebp := ltac:(setter).
#[export] Instance sanity_check_upd : Setter sanity_check := ltac:(setter).
#[export] Instance timer_ticks_upd : Setter timer_ticks := ltac:(setter).
#[export] Instance schedule_info_arr_upd : Setter schedule_info_arr := ltac:(setter).
#[export] Instance strand_type_lock_upd : Setter strand_type_lock := ltac:(setter).

(** terminal.h: what a terminal keeps while another is displayed. *)
Record switch_data := mk_switch {
  vid_data : list Z;
  cursor_x : Z;
  cursor_y : Z;
}.
#[export] Instance eta_switch_data : Eta switch_data := fun r =>
  mk_switch (vid_data r) (cursor_x r) (cursor_y r).
#[export] Instance vid_data_upd : Setter vid_data := ltac:(setter).
#[export] Instance cursor_x_upd : Setter cursor_x := ltac:(setter).
#[export] Instance cursor_y_upd : Setter cursor_y := ltac:(setter).

(** terminal.c *)
Record term_t := mk_term {
  return_switch : list Z;
  read_buffer : list (list Z);
  switch_data_arr : list switch_data;
  terminal_running : list Z;
  current_terminal : Z;
}.
#[export] Instance eta_term : Eta term_t := fun r =>
  mk_term (return_switch r) (read_buffer r) (switch_data_arr r) (terminal_running r)
    (current_terminal r).
#[export] Instance return_switch_upd : Setter return_switch := ltac:(setter).
#[export] Instance read_buffer_upd : Setter read_buffer := ltac:(setter).
#[export] Instance switch_data_arr_upd : Setter switch_data_arr := ltac:(setter).
#[export] Instance terminal_running_upd : Setter terminal_running := ltac:(setter).
#[export] Instance current_terminal_upd : Setter current_terminal := ltac:(setter).

(** keyboard.c *)
Record kbd_t := mk_kbd {
  shift_down : Z;
  caps_lock : Z;
  ctrl_down : Z;
  alt_down : Z;
  buffer : list (list Z);
  bufferIDX : list Z;
  bufferSIZE : list Z;
  history : list (list (list Z));
  historyIDX : list Z;
  historyBASE : list Z;
  historySIZE : list Z;
  key_flag : Z;
}.
#[export] Instance eta_kbd : Eta kbd_t := fun r =>
  mk_kbd (shift_down r) (caps_lock r) (ctrl_down r) (alt_down r) (buffer r) (bufferIDX
    r) (bufferSIZE r) (history r) (historyIDX r) (historyBASE r) (historySIZE r)
    (key_flag r).
#[export] Instance shift_down_upd : Setter shift_down := ltac:(setter).
#[export] Instance caps_lock_upd : Setter caps_lock := ltac:(setter).
#[export] Instance ctrl_down_upd : Setter ctrl_down := ltac:(setter).
#[export] Instance alt_down_upd : Setter alt_down := ltac:(setter).
#[export] Instance buffer_upd : Setter buffer := ltac:(setter).
#[export] Instance bufferIDX_upd : Setter bufferIDX := ltac:(setter).
#[export] Instance bufferSIZE_upd : Setter bufferSIZE := ltac:(setter).
#[export] Instance history_upd : Setter history := ltac:(setter).
#[export] Instance historyIDX_upd : Setter historyIDX := ltac:(setter).
#[export] Instance historyBASE_upd : Setter historyBASE := ltac:(setter).
#[export] Instance historySIZE_upd : Setter historySIZE := ltac:(setter).
#[export] Instance key_flag_upd : Setter key_flag := ltac:(setter).

(** interrupts.h: the virtualised real-time clock. *)
Record rtc_t := mk_rtc {
  rtc_running : list Z;
  rtc_virtual_interupt : list Z;
}.
#[export] Instance eta_rtc : Eta rtc_t := fun r =>
  mk_rtc (rtc_running r) (rtc_virtual_interupt r).
#[export] Instance rtc_running_upd : Setter rtc_running := ltac:(setter).
#[export] Instance rtc_virtual_interupt_upd : Setter rtc_virtual_interupt := ltac:(setter).

(** x86_desc.h: a gate of the interrupt descriptor table. *)
Record idt_desc_t := mk_idt_desc {
  offset_15_00 : Z;
  seg_selector : Z;
  reserved4 : Z;
  reserved3 : Z;
  reserved2 : Z;
  reserved1 : Z;
  size_bit : Z;
  reserved0 : Z;
  dpl : Z;
  present : Z;
  offset_31_16 : Z;
}.
#[export] Instance eta_idt_desc : Eta idt_desc_t := fun r =>
  mk_idt_desc (offset_15_00 r) (seg_selector r) (reserved4 r) (reserved3 r) (reserved2
    r) (reserved1 r) (size_bit r) (reserved0 r) (dpl r) (present r) (offset_31_16 r).
#[export] Instance offset_15_00_upd : Setter offset_15_00 := ltac:(setter).
#[export] Instance seg_selector_upd : Setter seg_selector := ltac:(setter).
#[export] Instance reserved4_upd : Setter reserved4 := ltac:(setter).
#[export] Instance reserved3_upd : Setter reserved3 := ltac:(setter).
#[export] Instance reserved2_upd : Setter reserved2 := ltac:(setter).
#[export] Instance reserved1_upd : Setter reserved1 := ltac:(setter).
#[export] Instance size_bit_upd : Setter size_bit := ltac:(setter).
#[export] Instance reserved0_upd : Setter reserved0 := ltac:(setter).
#[export] Instance dpl_upd : Setter dpl := ltac:(setter).
#[export] Instance present_upd : Setter present := ltac:(setter).
#[export] Instance offset_31_16_upd : Setter offset_31_16 := ltac:(setter).

(** x86_desc.h: a segment descriptor of the global descriptor table. *)
Record seg_desc_t := mk_seg_desc {
  seg_lim_15_00 : Z;
  base_15_00 : Z;
  base_23_16 : Z;
  seg_type : Z;
  seg_sys : Z;
  seg_dpl : Z;
  seg_present : Z;
  seg_lim_19_16 : Z;
  seg_avail : Z;
  seg_reserved : Z;
  opsize : Z;
  granularity : Z;
  base_31_24 : Z;
}.
#[export] Instance eta_seg_desc : Eta seg_desc_t := fun r =>
  mk_seg_desc (seg_lim_15_00 r) (base_15_00 r) (base_23_16 r) (seg_type r) (seg_sys r)
    (seg_dpl r) (seg_present r) (seg_lim_19_16 r) (seg_avail r) (seg_reserved r)
    (opsize r) (granularity r) (base_31_24 r).
#[export] Instance seg_lim_15_00_upd : Setter seg_lim_15_00 := ltac:(setter).
#[export] Instance base_15_00_upd : Setter base_15_00 := ltac:(setter).
#[export] Instance base_23_16_upd : Setter base_23_16 := ltac:(setter).
#[export] Instance seg_lim_19_16_upd : Setter seg_lim_19_16 := ltac:(setter).
#[export] Instance base_31_24_upd : Setter base_31_24 := ltac:(setter).

(** interrupts.c, i8259.c and x86_desc.S: the descriptor tables (the global
    one as eight-byte words), the selectors in the registers that name the
    local table and the task, the masks of the interrupt controllers. *)
Record irq_t := mk_irq {
  idt : list idt_desc_t;
  idt_loaded : bool;
  color_flag : Z;
  master_mask : Z;
  slave_mask : Z;
  gdt : list Z;
  ldtr : Z;
  task_register : Z;
}.
#[export] Instance eta_irq : Eta irq_t := fun r =>
  mk_irq (idt r) (idt_loaded r) (color_flag r) (master_mask r) (slave_mask r) (gdt r)
    (ldtr r) (task_register r).
#[export] Instance gdt_upd : Setter gdt := ltac:(setter).
#[export] Instance ldtr_upd : Setter ldtr := ltac:(setter).
#[export] Instance task_register_upd : Setter task_register := ltac:(setter).
#[export] Instance idt_upd : Setter idt := ltac:(setter).
#[export] Instance idt_loaded_upd : Setter idt_loaded := ltac:(setter).
#[export] Instance color_flag_upd : Setter color_flag := ltac:(setter).
#[export] Instance master_mask_upd : Setter master_mask := ltac:(setter).
#[export] Instance slave_mask_upd : Setter slave_mask := ltac:(setter).

(** filesystem_driver.c: the three pointers into the file system module, and the module the boot loader placed at [mod_lo, mod_hi). *)
Record fs_t := mk_fs {
  casted_block : Z;
  node_list : Z;
  data_list : Z;
  mod_lo : Z;
  mod_hi : Z;
  mod_bytes : gmap Z Z;
}.
#[export] Instance eta_fs : Eta fs_t := fun r =>
  mk_fs (casted_block r) (node_list r) (data_list r) (mod_lo r) (mod_hi r) (mod_bytes
    r).
#[export] Instance casted_block_upd : Setter casted_block := ltac:(setter).
#[export] Instance node_list_upd : Setter node_list := ltac:(setter).
#[export] Instance data_list_upd : Setter data_list := ltac:(setter).
#[export] Instance mod_lo_upd : Setter mod_lo := ltac:(setter).
#[export] Instance mod_hi_upd : Setter mod_hi := ltac:(setter).
#[export] Instance mod_bytes_upd : Setter mod_bytes := ltac:(setter).

(** What a device can raise. *)
Inductive irq := IrqTimer | IrqKey (scan : Z) | IrqRtc.

(** The processor and the devices: interrupt flag, stack registers
    (of the code an interrupt finds), task state segment, bytes sent to ports (latest first), the byte the keyboard controller holds, and the interrupts the devices will raise. *)
Record hw_t := mk_hw {
  eflags_if : bool;
  cpu_ss : Z;
  cpu_esp : Z;
  cpu_ebp : Z;
  cpu_ds : Z;
  tss : tss_t;
  port_trace : list (Z * Z);
  ps2_data : Z;
  pending : list irq;
}.
#[export] Instance eta_hw : Eta hw_t := fun r =>
  mk_hw (eflags_if r) (cpu_ss r) (cpu_esp r) (cpu_ebp r) (cpu_ds r) (tss r) (port_trace r) (ps2_data
    r) (pending r).
#[export] Instance eflags_if_upd : Setter eflags_if := ltac:(setter).
#[export] Instance cpu_ss_upd : Setter cpu_ss := ltac:(setter).
#[export] Instance cpu_esp_upd : Setter cpu_esp := ltac:(setter).
#[export] Instance cpu_ebp_upd : Setter cpu_ebp := ltac:(setter).
#[export] Instance cpu_ds_upd : Setter cpu_ds := ltac:(setter).
#[export] Instance tss_upd : Setter tss := ltac:(setter).
#[export] Instance port_trace_upd : Setter port_trace := ltac:(setter).
#[export] Instance ps2_data_upd : Setter ps2_data := ltac:(setter).
#[export] Instance pending_upd : Setter pending := ltac:(setter).

(** The whole state; [s_mem] is the physical memory, an absent address holds 0. *)
Record kstate := mk_kstate {
  s_scr : scr_t;
  s_proc : proc_t;
  s_pag : pag_t;
  s_sched : sched_t;
  s_term : term_t;
  s_kbd : kbd_t;
  s_rtc : rtc_t;
  s_irq : irq_t;
  s_fs : fs_t;
  s_hw : hw_t;
  s_mem : gmap Z Z;
}.
#[export] Instance eta_kstate : Eta kstate := fun r =>
  mk_kstate (s_scr r) (s_proc r) (s_pag r) (s_sched r) (s_term r) (s_kbd r) (s_rtc r)
    (s_irq r) (s_fs r) (s_hw r) (s_mem r).
#[export] Instance s_scr_upd : Setter s_scr := ltac:(setter).
#[export] Instance s_proc_upd : Setter s_proc := ltac:(setter).
#[export] Instance s_pag_upd : Setter s_pag := ltac:(setter).
#[export] Instance s_sched_upd : Setter s_sched := ltac:(setter).
#[export] Instance s_term_upd : Setter s_term := ltac:(setter).
#[export] Instance s_kbd_upd : Setter s_kbd := ltac:(setter).
#[export] Instance s_rtc_upd : Setter s_rtc := ltac:(setter).
#[export] Instance s_irq_upd : Setter s_irq := ltac:(setter).
#[export] Instance s_fs_upd : Setter s_fs := ltac:(setter).
#[export] Instance s_hw_upd : Setter s_hw := ltac:(setter).
#[export] Instance s_mem_upd : Setter s_mem := ltac:(setter).
