(* ===== verification/Monad.v ===== *)
(** * The kernel monad

    A kernel routine is a function from the state to an outcome: it returns a
    value, or control leaves the routine for good ([Stop]). *)
From S2P Require Import Prelude State.

Inductive fault :=
  | OutOfBounds          (* access outside a C object *)
  | PageFault (va : Z)   (* address not mapped by the page tables *)
  | StaleTlb             (* access after a table change, before cr3 is loaded *)
  | NullCall             (* call through a table that was never filled *)
  | DivideError
  | GeneralProtection.   (* a selector without a segment of the right kind *)

Inductive stop :=
  | Fault (f : fault)
  | Iret (entry : Z)     (* the processor enters a user program *)
  | Resume (esp ebp : Z) (* it continues the kernel context saved there *)
  | ExecuteReturns (r : Z) (* it continues the parent, whose [execute] returns [r] *)
  | Hang                 (* [while (1) {}], or spinning with interrupts off *)
  | Blocked.             (* spinning, and no device will raise an interrupt *)

Inductive out (A : Type) :=
  | Ret (a : A) (s : kstate)
  | Stop (w : stop) (s : kstate).
Arguments Ret {A} a s.
Arguments Stop {A} w s.

Definition M (A : Type) := kstate -> out A.

Definition ret {A} (a : A) : M A := fun s => Ret a s.
Definition bind {A B} (m : M A) (f : A -> M B) : M B := fun s =>
  match m s with Ret a s' => f a s' | Stop w s' => Stop w s' end.
Definition stop_with {A} (w : stop) : M A := fun s => Stop w s.
Definition gets {T} (f : kstate -> T) : M T := fun s => Ret (f s) s.
Definition modify (f : kstate -> kstate) : M unit := fun s => Ret tt (f s).
Definition of_opt {A} (f : fault) (o : option A) : M A :=
  match o with Some a => ret a | None => stop_with (Fault f) end.
Definition when (b : bool) (m : M unit) : M unit := if b then m else ret tt.

Notation "x <- m ;; k" := (bind m (fun x => k))
  (at level 100, m at next level, right associativity) : kernel_scope.
Notation "m ;; k" := (bind m (fun _ => k))
  (at level 100, right associativity) : kernel_scope.
#[global] Open Scope kernel_scope.

(** One array cell: [arr[i]] as a value and as a target. *)
Definition aget {A} (l : list A) (i : Z) : M A := of_opt OutOfBounds (lget l i).
Definition aget2 {A} (l : list (list A)) (i j : Z) : M A :=
  of_opt OutOfBounds (lget2 l i j).
Definition aset {A} (l : list A) (i : Z) (v : A) : M (list A) :=
  of_opt OutOfBounds (lset l i v).
Definition aset2 {A} (l : list (list A)) (i j : Z) (v : A) : M (list (list A)) :=
  of_opt OutOfBounds (lset2 l i j v).

(** [for (i = a; n times; i += d) body(i)] *)
Fixpoint for_step (n : nat) (a d : Z) (body : Z -> M unit) : M unit :=
  match n with
  | O => ret tt
  | S n => body a ;; for_step n (a + d) d body
  end.

(** [for (i = a; i < b; i++) body(i)] *)
Definition for_up (a b : Z) (body : Z -> M unit) : M unit :=
  for_step (Z.to_nat (b - a)) a 1 body.

(** ** Weakest preconditions

    [wp m Q s]: run from [s], [m] returns, with a value and a state in [Q]. *)

Definition wp {A} (m : M A) (Q : A -> kstate -> Prop) (s : kstate) : Prop :=
  match m s with Ret a s' => Q a s' | Stop _ _ => False end.

Section wp_rules.
Context {A B : Type}.
Implicit Types (m : M A) (Q : A -> kstate -> Prop) (s : kstate).

Lemma wp_ret (a : A) Q s : Q a s -> wp (ret a) Q s.
Proof. done. Qed.

Lemma wp_bind m (f : A -> M B) (Q : B -> kstate -> Prop) s :
  wp m (fun a s' => wp (f a) Q s') s -> wp (bind m f) Q s.
Proof. unfold wp, bind. by destruct (m s). Qed.

Lemma wp_mono m Q Q' s :
  wp m Q s -> (forall a s', Q a s' -> Q' a s') -> wp m Q' s.
Proof. unfold wp. destruct (m s); eauto. Qed.

Lemma wp_gets (f : kstate -> A) Q s : Q (f s) s -> wp (gets f) Q s.
Proof. done. Qed.

Lemma wp_modify f (Q : unit -> kstate -> Prop) s : Q tt (f s) -> wp (modify f) Q s.
Proof. done. Qed.

Lemma wp_of_opt f (o : option A) a Q s : o = Some a -> Q a s -> wp (of_opt f o) Q s.
Proof. by intros ->. Qed.

Lemma wp_and m Q Q' s : wp m Q s -> wp m Q' s -> wp m (fun a s' => Q a s' /\ Q' a s') s.
Proof. unfold wp. destruct (m s); naive_solver. Qed.

Lemma wp_Ret m Q s : wp m Q s <-> exists a s', m s = Ret a s' /\ Q a s'.
Proof.
  unfold wp. destruct (m s) as [a s'|w s']; split.
  - eauto.
  - intros (?&?&[= <- <-]&?). done.
  - done.
  - by intros (?&?&?&?).
Qed.
End wp_rules.

Lemma wp_aget {A} (l : list A) i Q s :
  0 <= i < Z.of_nat (length l) ->
  (forall v, lget l i = Some v -> Q v s) -> wp (aget l i) Q s.
Proof.
  intros Hi HQ. destruct (lget_Some l i Hi) as [v Hv].
  eapply wp_of_opt; [done|]. by apply HQ.
Qed.

Lemma wp_aset {A} (l : list A) i v Q s :
  0 <= i < Z.of_nat (length l) ->
  Q (<[Z.to_nat i := v]> l) s -> wp (aset l i v) Q s.
Proof. intros Hi HQ. eapply wp_of_opt; [by apply lset_Some|done]. Qed.

Lemma wp_for_step n a d body (I : nat -> kstate -> Prop) s :
  I O s ->
  (forall k s, (k < n)%nat -> I k s ->
    wp (body (a + Z.of_nat k * d)) (fun _ => I (S k)) s) ->
  wp (for_step n a d body) (fun _ => I n) s.
Proof.
  revert a I s. induction n as [|n IH]; intros a I s HI Hb; [done|].
  cbn [for_step]. apply wp_bind. eapply wp_mono.
  { replace a with (a + Z.of_nat 0 * d) by lia. apply Hb; [lia|done]. }
  cbv beta. intros _ s' HI'. apply (IH (a + d) (fun k => I (S k))); [done|].
  intros k s1 Hk HI1. replace (a + d + Z.of_nat k * d) with (a + Z.of_nat (S k) * d) by lia.
  apply Hb; [lia|done].
Qed.

(** Invariants indexed by the loop variable. *)
Lemma wp_for_up a b body (I : Z -> kstate -> Prop) s :
  a <= b -> I a s ->
  (forall i s, a <= i < b -> I i s -> wp (body i) (fun _ => I (i + 1)) s) ->
  wp (for_up a b body) (fun _ => I b) s.
Proof.
  intros Hab HI Hb. unfold for_up.
  assert (Hb' : forall (_ : unit) s', I (a + Z.of_nat (Z.to_nat (b - a)) * 1) s' -> I b s').
  { intros _ s'. by replace (a + Z.of_nat (Z.to_nat (b - a)) * 1) with b by lia. }
  eapply wp_mono; [|exact Hb'].
  apply (wp_for_step _ a 1 body (fun k => I (a + Z.of_nat k * 1))).
  { by replace (a + Z.of_nat 0 * 1) with a by lia. }
  intros k s' Hk HI'. eapply wp_mono; [apply Hb; [lia|done]|].
  cbv beta. intros _ s1 H. by replace (a + Z.of_nat (S k) * 1) with (a + Z.of_nat k * 1 + 1) by lia.
Qed.

(** [stops m Q s]: run from [s], [m] leaves for good, in a way and a state in
    [Q]. *)
Definition stops {A} (m : M A) (Q : stop -> kstate -> Prop) (s : kstate) : Prop :=
  match m s with Ret _ _ => False | Stop w s' => Q w s' end.

Lemma stops_bind {A B} (m : M A) (f : A -> M B) Q s :
  wp m (fun a s' => stops (f a) Q s') s -> stops (bind m f) Q s.
Proof. unfold wp, stops, bind. by destruct (m s). Qed.
Lemma stops_stop {A} w (Q : stop -> kstate -> Prop) s : Q w s -> stops (@stop_with A w) Q s.
Proof. done. Qed.
Lemma stops_mono {A} (m : M A) (Q Q' : stop -> kstate -> Prop) s :
  stops m Q s -> (forall w s', Q w s' -> Q' w s') -> stops m Q' s.
Proof. unfold stops. destruct (m s); eauto. Qed.
Lemma stops_Stop {A} (m : M A) Q s : stops m Q s <-> exists w s', m s = Stop w s' /\ Q w s'.
Proof.
  unfold stops. destruct (m s) as [a s'|w s']; split.
  - done.
  - by intros (?&?&?&?).
  - eauto.
  - intros (?&?&[= <- <-]&?). done.
Qed.

(** [leads R m s]: the outcome of [m] from [s] is in [R]. *)
Definition leads {A} (R : out A -> Prop) (m : M A) (s : kstate) : Prop := R (m s).

Lemma leads_bind {A B} R (m : M A) (f : A -> M B) s :
  wp m (fun a s' => leads R (f a) s') s -> leads R (bind m f) s.
Proof. unfold wp, leads, bind. by destruct (m s). Qed.

(** Step through a routine: [bind] and the primitive commands. *)
Ltac wp_pure :=
  lazymatch goal with
  | |- wp (bind _ _) _ _ => apply wp_bind
  | |- stops (bind _ _) _ _ => apply stops_bind
  | |- leads _ (bind _ _) _ => apply leads_bind
  | |- stops (stop_with _) _ _ => apply stops_stop
  | |- wp (ret _) _ _ => apply wp_ret
  | |- wp (gets _) _ _ => apply wp_gets
  | |- wp (modify _) _ _ => apply wp_modify
  | |- wp (when true _) _ _ => unfold when
  | |- wp (when false _) _ _ => unfold when
  | |- wp (of_opt _ (Some _)) _ _ => eapply wp_of_opt; [reflexivity|]
  end; cbv beta.
Ltac wp_pures := repeat wp_pure.

(** ** The processor and the ports *)

Section hardware.
Context {P : Platform}.

Definition hw_set (f : hw_t -> hw_t) : M unit := modify (set s_hw f).

Definition cli : M unit := hw_set (set eflags_if (fun _ => false)).
Definition sti : M unit := hw_set (set eflags_if (fun _ => true)).
Definition cli_and_save : M bool :=
  flags <- gets (fun s => eflags_if (s_hw s)) ;; cli ;; ret flags.
Definition restore_flags (flags : bool) : M unit :=
  hw_set (set eflags_if (fun _ => flags)).

Definition outb (data port : Z) : M unit :=
  hw_set (set port_trace (cons (u16 port, u8 data))).

Definition PS2PORT : Z := 0x60.
Definition inb (port : Z) : M Z :=
  h <- gets s_hw ;;
  ret (if port =? PS2PORT then u8 (ps2_data h)
       else u8 (port_in (port_trace h) (u16 port))).

(** A loop [while (cond) {}]: the interrupts arrive meanwhile. *)
Fixpoint spin (fuel : nat) (cond : kstate -> bool) (on_irq : irq -> M unit) : M unit :=
  c <- gets cond ;;
  if c then
    h <- gets s_hw ;;
    if eflags_if h then
      match fuel, pending h with
      | S fuel, ev :: rest =>
          hw_set (set pending (fun _ => rest)) ;; on_irq ev ;; spin fuel cond on_irq
      | _, _ => stop_with Blocked
      end
    else stop_with Hang
  else ret tt.

Definition spin_while (cond : kstate -> bool) (on_irq : irq -> M unit) : M unit :=
  n <- gets (fun s => length (pending (s_hw s))) ;; spin n cond on_irq.
End hardware.

(** ** Memory *)

(** The page walk of an IA-32 processor with 4 MB pages enabled, over a page
    directory whose only page table is the one at [pt_addr]. *)
Definition translate (pd pt : list Z) (pt_addr va : Z) : option Z :=
  pde ← lget pd (Z.shiftr (u32 va) 22);
  if negb (Z.testbit pde 0) then None
  else if Z.testbit pde 7 then
    Some (Z.lor (Z.land pde 0xFFC00000) (Z.land (u32 va) 0x3FFFFF))
  else if Z.land pde 0xFFFFF000 =? pt_addr then
    pte ← lget pt (Z.land (Z.shiftr (u32 va) 12) 0x3FF);
    if negb (Z.testbit pte 0) then None
    else Some (Z.lor (Z.land pte 0xFFFFF000) (Z.land (u32 va) 0xFFF))
  else None.

Definition mem_get (m : gmap Z Z) (pa : Z) : Z := default 0 (m !! pa).

Section memory.
Context {P : Platform}.

(** The physical address of [va] in a state. *)
Definition phys (s : kstate) (va : Z) : option Z :=
  if paging_on (s_pag s) then
    translate (process_pages (s_pag s)) (process_tables (s_pag s)) process_tables_addr va
  else Some (u32 va).

Definition mmu (va : Z) : M Z :=
  s <- gets id ;;
  if tlb_stale (s_pag s) then stop_with (Fault StaleTlb)
  else of_opt (PageFault va) (phys s va).

Definition load8 (va : Z) : M Z :=
  pa <- mmu va ;; gets (fun s => mem_get (s_mem s) pa).
Definition store8 (va v : Z) : M unit :=
  pa <- mmu va ;; modify (set s_mem (<[pa := u8 v]>)).

Fixpoint store_bytes (va : Z) (bs : list Z) : M unit :=
  match bs with
  | [] => ret tt
  | b :: bs => store8 va b ;; store_bytes (va + 1) bs
  end.

Fixpoint load_bytes (va : Z) (n : nat) : M (list Z) :=
  match n with
  | O => ret []
  | S n => b <- load8 va ;; bs <- load_bytes (va + 1) n ;; ret (b :: bs)
  end.

(** A NUL-terminated string in memory, without its NUL. An absent address
    holds 0, so one more byte than the map has entries is always enough. *)
Fixpoint load_cstr_fuel (fuel : nat) (va : Z) : M (list Z) :=
  match fuel with
  | O => stop_with (Fault OutOfBounds)
  | S fuel =>
      b <- load8 va ;;
      if b =? 0 then ret [] else bs <- load_cstr_fuel fuel (va + 1) ;; ret (b :: bs)
  end.
Definition load_cstr (va : Z) : M (list Z) :=
  n <- gets (fun s => size (s_mem s)) ;; load_cstr_fuel (S n) va.
End memory.
