(* ===== verification/Logic.v ===== *)
(** * Reasoning about kernel routines

    Simplification of record updates, rules for the memory and the ports, and
    the frame of the routines that only draw on the screen. *)
From S2P Require Import Prelude State Monad.

(** ** Record updates

    [upd] rewrites a field read from an updated record, in the goal. The
    equation is proved for a variable record, so that its conversion does not
    unfold the nested updates of the actual one. *)
Ltac upd_eq p q f tac :=
  let H := fresh "H" in
  first [ constr_eq p q; assert (H : forall r, p (set q f r) = f (p r)) by (intros; reflexivity)
        | assert (H : forall r, p (set q f r) = p r) by (intros; reflexivity) ];
  tac H; clear H; cbv beta.
Ltac upd_step :=
  match goal with
  | |- context [?p (set ?q ?f ?r)] =>
      is_const p; upd_eq p q f ltac:(fun H => rewrite !H)
  end.
Ltac upd := repeat upd_step.
Ltac upd_in H :=
  repeat match type of H with
  | context [?p (set ?q ?f ?r)] =>
      is_const p; upd_eq p q f ltac:(fun E => rewrite !E in H; cbv beta in H)
  end.

(** ** Total reads of an array that is long enough *)

Section cells.
Context {A : Type}.
Implicit Types (l : list A).

Lemma lget_insert l i j v :
  0 <= i < Z.of_nat (length l) ->
  lget (<[Z.to_nat i := v]> l) j = if decide (i = j) then Some v else lget l j.
Proof.
  intros Hi. destruct (decide (i = j)) as [<-|Hne].
  - apply (lget_lset_eq l i v). by apply lset_Some.
  - apply (lget_lset_ne l i j v); [by apply lset_Some|done].
Qed.

Lemma lset_alter l i f v :
  lget l i = Some v -> lset l i (f v) = Some (alter f (Z.to_nat i) l).
Proof.
  intros Hv. pose proof (lget_range l i v Hv).
  rewrite lset_Some by done. f_equal. symmetry.
  unfold lget in Hv. rewrite decide_True in Hv by lia.
  apply list_eq. intros k. destruct (decide (k = Z.to_nat i)) as [->|Hne].
  - rewrite list_lookup_alter_eq, Hv, list_lookup_insert_eq by lia. done.
  - rewrite list_lookup_alter_ne, list_lookup_insert_ne by done. done.
Qed.

Lemma lget_alter l i j f :
  0 <= i -> 0 <= j ->
  lget (alter f (Z.to_nat i) l) j = if decide (i = j) then f <$> lget l j else lget l j.
Proof.
  intros Hi Hj. unfold lget. rewrite !(decide_True (P := 0 <= _)) by lia.
  case_decide as Hij; [subst j|].
  - apply list_lookup_alter_eq.
  - apply list_lookup_alter_ne. lia.
Qed.
End cells.

(** ** One cell of an array of arrays *)

Section rows.
Context {A : Type}.
Implicit Types (l : list (list A)).

Definition row_set (t j : Z) (v : A) l : list (list A) :=
  alter (<[Z.to_nat j := v]>) (Z.to_nat t) l.

Lemma lget2_row l t j v : lget2 l t j = Some v ->
  exists r, lget l t = Some r /\ lget r j = Some v.
Proof. unfold lget2. destruct (lget l t) as [r|]; [|done]. eauto. Qed.

Lemma lset2_row_set l t j w v :
  lget2 l t j = Some w -> lset2 l t j v = Some (row_set t j v l).
Proof.
  intros (r & Hr & Hj)%lget2_row. unfold lset2. rewrite Hr. cbn.
  rewrite lset_Some by (by eapply lget_range). cbn. by apply lset_alter.
Qed.

Lemma lget2_row_set l t j w v t' j' :
  lget2 l t j = Some w -> 0 <= t' -> 0 <= j' ->
  lget2 (row_set t j v l) t' j' =
    if decide (t = t' /\ j = j') then Some v else lget2 l t' j'.
Proof.
  intros (r & Hr & Hj)%lget2_row Ht Hj'. unfold lget2, row_set.
  rewrite lget_alter by (done || by eapply lget_range).
  destruct (decide (t = t')) as [<-|Hne].
  - rewrite Hr. cbn. rewrite lget_insert by (by eapply lget_range).
    repeat case_decide; try done; intuition congruence.
  - rewrite decide_False; [done|]. tauto.
Qed.
End rows.

(** The kernel state a wait-free routine leaves differs by field updates. *)
Ltac draws_tac := constructor; upd; done.

Lemma bind_Ret {A B} (m : M A) (f : A -> M B) s a s' :
  m s = Ret a s' -> bind m f s = f a s'.
Proof. unfold bind. by intros ->. Qed.
Lemma wp_bind_Ret {A B} (m : M A) (f : A -> M B) Q s a s' :
  m s = Ret a s' -> wp (f a) Q s' -> wp (bind m f) Q s.
Proof. intros H HQ. unfold wp. by rewrite (bind_Ret m f s a s' H). Qed.
Lemma stops_bind_Ret {A B} (m : M A) (f : A -> M B) Q s a s' :
  m s = Ret a s' -> stops (f a) Q s' -> stops (bind m f) Q s.
Proof. intros H HQ. unfold stops. by rewrite (bind_Ret m f s a s' H). Qed.
Lemma stops_stop_first {A B} (m : M A) (f : A -> M B) Q s : stops m Q s -> stops (bind m f) Q s.
Proof. unfold stops, bind. by destruct (m s). Qed.
Lemma of_opt_Some {A} e (o : option A) a s : o = Some a -> of_opt e o s = Ret a s.
Proof. by intros ->. Qed.

Section rules.
Context {P : Platform}.
Implicit Types (s : kstate).

Lemma wp_aget_Some {A} (l : list A) i v Q s :
  lget l i = Some v -> Q v s -> wp (aget l i) Q s.
Proof. intros. by eapply wp_of_opt. Qed.

(** ** Memory *)

(** The [n] addresses from [a] on can be accessed. *)
Definition mapped s (a n : Z) : Prop :=
  tlb_stale (s_pag s) = false /\
  forall o, 0 <= o < n -> is_Some (phys s (a + o)).

Lemma mapped_sub s a n b k :
  mapped s a n -> a <= b -> b + k <= a + n -> mapped s b k.
Proof.
  intros [Ht Hm] ??. split; [done|]. intros o Ho.
  replace (b + o) with (a + (b - a + o)) by lia. apply Hm. lia.
Qed.

Lemma mapped_pag s s' a n : s_pag s' = s_pag s -> mapped s a n -> mapped s' a n.
Proof. unfold mapped, phys. by intros ->. Qed.

Lemma wp_mmu s va pa (Q : Z -> kstate -> Prop) :
  tlb_stale (s_pag s) = false -> phys s va = Some pa -> Q pa s -> wp (mmu va) Q s.
Proof.
  intros Ht Hp HQ. unfold mmu. wp_pures. unfold id. rewrite Ht.
  by eapply wp_of_opt.
Qed.

Lemma wp_store8 s va v (Q : unit -> kstate -> Prop) :
  mapped s va 1 ->
  (forall pa, phys s va = Some pa -> Q tt (set s_mem (<[pa := u8 v]>) s)) ->
  wp (store8 va v) Q s.
Proof.
  intros [Ht Hm] HQ. destruct (Hm 0) as [pa Hpa]; [lia|].
  rewrite Z.add_0_r in Hpa.
  unfold store8. wp_pure. eapply wp_mmu; [done|done|]. wp_pures. by apply HQ.
Qed.

Lemma wp_load8 s va (Q : Z -> kstate -> Prop) :
  mapped s va 1 ->
  (forall pa, phys s va = Some pa -> Q (mem_get (s_mem s) pa) s) -> wp (load8 va) Q s.
Proof.
  intros [Ht Hm] HQ. destruct (Hm 0) as [pa Hpa]; [lia|].
  rewrite Z.add_0_r in Hpa.
  unfold load8. wp_pure. eapply wp_mmu; [done|done|]. wp_pures. by apply HQ.
Qed.

(** The [n] addresses from [a] on are the physical ones from [pa] on. *)
Definition linear s (a n pa : Z) : Prop :=
  tlb_stale (s_pag s) = false /\
  forall o, 0 <= o < n -> phys s (a + o) = Some (pa + o).

Lemma linear_mapped s a n pa : linear s a n pa -> mapped s a n.
Proof. intros [Ht Hl]. split; [done|]. intros o Ho. rewrite Hl by done. by eexists. Qed.

Lemma linear_pag s s' a n pa : s_pag s' = s_pag s -> linear s a n pa -> linear s' a n pa.
Proof. unfold linear, phys. by intros ->. Qed.

Lemma wp_store8_linear s a n pa o v (Q : unit -> kstate -> Prop) :
  linear s a n pa -> 0 <= o < n ->
  Q tt (set s_mem (<[pa + o := u8 v]>) s) -> wp (store8 (a + o) v) Q s.
Proof.
  intros [Ht Hl] Ho HQ. apply wp_store8.
  - split; [done|]. intros o' ?. replace (a + o + o') with (a + o) by lia.
    rewrite Hl by done. by eexists.
  - intros p. rewrite Hl by done. by intros [= <-].
Qed.

Lemma wp_load8_linear s a n pa o (Q : Z -> kstate -> Prop) :
  linear s a n pa -> 0 <= o < n ->
  Q (mem_get (s_mem s) (pa + o)) s -> wp (load8 (a + o)) Q s.
Proof.
  intros [Ht Hl] Ho HQ. apply wp_load8.
  - split; [done|]. intros o' ?. replace (a + o + o') with (a + o) by lia.
    rewrite Hl by done. by eexists.
  - intros p. rewrite Hl by done. by intros [= <-].
Qed.

Lemma mem_get_insert m a b v :
  mem_get (<[a := v]> m) b = if decide (a = b) then v else mem_get m b.
Proof.
  unfold mem_get. case_decide as H; [subst; by rewrite lookup_insert_eq|].
  by rewrite lookup_insert_ne.
Qed.

(** ** Ports and flags *)

Lemma wp_inb port s (Q : Z -> kstate -> Prop) :
  (forall b, 0 <= b < 256 -> Q b s) -> wp (inb port) Q s.
Proof.
  intros HQ. unfold inb. wp_pures. apply HQ. case_match; apply u8_range.
Qed.

(** ** Frames

    [draws s s']: going from [s] to [s'], only the screen, the memory, the
    processor's state and the flag [key_flag] of the keyboard changed. *)
Record draws s s' : Prop := {
  draws_proc : s_proc s' = s_proc s;
  draws_pag : s_pag s' = s_pag s;
  draws_sched : s_sched s' = s_sched s;
  draws_term : s_term s' = s_term s;
  draws_kbd : set key_flag (fun _ => 0) (s_kbd s') = set key_flag (fun _ => 0) (s_kbd s);
  draws_rtc : s_rtc s' = s_rtc s;
  draws_irq : s_irq s' = s_irq s;
  draws_fs : s_fs s' = s_fs s;
  draws_video : video_mem (s_scr s') = video_mem (s_scr s);
  draws_pending : pending (s_hw s') = pending (s_hw s);
  draws_tss : tss (s_hw s') = tss (s_hw s);
}.

#[export] Instance draws_refl : Reflexive draws.
Proof. by constructor. Qed.
#[export] Instance draws_trans : Transitive draws.
Proof. intros s1 s2 s3 [] []. constructor; congruence. Qed.

Lemma draws_linear s s' a n pa : draws s s' -> linear s a n pa -> linear s' a n pa.
Proof. intros []. by apply linear_pag. Qed.
Lemma draws_mapped s s' a n : draws s s' -> mapped s a n -> mapped s' a n.
Proof. intros [] . by apply mapped_pag. Qed.

(** [quiet s s']: not even the screen changed. *)
Record quiet s s' : Prop := {
  quiet_draws : draws s s';
  quiet_scr : s_scr s' = s_scr s;
  quiet_mem : s_mem s' = s_mem s;
  quiet_kbd : s_kbd s' = s_kbd s;
}.
#[export] Instance quiet_refl : Reflexive quiet.
Proof. by constructor. Qed.
#[export] Instance quiet_trans : Transitive quiet.
Proof. intros s1 s2 s3 [] []. constructor; [by etransitivity|congruence..]. Qed.

Definition quietly {A} (m : M A) : Prop := forall s, wp m (fun _ s' => quiet s s') s.

Lemma wp_quiet {A} (m : M A) (Q : A -> kstate -> Prop) s :
  quietly m -> (forall a s', quiet s s' -> Q a s') -> wp m Q s.
Proof. intros Hm HQ. eapply wp_mono; [apply Hm|]. auto. Qed.

Lemma quietly_bind {A B} (m : M A) (f : A -> M B) :
  quietly m -> (forall a, quietly (f a)) -> quietly (bind m f).
Proof.
  intros Hm Hf s. apply wp_bind. eapply wp_mono; [apply Hm|].
  cbv beta. intros a s' H1. eapply wp_mono; [apply Hf|].
  cbv beta. intros _ s2 H2. by transitivity s'.
Qed.
Lemma quietly_ret {A} (a : A) : quietly (ret a).
Proof. intros s. apply wp_ret. reflexivity. Qed.
Lemma quietly_gets {A} (f : kstate -> A) : quietly (gets f).
Proof. intros s. apply wp_gets. reflexivity. Qed.
Lemma quietly_outb v p : quietly (outb v p).
Proof. intros s. apply wp_modify. constructor; upd; [draws_tac|done..]. Qed.
Lemma quietly_inb p : quietly (inb p).
Proof. intros s. apply wp_inb. reflexivity. Qed.
Lemma quietly_cli : quietly cli.
Proof. intros s. apply wp_modify. constructor; upd; [draws_tac|done..]. Qed.
Lemma quietly_sti : quietly sti.
Proof. intros s. apply wp_modify. constructor; upd; [draws_tac|done..]. Qed.
Lemma quietly_cli_and_save : quietly cli_and_save.
Proof.
  unfold cli_and_save. apply quietly_bind; [apply quietly_gets|intros b].
  apply quietly_bind; [apply quietly_cli|intros _; apply quietly_ret].
Qed.
Lemma quietly_restore_flags b : quietly (restore_flags b).
Proof. intros s. apply wp_modify. constructor; upd; [draws_tac|done..]. Qed.
End rules.

Create HintDb kernel.
#[export] Hint Extern 1 (draws _ _) => reflexivity : kernel.
#[export] Hint Resolve quietly_bind quietly_ret quietly_gets quietly_outb quietly_inb
  quietly_cli quietly_sti quiet_draws : kernel.

(** A routine that only talks to devices. *)
Ltac quiet_tac := repeat (case_match || intro || auto with kernel; apply quietly_bind); eauto with kernel.

(** ** Runs of bytes in memory *)

(** The memory after the bytes [bs] are stored from [pa] on. *)
Fixpoint put_bytes (pa : Z) (bs : list Z) (m : gmap Z Z) : gmap Z Z :=
  match bs with
  | [] => m
  | b :: bs => put_bytes (pa + 1) bs (<[pa := u8 b]> m)
  end.

Lemma put_bytes_get bs : forall pa m x,
  mem_get (put_bytes pa bs m) x =
    match lget bs (x - pa) with Some b => u8 b | None => mem_get m x end.
Proof.
  induction bs as [|b bs IH]; intros pa m x; cbn [put_bytes].
  { unfold lget. by case_decide. }
  rewrite IH, mem_get_insert. unfold lget. repeat case_decide; try lia; subst.
  - replace (Z.to_nat (x - (pa + 1))) with (pred (Z.to_nat (x - pa))) by lia.
    destruct (Z.to_nat (x - pa)) as [|n] eqn:E; [lia|]. done.
  - by rewrite Z.sub_diag.
Qed.

Lemma put_bytes_snoc bs b : forall pa m,
  put_bytes pa (bs ++ [b]) m = <[pa + Z.of_nat (length bs) := u8 b]> (put_bytes pa bs m).
Proof.
  induction bs as [|c bs IH]; intros pa m; cbn [put_bytes app length]; [by rewrite Z.add_0_r|].
  rewrite IH. by replace (pa + 1 + Z.of_nat (length bs)) with (pa + Z.of_nat (S (length bs))) by lia.
Qed.

(** [n] bytes from [pa] on. *)
Definition mem_bytes (m : gmap Z Z) (pa : Z) (n : nat) : list Z :=
  map (fun k => mem_get m (pa + Z.of_nat k)) (seq 0 n).

Lemma mem_bytes_S m pa n : mem_bytes m pa (S n) = mem_get m pa :: mem_bytes m (pa + 1) n.
Proof.
  unfold mem_bytes. cbn [seq map]. f_equal; [f_equal; lia|].
  rewrite <-seq_shift, map_map. apply map_ext. intros k. f_equal. lia.
Qed.

Section bytes.
Context {P : Platform}.
Implicit Types (s : kstate).

Lemma wp_store_bytes_linear s a n pa bs : forall o (Q : unit -> kstate -> Prop),
  linear s a n pa -> 0 <= o -> o + Z.of_nat (length bs) <= n ->
  Q tt (set s_mem (put_bytes (pa + o) bs) s) -> wp (store_bytes (a + o) bs) Q s.
Proof.
  revert s. induction bs as [|b bs IH]; intros s o Q L Ho Hn HQ; cbn [store_bytes length] in *.
  - apply wp_ret. cbn [put_bytes] in HQ. by destruct s.
  - wp_pure. eapply wp_store8_linear; [exact L|lia|].
    replace (a + o + 1) with (a + (o + 1)) by lia. apply IH; [|lia|lia|].
    + by eapply linear_pag; [|exact L].
    + cbn [put_bytes] in HQ. replace (pa + (o + 1)) with (pa + o + 1) by lia. by destruct s.
Qed.

Lemma wp_load_bytes_linear s a n pa k : forall o (Q : list Z -> kstate -> Prop),
  linear s a n pa -> 0 <= o -> o + Z.of_nat k <= n ->
  Q (mem_bytes (s_mem s) (pa + o) k) s -> wp (load_bytes (a + o) k) Q s.
Proof.
  induction k as [|k IH]; intros o Q L Ho Hn HQ; cbn [load_bytes]; [exact HQ|].
  wp_pure. eapply wp_load8_linear; [exact L|lia|].
  wp_pure. replace (a + o + 1) with (a + (o + 1)) by lia. apply IH; [done|lia|lia|].
  wp_pure. rewrite mem_bytes_S in HQ. by replace (pa + (o + 1)) with (pa + o + 1) by lia.
Qed.
End bytes.
