(* ===== verification/Strings.v ===== *)
(** * lib.c: strings and numbers

    A [const int8_t*] is the list of the bytes (0 to 255) from the pointer to
    the end of the object it points into; [None] is a read or a write outside
    the object. *)
From S2P Require Import Prelude.

(** ** Definitions *)

Fixpoint strlen (s : list Z) : option Z :=
  match s with
  | [] => None
  | b :: s => if b =? 0 then Some 0 else n ← strlen s; Some (n + 1)
  end.

Fixpoint strncmp_loop (n : nat) (s1 s2 : list Z) : option Z :=
  match n with
  | O => Some 0
  | S n =>
      match s1, s2 with
      | c1 :: s1, c2 :: s2 =>
          if negb (c1 =? c2) || (c1 =? 0) then Some (s8 c1 - s8 c2)
          else strncmp_loop n s1 s2
      | _, _ => None
      end
  end.
Definition strncmp (s1 s2 : list Z) (n : Z) : option Z :=
  strncmp_loop (Z.to_nat (u32 n)) s1 s2.

Fixpoint strcpy (dest src : list Z) : option (list Z) :=
  match dest, src with
  | _ :: dest, c :: src =>
      if c =? 0 then Some (0 :: dest) else d ← strcpy dest src; Some (c :: d)
  | _, _ => None
  end.

(** The first loop reads [src[i]] before it tests [i < n]. *)
Fixpoint strncpy_loop (n : nat) (dest src : list Z) {struct src} : option (list Z) :=
  match src with
  | [] => None
  | c :: src =>
      if c =? 0 then
        if decide (n <= length dest)%nat then Some (replicate n 0 ++ drop n dest) else None
      else
        match n, dest with
        | O, _ => Some dest
        | S n, _ :: dest => d ← strncpy_loop n dest src; Some (c :: d)
        | S _, [] => None
        end
  end.
Definition strncpy (dest src : list Z) (n : Z) : option (list Z) :=
  strncpy_loop (Z.to_nat (u32 n)) dest src.

(** The swap loop of [strrev]; [beg < end] decreases by two. *)
Fixpoint strrev_loop (fuel : nat) (s : list Z) (beg_ end_ : Z) : option (list Z) :=
  match fuel with
  | O => None
  | S fuel =>
      if beg_ <? end_ then
        tmp ← lget s end_;
        b ← lget s beg_;
        s ← lset s end_ b;
        s ← lset s beg_ tmp;
        strrev_loop fuel s (beg_ + 1) (end_ - 1)
      else Some s
  end.
Definition strrev (s : list Z) : option (list Z) :=
  n ← strlen s; strrev_loop (S (length s)) s 0 (n - 1).

(** ["0123456789ABCDEFGHIJKLMNOPQRSTUVWXYZ"] and its NUL. *)
Definition lookup_digits : list Z :=
  [48;49;50;51;52;53;54;55;56;57;65;66;67;68;69;70;71;72;73;74;75;76;77;78;79;80;
   81;82;83;84;85;86;87;88;89;90;0].

(** The digits of [newval], lowest first; the loop divides by [radix], so 33
    rounds are enough for every radix of at least two. *)
Fixpoint itoa_loop (fuel : nat) (newval radix : Z) : option (list Z) :=
  match fuel with
  | O => None
  | S fuel =>
      if newval =? 0 then Some []
      else
        c ← lget lookup_digits (s32 (newval mod radix));
        ds ← itoa_loop fuel (newval / radix) radix;
        Some (c :: ds)
  end.

(** What [itoa] leaves at the start of [buf]: a NUL-terminated string. *)
Definition itoa (value radix : Z) : option (list Z) :=
  if u32 radix =? 0 then None
  else if u32 value =? 0 then Some [48; 0]
  else ds ← itoa_loop 33 (u32 value) (u32 radix); strrev (ds ++ [0]).

(** ** Strings *)

(** [s] holds the string [t]: [t] has no NUL, and a NUL follows it. *)
Definition cstring (s t : list Z) : Prop :=
  Forall (fun c => 0 < c < 256) t /\ exists rest, s = t ++ 0 :: rest.

Lemma strlen_cstring s t : cstring s t -> strlen s = Some (Z.of_nat (length t)).
Proof.
  intros [Ht [rest ->]]. induction Ht as [|c t Hc _ IH]; [done|].
  cbn. rewrite (proj2 (Z.eqb_neq c 0)), IH by lia. cbn. f_equal. lia.
Qed.

Lemma strlen_Some s n :
  Forall (fun c => 0 <= c < 256) s -> strlen s = Some n ->
  cstring s (take (Z.to_nat n) s) /\ 0 <= n < Z.of_nat (length s).
Proof.
  intros Hs. revert n. induction Hs as [|c s Hc Hs IH]; intros n; [done|]. cbn [strlen].
  destruct (Z.eqb_spec c 0) as [->|Hc0].
  { intros [= <-]. split; [|cbn; lia]. split; [constructor|by eexists]. }
  destruct (strlen s) as [m|]; [|done]. intros [= <-].
  destruct (IH m eq_refl) as [[Ht [r Hr]] Hm].
  replace (Z.to_nat (m + 1)) with (S (Z.to_nat m)) by lia. split; [|cbn; lia].
  split; cbn; [constructor; [lia|done]|]. exists r. by rewrite Hr at 1.
Qed.

Lemma strncmp_loop_cstring n s1 s2 t1 t2 :
  cstring s1 t1 -> cstring s2 t2 ->
  exists r, strncmp_loop n s1 s2 = Some r /\ (r = 0 <-> take n t1 = take n t2).
Proof.
  revert s1 s2 t1 t2. induction n as [|n IH]; intros s1 s2 t1 t2 H1 H2.
  { by exists 0. }
  destruct H1 as [H1 [r1 ->]], H2 as [H2 [r2 ->]].
  destruct H1 as [|c1 t1 Hc1 H1], H2 as [|c2 t2 Hc2 H2]; cbn [strncmp_loop app take].
  - by exists 0.
  - rewrite (proj2 (Z.eqb_neq 0 c2)) by lia. cbn.
    eexists. split; [done|]. split; [|done]. unfold s8. intros. exfalso. divlia.
  - rewrite (proj2 (Z.eqb_neq c1 0)) by lia. cbn.
    eexists. split; [done|]. split; [|done]. unfold s8. intros. exfalso. divlia.
  - rewrite (proj2 (Z.eqb_neq c1 0)) by lia. rewrite orb_false_r.
    destruct (Z.eqb_spec c1 c2) as [->|Hne]; cbn.
    + destruct (IH (t1 ++ 0 :: r1) (t2 ++ 0 :: r2) t1 t2) as [r [Hr1 Hr2]].
      * split; eauto.
      * split; eauto.
      * exists r. split; [done|]. rewrite Hr2. split; [by intros ->|by intros [=]].
    + eexists. split; [done|]. rewrite s8_eq_iff by lia. split; [done|by intros [=]].
Qed.

(** The text in a field that a NUL ends only if there is room for it. *)
Fixpoint upto0 (l : list Z) : list Z :=
  match l with
  | [] => []
  | c :: l => if c =? 0 then [] else c :: upto0 l
  end.

Lemma strncmp_loop_field n : forall d t,
  Forall (fun c => 0 <= c < 256) d -> Forall (fun c => 0 < c < 256) t ->
  (n <= length d)%nat -> (length t <= n)%nat ->
  exists r, strncmp_loop n d (t ++ [0]) = Some r /\ (r = 0 <-> upto0 (take n d) = t).
Proof.
  induction n as [|n IH]; intros d t Hd Ht Hdl Htl.
  { destruct t; [|cbn in Htl; lia]. exists 0. by destruct d. }
  destruct Hd as [|c1 d Hc1 Hd]; [cbn in Hdl; lia|].
  destruct Ht as [|c2 t Hc2 Ht]; cbn [strncmp_loop app take upto0 length] in *.
  - destruct (Z.eqb_spec c1 0) as [->|Hne]; cbn; [by exists 0|].
    eexists. split; [done|]. split; [|done]. unfold s8. intros. exfalso. divlia.
  - destruct (Z.eqb_spec c1 c2) as [->|Hne]; cbn [negb orb].
    + rewrite (proj2 (Z.eqb_neq c2 0)) by lia.
      destruct (IH d t) as (r & Hr & Hiff); [done|done|lia|lia|].
      exists r. split; [done|]. rewrite Hiff. split; [by intros ->|by intros [=]].
    + eexists. split; [done|]. rewrite s8_eq_iff by lia. split; [done|].
      case_match; [done|]. by intros [=].
Qed.

Lemma strcpy_cstring dest s t :
  cstring s t -> (length t < length dest)%nat ->
  strcpy dest s = Some (t ++ 0 :: drop (S (length t)) dest).
Proof.
  intros [Ht [r ->]]. revert dest. induction Ht as [|c t Hc Ht IH]; intros [|d dest] Hd;
    cbn in *; try lia; [done|].
  rewrite (proj2 (Z.eqb_neq c 0)) by lia. by rewrite IH by lia.
Qed.

Lemma strncpy_loop_cstring n dest s t :
  cstring s t -> (n <= length dest)%nat ->
  strncpy_loop n dest s =
    Some (take n t ++ replicate (n - length t) 0 ++ drop n dest).
Proof.
  intros [Ht [r ->]]. revert n dest.
  induction Ht as [|c t Hc Ht IH]; intros n dest Hd; cbn [strncpy_loop app].
  - rewrite Z.eqb_refl, decide_True, take_nil by done. cbn. by rewrite Nat.sub_0_r.
  - rewrite (proj2 (Z.eqb_neq c 0)) by lia.
    destruct n as [|n], dest as [|d dest]; cbn in *; try lia; [done|done|].
    by rewrite IH by lia.
Qed.

(** ** Reversal *)

Lemma strrev_loop_spec fuel s b e :
  0 <= b -> e < Z.of_nat (length s) -> e - b + 1 < Z.of_nat fuel ->
  (0 < fuel)%nat ->
  exists s', strrev_loop fuel s b e = Some s' /\ length s' = length s /\
    forall i, lget s' i = if decide (b <= i <= e) then lget s (b + e - i) else lget s i.
Proof.
  revert s b e. induction fuel as [|fuel IH]; intros s b e Hb He Hf Hpos; [lia|].
  cbn [strrev_loop]. destruct (Z.ltb_spec b e) as [Hlt|Hge].
  - destruct (lget_Some s e) as [x Hx]; [lia|]. destruct (lget_Some s b) as [y Hy]; [lia|].
    rewrite Hx. cbn. rewrite Hy. cbn.
    destruct (lset s e y) as [s1|] eqn:E1; [|unfold lset in E1; case_decide; [done|lia]].
    pose proof (lset_length _ _ _ _ E1) as L1. cbn.
    destruct (lset s1 b x) as [s2|] eqn:E2; [|unfold lset in E2; case_decide; [done|lia]].
    pose proof (lset_length _ _ _ _ E2) as L2. cbn.
    destruct (IH s2 (b + 1) (e - 1)) as (s' & -> & Hlen & Hs'); [lia..|].
    exists s'. split; [done|]. split; [congruence|]. intros i. rewrite Hs'.
    destruct (decide (i = b)) as [->|Hib].
    { rewrite decide_False, decide_True by lia.
      rewrite (lget_lset_eq _ _ _ _ E2), <- Hx. f_equal. lia. }
    destruct (decide (i = e)) as [->|Hie].
    { rewrite decide_False, decide_True, (lget_lset_ne _ _ e _ _ E2) by lia.
      rewrite (lget_lset_eq _ _ _ _ E1), <- Hy. f_equal. lia. }
    assert (Hn : forall j, j <> b -> j <> e -> lget s2 j = lget s j).
    { intros j ??. rewrite (lget_lset_ne _ _ j _ _ E2), (lget_lset_ne _ _ j _ _ E1); auto. }
    repeat case_decide; try lia; rewrite Hn by lia; f_equal; lia.
  - exists s. repeat split; try done. intros i. case_decide; [|done]. f_equal. lia.
Qed.

Lemma lget_rev (t : list Z) i :
  0 <= i < Z.of_nat (length t) -> lget (rev t) i = lget t (Z.of_nat (length t) - 1 - i).
Proof.
  intros. unfold lget. rewrite !decide_True by lia.
  rewrite rev_alt. change (rev_append t []) with (reverse t).
  rewrite reverse_lookup by lia. f_equal. lia.
Qed.

Lemma strrev_cstring s t : cstring s t ->
  exists rest, s = t ++ 0 :: rest /\ strrev s = Some (rev t ++ 0 :: rest).
Proof.
  intros Hs. pose proof (strlen_cstring _ _ Hs) as Hl. destruct Hs as [Ht [r ->]].
  exists r. split; [done|]. unfold strrev. rewrite Hl. cbn [mbind option_bind].
  set (s := t ++ 0 :: r) in *.
  assert (Hlen : length s = (length t + S (length r))%nat) by (unfold s; by rewrite length_app).
  destruct (strrev_loop_spec (S (length s)) s 0 (Z.of_nat (length t) - 1))
    as (s' & -> & Hlen' & Hs'); [lia..|].
  f_equal. apply list_eq_lget.
  { by rewrite length_app, length_rev, Hlen', Hlen. }
  intros i Hi. rewrite Hs'. case_decide as Hd.
  - rewrite lget_app_l by (rewrite length_rev; lia). rewrite lget_rev by lia.
    unfold s. rewrite lget_app_l by lia. f_equal; lia.
  - unfold s, lget. rewrite !decide_True by lia.
    rewrite !lookup_app_r by (rewrite ?length_rev; lia). by rewrite length_rev.
Qed.

(** ** Numbers *)

(** The value a digit character stands for, and the value of a numeral, most
    significant digit first. *)
Definition digit_value (c : Z) : Z := if c <=? 57 then c - 48 else c - 55.
Definition parse (radix : Z) (ds : list Z) : Z :=
  fold_left (fun acc c => acc * radix + digit_value c) ds 0.

Definition is_digit (radix c : Z) : Prop :=
  (48 <= c <= 57 \/ 65 <= c <= 90) /\ digit_value c < radix.

Lemma lookup_digits_value i : 0 <= i < 36 ->
  exists c, lget lookup_digits i = Some c /\ digit_value c = i /\
    (48 <= c <= 57 \/ 65 <= c <= 90).
Proof.
  intros Hi.
  assert (Hall : Forall (fun n => exists c, lget lookup_digits (Z.of_nat n) = Some c /\
     digit_value c = Z.of_nat n /\ (48 <= c <= 57 \/ 65 <= c <= 90)) (seq 0 36)).
  { repeat constructor; eexists; (split; [reflexivity|]); (split; [reflexivity|lia]). }
  rewrite Forall_forall in Hall. specialize (Hall (Z.to_nat i)).
  rewrite Z2Nat.id in Hall by lia. apply Hall. apply elem_of_seq. lia.
Qed.

Lemma parse_app radix ds c : parse radix (ds ++ [c]) = parse radix ds * radix + digit_value c.
Proof. unfold parse. by rewrite fold_left_app. Qed.

Lemma itoa_loop_spec fuel v radix :
  2 <= radix <= 36 -> 0 <= v < 2 ^ (Z.of_nat fuel - 1) -> 1 <= Z.of_nat fuel ->
  exists ds, itoa_loop fuel v radix = Some ds /\ parse radix (rev ds) = v /\
    Forall (is_digit radix) ds /\ Z.of_nat (length ds) < Z.of_nat fuel /\
    (forall c, last ds = Some c -> c <> 48) /\ (ds = [] <-> v = 0).
Proof.
  intros Hr. revert v. induction fuel as [|fuel IH]; intros v Hv Hf; [lia|].
  cbn [itoa_loop]. destruct (Z.eqb_spec v 0) as [->|Hv0].
  { exists []. repeat split; try done. }
  destruct fuel as [|fuel]; [change (Z.of_nat 1 - 1) with 0 in Hv; lia|].
  assert (Hm : 0 <= v mod radix < radix) by (apply Z.mod_pos_bound; lia).
  rewrite s32_small by lia.
  destruct (lookup_digits_value (v mod radix)) as (c & -> & Hc & Hcd); [lia|].
  cbn [mbind option_bind].
  destruct (IH (v / radix)) as (ds & -> & Hp & Hd & Hl & Hz & He); [|lia|].
  { split; [apply Z.div_pos; lia|]. apply Z.div_lt_upper_bound; [lia|].
    replace (Z.of_nat (S (S fuel)) - 1) with (Z.succ (Z.of_nat (S fuel) - 1)) in Hv by lia.
    rewrite Z.pow_succ_r in Hv by lia. nia. }
  assert (Hdm := Z.div_mod v radix ltac:(lia)).
  exists (c :: ds). split; [done|]. split; [|split; [|split; [|split]]].
  - cbn [rev]. rewrite parse_app, Hp, Hc. lia.
  - constructor; [split; [done|lia]|done].
  - cbn [length]. lia.
  - intros c' Hlast. destruct ds as [|d ds]; [|apply Hz; by rewrite <- Hlast].
    injection Hlast as <-. intros ->. rewrite (proj1 He eq_refl) in Hdm.
    change (digit_value 48) with 0 in Hc. lia.
  - split; [done|lia].
Qed.

(** [itoa] leaves at the start of its buffer the numeral of [value], without
    leading zeros, in at most 32 digits. *)
Lemma itoa_numeral value radix :
  2 <= radix <= 36 -> 0 <= value < 2 ^ 32 ->
  exists ds, itoa value radix = Some (ds ++ [0]) /\ parse radix ds = value /\
    Forall (is_digit radix) ds /\ (0 < length ds <= 32)%nat /\
    (forall c, head ds = Some c -> c = 48 -> ds = [48]).
Proof.
  intros Hr Hv. change (2 ^ 32) with 4294967296 in Hv. unfold itoa. autorewrite with width.
  rewrite (proj2 (Z.eqb_neq radix 0)) by lia.
  destruct (Z.eqb_spec value 0) as [->|Hv0].
  { exists [48]. repeat split; try done; [|cbn; lia..].
    constructor; [|done]. split; [lia|cbn; lia]. }
  destruct (itoa_loop_spec 33 value radix) as (ds & -> & Hp & Hd & Hl & Hz & He);
    [done|change (2 ^ _) with 4294967296; lia|lia|].
  cbn [mbind option_bind].
  assert (Hcs : cstring (ds ++ [0]) ds).
  { split; [|by exists []]. eapply Forall_impl; [exact Hd|]. intros c [Hc _]. lia. }
  destruct (strrev_cstring _ _ Hcs) as (rest & Hrest & ->).
  apply app_inv_head in Hrest. injection Hrest as <-.
  exists (rev ds). split; [done|]. split; [done|]. split; [by apply Forall_rev|].
  rewrite length_rev. assert (ds <> []) by (intros ->%He; lia).
  split; [destruct ds; [done|cbn in *; lia]|].
  intros c Hc ->. destruct ds as [|d ds] using rev_ind; [done|].
  rewrite rev_app_distr in Hc. cbn in Hc. injection Hc as ->.
  exfalso. apply (Hz 48); [|done]. by rewrite last_snoc.
Qed.
