(* ===== verification/Screen.v ===== *)
(** * lib.c: the screen

    The text screen at [video_mem]: two bytes a cell, 80 columns, 25 rows. *)
From S2P Require Import Prelude State Monad Strings.

Definition SUCCESS : Z := 0.
Definition FAILURE : Z := -1.
Definition VIDEO : Z := 0xB8000.
Definition NUM_COLS : Z := 80.
Definition NUM_ROWS : Z := 25.
Definition ATTRIB : Z := 0x7.

(** An argument of [printf]: a word, or a pointer to the string it holds. *)
Inductive printf_arg := ArgInt (v : Z) | ArgStr (s : list Z).

(** The text of a string literal, without its NUL. *)
Definition text (s : string) : list Z :=
  map (fun a => Z.of_N (Ascii.N_of_ascii a)) (String.list_ascii_of_string s).

Section screen.
Context {P : Platform}.

Definition scr_set (f : scr_t -> scr_t) : M unit := modify (set s_scr f).
Definition get_screen_x : M Z := gets (fun s => screen_x (s_scr s)).
Definition get_screen_y : M Z := gets (fun s => screen_y (s_scr s)).
Definition set_screen_x (input : Z) : M unit := scr_set (set screen_x (fun _ => input)).
Definition set_screen_y (input : Z) : M unit := scr_set (set screen_y (fun _ => input)).
Definition get_video_mem : M Z := gets (fun s => video_mem (s_scr s)).

(** The two stores that put [c] in a cell. *)
Definition put_cell (base off c : Z) : M unit :=
  store8 (base + off) c ;; store8 (base + off + 1) ATTRIB.

Definition clear : M unit :=
  for_up 0 (NUM_ROWS * NUM_COLS) (fun i =>
    v <- get_video_mem ;; put_cell v (Z.shiftl i 1) 32).

(** [act_vid_mem] is a constant pointer to VIDEO. *)
Definition act_vid_restore (restore_arr : list Z) : M unit :=
  for_up 0 (NUM_ROWS * NUM_COLS) (fun i =>
    c <- aget restore_arr (Z.shiftl i 1) ;; store8 (VIDEO + Z.shiftl i 1) c ;;
    a <- aget restore_arr (Z.shiftl i 1 + 1) ;; store8 (VIDEO + Z.shiftl i 1 + 1) a).

Definition restore_vid (restore_arr : list Z) : M unit :=
  for_up 0 (NUM_ROWS * NUM_COLS) (fun i =>
    v <- get_video_mem ;;
    c <- aget restore_arr (Z.shiftl i 1) ;; store8 (v + Z.shiftl i 1) c ;;
    a <- aget restore_arr (Z.shiftl i 1 + 1) ;; store8 (v + Z.shiftl i 1 + 1) a).

(** The bytes [save_vid] writes to [save_arr], from its start. *)
Definition save_vid : M (list Z) :=
  v <- get_video_mem ;; load_bytes v (Z.to_nat (2 * (NUM_ROWS * NUM_COLS))).

Definition scroll : M unit :=
  for_up 0 (NUM_ROWS * NUM_COLS - NUM_COLS) (fun i =>
    v <- get_video_mem ;;
    c <- load8 (v + NUM_COLS * 2 + Z.shiftl i 1) ;; store8 (v + Z.shiftl i 1) c ;;
    a <- load8 (v + NUM_COLS * 2 + Z.shiftl i 1 + 1) ;; store8 (v + Z.shiftl i 1 + 1) a) ;;
  for_up (NUM_ROWS * NUM_COLS - NUM_COLS) (NUM_ROWS * NUM_COLS) (fun i =>
    v <- get_video_mem ;; put_cell v (Z.shiftl i 1) 32) ;;
  set_screen_x 0.

Definition backspace : M unit :=
  x <- get_screen_x ;; y <- get_screen_y ;; v <- get_video_mem ;;
  if (x =? 0) && (y =? 0) then ret tt
  else if negb (x =? 0) then
    store8 (v + Z.shiftl (y * NUM_COLS + x) 1 - 2) 32 ;;
    store8 (v + Z.shiftl (y * NUM_COLS + x) 1 - 1) ATTRIB ;;
    set_screen_x (x - 1)
  else
    store8 (v + Z.shiftl (y * NUM_COLS + x) 1 - 2) 32 ;;
    store8 (v + Z.shiftl (y * NUM_COLS + x) 1 - 1) ATTRIB ;;
    set_screen_y (y - 1) ;;
    set_screen_x (NUM_COLS - 1).

Definition next_line : M unit :=
  y <- get_screen_y ;;
  if NUM_ROWS - 1 <=? y then scroll
  else set_screen_x 0 ;; set_screen_y (y + 1).

(** [putc] and [force_putc] differ in the address they write to; [%] and [/]
    on [int] truncate. *)
Definition putc_at (base : M Z) (c : Z) : M unit :=
  x <- get_screen_x ;; y <- get_screen_y ;;
  if (c =? 10) || (c =? 13) then
    set_screen_y (y + 1) ;; set_screen_x 0
  else
    v <- base ;;
    put_cell v (Z.shiftl (NUM_COLS * y + x) 1) c ;;
    let x' := Z.rem (x + 1) NUM_COLS in
    set_screen_x x' ;;
    set_screen_y (Z.rem (y + Z.quot x' NUM_COLS) NUM_ROWS).
Definition putc (c : Z) : M unit := putc_at get_video_mem c.
Definition force_putc (c : Z) : M unit := putc_at (ret VIDEO) c.

(** [puts] of a string with the characters [s]; its result is their number. *)
Fixpoint puts_loop (s : list Z) : M unit :=
  match s with
  | [] => ret tt
  | c :: s => putc c ;; puts_loop s
  end.
Definition puts (s : list Z) : M Z := puts_loop s ;; ret (Z.of_nat (length s)).

(** [puts] of a buffer: the characters before its NUL. *)
Definition puts_buf (s : list Z) : M Z :=
  n <- of_opt OutOfBounds (strlen s) ;; puts (take (Z.to_nat n) s).

(** The buffer [%#x] prints: [itoa] at [conv_buf + 8], then zeros from
    [conv_buf + strlen] up to there; the result starts at that index. *)
Definition alternate_hex (v : Z) : option (list Z) :=
  ds ← itoa v 16;
  starting_index ← strlen ds;
  let conv_buf := replicate 8 (u8 stack_junk) ++ ds in
  let filled := take (Z.to_nat starting_index) conv_buf
    ++ replicate (8 - Z.to_nat starting_index) 48
    ++ drop (Nat.max 8 (Z.to_nat starting_index)) conv_buf in
  Some (drop (Z.to_nat starting_index) filled).

(** One conversion: the character after [%] (and after any [#]), and the
    arguments that are left. *)
Definition printf_conv (alternate : bool) (c : Z) (args : list printf_arg)
  : M (list printf_arg) :=
  if c =? 37 then putc 37 ;; ret args                              (* %% *)
  else if c =? 120 then                                            (* %x *)
    match args with
    | ArgInt v :: args =>
        (if alternate then b <- of_opt OutOfBounds (alternate_hex v) ;; puts_buf b
         else b <- of_opt OutOfBounds (itoa v 16) ;; puts_buf b) ;; ret args
    | _ => stop_with (Fault OutOfBounds)
    end
  else if c =? 117 then                                            (* %u *)
    match args with
    | ArgInt v :: args => b <- of_opt OutOfBounds (itoa v 10) ;; puts_buf b ;; ret args
    | _ => stop_with (Fault OutOfBounds)
    end
  else if c =? 100 then                                            (* %d *)
    match args with
    | ArgInt v :: args =>
        (if s32 v <? 0 then
           b <- of_opt OutOfBounds (itoa (- s32 v) 10) ;; puts_buf (45 :: b)
         else b <- of_opt OutOfBounds (itoa (s32 v) 10) ;; puts_buf b) ;; ret args
    | _ => stop_with (Fault OutOfBounds)
    end
  else if c =? 99 then                                             (* %c *)
    match args with
    | ArgInt v :: args => putc (u8 v) ;; ret args
    | _ => stop_with (Fault OutOfBounds)
    end
  else if c =? 115 then                                            (* %s *)
    match args with
    | ArgStr s :: args => puts s ;; ret args
    | _ => stop_with (Fault OutOfBounds)
    end
  else ret args.

(** [conv] is [None] outside a conversion, [Some alternate] after a [%]. A
    format that ends in a conversion runs past its NUL. *)
Fixpoint printf_loop (format : list Z) (conv : option bool) (args : list printf_arg)
  : M unit :=
  match conv, format with
  | None, [] => ret tt
  | Some _, [] => stop_with (Fault OutOfBounds)
  | None, c :: format =>
      if c =? 37 then printf_loop format (Some false) args
      else putc c ;; printf_loop format None args
  | Some alternate, c :: format =>
      if c =? 35 then printf_loop format (Some true) args
      else args' <- printf_conv alternate c args ;; printf_loop format None args'
  end.
Definition printf (format : list Z) (args : list printf_arg) : M Z :=
  printf_loop format None args ;; ret (Z.of_nat (length format)).

Definition test_interrupts : M unit :=
  for_up 0 (NUM_ROWS * NUM_COLS) (fun i =>
    v <- get_video_mem ;;
    b <- load8 (v + Z.shiftl i 1) ;; store8 (v + Z.shiftl i 1) (b + 1)).
End screen.
