(* ===== verification/ScreenSpec.v ===== *)
(** * The screen: what the output routines of lib.c do *)
From S2P Require Import Prelude State Monad Logic Screen.

(** [video_at s pv]: the 4 KB at [video_mem] are the physical page at [pv]. *)
Definition video_at `{Platform} (s : kstate) (pv : Z) : Prop :=
  linear s (video_mem (s_scr s)) 4096 pv.
(** The position of the cursor in cells. *)
Definition pos (s : kstate) : Z := 80 * screen_y (s_scr s) + screen_x (s_scr s).
Definition vbyte (s : kstate) (pv o : Z) : Z := mem_get (s_mem s) (pv + o).


(** The memory after [bs] is written in the cells from position [p] on. *)
Fixpoint put_text (m : gmap Z Z) (pv p : Z) (bs : list Z) : gmap Z Z :=
  match bs with
  | [] => m
  | c :: bs => put_text (<[pv + 2 * p + 1 := 7]> (<[pv + 2 * p := u8 c]> m)) pv (p + 1) bs
  end.

Lemma put_text_app m pv p bs bs' :
  put_text m pv p (bs ++ bs') =
  put_text (put_text m pv p bs) pv (p + Z.of_nat (length bs)) bs'.
Proof.
  revert m p. induction bs as [|c bs IH]; intros m p; cbn [put_text app length].
  - by rewrite Z.add_0_r.
  - rewrite IH. f_equal. lia.
Qed.

(** What a cell holds afterwards. *)
Lemma put_text_get bs : forall m pv p a,
  mem_get (put_text m pv p bs) a =
  if decide (pv + 2 * p <= a < pv + 2 * (p + Z.of_nat (length bs))) then
    if (a - pv) mod 2 =? 0 then u8 (default 0 (lget bs ((a - pv) / 2 - p))) else 7
  else mem_get m a.
Proof.
  induction bs as [|c bs IH]; intros m pv p a; cbn [put_text length].
  { case_decide; [lia|done]. }
  rewrite IH, !mem_get_insert.
  destruct (decide (pv + 2 * p + 1 = a)) as [<-|Hodd].
  { rewrite decide_False, decide_True by lia.
    by rewrite (proj2 (Z.eqb_neq _ _)) by divlia. }
  destruct (decide (pv + 2 * p = a)) as [<-|Heven].
  { rewrite decide_False, decide_True by lia.
    replace (pv + 2 * p - pv) with (p * 2) by lia.
    rewrite Z.mod_mul, Z.div_mul, Z.sub_diag by lia. done. }
  destruct (decide (pv + 2 * (p + 1) <= a < pv + 2 * (p + 1 + Z.of_nat (length bs)))).
  - rewrite decide_True by lia. case_match; [|done]. do 2 f_equal.
    replace ((a - pv) / 2 - p) with (((a - pv) / 2 - (p + 1)) + 1) by lia.
    unfold lget. assert (0 <= (a - pv) / 2 - (p + 1)) by divlia.
    rewrite !decide_True by lia. rewrite Z2Nat.inj_add, Nat.add_1_r by lia. done.
  - rewrite decide_False by lia. done.
Qed.

Section screen_facts.
Context {P : Platform}.
Implicit Types (s : kstate).

Lemma video_at_draws s s' pv : draws s s' -> video_at s pv -> video_at s' pv.
Proof. unfold video_at. intros D. rewrite (draws_video _ _ D). by apply draws_linear. Qed.

Lemma wp_put_cell s pv o c (Q : unit -> kstate -> Prop) :
  video_at s pv -> 0 <= o -> o + 1 < 4096 ->
  Q tt (set s_mem (fun m => <[pv + o + 1 := 7]> (<[pv + o := u8 c]> m)) s) ->
  wp (put_cell (video_mem (s_scr s)) o c) Q s.
Proof.
  intros Hv ?? HQ. unfold put_cell. wp_pure.
  eapply wp_store8_linear; [exact Hv|lia|].
  rewrite <-Z.add_assoc. eapply wp_store8_linear; [exact Hv|lia|].
  rewrite !Z.add_assoc. exact HQ.
Qed.

(** ** Scrolling *)

(** After [n] cells: the bytes below [2 n] come from the next row. *)
Definition scrolled (s0 : kstate) (pv n : Z) (s : kstate) : Prop :=
  draws s0 s /\ s_scr s = s_scr s0 /\
  forall a, mem_get (s_mem s) a =
    if decide (pv <= a < pv + 2 * n) then u8 (mem_get (s_mem s0) (a + 160))
    else mem_get (s_mem s0) a.

Lemma scroll_move s0 pv i s :
  video_at s0 pv -> 0 <= i < 1920 -> scrolled s0 pv i s ->
  wp (v <- get_video_mem ;;
      c <- load8 (v + NUM_COLS * 2 + Z.shiftl i 1) ;; store8 (v + Z.shiftl i 1) c ;;
      a <- load8 (v + NUM_COLS * 2 + Z.shiftl i 1 + 1) ;; store8 (v + Z.shiftl i 1 + 1) a)
    (fun _ => scrolled s0 pv (i + 1)) s.
Proof.
  intros Hv Hi (D & Hs & Hm). apply (video_at_draws _ _ _ D) in Hv.
  rewrite Z.shiftl_mul_pow2 by lia. unfold NUM_COLS, get_video_mem.
  wp_pures. rewrite <-!Z.add_assoc.
  eapply wp_load8_linear; [exact Hv|lia|]. wp_pure.
  eapply wp_store8_linear; [exact Hv|lia|]. wp_pure.
  eapply wp_load8_linear; [exact Hv|lia|].
  eapply wp_store8_linear; [exact Hv|lia|].
  split; [transitivity s; [done|draws_tac]|]. split; [done|].
  intros a. upd. rewrite !mem_get_insert, !Hm.
  repeat case_decide; try lia; try done; repeat (f_equal; try lia).
Qed.

Lemma wp_blank_row s0 s1 pv i s :
  video_at s0 pv -> 1920 <= i < 2000 ->
  draws s0 s /\ s_scr s = s_scr s0 /\
    (forall a, mem_get (s_mem s) a =
      if decide (pv + 3840 <= a < pv + 2 * i) then
        (if (a - pv) mod 2 =? 0 then 32 else 7)
      else mem_get (s_mem s1) a) ->
  wp (v <- get_video_mem ;; put_cell v (Z.shiftl i 1) 32) (fun _ s =>
    draws s0 s /\ s_scr s = s_scr s0 /\
    (forall a, mem_get (s_mem s) a =
      if decide (pv + 3840 <= a < pv + 2 * (i + 1)) then
        (if (a - pv) mod 2 =? 0 then 32 else 7)
      else mem_get (s_mem s1) a)) s.
Proof.
  intros Hv Hi (D & Hs & Hm). apply (video_at_draws _ _ _ D) in Hv.
  rewrite Z.shiftl_mul_pow2 by lia. unfold get_video_mem. wp_pures.
  apply (wp_put_cell _ pv); [done|lia|lia|].
  split; [transitivity s; [done|draws_tac]|]. split; [done|].
  intros a. upd. rewrite !mem_get_insert, Hm.
  repeat case_decide; try lia; try done.
  - rewrite (proj2 (Z.eqb_neq _ _)); [done|]. subst a. divlia.
  - rewrite (proj2 (Z.eqb_eq _ _)); [done|]. subst a. divlia.
Qed.

(** The screen moves up a row; the last row is blank. *)
Lemma wp_scroll s pv (Q : unit -> kstate -> Prop) :
  video_at s pv ->
  (forall s', draws s s' -> s_scr s' = set screen_x (fun _ => 0) (s_scr s) ->
    (forall a, mem_get (s_mem s') a =
      if decide (pv <= a < pv + 3840) then u8 (mem_get (s_mem s) (a + 160))
      else if decide (pv + 3840 <= a < pv + 4000) then
        (if (a - pv) mod 2 =? 0 then 32 else 7)
      else mem_get (s_mem s) a) -> Q tt s') ->
  wp scroll Q s.
Proof.
  intros Hv HQ. unfold scroll. wp_pure. eapply wp_mono.
  { apply (wp_for_up _ _ _ (scrolled s pv)); [unfold NUM_ROWS, NUM_COLS; lia| |].
    - split; [reflexivity|]. split; [done|]. intros a. by case_decide; [lia|].
    - intros i s' Hi. apply scroll_move; [done|]. unfold NUM_ROWS, NUM_COLS in Hi. lia. }
  cbv beta. intros _ s1 (D1 & Hs1 & Hm1). wp_pure. eapply wp_mono.
  { eapply (wp_for_up _ _ _ (fun i s' => draws s s' /\ s_scr s' = s_scr s /\
      (forall a, mem_get (s_mem s') a =
        if decide (pv + 3840 <= a < pv + 2 * i) then
          (if (a - pv) mod 2 =? 0 then 32 else 7)
        else mem_get (s_mem s1) a))); [unfold NUM_ROWS, NUM_COLS; lia| |].
    - split; [done|]. split; [done|]. intros a.
      case_decide as Ha; [unfold NUM_ROWS, NUM_COLS in Ha; lia|done].
    - intros i s' Hi. apply wp_blank_row; [done|]. unfold NUM_ROWS, NUM_COLS in Hi. lia. }
  cbv beta. intros _ s2 (D2 & Hs2 & Hm2).
  unfold set_screen_x, scr_set. wp_pures. apply HQ.
  - transitivity s2; [done|draws_tac].
  - upd. by rewrite Hs2.
  - intros a. upd. rewrite Hm2, Hm1. unfold NUM_ROWS, NUM_COLS.
    repeat case_decide; try lia; done.
Qed.

(** ** Clearing *)

Lemma wp_clear s pv (Q : unit -> kstate -> Prop) :
  video_at s pv ->
  (forall s', draws s s' -> s_scr s' = s_scr s ->
    (forall a, mem_get (s_mem s') a =
      if decide (pv <= a < pv + 4000) then (if (a - pv) mod 2 =? 0 then 32 else 7)
      else mem_get (s_mem s) a) -> Q tt s') ->
  wp clear Q s.
Proof.
  intros Hv HQ. unfold clear. eapply wp_mono.
  { apply (wp_for_up _ _ _ (fun i s' => draws s s' /\ s_scr s' = s_scr s /\
      (forall a, mem_get (s_mem s') a =
        if decide (pv <= a < pv + 2 * i) then (if (a - pv) mod 2 =? 0 then 32 else 7)
        else mem_get (s_mem s) a))); [unfold NUM_ROWS, NUM_COLS; lia| |].
    - split; [reflexivity|]. split; [done|]. intros a. by rewrite decide_False by lia.
    - intros i s' Hi (D & E & Hm). unfold NUM_ROWS, NUM_COLS in Hi.
      apply (video_at_draws _ _ _ D) in Hv.
      rewrite Z.shiftl_mul_pow2 by lia. unfold get_video_mem. wp_pures.
      apply (wp_put_cell _ pv); [done|lia|lia|].
      split; [transitivity s'; [done|draws_tac]|]. split; [done|].
      intros a. upd. rewrite !mem_get_insert, Hm.
      repeat case_decide; try lia; try done.
      + rewrite (proj2 (Z.eqb_neq _ _)); [done|]. subst a. divlia.
      + rewrite (proj2 (Z.eqb_eq _ _)); [done|]. subst a. divlia. }
  cbv beta. intros [] s' (D & E & Hm). by apply HQ.
Qed.

(** ** The cursor *)

(** The cursor of a line that may have been moved left across row ends: its
    row is on the screen, and so is its cell. *)
Record cursor_ok s : Prop := {
  cursor_row : 0 <= screen_y (s_scr s) < 25;
  cursor_col : screen_x (s_scr s) <= 79;
  cursor_cell : 0 <= pos s;
}.
Lemma cursor_ok_scr s s' : s_scr s' = s_scr s -> cursor_ok s -> cursor_ok s'.
Proof. intros E []. constructor; unfold pos in *; by rewrite E. Qed.

Lemma cursor_ok_pos s : cursor_ok s -> 0 <= pos s <= 1999.
Proof. intros [[] ? ?]. unfold pos in *. lia. Qed.

(** [putc] of a printed character: the cell, and the column modulo 80. *)
Lemma wp_putc s pv c (Q : unit -> kstate -> Prop) :
  video_at s pv -> c <> 10 -> c <> 13 -> 0 <= pos s < 2048 ->
  (forall s', draws s s' ->
    screen_x (s_scr s') = Z.rem (screen_x (s_scr s) + 1) 80 ->
    screen_y (s_scr s') = Z.rem (screen_y (s_scr s)) 25 ->
    s_mem s' = <[pv + 2 * pos s + 1 := 7]> (<[pv + 2 * pos s := u8 c]> (s_mem s)) ->
    Q tt s') -> wp (putc c) Q s.
Proof.
  intros Hv Hlf Hcr Hp HQ.
  unfold putc, putc_at, get_screen_x, get_screen_y, get_video_mem.
  wp_pures. rewrite (proj2 (Z.eqb_neq c 10)), (proj2 (Z.eqb_neq c 13)) by done.
  cbn [orb]. wp_pures. rewrite Z.shiftl_mul_pow2 by lia.
  change (2 ^ 1) with 2. unfold NUM_COLS, NUM_ROWS, pos in *.
  apply (wp_put_cell _ pv); [done|lia|lia|].
  unfold set_screen_x, set_screen_y, scr_set. wp_pures. apply HQ; upd.
  - draws_tac.
  - done.
  - f_equal. pose proof (Z.rem_bound_abs (screen_x (s_scr s) + 1) 80).
    rewrite (proj2 (Z.quot_small_iff (Z.rem (screen_x (s_scr s) + 1) 80) 80 ltac:(lia))); lia.
  - do 2 f_equal; [|f_equal]; lia.
Qed.

Lemma wp_next_line s pv (Q : unit -> kstate -> Prop) :
  video_at s pv -> 0 <= screen_y (s_scr s) < 25 ->
  (forall s', draws s s' -> screen_x (s_scr s') = 0 ->
    screen_y (s_scr s') = Z.min (screen_y (s_scr s) + 1) 24 ->
    (screen_y (s_scr s) < 24 -> s_mem s' = s_mem s) -> Q tt s') ->
  wp next_line Q s.
Proof.
  intros Hv Hy HQ. unfold next_line, get_screen_y. wp_pures.
  change (NUM_ROWS - 1) with 24.
  destruct (Z.leb_spec 24 (screen_y (s_scr s))).
  - apply (wp_scroll _ pv); [done|]. intros s' D Hs _.
    apply HQ; rewrite ?Hs; upd; [done|done|lia|lia].
  - unfold set_screen_x, set_screen_y, scr_set. wp_pures.
    apply HQ; upd; [draws_tac|done|lia|done].
Qed.

Lemma wp_backspace s pv (Q : unit -> kstate -> Prop) :
  video_at s pv -> cursor_ok s -> 1 <= pos s ->
  (forall s', draws s s' -> cursor_ok s' -> pos s' = pos s - 1 ->
    screen_x (s_scr s') = (if screen_x (s_scr s) =? 0 then 79 else screen_x (s_scr s) - 1) ->
    s_mem s' = <[pv + 2 * pos s' + 1 := 7]> (<[pv + 2 * pos s' := 32]> (s_mem s)) ->
    Q tt s') -> wp backspace Q s.
Proof.
  intros Hv Hc Hp HQ. pose proof (cursor_ok_pos _ Hc) as Hp'.
  destruct Hc as [Hrow Hcol Hcell].
  unfold backspace, get_screen_x, get_screen_y, get_video_mem. wp_pures.
  rewrite Z.shiftl_mul_pow2 by lia. change (2 ^ 1) with 2. unfold NUM_COLS, pos in *.
  set (x := screen_x (s_scr s)) in *. set (y := screen_y (s_scr s)) in *.
  replace (video_mem (s_scr s) + (y * 80 + x) * 2 - 2)
    with (video_mem (s_scr s) + 2 * (80 * y + x - 1)) by lia.
  replace (video_mem (s_scr s) + (y * 80 + x) * 2 - 1)
    with (video_mem (s_scr s) + (2 * (80 * y + x - 1) + 1)) by lia.
  assert (Hcell2 : forall k, wp k Q (set s_mem (fun m => <[pv + 2 * (80 * y + x - 1) + 1 := 7]>
     (<[pv + 2 * (80 * y + x - 1) := 32]> m)) s) ->
     wp (store8 (video_mem (s_scr s) + 2 * (80 * y + x - 1)) 32 ;;
        (store8 (video_mem (s_scr s) + (2 * (80 * y + x - 1) + 1)) ATTRIB ;; k)) Q s).
  { intros k Hk. wp_pure. eapply wp_store8_linear; [exact Hv|lia|].
    wp_pure. eapply wp_store8_linear; [exact Hv|lia|].
    rewrite !Z.add_assoc. exact Hk. }
  unfold set_screen_x, set_screen_y, scr_set.
  destruct (Z.eqb_spec x 0) as [Hx|Hx], (Z.eqb_spec y 0) as [Hy|Hy]; cbn [andb negb];
    try lia; apply Hcell2; wp_pures; apply HQ; unfold pos; upd; fold x y;
    try (constructor; unfold pos; upd; fold x y); try done; try lia.
  all: try (unfold NUM_COLS; lia).
  all: try (do 2 f_equal; [|f_equal]; unfold NUM_COLS; lia).
Qed.

(** Plain text. [printf] prints it in the row of the cursor: at the end of the
    row it goes on at its beginning. *)
Definition plain_text (str : list Z) : Prop := Forall (fun c => c <> 10 /\ c <> 13 /\ c <> 37) str.

Fixpoint put_row (m : gmap Z Z) (pv y x : Z) (bs : list Z) : gmap Z Z :=
  match bs with
  | [] => m
  | c :: bs =>
      put_row (put_text m pv (80 * y + x) [c]) pv y ((x + 1) mod 80) bs
  end.

Lemma wp_printf_plain pv str : forall s (Q : unit -> kstate -> Prop),
  video_at s pv -> plain_text str -> 0 <= screen_y (s_scr s) < 25 -> 0 <= screen_x (s_scr s) < 80 ->
  (forall s', draws s s' -> screen_x (s_scr s') = 0 ->
    screen_y (s_scr s') = screen_y (s_scr s) + 1 ->
    s_mem s' = put_row (s_mem s) pv (screen_y (s_scr s)) (screen_x (s_scr s)) str -> Q tt s') ->
  wp (printf_loop (str ++ [10]) None []) Q s.
Proof.
  induction str as [|c str IH]; intros s Q Hv Hp Hy Hx HQ; cbn [app printf_loop] in *.
  - change (10 =? 37) with false. cbv iota.
    unfold putc, putc_at, get_screen_x, get_screen_y, set_screen_x, set_screen_y, scr_set.
    change ((10 =? 10) || (10 =? 13)) with true. wp_pures. apply HQ; upd; [draws_tac|done..].
  - apply Forall_cons_1 in Hp as [(H1 & H2 & H3) Hp]. rewrite (proj2 (Z.eqb_neq c 37)) by done.
    wp_pure. apply (wp_putc s pv); try done; [unfold pos; lia|].
    intros s1 D X Y Mm. rewrite Z.rem_mod_nonneg in X by lia. rewrite Z.rem_small in Y by lia.
    pose proof (Z.mod_pos_bound (screen_x (s_scr s) + 1) 80).
    apply IH; try done; rewrite ?X, ?Y; try lia.
    { by eapply video_at_draws. }
    intros s2 D2 X2 Y2 M2. apply HQ; [by transitivity s1|done|done|].
    rewrite M2, Mm. done.
Qed.
End screen_facts.
