(* ===== verification/Pic.v ===== *)
(** * i8259.c: the interrupt controllers *)
From S2P Require Import Prelude State Monad.

Definition MASTER_8259_PORT : Z := 0x20.
Definition SLAVE_8259_PORT : Z := 0xA0.
Definition ICW1 : Z := 0x11.
Definition ICW2_MASTER : Z := 0x20.
Definition ICW2_SLAVE : Z := 0x28.
Definition ICW3_MASTER : Z := 0x04.
Definition ICW3_SLAVE : Z := 0x02.
Definition ICW4 : Z := 0x01.
Definition EOI : Z := 0x60.

Section pic.
Context {P : Platform}.

Definition irq_set (f : irq_t -> irq_t) : M unit := modify (set s_irq f).

Definition i8259_init : M unit :=
  outb ICW1 MASTER_8259_PORT ;;
  outb ICW1 SLAVE_8259_PORT ;;
  outb ICW2_MASTER (MASTER_8259_PORT + 1) ;;
  outb ICW2_SLAVE (SLAVE_8259_PORT + 1) ;;
  outb ICW3_MASTER (MASTER_8259_PORT + 1) ;;
  outb ICW3_SLAVE (SLAVE_8259_PORT + 1) ;;
  outb ICW4 (MASTER_8259_PORT + 1) ;;
  outb ICW4 (SLAVE_8259_PORT + 1).

(** [~(1 << irq_num)] on 32 bits. *)
Definition enable_irq (irq_num : Z) : M unit :=
  if irq_num <? 8 then
    let port := MASTER_8259_PORT + 1 in
    b <- inb port ;;
    let val := u8 (Z.land b (Z.lnot (Z.shiftl 1 irq_num))) in
    irq_set (set master_mask (fun _ => val)) ;; outb val port
  else
    let port := SLAVE_8259_PORT + 1 in
    let irq_num := irq_num - 8 in
    b <- inb port ;;
    let val := u8 (Z.land b (Z.lnot (Z.shiftl 1 irq_num))) in
    irq_set (set slave_mask (fun _ => val)) ;; outb val port.

Definition disable_irq (irq_num : Z) : M unit :=
  if irq_num <? 8 then
    let port := MASTER_8259_PORT + 1 in
    b <- inb port ;;
    let val := u8 (Z.lor b (Z.shiftl 1 irq_num)) in
    irq_set (set master_mask (fun _ => val)) ;; outb val port
  else
    let port := SLAVE_8259_PORT + 1 in
    let irq_num := irq_num - 8 in
    b <- inb port ;;
    let val := u8 (Z.lor b (Z.shiftl 1 irq_num)) in
    irq_set (set slave_mask (fun _ => val)) ;; outb val port.

Definition send_eoi (irq_num : Z) : M unit :=
  if irq_num <? 8 then outb (Z.lor EOI (Z.land irq_num 0x07)) MASTER_8259_PORT
  else
    outb (Z.lor EOI 0x02) MASTER_8259_PORT ;;
    outb (Z.lor EOI (irq_num - 8)) SLAVE_8259_PORT.
End pic.
