(* ===== verification/Mem.v ===== *)
(** * lib.c: memset, memcpy, memmove

    The routines are inline assembly; the definitions follow it instruction by
    instruction, with the 32-bit registers as arguments of the loops. *)
From S2P Require Import Prelude State Monad.

Section memory_routines.
Context {P : Platform}.

Definition load32 (va : Z) : M (Z * Z * Z * Z) :=
  a <- load8 va ;; b <- load8 (va + 1) ;; c <- load8 (va + 2) ;; d <- load8 (va + 3) ;;
  ret (a, b, c, d).
Definition store32 (va : Z) (w : Z * Z * Z * Z) : M unit :=
  let '(a, b, c, d) := w in
  store8 va a ;; store8 (va + 1) b ;; store8 (va + 2) c ;; store8 (va + 3) d.

(** [.memset_top]: bytes until [edi] is a multiple of four; the third result
    is [ecx]. The loop runs at most three times before it is. *)
Fixpoint memset_top (fuel : nat) (al edi ecx : Z) : M (Z * Z) :=
  match fuel with
  | O => ret (edi, ecx)
  | S fuel =>
      if ecx =? 0 then ret (edi, ecx)
      else if Z.land edi 3 =? 0 then ret (edi, ecx)
      else store8 edi al ;; memset_top fuel al (u32 (edi + 1)) (ecx - 1)
  end.
(** [rep stosl], [rep stosw] and the byte loop, [n] rounds. *)
Fixpoint rep_stosl (n : nat) (eax : Z * Z * Z * Z) (edi : Z) : M Z :=
  match n with
  | O => ret edi
  | S n => store32 edi eax ;; rep_stosl n eax (u32 (edi + 4))
  end.
Fixpoint rep_stosw (n : nat) (al ah : Z) (edi : Z) : M Z :=
  match n with
  | O => ret edi
  | S n => store8 edi al ;; store8 (edi + 1) ah ;; rep_stosw n al ah (u32 (edi + 2))
  end.
Fixpoint rep_stosb (n : nat) (al edi : Z) : M unit :=
  match n with
  | O => ret tt
  | S n => store8 edi al ;; rep_stosb n al (u32 (edi + 1))
  end.

Definition memset (s c n : Z) : M Z :=
  let al := Z.land c 0xFF in
  r <- memset_top 4 al (u32 s) (u32 n) ;;
  let '(edi, ecx) := r in
  (if ecx =? 0 then ret tt
   else
     edi <- rep_stosl (Z.to_nat (Z.shiftr ecx 2)) (al, al, al, al) edi ;;
     rep_stosb (Z.to_nat (Z.land ecx 3)) al edi) ;;
  ret s.

Definition memset_word (s c n : Z) : M Z :=
  rep_stosw (Z.to_nat (u32 n)) (u8 c) (u8 (Z.shiftr c 8)) (u32 s) ;; ret s.

Definition memset_dword (s c n : Z) : M Z :=
  rep_stosl (Z.to_nat (u32 n))
    (u8 c, u8 (Z.shiftr c 8), u8 (Z.shiftr c 16), u8 (Z.shiftr c 24)) (u32 s) ;;
  ret s.

Fixpoint memcpy_top (fuel : nat) (edi esi ecx : Z) : M (Z * Z * Z) :=
  match fuel with
  | O => ret (edi, esi, ecx)
  | S fuel =>
      if ecx =? 0 then ret (edi, esi, ecx)
      else if Z.land edi 3 =? 0 then ret (edi, esi, ecx)
      else
        al <- load8 esi ;; store8 edi al ;;
        memcpy_top fuel (u32 (edi + 1)) (u32 (esi + 1)) (ecx - 1)
  end.
Fixpoint rep_movsl (n : nat) (edi esi : Z) : M (Z * Z) :=
  match n with
  | O => ret (edi, esi)
  | S n => w <- load32 esi ;; store32 edi w ;; rep_movsl n (u32 (edi + 4)) (u32 (esi + 4))
  end.
(** [rep movsb]; [d] is 1, or -1 after [std]. *)
Fixpoint rep_movsb (n : nat) (d edi esi : Z) : M unit :=
  match n with
  | O => ret tt
  | S n => al <- load8 esi ;; store8 edi al ;; rep_movsb n d (u32 (edi + d)) (u32 (esi + d))
  end.

Definition memcpy (dest src n : Z) : M Z :=
  r <- memcpy_top 4 (u32 dest) (u32 src) (u32 n) ;;
  let '(edi, esi, ecx) := r in
  (if ecx =? 0 then ret tt
   else
     r <- rep_movsl (Z.to_nat (Z.shiftr ecx 2)) edi esi ;;
     let '(edi, esi) := r in
     rep_movsb (Z.to_nat (Z.land ecx 3)) 1 edi esi) ;;
  ret dest.

Definition memmove (dest src n : Z) : M Z :=
  let edi := u32 dest in
  let esi := u32 src in
  let ecx := u32 n in
  (if edi <=? esi then rep_movsb (Z.to_nat ecx) 1 edi esi
   else rep_movsb (Z.to_nat ecx) (-1) (u32 (edi + ecx - 1)) (u32 (esi + ecx - 1))) ;;
  ret dest.
End memory_routines.
