(* ===== verification/Proc.v ===== *)
(** * process_control.c: process control blocks *)
From S2P Require Import Prelude State Monad Screen.

Definition M_4 : Z := 0x400000.
Definition K_4 : Z := 0x4000.
Definition KERNEL_ADDR : Z := 0x400000.
Definition SENTINEL_PROCESS : Z := 0.
Definition TOTAL_PROCESSES : Z := 7.
Definition MAX_PROCESSES : Z := 6.
Definition FDT_SIZE : Z := 8.
Definition PAGE_SIZE : Z := 1024.
Definition EXEC_BUFFER_SIZE : Z := 128.
Definition ARGS_BUFFER_SIZE : Z := 1024.

Section proc.
Context {P : Platform}.

Definition proc_set (f : proc_t -> proc_t) : M unit := modify (set s_proc f).
Definition get_current_pid : M Z := gets (fun s => current_pid (s_proc s)).

(** [control_blocks[pid]] as a value, and changed by [f]. *)
Definition get_pcb (pid : Z) : M pcb_t :=
  bs <- gets (fun s => control_blocks (s_proc s)) ;; aget bs pid.
Definition upd_pcb (pid : Z) (f : pcb_t -> pcb_t) : M unit :=
  bs <- gets (fun s => control_blocks (s_proc s)) ;;
  b <- aget bs pid ;;
  bs' <- aset bs pid (f b) ;;
  proc_set (set control_blocks (fun _ => bs')).

(** [control_blocks[pid].fd_table[fd]] *)
Definition get_fd_of (pid fd : Z) : M fd_block_t :=
  b <- get_pcb pid ;; aget (fd_table b) fd.
Definition put_fd_of (pid fd : Z) (blk : fd_block_t) : M unit :=
  b <- get_pcb pid ;;
  t <- aset (fd_table b) fd blk ;;
  upd_pcb pid (set fd_table (fun _ => t)).
Definition upd_fd_of (pid fd : Z) (f : fd_block_t -> fd_block_t) : M unit :=
  blk <- get_fd_of pid fd ;; put_fd_of pid fd (f blk).

(** [control_blocks[current_pid].fd_table[fd]] *)
Definition get_fd (fd : Z) : M fd_block_t := p <- get_current_pid ;; get_fd_of p fd.
Definition put_fd (fd : Z) (blk : fd_block_t) : M unit :=
  p <- get_current_pid ;; put_fd_of p fd blk.
Definition upd_fd (fd : Z) (f : fd_block_t -> fd_block_t) : M unit :=
  p <- get_current_pid ;; upd_fd_of p fd f.

(** The value of the pointer variables [file], [dir], [stdin], [stdout] and
    [rtc]: they are set when their table is filled. *)
Definition table_pointer (t : optab) : M (option optab) :=
  ts <- gets (fun s => optables (s_proc s)) ;;
  ret (match ts t with Some _ => Some t | None => None end).

Definition fill_table (t : optab) (o : optable_t) : M unit :=
  proc_set (set optables (fun ts => <[t := Some o]> ts)).

(** A descriptor marked free: flags -1, inode -1, no operations. *)
Definition free_fd (b : fd_block_t) : fd_block_t :=
  mk_fd None (u32 (-1)) (file_position b) (-1).

Definition set_nth_arg (pid i c : Z) : M unit :=
  b <- get_pcb pid ;;
  a <- aset (pcb_args b) i c ;;
  upd_pcb pid (set pcb_args (fun _ => a)).

Definition process_control_block_init : M Z :=
  fill_table stdout_table
    (mk_optable fn_terminal_open fn_terminal_read_fail fn_terminal_write fn_terminal_close) ;;
  fill_table stdin_table
    (mk_optable fn_keyboard_open fn_terminal_read fn_keyboard_write fn_keyboard_close) ;;
  for_up 0 TOTAL_PROCESSES (fun pcbIdx =>
    put_fd_of pcbIdx 0 (mk_fd (Some stdin_table) 0 0 1) ;;
    put_fd_of pcbIdx 1 (mk_fd (Some stdout_table) 0 0 1)) ;;
  fill_table file_table
    (mk_optable fn_file_open fn_file_read fn_file_write fn_file_close) ;;
  fill_table dir_table
    (mk_optable fn_directory_open fn_directory_read fn_directory_write fn_directory_close) ;;
  for_up 0 TOTAL_PROCESSES (fun pcbIdx =>
    for_up 2 FDT_SIZE (fun i => upd_fd_of pcbIdx i free_fd) ;;
    for_up 0 ARGS_BUFFER_SIZE (fun i => set_nth_arg pcbIdx i 0)) ;;
  proc_set (set num_active_processes (fun _ => 0)) ;;
  ret SUCCESS.

Definition first_process_init : M Z :=
  proc_set (set current_pid (fun _ => SENTINEL_PROCESS)) ;;
  let pid := SENTINEL_PROCESS in
  upd_pcb pid (set pcb_pid (fun _ => pid)) ;;
  upd_pcb pid (set pcb_parent (fun _ => pid)) ;;
  h <- gets s_hw ;;
  upd_pcb pid (set pcb_ss (fun _ => cpu_ss h)) ;;
  upd_pcb pid (set pcb_esp (fun _ => cpu_esp h)) ;;
  for_up 1 TOTAL_PROCESSES (fun i => upd_pcb i (set pcb_pid (fun _ => -1))) ;;
  ret pid.

(** Clears the arguments of the current process up to their NUL. *)
Fixpoint clear_args_loop (n : nat) (i pid : Z) : M unit :=
  match n with
  | O => ret tt
  | S n =>
      b <- get_pcb pid ;;
      c <- aget (pcb_args b) i ;;
      if c =? 0 then ret tt
      else set_nth_arg pid i 0 ;; clear_args_loop n (i + 1) pid
  end.
Definition clear_args : M unit :=
  pid <- get_current_pid ;; clear_args_loop (Z.to_nat ARGS_BUFFER_SIZE) 0 pid.

(** The first process from [i] on whose block is free. *)
Fixpoint find_free_pid (n : nat) (i : Z) : M (option Z) :=
  match n with
  | O => ret None
  | S n =>
      b <- get_pcb i ;;
      if pcb_pid b =? -1 then ret (Some i) else find_free_pid n (i + 1)
  end.

Definition create_new_pcb (parent : Z) : M Z :=
  o <- find_free_pid (Z.to_nat (TOTAL_PROCESSES - 1)) 1 ;;
  match o with
  | None => ret FAILURE
  | Some new_pid =>
      upd_pcb new_pid (set pcb_pid (fun _ => new_pid)) ;;
      upd_pcb new_pid (set pcb_parent (fun _ => parent)) ;;
      for_up 2 FDT_SIZE (fun i => upd_fd_of new_pid i free_fd) ;;
      proc_set (set num_active_processes (fun n => n + 1)) ;;
      clear_args ;;
      ret new_pid
  end.

Definition load_pcb (pid ss esp : Z) : M unit :=
  upd_pcb pid (set pcb_ss (fun _ => ss)) ;;
  upd_pcb pid (set pcb_esp (fun _ => esp)).

Definition destroy_pcb (pid : Z) : M Z :=
  upd_pcb pid (set pcb_pid (fun _ => -1)) ;;
  proc_set (set num_active_processes (fun n => n - 1)) ;;
  ret SUCCESS.
End proc.
