(* ===== verification/ProcSpec.v ===== *)
(** * Process control blocks and descriptors: lookups, updates and their rules *)
From S2P Require Import Prelude State Monad Logic Screen Proc.

Definition pcb_at (s : kstate) (pid : Z) : option pcb_t :=
  lget (control_blocks (s_proc s)) pid.
Definition fd_at (s : kstate) (pid fd : Z) : option fd_block_t :=
  b ← pcb_at s pid; lget (fd_table b) fd.

(** The state after [control_blocks[pid]] is changed by [f], and after
    [control_blocks[pid].fd_table[fd] = blk]. *)
Definition with_pcb (pid : Z) (f : pcb_t -> pcb_t) (s : kstate) : kstate :=
  set s_proc (set control_blocks (alter f (Z.to_nat pid))) s.
Definition with_fd (pid fd : Z) (blk : fd_block_t) (s : kstate) : kstate :=
  with_pcb pid (set fd_table (<[Z.to_nat fd := blk]>)) s.

Lemma set_proc_ext s f g : f (s_proc s) = g (s_proc s) -> set s_proc f s = set s_proc g s.
Proof. intros E. destruct s. unfold set, s_proc_upd. cbn in *. by rewrite E. Qed.
Lemma set_blocks_ext p f g :
  f (control_blocks p) = g (control_blocks p) ->
  set control_blocks f p = set control_blocks g p.
Proof. intros E. destruct p. unfold set, control_blocks_upd. cbn in *. by rewrite E. Qed.
Lemma set_fd_table_ext b f g :
  f (fd_table b) = g (fd_table b) -> set fd_table f b = set fd_table g b.
Proof. intros E. destruct b. unfold set, fd_table_upd. cbn in *. by rewrite E. Qed.

Lemma with_pcb_ext pid f g s b :
  pcb_at s pid = Some b -> f b = g b -> with_pcb pid f s = with_pcb pid g s.
Proof.
  intros Hb E. apply set_proc_ext, set_blocks_ext, list_alter_ext; [|done].
  intros b' Hb'. unfold pcb_at, lget in Hb. case_decide; [|done].
  rewrite Hb' in Hb. injection Hb as ->. exact E.
Qed.

Lemma pcb_at_range s pid b : pcb_at s pid = Some b -> 0 <= pid.
Proof. intros H%lget_range. lia. Qed.
Lemma fd_at_range s pid fd blk : fd_at s pid fd = Some blk -> 0 <= pid /\ 0 <= fd.
Proof.
  unfold fd_at. destruct (pcb_at s pid) as [b|] eqn:Hb; [|done]. cbn. intros H%lget_range.
  apply pcb_at_range in Hb. lia.
Qed.

Lemma pcb_at_with_pcb s pid f pid' :
  0 <= pid -> 0 <= pid' ->
  pcb_at (with_pcb pid f s) pid' =
    if decide (pid = pid') then f <$> pcb_at s pid' else pcb_at s pid'.
Proof. intros. unfold pcb_at, with_pcb. upd. by apply lget_alter. Qed.

Lemma fd_at_with_fd s pid fd blk pid' fd' blk0 :
  fd_at s pid fd = Some blk0 -> 0 <= pid' -> 0 <= fd' ->
  fd_at (with_fd pid fd blk s) pid' fd' =
    if decide (pid = pid' /\ fd = fd') then Some blk else fd_at s pid' fd'.
Proof.
  intros H Hp Hf. pose proof (fd_at_range _ _ _ _ H) as [? ?]. unfold fd_at, with_fd in *.
  rewrite pcb_at_with_pcb by done. destruct (decide (pid = pid')) as [<-|Hne].
  - destruct (pcb_at s pid) as [b|]; [|done]. cbn in *. upd.
    rewrite lget_insert by (by eapply lget_range).
    repeat case_decide; try done; intuition congruence.
  - rewrite decide_False; [done|]. tauto.
Qed.

Lemma with_fd_twice s pid fd blk blk' :
  with_fd pid fd blk (with_fd pid fd blk' s) = with_fd pid fd blk s.
Proof.
  unfold with_fd, with_pcb. etransitivity.
  - instantiate (1 := set s_proc (fun p => set control_blocks
      (alter (set fd_table (<[Z.to_nat fd := blk]>)) (Z.to_nat pid))
      (set control_blocks (alter (set fd_table (<[Z.to_nat fd := blk']>)) (Z.to_nat pid)) p)) s).
    by destruct s.
  - apply set_proc_ext. destruct (s_proc s). unfold set at 1 2 5, control_blocks_upd. cbn.
    f_equal. rewrite list_alter_alter_eq. apply list_alter_ext; [|done].
    intros [] _. cbn. unfold set, fd_table_upd. cbn. f_equal. apply list_insert_insert_eq.
Qed.

Lemma with_fd_same s pid fd blk : fd_at s pid fd = Some blk -> with_fd pid fd blk s = s.
Proof.
  intros H. unfold fd_at in H. destruct (pcb_at s pid) as [b|] eqn:Hb; [|done]. cbn in H.
  transitivity (with_pcb pid (fun b => b) s).
  - eapply with_pcb_ext; [exact Hb|]. destruct b. unfold set, fd_table_upd. cbn in *. f_equal.
    apply list_insert_id. unfold lget in H. by case_decide.
  - destruct s as [? p ? ? ? ? ? ? ? ? ?]. destruct p.
    unfold with_pcb, set, s_proc_upd, control_blocks_upd. cbn. by rewrite list_alter_id.
Qed.

Section rules.
Context {P : Platform}.
Implicit Types (s : kstate).

Lemma wp_get_pcb s pid b (Q : pcb_t -> kstate -> Prop) :
  pcb_at s pid = Some b -> Q b s -> wp (get_pcb pid) Q s.
Proof. intros Hb HQ. unfold get_pcb. wp_pures. by eapply wp_aget_Some. Qed.

Lemma wp_upd_pcb s pid f b (Q : unit -> kstate -> Prop) :
  pcb_at s pid = Some b -> Q tt (with_pcb pid f s) -> wp (upd_pcb pid f) Q s.
Proof.
  intros Hb HQ. unfold upd_pcb. wp_pures. eapply wp_aget_Some; [exact Hb|]. wp_pures.
  eapply wp_of_opt; [by apply lset_alter|]. unfold proc_set. wp_pures. exact HQ.
Qed.

Lemma wp_get_fd_of s pid fd blk (Q : fd_block_t -> kstate -> Prop) :
  fd_at s pid fd = Some blk -> Q blk s -> wp (get_fd_of pid fd) Q s.
Proof.
  unfold fd_at. destruct (pcb_at s pid) as [b|] eqn:Hb; [|done]. cbn. intros Hf HQ.
  unfold get_fd_of. wp_pure. eapply wp_get_pcb; [exact Hb|]. by eapply wp_aget_Some.
Qed.

Lemma wp_put_fd_of s pid fd blk blk0 (Q : unit -> kstate -> Prop) :
  fd_at s pid fd = Some blk0 -> Q tt (with_fd pid fd blk s) -> wp (put_fd_of pid fd blk) Q s.
Proof.
  unfold fd_at. destruct (pcb_at s pid) as [b|] eqn:Hb; [|done]. cbn. intros Hf HQ.
  unfold put_fd_of. wp_pure. eapply wp_get_pcb; [exact Hb|]. wp_pure.
  apply wp_aset; [by eapply lget_range|]. eapply wp_upd_pcb; [exact Hb|].
  unfold with_fd in HQ. erewrite with_pcb_ext; [exact HQ|exact Hb|].
  by apply set_fd_table_ext.
Qed.

Lemma wp_upd_fd_of s pid fd f blk (Q : unit -> kstate -> Prop) :
  fd_at s pid fd = Some blk -> Q tt (with_fd pid fd (f blk) s) ->
  wp (upd_fd_of pid fd f) Q s.
Proof.
  intros Hf HQ. unfold upd_fd_of. wp_pure. eapply wp_get_fd_of; [exact Hf|].
  by eapply wp_put_fd_of.
Qed.

(** The same for the current process. *)
Definition cur_fd s (fd : Z) : option fd_block_t := fd_at s (current_pid (s_proc s)) fd.
Definition with_cur_fd (fd : Z) (blk : fd_block_t) s : kstate :=
  with_fd (current_pid (s_proc s)) fd blk s.

Lemma wp_get_fd s fd blk (Q : fd_block_t -> kstate -> Prop) :
  cur_fd s fd = Some blk -> Q blk s -> wp (get_fd fd) Q s.
Proof. intros. unfold get_fd, get_current_pid. wp_pures. by eapply wp_get_fd_of. Qed.
Lemma wp_put_fd s fd blk blk0 (Q : unit -> kstate -> Prop) :
  cur_fd s fd = Some blk0 -> Q tt (with_cur_fd fd blk s) -> wp (put_fd fd blk) Q s.
Proof. intros. unfold put_fd, get_current_pid. wp_pures. by eapply wp_put_fd_of. Qed.
Lemma wp_upd_fd s fd f blk (Q : unit -> kstate -> Prop) :
  cur_fd s fd = Some blk -> Q tt (with_cur_fd fd (f blk) s) -> wp (upd_fd fd f) Q s.
Proof. intros. unfold upd_fd, get_current_pid. wp_pures. by eapply wp_upd_fd_of. Qed.

Lemma cur_fd_with s fd blk blk0 fd' :
  cur_fd s fd = Some blk0 -> 0 <= fd' ->
  cur_fd (with_cur_fd fd blk s) fd' = if decide (fd = fd') then Some blk else cur_fd s fd'.
Proof.
  intros H Hf. pose proof (fd_at_range _ _ _ _ H) as [Hp _].
  unfold cur_fd, with_cur_fd in *. change (current_pid (s_proc (with_fd _ _ _ _)))
    with (current_pid (s_proc s)).
  erewrite fd_at_with_fd by done. repeat case_decide; try done; tauto.
Qed.
End rules.
