(* ===== verification/Fs.v ===== *)
(** * filesystem_driver.c: the read-only file system *)
From S2P Require Import Prelude State Monad Strings Screen Proc.

Definition MAX_DIR_ENTRIES : Z := 63.
Definition FILE_SIZE : Z := 4096.
Definition FILENAME_SIZE : Z := 32.

(** ** The module in memory *)

Definition fs_byte (f : fs_t) (a : Z) : option Z :=
  if decide (mod_lo f <= a < mod_hi f) then Some (u8 (default 0 (mod_bytes f !! a)))
  else None.
Fixpoint fs_bytes (f : fs_t) (a : Z) (n : nat) : option (list Z) :=
  match n with
  | O => Some []
  | S n => b ← fs_byte f a; bs ← fs_bytes f (a + 1) n; Some (b :: bs)
  end.

(** A little-endian word. *)
Definition le_word (bs : list Z) : Z :=
  fold_right (fun b acc => b + 256 * acc) 0 bs.
Definition fs_word (f : fs_t) (a : Z) : option Z :=
  bs ← fs_bytes f a 4; Some (le_word bs).

(** [boot_block_t]: three words and 52 reserved bytes, then the entries. *)
Definition num_dir_entries (f : fs_t) : option Z := fs_word f (casted_block f).
Definition inodes (f : fs_t) : option Z := fs_word f (u32 (casted_block f + 4)).

(** [dir_entry_t], as its 64 bytes: 32 of name, type, inode, 24 reserved. *)
Definition dir_entry_t : Type := list Z.
Definition dentry_size : Z := 64.
Definition filename (d : dir_entry_t) : list Z := take 32 d.
Definition file_type (d : dir_entry_t) : Z := le_word (take 4 (drop 32 d)).
Definition inode_num (d : dir_entry_t) : Z := le_word (take 4 (drop 36 d)).

Definition dir_entry_addr (f : fs_t) (i : Z) : Z :=
  u32 (casted_block f + 64 + i * dentry_size).
Definition dir_entries (f : fs_t) (i : Z) : option dir_entry_t :=
  fs_bytes f (dir_entry_addr f i) 64.

(** [node_list[inode].B_length] and [node_list[inode].data_blocks[k]] *)
Definition B_length (f : fs_t) (inode : Z) : option Z :=
  fs_word f (u32 (node_list f + inode * FILE_SIZE)).
Definition data_blocks (f : fs_t) (inode k : Z) : option Z :=
  fs_word f (u32 (node_list f + inode * FILE_SIZE + 4 + 4 * k)).
(** [&data_list[curr]] *)
Definition data_block_addr (f : fs_t) (curr : Z) : Z :=
  u32 (data_list f + curr * FILE_SIZE).

Section fs.
Context {P : Platform}.

Definition get_fs : M fs_t := gets s_fs.
Definition fs_read {A} (g : fs_t -> option A) : M A :=
  f <- get_fs ;; of_opt OutOfBounds (g f).

Definition boot_block_init (addr : Z) : M unit :=
  modify (set s_fs (set casted_block (fun _ => addr))) ;;
  modify (set s_fs (set node_list (fun _ => u32 (addr + FILE_SIZE)))) ;;
  n <- fs_read inodes ;;
  modify (set s_fs (set data_list (fun _ => u32 (addr + FILE_SIZE + n * FILE_SIZE)))).

(** The search loop of [read_dentry_by_name]; [n] entries are left. *)
Fixpoint dentry_search (n : nat) (i : Z) (fname : list Z) (dentry : dir_entry_t)
  : M (Z * dir_entry_t) :=
  match n with
  | O => ret (FAILURE, dentry)
  | S n =>
      d <- fs_read (fun f => dir_entries f i) ;;
      c <- aget (filename d) 0 ;;
      if c =? 0 then dentry_search n (i + 1) fname dentry
      else
        r <- of_opt OutOfBounds (strncmp d (fname ++ [0]) FILENAME_SIZE) ;;
        if r =? 0 then ret (SUCCESS, d) else dentry_search n (i + 1) fname dentry
  end.

(** [fname] is the text of the string; [dentry] the contents of the entry the
    caller passes, and the second result what it holds afterwards. *)
Definition read_dentry_by_name (fname : list Z) (dentry : dir_entry_t)
  : M (Z * dir_entry_t) :=
  n <- of_opt OutOfBounds (strlen (fname ++ [0])) ;;
  if n =? 0 then ret (FAILURE, dentry)
  else if 32 <? n then ret (FAILURE, dentry)
  else dentry_search (Z.to_nat MAX_DIR_ENTRIES) 0 fname dentry.

Definition read_dentry_by_index (index : Z) (dentry : dir_entry_t)
  : M (Z * dir_entry_t) :=
  max_inodes <- fs_read inodes ;;
  if u32 (max_inodes - 1) <? u32 index then ret (-1, dentry)
  else d <- fs_read (fun f => dir_entries f (u32 index)) ;; ret (0, d).

(** The copy loop of [read_data]: the result, the bytes written to [buf]
    from its start, and whether the file position advances by the result.
    Every round raises [i], and [i] stops at [length] or at [num]. *)
Fixpoint read_loop (fuel : nat) (f : fs_t) (inode num pos length : Z)
  (i j loop data_pointer : Z) : option (Z * list Z * bool) :=
  match fuel with
  | O => None
  | S fuel =>
      if length =? i then Some (i, [], true)
      else if i =? num then
        b ← fs_byte f (data_pointer + j); Some (i, [b], true)
      else if num <=? u32 (pos + i) then Some (0, [], false)
      else
        b ← fs_byte f (data_pointer + j);
        r ← (if (j + 1) mod FILE_SIZE =? 0 then
               blk ← data_blocks f inode (loop + 1);
               read_loop fuel f inode num pos length (i + 1) 0 (loop + 1)
                 (data_block_addr f blk)
             else
               read_loop fuel f inode num pos length (i + 1) (j + 1) loop data_pointer);
        let '(n, bs, adv) := r in Some (n, b :: bs, adv)
  end.

(** [read_data]: its result, and the bytes it writes to [buf]. *)
Definition read_data (fd offset length : Z) : M (Z * list Z) :=
  let offset := u32 offset in
  let length := u32 length in
  blk <- get_fd fd ;;
  let inode := fd_inode blk in
  max_inodes <- fs_read inodes ;;
  if max_inodes <? inode then ret (-1, [])
  else
    curr <- fs_read (fun f => data_blocks f inode (offset / FILE_SIZE)) ;;
    num <- fs_read (fun f => B_length f inode) ;;
    if num =? 0 then ret (0, [])
    else if num <? file_position blk then ret (0, [])
    else
      r <- fs_read (fun f =>
             read_loop (S (Z.to_nat (Z.min num length))) f inode num
               (file_position blk) length 0 (offset mod FILE_SIZE)
               (offset / FILE_SIZE) (data_block_addr f curr)) ;;
      let '(n, bs, advance) := r in
      (if advance : bool then
         upd_fd fd (set file_position (fun p => u32 (p + n)))
       else ret tt) ;;
      ret (n, bs).

(** The scan for a free descriptor, from [i] on, [n] rounds; [last] is the
    index at which the loop gives up. *)
Inductive scan := ScanFound (i : Z) | ScanFail | ScanEnd.
Fixpoint scan_fds (n : nat) (i last : Z) : M scan :=
  match n with
  | O => ret ScanEnd
  | S n =>
      b <- get_fd i ;;
      if fd_flags b =? -1 then ret (ScanFound i)
      else if i =? last then ret ScanFail
      else scan_fds n (i + 1) last
  end.

(** An entry on the stack that nothing has written yet. *)
Definition junk_dentry : dir_entry_t := replicate 64 (u8 stack_junk).

Definition file_open (fname : list Z) : M Z :=
  r <- read_dentry_by_name fname junk_dentry ;;
  let '(ret_, dentry) := r in
  if ret_ =? -1 then ret ret_
  else
    o <- scan_fds (Z.to_nat (FDT_SIZE - 2)) 2 FDT_SIZE ;;
    match o with
    | ScanFail => ret (-1)
    | ScanFound open => 
        t <- table_pointer file_table ;;
        put_fd open (mk_fd t (inode_num dentry) 0 1) ;; ret open
    | ScanEnd =>
        t <- table_pointer file_table ;;
        put_fd 0 (mk_fd t (inode_num dentry) 0 1) ;; ret 0
    end.

Definition file_close (fd : Z) : M Z :=
  if (fd <? 2) || (FDT_SIZE <=? fd) then ret (-1)
  else
    b <- get_fd fd ;;
    if fd_flags b =? -1 then ret (-1)
    else upd_fd fd free_fd ;; ret 0.

Definition file_write (fd : Z) (buf : list Z) (nbytes : Z) : M Z := ret (-1).

Definition file_read (fd nbytes : Z) : M (Z * list Z) :=
  b <- get_fd fd ;; read_data fd (file_position b) nbytes.

Definition directory_open (fname : list Z) : M Z :=
  r <- read_dentry_by_name fname junk_dentry ;;
  let '(ret_, dentry) := r in
  if ret_ =? -1 then ret ret_
  else
    o <- scan_fds (Z.to_nat (FDT_SIZE - 2)) 2 (FDT_SIZE - 1) ;;
    match o with
    | ScanFail => ret (-1)
    | ScanFound open =>
        t <- table_pointer dir_table ;;
        n <- fs_read num_dir_entries ;;
        put_fd open (mk_fd t 0 0 (s32 n)) ;; ret open
    | ScanEnd =>
        t <- table_pointer dir_table ;;
        n <- fs_read num_dir_entries ;;
        put_fd 0 (mk_fd t 0 0 (s32 n)) ;; ret 0
    end.

Definition directory_close (fd : Z) : M Z :=
  if (fd <? 2) || (FDT_SIZE <=? fd) then ret (-1)
  else
    b <- get_fd fd ;;
    if fd_flags b =? -1 then ret (-1)
    else upd_fd fd free_fd ;; ret 0.

Definition directory_write (fd : Z) (buf : list Z) (nbytes : Z) : M Z := ret (-1).

(** The copy of a name: the bytes written and the index at the end; the
    index runs over the whole entry when the name has no NUL. *)
Fixpoint copy_name (n : nat) (dentry : dir_entry_t) : option (Z * list Z) :=
  match n with
  | O => Some (0, [])
  | S n =>
      match dentry with
      | [] => None
      | c :: dentry =>
          if c =? 0 then Some (0, [0])
          else r ← copy_name n dentry; let '(k, bs) := r in Some (k + 1, c :: bs)
      end
  end.

Definition dir_step (b : fd_block_t) : fd_block_t :=
  set file_position (fun p => u32 (p + 1)) b.

(** Each round but the last raises [file_position], which stops at
    [MAX_DIR_ENTRIES]; a negative [nbytes] copies nothing for ever. *)
Fixpoint directory_read_loop (fuel : nat) (fd nbytes : Z) (dentry : dir_entry_t)
  : M (Z * list Z) :=
  match fuel with
  | O => stop_with Hang
  | S fuel =>
      b <- get_fd fd ;;
      if (fd_flags b =? 0) || (file_position b =? MAX_DIR_ENTRIES) then ret (0, [])
      else
        r <- read_dentry_by_index (file_position b) dentry ;;
        let dentry := snd r in
        c <- aget (filename dentry) 0 ;;
        if c =? 0 then
          upd_fd fd dir_step ;; directory_read_loop fuel fd nbytes dentry
        else if nbytes <? 0 then stop_with Hang
        else
          k <- of_opt OutOfBounds (copy_name (Z.to_nat nbytes) dentry) ;;
          upd_fd fd dir_step ;;
          upd_fd fd (set fd_flags (fun n => s32 (n - 1))) ;;
          ret k
  end.
Definition directory_read (fd nbytes : Z) : M (Z * list Z) :=
  b <- get_fd fd ;;
  directory_read_loop (S (Z.to_nat (u32 (MAX_DIR_ENTRIES - file_position b))))
    fd nbytes junk_dentry.
End fs.
