(* ===== verification/FsSpec.v ===== *)
(** * The file system: what reading, searching and opening do *)
From S2P Require Import Prelude State Monad Logic Strings Screen Proc ProcSpec Fs.

(** ** Files as sequences of bytes *)

(** Byte [i] of the file of [inode]: through its list of blocks. *)
Definition file_byte (f : fs_t) (inode i : Z) : option Z :=
  blk ← data_blocks f inode (i / FILE_SIZE);
  fs_byte f (data_block_addr f blk + i mod FILE_SIZE).

(** Bytes [i], ..., [i + n - 1]. *)
Fixpoint file_bytes (f : fs_t) (inode i : Z) (n : nat) : option (list Z) :=
  match n with
  | O => Some []
  | S n => b ← file_byte f inode i; bs ← file_bytes f inode (i + 1) n; Some (b :: bs)
  end.

(** The inode describes a file of [size] bytes; the byte after the last one,
    which [read_data] may copy, is in the module too. *)
Record file_ok (f : fs_t) (inode size : Z) : Prop := {
  fo_inode : exists n, inodes f = Some n /\ inode <= n;
  fo_size : B_length f inode = Some size;
  fo_bytes : forall i, 0 <= i <= size -> is_Some (file_byte f inode i);
  fo_range : 0 <= size < 2147483648;
}.

Lemma file_byte_block f inode i b :
  file_byte f inode i = Some b ->
  exists blk, data_blocks f inode (i / FILE_SIZE) = Some blk /\
    fs_byte f (data_block_addr f blk + i mod FILE_SIZE) = Some b.
Proof.
  unfold file_byte. destruct (data_blocks f inode (i / FILE_SIZE)) as [blk|]; [|done].
  eauto.
Qed.

Lemma file_bytes_length f inode n : forall i bs,
  file_bytes f inode i n = Some bs -> length bs = n.
Proof.
  induction n as [|n IH]; intros i bs; cbn [file_bytes]; [by intros [= <-]|].
  destruct (file_byte f inode i); [|done]. cbn.
  destruct (file_bytes f inode (i + 1) n) eqn:E; [|done]. cbn. intros [= <-].
  cbn. f_equal. by eapply IH.
Qed.

Lemma file_bytes_app f inode n m : forall i,
  file_bytes f inode i (n + m) =
    (bs ← file_bytes f inode i n; cs ← file_bytes f inode (i + Z.of_nat n) m; Some (bs ++ cs)).
Proof.
  induction n as [|n IH]; intros i; cbn [file_bytes Nat.add].
  - rewrite Z.add_0_r. cbn. by destruct (file_bytes f inode i m).
  - rewrite IH. destruct (file_byte f inode i); [|done]. cbn.
    replace (i + 1 + Z.of_nat n) with (i + Z.of_nat (S n)) by lia.
    destruct (file_bytes f inode (i + 1) n); [|done]. cbn.
    by destruct (file_bytes f inode (i + Z.of_nat (S n)) m).
Qed.

Lemma file_ok_bytes f inode size i n :
  file_ok f inode size -> 0 <= i -> i + Z.of_nat n <= size + 1 ->
  exists bs, file_bytes f inode i n = Some bs.
Proof.
  intros F. revert i. induction n as [|n IH]; intros i Hi Hn; cbn [file_bytes]; [eauto|].
  destruct (fo_bytes _ _ _ F i) as [b ->]; [lia|].
  destruct (IH (i + 1)) as [bs ->]; [lia|lia|]. cbn. eauto.
Qed.

(** ** The copy loop *)

(** What a read of [len] bytes at [pos] gives: result, number of bytes
    written to the buffer, and the new position. *)
Definition read_plan (size pos len : Z) : Z * Z * Z :=
  if (size =? 0) || (size <? pos) then (0, 0, pos)
  else if len <=? size - pos then (len, len, pos + len)
  else if pos =? 0 then (size, size + 1, size)
  else (0, size - pos, pos).

Section read_loop.
Context (f : fs_t) (inode size pos len : Z).
Hypothesis (F : file_ok f inode size).
Hypothesis (Hpos : 0 <= pos <= size) (Hsize : 0 < size) (Hlen : 0 <= len < 4294967296).

(** The block pointer follows the position. *)
Lemma read_loop_spec fuel : forall i blk,
  0 <= i <= len -> pos + i <= size -> i <= size ->
  data_blocks f inode ((pos + i) / FILE_SIZE) = Some blk ->
  (Z.to_nat (Z.min size len - i) < fuel)%nat ->
  read_loop fuel f inode size pos len i ((pos + i) mod FILE_SIZE) ((pos + i) / FILE_SIZE)
    (data_block_addr f blk) =
  (bs ← file_bytes f inode (pos + i)
     (Z.to_nat (snd (fst (read_plan size pos len)) - i));
   Some (if len <=? size - pos then (len, bs, true)
         else if pos =? 0 then (size, bs, true) else (0, bs, false))).
Proof.
  assert (Hsz : (size =? 0) || (size <? pos) = false).
  { rewrite (proj2 (Z.eqb_neq _ _)), (proj2 (Z.ltb_ge _ _)) by lia. done. }
  unfold read_plan. rewrite Hsz. pose proof (fo_range _ _ _ F).
  induction fuel as [|fuel IH]; intros i blk Hi Hp Hs Hblk Hfuel; [lia|].
  cbn [read_loop]. destruct (Z.eqb_spec len i) as [<-|Hne].
  { rewrite (proj2 (Z.leb_le _ _)) by lia. cbn. by rewrite Z.sub_diag. }
  destruct (fo_bytes _ _ _ F (pos + i)) as [b Hb]; [lia|].
  destruct (file_byte_block _ _ _ _ Hb) as (blk' & Hblk' & Hbyte).
  rewrite Hblk in Hblk'. injection Hblk' as <-.
  destruct (Z.eqb_spec i size) as [->|Hisz].
  { assert (pos = 0) by lia. rewrite Hbyte. cbn.
    rewrite (proj2 (Z.leb_gt _ _)), (proj2 (Z.eqb_eq pos 0)) by lia. cbn.
    replace (Z.to_nat (size + 1 - size)) with 1%nat by lia.
    cbn [file_bytes]. rewrite Hb. done. }
  rewrite u32_small by lia. destruct (Z.leb_spec size (pos + i)) as [Hend|Hmore].
  { rewrite (proj2 (Z.leb_gt _ _)), (proj2 (Z.eqb_neq pos 0)) by lia. cbn.
    replace (Z.to_nat (size - pos - i)) with 0%nat by lia. done. }
  rewrite Hbyte. cbn [mbind option_bind].
  destruct (fo_bytes _ _ _ F (pos + (i + 1))) as [b1 Hb1]; [lia|].
  destruct (file_byte_block _ _ _ _ Hb1) as (blk1 & Hblk1 & _).
  assert (Hnext : (if ((pos + i) mod FILE_SIZE + 1) mod FILE_SIZE =? 0 then
      blk ← data_blocks f inode ((pos + i) / FILE_SIZE + 1);
      read_loop fuel f inode size pos len (i + 1) 0 ((pos + i) / FILE_SIZE + 1)
        (data_block_addr f blk)
    else read_loop fuel f inode size pos len (i + 1) ((pos + i) mod FILE_SIZE + 1)
      ((pos + i) / FILE_SIZE) (data_block_addr f blk)) =
    read_loop fuel f inode size pos len (i + 1) ((pos + (i + 1)) mod FILE_SIZE)
      ((pos + (i + 1)) / FILE_SIZE) (data_block_addr f blk1)).
  { unfold FILE_SIZE in *. destruct (Z.eqb_spec (((pos + i) mod 4096 + 1) mod 4096) 0).
    - replace ((pos + i) / 4096 + 1) with ((pos + (i + 1)) / 4096) by divlia.
      rewrite Hblk1. cbn. f_equal. divlia.
    - replace ((pos + (i + 1)) / 4096) with ((pos + i) / 4096) in * by divlia.
      rewrite Hblk in Hblk1. injection Hblk1 as <-. f_equal. divlia. }
  rewrite Hnext, (IH (i + 1) blk1) by (done || lia). clear Hnext IH.
  assert (Hk : Z.to_nat (snd (fst (if len <=? size - pos then (len, len, pos + len)
      else if pos =? 0 then (size, size + 1, size) else (0, size - pos, pos))) - i) =
    S (Z.to_nat (snd (fst (if len <=? size - pos then (len, len, pos + len)
      else if pos =? 0 then (size, size + 1, size) else (0, size - pos, pos))) - (i + 1)))).
  { destruct (Z.leb_spec len (size - pos)), (Z.eqb_spec pos 0); cbn; lia. }
  rewrite Hk. cbn [file_bytes]. rewrite Hb. cbn [mbind option_bind].
  rewrite Z.add_assoc. destruct (file_bytes f inode (pos + i + 1) _); [|done]. cbn.
  by destruct (len <=? size - pos), (pos =? 0).
Qed.
End read_loop.

Lemma set_position_same blk : set file_position (fun _ => file_position blk) blk = blk.
Proof. by destruct blk. Qed.
Lemma set_position_u32 blk n :
  0 <= file_position blk + n < 4294967296 ->
  set file_position (fun p => u32 (p + n)) blk =
    set file_position (fun _ => file_position blk + n) blk.
Proof.
  destruct blk. unfold set, file_position_upd. cbn. intros H. by rewrite u32_small.
Qed.

Section fs_facts.
Context {P : Platform}.
Implicit Types (s : kstate).

Lemma wp_fs_read {A} (g : fs_t -> option A) v s (Q : A -> kstate -> Prop) :
  g (s_fs s) = Some v -> Q v s -> wp (fs_read g) Q s.
Proof. intros Hv HQ. unfold fs_read, get_fs. wp_pures. by eapply wp_of_opt. Qed.

(** ** Reading *)

Lemma wp_file_read s fd blk size len (Q : Z * list Z -> kstate -> Prop) :
  cur_fd s fd = Some blk -> file_ok (s_fs s) (fd_inode blk) size ->
  0 <= file_position blk <= size ->
  (forall bs, let '(r, n, pos') := read_plan size (file_position blk) (u32 len) in
    file_bytes (s_fs s) (fd_inode blk) (file_position blk) (Z.to_nat n) = Some bs ->
    Q (r, bs) (with_cur_fd fd (set file_position (fun _ => pos') blk) s)) ->
  wp (file_read fd len) Q s.
Proof.
  intros Hfd F Hpos HQ. pose proof (fo_range _ _ _ F) as Hrange.
  pose proof (u32_range len) as Hlen.
  destruct (fo_inode _ _ _ F) as (n & Hn & Hin).
  assert (Hsame : with_cur_fd fd (set file_position (fun _ => file_position blk) blk) s = s).
  { apply with_fd_same. rewrite set_position_same. exact Hfd. }
  destruct (fo_bytes _ _ _ F (file_position blk)) as [b Hb]; [done|].
  destruct (file_byte_block _ _ _ _ Hb) as (blk0 & Hblk0 & _).
  unfold file_read. wp_pure. eapply wp_get_fd; [exact Hfd|].
  unfold read_data. rewrite u32_small by lia. wp_pure. eapply wp_get_fd; [exact Hfd|].
  wp_pure. eapply wp_fs_read; [exact Hn|]. rewrite (proj2 (Z.ltb_ge _ _)) by done.
  wp_pure. eapply wp_fs_read; [exact Hblk0|].
  wp_pure. eapply wp_fs_read; [apply F|].
  destruct (Z.eqb_spec size 0) as [->|Hsz0].
  { wp_pures. specialize (HQ []). unfold read_plan in HQ. cbn in HQ.
    rewrite Hsame in HQ. by apply HQ. }
  rewrite (proj2 (Z.ltb_ge _ _)) by lia.
  pose proof (read_loop_spec (s_fs s) (fd_inode blk) size (file_position blk) (u32 len)
    F Hpos ltac:(lia) Hlen (S (Z.to_nat (Z.min size (u32 len)))) 0 blk0) as Hloop.
  rewrite Z.add_0_r in Hloop. specialize (Hloop ltac:(lia) ltac:(lia) ltac:(lia) Hblk0 ltac:(lia)).
  assert (Hplan : exists bs, file_bytes (s_fs s) (fd_inode blk) (file_position blk)
     (Z.to_nat (snd (fst (read_plan size (file_position blk) (u32 len))))) = Some bs).
  { apply (file_ok_bytes _ _ size); [done|lia|]. unfold read_plan.
    repeat case_match; cbn; lia. }
  destruct Hplan as [bs Hbs]. rewrite Z.sub_0_r, Hbs in Hloop. cbn [mbind option_bind] in Hloop.
  wp_pure. eapply wp_fs_read; [exact Hloop|]. specialize (HQ bs). clear Hloop.
  revert HQ Hbs. unfold read_plan.
  rewrite (proj2 (Z.eqb_neq size 0)), (proj2 (Z.ltb_ge size _)) by lia. cbn [orb].
  destruct (Z.leb_spec (u32 len) (size - file_position blk)) as [Hfit|Hfit];
    [|destruct (Z.eqb_spec (file_position blk) 0) as [H0|H0]]; cbn [fst snd];
    intros HQ Hbs; wp_pures.
  - eapply wp_upd_fd; [exact Hfd|]. wp_pures.
    rewrite set_position_u32 by lia. by apply HQ.
  - eapply wp_upd_fd; [exact Hfd|]. wp_pures.
    rewrite set_position_u32 by lia. rewrite H0 in *. rewrite Z.add_0_l. by apply HQ.
  - rewrite Hsame in HQ. by apply HQ.
Qed.

(** ** Searching the directory *)

Definition name_of (d : dir_entry_t) : list Z := upto0 (filename d).

(** Entries [i], ..., [i + n - 1] of the boot block. *)
Fixpoint entries (f : fs_t) (n : nat) (i : Z) : option (list dir_entry_t) :=
  match n with
  | O => Some []
  | S n => d ← dir_entries f i; ds ← entries f n (i + 1); Some (d :: ds)
  end.
Definition directory (f : fs_t) : option (list dir_entry_t) :=
  entries f (Z.to_nat MAX_DIR_ENTRIES) 0.

(** The first entry with that name; an empty or too long name has none. *)
Fixpoint first_named (ds : list dir_entry_t) (fname : list Z) : option dir_entry_t :=
  match ds with
  | [] => None
  | d :: ds => if decide (name_of d = fname) then Some d else first_named ds fname
  end.
Definition lookup_name (ds : list dir_entry_t) (fname : list Z) : option dir_entry_t :=
  if decide (0 < Z.of_nat (length fname) <= 32) then first_named ds fname else None.

Lemma fs_bytes_range f n : forall a bs,
  fs_bytes f a n = Some bs -> length bs = n /\ Forall (fun c => 0 <= c < 256) bs.
Proof.
  induction n as [|n IH]; intros a bs; cbn [fs_bytes]; [by intros [= <-]|].
  destruct (fs_byte f a) as [b|] eqn:Hb; [|done]. cbn.
  destruct (fs_bytes f (a + 1) n) as [bs'|] eqn:Hbs; [|done]. cbn. intros [= <-].
  destruct (IH _ _ Hbs) as [Hl Hf]. split; [cbn; by f_equal|].
  constructor; [|done]. unfold fs_byte in Hb. case_decide; [|done].
  injection Hb as <-. apply u8_range.
Qed.

Lemma dentry_search_spec s fname dentry n : forall i ds,
  entries (s_fs s) n i = Some ds -> Forall (fun c => 0 < c < 256) fname ->
  0 < Z.of_nat (length fname) <= 32 ->
  dentry_search n i fname dentry s =
    Ret (match first_named ds fname with
         | Some d => (SUCCESS, d) | None => (FAILURE, dentry) end) s.
Proof.
  induction n as [|n IH]; intros i ds Hds Hf Hlen; cbn [entries dentry_search] in *.
  { by injection Hds as <-. }
  destruct (dir_entries (s_fs s) i) as [d|] eqn:Hd; [|done]. cbn in Hds.
  destruct (entries (s_fs s) n (i + 1)) as [ds'|] eqn:Hds'; [|done]. injection Hds as <-.
  specialize (IH (i + 1) ds' Hds' Hf Hlen).
  destruct (fs_bytes_range _ _ _ _ Hd) as [Hdl Hdb].
  destruct d as [|c d]; [done|]. cbn [first_named].
  erewrite bind_Ret by (unfold fs_read; erewrite bind_Ret by reflexivity;
    by apply of_opt_Some).
  erewrite bind_Ret by (by apply of_opt_Some).
  assert (Hname : name_of (c :: d) = if c =? 0 then [] else c :: upto0 (take 31 d)) by done.
  destruct (Z.eqb_spec c 0) as [->|Hc].
  - rewrite IH, decide_False; [done|]. rewrite Hname. intros <-. cbn in Hlen. lia.
  - destruct (strncmp_loop_field 32 (c :: d) fname) as (r & Hr & Hiff); [done|done|lia|lia|].
    erewrite bind_Ret by (apply of_opt_Some; exact Hr).
    fold (filename (c :: d)) in Hiff. fold (name_of (c :: d)) in Hiff.
    destruct (Z.eqb_spec r 0) as [->|Hr0].
    + rewrite decide_True by tauto. done.
    + rewrite decide_False by tauto. apply IH.
Qed.

Lemma read_dentry_spec s fname dentry ds :
  directory (s_fs s) = Some ds -> Forall (fun c => 0 < c < 256) fname ->
  read_dentry_by_name fname dentry s =
    Ret (match lookup_name ds fname with
         | Some d => (SUCCESS, d) | None => (FAILURE, dentry) end) s.
Proof.
  intros Hds Hf. unfold read_dentry_by_name, lookup_name.
  assert (Hlen : strlen (fname ++ [0]) = Some (Z.of_nat (length fname))).
  { apply strlen_cstring. split; [done|by exists []]. }
  erewrite bind_Ret by (by apply of_opt_Some).
  destruct (Z.eqb_spec (Z.of_nat (length fname)) 0).
  { rewrite decide_False by lia. done. }
  destruct (Z.ltb_spec 32 (Z.of_nat (length fname))).
  { rewrite decide_False by lia. done. }
  rewrite decide_True by lia. apply dentry_search_spec; [done|done|lia].
Qed.
End fs_facts.
