(* ===== verification/Rtc.v ===== *)
(** * rtc_driver.c: the real-time clock *)
From S2P Require Import Prelude State Monad Screen Proc Fs.

Definition MAX_RTC_RATE : Z := 32768.
Definition CMOS_REG : Z := 0x70.
Definition RTC_REG : Z := 0x71.

Section rtc.
Context {P : Platform}.

Definition rtc_set (f : rtc_t -> rtc_t) : M unit := modify (set s_rtc f).

Definition rtc_optable : M unit :=
  fill_table rtc_table (mk_optable fn_rtc_open fn_rtc_read fn_rtc_write fn_rtc_close).

(** Is a descriptor of the current process an open clock? *)
Fixpoint rtc_open_already (n : nat) (i : Z) (rtc : option optab) : M bool :=
  match n with
  | O => ret false
  | S n =>
      b <- get_fd i ;;
      if fd_flags b =? -1 then rtc_open_already n (i + 1) rtc
      else if decide (file_operations_pointer b = rtc) then ret true
      else rtc_open_already n (i + 1) rtc
  end.

(** The bytes that set [rate] in register A. *)
Definition rtc_send_rate (rate : Z) : M unit :=
  outb 0x8A CMOS_REG ;;
  exisiting <- inb RTC_REG ;;
  outb 0x8A CMOS_REG ;;
  outb (Z.lor (Z.land exisiting 0xF0) rate) RTC_REG.

Definition rtc_open (fname : list Z) : M Z :=
  flags <- cli_and_save ;;
  rtc <- table_pointer rtc_table ;;
  already <- rtc_open_already (Z.to_nat (FDT_SIZE - 2)) 2 rtc ;;
  if already : bool then ret (-1)
  else
    o <- scan_fds (Z.to_nat (FDT_SIZE - 2)) 2 FDT_SIZE ;;
    match o with
    | ScanFail => ret (-1)
    | _ =>
        let open := match o with ScanFound i => i | _ => 0 end in
        rtc_send_rate 15 ;;
        restore_flags flags ;;
        put_fd open (mk_fd rtc 0 (u32 stack_junk) 1) ;;
        sti ;;
        ret open
    end.

Definition rtc_close (fd : Z) : M Z :=
  cli ;;
  if (fd <? 2) || (FDT_SIZE <=? fd) then ret (-1)
  else
    b <- get_fd fd ;;
    if fd_flags b =? 0 then ret (-1)
    else upd_fd fd free_fd ;; sti ;; ret 0.

Definition set_virtual (i v : Z) : M unit :=
  a <- gets (fun s => rtc_virtual_interupt (s_rtc s)) ;;
  a' <- aset a i v ;;
  rtc_set (set rtc_virtual_interupt (fun _ => a')).

Definition rtc_waits (cip : Z) (s : kstate) : bool :=
  match lget (rtc_virtual_interupt (s_rtc s)) cip with
  | Some v => v <? 1
  | None => false
  end.

Definition rtc_read (on_irq : irq -> M unit) (fd nbytes : Z) : M (Z * list Z) :=
  cip <- gets (fun s => current_process (s_sched s)) ;;
  sti ;;
  set_virtual cip 0 ;;
  spin_while (rtc_waits cip) on_irq ;;
  set_virtual cip 0 ;;
  cli ;;
  ret (SUCCESS, []).

(** The loop over the powers of two: the rate, or [None] when none matches. *)
Fixpoint rtc_rate_loop (fuel : nat) (mask rate passed_rate : Z) : option Z :=
  match fuel with
  | O => None
  | S fuel =>
      if mask <=? MAX_RTC_RATE then
        if mask =? passed_rate then Some rate
        else if mask =? MAX_RTC_RATE then None
        else rtc_rate_loop fuel (mask * 2) (rate - 1) passed_rate
      else Some rate
  end.

(** [passed_rate] after [memcpy(&passed_rate, buf, rate_size)]. *)
Definition rtc_passed (buf : list Z) (rate_size : Z) : M Z :=
  let n := u32 rate_size in
  let junk := u32 stack_junk in
  let old := [u8 junk; u8 (Z.shiftr junk 8); u8 (Z.shiftr junk 16); u8 (Z.shiftr junk 24)] in
  if (4 <? n) || (Z.of_nat (length buf) <? n) then stop_with (Fault OutOfBounds)
  else ret (s32 (le_word (take (Z.to_nat n) buf ++ drop (Z.to_nat n) old))).

Definition rtc_write (fd : Z) (buf : list Z) (rate_size : Z) : M Z :=
  flags <- cli_and_save ;;
  passed_rate <- rtc_passed buf rate_size ;;
  match rtc_rate_loop 16 2 0x0F passed_rate with
  | None => ret FAILURE
  | Some rate =>
      cp <- gets (fun s => current_process (s_sched s)) ;;
      r <- gets (fun s => rtc_running (s_rtc s)) ;;
      r' <- aset r cp passed_rate ;;
      rtc_set (set rtc_running (fun _ => r')) ;;
      set_virtual cp 0 ;;
      flags <- cli_and_save ;;
      rtc_send_rate rate ;;
      restore_flags flags ;;
      ret 0
  end.
End rtc.
