(* ===== verification/Terminal.v ===== *)
(** * terminal.c: the terminal driver *)
From S2P Require Import Prelude State Monad Strings Screen Pic Mem Proc.

Definition LSB8 : Z := 0xFF.
Definition SWITCH_OFF : Z := 0.
Definition SWITCH_ON : Z := 1.
Definition SWITCH_HOLD : Z := 2.
Definition NUM_TERMINALS : Z := 3.
Definition MAX_BUFFER_SIZE : Z := 128.
Definition MAX_CHARACTERS : Z := 127.
Definition VIDEO_1 : Z := 0xB9000.
Definition IRQ0 : Z := 0.
Definition IRQ1 : Z := 1.
Definition IRQ2 : Z := 2.
Definition IRQ8 : Z := 8.

Section terminal.
Context {P : Platform}.

Definition term_set (f : term_t -> term_t) : M unit := modify (set s_term f).
Definition kbd_set (f : kbd_t -> kbd_t) : M unit := modify (set s_kbd f).
Definition sched_set (f : sched_t -> sched_t) : M unit := modify (set s_sched f).
Definition get_current_terminal : M Z := gets (fun s => current_terminal (s_term s)).
Definition get_current_process : M Z := gets (fun s => current_process (s_sched s)).

(** ** The VGA cursor *)

Definition cursor_enable_spec (top_scanline bottom_scanline : Z) : M unit :=
  outb 0x0a 0x3D4 ;;
  b <- inb 0x3D5 ;; outb (Z.lor (Z.land b 0xC0) top_scanline) 0x3D5 ;;
  outb 0x0B 0x3D4 ;;
  b <- inb 0x3D5 ;; outb (Z.lor (Z.land b 0xE0) bottom_scanline) 0x3D5.

Definition cursor_enable : M unit :=
  outb 0x0A 0x3D4 ;; outb 0x00 0x3D5 ;; outb 0x0B 0x3D4 ;; outb NUM_ROWS 0x3D5.

Definition cursor_disable : M unit := outb 0x0A 0x3D4 ;; outb 0x20 0x3D5.

Definition cursor_update_spec (x_position y_position : Z) : M unit :=
  let screen_position := u16 (y_position * NUM_COLS + x_position) in
  outb 0x0E 0x3D4 ;;
  outb (u8 (Z.land (Z.shiftr screen_position 8) LSB8)) 0x3D5 ;;
  outb 0x0F 0x3D4 ;;
  outb (u8 (Z.land screen_position LSB8)) 0x3D5.

Definition cursor_update : M unit :=
  x <- get_screen_x ;; y <- get_screen_y ;; cursor_update_spec x y.

Definition cursor_update_left (amount : Z) : M unit :=
  x <- get_screen_x ;; set_screen_x (x - amount) ;; cursor_update.
Definition cursor_update_right (amount : Z) : M unit :=
  x <- get_screen_x ;; set_screen_x (x + amount) ;; cursor_update.

Definition cursor_position : M Z :=
  outb 0x0F 0x3D4 ;;
  lo <- inb 0x3D5 ;;
  outb 0x0E 0x3D4 ;;
  hi <- inb 0x3D5 ;;
  ret (u16 (Z.lor (Z.lor 0 lo) (Z.shiftl hi 8))).

(** ** Output *)

(** One round of the loop of [terminal_write]. *)
Definition terminal_write_char (c : Z) : M unit :=
  x <- get_screen_x ;;
  let call_next_line := x =? NUM_COLS - 1 in
  (if c =? 10 then ret tt
   else
     putc c ;;
     k <- gets (fun s => key_flag (s_kbd s)) ;;
     (if k =? 0 then ret tt else kbd_set (set key_flag (fun _ => 0)))) ;;
  (if call_next_line || (c =? 10) then sti ;; next_line ;; cli else ret tt).

Definition terminal_write (fd : Z) (buf : list Z) (nbytes : Z) : M Z :=
  if nbytes <? 1 then ret FAILURE
  else
    cli ;;
    for_up 0 nbytes (fun i => c <- aget buf i ;; terminal_write_char c) ;;
    cursor_update ;;
    send_eoi IRQ1 ;;
    sti ;;
    ret nbytes.

Definition terminal_print (str : list Z) : M unit :=
  terminal_write 1 str (Z.of_nat (length str)) ;; ret tt.

Definition terminal_backspace : M unit := backspace ;; cursor_update.

Definition terminal_clear : M unit :=
  clear ;; set_screen_x 0 ;; set_screen_y 0 ;; cursor_update.

Definition reset_terminal_keyboard_input (index size : Z) : M unit :=
  cursor_update_right (size - index) ;;
  for_up 0 size (fun _ => terminal_backspace).

(** ** The return switch and the read buffers *)

Definition put_return_switch (t v : Z) : M unit :=
  a <- gets (fun s => return_switch (s_term s)) ;;
  a' <- aset a t v ;; term_set (set return_switch (fun _ => a')).

Definition get_return_switch : M Z :=
  t <- get_current_process ;;
  a <- gets (fun s => return_switch (s_term s)) ;; aget a t.

Definition flip_return_switch : M unit :=
  t <- get_current_terminal ;;
  a <- gets (fun s => return_switch (s_term s)) ;;
  v <- aget a t ;;
  if v =? 0 then put_return_switch t 1 else put_return_switch t 0.

Definition set_return_switch (value : Z) : M unit :=
  if (value =? 0) || (value =? 1) then
    t <- get_current_terminal ;; put_return_switch t value
  else ret tt.

Definition set_return_switch_spec (terminal value : Z) : M unit :=
  if terminal <? NUM_TERMINALS then
    if (value =? SWITCH_OFF) || (value =? SWITCH_ON) || (value =? SWITCH_HOLD) then
      put_return_switch terminal value
    else ret tt
  else ret tt.

Definition put_read_buffer (t i c : Z) : M unit :=
  b <- gets (fun s => read_buffer (s_term s)) ;;
  b' <- aset2 b t i c ;; term_set (set read_buffer (fun _ => b')).

Definition clear_read_buffer : M unit :=
  for_up 0 MAX_BUFFER_SIZE (fun i => t <- get_current_terminal ;; put_read_buffer t i 0).

Definition clear_all_read_buffers : M unit :=
  for_up 0 NUM_TERMINALS (fun _ =>
    for_up 0 MAX_BUFFER_SIZE (fun i => t <- get_current_terminal ;; put_read_buffer t i 0)).

(** ** Opening and closing *)

Definition upd_switch_data (t : Z) (f : switch_data -> M switch_data) : M unit :=
  a <- gets (fun s => switch_data_arr (s_term s)) ;;
  d <- aget a t ;; d' <- f d ;; a' <- aset a t d' ;;
  term_set (set switch_data_arr (fun _ => a')).

Definition put_terminal_running (t v : Z) : M unit :=
  a <- gets (fun s => terminal_running (s_term s)) ;;
  a' <- aset a t v ;; term_set (set terminal_running (fun _ => a')).

Definition put_schedule_top (t v : Z) : M unit :=
  a <- gets (fun s => schedule_top (s_sched s)) ;;
  a' <- aset a t v ;; sched_set (set schedule_top (fun _ => a')).
Definition put_schedule_stack (t j v : Z) : M unit :=
  a <- gets (fun s => schedule_stack (s_sched s)) ;;
  a' <- aset2 a t j v ;; sched_set (set schedule_stack (fun _ => a')).
Definition put_schedule_ebp (t j v : Z) : M unit :=
  a <- gets (fun s => schedule_ebp (s_sched s)) ;;
  a' <- aset2 a t j v ;; sched_set (set schedule_ebp (fun _ => a')).
Definition put_schedule_esp (t j v : Z) : M unit :=
  a <- gets (fun s => schedule_esp (s_sched s)) ;;
  a' <- aset2 a t j v ;; sched_set (set schedule_esp (fun _ => a')).

Definition terminal_open (fname : list Z) : M Z :=
  clear_all_read_buffers ;;
  term_set (set current_terminal (fun _ => 0)) ;;
  for_up 0 NUM_TERMINALS (fun i =>
    put_return_switch i 0 ;;
    put_terminal_running i 0 ;;
    upd_switch_data i (fun d => ret (set cursor_x (fun _ => 0) d)) ;;
    upd_switch_data i (fun d => ret (set cursor_y (fun _ => 0) d)) ;;
    put_schedule_top i 0 ;;
    for_up 0 7 (fun j =>
      put_schedule_stack i j 0 ;; put_schedule_ebp i j 0 ;; put_schedule_esp i j 0) ;;
    for_up 0 (NUM_ROWS * NUM_COLS) (fun m =>
      upd_switch_data i (fun d =>
        v <- aset (vid_data d) (Z.shiftl m 1) 32 ;;
        v <- aset v (Z.shiftl m 1 + 1) 0x7 ;;
        ret (set vid_data (fun _ => v) d)))) ;;
  ret SUCCESS.

Definition terminal_close (fd : Z) : M Z := upd_fd 1 free_fd ;; ret SUCCESS.

(** ** Input *)

Definition terminal_read_fail (fd nbytes : Z) : M (Z * list Z) := ret (FAILURE, []).

(** The loop that looks for the line feed. *)
Fixpoint find_newline (row : list Z) : option Z :=
  match row with
  | [] => None
  | c :: row => if c =? 10 then Some 0 else n ← find_newline row; Some (n + 1)
  end.

Definition read_waits (cip : Z) (s : kstate) : bool :=
  match lget (return_switch (s_term s)) cip with
  | Some v => negb (v =? SWITCH_OFF)
  | None => false
  end.

(** The memory from the start of row [t] of [read_buffer] on: the rows, then
    the unused zeros behind the array. *)
Definition bytes_from (b : list (list Z)) (t : Z) : list Z :=
  drop (Z.to_nat (MAX_BUFFER_SIZE * t)) (concat b) ++
  replicate (Z.to_nat unused_after_read_buffer) 0.

(** [read_buffer[t][i] = '\0'], where the source puts no bound on [i]: beyond
    the row the store hits the next rows, then the unused bytes, which are zero
    already; what lies behind these is a fault of the model. *)
Definition terminate_read (t i : Z) : M unit :=
  let a := MAX_BUFFER_SIZE * t + i in
  let array := MAX_BUFFER_SIZE * NUM_TERMINALS in
  if (array <=? a) && (a <? array + unused_after_read_buffer) then ret tt
  else put_read_buffer (a / MAX_BUFFER_SIZE) (a mod MAX_BUFFER_SIZE) 0.

(** What follows the wait: the result, and the bytes written to the user's
    buffer. *)
Definition terminal_read_finish (cip nbytes : Z) : M (Z * list Z) :=
  cli ;;
  terminate_read cip (nbytes - 1) ;;
  b <- gets (fun s => read_buffer (s_term s)) ;;
  let row := bytes_from b cip in
  i <- of_opt OutOfBounds (find_newline row) ;;
  bytes <- of_opt OutOfBounds (strncpy (replicate (Z.to_nat nbytes) 0) row nbytes) ;;
  next_line ;;
  cursor_update ;;
  send_eoi IRQ1 ;;
  sti ;;
  ret (i + 1, bytes).

(** [buf] is not NULL here: [read] has tested it. *)
Definition terminal_read (on_irq : irq -> M unit) (fd nbytes : Z) : M (Z * list Z) :=
  if nbytes <? 1 then ret (FAILURE, [])
  else
    cip <- get_current_process ;;
    put_return_switch cip SWITCH_ON ;;
    sti ;;
    spin_while (read_waits cip) on_irq ;;
    terminal_read_finish cip nbytes.

(** ** Switching terminals *)

(** [exec_shell] is [do_call(SYS_EXECUTE, "shell", 0, 0)]. *)
Definition terminal_switch (on_irq : irq -> M unit) (exec_shell : M Z) (num : Z) : M Z :=
  if NUM_TERMINALS <? num then ret FAILURE
  else
    ct <- get_current_terminal ;;
    if num =? ct then ret SUCCESS
    else
      n <- gets (fun s => num_active_processes (s_proc s)) ;;
      tr <- gets (fun s => terminal_running (s_term s)) ;;
      full <- (if MAX_PROCESSES <=? n then r <- aget tr num ;; ret (r =? 0) else ret false) ;;
      if full : bool then ret SUCCESS
      else
        cli ;;
        x <- get_screen_x ;; y <- get_screen_y ;;
        upd_switch_data ct (fun d => ret (set cursor_x (fun _ => u8 x) d)) ;;
        upd_switch_data ct (fun d => ret (set cursor_y (fun _ => u8 y) d)) ;;
        let previous_terminal := ct in
        term_set (set current_terminal (fun _ => num)) ;;
        r <- aget tr num ;;
        (if r =? 1 then
           memcpy (VIDEO_1 + 0x1000 * previous_terminal) VIDEO 0x1000 ;;
           memcpy VIDEO (VIDEO_1 + 0x1000 * num) 0x1000 ;;
           a <- gets (fun s => switch_data_arr (s_term s)) ;;
           d <- aget a num ;;
           set_screen_x (cursor_x d) ;;
           set_screen_y (cursor_y d) ;;
           cursor_update ;;
           sched_set (set terminal_request (fun _ => num)) ;;
           schedule_ticked <- gets (fun s => schedule_tick (s_sched s)) ;;
           send_eoi IRQ1 ;;
           sti ;;
           spin_while (fun s => schedule_ticked =? schedule_tick (s_sched s)) on_irq ;;
           cli
         else
           memcpy (VIDEO_1 + 0x1000 * previous_terminal) VIDEO 0x1000 ;;
           memcpy VIDEO (VIDEO_1 + 0x1000 * num) 0x1000 ;;
           terminal_clear ;;
           send_eoi IRQ1 ;;
           proc_set (set current_pid (fun _ => SENTINEL_PROCESS)) ;;
           sched_set (set current_process (fun _ => num)) ;;
           exec_shell ;; ret tt) ;;
        sti ;;
        ret SUCCESS.
End terminal.
