(* ===== verification/TerminalSpec.v ===== *)
(** * The terminal: output on a screen with a cursor *)
From S2P Require Import Prelude State Monad Logic Screen ScreenSpec Pic Mem Terminal.

Section terminal_facts.
Context {P : Platform}.
Implicit Types (s : kstate).

Lemma quietly_cursor_update_spec x y : quietly (cursor_update_spec x y).
Proof. unfold cursor_update_spec. eauto 12 with kernel. Qed.
Lemma quietly_cursor_update : quietly cursor_update.
Proof.
  unfold cursor_update, get_screen_x, get_screen_y.
  apply quietly_bind; [auto with kernel|intros x].
  apply quietly_bind; [auto with kernel|intros y]. apply quietly_cursor_update_spec.
Qed.
Lemma quietly_send_eoi n : quietly (send_eoi n).
Proof. unfold send_eoi. case_match; eauto with kernel. Qed.

(** ** A character *)

(** The cursor after one character that does not start a new row, or after
    any other one. *)
Definition char_written (pv : Z) (c : Z) s s' : Prop :=
  draws s s' /\ cursor_ok s' /\ Z.min (pos s + 1) 1920 <= pos s' /\
  (c <> 10 -> 0 <= screen_x (s_scr s) < 79 ->
    screen_x (s_scr s') = screen_x (s_scr s) + 1 /\
    screen_y (s_scr s') = screen_y (s_scr s) /\
    s_mem s' = put_text (s_mem s) pv (pos s) [c]).

Lemma wp_call_next_line s pv (b : bool) :
  video_at s pv -> 0 <= screen_y (s_scr s) < 25 ->
  wp (if b then sti ;; next_line ;; cli else ret tt) (fun _ s' =>
    draws s s' /\
    if b then screen_x (s_scr s') = 0 /\
      screen_y (s_scr s') = Z.min (screen_y (s_scr s) + 1) 24
    else s' = s) s.
Proof.
  intros Hv Hy. destruct b; [|done].
  wp_pure. eapply wp_quiet; [apply quietly_sti|]. intros _ s1 Q1.
  destruct (Q1) as [D1 E1 _ _].
  wp_pure. eapply (wp_next_line _ pv).
  { by eapply video_at_draws. }
  { by rewrite E1. }
  intros s2 D2 Hx Hy2 _. eapply wp_quiet; [apply quietly_cli|].
  intros _ s3 [D3 E3 _ _]. rewrite E3, Hx, Hy2, E1.
  split; [|done]. transitivity s1; [done|]. by transitivity s2.
Qed.

Lemma wp_key_flag_off s (Q : unit -> kstate -> Prop) :
  (forall s', draws s s' -> s_scr s' = s_scr s -> s_mem s' = s_mem s -> Q tt s') ->
  wp (k <- gets (fun s => key_flag (s_kbd s)) ;;
      (if k =? 0 then ret tt else kbd_set (set key_flag (fun _ => 0)))) Q s.
Proof.
  intros HQ. wp_pure. wp_pure. case_match; [by apply HQ; [reflexivity|..]|].
  unfold kbd_set. wp_pure. apply HQ; [draws_tac|done|done].
Qed.

Lemma wp_terminal_write_char s pv c :
  video_at s pv -> cursor_ok s -> c <> 13 ->
  wp (terminal_write_char c) (fun _ s' => char_written pv c s s') s.
Proof.
  intros Hv Hc Hcr. pose proof (cursor_ok_pos _ Hc) as Hp. destruct Hc as [Hrow Hcol Hcell].
  unfold terminal_write_char, get_screen_x. wp_pures. change (NUM_COLS - 1) with 79.
  destruct (Z.eqb_spec c 10) as [->|Hlf].
  { wp_pures. rewrite orb_true_r. eapply wp_mono; [apply (wp_call_next_line _ pv true); done|].
    cbv beta. intros _ s' (D & Hx & Hy).
    split; [done|]. split; [constructor; unfold pos; lia|].
    split; [unfold pos in *; lia|done]. }
  rewrite orb_false_r. wp_pures. apply (wp_putc _ pv); [done..|lia|].
  intros s1 D1 Hx1 Hy1 Hm1. apply wp_key_flag_off. intros s2 D2 E2 M2.
  rewrite (Z.rem_small (screen_y (s_scr s))) in Hy1 by lia.
  assert (D : draws s s2) by (by transitivity s1).
  eapply wp_mono; [apply (wp_call_next_line _ pv)|].
  { by eapply video_at_draws. }
  { rewrite E2, Hy1. done. }
  cbv beta. intros _ s3 (D3 & H3).
  split; [by transitivity s2|].
  destruct (Z.eqb_spec (screen_x (s_scr s)) 79) as [E|E].
  - destruct H3 as [Hx3 Hy3]. rewrite E2, Hy1 in Hy3. unfold pos in *.
    split; [constructor; unfold pos; lia|]. split; [lia|lia].
  - subst s3. unfold pos in *. rewrite E2, Hx1, Hy1.
    pose proof (Z.rem_bound_abs (screen_x (s_scr s) + 1) 80 ltac:(lia)).
    assert (Hrem : screen_x (s_scr s) + 1 <= Z.rem (screen_x (s_scr s) + 1) 80).
    { destruct (Z_le_gt_dec 0 (screen_x (s_scr s) + 1)).
      - rewrite Z.rem_small; lia.
      - replace (screen_x (s_scr s) + 1) with (- - (screen_x (s_scr s) + 1)) by lia.
        rewrite Z.rem_opp_l by lia.
        pose proof (Z.rem_le (- (screen_x (s_scr s) + 1)) 80). lia. }
    split; [constructor; unfold pos; rewrite ?E2, ?Hx1, ?Hy1; lia|].
    split; [lia|]. intros _ Hin. rewrite Z.rem_small by lia.
    split; [done|]. split; [done|]. cbn [put_text]. rewrite M2. done.
Qed.

(** ** [terminal_write] *)

Definition written (pv : Z) (bs : list Z) s s' : Prop :=
  draws s s' /\ cursor_ok s' /\
  Z.min (pos s + Z.of_nat (length bs)) 1920 <= pos s' /\
  (Forall (fun c => c <> 10) bs -> 0 <= screen_x (s_scr s) ->
   screen_x (s_scr s) + Z.of_nat (length bs) <= 79 ->
    screen_x (s_scr s') = screen_x (s_scr s) + Z.of_nat (length bs) /\
    screen_y (s_scr s') = screen_y (s_scr s) /\
    s_mem s' = put_text (s_mem s) pv (pos s) bs).

Lemma written_nil pv s : cursor_ok s -> written pv [] s s.
Proof.
  intros Hc. split; [reflexivity|]. split; [done|]. cbn [length].
  split; [lia|]. intros ???. split; [lia|done].
Qed.

Lemma written_snoc pv bs c s s' s'' :
  written pv bs s s' -> char_written pv c s' s'' -> written pv (bs ++ [c]) s s''.
Proof.
  intros (D1 & C1 & P1 & W1) (D2 & C2 & P2 & W2).
  unfold written. rewrite length_app. cbn [length].
  split; [by transitivity s'|]. split; [done|]. split; [lia|].
  intros [Hbs Hc]%Forall_app Hx Hlen.
  apply Forall_inv in Hc. destruct W1 as (X1 & Y1 & M1); [done|done|lia|].
  destruct W2 as (X2 & Y2 & M2); [done|lia|].
  rewrite X2, Y2, M2, M1, put_text_app. unfold pos. rewrite X1, Y1.
  split; [lia|]. split; [done|]. f_equal. lia.
Qed.

Lemma wp_terminal_write s pv fd buf n (Q : Z -> kstate -> Prop) :
  video_at s pv -> cursor_ok s -> 1 <= n <= Z.of_nat (length buf) ->
  Forall (fun c => c <> 13) buf ->
  (forall s', written pv (take (Z.to_nat n) buf) s s' -> Q n s') ->
  wp (terminal_write fd buf n) Q s.
Proof.
  intros Hv Hc Hn Hcr HQ. unfold terminal_write.
  rewrite (proj2 (Z.ltb_ge n 1)) by lia.
  wp_pure. eapply wp_quiet; [apply quietly_cli|]. intros _ s1 [D1 E1 M1 _].
  wp_pure. eapply wp_mono.
  { apply (wp_for_up _ _ _ (fun i s' => written pv (take (Z.to_nat i) buf) s s')); [lia| |].
    - change (take (Z.to_nat 0) buf) with (@nil Z).
      destruct (written_nil pv s Hc) as (_ & C & Pp & W).
      split; [done|]. unfold pos in *. rewrite E1, M1.
      split; [destruct Hc as [R1 R2 R3]; constructor; unfold pos in *; rewrite E1; done|].
      done.
    - intros i s' Hi W. wp_pure.
      apply wp_aget; [lia|]. intros c Hget.
      eapply wp_mono; [apply (wp_terminal_write_char _ pv)|].
      + eapply video_at_draws; [apply W|done].
      + apply W.
      + rewrite Forall_forall in Hcr. apply Hcr.
        unfold lget in Hget. case_decide; [|done]. by eapply list_elem_of_lookup_2.
      + cbv beta. intros _ s2 W2. replace (Z.to_nat (i + 1)) with (S (Z.to_nat i)) by lia.
        erewrite take_S_r; [by eapply written_snoc|].
        unfold lget in Hget. by case_decide. }
  cbv beta. intros _ s2 (D2 & C2 & P2 & W2).
  wp_pure. eapply wp_quiet; [apply quietly_cursor_update|]. intros _ s3 [D3 E3 M3 _].
  wp_pure. eapply wp_quiet; [apply quietly_send_eoi|]. intros _ s4 [D4 E4 M4 _].
  wp_pure. eapply wp_quiet; [apply quietly_sti|]. intros _ s5 [D5 E5 M5 _].
  wp_pures. apply HQ. assert (E : s_scr s5 = s_scr s2) by congruence.
  split; [transitivity s2; [done|]; transitivity s3; [done|]; by transitivity s4|].
  unfold pos in *. rewrite E, M5, M4, M3.
  split; [destruct C2 as [R1 R2 R3]; constructor; unfold pos in *; rewrite E; done|].
  done.
Qed.
End terminal_facts.
