(* ===== verification/Keyboard.v ===== *)
(** * keyboard.c: the keyboard driver and the line editor *)
From S2P Require Import Prelude State Monad Strings Screen Pic Proc Terminal.

Definition LSHIFTPRESS : Z := 0x36.
Definition RSHIFTPRESS : Z := 0x2A.
Definition LSHIFTRELEASE : Z := 0xB6.
Definition RSHIFTRELEASE : Z := 0xAA.
Definition CAPSLOCK : Z := 0x3A.
Definition RELEASE : Z := 0x80.
Definition SHIFT : Z := 90.
Definition ENTER : Z := 0x1C.
Definition CTRLPRESS : Z := 0x1D.
Definition ALTPRESS : Z := 0x38.
Definition ALTRELEASE : Z := 0xB8.
Definition L_KEY : Z := 0x26.
Definition CTRLRELEASE : Z := 0x9D.
Definition BACKSPACE : Z := 0x0E.
Definition UP_ARROW : Z := 0x48.
Definition DOWN_ARROW : Z := 0x50.
Definition LEFT_ARROW : Z := 0x4B.
Definition RIGHT_ARROW : Z := 0x4D.
Definition ALT_F1 : Z := 0xF1.
Definition ALT_F2 : Z := 0xF2.
Definition ALT_F3 : Z := 0xF3.
Definition INVALID_SCANCODE : Z := 0.
Definition NUM_HISTORY_BUFFERS : Z := 20.

(** The translation tables: the initialisers, and zeros up to 256 entries. *)
Definition scancode_init : list Z :=
  [0; 0; 49; 50; 51; 52; 53; 54; 55; 56; 57; 48; 45; 61; 8; 0; 113; 119; 101; 114; 116;
   121; 117; 105; 111; 112; 91; 93; 10; 99; 97; 115; 100; 102; 103; 104; 106; 107; 108;
   59; 39; 96; 0; 92; 122; 120; 99; 118; 98; 110; 109; 44; 46; 47; 0; 42; 0; 32; 0; 0;
   0; 0; 0; 0; 0; 0; 0; 0; 0; 0; 0; 0; 0; 0; 45; 0; 0; 0; 43; 0; 0; 0; 0; 0; 0; 0; 60;
   0; 0; 0; 0; 0; 33; 64; 35; 36; 37; 94; 38; 42; 40; 41; 95; 43; 8; 0; 81; 87; 69; 82;
   84; 89; 85; 73; 79; 80; 123; 125; 10; 0; 65; 83; 68; 70; 71; 72; 74; 75; 76; 58; 34;
   126; 0; 124; 90; 88; 67; 86; 66; 78; 77; 60; 62; 63; 0; 42; 0; 32; 0; 0; 0; 0; 0; 0;
   0; 0; 0; 0; 0; 0; 0; 0; 0; 0; 45; 0; 0; 0; 43; 0; 0; 0; 0; 0; 0; 0; 62; 0; 0; 0].
Definition scancode : list Z := scancode_init ++ replicate (256 - length scancode_init) 0.

Definition CAPScode_init : list Z :=
  [0; 0; 49; 50; 51; 52; 53; 54; 55; 56; 57; 48; 45; 61; 8; 0; 81; 87; 69; 82; 84; 89;
   85; 73; 79; 80; 91; 93; 10; 67; 65; 83; 68; 70; 71; 72; 74; 75; 76; 59; 39; 96; 0;
   92; 90; 88; 67; 86; 66; 78; 77; 44; 46; 47; 0; 42; 0; 32; 0; 0; 0; 0; 0; 0; 0; 0; 0;
   0; 0; 0; 0; 0; 0; 0; 45; 0; 0; 0; 43; 0; 0; 0; 0; 0; 0; 0; 60; 0; 0; 0; 0; 0; 33; 64;
   35; 36; 37; 94; 38; 42; 40; 41; 95; 43; 8; 0; 113; 119; 101; 114; 116; 121; 117; 105;
   111; 112; 123; 125; 10; 0; 97; 115; 100; 102; 103; 104; 106; 107; 108; 58; 34; 126;
   0; 124; 122; 120; 99; 118; 98; 110; 109; 60; 62; 63; 0; 42; 0; 32; 0; 0; 0; 0; 0; 0;
   0; 0; 0; 0; 0; 0; 0; 0; 0; 0; 45; 0; 0; 0; 43; 0; 0; 0; 0; 0; 0; 0; 62; 0; 0; 0].
Definition CAPScode : list Z := CAPScode_init ++ replicate (256 - length CAPScode_init) 0.

Definition altcode_init : list Z :=
  [0; 0; 49; 50; 51; 52; 53; 54; 55; 56; 57; 48; 45; 61; 8; 0; 81; 87; 69; 82; 84; 89;
   85; 73; 79; 80; 91; 93; 10; 67; 65; 83; 68; 70; 71; 72; 74; 75; 76; 59; 39; 96; 0;
   92; 90; 88; 67; 86; 66; 78; 77; 44; 46; 47; 0; 42; 0; 32; 0; 0; 0; 0; 0; 0; 0; 0; 0;
   0; 0; 0; 0; 0; 0; 0; 45; 0; 0; 0; 43; 0; 0; 0; 0; 0; 0; 0; 60; 0; 0; 0; 0; 0; 33; 64;
   35; 36; 37; 94; 38; 42; 40; 41; 95; 43; 8; 0; 113; 119; 101; 114; 116; 121; 117; 105;
   111; 112; 123; 125; 10; 0; 97; 115; 100; 102; 103; 104; 106; 107; 108; 58; 34; 126;
   0; 124; 122; 120; 99; 118; 98; 110; 109; 60; 62; 63; 0; 42; 0; 32; 0; 241; 242; 243;
   244; 0; 0; 0; 0; 0; 0; 0; 0; 0; 0; 0; 45; 0; 0; 0; 43; 0; 0; 0; 0; 0; 0; 0; 62; 0; 0;
   0].
Definition altcode : list Z := altcode_init ++ replicate (256 - length altcode_init) 0.
Section keyboard.
Context {P : Platform}.

(** ** The per-terminal line: [buffer], [bufferIDX], [bufferSIZE] *)

Definition get_kbd : M kbd_t := gets s_kbd.

Definition get_buffer (t i : Z) : M Z := k <- get_kbd ;; aget2 (buffer k) t i.
Definition put_buffer (t i c : Z) : M unit :=
  k <- get_kbd ;; b <- aset2 (buffer k) t i c ;; kbd_set (set buffer (fun _ => b)).
Definition get_idx (t : Z) : M Z := k <- get_kbd ;; aget (bufferIDX k) t.
Definition put_idx (t v : Z) : M unit :=
  k <- get_kbd ;; a <- aset (bufferIDX k) t (u8 v) ;; kbd_set (set bufferIDX (fun _ => a)).
Definition get_size (t : Z) : M Z := k <- get_kbd ;; aget (bufferSIZE k) t.
Definition put_size (t v : Z) : M unit :=
  k <- get_kbd ;; a <- aset (bufferSIZE k) t (u8 v) ;; kbd_set (set bufferSIZE (fun _ => a)).

(** [&buffer[t][i]]: the bytes from there to the end of the row. *)
Definition buffer_from (t i : Z) : M (list Z) :=
  k <- get_kbd ;; row <- aget (buffer k) t ;; ret (drop (Z.to_nat i) row).

(** ** The history *)

Definition put_history (pid j i c : Z) : M unit :=
  k <- get_kbd ;;
  h <- aget (history k) pid ;;
  h' <- aset2 h j i c ;;
  hs <- aset (history k) pid h' ;;
  kbd_set (set history (fun _ => hs)).
Definition get_history (pid j i : Z) : M Z :=
  k <- get_kbd ;; h <- aget (history k) pid ;; aget2 h j i.
Definition get_historyIDX (pid : Z) : M Z := k <- get_kbd ;; aget (historyIDX k) pid.
Definition put_historyIDX (pid v : Z) : M unit :=
  k <- get_kbd ;; a <- aset (historyIDX k) pid v ;; kbd_set (set historyIDX (fun _ => a)).
Definition get_historyBASE (pid : Z) : M Z := k <- get_kbd ;; aget (historyBASE k) pid.
Definition put_historyBASE (pid v : Z) : M unit :=
  k <- get_kbd ;; a <- aset (historyBASE k) pid v ;; kbd_set (set historyBASE (fun _ => a)).
Definition get_historySIZE (pid : Z) : M Z := k <- get_kbd ;; aget (historySIZE k) pid.
Definition put_historySIZE (pid v : Z) : M unit :=
  k <- get_kbd ;; a <- aset (historySIZE k) pid v ;; kbd_set (set historySIZE (fun _ => a)).

(** [schedule_stack[current_terminal][schedule_top[current_terminal] - 1]] *)
Definition get_displayed_pid : M Z :=
  t <- get_current_terminal ;;
  sc <- gets s_sched ;;
  top <- aget (schedule_top sc) t ;;
  aget2 (schedule_stack sc) t (top - 1).

Definition copy_to_history : M unit :=
  displayed_pid <- get_displayed_pid ;;
  for_up 0 MAX_BUFFER_SIZE (fun i =>
    t <- get_current_terminal ;;
    c <- get_buffer t i ;;
    let c := if (c =? 10) || (c =? 0) then 0 else c in
    base <- get_historyBASE displayed_pid ;;
    put_history displayed_pid base i c).

Definition increment_history_indices : M unit :=
  displayed_pid <- get_displayed_pid ;;
  base <- get_historyBASE displayed_pid ;;
  put_historyBASE displayed_pid (Z.rem (base + 1) NUM_HISTORY_BUFFERS) ;;
  base <- get_historyBASE displayed_pid ;;
  put_historyIDX displayed_pid base ;;
  sz <- get_historySIZE displayed_pid ;;
  if sz <? NUM_HISTORY_BUFFERS then put_historySIZE displayed_pid (sz + 1) else ret tt.

(** ** Clearing *)

Definition clear_keyboard_buffer : M unit :=
  for_up 0 MAX_BUFFER_SIZE (fun i => t <- get_current_terminal ;; put_buffer t i 0) ;;
  t <- get_current_terminal ;; put_idx t 0 ;;
  t <- get_current_terminal ;; put_size t 0.

Definition clear_all_keyboard_buffers : M unit :=
  for_up 0 NUM_TERMINALS (fun j =>
    put_idx j 0 ;; put_size j 0 ;;
    for_up 0 MAX_BUFFER_SIZE (fun i => put_buffer j i 0)) ;;
  for_up 0 TOTAL_PROCESSES (fun j =>
    put_historyIDX j 0 ;; put_historyBASE j 0 ;; put_historySIZE j 0 ;;
    for_up 0 NUM_HISTORY_BUFFERS (fun k =>
      for_up 0 MAX_BUFFER_SIZE (fun i => put_history j k i 0))).

Definition clear_history_buffer (pid : Z) : M unit :=
  for_up 0 NUM_HISTORY_BUFFERS (fun i =>
    for_up 0 MAX_BUFFER_SIZE (fun j => put_history pid i j 0)) ;;
  put_historyIDX pid 0 ;; put_historyBASE pid 0 ;; put_historySIZE pid 0.

(** ** The driver's operations *)

Definition keyboard_open (fname : list Z) : M Z :=
  clear_all_keyboard_buffers ;; kbd_set (set key_flag (fun _ => 0)) ;; ret SUCCESS.

Definition keyboard_close (fd : Z) : M Z :=
  t <- get_current_terminal ;; upd_fd_of t 0 free_fd ;; ret SUCCESS.

Definition keyboard_write (fd : Z) (buf : list Z) (nbytes : Z) : M Z := ret FAILURE.

(** The result, and the bytes written to the buffer. *)
Fixpoint keyboard_read_loop (n : nat) (i : Z) : M (Z * list Z) :=
  match n with
  | O => ret (i, [])
  | S n =>
      t <- get_current_terminal ;;
      c <- get_buffer t i ;;
      if (c =? 10) || (c =? 0) then ret (i, [c])
      else if i + 1 =? MAX_BUFFER_SIZE then ret (i + 1, [c; 10])
      else r <- keyboard_read_loop n (i + 1) ;; let '(k, bs) := r in ret (k, c :: bs)
  end.
Definition keyboard_read (fd nbytes : Z) : M (Z * list Z) :=
  if nbytes <? 1 then ret (FAILURE, []) else keyboard_read_loop (Z.to_nat nbytes) 0.

(** terminal.c: [terminal_return], called on Enter. *)
Definition terminal_return : M unit :=
  t <- get_current_terminal ;;
  a <- gets (fun s => return_switch (s_term s)) ;;
  v <- aget a t ;;
  if v =? SWITCH_ON then
    r <- keyboard_read 1 MAX_BUFFER_SIZE ;;
    let bs := snd r in
    b <- gets (fun s => read_buffer (s_term s)) ;;
    row <- aget b t ;;
    (if (length bs <=? length row)%nat then
       b' <- aset b t (bs ++ drop (length bs) row) ;;
       term_set (set read_buffer (fun _ => b'))
     else stop_with (Fault OutOfBounds)) ;;
    set_return_switch 0
  else if v =? SWITCH_OFF then next_line ;; cursor_update
  else ret tt.

(** ** Editing the line *)

Definition keyboard_insert (c : Z) : M unit :=
  t <- get_current_terminal ;;
  sz <- get_size t ;;
  idx <- get_idx t ;;
  for_step (Z.to_nat (sz - idx + 1)) sz (-1) (fun i =>
    move <- get_buffer t i ;; put_buffer t (i + 1) move) ;;
  put_buffer t idx c ;;
  ptr <- buffer_from t idx ;;
  let num_chars := u32 (sz - idx + 1) in
  kbd_set (set key_flag (fun _ => 1)) ;;
  terminal_write 1 ptr (s32 num_chars) ;;
  kbd_set (set key_flag (fun _ => 0)) ;;
  cursor_update_left (s32 (num_chars - 1)) ;;
  put_idx t (idx + 1) ;;
  put_size t (sz + 1).

Definition keyboard_backspace : M unit :=
  t <- get_current_terminal ;;
  sz <- get_size t ;;
  idx <- get_idx t ;;
  for_up (idx - 1) sz (fun i =>
    move <- get_buffer t (i + 1) ;; put_buffer t i move) ;;
  put_buffer t sz 0 ;;
  ptr <- buffer_from t (idx - 1) ;;
  let num_chars := u32 (sz - idx + 1) in
  terminal_backspace ;;
  terminal_write 1 ptr (s32 num_chars) ;;
  cursor_update_left (s32 num_chars) ;;
  put_idx t (idx - 1) ;;
  put_size t (sz - 1).

Definition keyboard_left_arrow : M unit :=
  t <- get_current_terminal ;;
  idx <- get_idx t ;;
  if idx =? 0 then ret tt else put_idx t (idx - 1) ;; cursor_update_left 1.

Definition keyboard_right_arrow : M unit :=
  t <- get_current_terminal ;;
  idx <- get_idx t ;;
  sz <- get_size t ;;
  if idx =? sz then ret tt else put_idx t (idx + 1) ;; cursor_update_right 1.

(** The loop that copies a history entry into the line. *)
Fixpoint copy_from_history (n : nat) (i displayed_pid : Z) : M unit :=
  match n with
  | O => ret tt
  | S n =>
      h <- get_historyIDX displayed_pid ;;
      c <- get_history displayed_pid h i ;;
      if (c =? 0) || (c =? 10) then ret tt
      else
        t <- get_current_terminal ;;
        put_buffer t i c ;;
        idx <- get_idx t ;; put_idx t (idx + 1) ;;
        sz <- get_size t ;; put_size t (sz + 1) ;;
        copy_from_history n (i + 1) displayed_pid
  end.

(** The end of [up_history] and [down_history]: replace the line by the entry
    at [historyIDX] and print it. *)
Definition show_history (displayed_pid : Z) : M unit :=
  t <- get_current_terminal ;;
  idx <- get_idx t ;; sz <- get_size t ;;
  reset_terminal_keyboard_input idx sz ;;
  clear_keyboard_buffer ;;
  copy_from_history (Z.to_nat MAX_BUFFER_SIZE) 0 displayed_pid ;;
  t <- get_current_terminal ;;
  ptr <- buffer_from t 0 ;;
  num_chars <- get_size t ;;
  terminal_write 1 ptr num_chars ;;
  ret tt.

Definition up_history : M unit :=
  displayed_pid <- get_displayed_pid ;;
  hs <- get_historySIZE displayed_pid ;;
  hi <- get_historyIDX displayed_pid ;;
  if (hs <? NUM_HISTORY_BUFFERS) && (hi =? 0) then ret tt
  else
    hb <- get_historyBASE displayed_pid ;;
    (if hi =? hb then copy_to_history else ret tt) ;;
    hi <- get_historyIDX displayed_pid ;;
    let i := if hi - 1 <? 0 then NUM_HISTORY_BUFFERS - 1 else hi - 1 in
    hb <- get_historyBASE displayed_pid ;;
    if i =? hb then ret tt
    else put_historyIDX displayed_pid i ;; show_history displayed_pid.

Definition down_history : M unit :=
  displayed_pid <- get_displayed_pid ;;
  hs <- get_historySIZE displayed_pid ;;
  hi <- get_historyIDX displayed_pid ;;
  hb <- get_historyBASE displayed_pid ;;
  if (hs <? NUM_HISTORY_BUFFERS) && (hi =? hb) then ret tt
  else if hi =? hb then ret tt
  else
    put_historyIDX displayed_pid (Z.rem (hi + 1) NUM_HISTORY_BUFFERS) ;;
    show_history displayed_pid.

(** ** A key *)

(** The character of a key under the modifiers. *)
Definition translate_key (k : kbd_t) (key : Z) : option Z :=
  let sh := shift_down k =? 1 in
  let ca := caps_lock k =? 1 in
  let al := alt_down k =? 1 in
  if sh && negb ca && negb al then lget scancode (u16 (key + SHIFT))
  else if negb sh && ca && negb al then lget CAPScode key
  else if sh && ca && negb al then lget CAPScode (u16 (key + SHIFT))
  else if negb sh && negb ca && al then lget altcode (u16 (key + SHIFT))
  else lget scancode key.

Definition press_shift : M unit :=
  kbd_set (set shift_down (fun v => if negb (v =? 1) then 1 else 0)).
Definition release_shift : M unit :=
  kbd_set (set shift_down (fun v => if v =? 1 then 0 else 1)).

(** A key that puts a character in the line, or switches terminals. *)
Definition key_character (on_irq : irq -> M unit) (exec_shell : M Z) (key : Z) : M unit :=
  t <- get_current_terminal ;;
  sz <- get_size t ;;
  if sz =? MAX_CHARACTERS then ret tt
  else
    k <- get_kbd ;;
    c <- of_opt OutOfBounds (translate_key k key) ;;
    if c =? INVALID_SCANCODE then ret tt
    else if c =? ALT_F1 then terminal_switch on_irq exec_shell 0 ;; ret tt
    else if c =? ALT_F2 then terminal_switch on_irq exec_shell 1 ;; ret tt
    else if c =? ALT_F3 then terminal_switch on_irq exec_shell 2 ;; ret tt
    else keyboard_insert c.

Definition key_enter : M unit :=
  t <- get_current_terminal ;;
  c <- get_buffer t 0 ;;
  (if negb (c =? 0) then copy_to_history ;; increment_history_indices else ret tt) ;;
  sz <- get_size t ;;
  put_buffer t sz 10 ;;
  terminal_return ;;
  clear_keyboard_buffer.

Definition handle_keyboard_input (on_irq : irq -> M unit) (exec_shell : M Z) (key : Z)
  : M unit :=
  if key =? CAPSLOCK then
    kbd_set (set caps_lock (fun v => if negb (v =? 1) then 1 else 0))
  else if key =? CTRLPRESS then kbd_set (set ctrl_down (fun _ => 1))
  else if key =? CTRLRELEASE then kbd_set (set ctrl_down (fun _ => 0))
  else if key =? ALTPRESS then kbd_set (set alt_down (fun _ => 1))
  else if key =? ALTRELEASE then kbd_set (set alt_down (fun _ => 0))
  else if key =? LSHIFTPRESS then press_shift
  else if key =? RSHIFTPRESS then press_shift
  else if key =? LSHIFTRELEASE then release_shift
  else if key =? RSHIFTRELEASE then release_shift
  else
    let pressed := Z.land key RELEASE =? 0 in
    if pressed && (key =? UP_ARROW) then up_history
    else if pressed && (key =? DOWN_ARROW) then down_history
    else if pressed && (key =? LEFT_ARROW) then keyboard_left_arrow
    else if pressed && (key =? RIGHT_ARROW) then keyboard_right_arrow
    else if pressed && (key =? BACKSPACE) then
      t <- get_current_terminal ;;
      idx <- get_idx t ;;
      if idx =? 0 then ret tt else keyboard_backspace
    else if pressed && (key =? ENTER) then key_enter
    else
      k <- get_kbd ;;
      if pressed && negb (ctrl_down k =? 1) then key_character on_irq exec_shell key
      else if pressed && (ctrl_down k =? 1) then
        if key =? L_KEY then clear_keyboard_buffer ;; terminal_clear else ret tt
      else ret tt.
End keyboard.
