(* ===== verification/EditorSpec.v ===== *)
(** * The line editor of keyboard.c

    The abstract editor keeps the text before and after the cursor; the
    routines of the driver implement it on the buffer of the displayed
    terminal, its index and its size. *)
From S2P Require Import Prelude State Monad Logic Screen ScreenSpec Proc Terminal TerminalSpec Keyboard.

Record line := mk_line { before : list Z; after : list Z }.

Definition line_text (l : line) : list Z := before l ++ after l.
Definition line_size (l : line) : Z := Z.of_nat (length (line_text l)).
Definition line_index (l : line) : Z := Z.of_nat (length (before l)).

(** The row of [buffer] that holds a line. *)
Definition line_row (l : line) : list Z :=
  line_text l ++ replicate (128 - length (line_text l)) 0.

(** The keyboard state in which terminal [t] holds [l]. *)
Definition with_line (t : Z) (l : line) (k : kbd_t) : kbd_t :=
  set buffer (<[Z.to_nat t := line_row l]>)
    (set bufferIDX (<[Z.to_nat t := line_index l]>)
      (set bufferSIZE (<[Z.to_nat t := line_size l]>) k)).

(** The characters a line may hold: no terminator and no carriage return. *)
Definition char_ok (c : Z) : Prop := 0 < c < 256 /\ c <> 13.

Lemma lget_app {A} (l k : list A) j :
  0 <= j ->
  lget (l ++ k) j =
    if decide (j < Z.of_nat (length l)) then lget l j else lget k (j - Z.of_nat (length l)).
Proof.
  intros Hj. case_decide.
  - by apply lget_app_l.
  - unfold lget. rewrite !decide_True by lia. rewrite lookup_app_r by lia. f_equal. lia.
Qed.

Lemma lget_cons {A} (c : A) l j :
  0 <= j -> lget (c :: l) j = if decide (j = 0) then Some c else lget l (j - 1).
Proof.
  intros Hj. unfold lget. rewrite decide_True by lia. case_decide; [by subst|].
  rewrite decide_True by lia. replace (Z.to_nat j) with (S (Z.to_nat (j - 1))) by lia. done.
Qed.

Lemma lget_zeros n j :
  0 <= j -> lget (replicate n 0) j = if decide (j < Z.of_nat n) then Some 0 else None.
Proof.
  intros Hj. case_decide; [by apply lget_replicate|].
  apply lget_None. rewrite length_replicate. lia.
Qed.

(** ** The row before and after an edit *)

Lemma line_row_length l : line_size l <= 127 -> length (line_row l) = 128%nat.
Proof. unfold line_size, line_row. intros. autorewrite with arr. lia. Qed.

Lemma lget_line_row l j :
  line_size l <= 127 -> 0 <= j < 128 ->
  lget (line_row l) j =
    if decide (j < line_index l) then lget (before l) j
    else if decide (j < line_size l) then lget (after l) (j - line_index l)
    else Some 0.
Proof.
  unfold line_size, line_index, line_row, line_text. intros Hs Hj.
  rewrite !lget_app by lia. rewrite length_app in *.
  repeat case_decide; try lia; try done.
  rewrite lget_zeros, decide_True by lia. done.
Qed.

(** The shift to the right, after [k] of its rounds. *)
Definition shifted_right (row row' : list Z) (sz k : Z) : Prop :=
  length row' = 128%nat /\
  forall j, 0 <= j < 128 -> lget row' j =
    if decide (sz - k + 2 <= j <= sz + 1) then lget row (j - 1) else lget row j.

Lemma insert_row l c row' :
  line_size l <= 126 ->
  shifted_right (line_row l) row' (line_size l) (line_size l - line_index l + 1) ->
  <[Z.to_nat (line_index l) := c]> row' = line_row (mk_line (before l ++ [c]) (after l)).
Proof.
  intros Hs [Hlen Hsh].
  assert (Hs' : line_size (mk_line (before l ++ [c]) (after l)) = line_size l + 1).
  { unfold line_size, line_text. cbn [before after]. rewrite !length_app. cbn [length]. lia. }
  assert (Hi' : line_index (mk_line (before l ++ [c]) (after l)) = line_index l + 1).
  { unfold line_index. cbn [before]. rewrite length_app. cbn [length]. lia. }
  assert (0 <= line_index l <= line_size l).
  { unfold line_size, line_index, line_text. rewrite length_app. lia. }
  apply list_eq_lget.
  { rewrite length_insert, Hlen, line_row_length by lia. done. }
  rewrite length_insert, Hlen. intros j Hj.
  rewrite lget_insert, Hsh, (lget_line_row (mk_line _ _)), Hs', Hi' by lia. cbn [before after].
  destruct (decide (line_index l = j)) as [<-|Hne].
  - rewrite decide_True by lia. rewrite lget_app by lia.
    unfold line_index. rewrite decide_False by lia. by rewrite Z.sub_diag.
  - destruct (decide (line_size l - (line_size l - line_index l + 1) + 2 <= j <= line_size l + 1)).
    + rewrite decide_False by lia. rewrite lget_line_row by lia.
      rewrite decide_False by lia. repeat case_decide; try lia; try done.
      f_equal. lia.
    + rewrite lget_line_row by lia. repeat case_decide; try lia; try done.
      rewrite lget_app by lia. unfold line_index in *. by rewrite decide_True by lia.
Qed.

(** The shift to the left, after its rounds [idx - 1 .. i - 1]. *)
Definition shifted_left (row row' : list Z) (idx i : Z) : Prop :=
  length row' = 128%nat /\
  forall j, 0 <= j < 128 -> lget row' j =
    if decide (idx - 1 <= j < i) then lget row (j + 1) else lget row j.

Lemma delete_row b c a row' :
  let l := mk_line (b ++ [c]) a in
  line_size l <= 127 ->
  shifted_left (line_row l) row' (line_index l) (line_size l) ->
  <[Z.to_nat (line_size l) := 0]> row' = line_row (mk_line b a).
Proof.
  intros l Hs [Hlen Hsh].
  assert (Hs' : line_size (mk_line b a) = line_size l - 1).
  { unfold l, line_size, line_text. cbn [before after]. rewrite !length_app. cbn [length]. lia. }
  assert (Hi' : line_index (mk_line b a) = line_index l - 1).
  { unfold l, line_index. cbn [before]. rewrite length_app. cbn [length]. lia. }
  assert (0 < line_index l <= line_size l).
  { unfold l, line_size, line_index, line_text. cbn [before after]. rewrite !length_app.
    cbn [length]. lia. }
  apply list_eq_lget.
  { rewrite length_insert, Hlen, line_row_length by lia. done. }
  rewrite length_insert, Hlen. intros j Hj.
  rewrite lget_insert, Hsh, (lget_line_row (mk_line b a)), Hs', Hi' by lia. cbn [before after].
  destruct (decide (line_size l = j)) as [<-|Hne].
  - rewrite !decide_False by lia. done.
  - destruct (decide (line_index l - 1 <= j < line_size l)).
    + rewrite (decide_False (P := j < line_index l - 1)) by lia.
      rewrite lget_line_row by lia. cbn [before after l].
      rewrite decide_False by lia. repeat case_decide; try lia; try done.
      f_equal. lia.
    + rewrite (lget_line_row l) by lia. cbn [before after l].
      repeat case_decide; try lia; try done.
      rewrite lget_app by lia.
      assert (line_index l = Z.of_nat (length b) + 1).
      { unfold l, line_index. cbn [before]. rewrite length_app. cbn [length]. lia. }
      by rewrite decide_True by lia.
Qed.

Section editor.
Context {P : Platform}.
Implicit Types (s : kstate).

(** ** The shift loops *)

Definition with_row (t : Z) (r : list Z) s : kstate :=
  set s_kbd (set buffer (<[Z.to_nat t := r]>)) s.

Lemma with_row_twice t r r' s : with_row t r (with_row t r' s) = with_row t r s.
Proof.
  destruct s as [? ? ? ? ? k ? ? ? ? ?]. destruct k. unfold with_row.
  cbv [set s_kbd_upd buffer_upd]. cbn. by rewrite list_insert_insert_eq.
Qed.

Lemma with_row_same t s r : lget (buffer (s_kbd s)) t = Some r -> with_row t r s = s.
Proof.
  intros Hr. destruct s as [? ? ? ? ? k ? ? ? ? ?]. destruct k. unfold with_row.
  cbv [set s_kbd_upd buffer_upd]. cbn in *. rewrite list_insert_id; [done|].
  unfold lget in Hr. by case_decide.
Qed.

Lemma wp_get_buffer s t i r v (Q : Z -> kstate -> Prop) :
  lget (buffer (s_kbd s)) t = Some r -> lget r i = Some v -> Q v s ->
  wp (get_buffer t i) Q s.
Proof.
  intros Hr Hv HQ. unfold get_buffer, get_kbd. wp_pures.
  eapply wp_of_opt; [|exact HQ]. unfold lget2. by rewrite Hr.
Qed.

Lemma wp_put_buffer s t i r c (Q : unit -> kstate -> Prop) :
  lget (buffer (s_kbd s)) t = Some r -> 0 <= i < Z.of_nat (length r) ->
  Q tt (with_row t (<[Z.to_nat i := c]> r) s) -> wp (put_buffer t i c) Q s.
Proof.
  intros Hr Hi HQ. unfold put_buffer, get_kbd. wp_pures.
  pose proof (lget_range _ _ _ Hr).
  eapply wp_of_opt.
  { unfold lset2. rewrite Hr. cbn. rewrite lset_Some by done. cbn. by apply lset_Some. }
  unfold kbd_set. wp_pure. exact HQ.
Qed.

Lemma with_row_get t r s :
  0 <= t < Z.of_nat (length (buffer (s_kbd s))) ->
  lget (buffer (s_kbd (with_row t r s))) t = Some r.
Proof.
  intros Ht. unfold with_row. upd. rewrite lget_insert by done. by rewrite decide_True.
Qed.

(** Moving one character right or left within the row. *)
Lemma wp_move s0 t row i j (Q : unit -> kstate -> Prop) row' :
  0 <= t < Z.of_nat (length (buffer (s_kbd s0))) ->
  length row' = 128%nat -> 0 <= i < 128 -> 0 <= j < 128 ->
  (forall v, lget row' i = Some v -> Q tt (with_row t (<[Z.to_nat j := v]> row') s0)) ->
  row = row' ->
  wp (move <- get_buffer t i ;; put_buffer t j move) Q (with_row t row s0).
Proof.
  intros Ht Hlen Hi Hj HQ ->. pose proof (with_row_get t row' s0 Ht) as Hr.
  destruct (lget_Some row' i) as [v Hv]; [lia|].
  wp_pure. eapply wp_get_buffer; [done|done|].
  eapply wp_put_buffer; [done|lia|]. rewrite with_row_twice. by apply HQ.
Qed.

Lemma wp_shift_right s t row sz idx (Q : unit -> kstate -> Prop) :
  lget (buffer (s_kbd s)) t = Some row -> length row = 128%nat ->
  0 <= idx <= sz -> sz <= 126 ->
  (forall row', shifted_right row row' sz (sz - idx + 1) -> Q tt (with_row t row' s)) ->
  wp (for_step (Z.to_nat (sz - idx + 1)) sz (-1) (fun i =>
        move <- get_buffer t i ;; put_buffer t (i + 1) move)) Q s.
Proof.
  intros Hr Hlen Hi Hs HQ. eapply wp_mono.
  { apply (wp_for_step _ _ _ _ (fun k s' => exists row',
      shifted_right row row' sz (Z.of_nat k) /\ s' = with_row t row' s)).
    - exists row. split; [|by rewrite with_row_same].
      split; [done|]. intros j Hj. by rewrite decide_False by lia.
    - intros k s' Hk (row' & [Hl Hsh] & ->).
      eapply wp_move; [by eapply lget_range|exact Hl|lia|lia| |done].
      intros v Hv. exists (<[Z.to_nat (sz + Z.of_nat k * -1 + 1) := v]> row').
      split; [|done]. split; [by rewrite length_insert|].
      intros j Hj. rewrite lget_insert, Hsh by lia.
      destruct (decide (sz + Z.of_nat k * -1 + 1 = j)) as [<-|].
      + rewrite decide_True by lia. rewrite <-Hv, Hsh, decide_False by lia. f_equal. lia.
      + repeat case_decide; try lia; done. }
  cbv beta. intros [] s' (row' & Hsh & ->). apply HQ.
  by rewrite Z2Nat.id in Hsh by lia.
Qed.

Lemma wp_shift_left s t row sz idx (Q : unit -> kstate -> Prop) :
  lget (buffer (s_kbd s)) t = Some row -> length row = 128%nat ->
  1 <= idx <= sz -> sz <= 127 ->
  (forall row', shifted_left row row' idx sz -> Q tt (with_row t row' s)) ->
  wp (for_up (idx - 1) sz (fun i =>
        move <- get_buffer t (i + 1) ;; put_buffer t i move)) Q s.
Proof.
  intros Hr Hlen Hi Hs HQ. eapply wp_mono.
  { apply (wp_for_up _ _ _ (fun i s' => exists row',
      shifted_left row row' idx i /\ s' = with_row t row' s)); [lia| |].
    - exists row. split; [|by rewrite with_row_same].
      split; [done|]. intros j Hj. by rewrite decide_False by lia.
    - intros i s' Hk (row' & [Hl Hsh] & ->).
      eapply wp_move; [by eapply lget_range|exact Hl|lia|lia| |done].
      intros v Hv. exists (<[Z.to_nat i := v]> row').
      split; [|done]. split; [by rewrite length_insert|].
      intros j Hj. rewrite lget_insert, Hsh by lia.
      destruct (decide (i = j)) as [<-|].
      + rewrite decide_True by lia. rewrite <-Hv, Hsh, decide_False by lia. done.
      + repeat case_decide; try lia; done. }
  cbv beta. intros [] s' (row' & Hsh & ->). by apply HQ.
Qed.

(** ** The representation of a line *)

(** Terminal [t] is displayed, its line is [l] and the screen is the page at
    [pv]; the cursor stands at the end of the text before it, and the text
    after it ends on the cursor's row. *)
Record editing (t : Z) (pv : Z) (l : line) s : Prop := {
  ed_term : current_terminal (s_term s) = t;
  ed_buffer : lget (buffer (s_kbd s)) t = Some (line_row l);
  ed_index : lget (bufferIDX (s_kbd s)) t = Some (line_index l);
  ed_size : lget (bufferSIZE (s_kbd s)) t = Some (line_size l);
  ed_max : line_size l <= 127;
  ed_chars : Forall char_ok (line_text l);
  ed_video : video_at s pv;
  ed_cursor : cursor_ok s;
  ed_right : screen_x (s_scr s) + Z.of_nat (length (after l)) <= 79;
  ed_left : line_index l <= pos s;
}.

(** The line fits on the cursor's row. *)
Definition one_row (l : line) s : Prop := line_index l <= screen_x (s_scr s).

(** The cells from the start of the line on show [bs]. *)
Definition shows (pv p : Z) (bs : list Z) s : Prop :=
  forall i c, lget bs i = Some c -> vbyte s pv (2 * (p + i)) = c.

Lemma line_index_size l : 0 <= line_index l <= line_size l.
Proof. unfold line_size, line_index, line_text. rewrite length_app. lia. Qed.

Lemma line_size_after l : line_size l = line_index l + Z.of_nat (length (after l)).
Proof. unfold line_size, line_index, line_text. rewrite length_app. lia. Qed.

(** A state that differs from an editing one by the new line and by drawing
    is editing again. *)
Lemma editing_draws t pv l l' s s' :
  editing t pv l s -> draws (set s_kbd (with_line t l') s) s' ->
  line_size l' <= 127 -> Forall char_ok (line_text l') -> cursor_ok s' ->
  screen_x (s_scr s') + Z.of_nat (length (after l')) <= 79 ->
  line_index l' <= pos s' -> editing t pv l' s'.
Proof.
  intros E D Hs Hc Hcur Hr Hl. pose proof (draws_kbd _ _ D) as Hk. upd_in Hk.
  pose proof (lget_range _ _ _ (ed_buffer _ _ _ _ E)).
  pose proof (lget_range _ _ _ (ed_index _ _ _ _ E)).
  pose proof (lget_range _ _ _ (ed_size _ _ _ _ E)).
  constructor; try done.
  - rewrite (draws_term _ _ D). apply E.
  - change (buffer (s_kbd s')) with (buffer (set key_flag (fun _ => 0) (s_kbd s'))).
    rewrite Hk. unfold with_line. upd. rewrite lget_insert by done. by rewrite decide_True.
  - change (bufferIDX (s_kbd s')) with (bufferIDX (set key_flag (fun _ => 0) (s_kbd s'))).
    rewrite Hk. unfold with_line. upd. rewrite lget_insert by done. by rewrite decide_True.
  - change (bufferSIZE (s_kbd s')) with (bufferSIZE (set key_flag (fun _ => 0) (s_kbd s'))).
    rewrite Hk. unfold with_line. upd. rewrite lget_insert by done. by rewrite decide_True.
  - eapply video_at_draws; [exact D|]. exact (ed_video _ _ _ _ E).
Qed.

(** ** Rules for the index and the size *)

Lemma wp_get_idx s t v (Q : Z -> kstate -> Prop) :
  lget (bufferIDX (s_kbd s)) t = Some v -> Q v s -> wp (get_idx t) Q s.
Proof.
  intros Hv HQ. unfold get_idx, get_kbd. wp_pures. by eapply wp_aget_Some.
Qed.
Lemma wp_get_size s t v (Q : Z -> kstate -> Prop) :
  lget (bufferSIZE (s_kbd s)) t = Some v -> Q v s -> wp (get_size t) Q s.
Proof.
  intros Hv HQ. unfold get_size, get_kbd. wp_pures. by eapply wp_aget_Some.
Qed.
Lemma wp_put_idx s t v (Q : unit -> kstate -> Prop) :
  0 <= t < Z.of_nat (length (bufferIDX (s_kbd s))) -> 0 <= v < 256 ->
  Q tt (set s_kbd (set bufferIDX (<[Z.to_nat t := v]>)) s) -> wp (put_idx t v) Q s.
Proof.
  intros Ht Hv HQ. unfold put_idx, get_kbd, kbd_set. wp_pures.
  apply wp_aset; [done|]. wp_pures. rewrite u8_small by done. exact HQ.
Qed.
Lemma wp_put_size s t v (Q : unit -> kstate -> Prop) :
  0 <= t < Z.of_nat (length (bufferSIZE (s_kbd s))) -> 0 <= v < 256 ->
  Q tt (set s_kbd (set bufferSIZE (<[Z.to_nat t := v]>)) s) -> wp (put_size t v) Q s.
Proof.
  intros Ht Hv HQ. unfold put_size, get_kbd, kbd_set. wp_pures.
  apply wp_aset; [done|]. wp_pures. rewrite u8_small by done. exact HQ.
Qed.

Lemma wp_buffer_from s t i r (Q : list Z -> kstate -> Prop) :
  lget (buffer (s_kbd s)) t = Some r -> Q (drop (Z.to_nat i) r) s ->
  wp (buffer_from t i) Q s.
Proof.
  intros Hr HQ. unfold buffer_from, get_kbd. wp_pures.
  eapply wp_aget_Some; [done|]. by wp_pures.
Qed.

(** Moving the cursor by [- amount] columns. *)
Lemma wp_cursor_update_left s n (Q : unit -> kstate -> Prop) :
  (forall s', draws s s' -> screen_x (s_scr s') = screen_x (s_scr s) - n ->
    screen_y (s_scr s') = screen_y (s_scr s) -> s_mem s' = s_mem s ->
    s_kbd s' = s_kbd s -> Q tt s') ->
  wp (cursor_update_left n) Q s.
Proof.
  intros HQ. unfold cursor_update_left, get_screen_x, set_screen_x, scr_set. wp_pures.
  eapply wp_quiet; [apply quietly_cursor_update|]. intros [] s' [D E M K].
  apply HQ; rewrite ?E, ?M, ?K; upd; try done.
  etransitivity; [|exact D]. draws_tac.
Qed.
Lemma wp_cursor_update_right s n (Q : unit -> kstate -> Prop) :
  (forall s', draws s s' -> screen_x (s_scr s') = screen_x (s_scr s) + n ->
    screen_y (s_scr s') = screen_y (s_scr s) -> s_mem s' = s_mem s ->
    s_kbd s' = s_kbd s -> Q tt s') ->
  wp (cursor_update_right n) Q s.
Proof.
  intros HQ. unfold cursor_update_right, get_screen_x, set_screen_x, scr_set. wp_pures.
  eapply wp_quiet; [apply quietly_cursor_update|]. intros [] s' [D E M K].
  apply HQ; rewrite ?E, ?M, ?K; upd; try done.
  etransitivity; [|exact D]. draws_tac.
Qed.

(** ** The four edits *)

Lemma draws_set_index s s' f :
  draws s s' -> draws (set s_kbd (set bufferIDX f) s) (set s_kbd (set bufferIDX f) s').
Proof.
  intros []. constructor; upd; try done.
  change (set bufferIDX f (set key_flag (fun _ => 0) (s_kbd s')) =
          set bufferIDX f (set key_flag (fun _ => 0) (s_kbd s))). by f_equal.
Qed.
Lemma draws_set_size s s' f :
  draws s s' -> draws (set s_kbd (set bufferSIZE f) s) (set s_kbd (set bufferSIZE f) s').
Proof.
  intros []. constructor; upd; try done.
  change (set bufferSIZE f (set key_flag (fun _ => 0) (s_kbd s')) =
          set bufferSIZE f (set key_flag (fun _ => 0) (s_kbd s))). by f_equal.
Qed.

(** The kbd arrays keep their lengths while drawing. *)
Lemma draws_buffer s s' : draws s s' -> buffer (s_kbd s') = buffer (s_kbd s).
Proof. intros D. exact (f_equal buffer (draws_kbd _ _ D)). Qed.
Lemma draws_index s s' : draws s s' -> bufferIDX (s_kbd s') = bufferIDX (s_kbd s).
Proof. intros D. exact (f_equal bufferIDX (draws_kbd _ _ D)). Qed.
Lemma draws_size s s' : draws s s' -> bufferSIZE (s_kbd s') = bufferSIZE (s_kbd s).
Proof. intros D. exact (f_equal bufferSIZE (draws_kbd _ _ D)). Qed.

(** The new index and size, stored at the end of each edit. *)
Lemma wp_put_line t pv l l' s s1 (Q : unit -> kstate -> Prop) :
  editing t pv l s -> draws (with_row t (line_row l') s) s1 ->
  line_size l' <= 127 -> Forall char_ok (line_text l') -> cursor_ok s1 ->
  screen_x (s_scr s1) + Z.of_nat (length (after l')) <= 79 -> line_index l' <= pos s1 ->
  (forall s', draws (set s_kbd (with_line t l') s) s' -> editing t pv l' s' ->
    s_scr s' = s_scr s1 -> s_mem s' = s_mem s1 -> Q tt s') ->
  wp (put_idx t (line_index l') ;; put_size t (line_size l')) Q s1.
Proof.
  intros E D Hs Hc Hcur Hr Hl HQ. pose proof (line_index_size l').
  pose proof (lget_range _ _ _ (ed_index _ _ _ _ E)).
  pose proof (lget_range _ _ _ (ed_size _ _ _ _ E)).
  wp_pure. apply wp_put_idx; [by rewrite (draws_index _ _ D)|lia|].
  apply wp_put_size; [upd; by rewrite (draws_size _ _ D)|lia|].
  assert (D' := draws_set_size _ _ (<[Z.to_nat t := line_size l']>)
    (draws_set_index _ _ (<[Z.to_nat t := line_index l']>) D)).
  apply HQ; [exact D'| |done|done].
  eapply editing_draws; [exact E|exact D'|done|done| |done|done].
  by eapply cursor_ok_scr; [|exact Hcur].
Qed.

Lemma char_ok_not_13 bs n :
  Forall char_ok bs -> Forall (fun c => c <> 13) (bs ++ replicate n 0).
Proof.
  intros Hb. apply Forall_app. split.
  - eapply Forall_impl; [exact Hb|]. by intros c [_ ?].
  - apply Forall_replicate. lia.
Qed.

Lemma drop_line_row l :
  drop (Z.to_nat (line_index l)) (line_row l) =
  after l ++ replicate (128 - length (line_text l)) 0.
Proof.
  unfold line_row, line_index, line_text. rewrite Nat2Z.id, <-app_assoc.
  apply drop_app_length.
Qed.

(** [keyboard_insert], and the cells it writes when the line stays on its
    row. *)
Lemma wp_keyboard_insert t pv l s c :
  let l' := mk_line (before l ++ [c]) (after l) in
  editing t pv l s -> line_size l <= 126 -> char_ok c ->
  wp (keyboard_insert c) (fun _ s' =>
    draws (set s_kbd (with_line t l') s) s' /\ editing t pv l' s' /\
    (Forall (fun c => c <> 10) (c :: after l) -> 0 <= screen_x (s_scr s) ->
     screen_x (s_scr s) + Z.of_nat (length (after l)) + 1 <= 79 ->
      screen_x (s_scr s') = screen_x (s_scr s) + 1 /\
      screen_y (s_scr s') = screen_y (s_scr s) /\
      s_mem s' = put_text (s_mem s) pv (pos s) (c :: after l))) s.
Proof.
  intros l' E Hmax Hc. pose proof (line_index_size l) as Hix.
  pose proof (line_size_after l) as Hsa. set (n := Z.of_nat (length (after l))) in *.
  assert (Hl' : line_size l' = line_size l + 1 /\ line_index l' = line_index l + 1).
  { unfold l', line_size, line_index, line_text. cbn [before after].
    rewrite !length_app. cbn [length]. lia. }
  destruct Hl' as [Hs' Hi'].
  assert (Hc' : Forall char_ok (line_text l')).
  { unfold l', line_text. cbn [before after]. pose proof (ed_chars _ _ _ _ E) as H.
    unfold line_text in H. rewrite Forall_app in H. rewrite !Forall_app, Forall_singleton. tauto. }
  unfold keyboard_insert, get_current_terminal. wp_pures. rewrite (ed_term _ _ _ _ E).
  eapply wp_get_size; [apply E|]. wp_pures. eapply wp_get_idx; [apply E|]. wp_pures.
  eapply wp_shift_right; [apply E|apply line_row_length, E|lia|lia|].
  intros row' Hsh. wp_pures.
  pose proof (lget_range _ _ _ (ed_buffer _ _ _ _ E)) as Ht.
  eapply wp_put_buffer; [by apply with_row_get|destruct Hsh; lia|].
  rewrite with_row_twice, (insert_row l c row') by done. fold l'.
  wp_pures. eapply wp_buffer_from; [by apply with_row_get|].
  assert (Hdrop : drop (Z.to_nat (line_index l)) (line_row l') =
      (c :: after l) ++ replicate (128 - length (line_text l')) 0).
  { pose proof (drop_line_row l') as H. rewrite Hi' in H.
    unfold line_row, line_text, l', line_index. cbn [before after].
    rewrite Nat2Z.id, <-!app_assoc. by rewrite drop_app_length. }
  rewrite Hdrop, u32_small, s32_small by lia.
  replace (line_size l - line_index l + 1) with (n + 1) by lia.
  unfold kbd_set. wp_pures.
  assert (Hn : length (c :: after l) = Z.to_nat (n + 1)) by (cbn [length]; lia).
  eapply (wp_terminal_write _ pv); [exact (ed_video _ _ _ _ E)| | | |].
  { by eapply cursor_ok_scr; [|apply E]. }
  { rewrite length_app, Hn. lia. }
  { apply char_ok_not_13. unfold l', line_text in Hc'. cbn [before after] in Hc'.
    rewrite <-app_assoc in Hc'. apply Forall_app in Hc'. apply Hc'. }
  rewrite <-Hn, take_app_length.
  intros s3 (D3 & C3 & P3 & W3). wp_pures. apply wp_cursor_update_left.
  replace (s32 (n + 1 - 1)) with n by (rewrite s32_small; lia).
  intros s4 D4 X4 Y4 M4 K4. upd_in X4. upd_in Y4. upd_in M4. rewrite Hn in P3.
  change (pos (set _ _ _)) with (pos s) in P3.
  pose proof (ed_cursor _ _ _ _ E) as Hcur. pose proof (cursor_ok_pos _ Hcur).
  pose proof (ed_left _ _ _ _ E). pose proof (cursor_col _ C3). pose proof (cursor_row _ C3).
  rewrite <-Hi', <-Hs'.
  eapply wp_put_line; [exact E| |lia|exact Hc'| | | |].
  - transitivity s3; [|etransitivity; [|exact D4]; draws_tac].
    etransitivity; [|exact D3]. draws_tac.
  - constructor; unfold pos in *; lia.
  - unfold l'. cbn [after]. fold n. lia.
  - unfold pos in *. lia.
  - intros s' D' E' S' M'. split; [done|]. split; [done|].
    intros Hlf Hx Hfit. destruct W3 as (WX & WY & WM); [done|done| |].
    { rewrite Hn. unfold with_row. upd. lia. }
    rewrite S', M', X4, Y4, M4, WX, WY, WM, Hn. unfold with_row. upd.
    split; [lia|]. done.
Qed.

Lemma wp_terminal_backspace s pv (Q : unit -> kstate -> Prop) :
  video_at s pv -> cursor_ok s -> 1 <= pos s ->
  (forall s', draws s s' -> cursor_ok s' -> pos s' = pos s - 1 ->
    screen_x (s_scr s') = (if screen_x (s_scr s) =? 0 then 79 else screen_x (s_scr s) - 1) ->
    s_mem s' = put_text (s_mem s) pv (pos s - 1) [32] -> Q tt s') ->
  wp terminal_backspace Q s.
Proof.
  intros Hv Hc Hp HQ. unfold terminal_backspace. wp_pure.
  apply (wp_backspace _ pv); [done..|]. intros s1 D1 C1 P1 X1 M1.
  eapply wp_quiet; [apply quietly_cursor_update|]. intros [] s2 [D E M _].
  apply HQ.
  - by transitivity s1.
  - by eapply cursor_ok_scr.
  - unfold pos in *. by rewrite E.
  - by rewrite E.
  - rewrite M, M1, P1. cbn [put_text]. done.
Qed.

Lemma wp_keyboard_backspace t pv b c a s :
  let l := mk_line (b ++ [c]) a in
  let l' := mk_line b a in
  editing t pv l s ->
  wp keyboard_backspace (fun _ s' =>
    draws (set s_kbd (with_line t l') s) s' /\ editing t pv l' s' /\
    (Forall (fun c => c <> 10) a -> 1 <= screen_x (s_scr s) ->
      screen_x (s_scr s') = screen_x (s_scr s) - 1 /\
      screen_y (s_scr s') = screen_y (s_scr s) /\
      s_mem s' = put_text (put_text (s_mem s) pv (pos s - 1) [32]) pv (pos s - 1) (a ++ [0]))) s.
Proof.
  intros l l' E. pose proof (line_index_size l) as Hix.
  pose proof (line_size_after l) as Hsa. change (after l) with a in Hsa.
  set (n := Z.of_nat (length a)) in *.
  assert (Hl' : line_size l' = line_size l - 1 /\ line_index l' = line_index l - 1).
  { unfold l', l, line_size, line_index, line_text. cbn [before after].
    rewrite !length_app. cbn [length]. lia. }
  destruct Hl' as [Hs' Hi'].
  pose proof (line_index_size l') as Hix'. pose proof (ed_max _ _ _ _ E) as Hmax.
  assert (Hc' : Forall char_ok (line_text l')).
  { unfold l', line_text. cbn [before after]. pose proof (ed_chars _ _ _ _ E) as H.
    unfold l, line_text in H. cbn [before after] in H.
    rewrite !Forall_app in H. rewrite !Forall_app. tauto. }
  unfold keyboard_backspace, get_current_terminal. wp_pures. rewrite (ed_term _ _ _ _ E).
  eapply wp_get_size; [apply E|]. wp_pures. eapply wp_get_idx; [apply E|]. wp_pures.
  eapply wp_shift_left; [apply E|by apply line_row_length|lia|lia|].
  intros row' Hsh. wp_pures.
  pose proof (lget_range _ _ _ (ed_buffer _ _ _ _ E)) as Ht.
  eapply wp_put_buffer; [by apply with_row_get|destruct Hsh; lia|].
  pose proof (delete_row b c a row') as Hdel. cbv zeta in Hdel. fold l l' in Hdel.
  rewrite with_row_twice, Hdel by done.
  wp_pures. eapply wp_buffer_from; [by apply with_row_get|].
  rewrite <-Hi', drop_line_row. cbn [after l'].
  pose proof (ed_cursor _ _ _ _ E) as Hcur. pose proof (cursor_ok_pos _ Hcur).
  pose proof (ed_left _ _ _ _ E).
  wp_pures. eapply (wp_terminal_backspace _ pv); [exact (ed_video _ _ _ _ E)| | |].
  { by eapply cursor_ok_scr; [|apply E]. }
  { change (pos (with_row _ _ _)) with (pos s). lia. }
  intros s2 D2 C2 P2 X2 M2. change (pos (with_row _ _ _)) with (pos s) in P2, M2.
  unfold with_row in X2, M2. upd_in X2. upd_in M2.
  rewrite u32_small, s32_small by lia.
  replace (line_size l - line_index l + 1) with (n + 1) by lia.
  assert (Hrep : replicate (128 - length (line_text l')) 0 =
     [0] ++ replicate (127 - length (line_text l')) 0).
  { unfold line_size in *.
    by replace (128 - length (line_text l'))%nat
      with (S (127 - length (line_text l'))) by lia. }
  rewrite Hrep, app_assoc.
  assert (Hn : length (a ++ [0]) = Z.to_nat (n + 1)).
  { rewrite length_app. cbn [length]. lia. }
  wp_pures. eapply (wp_terminal_write _ pv).
  { eapply video_at_draws; [exact D2|exact (ed_video _ _ _ _ E)]. }
  { done. }
  { rewrite length_app, Hn. lia. }
  { rewrite <-app_assoc. change ([0] ++ ?r) with (0 :: r).
    apply (char_ok_not_13 a (S _)). unfold l', line_text in Hc'.
    cbn [before after] in Hc'. apply Forall_app in Hc'. apply Hc'. }
  rewrite <-Hn, take_app_length.
  intros s3 (D3 & C3 & P3 & W3). wp_pures. apply wp_cursor_update_left.
  intros s4 D4 X4 Y4 M4 K4. rewrite Hn in P3.
  pose proof (cursor_col _ C3). pose proof (cursor_row _ C3).
  rewrite <-Hs'.
  eapply wp_put_line; [exact E| |lia|exact Hc'| | | |].
  - transitivity s2; [done|]. by transitivity s3.
  - constructor; unfold pos in *; lia.
  - unfold l'. cbn [after]. fold n. lia.
  - unfold pos in *. lia.
  - intros s' D' E' S' M'. split; [done|]. split; [done|].
    intros Hlf Hx. pose proof (ed_right _ _ _ _ E) as Hr. change (after l) with a in Hr.
    rewrite (proj2 (Z.eqb_neq _ _)) in X2 by lia.
    destruct W3 as (WX & WY & WM).
    { apply Forall_app. split; [done|]. by apply Forall_singleton. }
    { lia. }
    { rewrite Hn. lia. }
    rewrite S', M', X4, Y4, M4, WX, WY, WM, X2, M2, P2, Hn.
    split; [lia|]. split; [unfold pos in *; lia|done].
Qed.


(** ** The arrows *)

Lemma with_line_index t pv l l' s :
  editing t pv l s -> line_text l' = line_text l ->
  with_line t l' (s_kbd s) =
    set bufferIDX (<[Z.to_nat t := line_index l']>) (s_kbd s).
Proof.
  intros E Ht. unfold with_line, line_row, line_size. rewrite Ht. fold (line_row l).
  pose proof (ed_buffer _ _ _ _ E) as Hb. pose proof (ed_size _ _ _ _ E) as Hz.
  unfold lget in Hb, Hz. case_decide; [|done].
  destruct (s_kbd s) as []. cbv [set buffer_upd bufferIDX_upd bufferSIZE_upd]. cbn in *.
  f_equal; by apply list_insert_id.
Qed.

(** What an arrow does: the index and the cursor move together. *)
Definition moved (t pv : Z) (l l' : line) s s' : Prop :=
  draws (set s_kbd (with_line t l') s) s' /\ editing t pv l' s' /\
  s_mem s' = s_mem s /\ screen_y (s_scr s') = screen_y (s_scr s) /\
  screen_x (s_scr s') = screen_x (s_scr s) + line_index l' - line_index l.

Lemma moved_intro t pv l l' s s1 s' :
  editing t pv l s -> line_text l' = line_text l ->
  s1 = set s_kbd (set bufferIDX (<[Z.to_nat t := line_index l']>)) s ->
  draws s1 s' -> s_mem s' = s_mem s1 -> screen_y (s_scr s') = screen_y (s_scr s1) ->
  screen_x (s_scr s') = screen_x (s_scr s1) + line_index l' - line_index l ->
  moved t pv l l' s s'.
Proof.
  intros E Ht -> D M Y X. upd_in M. upd_in Y. upd_in X.
  assert (D' : draws (set s_kbd (with_line t l') s) s').
  { etransitivity; [|exact D]. constructor; upd; try done.
    by rewrite (with_line_index _ _ _ _ _ E Ht). }
  split; [done|]. split; [|done].
  assert (Hs : line_size l' = line_size l) by (unfold line_size; by rewrite Ht).
  pose proof (line_size_after l). pose proof (line_size_after l').
  pose proof (line_index_size l').
  destruct E as [? ? ? ? ? ? Hv [] ? ?].
  eapply editing_draws; [by constructor|done|lia|by rewrite Ht| |lia|].
  - constructor; unfold pos in *; lia.
  - unfold pos in *. lia.
Qed.

Lemma wp_keyboard_left_arrow t pv b c a s :
  editing t pv (mk_line (b ++ [c]) a) s ->
  wp keyboard_left_arrow (fun _ s' =>
    moved t pv (mk_line (b ++ [c]) a) (mk_line b (c :: a)) s s') s.
Proof.
  intros E. unfold keyboard_left_arrow, get_current_terminal. wp_pures.
  rewrite (ed_term _ _ _ _ E). eapply wp_get_idx; [apply E|].
  pose proof (line_index_size (mk_line (b ++ [c]) a)).
  pose proof (ed_max _ _ _ _ E). pose proof (lget_range _ _ _ (ed_index _ _ _ _ E)).
  assert (Hi : line_index (mk_line (b ++ [c]) a) = line_index (mk_line b (c :: a)) + 1).
  { unfold line_index. cbn [before]. rewrite length_app. cbn [length]. lia. }
  pose proof (line_index_size (mk_line b (c :: a))).
  rewrite (proj2 (Z.eqb_neq _ _)) by lia. wp_pures.
  apply wp_put_idx; [done|lia|].
  apply wp_cursor_update_left. intros s' D X Y M K.
  eapply moved_intro; [done| | |exact D|done|done|lia].
  - unfold line_text. cbn [before after]. by rewrite <-app_assoc.
  - by rewrite Hi, Z.add_simpl_r.
Qed.

Lemma wp_keyboard_left_arrow_start t pv a s :
  editing t pv (mk_line [] a) s -> wp keyboard_left_arrow (fun _ s' => s' = s) s.
Proof.
  intros E. unfold keyboard_left_arrow, get_current_terminal. wp_pures.
  rewrite (ed_term _ _ _ _ E). eapply wp_get_idx; [apply E|]. done.
Qed.

Lemma wp_keyboard_right_arrow t pv b c a s :
  editing t pv (mk_line b (c :: a)) s ->
  wp keyboard_right_arrow (fun _ s' =>
    moved t pv (mk_line b (c :: a)) (mk_line (b ++ [c]) a) s s') s.
Proof.
  intros E. unfold keyboard_right_arrow, get_current_terminal. wp_pures.
  rewrite (ed_term _ _ _ _ E). eapply wp_get_idx; [apply E|]. wp_pures.
  eapply wp_get_size; [apply E|].
  pose proof (line_index_size (mk_line b (c :: a))).
  pose proof (line_size_after (mk_line b (c :: a))) as Hs. cbn [after length] in Hs.
  pose proof (ed_max _ _ _ _ E). pose proof (lget_range _ _ _ (ed_index _ _ _ _ E)).
  assert (Hi : line_index (mk_line (b ++ [c]) a) = line_index (mk_line b (c :: a)) + 1).
  { unfold line_index. cbn [before]. rewrite length_app. cbn [length]. lia. }
  rewrite (proj2 (Z.eqb_neq _ _)) by lia. wp_pures.
  apply wp_put_idx; [done|lia|].
  apply wp_cursor_update_right. intros s' D X Y M K.
  eapply moved_intro; [done| | |exact D|done|done|lia].
  - unfold line_text. cbn [before after]. by rewrite <-app_assoc.
  - by rewrite Hi.
Qed.

Lemma wp_keyboard_right_arrow_end t pv b s :
  editing t pv (mk_line b []) s -> wp keyboard_right_arrow (fun _ s' => s' = s) s.
Proof.
  intros E. unfold keyboard_right_arrow, get_current_terminal. wp_pures.
  rewrite (ed_term _ _ _ _ E). eapply wp_get_idx; [apply E|]. wp_pures.
  eapply wp_get_size; [apply E|].
  pose proof (line_size_after (mk_line b [])) as Hs. cbn [after length] in Hs.
  rewrite (proj2 (Z.eqb_eq _ _)) by lia. done.
Qed.

(** ** Clearing the line *)

Lemma wp_clear_keyboard_buffer s t row (Q : unit -> kstate -> Prop) :
  current_terminal (s_term s) = t ->
  lget (buffer (s_kbd s)) t = Some row -> length row = 128%nat ->
  0 <= t < Z.of_nat (length (bufferIDX (s_kbd s))) ->
  0 <= t < Z.of_nat (length (bufferSIZE (s_kbd s))) ->
  Q tt (set s_kbd (with_line t (mk_line [] [])) s) ->
  wp clear_keyboard_buffer Q s.
Proof.
  intros Ht Hr Hlen Hi Hz HQ. unfold clear_keyboard_buffer, get_current_terminal.
  wp_pure. eapply wp_mono.
  { apply (wp_for_up _ _ _ (fun i s' => exists row', length row' = 128%nat /\
      (forall j, 0 <= j < i -> lget row' j = Some 0) /\ s' = with_row t row' s)); [done| |].
    - exists row. split; [done|]. split; [lia|]. by rewrite with_row_same.
    - intros i s' Hi' (row' & Hl & H0 & ->). unfold MAX_BUFFER_SIZE in Hi'. wp_pures.
      change (current_terminal _) with (current_terminal (s_term s)). rewrite Ht.
      eapply wp_put_buffer; [apply with_row_get; by eapply lget_range|lia|].
      rewrite with_row_twice. eexists. split; [|split; [|done]]; [by rewrite length_insert|].
      intros j Hj. rewrite lget_insert by lia. case_decide; [done|]. apply H0. lia. }
  cbv beta. intros _ s' (row' & Hl & H0 & ->). wp_pures.
  assert (row' = line_row (mk_line [] [])) as ->.
  { apply list_eq_lget; [by rewrite Hl|]. intros j Hj. rewrite H0 by (unfold MAX_BUFFER_SIZE; lia).
    unfold line_row. cbn [line_text before after app length].
    rewrite lget_replicate by lia. done. }
  change (s_term (with_row _ _ _)) with (s_term s). rewrite Ht.
  apply wp_put_idx; [exact Hi|lia|]. wp_pures.
  upd. change (s_term (with_row _ _ _)) with (s_term s). rewrite Ht.
  apply wp_put_size; [exact Hz|lia|]. exact HQ.
Qed.

Lemma wp_terminal_clear s pv (Q : unit -> kstate -> Prop) :
  video_at s pv ->
  (forall s', draws s s' -> screen_x (s_scr s') = 0 -> screen_y (s_scr s') = 0 ->
    (forall a, mem_get (s_mem s') a =
      if decide (pv <= a < pv + 4000) then (if (a - pv) mod 2 =? 0 then 32 else 7)
      else mem_get (s_mem s) a) -> Q tt s') ->
  wp terminal_clear Q s.
Proof.
  intros Hv HQ. unfold terminal_clear, set_screen_x, set_screen_y, scr_set. wp_pure.
  eapply wp_clear; [done|]. intros s1 D1 E1 M1. wp_pures.
  eapply wp_quiet; [apply quietly_cursor_update|]. intros [] s2 [D2 E2 M2 _].
  apply HQ; rewrite ?E2, ?M2; upd; try done.
  transitivity s1; [done|]. etransitivity; [|exact D2]. draws_tac.
Qed.
End editor.
