(* ===== verification/Interrupts.v ===== *)
(** * interrupts.c: descriptors, paging, the scheduler and the device handlers *)
From S2P Require Import Prelude State Monad Screen Pic Proc Fs Rtc Terminal Keyboard.

Definition DPL_KERNEL : Z := 0.
Definition DPL_USER : Z := 3.
Definition KERNEL_CS : Z := 0x0010.
Definition KERNEL_DS : Z := 0x0018.
Definition USER_CS : Z := 0x0023.
Definition USER_DS : Z := 0x002B.
Definition VIDEOMEM : Z := 184.
Definition KERNEL : Z := 0x00400083.
Definition KERNEL_USER : Z := 0x00400087.
Definition PRESENT_MASK : Z := 1.
Definition READWRITE_MASK : Z := 2.
Definition USER_MASK : Z := 4.
Definition VIRTUAL_PROGRAM : Z := 32.
Definition PAGE_ARGS : Z := 0x87.
Definition VIDMAP : Z := 0x8421000.
Definition VID_IDX : Z := 33.
Definition COMMAND_REGISTER : Z := 0x43.
Definition CHANNEL_0_DATA_REGISTER : Z := 0x40.

(** The gates [initialize_IDT] installs, in its order: vector, privilege level
    and handler. *)
Definition idt_entries : list (Z * Z * handler) :=
  [(0x00, DPL_KERNEL, exception_div_zero);
   (0x01, DPL_KERNEL, exception_debug);
   (0x02, DPL_KERNEL, exception_nonmaskable_interrupt);
   (0x03, DPL_KERNEL, exception_breakpoint);
   (0x04, DPL_KERNEL, exception_overflow);
   (0x05, DPL_KERNEL, exception_bound_range_exceeded);
   (0x06, DPL_KERNEL, exception_invalid_opcode);
   (0x07, DPL_KERNEL, exception_device_not_available);
   (0x08, DPL_KERNEL, exception_double_fault);
   (0x09, DPL_KERNEL, exception_coprocessor_segment_overrun);
   (0x0A, DPL_KERNEL, exception_invalid_TSS);
   (0x0B, DPL_KERNEL, exception_segment_not_present);
   (0x0C, DPL_KERNEL, exception_stack_segment_fault);
   (0x0D, DPL_KERNEL, exception_general_protection_fault);
   (0x0E, DPL_KERNEL, exception_page_fault);
   (0x0F, DPL_KERNEL, exception_reserved);
   (0x10, DPL_KERNEL, exception_x87_floating_point);
   (0x11, DPL_KERNEL, exception_alignment_check);
   (0x12, DPL_KERNEL, exception_machine_check);
   (0x13, DPL_KERNEL, exception_SIMD_floating_point);
   (0x14, DPL_KERNEL, exception_virtualization);
   (0x15, DPL_KERNEL, exception_reserved);
   (0x16, DPL_KERNEL, exception_reserved);
   (0x17, DPL_KERNEL, exception_reserved);
   (0x18, DPL_KERNEL, exception_reserved);
   (0x19, DPL_KERNEL, exception_reserved);
   (0x1A, DPL_KERNEL, exception_reserved);
   (0x1B, DPL_KERNEL, exception_reserved);
   (0x1C, DPL_KERNEL, exception_reserved);
   (0x1D, DPL_KERNEL, exception_reserved);
   (0x1E, DPL_KERNEL, exception_security);
   (0x1F, DPL_KERNEL, exception_reserved);
   (0x20, DPL_USER, schedule_wrapper);
   (0x21, DPL_USER, keyboard_wrapper);
   (0x28, DPL_USER, rtc_wrapper);
   (0x80, DPL_USER, system_call_wrapper)].

Section interrupts.
Context {P : Platform}.

(** ** The interrupt descriptor table *)

(** The offset fields of [temp] are not initialised. *)
Definition create_idt_entry (seg_select dpl_ present_ : Z) : idt_desc_t :=
  {| offset_15_00 := u16 stack_junk;
     seg_selector := u16 seg_select;
     reserved4 := 0;
     reserved3 := 0;
     reserved2 := 1;
     reserved1 := 1;
     size_bit := 1;
     reserved0 := 0;
     dpl := Z.land dpl_ 3;
     present := Z.land present_ 1;
     offset_31_16 := u16 stack_junk |}.

(** x86_desc.h: [SET_IDT_ENTRY] *)
Definition SET_IDT_ENTRY (str : idt_desc_t) (handler_ : Z) : idt_desc_t :=
  set offset_15_00 (fun _ => Z.land (u32 handler_) 0xFFFF)
    (set offset_31_16 (fun _ => Z.shiftr (Z.land (u32 handler_) 0xFFFF0000) 16) str).

Definition put_idt (i : Z) (d : idt_desc_t) : M unit :=
  t <- gets (fun s => idt (s_irq s)) ;;
  t' <- aset t i d ;; irq_set (set idt (fun _ => t')).

Fixpoint install_entries (es : list (Z * Z * handler)) : M unit :=
  match es with
  | [] => ret tt
  | (v, d, h) :: es =>
      put_idt v (SET_IDT_ENTRY (create_idt_entry KERNEL_CS d PRESENT_MASK)
                   (handler_address h)) ;;
      install_entries es
  end.

Definition initialize_IDT : M unit :=
  i8259_init ;;
  outb 0xFD (MASTER_8259_PORT + 1) ;;
  outb 0xFF (SLAVE_8259_PORT + 1) ;;
  install_entries idt_entries ;;
  irq_set (set idt_loaded (fun _ => true)) ;;
  irq_set (set color_flag (fun _ => 0)) ;;
  cursor_disable ;;
  cursor_enable ;;
  cursor_update.

(** ** Paging *)

Definition pag_set (f : pag_t -> pag_t) : M unit := modify (set s_pag f).

(** A store to an entry; the processor may keep the old one until cr3 is
    loaded. *)
Definition put_page (i v : Z) : M unit :=
  a <- gets (fun s => process_pages (s_pag s)) ;;
  a' <- aset a i (u32 v) ;;
  pag_set (set process_pages (fun _ => a')) ;; pag_set (set tlb_stale (fun _ => true)).
Definition put_table (i v : Z) : M unit :=
  a <- gets (fun s => process_tables (s_pag s)) ;;
  a' <- aset a i (u32 v) ;;
  pag_set (set process_tables (fun _ => a')) ;; pag_set (set tlb_stale (fun _ => true)).

(** paging.S *)
Definition flush_tlb : M unit := pag_set (set tlb_stale (fun _ => false)).
Definition init_control_registers_paging : M unit :=
  pag_set (set tlb_stale (fun _ => false)) ;; pag_set (set paging_on (fun _ => true)).

Definition paging_init : M unit :=
  for_up 0 PAGE_SIZE (fun i => put_page i 0x00000002) ;;
  for_up 0 PAGE_SIZE (fun i => put_page i 0x00000002) ;;
  put_page 1 KERNEL ;;
  put_table VIDEOMEM (Z.lor VIDEO PRESENT_MASK) ;;
  put_page 0 (Z.lor (Z.lor process_tables_addr PRESENT_MASK) READWRITE_MASK) ;;
  init_control_registers_paging.

(** ** The timer and the scheduler *)

Definition hw_tss : M tss_t := gets (fun s => tss (s_hw s)).
Definition set_tss (f : tss_t -> tss_t) : M unit := hw_set (set tss f).

Definition put_schedule_tss (t j : Z) (v : tss_t) : M unit :=
  a <- gets (fun s => schedule_tss (s_sched s)) ;;
  a' <- aset2 a t j v ;; sched_set (set schedule_tss (fun _ => a')).

Definition get_schedule_top (t : Z) : M Z :=
  a <- gets (fun s => schedule_top (s_sched s)) ;; aget a t.

Definition PIT_init : M unit :=
  let divisor := Z.quot 1193180 100 in
  outb 0x36 COMMAND_REGISTER ;;
  outb (Z.land divisor 0xFF) CHANNEL_0_DATA_REGISTER ;;
  outb (Z.shiftr divisor 8) CHANNEL_0_DATA_REGISTER ;;
  sched_set (set timer_ticks (fun _ => 0)) ;;
  for_up 0 3 (fun i =>
    a <- gets (fun s => schedule_info_arr (s_sched s)) ;;
    a' <- aset a i (0, 0) ;;
    sched_set (set schedule_info_arr (fun _ => a')) ;;
    sched_set (set strand_type_lock (fun _ => 0))) ;;
  sched_set (set current_process (fun _ => 0)) ;;
  sched_set (set sanity_check (fun _ => 0)) ;;
  sched_set (set terminal_request (fun _ => -1)) ;;
  sched_set (set schedule_tick (fun _ => 0)) ;;
  enable_irq IRQ0.

(** The first part of [timer_handler]: save the context of the process at the
    top of the current terminal's schedule. *)
Definition save_context : M unit :=
  cp <- get_current_process ;;
  top <- get_schedule_top cp ;;
  if top =? 0 then ret tt
  else
    t <- hw_tss ;;
    sc <- gets s_sched ;;
    put_schedule_tss cp (top - 1) t ;;
    put_schedule_esp cp (top - 1) (last_esp sc) ;;
    put_schedule_ebp cp (top - 1) (last_ebp sc) ;;
    sched_set (set sanity_check (fun _ => last_esp sc)).

(** [while (schedule_top[next] == 0) next = (next + 1) % NUM_TERMINALS]: the
    loop comes back to its start after [NUM_TERMINALS] rounds. *)
Fixpoint next_loop (fuel : nat) (next : Z) : M Z :=
  top <- get_schedule_top next ;;
  if top =? 0 then
    match fuel with
    | O => stop_with Hang
    | S fuel => next_loop fuel (Z.rem (next + 1) NUM_TERMINALS)
    end
  else ret next.

(** A request other than -1, 0, 1 and 2 leaves [next_process] unset. *)
Definition choose_next : M Z :=
  req <- gets (fun s => terminal_request (s_sched s)) ;;
  cp <- get_current_process ;;
  if req =? -1 then next_loop (Z.to_nat NUM_TERMINALS) (Z.rem (cp + 1) NUM_TERMINALS)
  else if req =? 0 then ret 0
  else if req =? 1 then ret 1
  else if req =? 2 then ret 2
  else ret (s32 stack_junk).

Definition kernel_stack_of (pid : Z) : Z :=
  u32 (KERNEL_ADDR + (M_4 - 0xF) - 2 * K_4 * pid).

(** [(M_4 * (pid + 1)) | PAGE_ARGS] *)
Definition program_page (pid : Z) : Z := Z.lor (M_4 * (pid + 1)) PAGE_ARGS.
(** [((addr >> 12) << 12) | 0x7] for the address of [process_tables[VID_IDX]] *)
Definition video_directory_entry : Z :=
  Z.lor (Z.shiftl (Z.shiftr (process_tables_addr + 4 * VID_IDX) 12) 12) 0x7.

Definition set_video_mem (v : Z) : M unit := scr_set (set video_mem (fun _ => v)).

(** The second part: load the context of the process at the top of the
    terminal that is now current. *)
Definition load_context : M unit :=
  cp <- get_current_process ;;
  top <- get_schedule_top cp ;;
  if top =? 0 then ret tt
  else
    sc <- gets s_sched ;;
    ebp <- aget2 (schedule_ebp sc) cp (top - 1) ;;
    if ebp =? 0 then ret tt
    else
      pid <- aget2 (schedule_stack sc) cp (top - 1) ;;
      proc_set (set current_pid (fun _ => pid)) ;;
      esp <- aget2 (schedule_esp sc) cp (top - 1) ;;
      sched_set (set last_esp (fun _ => esp)) ;;
      sched_set (set last_ebp (fun _ => ebp)) ;;
      t <- aget2 (schedule_tss sc) cp (top - 1) ;;
      set_tss (fun _ => t) ;;
      put_page VIRTUAL_PROGRAM (program_page pid) ;;
      ct <- get_current_terminal ;;
      (if negb (cp =? ct) then
         put_table VID_IDX
           (Z.lor (VIDEO_1 + 0x1000 * cp) (Z.lor (Z.lor USER_MASK READWRITE_MASK) PRESENT_MASK)) ;;
         set_video_mem (VIDEO_1 + 0x1000 * cp)
       else
         put_table VID_IDX (Z.lor VIDEO (Z.lor (Z.lor USER_MASK READWRITE_MASK) PRESENT_MASK)) ;;
         set_video_mem VIDMAP) ;;
      put_page VID_IDX video_directory_entry ;;
      flush_tlb ;;
      set_tss (set esp0 (fun _ => kernel_stack_of pid)).

Definition timer_handler : M unit :=
  send_eoi IRQ0 ;;
  cli ;;
  flush_tlb ;;
  save_context ;;
  next_process <- choose_next ;;
  sched_set (set current_process (fun _ => next_process)) ;;
  sched_set (set terminal_request (fun _ => -1)) ;;
  load_context ;;
  sched_set (set schedule_tick (fun t => if t =? 0 then 1 else 0)).

(** schedule_wrapper.S: the context interrupted is the one at [cpu_esp]; if
    another one is loaded, control goes there. *)
Definition schedule_entry (ebp : Z) : M unit :=
  flags <- cli_and_save ;;
  h <- gets s_hw ;;
  sched_set (set last_ebp (fun _ => ebp)) ;;
  sched_set (set last_esp (fun _ => cpu_esp h)) ;;
  timer_handler ;;
  sc <- gets s_sched ;;
  if last_esp sc =? cpu_esp h then restore_flags flags
  else stop_with (Resume (last_esp sc) (last_ebp sc)).

(** ** The real-time clock and the keyboard *)

Definition RTC_init : M unit :=
  outb 0x8B CMOS_REG ;;
  prev <- inb RTC_REG ;;
  outb 0x8B CMOS_REG ;;
  outb (Z.lor prev 0x40) RTC_REG ;;
  enable_irq IRQ2 ;;
  enable_irq IRQ8 ;;
  rtc_optable ;;
  for_up 0 3 (fun i =>
    r <- gets (fun s => rtc_running (s_rtc s)) ;;
    r' <- aset r i 2 ;; rtc_set (set rtc_running (fun _ => r'))) ;;
  for_up 0 3 (fun i => set_virtual i 0) ;;
  restore_flags false.

Definition keyboard_init : M unit := keyboard_open [] ;; enable_irq IRQ1.

Definition handle_keyboard (on_irq : irq -> M unit) (exec_shell : M Z) : M unit :=
  flags <- cli_and_save ;;
  video_past <- get_video_mem ;;
  set_video_mem VIDEO ;;
  key <- inb PS2PORT ;;
  handle_keyboard_input on_irq exec_shell key ;;
  set_video_mem video_past ;;
  send_eoi IRQ1 ;;
  restore_flags flags.

Definition handle_RTC : M unit :=
  flags <- cli_and_save ;;
  for_up 0 3 (fun i =>
    a <- gets (fun s => rtc_virtual_interupt (s_rtc s)) ;;
    v <- aget a i ;; set_virtual i (s32 (v + 1))) ;;
  send_eoi IRQ8 ;;
  outb 0x0C CMOS_REG ;;
  inb RTC_REG ;;
  restore_flags flags.
End interrupts.
