(* ===== verification/Descriptors.v ===== *)
(** * x86_desc.h, x86_desc.S: segment descriptors

    The global descriptor table as the processor reads it, and the descriptors
    of the local table and of the task that [entry] (kernel.c) builds. *)
From S2P Require Import Prelude State Monad Pic Interrupts.

Definition KERNEL_TSS : Z := 0x0030.
Definition KERNEL_LDT : Z := 0x0038.
Definition TSS_SIZE : Z := 104.
Definition NUM_VEC : Z := 256.

(** ** Packed structures

    The fields of a packed structure, each with its width in bits, from the
    lowest bit on. *)
Fixpoint pack (fs : list (Z * Z)) : Z :=
  match fs with
  | [] => 0
  | (w, v) :: fs => v mod 2 ^ w + 2 ^ w * pack fs
  end.
Fixpoint unpack (ws : list Z) (z : Z) : list Z :=
  match ws with
  | [] => []
  | w :: ws => z mod 2 ^ w :: unpack ws (z / 2 ^ w)
  end.

(** The eight bytes of a segment descriptor and of a gate. *)
Definition seg_bits (d : seg_desc_t) : Z :=
  pack [(16, seg_lim_15_00 d); (16, base_15_00 d); (8, base_23_16 d); (4, seg_type d);
        (1, seg_sys d); (2, seg_dpl d); (1, seg_present d); (4, seg_lim_19_16 d);
        (1, seg_avail d); (1, seg_reserved d); (1, opsize d); (1, granularity d);
        (8, base_31_24 d)].
Definition idt_bits (d : idt_desc_t) : Z :=
  pack [(16, offset_15_00 d); (16, seg_selector d); (8, reserved4 d); (1, reserved3 d);
        (1, reserved2 d); (1, reserved1 d); (1, size_bit d); (1, reserved0 d); (2, dpl d);
        (1, present d); (16, offset_31_16 d)].

(** ** The tables of x86_desc.S *)

(** Two empty entries, kernel code and data, user code and data, the task, the
    local table. *)
Definition gdt_init : list Z :=
  [0; 0; 0x00CF9A000000FFFF; 0x00CF92000000FFFF; 0x00CFFA000000FFFF; 0x00CFF2000000FFFF; 0; 0].
(** [tss_bottom - tss - 1] and [ldt_bottom - ldt - 1]. *)
Definition tss_size : Z := 104 * 1 - 1.
Definition ldt_size : Z := 4 * 8 - 1.

(** ** Setting them up *)

(** The address and the limit, cut to the fields. *)
Definition SET_LDT_PARAMS (str : seg_desc_t) (addr lim : Z) : seg_desc_t :=
  set seg_lim_15_00 (fun _ => u16 (Z.land lim 0x0000FFFF))
    (set seg_lim_19_16 (fun _ => Z.land (Z.shiftr (Z.land lim 0x000F0000) 16) 15)
      (set base_15_00 (fun _ => u16 (Z.land (u32 addr) 0x0000FFFF))
        (set base_23_16 (fun _ => u8 (Z.shiftr (Z.land (u32 addr) 0x00FF0000) 16))
          (set base_31_24 (fun _ => u8 (Z.shiftr (Z.land (u32 addr) 0xFF000000) 24)) str)))).
Definition SET_TSS_PARAMS (str : seg_desc_t) (addr lim : Z) : seg_desc_t :=
  SET_LDT_PARAMS str addr lim.

Section descriptors.
Context {P : Platform}.

Definition put_gdt (i v : Z) : M unit :=
  t <- gets (fun s => gdt (s_irq s)) ;;
  t' <- aset t i v ;; irq_set (set gdt (fun _ => t')).

(** [lldt] loads the register; [ltr] also marks the task as busy. *)
Definition lldt (desc : Z) : M unit := irq_set (set ldtr (fun _ => desc)).
Definition ltr (desc : Z) : M unit :=
  t <- gets (fun s => gdt (s_irq s)) ;;
  d <- aget t (Z.shiftr desc 3) ;;
  put_gdt (Z.shiftr desc 3) (Z.setbit d 41) ;;
  irq_set (set task_register (fun _ => desc)).

(** The fields that no assignment has reached yet hold what the stack held. *)
Definition the_ldt_desc : seg_desc_t :=
  let junk w := Z.land stack_junk (Z.ones w) in
  SET_LDT_PARAMS
    {| seg_lim_15_00 := junk 16; base_15_00 := junk 16; base_23_16 := junk 8; seg_type := 0x2;
       seg_sys := 0x0; seg_dpl := 0x0; seg_present := 0x1; seg_lim_19_16 := junk 4;
       seg_avail := 0x0; seg_reserved := 0x0; opsize := 0x1; granularity := 0x0;
       base_31_24 := junk 8 |} ldt_address ldt_size.
Definition the_tss_desc : seg_desc_t :=
  let junk w := Z.land stack_junk (Z.ones w) in
  SET_TSS_PARAMS
    {| seg_lim_15_00 := Z.land TSS_SIZE 0x0000FFFF; base_15_00 := junk 16;
       base_23_16 := junk 8; seg_type := 0x9; seg_sys := 0x0; seg_dpl := 0x0;
       seg_present := 0x1; seg_lim_19_16 := Z.land (Z.land TSS_SIZE 0x000F0000) 15;
       seg_avail := 0x0; seg_reserved := 0x0; opsize := 0x0; granularity := 0x0;
       base_31_24 := junk 8 |} tss_address tss_size.

(** The two blocks of [entry]: [ldt_desc_ptr] and [tss_desc_ptr] are the
    entries 7 and 6 of the table. *)
Definition construct_ldt : M unit :=
  put_gdt 7 (seg_bits the_ldt_desc) ;; lldt KERNEL_LDT.
Definition construct_tss : M unit :=
  put_gdt 6 (seg_bits the_tss_desc) ;;
  set_tss (set ldt_segment_selector (fun _ => KERNEL_LDT)) ;;
  set_tss (set ss0 (fun _ => KERNEL_DS)) ;;
  set_tss (set esp0 (fun _ => 0x800000)) ;;
  ltr KERNEL_TSS.
End descriptors.
