(* ===== verification/Syscalls.v ===== *)
(** * syscalls.c: the system calls *)
From S2P Require Import Prelude State Monad Strings Screen Pic Mem Proc Fs Rtc Terminal Keyboard Interrupts.

Definition TYPE_RTC : Z := 0.
Definition TYPE_DIR : Z := 1.
Definition TYPE_FILE : Z := 2.
Definition SYS_HALT : Z := 1.
Definition SYS_EXECUTE : Z := 2.
Definition SYS_READ : Z := 3.
Definition SYS_WRITE : Z := 4.
Definition SYS_OPEN : Z := 5.
Definition SYS_CLOSE : Z := 6.
Definition SYS_GETARGS : Z := 7.
Definition SYS_VIDMAP : Z := 8.
Definition SYS_SET_HANDLER : Z := 9.
Definition SYS_SIGRETURN : Z := 10.
Definition VIRTUAL_START : Z := 0x8048000.
Definition ENTRY_START : Z := 0x8048018.
Definition MAGIC_LEAD : Z := 0x464c457f.
Definition PROGMEM_UPPER : Z := 0x800000.
Definition PROGMEM_LOWER : Z := 0x400000.
(** [length] and the size in bytes of [int buf[10000]] in [execute]. *)
Definition exec_length : Z := 10000.
Definition exec_buf_size : Z := 40000.

Section syscalls.
Context {P : Platform}.
(** What an interrupt does while a call spins. *)
Variable on_irq : irq -> M unit.

(** ** Calls through an operation table *)

Definition get_optable (t : optab) : M optable_t :=
  ts <- gets (fun s => optables (s_proc s)) ;; of_opt NullCall (ts t).

Definition call_read (f : read_fn) (fd nbytes : Z) : M (Z * list Z) :=
  match f with
  | fn_file_read => file_read fd nbytes
  | fn_directory_read => directory_read fd nbytes
  | fn_rtc_read => rtc_read on_irq fd nbytes
  | fn_terminal_read => terminal_read on_irq fd nbytes
  | fn_terminal_read_fail => terminal_read_fail fd nbytes
  end.

(** [buf] reads the caller's buffer: its argument is a number of bytes. *)
Definition call_write (f : write_fn) (fd : Z) (buf : nat -> M (list Z)) (nbytes : Z) : M Z :=
  match f with
  | fn_file_write => file_write fd [] nbytes
  | fn_directory_write => directory_write fd [] nbytes
  | fn_rtc_write => bs <- buf (Z.to_nat (Z.min nbytes 4)) ;; rtc_write fd bs nbytes
  | fn_keyboard_write => keyboard_write fd [] nbytes
  | fn_terminal_write => bs <- buf (Z.to_nat nbytes) ;; terminal_write fd bs nbytes
  end.

Definition call_close (f : close_fn) (fd : Z) : M Z :=
  match f with
  | fn_file_close => file_close fd
  | fn_directory_close => directory_close fd
  | fn_rtc_close => rtc_close fd
  | fn_keyboard_close => keyboard_close fd
  | fn_terminal_close => terminal_close fd
  end.

(** ** Files *)

(** [read] into a buffer that is not NULL: result and bytes written. *)
Definition read_into (fd nbytes : Z) : M (Z * list Z) :=
  if (fd <? 0) || (FDT_SIZE <=? fd) then ret (-1, [])
  else
    b <- get_fd fd ;;
    if fd_flags b =? -1 then ret (-1, [])
    else
      match file_operations_pointer b with
      | None => ret (-1, [])
      | Some t => o <- get_optable t ;; call_read (op_read o) fd nbytes
      end.

(** [read] as a system call: [buf] is a user address, 0 is NULL. *)
Definition read (fd buf nbytes : Z) : M Z :=
  cli ;;
  if buf =? 0 then ret (-1)
  else r <- read_into fd nbytes ;; store_bytes buf (snd r) ;; ret (fst r).

Definition write (fd buf nbytes : Z) : M Z :=
  cli ;;
  if buf =? 0 then ret (-1)
  else if (fd <? 0) || (FDT_SIZE <=? fd) then ret (-1)
  else
    b <- get_fd fd ;;
    if fd_flags b =? -1 then ret (-1)
    else
      match file_operations_pointer b with
      | None => ret (-1)
      | Some t =>
          o <- get_optable t ;; call_write (op_write o) fd (load_bytes buf) nbytes
      end.

(** [None] is NULL; a type other than the three leaves [ret] unset. *)
Definition open (filename_ : option (list Z)) : M Z :=
  cli ;;
  match filename_ with
  | None => ret (-1)
  | Some fname =>
      r <- read_dentry_by_name fname junk_dentry ;;
      let '(res, dentry) := r in
      if negb (res =? 0) then ret FAILURE
      else
        let ty := file_type dentry in
        if ty =? TYPE_RTC then rtc_open fname
        else if ty =? TYPE_DIR then directory_open fname
        else if ty =? TYPE_FILE then file_open fname
        else ret (s32 stack_junk)
  end.

Definition close (fd : Z) : M Z :=
  cli ;;
  if (fd <? 2) || (FDT_SIZE <=? fd) then ret (-1)
  else
    b <- get_fd fd ;;
    match file_operations_pointer b with
    | None => ret (-1)
    | Some t => o <- get_optable t ;; call_close (op_close o) fd
    end.

(** ** Arguments, video memory, signals *)

Definition getargs (buf nbytes : Z) : M Z :=
  cli ;;
  if buf =? 0 then ret (-1)
  else if nbytes <=? 0 then ret (-1)
  else
    p <- get_current_pid ;;
    b <- get_pcb p ;;
    args_size <- of_opt OutOfBounds (strlen (pcb_args b)) ;;
    if (nbytes <? args_size) || (args_size <=? 0) then ret FAILURE
    else
      bytes <- of_opt OutOfBounds
                 (strncpy (replicate (Z.to_nat args_size) 0) (pcb_args b) args_size) ;;
      store_bytes buf bytes ;;
      store8 (buf + args_size) 0 ;;
      clear_args ;;
      ret SUCCESS.

Definition vidmap (screen_start : Z) : M Z :=
  cli ;;
  if screen_start =? 0 then ret (-1)
  else if (PROGMEM_LOWER <=? screen_start) && (screen_start <=? PROGMEM_UPPER)
  then ret FAILURE
  else
    store32 screen_start
      (u8 VIDMAP, u8 (Z.shiftr VIDMAP 8), u8 (Z.shiftr VIDMAP 16), u8 (Z.shiftr VIDMAP 24)) ;;
    ret SUCCESS.

Definition set_handler (signum handler_address_ : Z) : M Z :=
  cli ;; if handler_address_ =? 0 then ret (-1) else ret (-1).
Definition sigreturn : M Z := cli ;; ret (-1).
Definition pcb_close (fd : Z) : M unit := ret tt.

(** ** Processes *)

(** The schedule stack holds [uint8_t]. *)
Definition schedule : M unit :=
  ct <- get_current_terminal ;;
  top <- get_schedule_top ct ;;
  put_schedule_top ct (top + 1) ;;
  pid <- get_current_pid ;;
  put_schedule_stack ct top (u8 pid).

Definition deschedule : M unit :=
  cp <- get_current_process ;;
  t <- get_schedule_top cp ;;
  let top := t - 1 in
  put_schedule_stack cp top 0 ;;
  put_schedule_ebp cp top 0 ;;
  put_schedule_esp cp top 0 ;;
  put_schedule_top cp (t - 1).

(** The characters before the first space. *)
Fixpoint first_word (command : list Z) : list Z :=
  match command with
  | [] => []
  | c :: command => if c =? 32 then [] else c :: first_word command
  end.
Fixpoint skip_spaces (command : list Z) : list Z :=
  match command with
  | [] => []
  | c :: rest => if c =? 32 then skip_spaces rest else command
  end.

(** The page directory and table a program runs with. *)
Definition program_paging (pid : Z) : M unit :=
  let urp := Z.lor (Z.lor USER_MASK READWRITE_MASK) PRESENT_MASK in
  for_up 0 PAGE_SIZE (fun i => put_page i READWRITE_MASK ;; put_table i READWRITE_MASK) ;;
  put_page 1 KERNEL_USER ;;
  put_table VIDEOMEM (Z.lor VIDEO (Z.lor READWRITE_MASK PRESENT_MASK)) ;;
  put_table 0xB9 (Z.lor VIDEO_1 urp) ;;
  put_table 0xBA (Z.lor (VIDEO_1 + 0x1000) urp) ;;
  put_table 0xBB (Z.lor (VIDEO_1 + 0x1000 * 2) urp) ;;
  put_page 0 (Z.lor process_tables_addr urp) ;;
  put_page VIRTUAL_PROGRAM (program_page pid) ;;
  put_table VID_IDX (Z.lor VIDEO urp) ;;
  put_page VID_IDX video_directory_entry.

(** [strncpy(args, &command[i], strlen(&command[i]))], or [clear_args] when
    only spaces are left. *)
Definition copy_args (pid : Z) (rest : list Z) : M unit :=
  match skip_spaces rest with
  | [] => clear_args
  | a =>
      b <- get_pcb pid ;;
      args <- of_opt OutOfBounds
                (strncpy (pcb_args b) (a ++ [0]) (Z.of_nat (length a))) ;;
      upd_pcb pid (set pcb_args (fun _ => args))
  end.

(** Registers a process named "shell" as its terminal's shell. *)
Definition note_shell (cmd : list Z) (pid : Z) : M unit :=
  let shell := text "shell" in
  r <- of_opt OutOfBounds (strncmp (cmd ++ [0]) (shell ++ [0]) 5) ;;
  if (r =? 0) && (length cmd =? length shell)%nat then
    ct <- get_current_terminal ;;
    a <- gets (fun s => shell_pid (s_sched s)) ;;
    a' <- aset a ct pid ;;
    sched_set (set shell_pid (fun _ => a'))
  else ret tt.

(** From the new block on: [execute] cannot fail any more. *)
Definition execute_start (command cmd buf : list Z) (temp : Z) : M Z :=
  parent <- get_current_pid ;;
  pid <- create_new_pcb parent ;;
  proc_set (set current_pid (fun _ => pid)) ;;
  upd_pcb pid (set stack_pos (fun _ => temp)) ;;
  note_shell cmd pid ;;
  set_tss (set esp0 (fun _ => kernel_stack_of pid)) ;;
  set_tss (set ss0 (fun _ => KERNEL_DS)) ;;
  load_pcb pid KERNEL_DS (kernel_stack_of pid) ;;
  copy_args pid (drop (length cmd) command) ;;
  program_paging pid ;;
  clear_keyboard_buffer ;;
  clear_history_buffer pid ;;
  flush_tlb ;;
  set_video_mem VIDMAP ;;
  store_bytes VIRTUAL_START (take (Z.to_nat exec_length) buf) ;;
  entry <- load_bytes ENTRY_START 4 ;;
  ct <- get_current_terminal ;;
  tr <- gets (fun s => terminal_running (s_term s)) ;;
  r <- aget tr ct ;;
  (if r =? 0 then put_terminal_running ct 1 else ret tt) ;;
  schedule ;;
  hw_set (set cpu_ds (fun _ => USER_DS)) ;;
  stop_with (Iret (le_word entry)).

(** [command] is the text of the string, [None] is NULL. *)
Definition execute (command : option (list Z)) : M Z :=
  match command with
  | None => ret (-1)
  | Some command =>
      n <- gets (fun s => num_active_processes (s_proc s)) ;;
      if MAX_PROCESSES <=? n then ret (-1)
      else
        temp <- gets (fun s => cpu_esp (s_hw s)) ;;
        if EXEC_BUFFER_SIZE <=? Z.of_nat (length command) then ret FAILURE
        else
          let cmd := first_word command in
          fd <- open (Some cmd) ;;
          if fd =? FAILURE then ret FAILURE
          else
            cli ;;
            r <- read_into fd exec_length ;;
            let buf := snd r ++
              replicate (Z.to_nat exec_buf_size - length (snd r)) (u8 stack_junk) in
            close fd ;;
            let magic := le_word (take 4 buf) in
            if negb (magic =? MAGIC_LEAD) then ret FAILURE
            else execute_start command cmd buf temp
  end.

(** syscalls_wrapper.S and do_call: the interrupt flag comes back with the
    [iret] of the gate. *)
Definition int_0x80 (m : M Z) : M Z :=
  flags <- cli_and_save ;; r <- m ;; restore_flags flags ;; ret r.

Definition exec_shell : M Z := int_0x80 (execute (Some (text "shell"))).

(** [halt], up to its jump and from the label [HALTED] on: control goes to the
    parent, whose call of [execute] returns. *)
Definition halted (execute_return : Z) : M Z :=
  past <- gets (fun s => past_pid (s_proc s)) ;;
  b <- get_pcb past ;;
  hw_set (set cpu_esp (fun _ => stack_pos b)) ;;
  deschedule ;;
  sti ;;
  p <- get_current_pid ;;
  (if p =? SENTINEL_PROCESS then exec_shell ;; ret tt else ret tt) ;;
  stop_with (ExecuteReturns execute_return).

(** The inline assembly of [halt]: [xorl %eax, %eax], then [movb %0, %al] from
    the register of the operand, which is [eax] itself when the compiler keeps
    the status there (the assembly declares no clobber). *)
Definition byte_operand (r : byte_register) (eax status : Z) : Z :=
  match r with AL => u8 eax | _ => u8 status end.
Definition halt_eax (status : Z) : Z :=
  let eax := 0 in
  Z.lor (Z.land eax 0xFFFFFF00) (byte_operand halt_status_register eax status).

Definition halt (status : Z) : M Z :=
  cli ;;
  p <- get_current_pid ;;
  b <- get_pcb p ;;
  let parent_pid := pcb_parent b in
  proc_set (set past_pid (fun _ => p)) ;;
  destroy_pcb p ;;
  proc_set (set current_pid (fun _ => parent_pid)) ;;
  pb <- get_pcb parent_pid ;;
  set_tss (set esp0 (fun _ => u32 (pcb_esp pb))) ;;
  for_up 2 FDT_SIZE pcb_close ;;
  put_page VIRTUAL_PROGRAM (program_page parent_pid) ;;
  flush_tlb ;;
  halted (halt_eax status).

(** ** The dispatcher *)

(** A user string argument. *)
Definition user_string (a : Z) : M (option (list Z)) :=
  if a =? 0 then ret None else t <- load_cstr a ;; ret (Some t).

Definition dispatch (call ebx ecx edx : Z) : M Z :=
  if call =? SYS_HALT then halt (u8 ebx)
  else if call =? SYS_EXECUTE then c <- user_string ebx ;; execute c
  else if call =? SYS_READ then read (s32 ebx) ecx (s32 edx)
  else if call =? SYS_WRITE then write (s32 ebx) ecx (s32 edx)
  else if call =? SYS_OPEN then c <- user_string ebx ;; open c
  else if call =? SYS_CLOSE then close (s32 ebx)
  else if call =? SYS_GETARGS then getargs ebx (s32 ecx)
  else if call =? SYS_VIDMAP then vidmap ebx
  else if call =? SYS_SET_HANDLER then set_handler (s32 ebx) ecx
  else sigreturn.

(** The wrapper compares [eax] with 1 as a signed and with 10 as an unsigned
    number. *)
Definition system_call (eax ebx ecx edx : Z) : M Z :=
  int_0x80
    (if s32 eax <? 1 then ret (-1)
     else if 10 <? u32 eax then ret (-1)
     else dispatch (u32 eax) ebx ecx edx).

Definition do_call (call arg0 arg1 arg2 : Z) : M Z := system_call call arg0 arg1 arg2.
End syscalls.
