(* ===== verification/PagingSpec.v ===== *)
(** * The address space of a program

    What [program_paging] and the scheduler put in the page directory and the
    page table, and the addresses a program can reach through them. *)
From S2P Require Import Prelude State Monad Logic Screen Proc ProcSpec Terminal Interrupts Syscalls.

(** ** Entries: an aligned address and flags *)

Lemma lor_aligned a f n :
  0 <= n -> a mod 2 ^ n = 0 -> 0 <= f < 2 ^ n -> Z.lor a f = a + f.
Proof.
  intros Hn Ha Hf. rewrite Z.add_nocarry_lxor, <-Z.lxor_lor; [done|..].
  all: apply Z.bits_inj'; intros k Hk; rewrite Z.bits_0, Z.land_spec.
  all: destruct (Z.lt_ge_cases k n) as [Hlt|Hge].
  - rewrite <-(Z.mod_pow2_bits_low a n k) by done. by rewrite Ha, Z.bits_0.
  - rewrite <-(Z.mod_small f (2 ^ n)), Z.mod_pow2_bits_high by lia. apply andb_false_r.
  - rewrite <-(Z.mod_pow2_bits_low a n k) by done. by rewrite Ha, Z.bits_0.
  - rewrite <-(Z.mod_small f (2 ^ n)), Z.mod_pow2_bits_high by lia. apply andb_false_r.
Qed.

Lemma testbit_aligned a f n k :
  0 <= k < n -> a mod 2 ^ n = 0 -> 0 <= f < 2 ^ n -> Z.testbit (Z.lor a f) k = Z.testbit f k.
Proof.
  intros Hk Ha Hf. rewrite Z.lor_spec, <-(Z.mod_pow2_bits_low a n k) by lia.
  by rewrite Ha, Z.bits_0.
Qed.

(** Masking off the flags. *)
Lemma land_high z n m :
  0 <= n -> 0 <= m -> 0 <= z < 2 ^ (n + m) ->
  Z.land z (Z.shiftl (Z.ones m) n) = z - z mod 2 ^ n.
Proof.
  intros Hn Hm Hz. replace (z - z mod 2 ^ n) with (Z.shiftl (Z.shiftr z n) n).
  - apply Z.bits_inj'. intros k Hk. rewrite Z.land_spec, !Z.shiftl_spec by done.
    destruct (Z.lt_ge_cases k n) as [Hlt|Hge].
    + rewrite !(Z.testbit_neg_r _ (k - n)) by lia. apply andb_false_r.
    + rewrite Z.shiftr_spec, Z.sub_add by lia.
      destruct (Z.lt_ge_cases k (n + m)) as [Hlt|Hge'].
      * rewrite Z.ones_spec_low by lia. apply andb_true_r.
      * rewrite Z.ones_spec_high by lia.
        rewrite <-(Z.mod_small z (2 ^ (n + m))), Z.mod_pow2_bits_high by lia.
        apply andb_false_r.
  - rewrite Z.shiftl_mul_pow2, Z.shiftr_div_pow2 by done.
    pose proof (Z.div_mod z (2 ^ n)). lia.
Qed.
Lemma land_page z : 0 <= z < 4294967296 -> Z.land z 0xFFFFF000 = z - z mod 4096.
Proof. intros. by apply (land_high z 12 20). Qed.
Lemma land_large z : 0 <= z < 4294967296 -> Z.land z 0xFFC00000 = z - z mod 4194304.
Proof. intros. by apply (land_high z 22 10). Qed.

Lemma entry_base a f :
  a mod 4096 = 0 -> 0 <= a < 4294967296 -> 0 <= f < 4096 -> Z.land (Z.lor a f) 0xFFFFF000 = a.
Proof.
  intros Ha Ha' Hf. rewrite (lor_aligned a f 12) by done. rewrite land_page by divlia. divlia.
Qed.
Lemma large_base a f :
  a mod 4194304 = 0 -> 0 <= a < 4294967296 -> 0 <= f < 4096 ->
  Z.land (Z.lor a f) 0xFFC00000 = a.
Proof.
  intros Ha Ha' Hf. rewrite (lor_aligned a f 22) by (done || lia).
  rewrite land_large by divlia. divlia.
Qed.

(** ** The tables of a program *)

Section program.
Context {P : Platform}.
Implicit Types (s : kstate).

Definition urp : Z := Z.lor (Z.lor USER_MASK READWRITE_MASK) PRESENT_MASK.

(** The page directory of process [pid]: the page table for the first 4 MB and
    again for the 4 MB of the video page, the kernel, and the program. *)
Definition program_directory (pid : Z) : list Z :=
  <[33%nat := video_directory_entry]> (<[32%nat := program_page pid]>
    (<[0%nat := Z.lor process_tables_addr urp]> (<[1%nat := KERNEL_USER]>
      (replicate 1024 READWRITE_MASK)))).

(** The page table; [vid] is the page a program sees at VIDMAP. *)
Definition program_table (vid : Z) : list Z :=
  <[33%nat := Z.lor vid urp]> (<[187%nat := Z.lor (VIDEO_1 + 0x1000 * 2) urp]>
    (<[186%nat := Z.lor (VIDEO_1 + 0x1000) urp]> (<[185%nat := Z.lor VIDEO_1 urp]>
      (<[184%nat := Z.lor VIDEO (Z.lor READWRITE_MASK PRESENT_MASK)]>
        (replicate 1024 READWRITE_MASK))))).

(** The processor translates with the tables of [pid]. *)
Record runs_program s (pid vid : Z) : Prop := {
  rp_pages : process_pages (s_pag s) = program_directory pid;
  rp_tables : process_tables (s_pag s) = program_table vid;
  rp_on : paging_on (s_pag s) = true;
}.

(** A display page: the screen's, or one of the three in the background. *)
Definition display_page (vid : Z) : Prop :=
  vid = VIDEO \/ exists t, 0 <= t < 3 /\ vid = VIDEO_1 + 0x1000 * t.

(** ** The address space *)

(** The 4 MB the page table describes: the page at VIDMAP and the display
    pages. *)
Definition table_space (vid off : Z) : option Z :=
  if decide (0x21000 <= off < 0x22000) then Some (vid + (off - 0x21000))
  else if decide (0xB8000 <= off < 0xBC000) then Some off
  else None.

(** Where an address of process [pid] lies in memory. *)
Definition address_space (pid vid va : Z) : option Z :=
  let a := u32 va in
  if decide (a < 0x400000) then table_space vid a
  else if decide (a < 0x800000) then Some a
  else if decide (0x8000000 <= a < 0x8400000) then Some (M_4 * (pid + 1) + (a - 0x8000000))
  else if decide (0x8400000 <= a < 0x8800000) then table_space vid (a - 0x8400000)
  else None.

Lemma tables_addr : 0 <= process_tables_addr < 4294967296.
Proof. pose proof process_tables_range. lia. Qed.

Lemma video_entry : video_directory_entry = Z.lor process_tables_addr urp.
Proof.
  unfold video_directory_entry, urp, VID_IDX. f_equal.
  pose proof process_tables_aligned as A. pose proof tables_addr.
  rewrite Z.shiftl_mul_pow2, Z.shiftr_div_pow2 by lia. divlia.
Qed.

Lemma lget_directory pid i :
  0 <= i < 1024 ->
  lget (program_directory pid) i = Some
    (if decide (i = 33) then Z.lor process_tables_addr urp
     else if decide (i = 32) then program_page pid
     else if decide (i = 0) then Z.lor process_tables_addr urp
     else if decide (i = 1) then KERNEL_USER else READWRITE_MASK).
Proof.
  intros Hi. unfold program_directory. rewrite video_entry.
  rewrite (lget_insert _ 33), (lget_insert _ 32), (lget_insert _ 0), (lget_insert _ 1)
    by (autorewrite with arr; lia).
  rewrite lget_replicate by lia. repeat case_decide; congruence || lia.
Qed.

Lemma lget_table vid i :
  0 <= i < 1024 ->
  lget (program_table vid) i = Some
    (if decide (i = 33) then Z.lor vid urp
     else if decide (i = 187) then Z.lor (VIDEO_1 + 0x1000 * 2) urp
     else if decide (i = 186) then Z.lor (VIDEO_1 + 0x1000) urp
     else if decide (i = 185) then Z.lor VIDEO_1 urp
     else if decide (i = 184) then Z.lor VIDEO (Z.lor READWRITE_MASK PRESENT_MASK)
     else READWRITE_MASK).
Proof.
  intros Hi. unfold program_table.
  rewrite (lget_insert _ 33), (lget_insert _ 187), (lget_insert _ 186), (lget_insert _ 185),
    (lget_insert _ 184) by (autorewrite with arr; lia).
  rewrite lget_replicate by lia. repeat case_decide; congruence || lia.
Qed.

Lemma display_page_ok vid : display_page vid -> vid mod 4096 = 0 /\ 0 <= vid < 0x100000.
Proof. intros [->|(t & Ht & ->)]; unfold VIDEO, VIDEO_1; [done|]. split; [divlia|lia]. Qed.

(** The entries have their flags in the low bits. *)
Lemma entry_bit a f k :
  a mod 4096 = 0 -> 0 <= f < 4096 -> 0 <= k < 12 -> Z.testbit (Z.lor a f) k = Z.testbit f k.
Proof. intros. by apply (testbit_aligned a f 12). Qed.

Lemma page_index a : 0 <= a < 4294967296 -> Z.land (Z.shiftr a 12) 0x3FF = a mod 4194304 / 4096.
Proof.
  intros. change 0x3FF with (Z.ones 10). rewrite Z.land_ones, Z.shiftr_div_pow2 by lia.
  divlia.
Qed.
Lemma page_offset a : Z.land a 0xFFF = a mod 4096.
Proof. change 0xFFF with (Z.ones 12). by rewrite Z.land_ones. Qed.
Lemma large_offset a : Z.land a 0x3FFFFF = a mod 4194304.
Proof. change 0x3FFFFF with (Z.ones 22). by rewrite Z.land_ones. Qed.

(** A byte inside a page. *)
Lemma page_byte a f b :
  a mod 4096 = 0 -> 0 <= a < 4294967296 -> 0 <= f < 4096 ->
  Z.lor (Z.land (Z.lor a f) 0xFFFFF000) (b mod 4096) = a + b mod 4096.
Proof.
  intros. rewrite entry_base by done. apply (lor_aligned _ _ 12); [done..|divlia].
Qed.

(** The second level of the page walk. *)
Definition walk_table (vid a : Z) : option Z :=
  pte ← lget (program_table vid) (Z.land (Z.shiftr a 12) 0x3FF);
  if negb (Z.testbit pte 0) then None
  else Some (Z.lor (Z.land pte 0xFFFFF000) (Z.land a 0xFFF)).

Lemma walk_table_space vid a :
  display_page vid -> 0 <= a < 4294967296 ->
  walk_table vid a = table_space vid (a mod 4194304).
Proof.
  intros Hv%display_page_ok Ha. unfold walk_table. rewrite page_index, page_offset by done.
  set (off := a mod 4194304). assert (Ho : 0 <= off < 4194304) by (unfold off; divlia).
  assert (Hm : a mod 4096 = off mod 4096) by (unfold off; divlia). rewrite Hm.
  rewrite lget_table by divlia. cbn [mbind option_bind]. unfold table_space.
  assert (Hcase : forall p, off / 4096 = p -> off = p * 4096 + off mod 4096 /\
    0 <= off mod 4096 < 4096) by (intros; divlia).
  repeat case_decide; try divlia.
  all: rewrite ?entry_bit by (done || lia); cbn [Z.testbit urp Z.lor negb].
  all: try rewrite page_byte by (done || lia).
  all: try (f_equal; unfold VIDEO, VIDEO_1; divlia).
  all: done.
Qed.

Lemma u32_index va : 0 <= Z.shiftr (u32 va) 22 < 1024 /\
  Z.shiftr (u32 va) 22 = u32 va / 4194304.
Proof.
  rewrite Z.shiftr_div_pow2 by lia. pose proof (u32_range va). split; [|done].
  change (2 ^ 22) with 4194304. divlia.
Qed.

Lemma runs_program_phys s pid vid va :
  runs_program s pid vid -> display_page vid -> 0 <= pid < 256 ->
  phys s va = address_space pid vid va.
Proof.
  intros [Hp Ht Ho] Hv Hpid. unfold phys. rewrite Hp, Ht, Ho. unfold translate.
  destruct (u32_index va) as [Hi Hdiv]. pose proof (u32_range va) as Hr.
  rewrite lget_directory by done. cbn [mbind option_bind].
  assert (Hwalk : forall f, 0 <= f < 128 -> Z.testbit f 0 = true ->
    (if negb (Z.testbit (Z.lor process_tables_addr f) 0) then None
     else if Z.testbit (Z.lor process_tables_addr f) 7
     then Some (Z.lor (Z.land (Z.lor process_tables_addr f) 0xFFC00000)
                  (Z.land (u32 va) 0x3FFFFF))
     else if Z.land (Z.lor process_tables_addr f) 0xFFFFF000 =? process_tables_addr
     then walk_table vid (u32 va) else None) = table_space vid (u32 va mod 4194304)).
  { intros f Hf Hbit. pose proof process_tables_aligned. pose proof tables_addr.
    rewrite !entry_bit, Hbit, entry_base, Z.eqb_refl by (done || lia). cbn [negb].
    replace (Z.testbit f 7) with false; [by apply walk_table_space|].
    rewrite <-(Z.mod_small f (2 ^ 7)), Z.mod_pow2_bits_high by lia. done. }
  unfold walk_table in Hwalk. unfold address_space.
  assert (Hmod : u32 va = Z.shiftr (u32 va) 22 * 4194304 + u32 va mod 4194304).
  { rewrite Hdiv. pose proof (Z.div_mod (u32 va) 4194304). lia. }
  assert (Hoff : 0 <= u32 va mod 4194304 < 4194304) by divlia.
  case_decide as E33; [|case_decide as E32; [|case_decide as E0; [|case_decide as E1]]].
  - rewrite E33 in Hmod. rewrite Hwalk by done.
    repeat (rewrite decide_False by lia). rewrite decide_True by lia. f_equal. lia.
  - rewrite E32 in Hmod. repeat (rewrite decide_False by lia). rewrite decide_True by lia.
    unfold program_page, PAGE_ARGS, M_4.
    rewrite !(testbit_aligned _ _ 22) by (try done; divlia). cbn [Z.testbit negb].
    rewrite large_base, large_offset by (done || divlia).
    rewrite (lor_aligned _ _ 22) by (done || divlia). f_equal. lia.
  - rewrite E0 in Hmod. rewrite Hwalk by done. rewrite decide_True by lia. f_equal. lia.
  - rewrite E1 in Hmod. rewrite decide_False, decide_True by lia.
    cbn [Z.testbit KERNEL_USER negb]. rewrite large_offset.
    change (Z.land KERNEL_USER 0xFFC00000) with 0x400000.
    rewrite (lor_aligned _ _ 22) by (done || lia). f_equal. lia.
  - repeat (rewrite decide_False by lia). done.
Qed.

(** ** What the routines leave in the tables *)

Definition with_pages (d : list Z) s : kstate :=
  set s_pag (fun p => mk_pag d (process_tables p) (paging_on p) true) s.
Definition with_tables (d : list Z) s : kstate :=
  set s_pag (fun p => mk_pag (process_pages p) d (paging_on p) true) s.
Definition with_paging (d t : list Z) s : kstate :=
  set s_pag (fun p => mk_pag d t (paging_on p) true) s.

Lemma set_pag_ext s f g : f (s_pag s) = g (s_pag s) -> set s_pag f s = set s_pag g s.
Proof. intros E. destruct s. unfold set, s_pag_upd. cbn in *. by rewrite E. Qed.
Lemma set_pag_twice s f g : set s_pag f (set s_pag g s) = set s_pag (fun p => f (g p)) s.
Proof. by destruct s. Qed.

Lemma wp_put_page s i v (Q : unit -> kstate -> Prop) :
  0 <= i < Z.of_nat (length (process_pages (s_pag s))) ->
  Q tt (with_pages (<[Z.to_nat i := u32 v]> (process_pages (s_pag s))) s) ->
  wp (put_page i v) Q s.
Proof.
  intros Hi HQ. unfold put_page, pag_set. wp_pures. apply wp_aset; [done|]. wp_pures.
  rewrite set_pag_twice. erewrite set_pag_ext; [exact HQ|]. by destruct (s_pag s).
Qed.
Lemma wp_put_table s i v (Q : unit -> kstate -> Prop) :
  0 <= i < Z.of_nat (length (process_tables (s_pag s))) ->
  Q tt (with_tables (<[Z.to_nat i := u32 v]> (process_tables (s_pag s))) s) ->
  wp (put_table i v) Q s.
Proof.
  intros Hi HQ. unfold put_table, pag_set. wp_pures. apply wp_aset; [done|]. wp_pures.
  rewrite set_pag_twice. erewrite set_pag_ext; [exact HQ|]. by destruct (s_pag s).
Qed.

Lemma with_pages_paging s d d0 t0 :
  with_pages d (with_paging d0 t0 s) = with_paging d t0 s.
Proof. apply set_pag_twice. Qed.
Lemma with_tables_paging s t d0 t0 :
  with_tables t (with_paging d0 t0 s) = with_paging d0 t s.
Proof. apply set_pag_twice. Qed.
Lemma pages_paging s d t : process_pages (s_pag (with_paging d t s)) = d.
Proof. done. Qed.
Lemma tables_paging s d t : process_tables (s_pag (with_paging d t s)) = t.
Proof. done. Qed.

(** One more entry of an array that is filled from its start. *)
Lemma fill_step (l : list Z) v (k : nat) :
  (k < length l)%nat ->
  <[k := v]> (replicate k v ++ drop k l) = replicate (S k) v ++ drop (S k) l.
Proof.
  intros Hk. destruct (lookup_lt_is_Some_2 l k Hk) as [x Hx].
  rewrite replicate_S_end, <-app_assoc, (drop_S l x k Hx).
  rewrite insert_app_r_alt by (rewrite length_replicate; lia).
  by rewrite length_replicate, Nat.sub_diag.
Qed.

Lemma u32_entry a f : a mod 4096 = 0 -> 0 <= a < 4294967296 -> 0 <= f < 4096 ->
  u32 (Z.lor a f) = Z.lor a f.
Proof. intros. rewrite (lor_aligned a f 12) by done. apply u32_small. divlia. Qed.

Lemma u32_program_page pid : 0 <= pid < 256 -> u32 (program_page pid) = program_page pid.
Proof.
  intros. unfold program_page, PAGE_ARGS, M_4. apply u32_entry; [divlia|lia|lia].
Qed.
Lemma u32_tables_entry : u32 (Z.lor process_tables_addr urp) = Z.lor process_tables_addr urp.
Proof.
  apply u32_entry; [apply process_tables_aligned|apply tables_addr|change urp with 7; lia].
Qed.

(** A store to an entry, in a state given by its tables. *)
Ltac wp_put :=
  lazymatch goal with
  | |- wp (put_page _ _) _ _ => apply wp_put_page
  | |- wp (put_table _ _) _ _ => apply wp_put_table
  end; rewrite ?pages_paging, ?tables_paging;
  [autorewrite with arr; by split|]; rewrite ?with_pages_paging, ?with_tables_paging.

(** The tables [program_paging] writes are those of the program, whatever they
    were before. *)
Lemma program_paging_Ret s pid :
  length (process_pages (s_pag s)) = 1024%nat ->
  length (process_tables (s_pag s)) = 1024%nat -> 0 <= pid < 256 ->
  program_paging pid s =
    Ret tt (with_paging (program_directory pid) (program_table VIDEO) s).
Proof.
  intros Hp Ht Hpid.
  enough (W : wp (program_paging pid) (fun v s' => v = tt /\
      s' = with_paging (program_directory pid) (program_table VIDEO) s) s).
  { apply wp_Ret in W as (v & s' & -> & -> & ->). done. }
  unfold program_paging. wp_pure.
  eapply wp_mono.
  { apply (wp_for_up 0 PAGE_SIZE _ (fun i s' => exists b, s' =
      set s_pag (fun p => mk_pag
        (replicate (Z.to_nat i) READWRITE_MASK ++ drop (Z.to_nat i) (process_pages (s_pag s)))
        (replicate (Z.to_nat i) READWRITE_MASK ++ drop (Z.to_nat i) (process_tables (s_pag s)))
        (paging_on p) b) s)).
    - unfold PAGE_SIZE. lia.
    - exists (tlb_stale (s_pag s)). destruct s as [? ? pg ? ? ? ? ? ? ? ?]. by destruct pg.
    - unfold PAGE_SIZE. intros i s' Hi [b ->].
      replace (Z.to_nat (i + 1)) with (S (Z.to_nat i)) by lia.
      wp_pure. apply wp_put_page; [upd; cbn [process_pages]; autorewrite with arr; lia|].
      apply wp_put_table;
        [unfold with_pages; upd; cbn [process_tables]; autorewrite with arr; lia|].
      exists true. unfold with_pages, with_tables. upd. cbn [process_pages process_tables].
      rewrite !set_pag_twice. cbn [process_pages process_tables paging_on].
      by rewrite !fill_step by lia. }
  cbv beta. intros _ s' [b ->].
  change (Z.to_nat PAGE_SIZE) with 1024%nat. rewrite !drop_ge, !app_nil_r by lia.
  set (s1 := set s_pag _ s).
  assert (E1 : s_pag s1 = mk_pag (replicate 1024 READWRITE_MASK)
    (replicate 1024 READWRITE_MASK) (paging_on (s_pag s)) b) by done.
  wp_pure. apply wp_put_page; [rewrite E1; cbn; lia|].
  assert (Hs : with_pages (<[Z.to_nat 1 := u32 KERNEL_USER]> (process_pages (s_pag s1))) s1 =
    with_paging (<[1%nat := KERNEL_USER]> (replicate 1024 READWRITE_MASK))
      (replicate 1024 READWRITE_MASK) s).
  { unfold with_pages, with_paging, s1. rewrite set_pag_twice. done. }
  rewrite Hs. clear Hs E1. subst s1.
  repeat (wp_pure; wp_put).
  fold urp. rewrite video_entry. wp_put.
  split; [done|]. unfold program_directory, program_table.
  rewrite u32_tables_entry, u32_program_page by done. by rewrite video_entry.
Qed.

(** ** What the program itself can reach

    In user mode an access also needs the user bit of both entries. *)
Definition user_ok s (va : Z) : bool :=
  match lget (process_pages (s_pag s)) (Z.shiftr (u32 va) 22) with
  | Some pde =>
      Z.testbit pde 2 &&
      (Z.testbit pde 7 ||
       match lget (process_tables (s_pag s)) (Z.land (Z.shiftr (u32 va) 12) 0x3FF) with
       | Some pte => Z.testbit pte 2
       | None => false
       end)
  | None => false
  end.
Definition user_phys s (va : Z) : option Z := if user_ok s va then phys s va else None.

(** The page of the screen is the kernel's. *)
Definition user_space (pid vid va : Z) : option Z :=
  let a := u32 va in
  if decide (a < 0x400000 \/ 0x8400000 <= a < 0x8800000) then
    if decide (0xB8000 <= a mod 0x400000 < 0xB9000) then None else address_space pid vid va
  else address_space pid vid va.

Lemma table_user_bit vid i :
  display_page vid -> 0 <= i < 1024 ->
  match lget (program_table vid) i with
  | Some pte => Z.testbit pte 2
  | None => false
  end = bool_decide (i = 33 \/ 185 <= i < 188).
Proof.
  intros Hv%display_page_ok Hi. rewrite lget_table by done.
  symmetry. repeat case_decide; rewrite ?entry_bit by (done || lia).
  all: cbn [Z.testbit urp Z.lor]; (apply bool_decide_eq_true || apply bool_decide_eq_false); lia.
Qed.

Lemma user_ok_space s pid vid va :
  runs_program s pid vid -> display_page vid -> 0 <= pid < 256 ->
  user_ok s va = true <->
    let a := u32 va in
    let i := a mod 4194304 / 4096 in
    (a < 0x400000 \/ 0x8400000 <= a < 0x8800000) /\ (i = 33 \/ 185 <= i < 188) \/
    0x400000 <= a < 0x800000 \/ 0x8000000 <= a < 0x8400000.
Proof.
  intros [Hp Ht _] Hv Hpid. unfold user_ok. rewrite Hp, Ht.
  destruct (u32_index va) as [Hi Hdiv]. pose proof (u32_range va) as Hr.
  rewrite page_index, table_user_bit by (done || divlia). rewrite lget_directory by done.
  pose proof process_tables_aligned. pose proof tables_addr. cbv zeta. rewrite Hdiv.
  destruct (decide (u32 va / 4194304 = 33)); [|destruct (decide (u32 va / 4194304 = 32));
    [|destruct (decide (u32 va / 4194304 = 0));
    [|destruct (decide (u32 va / 4194304 = 1))]]].
  - rewrite !entry_bit by (done || lia).
    change (Z.testbit urp 2) with true. change (Z.testbit urp 7) with false. cbn [andb orb].
    rewrite bool_decide_eq_true. divlia.
  - unfold program_page, PAGE_ARGS, M_4.
    rewrite !(testbit_aligned _ _ 22) by (try done; divlia).
    change (Z.testbit 135 2) with true. change (Z.testbit 135 7) with true.
    split; [intros _; divlia|done].
  - rewrite !entry_bit by (done || lia).
    change (Z.testbit urp 2) with true. change (Z.testbit urp 7) with false. cbn [andb orb].
    rewrite bool_decide_eq_true. divlia.
  - split; [intros _; divlia|done].
  - change (Z.testbit READWRITE_MASK 2) with false. cbn [andb]. split; [done|divlia].
Qed.

Lemma runs_program_user s pid vid va :
  runs_program s pid vid -> display_page vid -> 0 <= pid < 256 ->
  user_phys s va = user_space pid vid va.
Proof.
  intros R Hv Hpid. unfold user_phys, user_space.
  rewrite (runs_program_phys s pid vid va) by done.
  pose proof (user_ok_space s pid vid va R Hv Hpid) as [H1 H2]. cbv zeta in H1, H2.
  pose proof (u32_range va). destruct (user_ok s va).
  - specialize (H1 eq_refl). clear H2.
    repeat case_decide; try done; divlia.
  - assert (~ ((u32 va < 0x400000 \/ 0x8400000 <= u32 va < 0x8800000) /\
      (u32 va mod 4194304 / 4096 = 33 \/ 185 <= u32 va mod 4194304 / 4096 < 188) \/
      0x400000 <= u32 va < 0x800000 \/ 0x8000000 <= u32 va < 0x8400000)) as Hn.
    { intros Hc. by specialize (H2 Hc). }
    clear H1 H2. unfold address_space, table_space.
    repeat case_decide; try done; divlia.
Qed.

(** Where the image of a program lies. *)
Lemma image_space pid vid o :
  0 <= o < 0x3B8000 ->
  user_space pid vid (VIRTUAL_START + o) = Some (M_4 * (pid + 1) + 0x48000 + o).
Proof.
  intros Ho. unfold user_space, address_space, VIRTUAL_START, M_4. rewrite u32_small by lia.
  repeat (rewrite decide_False by lia). rewrite decide_True by lia. f_equal. lia.
Qed.

(** A program's memory is its own 4 MB, the kernel's and the display pages. *)
Lemma user_space_own pid vid va pa :
  display_page vid -> user_space pid vid va = Some pa ->
  M_4 * (pid + 1) <= pa < M_4 * (pid + 2) \/ 0 <= pa < M_4 * 2.
Proof.
  intros Hv%display_page_ok. pose proof (u32_range va).
  unfold user_space, address_space, table_space, M_4.
  repeat case_decide; intros [= <-]; divlia.
Qed.
End program.
