(* ===== verification/SchedSpec.v ===== *)
(** * The scheduler: choice of the next terminal, saved contexts *)
From S2P Require Import Prelude State Monad Logic Screen Pic Proc ProcSpec Terminal TerminalSpec Interrupts Syscalls PagingSpec.

(** ** Round robin *)

(** A terminal that runs a process. *)
Definition occupied (tops : list Z) (t : Z) : bool :=
  match lget tops t with Some v => negb (v =? 0) | None => false end.

(** The next one after [cp], [cp] itself last. *)
Definition round_robin (tops : list Z) (cp : Z) : option Z :=
  let n1 := (cp + 1) mod 3 in
  let n2 := (cp + 2) mod 3 in
  if occupied tops n1 then Some n1 else if occupied tops n2 then Some n2
  else if occupied tops cp then Some cp else None.

Lemma round_robin_range tops cp t :
  0 <= cp < 3 -> round_robin tops cp = Some t -> 0 <= t < 3 /\ occupied tops t = true.
Proof.
  intros Hcp. unfold round_robin.
  destruct (occupied tops ((cp + 1) mod 3)) eqn:?; [intros [= <-]; split; [divlia|done]|].
  destruct (occupied tops ((cp + 2) mod 3)) eqn:?; [intros [= <-]; split; [divlia|done]|].
  destruct (occupied tops cp) eqn:?; [intros [= <-]; split; [divlia|done]|done].
Qed.

(** The process at the top of terminal [t]'s schedule and its saved context. *)
Record slot_t := mk_slot { sl_pid : Z; sl_esp : Z; sl_ebp : Z; sl_tss : tss_t }.

Record slot (s : sched_t) (t : Z) (c : slot_t) : Prop := {
  sl_top : exists top, lget (schedule_top s) t = Some top /\ top <> 0 /\
    lget2 (schedule_stack s) t (top - 1) = Some (sl_pid c) /\
    lget2 (schedule_esp s) t (top - 1) = Some (sl_esp c) /\
    lget2 (schedule_ebp s) t (top - 1) = Some (sl_ebp c) /\
    lget2 (schedule_tss s) t (top - 1) = Some (sl_tss c);
}.

(** The schedule after the context [esp], [ebp], [ts] is saved for terminal
    [t]; the terminals that run nothing have nothing to save. *)
Definition saved (t esp ebp : Z) (ts : tss_t) (s : sched_t) : sched_t :=
  match lget (schedule_top s) t with
  | Some top =>
      if top =? 0 then s
      else
        set sanity_check (fun _ => esp)
          (set schedule_ebp (row_set t (top - 1) ebp)
            (set schedule_esp (row_set t (top - 1) esp)
              (set schedule_tss (row_set t (top - 1) ts) s)))
  | None => s
  end.

Lemma saved_top t esp ebp ts s : schedule_top (saved t esp ebp ts s) = schedule_top s.
Proof. unfold saved. destruct (lget _ t); [|done]. by case_match. Qed.

Lemma saved_slot s t c esp ebp ts :
  slot s t c -> slot (saved t esp ebp ts s) t (mk_slot (sl_pid c) esp ebp ts).
Proof.
  intros [(top & Ht & Hne & Hp & He & Hb & Hs)]. unfold saved. rewrite Ht.
  rewrite (proj2 (Z.eqb_neq top 0)) by done.
  pose proof (lget2_row _ _ _ _ Hp) as (r & Hr & Hj).
  apply lget_range in Hr. apply lget_range in Hj.
  constructor. exists top. cbn [sl_pid sl_esp sl_ebp sl_tss]. upd.
  split; [done|]. split; [done|]. split; [done|].
  erewrite !lget2_row_set by (done || lia). by rewrite !decide_True.
Qed.

(** The terminal runs nothing, or a process with a slot for its context. *)
Definition schedulable (s : sched_t) (t : Z) : Prop :=
  lget (schedule_top s) t = Some 0 \/ exists c, slot s t c.

Lemma saved_other s t t' c' esp ebp ts :
  schedulable s t -> slot s t' c' -> t <> t' -> slot (saved t esp ebp ts s) t' c'.
Proof.
  intros [Ht|[c [(top & Ht & Hne & Hp & He & Hb & Hs)]]]
    [(top' & Ht' & Hne' & Hp' & He' & Hb' & Hs')] Htt; unfold saved; rewrite Ht.
  { constructor. by exists top'. }
  rewrite (proj2 (Z.eqb_neq top 0)) by done.
  pose proof (lget2_row _ _ _ _ Hp') as (r & Hr & Hj).
  apply lget_range in Hr. apply lget_range in Hj.
  constructor. exists top'. upd. split; [done|]. split; [done|]. split; [done|].
  erewrite !lget2_row_set by (done || lia). by rewrite !decide_False by tauto.
Qed.

Lemma set_sched_ext s f g : f (s_sched s) = g (s_sched s) -> set s_sched f s = set s_sched g s.
Proof. intros E. destruct s. unfold set, s_sched_upd. cbn in *. by rewrite E. Qed.
Lemma set_sched_twice s f g :
  set s_sched f (set s_sched g s) = set s_sched (fun x => f (g x)) s.
Proof. by destruct s. Qed.
Lemma set_sched_id s : set s_sched (fun x => x) s = s.
Proof. by destruct s. Qed.

Section scheduler.
Context {P : Platform}.
Implicit Types (s : kstate).

Lemma wp_put_schedule_tss s t j v w (Q : unit -> kstate -> Prop) :
  lget2 (schedule_tss (s_sched s)) t j = Some w ->
  Q tt (set s_sched (set schedule_tss (row_set t j v)) s) -> wp (put_schedule_tss t j v) Q s.
Proof.
  intros Hw HQ. unfold put_schedule_tss, sched_set. wp_pures.
  eapply wp_of_opt; [by eapply lset2_row_set|]. wp_pures.
  erewrite set_sched_ext; [exact HQ|]. by destruct (s_sched s).
Qed.
Lemma wp_put_schedule_esp s t j v w (Q : unit -> kstate -> Prop) :
  lget2 (schedule_esp (s_sched s)) t j = Some w ->
  Q tt (set s_sched (set schedule_esp (row_set t j v)) s) -> wp (put_schedule_esp t j v) Q s.
Proof.
  intros Hw HQ. unfold put_schedule_esp, sched_set. wp_pures.
  eapply wp_of_opt; [by eapply lset2_row_set|]. wp_pures.
  erewrite set_sched_ext; [exact HQ|]. by destruct (s_sched s).
Qed.
Lemma wp_put_schedule_ebp s t j v w (Q : unit -> kstate -> Prop) :
  lget2 (schedule_ebp (s_sched s)) t j = Some w ->
  Q tt (set s_sched (set schedule_ebp (row_set t j v)) s) -> wp (put_schedule_ebp t j v) Q s.
Proof.
  intros Hw HQ. unfold put_schedule_ebp, sched_set. wp_pures.
  eapply wp_of_opt; [by eapply lset2_row_set|]. wp_pures.
  erewrite set_sched_ext; [exact HQ|]. by destruct (s_sched s).
Qed.

(** The context saved is the interrupted one. *)
Lemma wp_save_context s (Q : unit -> kstate -> Prop) :
  let cp := current_process (s_sched s) in
  schedulable (s_sched s) cp ->
  Q tt (set s_sched (saved cp (last_esp (s_sched s)) (last_ebp (s_sched s)) (tss (s_hw s))) s) ->
  wp save_context Q s.
Proof.
  intros cp Hs HQ. unfold save_context, get_current_process, get_schedule_top, hw_tss.
  wp_pures. fold cp. destruct Hs as [Ht|[c [(top & Ht & Hne & Hp & He & Hb & Hts)]]].
  - eapply wp_aget_Some; [exact Ht|]. cbn. apply wp_ret.
    erewrite <-(set_sched_id s) at 1. erewrite set_sched_ext; [exact HQ|].
    unfold saved. by rewrite Ht.
  - eapply wp_aget_Some; [exact Ht|]. cbv beta.
    rewrite (proj2 (Z.eqb_neq top 0)) by done. wp_pures.
    eapply wp_put_schedule_tss; [exact Hts|]. wp_pures.
    eapply wp_put_schedule_esp; [upd; exact He|]. wp_pures.
    eapply wp_put_schedule_ebp; [upd; exact Hb|]. unfold sched_set. wp_pures.
    rewrite !set_sched_twice. erewrite set_sched_ext; [exact HQ|].
    unfold saved. rewrite Ht. by rewrite (proj2 (Z.eqb_neq top 0)) by done.
Qed.

(** The loop of the scheduler ends after at most three rounds, with the next
    terminal in turn; it never ends exactly when no terminal runs a process. *)
Lemma next_loop_round_robin s cp :
  length (schedule_top (s_sched s)) = 3%nat -> 0 <= cp < 3 ->
  next_loop 3 (Z.rem (cp + 1) NUM_TERMINALS) s =
    match round_robin (schedule_top (s_sched s)) cp with
    | Some t => Ret t s
    | None => Stop Hang s
    end.
Proof.
  intros Hlen Hcp. unfold round_robin, NUM_TERMINALS.
  assert (Hrem : forall x, 0 <= x -> Z.rem x 3 = x mod 3) by (intros; by rewrite Z.rem_mod_nonneg by lia).
  assert (Hget : forall t, 0 <= t < 3 -> exists v, lget (schedule_top (s_sched s)) t = Some v).
  { intros t Ht. apply lget_Some. lia. }
  assert (Hround : forall fuel t, 0 <= t < 3 ->
    next_loop fuel t s = if occupied (schedule_top (s_sched s)) t then Ret t s
      else match fuel with O => Stop Hang s | S f => next_loop f ((t + 1) mod 3) s end).
  { intros fuel t Ht. destruct (Hget t Ht) as [v Hv]. unfold occupied. rewrite Hv.
    destruct fuel; cbn [next_loop]; unfold get_schedule_top, NUM_TERMINALS.
    all: erewrite bind_Ret by (erewrite bind_Ret by done; unfold aget; by apply of_opt_Some).
    all: rewrite ?Hrem by lia.
    all: by destruct (v =? 0). }
  rewrite Hrem by lia.
  rewrite Hround by divlia.
  destruct (occupied _ ((cp + 1) mod 3)) eqn:H1; [done|]. rewrite Hround by divlia.
  replace (((cp + 1) mod 3 + 1) mod 3) with ((cp + 2) mod 3) by divlia.
  destruct (occupied _ ((cp + 2) mod 3)) eqn:H2; [done|]. rewrite Hround by divlia.
  replace (((cp + 2) mod 3 + 1) mod 3) with cp by divlia.
  destruct (occupied _ cp); [done|]. rewrite Hround by divlia. by rewrite H1.
Qed.

(** ** Loading a context *)

(** The page at VIDMAP, and the kernel's own display page, for a process of
    terminal [t]. *)
Definition display_of (t : Z) s : Z :=
  if t =? current_terminal (s_term s) then VIDEO else VIDEO_1 + 0x1000 * t.
Definition kernel_display_of (t : Z) s : Z :=
  if t =? current_terminal (s_term s) then VIDMAP else VIDEO_1 + 0x1000 * t.

(** From [s], the context [c] of terminal [t] has been loaded in [s']. *)
Record loaded (t : Z) (c : slot_t) s s' : Prop := {
  ld_proc : s_proc s' = set current_pid (fun _ => sl_pid c) (s_proc s);
  ld_sched : s_sched s' =
    set last_ebp (fun _ => sl_ebp c) (set last_esp (fun _ => sl_esp c) (s_sched s));
  ld_hw : s_hw s' =
    set tss (fun _ => set esp0 (fun _ => kernel_stack_of (sl_pid c)) (sl_tss c)) (s_hw s);
  ld_pag : s_pag s' = mk_pag
    (<[33%nat := video_directory_entry]> (<[32%nat := program_page (sl_pid c)]>
      (process_pages (s_pag s))))
    (<[33%nat := Z.lor (display_of t s) urp]> (process_tables (s_pag s)))
    (paging_on (s_pag s)) false;
  ld_scr : s_scr s' = set video_mem (fun _ => kernel_display_of t s) (s_scr s);
  ld_rest : s_term s' = s_term s /\ s_kbd s' = s_kbd s /\ s_rtc s' = s_rtc s /\
    s_irq s' = s_irq s /\ s_fs s' = s_fs s /\ s_mem s' = s_mem s;
}.

Lemma display_of_page t s : 0 <= t < 3 -> display_page (display_of t s).
Proof.
  intros Ht. unfold display_of. case_match; [by left|]. right. by exists t.
Qed.

(** A context switch rewrites only the entries that differ. *)
Lemma program_directory_again pid0 pid :
  <[33%nat := video_directory_entry]> (<[32%nat := program_page pid]>
    (program_directory pid0)) = program_directory pid.
Proof.
  unfold program_directory.
  rewrite (list_insert_insert_ne _ 32 33 (program_page pid)) by done.
  by rewrite !list_insert_insert_eq.
Qed.
Lemma program_table_again vid0 vid :
  <[33%nat := Z.lor vid urp]> (program_table vid0) = program_table vid.
Proof. unfold program_table. by rewrite list_insert_insert_eq. Qed.

Lemma u32_display vid : display_page vid -> u32 (Z.lor vid urp) = Z.lor vid urp.
Proof. intros []%display_page_ok. apply u32_entry; [done|lia|change urp with 7; lia]. Qed.

Lemma wp_load_context s c (Q : unit -> kstate -> Prop) :
  let cp := current_process (s_sched s) in
  0 <= cp < 3 -> slot (s_sched s) cp c -> sl_ebp c <> 0 -> 0 <= sl_pid c < 256 ->
  length (process_pages (s_pag s)) = 1024%nat ->
  length (process_tables (s_pag s)) = 1024%nat ->
  (forall s', loaded cp c s s' -> Q tt s') -> wp load_context Q s.
Proof.
  intros cp Hcp [(top & Ht & Hne & Hp & He & Hb & Hts)] Hebp Hpid Lp Lt HQ.
  unfold load_context, get_current_process, get_schedule_top, get_current_terminal.
  wp_pures. fold cp.
  eapply wp_aget_Some; [exact Ht|]. rewrite (proj2 (Z.eqb_neq top 0)) by done. wp_pures.
  eapply wp_of_opt; [exact Hb|]. rewrite (proj2 (Z.eqb_neq (sl_ebp c) 0)) by done. wp_pures.
  eapply wp_of_opt; [exact Hp|]. unfold proc_set. wp_pures.
  eapply wp_of_opt; [exact He|]. unfold sched_set. wp_pures.
  eapply wp_of_opt; [exact Hts|]. unfold set_tss, hw_set. wp_pures.
  apply wp_put_page; [upd; rewrite Lp; by split|]. wp_pures.
  unfold with_pages. upd. fold urp.
  destruct (cp =? current_terminal (s_term s)) eqn:Hct; cbn [negb]; wp_pures;
    (apply wp_put_table; [upd; cbn [process_tables]; rewrite Lt; by split|]);
    unfold set_video_mem, scr_set; wp_pures;
    (apply wp_put_page; [unfold with_tables, with_pages; upd; cbn [process_pages];
      autorewrite with arr; rewrite Lp; by split|]);
    unfold flush_tlb, pag_set; wp_pures; apply HQ.
  all: constructor; unfold with_pages, with_tables, display_of, kernel_display_of; rewrite ?Hct; upd.
  all: try done.
  all: rewrite video_entry, u32_program_page, u32_tables_entry, u32_display
    by (done || (by left) || (by right; exists cp)); reflexivity.
Qed.

(** ** The timer *)

(** The terminal whose process runs next: the one requested by a switch of
    terminals, else the next in turn. *)
Definition next_terminal (sc : sched_t) : option Z :=
  if terminal_request sc =? -1 then round_robin (schedule_top sc) (current_process sc)
  else if decide (0 <= terminal_request sc < 3) then Some (terminal_request sc) else None.

Lemma next_terminal_range sc t :
  0 <= current_process sc < 3 -> next_terminal sc = Some t -> 0 <= t < 3.
Proof.
  intros Hcp. unfold next_terminal. case_match.
  - intros ?%round_robin_range; tauto.
  - case_decide; congruence.
Qed.

Lemma wp_choose_next s t (Q : Z -> kstate -> Prop) :
  length (schedule_top (s_sched s)) = 3%nat -> 0 <= current_process (s_sched s) < 3 ->
  next_terminal (s_sched s) = Some t -> Q t s -> wp choose_next Q s.
Proof.
  intros Hlen Hcp Hnt HQ. unfold choose_next, get_current_process. wp_pures.
  unfold next_terminal in Hnt. destruct (terminal_request (s_sched s) =? -1) eqn:Hr.
  - unfold wp. change (Z.to_nat NUM_TERMINALS) with 3%nat.
    rewrite next_loop_round_robin by done. by rewrite Hnt.
  - case_decide as Hd; [|done]. injection Hnt as <-.
    destruct (Z.eqb_spec (terminal_request (s_sched s)) 0) as [E|?]; [by rewrite E in HQ|].
    destruct (Z.eqb_spec (terminal_request (s_sched s)) 1) as [E|?]; [by rewrite E in HQ|].
    destruct (Z.eqb_spec (terminal_request (s_sched s)) 2) as [E|?]; [by rewrite E in HQ|].
    lia.
Qed.

(** The schedule when the timer has saved the interrupted context and chosen
    terminal [t]. *)
Definition turned (t : Z) s : sched_t :=
  set terminal_request (fun _ => -1) (set current_process (fun _ => t)
    (saved (current_process (s_sched s)) (last_esp (s_sched s)) (last_ebp (s_sched s))
      (tss (s_hw s)) (s_sched s))).

(** A switch to the context [c] of terminal [t]. *)
Record switched (t : Z) (c : slot_t) s s' : Prop := {
  sw_proc : s_proc s' = set current_pid (fun _ => sl_pid c) (s_proc s);
  sw_sched : s_sched s' = set schedule_tick (fun k => if k =? 0 then 1 else 0)
    (set last_ebp (fun _ => sl_ebp c) (set last_esp (fun _ => sl_esp c) (turned t s)));
  sw_tss : tss (s_hw s') = set esp0 (fun _ => kernel_stack_of (sl_pid c)) (sl_tss c);
  sw_hw : cpu_esp (s_hw s') = cpu_esp (s_hw s) /\ eflags_if (s_hw s') = false /\
    pending (s_hw s') = pending (s_hw s);
  sw_pag : s_pag s' = mk_pag
    (<[33%nat := video_directory_entry]> (<[32%nat := program_page (sl_pid c)]>
      (process_pages (s_pag s))))
    (<[33%nat := Z.lor (display_of t s) urp]> (process_tables (s_pag s)))
    (paging_on (s_pag s)) false;
  sw_scr : s_scr s' = set video_mem (fun _ => kernel_display_of t s) (s_scr s);
  sw_rest : s_term s' = s_term s /\ s_kbd s' = s_kbd s /\ s_rtc s' = s_rtc s /\
    s_irq s' = s_irq s /\ s_fs s' = s_fs s /\ s_mem s' = s_mem s;
}.

(** The tables of the scheduler and of the pages are there. *)
Record sched_ok s : Prop := {
  so_tops : length (schedule_top (s_sched s)) = 3%nat;
  so_current : 0 <= current_process (s_sched s) < 3;
  so_slot : schedulable (s_sched s) (current_process (s_sched s));
  so_pages : length (process_pages (s_pag s)) = 1024%nat;
  so_tables : length (process_tables (s_pag s)) = 1024%nat;
}.

Lemma saved_fields t esp ebp ts sc :
  current_process (saved t esp ebp ts sc) = current_process sc /\
  terminal_request (saved t esp ebp ts sc) = terminal_request sc /\
  schedule_top (saved t esp ebp ts sc) = schedule_top sc /\
  schedule_stack (saved t esp ebp ts sc) = schedule_stack sc.
Proof. unfold saved. destruct (lget _ t) as [v|]; [|done]. by case_match. Qed.

Lemma wp_timer_handler s t c (Q : unit -> kstate -> Prop) :
  sched_ok s -> next_terminal (s_sched s) = Some t ->
  slot (turned t s) t c -> sl_ebp c <> 0 -> 0 <= sl_pid c < 256 ->
  (forall s', switched t c s s' -> Q tt s') -> wp timer_handler Q s.
Proof.
  intros [Htop Hcp Hsl Lp Lt] Hnt Hc Hebp Hpid HQ.
  unfold timer_handler, send_eoi, cli, flush_tlb, outb, hw_set, pag_set, sched_set.
  change (IRQ0 <? 8) with true. cbv iota. wp_pures.
  match goal with |- wp save_context _ ?s1_ => set (s1 := s1_) end.
  assert (E : s_sched s1 = s_sched s) by done.
  apply wp_save_context; [by rewrite E|]. rewrite E.
  change (tss (s_hw s1)) with (tss (s_hw s)).
  match goal with |- context [saved ?a ?b ?c ?d] =>
    destruct (saved_fields a b c d (s_sched s)) as (F1 & F2 & F3 & F4);
    set (sv := saved a b c d) in * end.
  wp_pures. eapply (wp_choose_next _ t); [upd; by rewrite E, F3|upd; by rewrite E, F1| |].
  { upd. rewrite E. unfold next_terminal. by rewrite F1, F2, F3. }
  wp_pures. match goal with |- wp load_context _ ?s2_ => set (s2 := s2_) end.
  assert (E2 : s_sched s2 = turned t s) by done.
  pose proof (next_terminal_range _ _ Hcp Hnt).
  assert (E3 : current_process (s_sched s2) = t) by (by rewrite E2).
  eapply (wp_load_context s2 c); rewrite ?E2, ?E3; try done.
  intros s' L. change (current_process (turned t s)) with t in L. wp_pures. apply HQ.
  destruct L as [Lproc Lsched Lhw Lpag Lscr Lrest].
  constructor; upd.
  - rewrite Lproc. done.
  - rewrite Lsched, E2. done.
  - rewrite Lhw. upd. done.
  - rewrite Lhw. upd. done.
  - rewrite Lpag. done.
  - rewrite Lscr. done.
  - done.
Qed.

(** ** An interrupt of the timer *)

(** The process of a terminal is interrupted with frame pointer [ebp], its
    context is saved, and [c] is the one that is loaded: control goes there, or
    back when it is the interrupted context itself. *)
Lemma schedule_entry_turn s ebp t c :
  sched_ok s -> next_terminal (s_sched s) = Some t ->
  slot (saved (current_process (s_sched s)) (cpu_esp (s_hw s)) ebp (tss (s_hw s)) (s_sched s))
    t c ->
  sl_ebp c <> 0 -> 0 <= sl_pid c < 256 ->
  exists s', schedule_entry ebp s =
      (if sl_esp c =? cpu_esp (s_hw s)
       then Ret tt (set s_hw (set eflags_if (fun _ => eflags_if (s_hw s))) s')
       else Stop (Resume (sl_esp c) (sl_ebp c)) s') /\
    switched t c (set s_sched (set last_esp (fun _ => cpu_esp (s_hw s)))
      (set s_sched (set last_ebp (fun _ => ebp)) s)) s'.
Proof.
  intros [Htop Hcp Hsl Lp Lt] Hnt Hc Hebp Hpid.
  set (s0 := set s_sched (set last_esp (fun _ => cpu_esp (s_hw s)))
    (set s_sched (set last_ebp (fun _ => ebp)) (set s_hw (set eflags_if (fun _ => false)) s))).
  assert (W : wp timer_handler (fun _ s' => switched t c s0 s') s0).
  { apply (wp_timer_handler s0 t c); try done.
    - constructor; unfold s0; upd; try done.
      destruct Hsl as [H0|[c0 [H0]]]; [by left|right]. exists c0. by constructor.
    - unfold turned, s0. upd. revert Hc. unfold saved. upd.
      destruct (lget (schedule_top (s_sched s)) (current_process (s_sched s))) as [top|];
        [destruct (top =? 0)|]; intros [Hx]; constructor; exact Hx. }
  apply wp_Ret in W as ([] & s' & Ht & Hsw). exists s'. split.
  - unfold schedule_entry, cli_and_save, cli, hw_set, sched_set.
    erewrite bind_Ret by reflexivity. cbv beta. erewrite bind_Ret by reflexivity. cbv beta.
    erewrite bind_Ret by reflexivity. cbv beta. erewrite bind_Ret by reflexivity. cbv beta.
    erewrite bind_Ret by exact Ht. cbv beta. erewrite bind_Ret by reflexivity. cbv beta.
    pose proof (sw_sched _ _ _ _ Hsw) as Es. rewrite Es. upd.
    by destruct (sl_esp c =? cpu_esp (s_hw s)).
  - destruct Hsw as [Hproc Hsched Htss Hhw Hpag Hscr Hrest].
    constructor; done.
Qed.

Lemma schedule_entry_switch s ebp t c :
  sched_ok s -> next_terminal (s_sched s) = Some t ->
  slot (saved (current_process (s_sched s)) (cpu_esp (s_hw s)) ebp (tss (s_hw s)) (s_sched s))
    t c ->
  sl_ebp c <> 0 -> 0 <= sl_pid c < 256 -> sl_esp c <> cpu_esp (s_hw s) ->
  exists s', schedule_entry ebp s = Stop (Resume (sl_esp c) (sl_ebp c)) s' /\
    switched t c (set s_sched (set last_esp (fun _ => cpu_esp (s_hw s)))
      (set s_sched (set last_ebp (fun _ => ebp)) s)) s'.
Proof.
  intros O Hnt Hc Hebp Hpid Hne. destruct (schedule_entry_turn s ebp t c) as (s' & E & Sw); try done.
  rewrite (proj2 (Z.eqb_neq _ _)) in E by done. by exists s'.
Qed.
End scheduler.
