(* ===== verification/Exceptions.v ===== *)
(** * exception-handlers.c *)
From S2P Require Import Prelude State Monad Screen Syscalls.

(** What each handler prints. *)
Definition exception_message (h : handler) : string :=
  match h with
  | exception_div_zero => "Exception: Divide by Zero"
  | exception_debug => "Exception: Debug"
  | exception_nonmaskable_interrupt => "Exception: Non-maskable Interrupt"
  | exception_breakpoint => "Exception: Breakpoint"
  | exception_overflow => "Exception: overflow"
  | exception_bound_range_exceeded => "Exception: Breakpoint"
  | exception_invalid_opcode => "Exception: Invalid opcode"
  | exception_device_not_available => "Exception: Device Not Available"
  | exception_double_fault => "Exception: Double Fault"
  | exception_coprocessor_segment_overrun => "Exception: CoProcessor Segment Overun"
  | exception_invalid_TSS => "Exception: Invalid TSS"
  | exception_segment_not_present => "Exception: Segment Not Present"
  | exception_stack_segment_fault => "Exception: Stack Segment Fault"
  | exception_general_protection_fault => "Exception: General Protection Fault"
  | exception_page_fault => "Exception: Page Fault"
  | exception_reserved => "Exception: Reserved. How did you get here?"
  | exception_x87_floating_point => "Exception: x87 Floating-Point Exception"
  | exception_alignment_check => "Exception: Alignment Check"
  | exception_machine_check => "Exception: Machine Check"
  | exception_SIMD_floating_point => "Exception: SIMD Floating-Point Exception"
  | exception_virtualization => "Exception: Virtualization Exception"
  | exception_security => "Exception: Security Exception"
  | schedule_wrapper | keyboard_wrapper | rtc_wrapper | system_call_wrapper => ""
  end.

(** The handlers that halt the process with status 256; the others spin. *)
Definition exception_halts (h : handler) : bool :=
  match h with
  | exception_div_zero | exception_overflow | exception_bound_range_exceeded
  | exception_invalid_opcode | exception_page_fault
  | exception_general_protection_fault | exception_stack_segment_fault => true
  | _ => false
  end.

Section exceptions.
Context {P : Platform}.
Variable on_irq : irq -> M unit.

Definition exception_handler (h : handler) : M unit :=
  printf (text (exception_message h) ++ [10]) [] ;;
  if exception_halts h then do_call on_irq SYS_HALT 256 0 0 ;; ret tt
  else stop_with Hang.
End exceptions.
