(* ===== verification/Kernel.v ===== *)
(** * kernel.c: boot, and the kernel as a whole *)
From S2P Require Import Prelude State Monad Strings Screen Pic Mem Proc Fs Rtc Terminal Keyboard Interrupts Descriptors Syscalls Exceptions.

Definition MULTIBOOT_BOOTLOADER_MAGIC : Z := 0x2BADB002.

(** multiboot.h: what the boot loader passes, with the lists its pointers
    lead to. *)
Record module_t := mk_module { mod_start : Z; mod_end : Z }.
Record memory_map_t := mk_mmap {
  mm_size : Z; base_addr_low : Z; base_addr_high : Z;
  length_low : Z; length_high : Z; mm_type : Z }.
Record multiboot_info_t := mk_mbi {
  mbi_flags : Z; mem_lower : Z; mem_upper : Z; boot_device : Z; cmdline : list Z;
  mods : list module_t; elf_num : Z; elf_size : Z; elf_addr : Z; elf_shndx : Z;
  mmap_length : Z; mmap_addr : Z; mmap : list memory_map_t }.

Definition CHECK_FLAG (flags bit : Z) : bool := negb (Z.land flags (Z.shiftl 1 bit) =? 0).

(** What drives the kernel from outside: an interrupt, a system call of the
    running program, or an exception it raises. *)
Inductive event :=
  | EvIrq (ev : irq)
  | EvSyscall (eax ebx ecx edx : Z)
  | EvException (h : handler).

Section kernel.
Context {P : Platform}.

(** ** Interrupts *)

(** An interrupt that arrives while a routine spins; the handlers it runs
    may spin themselves, on the interrupts still pending. *)
Fixpoint on_irq_fuel (fuel : nat) (ev : irq) : M unit :=
  match fuel with
  | O => stop_with Blocked
  | S fuel =>
      match ev with
      | IrqTimer => h <- gets s_hw ;; schedule_entry (cpu_ebp h)
      | IrqKey scan =>
          hw_set (set ps2_data (fun _ => scan)) ;;
          handle_keyboard (on_irq_fuel fuel) (exec_shell (on_irq_fuel fuel))
      | IrqRtc => handle_RTC
      end
  end.
Definition on_irq (ev : irq) : M unit :=
  n <- gets (fun s => length (pending (s_hw s))) ;; on_irq_fuel (S n) ev.

(** ** Boot *)

Definition pr (s : string) (args : list printf_arg) : M unit :=
  printf (text s) args ;; ret tt.
Definition pr_line (s : string) (args : list printf_arg) : M unit :=
  printf (text s ++ [10]) args ;; ret tt.

Fixpoint load_modules (n : Z) (ms : list module_t) : M unit :=
  match ms with
  | [] => ret tt
  | m :: ms =>
      pr_line "Module %d loaded at address: 0x%#x" [ArgInt n; ArgInt (mod_start m)] ;;
      boot_block_init (mod_start m) ;;
      pr_line "Module %d ends at address: 0x%#x" [ArgInt n; ArgInt (mod_end m)] ;;
      pr_line "First few bytes of module:" [] ;;
      for_up 0 16 (fun i =>
        b <- fs_read (fun f => fs_byte f (mod_start m + i)) ;;
        pr "0x%x " [ArgInt (s8 b)]) ;;
      pr_line "" [] ;;
      load_modules (n + 1) ms
  end.

Fixpoint print_mmap (ms : list memory_map_t) : M unit :=
  match ms with
  | [] => ret tt
  | m :: ms =>
      pr_line "    size = 0x%x, base_addr = 0x%#x%#x"
        [ArgInt (mm_size m); ArgInt (base_addr_high m); ArgInt (base_addr_low m)] ;;
      pr_line "    type = 0x%x,  length    = 0x%#x%#x"
        [ArgInt (mm_type m); ArgInt (length_high m); ArgInt (length_low m)] ;;
      print_mmap ms
  end.

(** The part of [entry] that reports what the boot loader passed; [false]
    when [entry] returns there. *)
Definition report (magic : Z) (mbi : multiboot_info_t) : M bool :=
  clear ;;
  if negb (magic =? MULTIBOOT_BOOTLOADER_MAGIC) then
    pr_line "Invalid magic number: 0x%#x" [ArgInt magic] ;; ret false
  else
    let f := mbi_flags mbi in
    pr_line "flags = 0x%#x" [ArgInt f] ;;
    when (CHECK_FLAG f 0)
      (pr_line "mem_lower = %uKB, mem_upper = %uKB"
         [ArgInt (mem_lower mbi); ArgInt (mem_upper mbi)]) ;;
    when (CHECK_FLAG f 1) (pr_line "boot_device = 0x%#x" [ArgInt (boot_device mbi)]) ;;
    when (CHECK_FLAG f 2) (pr_line "cmdline = %s" [ArgStr (cmdline mbi)]) ;;
    when (CHECK_FLAG f 3) (load_modules 0 (mods mbi)) ;;
    if CHECK_FLAG f 4 && CHECK_FLAG f 5 then
      pr_line "Both bits 4 and 5 are set." [] ;; ret false
    else
      when (CHECK_FLAG f 5)
        (pr_line "elf_sec: num = %u, size = 0x%#x, addr = 0x%#x, shndx = 0x%#x"
           [ArgInt (elf_num mbi); ArgInt (elf_size mbi); ArgInt (elf_addr mbi);
            ArgInt (elf_shndx mbi)]) ;;
      when (CHECK_FLAG f 6)
        (pr_line "mmap_addr = 0x%#x, mmap_length = 0x%x"
           [ArgInt (mmap_addr mbi); ArgInt (mmap_length mbi)] ;;
         print_mmap (mmap mbi)) ;;
      ret true.

(** From the local descriptor table on. *)
Definition start_devices : M unit :=
  construct_ldt ;;
  construct_tss ;;
  initialize_IDT ;;
  PIT_init ;;
  keyboard_init ;;
  RTC_init ;;
  paging_init ;;
  process_control_block_init ;;
  first_process_init ;;
  terminal_open [] ;;
  set_video_mem VIDEO ;;
  pr_line "Enabling Interrupts" [] ;;
  terminal_clear.

(** [entry] ends in [hlt] when the shell cannot be executed. *)
Definition entry (magic : Z) (mbi : multiboot_info_t) : M unit :=
  go <- report magic mbi ;;
  if go : bool then
    start_devices ;; exec_shell on_irq ;; stop_with Hang
  else ret tt.

(** ** The kernel as a transition system *)

(** The gate of an interrupt clears the interrupt flag; its [iret] restores
    the one of the interrupted program. *)
Definition gate (m : M unit) : M unit :=
  flags <- cli_and_save ;; m ;; restore_flags flags.

Definition kernel_step (ev : event) : M unit :=
  match ev with
  | EvIrq i => gate (on_irq i)
  | EvSyscall eax ebx ecx edx => system_call on_irq eax ebx ecx edx ;; ret tt
  | EvException h => gate (exception_handler on_irq h)
  end.
End kernel.
