(* ===== verification/Asm.v ===== *)
(** * boot.S and the interrupt wrappers: registers and the kernel stack

    The assembly around the C routines, instruction by instruction, on the
    processor's registers and the words of the kernel stack. The C routines do
    not depend on the direction flag they are called with: the string routines
    of lib.c set it themselves. *)
From S2P Require Import Prelude State Monad Proc Terminal Interrupts Descriptors Syscalls Kernel.

(** The general registers, the selectors, the direction flag (the interrupt
    flag is [eflags_if] of the state), the words on the kernel stack from [esp]
    on (none while a program runs) and the static of syscalls_wrapper.S. *)
Record cpu_t := mk_cpu {
  eax : Z; ecx : Z; edx : Z; ebx : Z; esp : Z; ebp : Z; esi : Z; edi : Z;
  cs : Z; ss : Z; ds : Z; es : Z; fs : Z; gs : Z;
  df : bool;
  kstack : list Z;
  return_val : Z;
}.
#[export] Instance eta_cpu : Eta cpu_t := fun r =>
  mk_cpu (eax r) (ecx r) (edx r) (ebx r) (esp r) (ebp r) (esi r) (edi r) (cs r) (ss r) (ds r)
    (es r) (fs r) (gs r) (df r) (kstack r) (return_val r).
#[export] Instance eax_upd : Setter eax := ltac:(setter).
#[export] Instance ecx_upd : Setter ecx := ltac:(setter).
#[export] Instance edx_upd : Setter edx := ltac:(setter).
#[export] Instance ebx_upd : Setter ebx := ltac:(setter).
#[export] Instance esp_upd : Setter esp := ltac:(setter).
#[export] Instance ebp_upd : Setter ebp := ltac:(setter).
#[export] Instance esi_upd : Setter esi := ltac:(setter).
#[export] Instance edi_upd : Setter edi := ltac:(setter).
#[export] Instance cs_upd : Setter cs := ltac:(setter).
#[export] Instance ss_upd : Setter ss := ltac:(setter).
#[export] Instance ds_upd : Setter ds := ltac:(setter).
#[export] Instance es_upd : Setter es := ltac:(setter).
#[export] Instance fs_upd : Setter fs := ltac:(setter).
#[export] Instance gs_upd : Setter gs := ltac:(setter).
#[export] Instance df_upd : Setter df := ltac:(setter).
#[export] Instance kstack_upd : Setter kstack := ltac:(setter).
#[export] Instance return_val_upd : Setter return_val := ltac:(setter).

(** ** Instructions *)

Definition pushl (v : Z) (c : cpu_t) : cpu_t :=
  set esp (fun e => u32 (e - 4)) (set kstack (cons (u32 v)) c).
Definition popl (c : cpu_t) : M (Z * cpu_t) :=
  match kstack c with
  | v :: st => ret (v, set esp (fun e => u32 (e + 4)) (set kstack (fun _ => st) c))
  | [] => stop_with (Fault OutOfBounds)
  end.

(** [esp] is pushed as it was, and popped into nothing. *)
Definition pushal (c : cpu_t) : cpu_t :=
  pushl (edi c) (pushl (esi c) (pushl (ebp c) (pushl (esp c)
    (pushl (ebx c) (pushl (edx c) (pushl (ecx c) (pushl (eax c) c))))))).
Definition popal (c : cpu_t) : M cpu_t :=
  r <- popl c ;; let '(v, c) := r in let c := set edi (fun _ => v) c in
  r <- popl c ;; let '(v, c) := r in let c := set esi (fun _ => v) c in
  r <- popl c ;; let '(v, c) := r in let c := set ebp (fun _ => v) c in
  r <- popl c ;; let '(_, c) := r in
  r <- popl c ;; let '(v, c) := r in let c := set ebx (fun _ => v) c in
  r <- popl c ;; let '(v, c) := r in let c := set edx (fun _ => v) c in
  r <- popl c ;; let '(v, c) := r in let c := set ecx (fun _ => v) c in
  r <- popl c ;; let '(v, c) := r in ret (set eax (fun _ => v) c).

(** The flags register as a word: bit 9 is the interrupt flag, bit 10 the
    direction flag. *)
Definition flags_word (f d : bool) : Z :=
  Z.lor (if f then 0x202 else 0x2) (if d then 0x400 else 0).
Definition cld (c : cpu_t) : cpu_t := set df (fun _ => false) c.
Definition load_df (w : Z) (c : cpu_t) : cpu_t := set df (fun _ => Z.testbit w 10) c.
Definition privilege (sel : Z) : Z := Z.land sel 3.

Section asm.
Context {P : Platform}.
(** What a C routine leaves in the registers and the argument words that it
    may change. *)
Context (junk : nat -> Z).

(** A call of a C routine: the arguments are the words on the stack; [eax]
    holds the result, [ecx], [edx] and the argument words anything. *)
Definition ccall (nargs : nat) (f : list Z -> M Z) (c : cpu_t) : M cpu_t :=
  r <- f (take nargs (kstack c)) ;;
  ret (set eax (fun _ => u32 r) (set ecx (fun _ => u32 (junk 0)) (set edx (fun _ => u32 (junk 1))
    (set kstack (fun st => map (fun i => u32 (junk i)) (seq 2 nargs) ++ drop nargs st) c)))).
(** One without arguments and result. *)
Definition vcall (f : M unit) (c : cpu_t) : M cpu_t :=
  ccall 0 (fun _ => f ;; ret (junk 2)) c.

(** An interrupt through a gate: a program continues on the stack that the
    task state segment names, the return address is [eip]; [iret] undoes it. *)
Definition interrupt_gate (eip : Z) (c : cpu_t) : M cpu_t :=
  t <- hw_tss ;;
  f <- cli_and_save ;;
  let c' :=
    if privilege (cs c) =? 3 then
      pushl (esp c) (pushl (ss c)
        (set kstack (fun _ => []) (set ss (fun _ => ss0 t) (set esp (fun _ => esp0 t) c))))
    else c in
  ret (set cs (fun _ => KERNEL_CS) (pushl eip (pushl (cs c) (pushl (flags_word f (df c)) c')))).
Definition iret (c : cpu_t) : M (Z * cpu_t) :=
  r <- popl c ;; let '(eip, c) := r in
  r <- popl c ;; let '(sel, c) := r in
  r <- popl c ;; let '(f, c) := r in
  restore_flags (Z.testbit f 9) ;; let c := load_df f c in
  if privilege sel =? 3 then
    r <- popl c ;; let '(e, c) := r in
    r <- popl c ;; let '(s_, c) := r in
    ret (eip, set cs (fun _ => sel) (set ss (fun _ => s_) (set esp (fun _ => e) c)))
  else ret (eip, set cs (fun _ => sel) c).

(** ** keyboard_wrapper.S, rtc_wrapper.S *)

Definition keyboard_wrapper (c : cpu_t) : M (Z * cpu_t) :=
  c <- vcall (handle_keyboard on_irq (exec_shell on_irq)) (cld (pushal c)) ;;
  c <- popal c ;;
  iret c.
Definition rtc_wrapper (c : cpu_t) : M (Z * cpu_t) :=
  c <- vcall handle_RTC (cld (pushal c)) ;;
  c <- popal c ;;
  iret c.

(** ** schedule_wrapper.S *)

(** Control stays here when [timer_handler] leaves [last_esp] as it was, and
    otherwise goes to the stack that it has put there. *)
Definition schedule_wrapper (c : cpu_t) : M (Z * cpu_t) :=
  cli ;;
  let c := pushal c in
  f <- gets (fun s => eflags_if (s_hw s)) ;;
  let c := pushl (flags_word f (df c)) c in
  sched_set (set last_ebp (fun _ => ebp c)) ;;
  sched_set (set last_esp (fun _ => esp c)) ;;
  c <- vcall timer_handler c ;;
  sc <- gets s_sched ;;
  if last_esp sc =? esp c then
    r <- popl (set ebp (fun _ => last_ebp sc) c) ;; let '(f, c) := r in
    restore_flags (Z.testbit f 9) ;; let c := load_df f c in
    c <- popal c ;;
    iret c
  else stop_with (Resume (last_esp sc) (last_ebp sc)).

(** ** syscalls_wrapper.S *)

(** The words of the stack are [ebx], [ecx], [edx]. *)
Definition syscalltable (i : Z) (args : list Z) : M Z :=
  match args with
  | [b; c; d] => dispatch on_irq (i + 1) b c d
  | _ => stop_with (Fault OutOfBounds)
  end.

Definition system_call (c : cpu_t) : M (Z * cpu_t) :=
  cli ;;
  if s32 (eax c) <? 1 then iret (set eax (fun _ => u32 (-1)) c)
  else if 10 <? u32 (eax c) then iret (set eax (fun _ => u32 (-1)) c)
  else
    let c := pushal (set eax (fun a => u32 (a - 1)) c) in
    let c := pushl (ebx c) (pushl (ecx c) (pushl (edx c) c)) in
    c <- ccall 3 (syscalltable (eax c)) c ;;
    let c := set return_val (fun _ => eax c) c in
    let c := set esp (fun e => u32 (e + 12)) (set kstack (drop 3) c) in
    c <- popal c ;;
    iret (set eax (fun _ => return_val c) c).

(** ** boot.S *)

(** A selector register can only name a descriptor that is present. *)
Definition load_selector (sel : Z) : M unit :=
  t <- gets (fun s => gdt (s_irq s)) ;;
  d <- aget t (Z.shiftr sel 3) ;;
  if Z.testbit d 47 then ret tt else stop_with (Fault GeneralProtection).

(** [mbi_at a] is what the boot loader has put at the address [a]. *)
Definition start (mbi_at : Z -> multiboot_info_t) (c : cpu_t) : M unit :=
  cli ;;
  load_selector KERNEL_CS ;;
  let c := set cs (fun _ => KERNEL_CS) c in
  let c := set esp (fun _ => 0x800000) (set kstack (fun _ => []) c) in
  let c := set ecx (fun v => Z.lor (Z.land v 0xFFFF0000) KERNEL_DS) c in
  let cx := u16 (ecx c) in
  load_selector cx ;; let c := set ss (fun _ => cx) c in
  load_selector cx ;; let c := set ds (fun _ => cx) c in
  load_selector cx ;; let c := set es (fun _ => cx) c in
  load_selector cx ;; let c := set fs (fun _ => cx) c in
  load_selector cx ;; let c := set gs (fun _ => cx) c in
  let c := pushl (eax c) (pushl (ebx c) c) in
  ccall 2 (fun args =>
    match args with
    | [magic; addr] => entry magic (mbi_at addr) ;; ret (junk 4)
    | _ => stop_with (Fault OutOfBounds)
    end) c ;;
  stop_with Hang.
End asm.
