(* ===== verification/Demo.v ===== *)
(** * A concrete machine

    A platform, the state of the memory before boot and a small file system
    module, for the examples and the witnesses of the other files. *)
From S2P Require Import Prelude State Monad Strings Screen Fs Descriptors Kernel.

Lemma demo_aligned : 4202496 mod 4096 = 0.
Proof. reflexivity. Qed.
Lemma demo_range : 4194304 <= 4202496 < 8388608.
Proof. lia. Qed.

#[export] Instance demo : Platform := {|
  process_tables_addr := 4202496;
  process_tables_aligned := demo_aligned;
  process_tables_range := demo_range;
  port_in := fun _ _ => 0xFF;
  stack_junk := 0xCCCCCCCC;
  handler_address := fun h => 0x400100;
  ldt_address := 0x4061C0;
  tss_address := 0x406120;
  halt_status_register := AL;
  unused_after_read_buffer := 6000;
|}.

(** The bss of the kernel, and a processor with interrupts off. *)
Definition zero_fd : fd_block_t := mk_fd None 0 0 0.
Definition zero_pcb : pcb_t :=
  mk_pcb (replicate 8 zero_fd) 0 0 0 0 0 (replicate 1024 0).
Definition zero_tss : tss_t := mk_tss 0 0 0.
Definition zero3 : list Z := [0; 0; 0].
Definition zero_idt : idt_desc_t := mk_idt_desc 0 0 0 0 0 0 0 0 0 0 0.

(** Little-endian words, names padded with NULs, directory entries. *)
Definition le32 (w : Z) : list Z :=
  [u8 w; u8 (Z.shiftr w 8); u8 (Z.shiftr w 16); u8 (Z.shiftr w 24)].
Definition pad (n : nat) (l : list Z) : list Z := take n (l ++ replicate n 0).
Definition mk_dentry (name : string) (ty ino : Z) : list Z :=
  pad 32 (text name) ++ le32 ty ++ le32 ino ++ replicate 24 0.

(** A module at [base]: directory entries, then inodes (length and blocks),
    then data blocks. *)
Definition mk_module_bytes (base : Z) (ds : list (list Z)) (inos : list (Z * list Z))
    (data : list (list Z)) : gmap Z Z :=
  let put (m : gmap Z Z) (a : Z) (bs : list Z) :=
    snd (fold_left (fun '(a, m) b => (a + 1, if b =? 0 then m else <[a := b]> m)) bs (a, m)) in
  let m := put ∅ base (le32 (Z.of_nat (length ds)) ++ le32 (Z.of_nat (length inos))
                        ++ le32 (Z.of_nat (length data))) in
  let m := put m (base + 64) (concat ds) in
  let m := snd (fold_left (fun '(a, m) '(len, blks) =>
                  (a + 4096, put m a (le32 len ++ concat (map le32 blks)))) inos (base + 4096, m)) in
  snd (fold_left (fun '(a, m) bs => (a + 4096, put m a bs)) data
         (base + 4096 + 4096 * Z.of_nat (length inos), m)).

Definition fs_base : Z := 0x410000.

(** A program image: the magic number, the entry point 0x08048020 at byte 24. *)
Definition elf_image : list Z :=
  [0x7f; 0x45; 0x4c; 0x46] ++ replicate 20 0 ++ le32 0x08048020 ++ replicate 20 0x90.

(** Entries ".", "rtc", "shell" (inode 0), "frame" (inode 1, 5000 bytes in
    blocks 2 and 1) and a name of 32 characters (inode 2, empty). *)
Definition demo_dir : list (list Z) :=
  [mk_dentry "." 1 0; mk_dentry "rtc" 0 0; mk_dentry "shell" 2 0; mk_dentry "frame" 2 1;
   mk_dentry "verylargetextwithverylongname.tx" 2 2].
Definition frame_block0 : list Z := map (fun n => 1 + Z.of_nat n mod 250) (seq 0 4096).
Definition frame_block1 : list Z := map (fun n => 1 + Z.of_nat n mod 199) (seq 0 904).
Definition demo_module : gmap Z Z :=
  mk_module_bytes fs_base demo_dir
    [(Z.of_nat (length elf_image), [0]); (5000, [2; 1]); (0, [])]
    [elf_image; frame_block1; frame_block0].

Definition zero_state : kstate := {|
  s_scr := mk_scr 0 0 0;
  s_proc := mk_proc (replicate 7 zero_pcb) 0 0 0 (fun _ => None);
  s_pag := mk_pag (replicate 1024 0) (replicate 1024 0) false false;
  s_sched := mk_sched zero3 zero3 (replicate 3 (replicate 7 0))
    (replicate 3 (replicate 7 zero_tss)) (replicate 3 (replicate 7 0))
    (replicate 3 (replicate 7 0)) 0 0 0 0 0 0 0 (replicate 3 (0, 0)) 0;
  s_term := mk_term zero3 (replicate 3 (replicate 128 0))
    (replicate 3 (mk_switch (replicate 4000 0) 0 0)) zero3 0;
  s_kbd := mk_kbd 0 0 0 0 (replicate 3 (replicate 128 0)) zero3 zero3
    (replicate 7 (replicate 20 (replicate 128 0))) (replicate 7 0) (replicate 7 0)
    (replicate 7 0) 0;
  s_rtc := mk_rtc zero3 zero3;
  s_irq := mk_irq (replicate 256 zero_idt) false 0 0 0 gdt_init 0 0;
  s_fs := mk_fs 0 0 0 fs_base (fs_base + 4096 * 7) demo_module;
  s_hw := mk_hw false 0x18 0x7FFFF0 0x7FFFF8 0x18 zero_tss [] 0 [];
  s_mem := ∅;
|}.

Definition demo_mbi : multiboot_info_t :=
  mk_mbi 8 0 0 0 [] [mk_module fs_base (fs_base + 4096 * 7)] 0 0 0 0 0 0 [].

Definition final {A} (o : out A) : kstate := match o with Ret _ s => s | Stop _ s => s end.
Definition why {A} (o : out A) : option stop :=
  match o with Ret _ _ => None | Stop w _ => Some w end.

(** A small module with the same kinds of entries, and the state in which it is
    loaded and the operation tables are filled. *)
Definition small_module : gmap Z Z :=
  mk_module_bytes fs_base
    [mk_dentry "." 1 0; mk_dentry "rtc" 0 0; mk_dentry "shell" 2 0;
     mk_dentry "verylargetextwithverylongname.tx" 2 1]
    [(Z.of_nat (length elf_image), [0]); (3, [1])] [elf_image; [72; 105; 10]].
Definition small_fs : fs_t :=
  mk_fs fs_base (fs_base + 4096) (fs_base + 4096 * 3) fs_base (fs_base + 4096 * 5) small_module.

Definition std_fds : list fd_block_t :=
  [mk_fd (Some stdin_table) 0 0 1; mk_fd (Some stdout_table) 0 0 1].
Definition free_block : fd_block_t := mk_fd None 4294967295 0 (-1).
Definition std_pcb : pcb_t :=
  mk_pcb (std_fds ++ replicate 6 free_block) (-1) 0 0 0 0 (replicate 1024 0).
Definition std_tables (t : optab) : option optable_t :=
  Some match t with
  | file_table => mk_optable fn_file_open fn_file_read fn_file_write fn_file_close
  | dir_table =>
      mk_optable fn_directory_open fn_directory_read fn_directory_write fn_directory_close
  | rtc_table => mk_optable fn_rtc_open fn_rtc_read fn_rtc_write fn_rtc_close
  | stdin_table =>
      mk_optable fn_keyboard_open fn_terminal_read fn_keyboard_write fn_keyboard_close
  | stdout_table =>
      mk_optable fn_terminal_open fn_terminal_read_fail fn_terminal_write fn_terminal_close
  end.

(** Process 1 runs, with the descriptors [fds] in use from 2 on. *)
Definition files_state (fds : list fd_block_t) : kstate :=
  set s_fs (fun _ => small_fs)
    (set s_proc (fun _ => mk_proc
       (<[0%nat := set pcb_pid (fun _ => 0) std_pcb]>
         (<[1%nat := set pcb_pid (fun _ => 1)
            (set fd_table (fun _ => take 8 (std_fds ++ fds ++ replicate 6 free_block)) std_pcb)]>
           (replicate 7 std_pcb))) 1 1 0 std_tables) zero_state).
