(* ===== verification/MemSpec.v ===== *)
(** * memcpy, memmove and memset copy and fill byte by byte *)
From S2P Require Import Prelude State Monad Logic Mem Demo.

(** The bytes from [pb] on, [n] of them, put at [pa]: the reference. *)
Definition moved (pa pb : Z) (n : nat) (m : gmap Z Z) : gmap Z Z :=
  put_bytes pa (mem_bytes m pb n) m.

Lemma put_bytes_app bs cs : forall pa m,
  put_bytes pa (bs ++ cs) m = put_bytes (pa + Z.of_nat (length bs)) cs (put_bytes pa bs m).
Proof.
  induction bs as [|b bs IH]; intros pa m; cbn [put_bytes app length]; [by rewrite Z.add_0_r|].
  rewrite IH. by replace (pa + 1 + Z.of_nat (length bs)) with (pa + Z.of_nat (S (length bs))) by lia.
Qed.

Lemma put_bytes_below bs : forall pa k v m,
  k < pa -> <[k := v]> (put_bytes pa bs m) = put_bytes pa bs (<[k := v]> m).
Proof.
  induction bs as [|b bs IH]; intros pa k v m Hk; cbn [put_bytes]; [done|].
  rewrite IH by lia. by rewrite insert_insert_ne by lia.
Qed.

Lemma mem_bytes_length m pa n : length (mem_bytes m pa n) = n.
Proof. unfold mem_bytes. by rewrite length_map, length_seq. Qed.
Lemma mem_bytes_snoc m pa n : mem_bytes m pa (S n) = mem_bytes m pa n ++ [mem_get m (pa + Z.of_nat n)].
Proof. unfold mem_bytes. by rewrite seq_S, map_app. Qed.
Lemma mem_bytes_lget m pa n i : 0 <= i < Z.of_nat n -> lget (mem_bytes m pa n) i = Some (mem_get m (pa + i)).
Proof.
  intros H. unfold mem_bytes, lget. rewrite decide_True, list_lookup_fmap, lookup_seq_lt by lia.
  cbn. do 2 f_equal. lia.
Qed.

Lemma moved_get pa pb n m x :
  mem_get (moved pa pb n m) x =
    if decide (pa <= x < pa + Z.of_nat n) then u8 (mem_get m (pb + (x - pa))) else mem_get m x.
Proof.
  unfold moved. rewrite put_bytes_get. case_decide as H.
  - by rewrite mem_bytes_lget by lia.
  - unfold lget. case_decide; [|done]. by rewrite lookup_ge_None_2 by (rewrite mem_bytes_length; lia).
Qed.

Lemma moved_S pa pb n m :
  moved pa pb (S n) m = <[pa + Z.of_nat n := u8 (mem_get m (pb + Z.of_nat n))]> (moved pa pb n m).
Proof. unfold moved. by rewrite mem_bytes_snoc, put_bytes_app, mem_bytes_length. Qed.

(** The last bytes first. *)
Lemma moved_below pa pb n m :
  moved pa pb (S n) m = <[pa := u8 (mem_get m pb)]> (put_bytes (pa + 1) (mem_bytes m (pb + 1) n) m).
Proof. unfold moved. rewrite mem_bytes_S. cbn [put_bytes]. by rewrite put_bytes_below by lia. Qed.

Definition with_mem (m : gmap Z Z) (s : kstate) : kstate := set s_mem (fun _ => m) s.

Lemma with_mem_self s : with_mem (s_mem s) s = s.
Proof. by destruct s. Qed.

Section moves.
Context {P : Platform}.
Context (s : kstate) (base len p : Z).
Hypothesis (L : linear s base len p) (Hbase : 0 <= base) (Htop : base + len <= 4294967296).

Lemma wp_load_at m o (Q : Z -> kstate -> Prop) :
  0 <= o < len -> Q (mem_get m (p + o)) (with_mem m s) -> wp (load8 (base + o)) Q (with_mem m s).
Proof. intros Ho HQ. eapply wp_load8_linear; [by eapply linear_pag; [|exact L]|done|exact HQ]. Qed.

Lemma wp_store_at m o v (Q : unit -> kstate -> Prop) :
  0 <= o < len -> Q tt (with_mem (<[p + o := u8 v]> m) s) -> wp (store8 (base + o) v) Q (with_mem m s).
Proof.
  intros Ho HQ. eapply wp_store8_linear; [by eapply linear_pag; [|exact L]|done|].
  unfold with_mem in *. by destruct s.
Qed.

(** ** Copies upwards *)

Context (a b : Z) (n : nat).
Hypothesis (Ha : 0 <= a) (Hb : 0 <= b) (Han : a + Z.of_nat n <= len) (Hbn : b + Z.of_nat n <= len).

Definition apart : Prop := a <= b \/ b + Z.of_nat n <= a.
Hypothesis (Hab : apart).

Lemma moved_source m k i :
  (k <= i < n)%nat -> mem_get (moved (p + a) (p + b) k m) (p + b + Z.of_nat i) = mem_get m (p + b + Z.of_nat i).
Proof. intros Hk. rewrite moved_get. unfold apart in Hab. by rewrite decide_False by lia. Qed.

Definition at_ (o : Z) (k : nat) : Z := u32 (base + o + Z.of_nat k).
Lemma at_small o k : 0 <= o -> o + Z.of_nat k < len -> at_ o k = base + (o + Z.of_nat k).
Proof. intros. unfold at_. rewrite u32_small; lia. Qed.
Lemma at_next o k d : 0 <= o -> o + Z.of_nat k < len -> u32 (at_ o k + Z.of_nat d) = at_ o (k + d).
Proof. intros. rewrite at_small by done. unfold at_. f_equal. lia. Qed.

(** The state with the first [k] bytes copied. *)
Definition upto (m : gmap Z Z) (k : nat) : kstate := with_mem (moved (p + a) (p + b) k m) s.

(** One byte: a load and a store. *)
Lemma wp_move_byte {A} m k (f : M A) (Q : A -> kstate -> Prop) :
  (k < n)%nat -> wp f Q (upto m (S k)) ->
  wp (al <- load8 (at_ b k) ;; store8 (at_ a k) al ;; f) Q (upto m k).
Proof.
  intros Hk HQ. rewrite !at_small by lia. wp_pure. apply wp_load_at; [lia|].
  wp_pure. apply wp_store_at; [lia|]. replace (p + (b + Z.of_nat k)) with (p + b + Z.of_nat k) by lia.
  rewrite moved_source by lia. unfold upto in HQ. rewrite moved_S in HQ.
  by replace (p + (a + Z.of_nat k)) with (p + a + Z.of_nat k) by lia.
Qed.

Lemma wp_move_word {A} m k (f : M A) (Q : A -> kstate -> Prop) :
  (k + 4 <= n)%nat -> wp f Q (upto m (k + 4)) ->
  wp (w <- load32 (at_ b k) ;; store32 (at_ a k) w ;; f) Q (upto m k).
Proof.
  intros Hk HQ. rewrite !at_small by lia. unfold load32, store32.
  set (x := b + Z.of_nat k). set (y := a + Z.of_nat k).
  assert (Hs : forall i, (i < 4)%nat -> mem_get (moved (p + a) (p + b) k m) (p + (x + Z.of_nat i)) =
    mem_get m (p + (x + Z.of_nat i))).
  { intros i Hi. replace (p + (x + Z.of_nat i)) with (p + b + Z.of_nat (k + i)) by lia.
    apply moved_source. lia. }
  pose proof (Hs 0%nat ltac:(lia)) as E0. pose proof (Hs 1%nat ltac:(lia)) as E1.
  pose proof (Hs 2%nat ltac:(lia)) as E2. pose proof (Hs 3%nat ltac:(lia)) as E3.
  change (Z.of_nat 0) with 0 in *. change (Z.of_nat 1) with 1 in *.
  change (Z.of_nat 2) with 2 in *. change (Z.of_nat 3) with 3 in *. rewrite Z.add_0_r in E0.
  rewrite <-!(Z.add_assoc base). wp_pures. apply wp_load_at; [lia|]. wp_pures. apply wp_load_at; [lia|].
  wp_pures. apply wp_load_at; [lia|]. wp_pures. apply wp_load_at; [lia|]. wp_pures.
  rewrite E0, E1, E2, E3.
  apply wp_store_at; [lia|]. wp_pure. apply wp_store_at; [lia|].
  wp_pure. apply wp_store_at; [lia|]. apply wp_store_at; [lia|].
  replace (k + 4)%nat with (S (S (S (S k)))) in HQ by lia. unfold upto in HQ. rewrite !moved_S in HQ.
  assert (Ey : forall o j, p + o + Z.of_nat (j + k) = p + (o + Z.of_nat k + Z.of_nat j)) by lia.
  assert (E4 : forall o, p + o + Z.of_nat k = p + (o + Z.of_nat k)) by lia.
  change (S (S (S k))) with (3 + k)%nat in HQ. change (S (S k)) with (2 + k)%nat in HQ.
  change (S k) with (1 + k)%nat in HQ. rewrite !Ey, !E4 in HQ.
  change (Z.of_nat 0) with 0 in *. change (Z.of_nat 1) with 1 in *.
  change (Z.of_nat 2) with 2 in *. change (Z.of_nat 3) with 3 in *. exact HQ.
Qed.

Lemma wp_movsb_up m j : forall k (Q : unit -> kstate -> Prop),
  (k + j <= n)%nat -> Q tt (upto m (k + j)) ->
  wp (rep_movsb j 1 (at_ a k) (at_ b k)) Q (upto m k).
Proof.
  induction j as [|j IH]; intros k Q Hj HQ; cbn [rep_movsb].
  { apply wp_ret. by rewrite Nat.add_0_r in HQ. }
  apply wp_move_byte; [lia|]. change 1 with (Z.of_nat 1). rewrite !at_next, Nat.add_1_r by lia.
  apply IH; [lia|]. by rewrite Nat.add_succ_l, <-Nat.add_succ_r.
Qed.

Lemma wp_movsl_up m j : forall k (Q : Z * Z -> kstate -> Prop),
  (k + 4 * j <= n)%nat -> Q (at_ a (k + 4 * j), at_ b (k + 4 * j)) (upto m (k + 4 * j)) ->
  wp (rep_movsl j (at_ a k) (at_ b k)) Q (upto m k).
Proof.
  induction j as [|j IH]; intros k Q Hj HQ; cbn [rep_movsl].
  { apply wp_ret. by rewrite Nat.mul_0_r, Nat.add_0_r in HQ. }
  apply wp_move_word; [lia|]. change 4 with (Z.of_nat 4). rewrite !at_next by lia.
  apply IH; [lia|]. by replace (k + 4 + 4 * j)%nat with (k + 4 * S j)%nat by lia.
Qed.

Lemma wp_memcpy_top m fuel : forall k (Q : Z * Z * Z -> kstate -> Prop),
  (k <= n)%nat ->
  (forall k', (k <= k' <= n)%nat -> Q (at_ a k', at_ b k', Z.of_nat n - Z.of_nat k') (upto m k')) ->
  wp (memcpy_top fuel (at_ a k) (at_ b k) (Z.of_nat n - Z.of_nat k)) Q (upto m k).
Proof.
  induction fuel as [|fuel IH]; intros k Q Hk HQ; cbn [memcpy_top]; [apply wp_ret, HQ; lia|].
  destruct (Z.eqb_spec (Z.of_nat n - Z.of_nat k) 0); [apply wp_ret, HQ; lia|].
  destruct (Z.land (at_ a k) 3 =? 0); [apply wp_ret, HQ; lia|].
  apply wp_move_byte; [lia|]. change 1 with (Z.of_nat 1) at 1 2. rewrite !at_next, Nat.add_1_r by lia.
  replace (Z.of_nat n - Z.of_nat k - 1) with (Z.of_nat n - Z.of_nat (S k)) by lia.
  apply IH; [lia|]. intros k' Hk'. apply HQ. lia.
Qed.

Lemma shiftr_2 x : Z.shiftr x 2 = x / 4.
Proof. by rewrite Z.shiftr_div_pow2. Qed.
Lemma land_3 x : Z.land x 3 = x mod 4.
Proof. change 3 with (Z.ones 2). by rewrite Z.land_ones. Qed.

Lemma upto_0 : s = upto (s_mem s) 0.
Proof. unfold upto, moved. cbn. by rewrite with_mem_self. Qed.

Lemma wp_memcpy (Q : Z -> kstate -> Prop) :
  len < 4294967296 -> Q (base + a) (upto (s_mem s) n) ->
  wp (memcpy (base + a) (base + b) (Z.of_nat n)) Q s.
Proof.
  intros Hlen HQ. rewrite upto_0. unfold memcpy. wp_pure. rewrite (u32_small (Z.of_nat n)) by lia.
  replace (u32 (base + a)) with (at_ a 0) by (unfold at_; f_equal; lia).
  replace (u32 (base + b)) with (at_ b 0) by (unfold at_; f_equal; lia).
  replace (Z.of_nat n) with (Z.of_nat n - Z.of_nat 0) at 1 by lia.
  apply wp_memcpy_top; [lia|]. intros k Hk. wp_pure.
  destruct (Z.eqb_spec (Z.of_nat n - Z.of_nat k) 0) as [E|E].
  { wp_pures. by replace k with n by lia. }
  rewrite shiftr_2, land_3. set (r := Z.of_nat n - Z.of_nat k) in *.
  assert (Hdm : r = 4 * (r / 4) + r mod 4) by (apply Z.div_mod; lia).
  assert (Hr : 0 <= r mod 4 < 4) by (apply Z.mod_pos_bound; lia).
  assert (Hq : 0 <= r / 4) by (apply Z.div_pos; lia).
  wp_pure. apply wp_movsl_up; [lia|]. cbv iota. apply wp_movsb_up; [lia|]. wp_pure.
  by replace (k + 4 * Z.to_nat (r / 4) + Z.to_nat (r mod 4))%nat with n by lia.
Qed.

(** ** Copies downwards *)

(** The state with the bytes from [j] on copied. *)
Definition down (m : gmap Z Z) (j : nat) : kstate :=
  with_mem (put_bytes (p + a + Z.of_nat j) (mem_bytes m (p + b + Z.of_nat j) (n - j)) m) s.

Lemma wp_movsb_down m j : forall (Q : unit -> kstate -> Prop),
  (j <= n)%nat -> b < a -> Q tt (upto m n) ->
  wp (rep_movsb j (-1) (u32 (base + a + Z.of_nat j - 1)) (u32 (base + b + Z.of_nat j - 1))) Q (down m j).
Proof.
  induction j as [|j IH]; intros Q Hj Hba HQ; cbn [rep_movsb].
  { apply wp_ret. unfold down, upto, moved in *.
    change (Z.of_nat 0) with 0. by rewrite !Z.add_0_r, Nat.sub_0_r. }
  replace (u32 (base + a + Z.of_nat (S j) - 1)) with (base + (a + Z.of_nat j)) by (rewrite u32_small; lia).
  replace (u32 (base + b + Z.of_nat (S j) - 1)) with (base + (b + Z.of_nat j)) by (rewrite u32_small; lia).
  wp_pure. apply wp_load_at; [lia|]. wp_pure. apply wp_store_at; [lia|].
  replace (base + (a + Z.of_nat j) + -1) with (base + a + Z.of_nat j - 1) by lia.
  replace (base + (b + Z.of_nat j) + -1) with (base + b + Z.of_nat j - 1) by lia.
  assert (E : mem_get (put_bytes (p + a + Z.of_nat (S j))
      (mem_bytes m (p + b + Z.of_nat (S j)) (n - S j)) m) (p + (b + Z.of_nat j)) =
    mem_get m (p + b + Z.of_nat j)).
  { rewrite put_bytes_get. unfold lget. rewrite decide_False by lia. f_equal. lia. }
  rewrite E. specialize (IH Q ltac:(lia) Hba HQ). unfold down in IH.
  replace (n - j)%nat with (S (n - S j)) in IH by lia.
  pose proof (moved_below (p + a + Z.of_nat j) (p + b + Z.of_nat j) (n - S j) m) as Hm.
  unfold moved in Hm. rewrite Hm in IH.
  replace (p + a + Z.of_nat (S j)) with (p + a + Z.of_nat j + 1) by lia.
  replace (p + b + Z.of_nat (S j)) with (p + b + Z.of_nat j + 1) by lia.
  by replace (p + (a + Z.of_nat j)) with (p + a + Z.of_nat j) by lia.
Qed.
End moves.

Section more_moves.
Context {P : Platform}.
Context (s : kstate) (base len p : Z).
Hypothesis (L : linear s base len p) (Hbase : 0 <= base) (Htop : base + len <= 4294967296).
Context (a b : Z) (n : nat).
Hypothesis (Ha : 0 <= a) (Hb : 0 <= b) (Han : a + Z.of_nat n <= len) (Hbn : b + Z.of_nat n <= len).

Lemma wp_memmove (Q : Z -> kstate -> Prop) :
  len < 4294967296 -> a < len -> b < len -> Q (base + a) (upto s p a b (s_mem s) n) ->
  wp (memmove (base + a) (base + b) (Z.of_nat n)) Q s.
Proof.
  intros Hlen Hal Hbl HQ. unfold memmove. rewrite !u32_small by lia. wp_pure.
  destruct (Z.leb_spec (base + a) (base + b)) as [Hab|Hab]; rewrite Nat2Z.id.
  - rewrite (upto_0 s p a b) at 1.
    assert (E : forall o, 0 <= o < len -> base + o = at_ base o 0).
    { intros o Ho. unfold at_. rewrite u32_small by lia. lia. }
    rewrite (E a), (E b) by lia.
    apply (wp_movsb_up s base len p L Hbase Htop a b n Ha Hb Han Hbn); [left; lia|lia|]. rewrite <-(E a) by lia. by wp_pure.
  - assert (E : s = down s p a b n (s_mem s) n).
    { unfold down. rewrite Nat.sub_diag. cbn. by rewrite with_mem_self. }
    rewrite E at 1.
    apply (wp_movsb_down s base len p L); try lia. by wp_pure.
Qed.

(** ** Filling *)

Definition filled (v : Z) (m : gmap Z Z) (k : nat) : kstate :=
  with_mem (put_bytes (p + a) (replicate k v) m) s.

Lemma wp_fill_byte m v k (Q : unit -> kstate -> Prop) :
  (k < n)%nat -> Q tt (filled v m (S k)) -> wp (store8 (at_ base a k) v) Q (filled v m k).
Proof.
  intros Hk HQ. rewrite (at_small base len) by (done || lia).
  apply (wp_store_at s base len p); [done|lia|].
  unfold filled in HQ. rewrite replicate_S_end, put_bytes_app, length_replicate in HQ.
  cbn [put_bytes] in HQ. by replace (p + (a + Z.of_nat k)) with (p + a + Z.of_nat k) by lia.
Qed.

Lemma wp_fill_word m v k (Q : unit -> kstate -> Prop) :
  (k + 4 <= n)%nat -> Q tt (filled v m (k + 4)) ->
  wp (store32 (at_ base a k) (v, v, v, v)) Q (filled v m k).
Proof.
  intros Hk HQ. unfold store32.
  assert (E : forall i, (i < 4)%nat -> at_ base a k + Z.of_nat i = at_ base a (k + i)).
  { intros i Hi. rewrite !(at_small base len) by (done || lia). lia. }
  pose proof (E 1%nat ltac:(lia)) as E1. pose proof (E 2%nat ltac:(lia)) as E2.
  pose proof (E 3%nat ltac:(lia)) as E3. change (Z.of_nat 1) with 1 in E1.
  change (Z.of_nat 2) with 2 in E2. change (Z.of_nat 3) with 3 in E3. rewrite E1, E2, E3.
  rewrite !Nat.add_succ_r, Nat.add_0_r in *.
  wp_pure. apply wp_fill_byte; [lia|]. wp_pure. apply wp_fill_byte; [lia|].
  wp_pure. apply wp_fill_byte; [lia|]. apply wp_fill_byte; [lia|]. exact HQ.
Qed.

Lemma wp_memset c (Q : Z -> kstate -> Prop) :
  len < 4294967296 -> Q (base + a) (filled (u8 c) (s_mem s) n) ->
  wp (memset (base + a) c (Z.of_nat n)) Q s.
Proof.
  intros Hlen HQ. unfold memset. change 255 with (Z.ones 8). rewrite Z.land_ones by lia.
  change (c mod 2 ^ 8) with (u8 c). set (v := u8 c) in *.
  assert (Hb' : forall m j k (Q : unit -> kstate -> Prop), (k + j <= n)%nat ->
    Q tt (filled v m (k + j)) -> wp (rep_stosb j v (at_ base a k)) Q (filled v m k)).
  { intros m j. induction j as [|j IH]; intros k Q' Hj HQ'; cbn [rep_stosb].
    { apply wp_ret. by rewrite Nat.add_0_r in HQ'. }
    wp_pure. apply wp_fill_byte; [lia|]. change 1 with (Z.of_nat 1).
    rewrite (at_next base len), Nat.add_1_r by (done || lia).
    apply IH; [lia|]. by rewrite Nat.add_succ_l, <-Nat.add_succ_r. }
  assert (Hl : forall m j k (Q : Z -> kstate -> Prop), (k + 4 * j <= n)%nat ->
    Q (at_ base a (k + 4 * j)) (filled v m (k + 4 * j)) ->
    wp (rep_stosl j (v, v, v, v) (at_ base a k)) Q (filled v m k)).
  { intros m j. induction j as [|j IH]; intros k Q' Hj HQ'; cbn [rep_stosl].
    { apply wp_ret. by rewrite Nat.mul_0_r, Nat.add_0_r in HQ'. }
    wp_pure. apply wp_fill_word; [lia|]. change 4 with (Z.of_nat 4).
    rewrite (at_next base len) by (done || lia).
    apply IH; [lia|]. by replace (k + 4 + 4 * j)%nat with (k + 4 * S j)%nat by lia. }
  assert (Ht : forall m fuel k (Q : Z * Z -> kstate -> Prop), (k <= n)%nat ->
    (forall k', (k <= k' <= n)%nat -> Q (at_ base a k', Z.of_nat n - Z.of_nat k') (filled v m k')) ->
    wp (memset_top fuel v (at_ base a k) (Z.of_nat n - Z.of_nat k)) Q (filled v m k)).
  { intros m fuel. induction fuel as [|fuel IH]; intros k Q' Hk HQ'; cbn [memset_top]; [apply wp_ret, HQ'; lia|].
    destruct (Z.eqb_spec (Z.of_nat n - Z.of_nat k) 0); [apply wp_ret, HQ'; lia|].
    destruct (Z.land (at_ base a k) 3 =? 0); [apply wp_ret, HQ'; lia|].
    wp_pure. apply wp_fill_byte; [lia|]. change 1 with (Z.of_nat 1) at 1.
    rewrite (at_next base len), Nat.add_1_r by (done || lia).
    replace (Z.of_nat n - Z.of_nat k - 1) with (Z.of_nat n - Z.of_nat (S k)) by lia.
    apply IH; [lia|]. intros k' Hk'. apply HQ'. lia. }
  assert (E : s = filled v (s_mem s) 0) by (unfold filled; cbn; by rewrite with_mem_self).
  rewrite E at 1. wp_pure. rewrite (u32_small (Z.of_nat n)) by lia.
  replace (u32 (base + a)) with (at_ base a 0) by (unfold at_; f_equal; lia).
  replace (Z.of_nat n) with (Z.of_nat n - Z.of_nat 0) by lia.
  apply Ht; [lia|]. intros k Hk. wp_pure.
  destruct (Z.eqb_spec (Z.of_nat n - Z.of_nat k) 0) as [E0|E0].
  { wp_pures. by replace k with n by lia. }
  rewrite shiftr_2, land_3. set (r := Z.of_nat n - Z.of_nat k) in *.
  assert (Hdm : r = 4 * (r / 4) + r mod 4) by (apply Z.div_mod; lia).
  assert (Hr : 0 <= r mod 4 < 4) by (apply Z.mod_pos_bound; lia).
  assert (Hq : 0 <= r / 4) by (apply Z.div_pos; lia).
  wp_pure. apply Hl; [lia|]. apply Hb'; [lia|]. wp_pure.
  by replace (k + 4 * Z.to_nat (r / 4) + Z.to_nat (r mod 4))%nat with n by lia.
Qed.
End more_moves.

(** ** Properties *)

(** The bytes at [pb], [n] of them, are now at [pa] as well, and nothing else
    has changed. *)
Definition copied (pa pb n : Z) (s s' : kstate) : Prop :=
  exists m, s' = with_mem m s /\ forall x, mem_get m x =
    if decide (pa <= x < pa + n) then u8 (mem_get (s_mem s) (pb + (x - pa))) else mem_get (s_mem s) x.
Definition filled_with (v pa n : Z) (s s' : kstate) : Prop :=
  exists m, s' = with_mem m s /\ forall x, mem_get m x =
    if decide (pa <= x < pa + n) then v else mem_get (s_mem s) x.

Lemma wp_memcpy_copied {P : Platform} s base len p a b n :
  linear s base len p -> 0 <= base -> base + len <= 4294967296 -> len < 4294967296 ->
  0 <= a < len -> 0 <= b < len -> 0 <= n -> a + n <= len -> b + n <= len ->
  a <= b \/ b + n <= a ->
  wp (memcpy (base + a) (base + b) n) (fun r s' => r = base + a /\ copied (p + a) (p + b) n s s') s.
Proof.
  intros L Hbase Htop Hlen Ha Hb Hn Han Hbn Hab.
  replace n with (Z.of_nat (Z.to_nat n)) by lia. set (k := Z.to_nat n).
  assert (Hk : Z.of_nat k = n) by lia. clearbody k.
  eapply wp_memcpy; try exact L; try lia; [rewrite <-Hk in Hab; exact Hab|].
  split; [done|]. eexists. split; [done|]. intros x. apply moved_get.
Qed.

(** C24: the block operations do what their byte-wise definitions say,
    whatever the alignment and the length, with every byte of the rest of
    memory unchanged: [memmove] copies the old contents of the source also
    when the blocks overlap, in both directions; [memcpy] does when the blocks
    are apart or the copy goes down, where the dwords that it moves cannot
    meet bytes it has written; [memset] stores the low byte of its argument. *)
Theorem block_operations {P : Platform} s base len p a b n c :
  linear s base len p -> 0 <= base -> base + len <= 4294967296 -> len < 4294967296 ->
  0 <= a < len -> 0 <= b < len -> 0 <= n -> a + n <= len -> b + n <= len ->
  wp (memmove (base + a) (base + b) n) (fun r s' => r = base + a /\ copied (p + a) (p + b) n s s') s /\
  (a <= b \/ b + n <= a ->
    wp (memcpy (base + a) (base + b) n) (fun r s' => r = base + a /\ copied (p + a) (p + b) n s s') s) /\
  wp (memset (base + a) c n) (fun r s' => r = base + a /\ filled_with (u8 c) (p + a) n s s') s.
Proof.
  intros L Hbase Htop Hlen Ha Hb Hn Han Hbn.
  replace n with (Z.of_nat (Z.to_nat n)) by lia. set (k := Z.to_nat n).
  assert (Hk : Z.of_nat k = n) by lia. clearbody k.
  assert (C : copied (p + a) (p + b) (Z.of_nat k) s (upto s p a b (s_mem s) k)).
  { eexists. split; [done|]. intros x. apply moved_get. }
  split; [|split].
  - eapply wp_memmove; try exact L; try lia. by split.
  - intros Hab. apply (wp_memcpy_copied s base len); try done; lia.
  - apply (wp_memset s base len p L Hbase Htop a b); try lia. split; [done|]. eexists. split; [done|].
    intros x. rewrite put_bytes_get. case_decide as H.
    + rewrite lget_replicate by lia. apply u8_small, u8_range.
    + unfold lget. case_decide; [|done]. by rewrite lookup_ge_None_2 by (rewrite length_replicate; lia).
Qed.

(** Overlapping blocks, with paging off. *)
Lemma block_operations_witness :
  wp (memmove 1003 1001 7) (fun r s' => r = 1003 /\ copied 1003 1001 7 zero_state s') zero_state.
Proof.
  assert (L : linear zero_state 1000 100 1000).
  { split; [reflexivity|]. intros o Ho. unfold phys.
    change (paging_on (s_pag zero_state)) with false. cbv iota. by rewrite u32_small by lia. }
  destruct (block_operations zero_state 1000 100 1000 3 1 7 0 L) as [H _]; [lia..|]. exact H.
Defined.
