(* ===== verification/AsmSpec.v ===== *)
(** * The interrupt wrappers are transparent

    What a program (or an interrupted routine) sees of an interrupt and of a
    system call: its registers come back, the result of a call in [eax]. *)
From S2P Require Import Prelude State Monad Logic Terminal Interrupts Descriptors Syscalls Kernel Demo Asm.

Definition words (c : cpu_t) : Prop :=
  Forall (fun r => 0 <= r < 4294967296)
    [eax c; ecx c; edx c; ebx c; esp c; ebp c; esi c; edi c; cs c; ss c].
(** Every register holds a 32-bit word; no words of the kernel stack are in use
    while a program runs. *)
Record cpu_ok (c : cpu_t) : Prop := {
  ok_words : words c;
  ok_stack : privilege (cs c) = 3 -> kstack c = [];
}.

(** The outcome with the value changed. *)
Definition out_map {A B} (g : A -> B) (o : out A) : out B :=
  match o with Ret a s => Ret (g a) s | Stop w s => Stop w s end.

Lemma flags_word_bit f d : Z.testbit (flags_word f d) 9 = f.
Proof. by destruct f, d. Qed.
Lemma flags_word_df f d : Z.testbit (flags_word f d) 10 = d.
Proof. by destruct f, d. Qed.
Lemma u32_pushed v : u32 (u32 (v - 4) + 4) = u32 v.
Proof. unfold u32. divlia. Qed.
Lemma flags_word_u32 f d : u32 (flags_word f d) = flags_word f d.
Proof. by destruct f, d. Qed.

Lemma u32_below v k j : u32 (u32 (v - k) - j) = u32 (v - (k + j)).
Proof. unfold u32. divlia. Qed.
Lemma u32_popped v :
  u32 (u32 (u32 (u32 (v - 4) - 4) - 4) + 12) = u32 v.
Proof. unfold u32. divlia. Qed.
Lemma u32_idemp v : u32 (u32 v) = u32 v.
Proof. unfold u32. divlia. Qed.
Create Rewrite HintDb words.
#[local] Hint Rewrite u32_pushed u32_popped u32_idemp flags_word_u32 flags_word_bit flags_word_df : words.
#[local] Hint Rewrite u32_small using tauto : words.

(** Computes the registers of a processor given by its fields. *)
Ltac cpu :=
  cbv beta iota zeta delta [set eax_upd ecx_upd edx_upd ebx_upd esp_upd ebp_upd esi_upd edi_upd
    cs_upd ss_upd ds_upd es_upd fs_upd gs_upd df_upd kstack_upd return_val_upd eax ecx edx ebx esp ebp esi
    edi cs ss ds es fs gs df load_df cld kstack return_val pushl pushal popl popal ccall vcall bind ret
    app map seq take drop].

Section spec.
Context {P : Platform} (junk : nat -> Z) (f : M unit).

(** [popal] after [pushal], [cld] and a C routine. *)
Lemma vcall_saved c s :
  words c -> (c <- vcall junk f (cld (pushal c)) ;; popal c) s = out_map (fun _ => cld c) (f s).
Proof.
  intros W. destruct c. unfold words in W. cbn in W. rewrite !Forall_cons in W.
  cpu. destruct (f s) as [[] s'|w s']; [|done]. cbn [out_map].
  by autorewrite with words.
Qed.

(** The registers that a handler starts with. *)
Definition gated (t : tss_t) (fl : bool) (eip : Z) (c : cpu_t) : cpu_t :=
  set cs (fun _ => KERNEL_CS) (pushl eip (pushl (cs c) (pushl (flags_word fl (df c))
    (if privilege (cs c) =? 3 then
       pushl (esp c) (pushl (ss c)
         (set kstack (fun _ => []) (set ss (fun _ => ss0 t) (set esp (fun _ => esp0 t) c))))
     else c)))).

Lemma interrupt_gate_gated eip c s :
  interrupt_gate eip c s =
    Ret (gated (tss (s_hw s)) (eflags_if (s_hw s)) eip c)
      (set s_hw (set eflags_if (fun _ => false)) s).
Proof. done. Qed.

Definition task_ok (t : tss_t) : Prop :=
  0 <= ss0 t < 4294967296 /\ 0 <= esp0 t < 4294967296.

Lemma gated_words t fl eip c : task_ok t -> words c -> words (gated t fl eip c).
Proof.
  intros [Ht1 Ht2] W. destruct c, t. unfold gated, words in *. cbn in W, Ht1, Ht2.
  rewrite !Forall_cons in W. cpu.
  destruct (privilege _ =? 3); rewrite !Forall_cons; split_and!; try tauto; try apply u32_range;
    unfold KERNEL_CS; lia.
Qed.

Lemma iret_gated t fl eip c d s :
  cpu_ok c -> 0 <= eip < 4294967296 ->
  iret (set df (fun _ => d) (gated t fl eip c)) s = Ret (eip, c) (set s_hw (set eflags_if (fun _ => fl)) s).
Proof.
  intros [W Hst] He. unfold gated, iret. destruct (privilege (cs c) =? 3) eqn:Hp.
  - apply Z.eqb_eq in Hp. specialize (Hst Hp). destruct c. unfold words in W.
    cbn in W, Hst, Hp. subst. rewrite !Forall_cons in W. cpu. unfold restore_flags, hw_set, modify.
    autorewrite with words. by rewrite Hp.
  - clear Hst. destruct c. unfold words in W. cbn in W, Hp. rewrite !Forall_cons in W. cpu.
    unfold restore_flags, hw_set, modify. autorewrite with words.
    rewrite Hp. by autorewrite with words.
Qed.

Lemma iret_same t fl eip c s :
  cpu_ok c -> 0 <= eip < 4294967296 ->
  iret (gated t fl eip c) s = Ret (eip, c) (set s_hw (set eflags_if (fun _ => fl)) s).
Proof.
  intros C He. rewrite <-(iret_gated t fl eip c (df c)) by done. reflexivity.
Qed.

(** A wrapper that saves the registers around a routine without arguments. *)
Lemma wrapped (m : cpu_t -> M (Z * cpu_t)) eip c s :
  (forall c s, m c s = (c <- vcall junk f (cld (pushal c)) ;; c <- popal c ;; iret c) s) ->
  cpu_ok c -> 0 <= eip < 4294967296 -> task_ok (tss (s_hw s)) ->
  (c <- interrupt_gate eip c ;; m c) s = out_map (fun _ => (eip, c)) (gate f s).
Proof.
  intros Hm C He Ht. pose proof (vcall_saved (gated (tss (s_hw s)) (eflags_if (s_hw s)) eip c)) as V.
  pose proof (iret_gated (tss (s_hw s)) (eflags_if (s_hw s)) eip c false) as I.
  unfold bind at 1. rewrite interrupt_gate_gated, Hm.
  unfold gate, cli_and_save, bind in *. unfold gets, cli, hw_set, modify, ret in *.
  set (s1 := set s_hw _ s) in *. specialize (V s1 (gated_words _ _ _ _ Ht (ok_words _ C))).
  destruct (vcall _ _ _ s1) as [c2 s2|w s2]; destruct (f s1) as [[] s3|w' s3]; cbn in *; try congruence.
  - rewrite V. by apply I.
  - by rewrite V in *.
Qed.

(** The registers of a program whose call has returned [r]; [rv] is what the
    static of the wrapper holds. *)
Definition call_returned (r rv : Z) (c : cpu_t) : cpu_t :=
  set eax (fun _ => r) (set return_val (fun _ => rv) c).

Lemma gated_returned t fl eip c r rv :
  call_returned r rv (gated t fl eip c) = gated t fl eip (call_returned r rv c).
Proof.
  destruct c. unfold gated, call_returned. cpu. by destruct (privilege _ =? 3).
Qed.

(** The body of the wrapper of the system calls. *)
Lemma call_saved {A} (g : Z -> list Z -> M Z) (k : cpu_t -> M A) c s :
  words c ->
  (let c1 := pushal (set eax (fun a => u32 (a - 1)) c) in
   let c2 := pushl (ebx c1) (pushl (ecx c1) (pushl (edx c1) c1)) in
   c <- ccall junk 3 (g (eax c2)) c2 ;;
   let c := set return_val (fun _ => eax c) c in
   let c := set esp (fun e => u32 (e + 12)) (set kstack (drop 3) c) in
   c <- popal c ;;
   k (set eax (fun _ => return_val c) c)) s =
  match g (u32 (eax c - 1)) [ebx c; ecx c; edx c] s with
  | Ret r s' => k (call_returned (u32 r) (u32 r) c) s'
  | Stop w s' => Stop w s'
  end.
Proof.
  intros W. destruct c. unfold words in W. cbn in W. rewrite !Forall_cons in W.
  unfold call_returned. cpu. rewrite (u32_small ebx), (u32_small ecx), (u32_small edx) by tauto.
  destruct (g _ _ s) as [r s'|w s']; [|done].
  generalize (u32 r). intros v. by autorewrite with words.
Qed.

(** The stack pointer below the eight registers and the flags. *)
Definition below (c : cpu_t) : Z := u32 (esp c - 36).

Lemma tick_saved {A} (k : cpu_t -> M A) fl c s :
  words c ->
  (c1 <- vcall junk f (pushl (flags_word fl (df c)) (pushal c)) ;;
   sc <- gets s_sched ;;
   if last_esp sc =? esp c1 then
     r <- popl (set ebp (fun _ => last_ebp sc) c1) ;; let '(w, c1) := r in
     restore_flags (Z.testbit w 9) ;; let c1 := load_df w c1 in c1 <- popal c1 ;; k c1
   else stop_with (Resume (last_esp sc) (last_ebp sc))) s =
  (f ;; sc <- gets s_sched ;;
   if last_esp sc =? below c then restore_flags fl ;; k c
   else stop_with (Resume (last_esp sc) (last_ebp sc))) s.
Proof.
  intros W. assert (E : forall v, esp (pushl v (pushal c)) = below c).
  { intros v. destruct c. unfold below. cpu. by rewrite !u32_below. }
  unfold vcall, ccall, bind at 1 3. cbn [take].
  unfold bind, ret, gets. destruct (f s) as [[] s'|w s']; [|done]. cbn [seq map app drop].
  cbv beta iota. upd. rewrite E.
  destruct (_ =? _); [|done]. destruct c. unfold words in W. cbn in W. rewrite !Forall_cons in W.
  cpu. unfold restore_flags, hw_set, modify. by autorewrite with words.
Qed.
End spec.

(** ** The four wrappers *)

Section wrappers.
Context {P : Platform} (junk : nat -> Z).

(** The state in which [timer_handler] starts. *)
Definition ticking (e b : Z) (s : kstate) : kstate :=
  set s_sched (set last_esp (fun _ => e)) (set s_sched (set last_ebp (fun _ => b))
    (set s_hw (set eflags_if (fun _ => false)) s)).

Lemma schedule_entry_gate b s :
  gate (schedule_entry b) s =
    match (timer_handler ;; sc <- gets s_sched ;;
           if last_esp sc =? cpu_esp (s_hw s) then restore_flags false
           else stop_with (Resume (last_esp sc) (last_ebp sc))) (ticking (cpu_esp (s_hw s)) b s) with
    | Ret _ s' => Ret tt (set s_hw (set eflags_if (fun _ => eflags_if (s_hw s))) s')
    | Stop w s' => Stop w s'
    end.
Proof. done. Qed.

(** The interrupted base pointer is what the timer's entry saves. *)
Lemma gate_base_pointer (k : Z -> M unit) s :
  gate (gets (fun s => length (pending (s_hw s))) ;; h <- gets s_hw ;; k (cpu_ebp h)) s =
  gate (k (cpu_ebp (s_hw s))) s.
Proof. reflexivity. Qed.
Lemma timer_step s : kernel_step (EvIrq IrqTimer) s = gate (schedule_entry (cpu_ebp (s_hw s))) s.
Proof. exact (gate_base_pointer schedule_entry s). Qed.

Lemma gets_flags {A} (k : bool -> M A) s :
  (f <- gets (fun s => eflags_if (s_hw s)) ;; k f) s = k (eflags_if (s_hw s)) s.
Proof. done. Qed.
Lemma sched_set_twice {A} g h (k : M A) s :
  (sched_set g ;; sched_set h ;; k) s = k (set s_sched h (set s_sched g s)).
Proof. done. Qed.

Lemma schedule_wrapper_ticking c s :
  let s1 := set s_hw (set eflags_if (fun _ => false)) s in
  words c -> schedule_wrapper junk c s1 =
    (timer_handler ;; sc <- gets s_sched ;;
     if last_esp sc =? below c then restore_flags false ;; iret c
     else stop_with (Resume (last_esp sc) (last_ebp sc))) (ticking (below c) (ebp c) s).
Proof.
  intros s1 W. rewrite <-(tick_saved junk timer_handler iret false c _ W).
  assert (E : forall v, esp (pushl v (pushal c)) = below c).
  { intros v. destruct c. unfold below. cpu. by rewrite !u32_below. }
  assert (Eb : forall v, ebp (pushl v (pushal c)) = ebp c) by (intros v; by destruct c).
  unfold ticking. fold s1. rewrite <-(E (flags_word false (df c))), <-(Eb (flags_word false (df c))).
  assert (Hcli : forall k : M (Z * cpu_t), (cli ;; k) s1 = k s1) by (intros; reflexivity).
  unfold schedule_wrapper. rewrite Hcli, gets_flags. change (eflags_if (s_hw s1)) with false.
  by rewrite sched_set_twice.
Qed.

Lemma timer_wrapped eip c s :
  cpu_ok c -> 0 <= eip < 4294967296 -> task_ok (tss (s_hw s)) ->
  cpu_esp (s_hw s) = below (gated (tss (s_hw s)) (eflags_if (s_hw s)) eip c) ->
  (c <- interrupt_gate eip c ;; schedule_wrapper junk c) s =
    out_map (fun _ => (eip, c)) (gate (schedule_entry (ebp c)) s).
Proof.
  intros C He Ht. set (g := gated (tss (s_hw s)) (eflags_if (s_hw s)) eip c). intros Hesp.
  pose proof (gated_words (tss (s_hw s)) (eflags_if (s_hw s)) eip c Ht (ok_words _ C)) as W.
  pose proof (fun s' => iret_same (tss (s_hw s)) (eflags_if (s_hw s)) eip c s' C He) as R.
  assert (Gb : ebp g = ebp c).
  { unfold g, gated, pushl. destruct (privilege _ =? 3); upd; done. }
  unfold bind at 1. rewrite interrupt_gate_gated. fold g in W, R |- *. clearbody g.
  rewrite (schedule_wrapper_ticking g s W), schedule_entry_gate, Hesp, Gb.
  generalize (ticking (below g) (ebp c) s). intros s3.
  unfold bind, gets. destruct (timer_handler s3) as [[] s4|w s4]; [|done].
  destruct (_ =? _); [|done]. unfold restore_flags, hw_set, modify. by rewrite R.
Qed.

Lemma int_0x80_masked (m : M Z) s :
  int_0x80 m s =
    match m (set s_hw (set eflags_if (fun _ => false)) s) with
    | Ret r s' => Ret r (set s_hw (set eflags_if (fun _ => eflags_if (s_hw s))) s')
    | Stop w s' => Stop w s'
    end.
Proof. done. Qed.

Lemma syscall_wrapped eip c s :
  cpu_ok c -> 0 <= eip < 4294967296 -> task_ok (tss (s_hw s)) ->
  (c <- interrupt_gate eip c ;; system_call junk c) s =
    out_map (fun r => (eip, call_returned (u32 r)
        (if (s32 (eax c) <? 1) || (10 <? u32 (eax c)) then return_val c else u32 r) c))
      (Syscalls.system_call on_irq (eax c) (ebx c) (ecx c) (edx c) s).
Proof.
  intros C He Ht. set (g := gated (tss (s_hw s)) (eflags_if (s_hw s)) eip c).
  assert (R : forall r rv s', iret (call_returned (u32 r) rv g) s' =
    Ret (eip, call_returned (u32 r) rv c) (set s_hw (set eflags_if (fun _ => eflags_if (s_hw s))) s')).
  { intros r rv s'. unfold g. rewrite gated_returned. apply iret_same; [|done].
    destruct C as [W Hst]. unfold call_returned. split; [|by upd].
    unfold words in *. upd. rewrite !Forall_cons in *. pose proof (u32_range r). tauto. }
  pose proof (gated_words (tss (s_hw s)) (eflags_if (s_hw s)) eip c Ht (ok_words _ C)) as W. fold g in W.
  assert (G : eax g = eax c /\ ebx g = ebx c /\ ecx g = ecx c /\ edx g = edx c /\ return_val g = return_val c).
  { unfold g, gated, pushl. destruct (privilege _ =? 3); upd; done. }
  destruct G as (Ga & Gb & Gc & Gd & Gr).
  unfold bind at 1. rewrite interrupt_gate_gated. fold g. clearbody g.
  unfold Syscalls.system_call. rewrite int_0x80_masked. set (s1 := set s_hw _ s).
  assert (E : forall (k : M (Z * cpu_t)), (cli ;; k) s1 = k s1) by (intros; reflexivity).
  unfold system_call. rewrite E, Ga.
  destruct (s32 (eax c) <? 1) eqn:E1; [|destruct (10 <? u32 (eax c)) eqn:E2]; cbn [orb].
  - cbn [out_map ret]. by rewrite <-Gr, <-R.
  - cbn [out_map ret]. by rewrite <-Gr, <-R.
  - rewrite (call_saved junk syscalltable iret g s1 W). rewrite Ga, Gb, Gc, Gd. unfold syscalltable.
    replace (u32 (eax c - 1) + 1) with (u32 (eax c)) by (unfold u32, s32 in *; divlia).
    destruct (dispatch _ _ _ _ _ s1) as [r s'|w s']; [|done]. apply R.
Qed.

(** C22: what is interrupted does not notice. Through the gate, the wrapper and
    [iret], from a program or from the kernel, every register, the stack and
    the interrupt and direction flags come back as they were and control goes on
    at the interrupted instruction, when the handler returns; the effect on the
    kernel is the handler's own. A system call gives its result in [eax] and leaves
    the other registers. What the C routines leave in the registers they need
    not save does not matter. *)
Theorem wrappers_transparent eip c s :
  cpu_ok c -> 0 <= eip < 4294967296 -> task_ok (tss (s_hw s)) ->
  (c <- interrupt_gate eip c ;; keyboard_wrapper junk c) s =
    out_map (fun _ => (eip, c)) (gate (handle_keyboard on_irq (exec_shell on_irq)) s) /\
  (c <- interrupt_gate eip c ;; rtc_wrapper junk c) s =
    out_map (fun _ => (eip, c)) (kernel_step (EvIrq IrqRtc) s) /\
  (cpu_esp (s_hw s) = below (gated (tss (s_hw s)) (eflags_if (s_hw s)) eip c) ->
   cpu_ebp (s_hw s) = ebp c ->
   (c <- interrupt_gate eip c ;; schedule_wrapper junk c) s =
    out_map (fun _ => (eip, c)) (kernel_step (EvIrq IrqTimer) s)) /\
  (c <- interrupt_gate eip c ;; system_call junk c) s =
    out_map (fun r => (eip, call_returned (u32 r)
        (if (s32 (eax c) <? 1) || (10 <? u32 (eax c)) then return_val c else u32 r) c))
      (Syscalls.system_call on_irq (eax c) (ebx c) (ecx c) (edx c) s).
Proof.
  intros C He Ht. split; [|split; [|split]].
  - by apply (wrapped junk _ (keyboard_wrapper junk)).
  - rewrite (wrapped junk handle_RTC (rtc_wrapper junk)) by done. done.
  - intros Hesp Hebp. rewrite timer_wrapped by done. rewrite <-Hebp. by rewrite timer_step.
  - by apply syscall_wrapped.
Qed.
End wrappers.

(** A program that calls [close(1)]. *)
Definition demo_cpu : cpu_t :=
  mk_cpu 6 1 2 1 0x83FFF00 0x83FFF20 5 6 USER_CS USER_DS USER_DS USER_DS 0 0 true [] 0.

Lemma wrappers_transparent_witness :
  let s := set s_hw (set eflags_if (fun _ => true)) (files_state []) in
  (c <- interrupt_gate 0x8048123 demo_cpu ;; system_call (fun n => Z.of_nat n) c) s =
    Ret (0x8048123, set eax (fun _ => 4294967295) (set return_val (fun _ => 4294967295) demo_cpu)) s /\
  (c <- interrupt_gate 0x8048123 demo_cpu ;; rtc_wrapper (fun n => Z.of_nat n) c) s =
    out_map (fun _ => (0x8048123, demo_cpu)) (kernel_step (EvIrq IrqRtc) s).
Proof.
  intros s. destruct (wrappers_transparent (fun n => Z.of_nat n) 0x8048123 demo_cpu s)
    as (_ & H1 & _ & H2).
  - split; [|done]. unfold words. repeat constructor; cbn; unfold USER_CS, USER_DS; lia.
  - lia.
  - split; cbn; lia.
  - split; [|exact H1]. rewrite H2. vm_compute. reflexivity.
Defined.
