(* ===== verification/DescriptorSpec.v ===== *)
(** * The descriptor tables: every selector and every vector

    What the processor reads back from the tables that the boot sequence and
    [initialize_IDT] leave. *)
From S2P Require Import Prelude State Monad Logic Pic Screen Terminal TerminalSpec Interrupts Descriptors Kernel Demo Asm AsmSpec.

(** ** Packing *)

Definition fits (f : Z * Z) : Prop := 0 <= f.1 /\ 0 <= f.2 < 2 ^ f.1.

Lemma unpack_pack fs : Forall fits fs -> unpack (map fst fs) (pack fs) = map snd fs.
Proof.
  induction 1 as [|[w v] fs [Hw Hv] _ IH]; [done|]. cbn [fst snd] in *. cbn [map unpack pack fst snd].
  rewrite (Z.mod_small v) by done. assert (0 < 2 ^ w) by lia.
  rewrite (Z.mul_comm (2 ^ w)), Z.mod_add, Z.mod_small, Z.div_add, Z.div_small, Z.add_0_l by lia. by rewrite IH.
Qed.

(** ** What the processor reads *)

Definition seg_of_bits (z : Z) : option seg_desc_t :=
  match unpack [16; 16; 8; 4; 1; 2; 1; 4; 1; 1; 1; 1; 8] z with
  | [l0; b0; b1; t; s_; p; pr; l1; a; r; o; g; b2] =>
      Some (mk_seg_desc l0 b0 b1 t s_ p pr l1 a r o g b2)
  | _ => None
  end.
Definition seg_base (d : seg_desc_t) : Z :=
  base_15_00 d + base_23_16 d * 65536 + base_31_24 d * 16777216.
Definition seg_limit (d : seg_desc_t) : Z :=
  let l := seg_lim_15_00 d + seg_lim_19_16 d * 65536 in
  if granularity d =? 1 then l * 4096 + 4095 else l.

(** The selector [sel] names a present segment with this base, limit, kind (the
    bits [type] and [sys]) and privilege. *)
Definition segment (s : kstate) (sel base limit ty sys dpl : Z) : Prop :=
  exists z d, lget (gdt (s_irq s)) (Z.shiftr sel 3) = Some z /\ seg_of_bits z = Some d /\
    seg_present d = 1 /\ seg_base d = base /\ seg_limit d = limit /\ seg_type d = ty /\
    seg_sys d = sys /\ seg_dpl d = dpl.

(** A vector as the processor reads it: the kind of the gate is in bits 40 to
    44. *)
Record gate_t := mk_gate { g_offset : Z; g_selector : Z; g_kind : Z; g_dpl : Z; g_present : Z }.
Definition gate_of_bits (z : Z) : option gate_t :=
  match unpack [16; 16; 8; 5; 2; 1; 16] z with
  | [o0; sel; _; k; p; pr; o1] => Some (mk_gate (o0 + o1 * 65536) sel k p pr)
  | _ => None
  end.

(** The kinds of the processor's manual. *)
Definition CODE : Z := 10. (* execute and read *)
Definition DATA : Z := 2.  (* read and write *)
Definition LDT : Z := 2.
Definition TSS_BUSY : Z := 11.
Definition INTERRUPT_GATE : Z := 14.

Lemma seg_roundtrip d :
  Forall fits [(16, seg_lim_15_00 d); (16, base_15_00 d); (8, base_23_16 d); (4, seg_type d);
        (1, seg_sys d); (2, seg_dpl d); (1, seg_present d); (4, seg_lim_19_16 d);
        (1, seg_avail d); (1, seg_reserved d); (1, opsize d); (1, granularity d);
        (8, base_31_24 d)] ->
  seg_of_bits (seg_bits d) = Some d.
Proof.
  intros H. apply unpack_pack in H. unfold seg_of_bits, seg_bits. cbn [map fst snd] in H.
  rewrite H. by destruct d.
Qed.

(** The three pieces of an address. *)
Lemma low_word a : Z.land a 0x0000FFFF = a mod 65536.
Proof. change 0x0000FFFF with (Z.ones 16). by rewrite Z.land_ones. Qed.
Lemma third_byte a : Z.shiftr (Z.land a 0x00FF0000) 16 = a / 65536 mod 256.
Proof.
  rewrite Z.shiftr_land. change (Z.shiftr 0x00FF0000 16) with (Z.ones 8).
  by rewrite Z.land_ones, Z.shiftr_div_pow2.
Qed.
Lemma fourth_byte a : Z.shiftr (Z.land a 0xFF000000) 24 = a / 16777216 mod 256.
Proof.
  rewrite Z.shiftr_land. change (Z.shiftr 0xFF000000 24) with (Z.ones 8).
  by rewrite Z.land_ones, Z.shiftr_div_pow2.
Qed.
Lemma high_word a : Z.shiftr (Z.land a 0xFFFF0000) 16 = a / 65536 mod 65536.
Proof.
  rewrite Z.shiftr_land. change (Z.shiftr 0xFFFF0000 16) with (Z.ones 16).
  by rewrite Z.land_ones, Z.shiftr_div_pow2.
Qed.

(** The descriptor of a system segment (the local table, the task) at [addr]. *)
Definition system_segment (ty op addr lim : Z) : seg_desc_t :=
  mk_seg_desc lim (u32 addr mod 65536) (u32 addr / 65536 mod 256) ty 0 0 1 0 0 0 op 0
    (u32 addr / 16777216 mod 256).

Lemma system_segment_read ty op addr lim :
  0 <= ty < 16 -> 0 <= op < 2 -> 0 <= lim < 65536 ->
  let d := system_segment ty op addr lim in
  seg_of_bits (seg_bits d) = Some d /\ seg_base d = u32 addr /\ seg_limit d = lim.
Proof.
  intros Ht Ho Hl d. pose proof (u32_range addr). unfold d, system_segment. split; [|split].
  - apply seg_roundtrip. cbn. rewrite !Forall_cons. unfold fits. cbn. split_and!; try lia;
      try apply Z.mod_pos_bound; try lia. constructor.
  - unfold seg_base. cbn. divlia.
  - unfold seg_limit. cbn. lia.
Qed.

(** [ltr] marks the task as busy. *)
Lemma setbit_clear z n : 0 <= n -> Z.testbit z n = false -> Z.setbit z n = z + 2 ^ n.
Proof.
  intros Hn H. rewrite Z.setbit_spec', Z.add_nocarry_lxor.
  - apply Z.bits_inj'. intros m Hm. rewrite Z.lor_spec, Z.lxor_spec, Z.pow2_bits_eqb by lia.
    destruct (Z.eqb_spec n m) as [<-|]; [by rewrite H|by destruct (Z.testbit z m)].
  - apply Z.bits_inj'. intros m Hm. rewrite Z.land_spec, Z.bits_0, Z.pow2_bits_eqb by lia.
    destruct (Z.eqb_spec n m) as [<-|]; [by rewrite H|by destruct (Z.testbit z m)].
Qed.
Lemma task_busy op addr lim :
  0 <= lim < 65536 ->
  Z.setbit (seg_bits (system_segment 9 op addr lim)) 41 = seg_bits (system_segment TSS_BUSY op addr lim).
Proof.
  intros Hl. pose proof (u32_range addr).
  set (hi := pack [(1, 0); (2, 0); (1, 1); (4, 0); (1, 0); (1, 0); (1, op); (1, 0);
                   (8, u32 addr / 16777216 mod 256)]).
  set (lo := lim + 65536 * (u32 addr mod 65536) + 4294967296 * (u32 addr / 65536 mod 256)).
  assert (E : forall ty, 0 <= ty < 16 ->
    seg_bits (system_segment ty op addr lim) = lo + 1099511627776 * (ty + 16 * hi)).
  { intros ty Ht. unfold seg_bits, system_segment.
    cbn [seg_lim_15_00 base_15_00 base_23_16 seg_type seg_sys seg_dpl seg_present
      seg_lim_19_16 seg_avail seg_reserved opsize granularity base_31_24].
    subst hi lo. cbn [pack]. rewrite (Z.mod_small lim), (Z.mod_small ty), !Z.mod_mod by lia.
    change (2 ^ 16) with 65536. change (2 ^ 8) with 256. change (2 ^ 4) with 16. lia. }
  assert (0 <= lo < 1099511627776) by (unfold lo; divlia). clearbody lo hi.
  rewrite setbit_clear; rewrite ?E by (unfold TSS_BUSY; lia).
  - unfold TSS_BUSY. lia.
  - lia.
  - rewrite Z.testbit_eqb by lia. apply Z.eqb_neq. change (2 ^ 41) with (2 * 1099511627776). divlia.
Qed.

(** What the macros make of a descriptor. *)
Lemma set_params str addr lim :
  0 <= lim < 65536 ->
  SET_LDT_PARAMS str addr lim =
    mk_seg_desc lim (u32 addr mod 65536) (u32 addr / 65536 mod 256) (seg_type str) (seg_sys str)
      (seg_dpl str) (seg_present str) 0 (seg_avail str) (seg_reserved str) (opsize str)
      (granularity str) (u32 addr / 16777216 mod 256).
Proof.
  intros Hl. unfold SET_LDT_PARAMS. rewrite !low_word, third_byte, fourth_byte. destruct str as [f1 f2 f3 ty sy dp pr f4 av re op gr f5].
  cbv beta iota zeta delta [set seg_lim_15_00_upd base_15_00_upd base_23_16_upd seg_lim_19_16_upd
    base_31_24_upd]. cbn [seg_lim_15_00 base_15_00 base_23_16 seg_type seg_sys seg_dpl seg_present
    seg_lim_19_16 seg_avail seg_reserved opsize granularity base_31_24].
  rewrite Z.shiftr_land. change (Z.shiftr 0x000F0000 16) with (Z.ones 4).
  rewrite Z.land_ones, Z.shiftr_div_pow2, (Z.div_small lim) by lia. unfold u16, u8.
  f_equal; try done; try (apply Z.mod_small, Z.mod_pos_bound; lia).
  rewrite Z.mod_mod, Z.mod_small by lia. done.
Qed.

(** What [initialize_IDT] installs at a vector. *)
Fixpoint vector (es : list (Z * Z * handler)) (v : Z) : option (Z * handler) :=
  match es with
  | [] => None
  | (w, d, h) :: es => if w =? v then Some (d, h) else vector es v
  end.

Section tables.
Context {P : Platform}.

Lemma the_ldt_desc_eq : the_ldt_desc = system_segment LDT 1 ldt_address 31.
Proof. unfold the_ldt_desc. by rewrite set_params by done. Qed.
Lemma the_tss_desc_eq : the_tss_desc = system_segment 9 0 tss_address 103.
Proof. unfold the_tss_desc, SET_TSS_PARAMS. by rewrite set_params by done. Qed.

(** *** Gates *)

(** The gate that [initialize_IDT] makes. *)
Lemma gate_read (d h : Z) :
  0 <= d < 4 ->
  gate_of_bits (idt_bits (SET_IDT_ENTRY (create_idt_entry KERNEL_CS d PRESENT_MASK) h)) =
    Some (mk_gate (u32 h) KERNEL_CS INTERRUPT_GATE d 1).
Proof.
  intros Hd. pose proof (u32_range h).
  assert (E : exists r, SET_IDT_ENTRY (create_idt_entry KERNEL_CS d PRESENT_MASK) h =
    mk_idt_desc (u32 h mod 65536) KERNEL_CS r 0 1 1 1 0 d 1 (u32 h / 65536 mod 65536) /\ r = 0).
  { exists 0. split; [|done]. unfold SET_IDT_ENTRY, create_idt_entry. rewrite low_word, high_word.
    replace (Z.land d 3) with d by (change 3 with (Z.ones 2); rewrite Z.land_ones, Z.mod_small; lia). done. }
  destruct E as (r & -> & ->). unfold idt_bits.
  cbn [offset_15_00 seg_selector reserved4 reserved3 reserved2 reserved1 size_bit reserved0 dpl
    present offset_31_16].
  transitivity (gate_of_bits (pack [(16, u32 h mod 65536); (16, KERNEL_CS); (8, 0); (5, 14); (2, d);
    (1, 1); (16, u32 h / 65536 mod 65536)])).
  - f_equal. cbn [pack]. rewrite !Z.mod_mod by lia. change (KERNEL_CS mod 2 ^ 16) with 16.
    generalize (u32 h mod 2 ^ 16) (u32 h / 65536 mod 2 ^ 16) (d mod 2 ^ 2). intros x y z. divlia.
  - unfold gate_of_bits. match goal with |- context [pack ?l] => pose proof (unpack_pack l) as E end.
    cbn [map fst snd] in E. rewrite E.
    + do 2 f_equal. divlia.
    + rewrite !Forall_cons. unfold fits, KERNEL_CS. cbn. split_and!; try lia; try divlia. constructor.
Qed.

(** *** The table *)

Definition the_gate (d : Z) (h : handler) : idt_desc_t :=
  SET_IDT_ENTRY (create_idt_entry KERNEL_CS d PRESENT_MASK) (handler_address h).
Definition installed (es : list (Z * Z * handler)) (t : list idt_desc_t) : list idt_desc_t :=
  foldl (fun t e => <[Z.to_nat e.1.1 := the_gate e.1.2 e.2]> t) t es.

Lemma wp_install_entries es : forall s,
  length (idt (s_irq s)) = 256%nat -> Forall (fun e => 0 <= e.1.1 < 256) es ->
  wp (install_entries es) (fun _ s' => s' = set s_irq (set idt (fun _ => installed es (idt (s_irq s)))) s) s.
Proof.
  induction es as [|[[v d] h] es IH]; intros s Hl Hr.
  - cbn. by destruct s as [? ? ? ? ? ? ? []].
  - apply Forall_cons in Hr as [Hv Hr]. cbn [install_entries]. unfold put_idt. wp_pures.
    apply wp_aset; [cbn in Hv; lia|]. unfold irq_set. wp_pures.
    eapply wp_mono; [apply IH; [|done]|].
    + upd. by rewrite length_insert.
    + cbv beta. intros _ s' ->. upd. done.
Qed.

Lemma installed_lookup es : forall t v,
  NoDup (map (fun e => e.1.1) es) -> Forall (fun e => 0 <= e.1.1 < Z.of_nat (length t)) es ->
  0 <= v < Z.of_nat (length t) ->
  lget (installed es t) v =
    match vector es v with Some (d, h) => Some (the_gate d h) | None => lget t v end.
Proof.
  induction es as [|[[w d] h] es IH]; intros t v Hn Hr Hv; [done|].
  cbn [map] in Hn. apply NoDup_cons in Hn as [Hni Hn]. apply Forall_cons in Hr as [Hw Hr].
  cbn [fst snd] in *. cbn [vector].
  change (installed ((w, d, h) :: es) t) with (installed es (<[Z.to_nat w := the_gate d h]> t)).
  rewrite IH by (rewrite ?length_insert; done).
  rewrite lget_insert by done. destruct (Z.eqb_spec w v) as [->|Hne].
  - rewrite decide_True by done. destruct (vector es v) as [[d' h']|] eqn:E; [|done].
    exfalso. apply Hni. clear -E. induction es as [|[[w d0] h0] es IH]; [done|].
    cbn [vector] in E. cbn [map fst]. destruct (Z.eqb_spec w v) as [->|]; [left|right; by apply IH].
  - by rewrite decide_False.
Qed.

Lemma wp_assoc (a b c : M unit) Q s : wp ((a ;; b) ;; c) Q s -> wp (a ;; b ;; c) Q s.
Proof. unfold wp, bind. by destruct (a s). Qed.

(** The vectors that a program can call. *)
Definition callable (v : Z) : Prop := v = 0x20 \/ v = 0x21 \/ v = 0x28 \/ v = 0x80.

Lemma vector_privilege v : 0 <= v < 256 ->
  match vector idt_entries v with
  | Some (p, _) => 0 <= p < 4 /\ (p = 3 <-> callable v)
  | None => ~ callable v
  end.
Proof.
  intros Hv. unfold callable. cbn [vector idt_entries].
  repeat (match goal with |- context [?w =? v] => destruct (Z.eqb_spec w v) as [<-|?] end;
    [unfold DPL_KERNEL, DPL_USER; lia|]). lia.
Qed.

(** *** The global table *)

Lemma flat_segments s t u :
  gdt (s_irq s) = take 6 gdt_init ++ [t; u] ->
  segment s KERNEL_CS 0 0xFFFFFFFF CODE 1 0 /\ segment s KERNEL_DS 0 0xFFFFFFFF DATA 1 0 /\
  segment s USER_CS 0 0xFFFFFFFF CODE 1 3 /\ segment s USER_DS 0 0xFFFFFFFF DATA 1 3.
Proof.
  unfold segment. intros ->.
  split_and!; eexists _, _; (split; [reflexivity|]); (split; [reflexivity|]); done.
Qed.

Lemma system_segments s :
  gdt (s_irq s) = take 6 gdt_init ++ [seg_bits (system_segment TSS_BUSY 0 tss_address 103);
                                      seg_bits (system_segment LDT 1 ldt_address 31)] ->
  segment s KERNEL_LDT (u32 ldt_address) 31 LDT 0 0 /\
  segment s KERNEL_TSS (u32 tss_address) 103 TSS_BUSY 0 0.
Proof.
  unfold segment. intros ->. split.
  - destruct (system_segment_read LDT 1 ldt_address 31) as (H1 & H2 & H3); [unfold LDT; lia..|].
    eexists _, _. split; [reflexivity|]. split; [exact H1|]. done.
  - destruct (system_segment_read TSS_BUSY 0 tss_address 103) as (H1 & H2 & H3); [unfold TSS_BUSY; lia..|].
    eexists _, _. split; [reflexivity|]. split; [exact H1|]. done.
Qed.

(** The state after the two blocks of [entry]. *)
Lemma wp_construct s :
  gdt (s_irq s) = gdt_init ->
  wp (construct_ldt ;; construct_tss) (fun _ s' =>
    gdt (s_irq s') = take 6 gdt_init ++ [seg_bits (system_segment TSS_BUSY 0 tss_address 103);
                                         seg_bits (system_segment LDT 1 ldt_address 31)] /\
    ldtr (s_irq s') = KERNEL_LDT /\ task_register (s_irq s') = KERNEL_TSS /\
    tss (s_hw s') = mk_tss 0x800000 KERNEL_DS KERNEL_LDT /\ idt (s_irq s') = idt (s_irq s)) s.
Proof.
  intros Hg. unfold construct_ldt, construct_tss, put_gdt, lldt, ltr, set_tss, hw_set, irq_set.
  rewrite the_ldt_desc_eq, the_tss_desc_eq. wp_pures. rewrite Hg.
  apply wp_aset; [rewrite ?length_insert; cbn; lia|]. wp_pures. upd.
  apply wp_aset; [rewrite ?length_insert; cbn; lia|]. wp_pures. upd.
  change (Z.shiftr KERNEL_TSS 3) with 6. apply wp_aget; [rewrite ?length_insert; cbn; lia|]. intros z Hz.
  injection Hz as <-. wp_pures. upd.
  rewrite task_busy by lia. cbv beta. upd. by split_and!.
Qed.

Lemma wp_initialize_IDT s :
  idt (s_irq s) = replicate 256 zero_idt ->
  wp initialize_IDT (fun _ s' =>
    idt (s_irq s') = installed idt_entries (replicate 256 zero_idt) /\ idt_loaded (s_irq s') = true /\
    gdt (s_irq s') = gdt (s_irq s) /\ ldtr (s_irq s') = ldtr (s_irq s) /\
    task_register (s_irq s') = task_register (s_irq s) /\ tss (s_hw s') = tss (s_hw s)) s.
Proof.
  intros Hi. unfold initialize_IDT.
  wp_pure. eapply wp_quiet; [unfold i8259_init; auto 20 with kernel|]. intros _ s1 [D1 _ _ _].
  wp_pure. eapply wp_quiet; [apply quietly_outb|]. intros _ s2 [D2 _ _ _].
  wp_pure. eapply wp_quiet; [apply quietly_outb|]. intros _ s3 [D3 _ _ _].
  assert (D : draws s s3) by (transitivity s1; [done|by transitivity s2]). clear D1 D2 D3.
  assert (Ei : s_irq s3 = s_irq s) by apply D.
  wp_pure. eapply wp_mono; [apply wp_install_entries|].
  { by rewrite Ei, Hi. }
  { apply (bool_decide_unpack _). vm_compute. exact I. }
  cbv beta. intros _ s4 ->. unfold irq_set. wp_pures.
  eapply wp_quiet; [unfold cursor_disable; auto 20 with kernel|]. intros _ s5 [D5 _ _ _].
  wp_pure. eapply wp_quiet; [unfold cursor_enable, cursor_enable_spec; auto 20 with kernel|]. intros _ s6 [D6 _ _ _].
  eapply wp_quiet; [apply quietly_cursor_update|]. intros _ s7 [D7 _ _ _].
  rewrite (draws_irq _ _ D7), (draws_irq _ _ D6), (draws_irq _ _ D5).
  rewrite (draws_tss _ _ D7), (draws_tss _ _ D6), (draws_tss _ _ D5).
  upd. rewrite Ei, Hi, (draws_tss _ _ D). done.
Qed.

(** C23: selectors and vectors. After [entry] has set up the descriptor tables,
    in the table of x86_desc.S, the selectors of the kernel and of user programs name flat
    segments of the right kind with the privilege in their low bits; the
    selectors loaded in the local table and the task register name a local
    table and a busy task at the addresses of [ldt] and [tss] with the limits
    of these objects, and the task has a kernel stack. Every vector that
    [initialize_IDT] lists is a present interrupt gate to its handler in the
    kernel's code segment, every other vector is not present, and a program can
    call exactly the vectors 0x20, 0x21, 0x28 and 0x80. *)
Theorem descriptors_typed s :
  gdt (s_irq s) = gdt_init -> idt (s_irq s) = replicate 256 zero_idt ->
  wp (construct_ldt ;; construct_tss ;; initialize_IDT) (fun _ s' =>
    (segment s' KERNEL_CS 0 0xFFFFFFFF CODE 1 (privilege KERNEL_CS) /\
     segment s' KERNEL_DS 0 0xFFFFFFFF DATA 1 (privilege KERNEL_DS) /\
     segment s' USER_CS 0 0xFFFFFFFF CODE 1 (privilege USER_CS) /\
     segment s' USER_DS 0 0xFFFFFFFF DATA 1 (privilege USER_DS)) /\
    (segment s' (ldtr (s_irq s')) (u32 ldt_address) 31 LDT 0 0 /\
     segment s' (task_register (s_irq s')) (u32 tss_address) 103 TSS_BUSY 0 0 /\
     tss (s_hw s') = mk_tss 0x800000 KERNEL_DS KERNEL_LDT) /\
    idt_loaded (s_irq s') = true /\
    forall v, 0 <= v < NUM_VEC ->
      exists d g, lget (idt (s_irq s')) v = Some d /\ gate_of_bits (idt_bits d) = Some g /\
        match vector idt_entries v with
        | Some (p, h) => g = mk_gate (u32 (handler_address h)) KERNEL_CS INTERRUPT_GATE p 1
        | None => g_present g = 0
        end /\
        (g_present g = 1 /\ g_dpl g = 3 <-> callable v)) s.
Proof.
  intros Hg Hi.
  apply wp_assoc, wp_bind. eapply wp_mono; [by apply wp_construct|]. cbv beta.
  intros _ s1 (G1 & L1 & T1 & K1 & I1). eapply wp_mono; [apply wp_initialize_IDT; by rewrite I1|].
  cbv beta. intros _ s2 (I2 & Hl & G2 & L2 & T2 & K2). rewrite G1 in G2. rewrite L1 in L2. rewrite T1 in T2.
  split; [by eapply flat_segments|].
  split; [rewrite L2, T2, K2, K1; by destruct (system_segments s2 G2)|]. split; [done|].
  intros v Hv. rewrite I2, installed_lookup; [|by apply (bool_decide_unpack _); vm_compute| |].
  2: { rewrite length_replicate. apply (bool_decide_unpack _). vm_compute. exact I. }
  2: { by rewrite length_replicate. }
  pose proof (vector_privilege v Hv) as Hp. destruct (vector idt_entries v) as [[p h]|].
  - eexists _, _. split; [done|]. split; [apply gate_read; apply Hp|]. split; [done|]. cbn. tauto.
  - eexists zero_idt, _. split; [|split; [reflexivity|split; [reflexivity|by split; [intros [[=] _]|]]]].
    unfold lget. rewrite decide_True by lia. apply lookup_replicate. split; [done|]. unfold NUM_VEC in Hv. lia.
Qed.

Lemma cx_selector c : u16 (ecx (set ecx (fun v => Z.lor (Z.land v 0xFFFF0000) KERNEL_DS) c)) = KERNEL_DS.
Proof.
  upd. unfold u16. change 65536 with (2 ^ 16). rewrite <-Z.land_ones, Z.land_lor_distr_l by lia.
  rewrite <-Z.land_assoc. change (Z.land 0xFFFF0000 (Z.ones 16)) with 0. by rewrite Z.land_0_r.
Qed.
Lemma load_present {A} sel (k : M A) s :
  gdt (s_irq s) = gdt_init -> sel = KERNEL_CS \/ sel = KERNEL_DS -> (load_selector sel ;; k) s = k s.
Proof. intros Hg [-> | ->]; unfold load_selector, bind, gets; by rewrite Hg. Qed.

(** C35: boot.S. With the table of x86_desc.S every selector it loads is present,
    and the C entry point is called on an empty stack with the two words of the
    boot loader in its order; when it returns the processor halts. *)
Theorem start_calls_entry junk mbi_at c s :
  gdt (s_irq s) = gdt_init -> 0 <= eax c < 4294967296 -> 0 <= ebx c < 4294967296 ->
  start junk mbi_at c s =
    match entry (eax c) (mbi_at (ebx c)) (set s_hw (set eflags_if (fun _ => false)) s) with
    | Monad.Ret _ s' => Stop Hang s'
    | Stop w s' => Stop w s'
    end.
Proof.
  intros Hg Ha Hb. unfold start.
  set (c1 := set ecx _ _). assert (E : u16 (ecx c1) = KERNEL_DS) by apply cx_selector. rewrite E.
  set (c2 := set gs _ _).
  assert (Ea : eax c2 = eax c) by (unfold c2, c1; by upd).
  assert (Eb : ebx c2 = ebx c) by (unfold c2, c1; by upd).
  assert (Ek : kstack c2 = []) by (unfold c2, c1; by upd).
  clearbody c1 c2. set (s1 := set s_hw _ s).
  assert (Hc : forall k : M unit, (cli ;; k) s = k s1) by (intros; reflexivity). rewrite Hc.
  assert (G : gdt (s_irq s1) = gdt_init) by done. clearbody s1.
  rewrite load_present by (done || by left). rewrite !load_present by (done || by right).
  unfold ccall, bind, pushl. upd. rewrite Ea, Eb, Ek. cbn [take].
  rewrite !u32_small by done. by destruct (entry _ _ s1) as [[] s'|w s'].
Qed.
End tables.

(** The tables of the image. *)
Lemma descriptors_typed_witness :
  wp (construct_ldt ;; construct_tss ;; initialize_IDT) (fun _ s' =>
    segment s' USER_CS 0 0xFFFFFFFF CODE 1 3 /\
    exists d g, lget (idt (s_irq s')) 0x80 = Some d /\ gate_of_bits (idt_bits d) = Some g /\
      g = mk_gate 0x400100 KERNEL_CS INTERRUPT_GATE 3 1) zero_state.
Proof.
  eapply wp_mono; [by apply descriptors_typed|]. cbv beta.
  intros _ s' ((_ & _ & H & _) & _ & _ & G). split; [exact H|].
  destruct (G 0x80) as (d & g & G1 & G2 & G3 & _); [unfold NUM_VEC; lia|]. by exists d, g.
Defined.

(** A boot without the loader's magic number: [entry] returns, the processor
    halts. *)
Lemma start_calls_entry_witness :
  why (start (fun _ => 0) (fun _ => demo_mbi) demo_cpu zero_state) = Some Hang.
Proof.
  rewrite start_calls_entry; [vm_compute; reflexivity|reflexivity|cbn; lia|cbn; lia].
Defined.
