(* ===== verification/Invariant.v ===== *)
(** * The invariant of the kernel's state

    The shape of every table and the range of the variables that index them:
    no operation of the kernel changes the length of an array, and every
    terminal number, memory byte, page entry, mask and modifier stays in its
    range, whatever the interrupts, calls and exceptions. *)
From S2P Require Import Prelude State Monad Logic Strings Screen Pic Mem Proc Fs Rtc Terminal Keyboard Interrupts Syscalls Exceptions Kernel Demo.

(** ** Shapes *)

(** [n] rows of [k] cells. *)
Definition grid {A} (n k : nat) (l : list (list A)) : Prop :=
  length l = n /\ Forall (fun r => length r = k) l.

Lemma lset_Forall {A} (Q : A -> Prop) l i v l' :
  lset l i v = Some l' -> Forall Q l -> Q v -> Forall Q l'.
Proof. unfold lset. case_decide; [|done]. intros [= <-]. apply Forall_insert. Qed.
Lemma lget_Forall {A} (Q : A -> Prop) l i v : lget l i = Some v -> Forall Q l -> Q v.
Proof.
  unfold lget. case_decide; [|done]. intros Hv Hl. by eapply Forall_lookup_1.
Qed.
Lemma lset_grid {A} n k (l : list (list A)) i r l' :
  lset l i r = Some l' -> grid n k l -> length r = k -> grid n k l'.
Proof.
  intros E [H1 H2] Hr. split; [by rewrite (lset_length _ _ _ _ E)|by eapply lset_Forall].
Qed.
Lemma lset2_grid {A} n k (l : list (list A)) i j v l' :
  lset2 l i j v = Some l' -> grid n k l -> grid n k l'.
Proof.
  unfold lset2. destruct (lget l i) as [r|] eqn:Hr; [|done]. cbn.
  destruct (lset r j v) as [r'|] eqn:Hr'; [|done]. cbn. intros E G.
  eapply lset_grid; [exact E|done|]. rewrite (lset_length _ _ _ _ Hr').
  by apply (lget_Forall (fun r => length r = k) l i), G.
Qed.

Definition pcb_ok (b : pcb_t) : Prop := length (fd_table b) = 8%nat /\ length (pcb_args b) = 1024%nat.
Definition byte (v : Z) : Prop := 0 <= v < 256.
Definition word (v : Z) : Prop := 0 <= v < 4294967296.
Definition bit (v : Z) : Prop := v = 0 \/ v = 1.

(** ** The invariant, component by component *)

Record proc_wf (p : proc_t) : Prop := {
  po_blocks : length (control_blocks p) = 7%nat;
  po_each : Forall pcb_ok (control_blocks p);
}.
Record pag_wf (p : pag_t) : Prop := {
  pg_pages : length (process_pages p) = 1024%nat /\ Forall word (process_pages p);
  pg_tables : length (process_tables p) = 1024%nat /\ Forall word (process_tables p);
}.
Record sched_wf (c : sched_t) : Prop := {
  sd_shell : length (shell_pid c) = 3%nat;
  sd_top : length (schedule_top c) = 3%nat;
  sd_stack : grid 3 7 (schedule_stack c);
  sd_tss : grid 3 7 (schedule_tss c);
  sd_esp : grid 3 7 (schedule_esp c);
  sd_ebp : grid 3 7 (schedule_ebp c);
  sd_info : length (schedule_info_arr c) = 3%nat;
  sd_current : 0 <= current_process c < 3;
  sd_request : -1 <= terminal_request c < 3;
}.
Record term_wf (t : term_t) : Prop := {
  to_switch : length (return_switch t) = 3%nat;
  to_read : grid 3 128 (read_buffer t);
  to_arr : length (switch_data_arr t) = 3%nat /\ Forall (fun d => length (vid_data d) = 4000%nat) (switch_data_arr t);
  to_running : length (terminal_running t) = 3%nat;
  to_current : 0 <= current_terminal t < 3;
}.
Record kbd_wf (k : kbd_t) : Prop := {
  ko_mods : bit (shift_down k) /\ bit (caps_lock k) /\ bit (ctrl_down k) /\ bit (alt_down k);
  ko_buffer : grid 3 128 (buffer k);
  ko_idx : length (bufferIDX k) = 3%nat /\ Forall byte (bufferIDX k);
  ko_size : length (bufferSIZE k) = 3%nat /\ Forall byte (bufferSIZE k);
  ko_history : length (history k) = 7%nat /\ Forall (grid 20 128) (history k);
  ko_hidx : length (historyIDX k) = 7%nat;
  ko_hbase : length (historyBASE k) = 7%nat;
  ko_hsize : length (historySIZE k) = 7%nat;
}.
Record rtc_wf (r : rtc_t) : Prop := {
  ro_running : length (rtc_running r) = 3%nat;
  ro_virtual : length (rtc_virtual_interupt r) = 3%nat;
}.
Record irq_wf (i : irq_t) : Prop := {
  io_idt : length (idt i) = 256%nat;
  io_gdt : length (gdt i) = 8%nat;
  io_masks : byte (master_mask i) /\ byte (slave_mask i);
}.
Definition mem_wf (m : gmap Z Z) : Prop := forall pa v, m !! pa = Some v -> byte v.

Record well_formed (s : kstate) : Prop := {
  wf_proc : proc_wf (s_proc s);
  wf_pag : pag_wf (s_pag s);
  wf_sched : sched_wf (s_sched s);
  wf_term : term_wf (s_term s);
  wf_kbd : kbd_wf (s_kbd s);
  wf_rtc : rtc_wf (s_rtc s);
  wf_irq : irq_wf (s_irq s);
  wf_mem : mem_wf (s_mem s);
}.

(** ** Routines that keep it *)

Definition keeps {A} (m : M A) (Q : A -> Prop) : Prop :=
  forall s, well_formed s ->
    match m s with Ret a s' => well_formed s' /\ Q a | Stop _ s' => well_formed s' end.
Notation kept m := (keeps m (fun _ => True)).

Section rules.
Context {A B : Type}.

Lemma keeps_bind (m : M A) (k : A -> M B) (R : A -> Prop) Q :
  keeps m R -> (forall a, R a -> keeps (k a) Q) -> keeps (bind m k) Q.
Proof.
  intros Hm Hk s Hs. specialize (Hm s Hs). unfold bind. destruct (m s) as [a s'|w s']; [|done].
  destruct Hm as [Hs' Ha]. exact (Hk a Ha s' Hs').
Qed.
Lemma keeps_weaken (m : M A) (Q R : A -> Prop) : keeps m Q -> (forall a, Q a -> R a) -> keeps m R.
Proof. intros H HQ s Hs. specialize (H s Hs). destruct (m s); [|done]. split; [apply H|apply HQ, H]. Qed.
Lemma keeps_ret (a : A) (Q : A -> Prop) : Q a -> keeps (ret a) Q.
Proof. intros HQ s Hs. by split. Qed.
Lemma keeps_stop w (Q : A -> Prop) : keeps (stop_with w) Q.
Proof. intros s Hs. exact Hs. Qed.
Lemma keeps_gets (f : kstate -> A) (Q : A -> Prop) :
  (forall s, well_formed s -> Q (f s)) -> keeps (gets f) Q.
Proof. intros HQ s Hs. split; [done|by apply HQ]. Qed.
Lemma keeps_of_opt e (o : option A) (Q : A -> Prop) :
  (forall a, o = Some a -> Q a) -> keeps (of_opt e o) Q.
Proof. intros HQ s Hs. destruct o as [a|]; [split; [done|by apply HQ]|done]. Qed.
End rules.

Lemma keeps_modify f : (forall s, well_formed s -> well_formed (f s)) -> kept (modify f).
Proof. intros Hf s Hs. split; [by apply Hf|done]. Qed.

Lemma keeps_for_step n d body : forall a, (forall i, kept (body i)) -> kept (for_step n a d body).
Proof.
  induction n as [|n IH]; intros a H; cbn [for_step]; [by apply keeps_ret|].
  eapply keeps_bind; [apply H|]. intros _ _. by apply IH.
Qed.
Lemma keeps_for_up a b body : (forall i, kept (body i)) -> kept (for_up a b body).
Proof. intros. by apply keeps_for_step. Qed.
Lemma keeps_when b m : kept m -> kept (when b m).
Proof. intros H. destruct b; [done|by apply keeps_ret]. Qed.
Lemma keeps_aset {A} (l : list A) i v (Q : list A -> Prop) :
  (forall l', lset l i v = Some l' -> Q l') -> keeps (aset l i v) Q.
Proof. apply keeps_of_opt. Qed.
Lemma keeps_aset2 {A} (l : list (list A)) i j v (Q : list (list A) -> Prop) :
  (forall l', lset2 l i j v = Some l' -> Q l') -> keeps (aset2 l i j v) Q.
Proof. apply keeps_of_opt. Qed.

Create HintDb keeps.
#[export] Hint Constants Opaque : keeps.

(** Goes through a routine; a call is answered by its lemma. *)
Ltac keep_step :=
  lazymatch goal with
  | |- keeps (bind _ _) _ =>
      eapply keeps_bind;
        [first [solve [eauto 2 with keeps] | apply keeps_weaken with (Q := fun _ => True); [|exact (fun _ H => H)]]
        |intros ? _]
  | |- keeps (ret _) _ => apply keeps_ret; exact I
  | |- keeps (gets _) _ => apply keeps_gets; intros; exact I
  | |- keeps (of_opt _ _) _ => apply keeps_of_opt; intros; exact I
  | |- keeps (aget _ _) _ => apply keeps_of_opt; intros; exact I
  | |- keeps (aget2 _ _ _) _ => apply keeps_of_opt; intros; exact I
  | |- keeps (stop_with _) _ => apply keeps_stop
  | |- keeps (when _ _) _ => apply keeps_when
  | |- keeps (for_up _ _ _) _ => apply keeps_for_up; intros ?
  | |- keeps (for_step _ _ _ _) _ => apply keeps_for_step; intros ?
  | |- keeps (let _ := _ in _) _ => cbv zeta
  | |- forall _, _ => intros ?
  end.
Ltac keep_branch :=
  lazymatch goal with
  | |- keeps (if ?b then _ else _) _ => destruct b
  | |- keeps (match ?x with _ => _ end) _ => destruct x
  end.
Ltac keep := repeat first [keep_branch | solve [eauto 2 with keeps] | keep_step].

(** ** Components that change alone *)

Section components.
Context {P : Platform}.

Lemma keeps_hw f : kept (hw_set f).
Proof. apply keeps_modify. intros s []. by constructor. Qed.
Lemma keeps_scr f : kept (scr_set f).
Proof. apply keeps_modify. intros s []. by constructor. Qed.
Lemma keeps_fs f : kept (modify (set s_fs f)).
Proof. apply keeps_modify. intros s []. by constructor. Qed.
Lemma keeps_proc f : (forall p, proc_wf p -> proc_wf (f p)) -> kept (proc_set f).
Proof. intros Hf. apply keeps_modify. intros s []. constructor; try done. by apply Hf. Qed.
Lemma keeps_pag f : (forall p, pag_wf p -> pag_wf (f p)) -> kept (pag_set f).
Proof. intros Hf. apply keeps_modify. intros s []. constructor; try done. by apply Hf. Qed.
Lemma keeps_sched f : (forall c, sched_wf c -> sched_wf (f c)) -> kept (sched_set f).
Proof. intros Hf. apply keeps_modify. intros s []. constructor; try done. by apply Hf. Qed.
Lemma keeps_term f : (forall t, term_wf t -> term_wf (f t)) -> kept (term_set f).
Proof. intros Hf. apply keeps_modify. intros s []. constructor; try done. by apply Hf. Qed.
Lemma keeps_kbd f : (forall k, kbd_wf k -> kbd_wf (f k)) -> kept (kbd_set f).
Proof. intros Hf. apply keeps_modify. intros s []. constructor; try done. by apply Hf. Qed.
Lemma keeps_rtc f : (forall r, rtc_wf r -> rtc_wf (f r)) -> kept (rtc_set f).
Proof. intros Hf. apply keeps_modify. intros s []. constructor; try done. by apply Hf. Qed.
Lemma keeps_irq f : (forall i, irq_wf i -> irq_wf (f i)) -> kept (irq_set f).
Proof. intros Hf. apply keeps_modify. intros s []. constructor; try done. by apply Hf. Qed.

(** Fields the invariant says nothing of. *)
Lemma keeps_num_active f : kept (proc_set (set num_active_processes f)).
Proof. apply keeps_proc. intros p []. by constructor. Qed.
Lemma keeps_current_pid f : kept (proc_set (set current_pid f)).
Proof. apply keeps_proc. intros p []. by constructor. Qed.
Lemma keeps_past_pid f : kept (proc_set (set past_pid f)).
Proof. apply keeps_proc. intros p []. by constructor. Qed.
Lemma keeps_optables f : kept (proc_set (set optables f)).
Proof. apply keeps_proc. intros p []. by constructor. Qed.
Lemma keeps_tlb f : kept (pag_set (set tlb_stale f)).
Proof. apply keeps_pag. intros p []. by constructor. Qed.
Lemma keeps_paging_on f : kept (pag_set (set paging_on f)).
Proof. apply keeps_pag. intros p []. by constructor. Qed.
Lemma keeps_last_esp f : kept (sched_set (set last_esp f)).
Proof. apply keeps_sched. intros p []. by constructor. Qed.
Lemma keeps_last_ebp f : kept (sched_set (set last_ebp f)).
Proof. apply keeps_sched. intros p []. by constructor. Qed.
Lemma keeps_sanity f : kept (sched_set (set sanity_check f)).
Proof. apply keeps_sched. intros p []. by constructor. Qed.
Lemma keeps_tick f : kept (sched_set (set schedule_tick f)).
Proof. apply keeps_sched. intros p []. by constructor. Qed.
Lemma keeps_timer_ticks f : kept (sched_set (set timer_ticks f)).
Proof. apply keeps_sched. intros p []. by constructor. Qed.
Lemma keeps_strand f : kept (sched_set (set strand_type_lock f)).
Proof. apply keeps_sched. intros p []. by constructor. Qed.
Lemma keeps_key_flag f : kept (kbd_set (set key_flag f)).
Proof. apply keeps_kbd. intros p []. by constructor. Qed.
Lemma keeps_color_flag f : kept (irq_set (set color_flag f)).
Proof. apply keeps_irq. intros p []. by constructor. Qed.
Lemma keeps_idt_loaded f : kept (irq_set (set idt_loaded f)).
Proof. apply keeps_irq. intros p []. by constructor. Qed.

(** The indices stay in range. *)
Lemma keeps_current_process v : 0 <= v < 3 -> kept (sched_set (set current_process (fun _ => v))).
Proof. intros Hv. apply keeps_sched. intros p []. by constructor. Qed.
Lemma keeps_request v : -1 <= v < 3 -> kept (sched_set (set terminal_request (fun _ => v))).
Proof. intros Hv. apply keeps_sched. intros p []. by constructor. Qed.
Lemma keeps_current_terminal v : 0 <= v < 3 -> kept (term_set (set current_terminal (fun _ => v))).
Proof. intros Hv. apply keeps_term. intros p []. by constructor. Qed.
End components.
#[export] Hint Resolve keeps_hw keeps_scr keeps_fs keeps_num_active keeps_current_pid
  keeps_past_pid keeps_optables keeps_tlb keeps_paging_on keeps_last_esp keeps_last_ebp
  keeps_sanity keeps_tick keeps_timer_ticks keeps_strand keeps_key_flag keeps_color_flag
  keeps_idt_loaded : keeps.

(** ** The processor, memory, the screen *)

Section leaves.
Context {P : Platform}.

Lemma keeps_cli : kept cli.
Proof. apply keeps_hw. Qed.
Lemma keeps_sti : kept sti.
Proof. apply keeps_hw. Qed.
Lemma keeps_cli_and_save : kept cli_and_save.
Proof. unfold cli_and_save, cli. keep. Qed.
Lemma keeps_restore_flags b : kept (restore_flags b).
Proof. apply keeps_hw. Qed.
Lemma keeps_outb v port : kept (outb v port).
Proof. apply keeps_hw. Qed.
Lemma keeps_inb port : kept (inb port).
Proof. unfold inb. keep. Qed.
Hint Resolve keeps_cli keeps_sti keeps_cli_and_save keeps_restore_flags keeps_outb keeps_inb : keeps.

Lemma keeps_spin on_irq cond n : (forall ev, kept (on_irq ev)) -> kept (spin n cond on_irq).
Proof. intros H. induction n as [|n IH]; cbn [spin]; keep. Qed.
Lemma keeps_spin_while on_irq cond : (forall ev, kept (on_irq ev)) -> kept (spin_while cond on_irq).
Proof. intros H. unfold spin_while. keep. by apply keeps_spin. Qed.

Lemma keeps_mmu va : kept (mmu va).
Proof. unfold mmu. keep. Qed.
Hint Resolve keeps_mmu : keeps.
Lemma mem_get_ok s pa : well_formed s -> byte (mem_get (s_mem s) pa).
Proof.
  intros H. unfold mem_get. destruct (s_mem s !! pa) as [v|] eqn:E; [by eapply H|unfold byte; cbn; lia].
Qed.
Lemma keeps_load8 va : keeps (load8 va) byte.
Proof.
  unfold load8. eapply keeps_bind; [apply keeps_mmu|]. intros pa _.
  apply keeps_gets. intros s. apply mem_get_ok.
Qed.
Lemma keeps_store8 va v : kept (store8 va v).
Proof.
  unfold store8. eapply keeps_bind; [apply keeps_mmu|]. intros pa _.
  apply keeps_modify. intros s []. constructor; try done. cbn. intros pa' v'.
  destruct (decide (pa = pa')) as [->|Hne].
  - rewrite lookup_insert_eq. intros [= <-]. apply u8_range.
  - rewrite lookup_insert_ne by done. by apply wf_mem0.
Qed.
Hint Resolve keeps_load8 keeps_store8 : keeps.
Lemma keeps_load8' va : kept (load8 va).
Proof. eapply keeps_weaken; [apply keeps_load8|done]. Qed.
Hint Resolve keeps_load8' : keeps.
Lemma keeps_store_bytes bs : forall va, kept (store_bytes va bs).
Proof. induction bs as [|b bs IH]; intros va; cbn [store_bytes]; keep. Qed.
Lemma keeps_load_bytes n : forall va, kept (load_bytes va n).
Proof. induction n as [|n IH]; intros va; cbn [load_bytes]; keep. Qed.
Lemma keeps_load_cstr_fuel n : forall va, kept (load_cstr_fuel n va).
Proof. induction n as [|n IH]; intros va; cbn [load_cstr_fuel]; keep. Qed.
Hint Resolve keeps_store_bytes keeps_load_bytes keeps_load_cstr_fuel : keeps.
Lemma keeps_load_cstr va : kept (load_cstr va).
Proof. unfold load_cstr. keep. Qed.
Lemma keeps_load32 va : kept (load32 va).
Proof. unfold load32. keep. Qed.
Lemma keeps_store32 va w : kept (store32 va w).
Proof. unfold store32. keep. Qed.
Hint Resolve keeps_load_cstr keeps_load32 keeps_store32 : keeps.

Lemma keeps_memcpy_top n : forall a b c, kept (memcpy_top n a b c).
Proof. induction n as [|n IH]; intros; cbn [memcpy_top]; keep. Qed.
Lemma keeps_rep_movsl n : forall a b, kept (rep_movsl n a b).
Proof. induction n as [|n IH]; intros; cbn [rep_movsl]; keep. Qed.
Lemma keeps_rep_movsb n : forall d a b, kept (rep_movsb n d a b).
Proof. induction n as [|n IH]; intros; cbn [rep_movsb]; keep. Qed.
Hint Resolve keeps_memcpy_top keeps_rep_movsl keeps_rep_movsb : keeps.
Lemma keeps_memcpy a b c : kept (memcpy a b c).
Proof. unfold memcpy. keep. Qed.
End leaves.
#[export] Hint Resolve keeps_cli keeps_sti keeps_cli_and_save keeps_restore_flags keeps_outb
  keeps_inb keeps_mmu keeps_load8 keeps_load8' keeps_store8 keeps_store_bytes keeps_load_bytes
  keeps_load_cstr keeps_load32 keeps_store32 keeps_memcpy : keeps.
