(* ===== verification/InvariantProps.v ===== *)
(** * Every operation of the kernel keeps the invariant *)
From S2P Require Import Prelude State Monad Logic Strings Screen Pic Mem Proc Fs Rtc Terminal Keyboard Interrupts Descriptors Syscalls Exceptions Kernel PagingSpec Demo Invariant.

(** [keep], unfolding routines that have no lemma of their own. *)
Ltac head t := lazymatch t with ?f _ => head f | _ => t end.
Ltac keep_unfold :=
  lazymatch goal with
  | |- keeps ?m _ => let h := head m in is_const h; unfold h
  end.
Ltac keep_all := repeat first [progress keep | keep_unfold].

(** ** lib.c, i8259.c *)

Section screen.
Context {P : Platform}.

Lemma keeps_scroll : kept scroll.
Proof. keep_all. Qed.
Lemma keeps_next_line : kept next_line.
Proof. pose proof keeps_scroll. keep_all. Qed.
Lemma keeps_putc c : kept (putc c).
Proof. keep_all. Qed.
Hint Resolve keeps_scroll keeps_next_line keeps_putc : keeps.
Lemma keeps_puts_loop s : kept (puts_loop s).
Proof. induction s as [|c s IH]; cbn [puts_loop]; keep_all. Qed.
Hint Resolve keeps_puts_loop : keeps.
Lemma keeps_printf_conv a c args : kept (printf_conv a c args).
Proof. keep_all. Qed.
Hint Resolve keeps_printf_conv : keeps.
Lemma keeps_printf_loop format : forall conv args, kept (printf_loop format conv args).
Proof. induction format as [|c f IH]; intros conv args; cbn [printf_loop]; keep. Qed.
Hint Resolve keeps_printf_loop : keeps.
Lemma keeps_printf format args : kept (printf format args).
Proof. keep_all. Qed.
Lemma keeps_clear : kept clear.
Proof. keep_all. Qed.
Lemma keeps_backspace : kept backspace.
Proof. keep_all. Qed.
Lemma keeps_send_eoi n : kept (send_eoi n).
Proof. keep_all. Qed.
Lemma u8_byte v : byte (u8 v).
Proof. apply u8_range. Qed.
Lemma keeps_enable_irq n : kept (enable_irq n).
Proof.
  keep_all; apply keeps_irq; intros i [H1 Hg [H2 H3]]; constructor; try done; split; try done; apply u8_byte.
Qed.
Lemma keeps_cursor_update : kept cursor_update.
Proof. keep_all. Qed.
End screen.
#[export] Hint Resolve keeps_scroll keeps_next_line keeps_putc keeps_printf keeps_clear
  keeps_backspace keeps_send_eoi keeps_enable_irq keeps_cursor_update : keeps.

(** ** process_control.c *)

Section proc.
Context {P : Platform}.

Lemma keeps_get_pcb pid : keeps (get_pcb pid) pcb_ok.
Proof.
  unfold get_pcb. eapply keeps_bind; [apply (keeps_gets _ (Forall pcb_ok)); intros s H; apply H|].
  intros bs Hbs. apply keeps_of_opt. intros b Hb. by eapply lget_Forall.
Qed.
Lemma keeps_upd_pcb pid f : (forall b, pcb_ok b -> pcb_ok (f b)) -> kept (upd_pcb pid f).
Proof.
  intros Hf. unfold upd_pcb.
  eapply keeps_bind; [apply (keeps_gets _ (fun bs => length bs = 7%nat /\ Forall pcb_ok bs)); intros s H; split; apply H|].
  intros bs [Hl Hbs]. eapply keeps_bind; [apply (keeps_of_opt _ _ pcb_ok); intros b Hb; by eapply lget_Forall|].
  intros b Hb. eapply keeps_bind; [apply (keeps_aset _ _ _ (fun bs => length bs = 7%nat /\ Forall pcb_ok bs))|].
  { intros bs' E. split; [by rewrite (lset_length _ _ _ _ E)|]. eapply lset_Forall; [exact E|done|by apply Hf]. }
  intros bs' [Hl' Hbs']. apply keeps_proc. intros p []. by constructor.
Qed.
Lemma keeps_upd_pcb_any pid f :
  (forall b, fd_table (f b) = fd_table b /\ pcb_args (f b) = pcb_args b) -> kept (upd_pcb pid f).
Proof. intros Hf. apply keeps_upd_pcb. intros b []. destruct (Hf b) as [E1 E2]. split; by rewrite ?E1, ?E2. Qed.
Hint Extern 1 (keeps (upd_pcb _ _) _) => apply keeps_upd_pcb_any; intros []; split; reflexivity : keeps.
Lemma keeps_get_fd_of pid fd : kept (get_fd_of pid fd).
Proof.
  unfold get_fd_of. eapply keeps_bind; [apply keeps_get_pcb|]. intros. keep.
Qed.
Lemma keeps_put_fd_of pid fd blk : kept (put_fd_of pid fd blk).
Proof.
  unfold put_fd_of. eapply keeps_bind; [apply keeps_get_pcb|]. intros b [H1 H2].
  eapply keeps_bind; [apply (keeps_aset _ _ _ (fun t => length t = 8%nat)); intros t E; by rewrite (lset_length _ _ _ _ E)|].
  intros t Ht. apply keeps_upd_pcb. intros b' []. by split.
Qed.
Lemma keeps_set_nth_arg pid i c : kept (set_nth_arg pid i c).
Proof.
  unfold set_nth_arg. eapply keeps_bind; [apply keeps_get_pcb|]. intros b [H1 H2].
  eapply keeps_bind; [apply (keeps_aset _ _ _ (fun t => length t = 1024%nat)); intros t E; by rewrite (lset_length _ _ _ _ E)|].
  intros t Ht. apply keeps_upd_pcb. intros b' []. by split.
Qed.
Lemma keeps_get_pcb' pid : kept (get_pcb pid).
Proof. eapply keeps_weaken; [apply keeps_get_pcb|done]. Qed.
Hint Resolve keeps_get_pcb' keeps_get_fd_of keeps_put_fd_of keeps_set_nth_arg : keeps.
Lemma keeps_upd_fd_of pid fd f : kept (upd_fd_of pid fd f).
Proof. keep_all. Qed.
Hint Resolve keeps_upd_fd_of : keeps.
Lemma keeps_get_fd fd : kept (get_fd fd).
Proof. keep_all. Qed.
Lemma keeps_put_fd fd b : kept (put_fd fd b).
Proof. keep_all. Qed.
Lemma keeps_upd_fd fd f : kept (upd_fd fd f).
Proof. keep_all. Qed.
Hint Resolve keeps_get_fd keeps_put_fd keeps_upd_fd : keeps.
Lemma keeps_table_pointer t : kept (table_pointer t).
Proof. keep_all. Qed.
Lemma keeps_fill_table t o : kept (fill_table t o).
Proof. keep_all. Qed.
Hint Resolve keeps_table_pointer keeps_fill_table : keeps.
Lemma keeps_pcb_init : kept process_control_block_init.
Proof. keep_all. Qed.
Lemma keeps_first_process_init : kept first_process_init.
Proof. keep_all. Qed.
Lemma keeps_clear_args_loop n : forall i pid, kept (clear_args_loop n i pid).
Proof. induction n as [|n IH]; intros; cbn [clear_args_loop]; keep. Qed.
Hint Resolve keeps_clear_args_loop : keeps.
Lemma keeps_clear_args : kept clear_args.
Proof. keep_all. Qed.
Lemma keeps_find_free_pid n : forall i, kept (find_free_pid n i).
Proof. induction n as [|n IH]; intros; cbn [find_free_pid]; keep. Qed.
Hint Resolve keeps_clear_args keeps_find_free_pid : keeps.
Lemma keeps_create_new_pcb parent : kept (create_new_pcb parent).
Proof. keep_all. Qed.
Lemma keeps_load_pcb pid ss esp : kept (load_pcb pid ss esp).
Proof. keep_all. Qed.
Lemma keeps_destroy_pcb pid : kept (destroy_pcb pid).
Proof. keep_all. Qed.
End proc.
#[export] Hint Extern 1 (keeps (upd_pcb _ _) _) => apply keeps_upd_pcb_any; intros []; split; reflexivity : keeps.
#[export] Hint Resolve keeps_get_pcb' keeps_get_fd keeps_put_fd keeps_upd_fd keeps_get_fd_of
  keeps_put_fd_of keeps_upd_fd_of keeps_set_nth_arg keeps_table_pointer keeps_fill_table
  keeps_pcb_init keeps_first_process_init keeps_clear_args keeps_create_new_pcb keeps_load_pcb
  keeps_destroy_pcb : keeps.

(** ** Arrays of the other components

    A cell of an array is read from the state, the array changed at one index
    and put back: [R] is what the invariant says of the array. *)

Lemma keeps_array {A} (get : kstate -> A) (upd : A -> option A) (put : A -> M unit) e (R : A -> Prop) :
  (forall s, well_formed s -> R (get s)) ->
  (forall a a', upd a = Some a' -> R a -> R a') ->
  (forall a, R a -> kept (put a)) ->
  kept (a <- gets get ;; a' <- of_opt e (upd a) ;; put a').
Proof.
  intros Hget Hupd Hput. eapply keeps_bind; [apply (keeps_gets _ R), Hget|]. intros a Ha.
  eapply keeps_bind; [apply (keeps_of_opt _ _ R); intros a' E; by eapply Hupd|]. intros a'. apply Hput.
Qed.
Section arrays.
Context {P : Platform}.

Definition len {A} (n : nat) (l : list A) : Prop := length l = n.
Lemma lset_len {A} n (l : list A) i v l' : lset l i v = Some l' -> len n l -> len n l'.
Proof. intros E <-. by apply (lset_length _ _ _ _ E). Qed.

Lemma keeps_set_virtual i v : kept (set_virtual i v).
Proof.
  apply (keeps_array _ _ _ _ (len 3)); [intros s H; apply H|intros; by eapply lset_len|].
  intros a Ha. apply keeps_rtc. intros r []. by constructor.
Qed.
Lemma keeps_put_rtc_running i v :
  kept (r <- gets (fun s => rtc_running (s_rtc s)) ;; r' <- aset r i v ;;
    rtc_set (set rtc_running (fun _ => r'))).
Proof.
  apply (keeps_array _ _ _ _ (len 3)); [intros s H; apply H|intros; by eapply lset_len|].
  intros a Ha. apply keeps_rtc. intros r []. by constructor.
Qed.
Lemma keeps_put_return_switch t v : kept (put_return_switch t v).
Proof.
  apply (keeps_array _ _ _ _ (len 3)); [intros s H; apply H|intros; by eapply lset_len|].
  intros a Ha. apply keeps_term. intros r []. by constructor.
Qed.
Lemma keeps_put_terminal_running t v : kept (put_terminal_running t v).
Proof.
  apply (keeps_array _ _ _ _ (len 3)); [intros s H; apply H|intros; by eapply lset_len|].
  intros a Ha. apply keeps_term. intros r []. by constructor.
Qed.
Lemma keeps_put_read_buffer t i c : kept (put_read_buffer t i c).
Proof.
  apply (keeps_array _ _ _ _ (grid 3 128)); [intros s H; apply H|intros; by eapply lset2_grid|].
  intros a Ha. apply keeps_term. intros r []. by constructor.
Qed.
Lemma keeps_put_schedule_top t v : kept (put_schedule_top t v).
Proof.
  apply (keeps_array _ _ _ _ (len 3)); [intros s H; apply H|intros; by eapply lset_len|].
  intros a Ha. apply keeps_sched. intros r []. by constructor.
Qed.
Lemma keeps_put_schedule_stack t j v : kept (put_schedule_stack t j v).
Proof.
  apply (keeps_array _ _ _ _ (grid 3 7)); [intros s H; apply H|intros; by eapply lset2_grid|].
  intros a Ha. apply keeps_sched. intros r []. by constructor.
Qed.
Lemma keeps_put_schedule_ebp t j v : kept (put_schedule_ebp t j v).
Proof.
  apply (keeps_array _ _ _ _ (grid 3 7)); [intros s H; apply H|intros; by eapply lset2_grid|].
  intros a Ha. apply keeps_sched. intros r []. by constructor.
Qed.
Lemma keeps_put_schedule_esp t j v : kept (put_schedule_esp t j v).
Proof.
  apply (keeps_array _ _ _ _ (grid 3 7)); [intros s H; apply H|intros; by eapply lset2_grid|].
  intros a Ha. apply keeps_sched. intros r []. by constructor.
Qed.
Lemma keeps_put_schedule_tss t j v : kept (put_schedule_tss t j v).
Proof.
  apply (keeps_array _ _ _ _ (grid 3 7)); [intros s H; apply H|intros; by eapply lset2_grid|].
  intros a Ha. apply keeps_sched. intros r []. by constructor.
Qed.
Lemma keeps_put_info i v :
  kept (a <- gets (fun s => schedule_info_arr (s_sched s)) ;; a' <- aset a i v ;;
    sched_set (set schedule_info_arr (fun _ => a'))).
Proof.
  apply (keeps_array _ _ _ _ (len 3)); [intros s H; apply H|intros; by eapply lset_len|].
  intros a Ha. apply keeps_sched. intros r []. by constructor.
Qed.
Lemma keeps_put_shell i v :
  kept (a <- gets (fun s => shell_pid (s_sched s)) ;; a' <- aset a i v ;;
    sched_set (set shell_pid (fun _ => a'))).
Proof.
  apply (keeps_array _ _ _ _ (len 3)); [intros s H; apply H|intros; by eapply lset_len|].
  intros a Ha. apply keeps_sched. intros r []. by constructor.
Qed.
Lemma keeps_put_idt i v : kept (put_idt i v).
Proof.
  apply (keeps_array _ _ _ _ (len 256)); [intros s H; apply H|intros; by eapply lset_len|].
  intros a Ha. apply keeps_irq. intros r []. by constructor.
Qed.
Definition words (n : nat) (l : list Z) : Prop := length l = n /\ Forall word l.
Lemma lset_words n l i v l' : lset l i (u32 v) = Some l' -> words n l -> words n l'.
Proof.
  intros E [H1 H2]. split; [by rewrite (lset_length _ _ _ _ E)|].
  eapply lset_Forall; [exact E|done|apply u32_range].
Qed.
Lemma keeps_put_page i v : kept (put_page i v).
Proof.
  unfold put_page. eapply keeps_bind; [apply (keeps_gets _ (words 1024)); intros s H; apply H|].
  intros a Ha. eapply keeps_bind; [apply (keeps_aset _ _ _ (words 1024)); intros; by eapply lset_words|].
  intros a' Ha'. eapply keeps_bind; [|intros _ _; keep].
  apply keeps_pag. intros p []. by constructor.
Qed.
Lemma keeps_put_table i v : kept (put_table i v).
Proof.
  unfold put_table. eapply keeps_bind; [apply (keeps_gets _ (words 1024)); intros s H; apply H|].
  intros a Ha. eapply keeps_bind; [apply (keeps_aset _ _ _ (words 1024)); intros; by eapply lset_words|].
  intros a' Ha'. eapply keeps_bind; [|intros _ _; keep].
  apply keeps_pag. intros p []. by constructor.
Qed.

Lemma keeps_upd_switch_data t f :
  (forall d, length (vid_data d) = 4000%nat -> keeps (f d) (fun d' => length (vid_data d') = 4000%nat)) ->
  kept (upd_switch_data t f).
Proof.
  intros Hf. unfold upd_switch_data.
  set (R := fun a => length a = 3%nat /\ Forall (fun d => length (vid_data d) = 4000%nat) a).
  eapply keeps_bind; [apply (keeps_gets _ R); intros s H; apply H|]. intros a [H1 H2].
  eapply keeps_bind; [apply (keeps_of_opt _ _ (fun d => length (vid_data d) = 4000%nat)); intros d Hd;
    exact (lget_Forall _ _ _ _ Hd H2)|].
  intros d Hd. eapply keeps_bind; [by apply Hf|]. intros d' Hd'.
  eapply keeps_bind; [apply (keeps_aset _ _ _ R)|].
  { intros a' E. split; [by rewrite (lset_length _ _ _ _ E)|]. by eapply lset_Forall. }
  intros a' [H1' H2']. apply keeps_term. intros r []. by constructor.
Qed.
End arrays.
#[export] Hint Resolve keeps_set_virtual keeps_put_rtc_running keeps_put_return_switch
  keeps_put_terminal_running keeps_put_read_buffer keeps_put_schedule_top keeps_put_schedule_stack
  keeps_put_schedule_ebp keeps_put_schedule_esp keeps_put_schedule_tss keeps_put_info
  keeps_put_shell keeps_put_idt keeps_put_page keeps_put_table : keeps.

(** ** filesystem_driver.c, rtc_driver.c *)

Section drivers.
Context {P : Platform}.

Lemma keeps_fs_read {A} (g : fs_t -> option A) : kept (fs_read g).
Proof. keep_all. Qed.
Hint Resolve keeps_fs_read : keeps.
Lemma keeps_boot_block_init addr : kept (boot_block_init addr).
Proof. unfold boot_block_init. keep. Qed.
Lemma keeps_dentry_search n : forall i fname d, kept (dentry_search n i fname d).
Proof. induction n as [|n IH]; intros; cbn [dentry_search]; keep. Qed.
Hint Resolve keeps_dentry_search : keeps.
Lemma keeps_read_dentry_by_name fname d : kept (read_dentry_by_name fname d).
Proof. keep_all. Qed.
Lemma keeps_scan_fds n : forall i last, kept (scan_fds n i last).
Proof. induction n as [|n IH]; intros; cbn [scan_fds]; keep. Qed.
Hint Resolve keeps_read_dentry_by_name keeps_scan_fds : keeps.
Lemma keeps_file_read fd n : kept (file_read fd n).
Proof. keep_all. Qed.
Lemma keeps_directory_read_loop n : forall fd k d, kept (directory_read_loop n fd k d).
Proof.
  induction n as [|n IH]; intros; cbn [directory_read_loop]; [apply keeps_stop|].
  keep_all.
Qed.
Hint Resolve keeps_directory_read_loop : keeps.
Lemma keeps_directory_read fd n : kept (directory_read fd n).
Proof. keep_all. Qed.
Lemma keeps_file_open fname : kept (file_open fname).
Proof. keep_all. Qed.
Lemma keeps_directory_open fname : kept (directory_open fname).
Proof. keep_all. Qed.
Lemma keeps_rtc_open_already n : forall i rtc, kept (rtc_open_already n i rtc).
Proof. induction n as [|n IH]; intros; cbn [rtc_open_already]; keep. Qed.
Hint Resolve keeps_rtc_open_already : keeps.
Lemma keeps_rtc_open fname : kept (rtc_open fname).
Proof. keep_all. Qed.
Lemma keeps_rtc_read on_irq fd n : (forall ev, kept (on_irq ev)) -> kept (rtc_read on_irq fd n).
Proof. intros H. pose proof (fun c => keeps_spin_while on_irq c H). keep_all. Qed.
Lemma keeps_rtc_passed buf n : kept (rtc_passed buf n).
Proof. keep_all. Qed.
Hint Resolve keeps_rtc_passed : keeps.
Lemma keeps_rtc_write fd buf n : kept (rtc_write fd buf n).
Proof.
  unfold rtc_write. eapply keeps_bind; [apply keeps_cli_and_save|]. intros flags _.
  eapply keeps_bind; [apply keeps_rtc_passed|]. intros rate _.
  destruct (rtc_rate_loop _ _ _ _) as [r|]; [|keep].
  eapply keeps_bind; [by apply (keeps_gets _ (fun _ => True))|]. intros cp _.
  eapply keeps_bind; [apply (keeps_gets _ (len 3)); intros s H; apply H|]. intros a Ha.
  eapply keeps_bind; [apply (keeps_aset _ _ _ (len 3)); intros; by eapply lset_len|]. intros a' Ha'.
  eapply keeps_bind; [apply keeps_rtc; intros x []; by constructor|]. intros _ _. keep_all.
Qed.
End drivers.
#[export] Hint Resolve keeps_fs_read keeps_boot_block_init keeps_read_dentry_by_name
  keeps_file_read keeps_directory_read keeps_file_open keeps_directory_open keeps_rtc_open
  keeps_rtc_read keeps_rtc_write : keeps.

(** ** terminal.c *)

Section terminal.
Context {P : Platform}.

Lemma keeps_terminal_write_char c : kept (terminal_write_char c).
Proof. keep_all. Qed.
Hint Resolve keeps_terminal_write_char : keeps.
Lemma keeps_terminal_write fd buf n : kept (terminal_write fd buf n).
Proof. keep_all. Qed.
Lemma keeps_terminal_clear : kept terminal_clear.
Proof. keep_all. Qed.
Lemma keeps_reset_input i n : kept (reset_terminal_keyboard_input i n).
Proof. keep_all. Qed.
Lemma keeps_terminal_backspace : kept terminal_backspace.
Proof. keep_all. Qed.
Lemma keeps_set_return_switch v : kept (set_return_switch v).
Proof. keep_all. Qed.
Lemma keeps_cursor_x t f : kept (upd_switch_data t (fun d => ret (set cursor_x f d))).
Proof. apply keeps_upd_switch_data. intros d Hd. by apply keeps_ret. Qed.
Lemma keeps_cursor_y t f : kept (upd_switch_data t (fun d => ret (set cursor_y f d))).
Proof. apply keeps_upd_switch_data. intros d Hd. by apply keeps_ret. Qed.
Lemma keeps_blank_cell t i j a b :
  kept (upd_switch_data t (fun d => v <- aset (vid_data d) i a ;; v <- aset v j b ;;
    ret (set vid_data (fun _ => v) d))).
Proof.
  apply keeps_upd_switch_data. intros d Hd.
  eapply keeps_bind; [apply (keeps_aset _ _ _ (len 4000)); intros; by eapply lset_len|]. intros v Hv.
  eapply keeps_bind; [apply (keeps_aset _ _ _ (len 4000)); intros; by eapply lset_len|]. intros w Hw.
  by apply keeps_ret.
Qed.
Hint Resolve keeps_terminal_clear keeps_cursor_x keeps_cursor_y keeps_blank_cell : keeps.
Lemma keeps_terminal_open fname : kept (terminal_open fname).
Proof.
  unfold terminal_open, clear_all_read_buffers, get_current_terminal.
  pose proof (keeps_current_terminal 0 ltac:(lia)). keep.
Qed.
Lemma keeps_terminal_read_finish cip n : kept (terminal_read_finish cip n).
Proof. keep_all. Qed.
Hint Resolve keeps_terminal_read_finish : keeps.
Lemma keeps_terminal_read on_irq fd n :
  (forall ev, kept (on_irq ev)) -> kept (terminal_read on_irq fd n).
Proof. intros H. pose proof (fun c => keeps_spin_while on_irq c H). keep_all. Qed.
Lemma keeps_terminal_switch on_irq sh num :
  (forall ev, kept (on_irq ev)) -> kept sh -> 0 <= num < 3 -> kept (terminal_switch on_irq sh num).
Proof.
  intros H Hsh Hn. pose proof (fun c => keeps_spin_while on_irq c H).
  pose proof (keeps_current_terminal num Hn). pose proof (keeps_current_process num Hn).
  pose proof (keeps_request num ltac:(lia)).
  unfold terminal_switch, set_screen_x, set_screen_y, get_current_terminal, get_screen_x, get_screen_y.
  keep.
Qed.
End terminal.
#[export] Hint Resolve keeps_terminal_write keeps_terminal_clear keeps_reset_input
  keeps_terminal_backspace keeps_set_return_switch keeps_terminal_open keeps_terminal_read : keeps.

(** ** keyboard.c *)

Section keyboard.
Context {P : Platform}.

Definition bytes3 (l : list Z) : Prop := length l = 3%nat /\ Forall byte l.
Lemma lset_bytes3 l i v l' : lset l i (u8 v) = Some l' -> bytes3 l -> bytes3 l'.
Proof.
  intros E [H1 H2]. split; [by rewrite (lset_length _ _ _ _ E)|].
  eapply lset_Forall; [exact E|done|apply u8_range].
Qed.
(** The same as [keeps_array], for the fields of the keyboard's state. *)
Lemma keeps_kbd_array {A} (get : kbd_t -> A) (upd : A -> option A) (put : A -> M unit) e (R : A -> Prop) :
  (forall k, kbd_wf k -> R (get k)) -> (forall a a', upd a = Some a' -> R a -> R a') ->
  (forall a, R a -> kept (put a)) ->
  kept (k <- get_kbd ;; a' <- of_opt e (upd (get k)) ;; put a').
Proof.
  intros Hget Hupd Hput. eapply keeps_bind; [apply (keeps_gets _ kbd_wf); intros s H; apply H|].
  intros k Hk. eapply keeps_bind; [apply (keeps_of_opt _ _ R); intros a' E|].
  { eapply Hupd; [exact E|by apply Hget]. }
  intros a'. apply Hput.
Qed.

Lemma keeps_put_buffer t i c : kept (put_buffer t i c).
Proof.
  apply (keeps_kbd_array buffer (fun b => lset2 b t i c) (fun b => kbd_set (set buffer (fun _ => b))) OutOfBounds (grid 3 128)); [by intros k []|intros; by eapply lset2_grid|].
  intros a Ha. apply keeps_kbd. intros k []. by constructor.
Qed.
Lemma keeps_put_idx t v : kept (put_idx t v).
Proof.
  apply (keeps_kbd_array bufferIDX (fun a => lset a t (u8 v)) (fun a => kbd_set (set bufferIDX (fun _ => a))) OutOfBounds bytes3); [by intros k []|intros; by eapply lset_bytes3|].
  intros a Ha. apply keeps_kbd. intros k []. by constructor.
Qed.
Lemma keeps_put_size t v : kept (put_size t v).
Proof.
  apply (keeps_kbd_array bufferSIZE (fun a => lset a t (u8 v)) (fun a => kbd_set (set bufferSIZE (fun _ => a))) OutOfBounds bytes3); [by intros k []|intros; by eapply lset_bytes3|].
  intros a Ha. apply keeps_kbd. intros k []. by constructor.
Qed.
Lemma keeps_put_historyIDX t v : kept (put_historyIDX t v).
Proof.
  apply (keeps_kbd_array historyIDX (fun a => lset a t v) (fun a => kbd_set (set historyIDX (fun _ => a))) OutOfBounds (len 7)); [by intros k []|intros; by eapply lset_len|].
  intros a Ha. apply keeps_kbd. intros k []. by constructor.
Qed.
Lemma keeps_put_historyBASE t v : kept (put_historyBASE t v).
Proof.
  apply (keeps_kbd_array historyBASE (fun a => lset a t v) (fun a => kbd_set (set historyBASE (fun _ => a))) OutOfBounds (len 7)); [by intros k []|intros; by eapply lset_len|].
  intros a Ha. apply keeps_kbd. intros k []. by constructor.
Qed.
Lemma keeps_put_historySIZE t v : kept (put_historySIZE t v).
Proof.
  apply (keeps_kbd_array historySIZE (fun a => lset a t v) (fun a => kbd_set (set historySIZE (fun _ => a))) OutOfBounds (len 7)); [by intros k []|intros; by eapply lset_len|].
  intros a Ha. apply keeps_kbd. intros k []. by constructor.
Qed.
Lemma keeps_put_history pid j i c : kept (put_history pid j i c).
Proof.
  unfold put_history. eapply keeps_bind; [apply (keeps_gets _ kbd_wf); intros s H; apply H|].
  intros k Hk. destruct (ko_history _ Hk) as [H1 H2].
  eapply keeps_bind; [apply (keeps_of_opt _ _ (grid 20 128)); intros h Hh; by eapply lget_Forall|].
  intros h Hh. eapply keeps_bind; [apply (keeps_aset2 _ _ _ _ (grid 20 128)); intros; by eapply lset2_grid|].
  intros h' Hh'. set (R := fun hs => length hs = 7%nat /\ Forall (grid 20 128) (hs : list (list (list Z)))).
  eapply keeps_bind; [apply (keeps_aset _ _ _ R)|].
  { intros hs E. split; [by rewrite (lset_length _ _ _ _ E)|]. by eapply lset_Forall. }
  intros hs Hhs. apply keeps_kbd. intros k' []. by constructor.
Qed.
Hint Resolve keeps_put_buffer keeps_put_idx keeps_put_size keeps_put_historyIDX
  keeps_put_historyBASE keeps_put_historySIZE keeps_put_history : keeps.

Lemma keeps_copy_to_history : kept copy_to_history.
Proof. keep_all. Qed.
Lemma keeps_increment_history : kept increment_history_indices.
Proof. keep_all. Qed.
Lemma keeps_clear_buffer : kept clear_keyboard_buffer.
Proof. keep_all. Qed.
Lemma keeps_clear_all : kept clear_all_keyboard_buffers.
Proof. keep_all. Qed.
Lemma keeps_clear_history pid : kept (clear_history_buffer pid).
Proof. keep_all. Qed.
Hint Resolve keeps_copy_to_history keeps_increment_history keeps_clear_buffer keeps_clear_all
  keeps_clear_history : keeps.
Lemma keeps_keyboard_open fname : kept (keyboard_open fname).
Proof. keep_all. Qed.
Lemma keeps_keyboard_read_loop n : forall i, kept (keyboard_read_loop n i).
Proof. induction n as [|n IH]; intros; cbn [keyboard_read_loop]; keep_all. Qed.
Hint Resolve keeps_keyboard_read_loop : keeps.
Lemma keeps_keyboard_read fd n : kept (keyboard_read fd n).
Proof. keep_all. Qed.
Hint Resolve keeps_keyboard_read : keeps.

Lemma keeps_terminal_return : kept terminal_return.
Proof.
  unfold terminal_return. eapply keeps_bind; [by apply (keeps_gets _ (fun _ => True))|]. intros t _.
  eapply keeps_bind; [by apply (keeps_gets _ (fun _ => True))|]. intros a _.
  eapply keeps_bind; [by apply (keeps_of_opt _ _ (fun _ => True))|]. intros v _.
  destruct (_ =? SWITCH_ON); [|keep].
  eapply keeps_bind; [apply keeps_keyboard_read|]. intros r _. cbv zeta.
  eapply keeps_bind; [apply (keeps_gets _ (grid 3 128)); intros s H; apply H|]. intros b Hb.
  eapply keeps_bind; [apply (keeps_of_opt _ _ (fun r => length r = 128%nat)); intros row Hr;
    exact (lget_Forall _ _ _ _ Hr (proj2 Hb))|].
  cbv beta. intros row Hrow. apply (keeps_bind _ _ (fun _ => True)); [|intros _ _; apply keeps_set_return_switch].
  destruct (Nat.leb_spec (length (snd r)) (length row)) as [Hle|]; [|apply keeps_stop].
  eapply keeps_bind; [apply (keeps_aset _ _ _ (grid 3 128))|].
  { intros l E. eapply lset_grid; [exact E|done|]. rewrite length_app, length_drop. lia. }
  intros l Hl. apply keeps_term. intros x []. by constructor.
Qed.
Hint Resolve keeps_terminal_return : keeps.

Lemma keeps_keyboard_insert c : kept (keyboard_insert c).
Proof. keep_all. Qed.
Lemma keeps_keyboard_backspace : kept keyboard_backspace.
Proof. keep_all. Qed.
Lemma keeps_copy_from_history n : forall i pid, kept (copy_from_history n i pid).
Proof. induction n as [|n IH]; intros; cbn [copy_from_history]; keep_all. Qed.
Hint Resolve keeps_keyboard_insert keeps_keyboard_backspace keeps_copy_from_history : keeps.
Lemma keeps_show_history pid : kept (show_history pid).
Proof. keep_all. Qed.
Hint Resolve keeps_show_history : keeps.
Lemma keeps_up_history : kept up_history.
Proof. keep_all. Qed.
Lemma keeps_down_history : kept down_history.
Proof. keep_all. Qed.
Lemma keeps_key_enter : kept key_enter.
Proof. keep_all. Qed.
Hint Resolve keeps_up_history keeps_down_history keeps_key_enter : keeps.

(** The modifier flags stay bits. *)
Lemma keeps_caps_lock : kept (kbd_set (set caps_lock (fun v => if negb (v =? 1) then 1 else 0))).
Proof.
  apply keeps_kbd. intros k [[H1 [H2 [H3 H4]]]]. constructor; try done.
  split_and!; try done. cbn. destruct (_ =? 1); cbn; (by left) || by right.
Qed.
Lemma keeps_press_shift : kept press_shift.
Proof.
  apply keeps_kbd. intros k [[H1 [H2 [H3 H4]]]]. constructor; try done.
  split_and!; try done. cbn. destruct (_ =? 1); cbn; (by left) || by right.
Qed.
Lemma keeps_release_shift : kept release_shift.
Proof.
  apply keeps_kbd. intros k [[H1 [H2 [H3 H4]]]]. constructor; try done.
  split_and!; try done. cbn. destruct (_ =? 1); cbn; (by left) || by right.
Qed.
Lemma keeps_ctrl v : bit v -> kept (kbd_set (set ctrl_down (fun _ => v))).
Proof. intros Hv. apply keeps_kbd. intros k [[H1 [H2 [H3 H4]]]]. constructor; try done. Qed.
Lemma keeps_alt v : bit v -> kept (kbd_set (set alt_down (fun _ => v))).
Proof. intros Hv. apply keeps_kbd. intros k [[H1 [H2 [H3 H4]]]]. constructor; try done. Qed.
Hint Resolve keeps_caps_lock keeps_press_shift keeps_release_shift : keeps.

Hint Extern 1 (keeps (terminal_switch _ _ _) _) =>
  apply keeps_terminal_switch; [assumption|assumption|lia] : keeps.
Lemma keeps_key_character on_irq sh key :
  (forall ev, kept (on_irq ev)) -> kept sh -> kept (key_character on_irq sh key).
Proof.
  intros H Hsh. unfold key_character, get_current_terminal, get_size, get_kbd. keep.
Qed.
Lemma bit_0 : bit 0.
Proof. by left. Qed.
Lemma bit_1 : bit 1.
Proof. by right. Qed.
Lemma keeps_left_arrow : kept keyboard_left_arrow.
Proof. keep_all. Qed.
Lemma keeps_right_arrow : kept keyboard_right_arrow.
Proof. keep_all. Qed.
Hint Resolve bit_0 bit_1 keeps_ctrl keeps_alt keeps_left_arrow keeps_right_arrow : keeps.
Lemma keeps_handle_input on_irq sh key :
  (forall ev, kept (on_irq ev)) -> kept sh -> kept (handle_keyboard_input on_irq sh key).
Proof.
  intros H Hsh. pose proof (keeps_key_character on_irq sh key H Hsh).
  unfold handle_keyboard_input, get_current_terminal, get_idx, get_kbd. keep.
Qed.
End keyboard.
#[export] Hint Resolve keeps_clear_buffer keeps_clear_history keeps_keyboard_open : keeps.

(** ** interrupts.c *)

Section interrupts.
Context {P : Platform}.

Lemma keeps_install_entries es : kept (install_entries es).
Proof. induction es as [|[[v d] h] es IH]; cbn [install_entries]; keep. Qed.
Hint Resolve keeps_install_entries : keeps.
Lemma keeps_initialize_IDT : kept initialize_IDT.
Proof. keep_all. Qed.
Lemma keeps_flush_tlb : kept flush_tlb.
Proof. keep_all. Qed.
Lemma keeps_paging_init : kept paging_init.
Proof. keep_all. Qed.
Hint Resolve keeps_flush_tlb : keeps.
Lemma keeps_PIT_init : kept PIT_init.
Proof.
  pose proof (keeps_current_process 0 ltac:(lia)) as H1. pose proof (keeps_request (-1) ltac:(lia)) as H2.
  unfold PIT_init. cbv zeta. do 4 (eapply keeps_bind; [solve [eauto 2 with keeps]|intros _ _]).
  eapply keeps_bind; [|intros _ _; keep]. apply keeps_for_up. intros i.
  pose proof (keeps_put_info i (0, 0)) as H. revert H.
  assert (G : forall m : M unit, kept m -> kept (m ;; sched_set (set strand_type_lock (fun _ => 0)))).
  { intros m Hm. eapply keeps_bind; [exact Hm|]. intros _ _. apply keeps_strand. }
  intros H. specialize (G _ H). intros s Hs. specialize (G s Hs). revert G. unfold bind.
  destruct (gets _ s) as [a s1|]; [|done]. by destruct (aset a i (0, 0) s1).
Qed.
Lemma keeps_save_context : kept save_context.
Proof. keep_all. Qed.
Lemma keeps_load_context : kept load_context.
Proof. keep_all. Qed.

Definition terminal_number (v : Z) : Prop := 0 <= v < 3.
Lemma rem_terminal v : 0 <= v -> terminal_number (Z.rem (v + 1) NUM_TERMINALS).
Proof.
  intros. unfold terminal_number, NUM_TERMINALS. rewrite Z.rem_mod_nonneg by lia.
  apply Z.mod_pos_bound. lia.
Qed.
Lemma keeps_next_loop n : forall v, terminal_number v -> keeps (next_loop n v) terminal_number.
Proof.
  induction n as [|n IH]; intros v Hv; cbn [next_loop];
    (eapply keeps_bind; [unfold get_schedule_top; instantiate (1 := fun _ => True); keep|]; intros top _);
    (destruct (top =? 0); [|by apply keeps_ret]); [apply keeps_stop|].
  apply IH, rem_terminal, Hv.
Qed.
Lemma keeps_choose_next : keeps choose_next terminal_number.
Proof.
  unfold choose_next.
  eapply keeps_bind; [apply (keeps_gets _ (fun r => -1 <= r < 3)); intros s H; apply H|]. intros r Hr.
  eapply keeps_bind; [apply (keeps_gets _ terminal_number); intros s H; apply H|]. intros cp [Hcp _].
  cbv beta in Hr. destruct (Z.eqb_spec r (-1)); [apply keeps_next_loop, rem_terminal, Hcp|].
  destruct (Z.eqb_spec r 0); [apply keeps_ret; by split|].
  destruct (Z.eqb_spec r 1); [apply keeps_ret; by split|].
  destruct (Z.eqb_spec r 2); [apply keeps_ret; by split|]. lia.
Qed.
Hint Resolve keeps_save_context keeps_load_context : keeps.
Lemma keeps_timer_handler : kept timer_handler.
Proof.
  unfold timer_handler. do 4 (eapply keeps_bind; [solve [eauto 2 with keeps]|intros _ _]).
  eapply keeps_bind; [apply keeps_choose_next|]. intros n Hn.
  pose proof (keeps_current_process n Hn) as H1. pose proof (keeps_request (-1) ltac:(lia)) as H2. keep.
Qed.
Hint Resolve keeps_timer_handler : keeps.
Lemma keeps_schedule_entry ebp : kept (schedule_entry ebp).
Proof. keep_all. Qed.
Lemma keeps_RTC_init : kept RTC_init.
Proof. keep_all. Qed.
Lemma keeps_handle_RTC : kept handle_RTC.
Proof. keep_all. Qed.
Lemma keeps_handle_keyboard on_irq sh :
  (forall ev, kept (on_irq ev)) -> kept sh -> kept (handle_keyboard on_irq sh).
Proof. intros H Hsh. pose proof (fun key => keeps_handle_input on_irq sh key H Hsh). keep_all. Qed.
End interrupts.
#[export] Hint Resolve keeps_initialize_IDT keeps_flush_tlb keeps_paging_init keeps_PIT_init
  keeps_schedule_entry keeps_RTC_init keeps_handle_RTC : keeps.

(** ** syscalls.c, exception-handlers.c, kernel.c *)

Section kernel.
Context {P : Platform}.

Lemma strncpy_length n : forall dest src d, strncpy_loop n dest src = Some d -> length d = length dest.
Proof.
  intros dest src. revert n dest. induction src as [|c src IH]; intros n dest d; cbn [strncpy_loop]; [done|].
  destruct (c =? 0).
  - case_decide; [|done]. intros [= <-]. rewrite length_app, length_replicate, length_drop. lia.
  - destruct n as [|n]; [by intros [= <-]|]. destruct dest as [|x dest]; [done|].
    destruct (strncpy_loop n dest src) as [e|] eqn:E; [|done]. cbn. intros [= <-]. cbn. f_equal. by eapply IH.
Qed.

Section calls.
Variable on_irq : irq -> M unit.
Hypothesis keeps_on_irq : forall ev, kept (on_irq ev).

Lemma keeps_call_read f fd n : kept (call_read on_irq f fd n).
Proof.
  destruct f; cbn [call_read]; keep_all.
Qed.
Hint Resolve keeps_call_read : keeps.
Lemma keeps_read_into fd n : kept (read_into on_irq fd n).
Proof. keep_all. Qed.
Hint Resolve keeps_read_into : keeps.
Lemma keeps_read fd buf n : kept (Syscalls.read on_irq fd buf n).
Proof. keep_all. Qed.
Lemma keeps_write fd buf n : kept (Syscalls.write fd buf n).
Proof. keep_all. Qed.
Lemma keeps_open f : kept (Syscalls.open f).
Proof. keep_all. Qed.
Lemma keeps_close fd : kept (Syscalls.close fd).
Proof. keep_all. Qed.
Hint Resolve keeps_read keeps_write keeps_open keeps_close : keeps.
Lemma keeps_getargs buf n : kept (Syscalls.getargs buf n).
Proof. keep_all. Qed.
Lemma keeps_vidmap a : kept (Syscalls.vidmap a).
Proof. keep_all. Qed.
Lemma keeps_schedule : kept schedule.
Proof. keep_all. Qed.
Lemma keeps_deschedule : kept deschedule.
Proof. keep_all. Qed.
Lemma keeps_program_paging pid : kept (program_paging pid).
Proof. keep_all. Qed.
Hint Resolve keeps_getargs keeps_vidmap keeps_schedule keeps_deschedule keeps_program_paging : keeps.
Lemma keeps_copy_args pid rest : kept (copy_args pid rest).
Proof.
  unfold copy_args. destruct (skip_spaces rest) as [|a l]; [keep|].
  eapply keeps_bind; [apply keeps_get_pcb|]. intros b [H1 H2].
  eapply keeps_bind; [apply (keeps_of_opt _ _ (fun d => length d = 1024%nat)); intros d E|].
  { by rewrite (strncpy_length _ _ _ _ E). }
  intros d Hd. apply keeps_upd_pcb. intros b' []. by split.
Qed.
Lemma keeps_note_shell cmd pid : kept (note_shell cmd pid).
Proof.
  unfold note_shell, get_current_terminal. cbv zeta.
  eapply keeps_bind; [by apply (keeps_of_opt _ _ (fun _ => True))|]. intros r _. keep_branch; [|keep].
  eapply keeps_bind; [by apply (keeps_gets _ (fun _ => True))|]. intros ct _. apply keeps_put_shell.
Qed.
Hint Resolve keeps_copy_args keeps_note_shell : keeps.
Lemma keeps_execute_start c cmd buf temp : kept (execute_start c cmd buf temp).
Proof. keep_all. Qed.
Hint Resolve keeps_execute_start : keeps.
Lemma keeps_execute c : kept (execute on_irq c).
Proof. keep_all. Qed.
Hint Resolve keeps_execute : keeps.
Lemma keeps_exec_shell : kept (exec_shell on_irq).
Proof. keep_all. Qed.
Hint Resolve keeps_exec_shell : keeps.
Lemma keeps_halt status : kept (halt on_irq status).
Proof. keep_all. Qed.
Lemma keeps_user_string a : kept (user_string a).
Proof. keep_all. Qed.
Hint Resolve keeps_halt keeps_user_string : keeps.
Lemma keeps_system_call eax ebx ecx edx : kept (system_call on_irq eax ebx ecx edx).
Proof. keep_all. Qed.
Hint Resolve keeps_system_call : keeps.
Lemma keeps_exception h : kept (exception_handler on_irq h).
Proof. keep_all. Qed.
End calls.
End kernel.
#[export] Hint Resolve keeps_exec_shell keeps_system_call keeps_exception : keeps.

Section whole.
Context {P : Platform}.

Lemma keeps_on_irq_fuel n : forall ev, kept (on_irq_fuel n ev).
Proof.
  induction n as [|n IH]; intros ev; cbn [on_irq_fuel]; [apply keeps_stop|].
  destruct ev as [|scan|]; [keep|apply (keeps_bind _ _ (fun _ => True)); [apply keeps_hw|]|keep].
  intros _ _. apply keeps_handle_keyboard; [exact IH|by apply keeps_exec_shell].
Qed.
Lemma keeps_on_irq ev : kept (on_irq ev).
Proof.
  unfold on_irq. eapply keeps_bind; [by apply (keeps_gets _ (fun _ => True))|].
  intros n _. apply keeps_on_irq_fuel.
Qed.
Hint Resolve keeps_on_irq : keeps.

Lemma keeps_load_modules ms : forall n, kept (load_modules n ms).
Proof. induction ms as [|m ms IH]; intros n; cbn [load_modules]; keep_all. Qed.
Lemma keeps_print_mmap ms : kept (print_mmap ms).
Proof. induction ms as [|m ms IH]; cbn [print_mmap]; keep_all. Qed.
Hint Resolve keeps_load_modules keeps_print_mmap : keeps.
Lemma keeps_report magic mbi : kept (report magic mbi).
Proof. unfold report, pr_line. cbv zeta. keep. Qed.
Hint Resolve keeps_report : keeps.
Lemma keeps_keyboard_init : kept keyboard_init.
Proof. keep_all. Qed.
Hint Resolve keeps_keyboard_init : keeps.
Lemma keeps_put_gdt i v : kept (put_gdt i v).
Proof.
  intros s W. unfold put_gdt, bind, gets, aset, of_opt.
  destruct (lset _ _ _) as [g|] eqn:E; [|exact W]. apply keeps_irq; [|exact W].
  intros j []. constructor; try done. change (length g = 8%nat). rewrite (lset_length _ _ _ _ E). apply W.
Qed.
Lemma keeps_lldt d : kept (lldt d).
Proof. apply keeps_irq. intros i []. by constructor. Qed.
Lemma keeps_ltr d : kept (ltr d).
Proof.
  unfold ltr. keep; [by apply keeps_put_gdt|]. apply keeps_irq. intros i []. by constructor.
Qed.
Hint Resolve keeps_put_gdt keeps_lldt keeps_ltr : keeps.
Lemma keeps_start_devices : kept start_devices.
Proof. unfold start_devices, construct_ldt, construct_tss, pr_line, set_tss, set_video_mem. keep. Qed.
Hint Resolve keeps_start_devices : keeps.
Lemma keeps_entry magic mbi : kept (entry magic mbi).
Proof. unfold entry. pose proof (keeps_exec_shell on_irq keeps_on_irq). keep. Qed.
Lemma keeps_kernel_step ev : kept (kernel_step ev).
Proof.
  destruct ev as [i|a b c d|h]; unfold kernel_step, gate.
  - keep.
  - pose proof (keeps_system_call on_irq keeps_on_irq a b c d). keep.
  - pose proof (keeps_exception on_irq keeps_on_irq h). keep.
Qed.

(** ** The machine

    The kernel boots from a zeroed memory, is entered by interrupts, calls and
    exceptions, and returns or leaves for a program; in between programs store
    to the memory that user mode can reach and the devices change the
    processor's registers, the ports and what is pending. *)
Inductive machine (magic : Z) (mbi : multiboot_info_t) (s0 : kstate) : kstate -> Prop :=
  | m_boot s : entry magic mbi s0 = Monad.Ret tt s -> machine magic mbi s0 s
  | m_shell w s : entry magic mbi s0 = Stop w s -> machine magic mbi s0 s
  | m_return ev s s' : machine magic mbi s0 s -> kernel_step ev s = Monad.Ret tt s' -> machine magic mbi s0 s'
  | m_leave ev w s s' : machine magic mbi s0 s -> kernel_step ev s = Stop w s' -> machine magic mbi s0 s'
  | m_user va v pa s : machine magic mbi s0 s -> user_phys s va = Some pa ->
      machine magic mbi s0 (set s_mem (<[pa := u8 v]>) s)
  | m_devices h s : machine magic mbi s0 s -> machine magic mbi s0 (set s_hw (fun _ => h) s).

(** C18: the invariant. In every state the machine reaches from a well-formed
    memory at boot, whatever the order of interrupts, system calls with
    arbitrary arguments, exceptions and stores of the programs, nested
    interrupts and routines that fault halfway included, every table of the
    kernel has its declared size (7 control blocks of 8 descriptors and 1024
    argument bytes, 3 terminals of 128 characters, 7 histories of 20 lines,
    3 schedules of 7 entries, 1024 page entries that are 32-bit words), the
    displayed and the running terminal are one of the three, a pending switch
    request names one of them, the modifier flags are bits, the masks of the
    interrupt controllers and every cell of memory are bytes. *)
Theorem machine_well_formed magic mbi s0 s :
  well_formed s0 -> machine magic mbi s0 s -> well_formed s.
Proof.
  intros H0. induction 1 as [s E|w s E|ev s s' _ IH E|ev w s s' _ IH E|va v pa s _ IH E|h s _ IH].
  - pose proof (keeps_entry magic mbi s0 H0) as K. rewrite E in K. apply K.
  - pose proof (keeps_entry magic mbi s0 H0) as K. rewrite E in K. apply K.
  - pose proof (keeps_kernel_step ev s IH) as K. rewrite E in K. apply K.
  - pose proof (keeps_kernel_step ev s IH) as K. rewrite E in K. apply K.
  - destruct IH. constructor; try done. intros pa' v'. cbn.
    destruct (decide (pa = pa')) as [->|Hne].
    + rewrite lookup_insert_eq. intros [= <-]. apply u8_range.
    + rewrite lookup_insert_ne by done. by apply wf_mem.
  - destruct IH. by constructor.
Qed.
End whole.

Lemma replicate_grid {A} n k (v : A) : grid n k (replicate n (replicate k v)).
Proof. split; [apply length_replicate|apply Forall_replicate, length_replicate]. Qed.

Lemma zero_well_formed : well_formed zero_state.
Proof.
  constructor; unfold zero_state; cbn [s_proc s_pag s_sched s_term s_kbd s_rtc s_irq s_mem];
    constructor; try done; try apply replicate_grid; try (split; [apply length_replicate|]);
    try apply Forall_replicate; try done; try (repeat constructor; lia).
Qed.

(** The demo machine after boot, and after one more tick of the timer. *)
Lemma machine_well_formed_witness :
  let s := final (entry MULTIBOOT_BOOTLOADER_MAGIC demo_mbi zero_state) in
  well_formed (final (kernel_step (EvIrq IrqTimer) s)).
Proof.
  cbv zeta. apply (machine_well_formed MULTIBOOT_BOOTLOADER_MAGIC demo_mbi zero_state _ zero_well_formed).
  assert (B : machine MULTIBOOT_BOOTLOADER_MAGIC demo_mbi zero_state
    (final (entry MULTIBOOT_BOOTLOADER_MAGIC demo_mbi zero_state))).
  { destruct (entry MULTIBOOT_BOOTLOADER_MAGIC demo_mbi zero_state) as [[] s|w s] eqn:E;
      [by apply m_boot|by eapply m_shell]. }
  destruct (kernel_step (EvIrq IrqTimer) _) as [[] s|w s] eqn:E; [by eapply m_return|by eapply m_leave].
Defined.
