(* ===== verification/User.v ===== *)
(** * The user library and programs

    ece391support.c and the programs of src/syscalls as interaction trees over
    the system calls. A local array is a list; a pointer into an array that is
    passed on is the list from there to the end of the array. *)
From ITree Require Import ITree.
From S2P Require Import Prelude State Strings.

Local Notation "x <- t ;; k" := (ITree.bind t (fun x => k))
  (at level 100, t at next level, right associativity).
Local Notation "t ;; k" := (ITree.bind t (fun _ => k))
  (at level 100, right associativity).

(** A call, with its arguments; the answer to a call that fills a buffer has
    the contents of the buffer afterwards. [SysRaw] is [int $0x80] with only
    EAX set; [Load] and [Store] are accesses to a variable of the program or
    through a pointer, of the given number of bytes; [Undefined] is what has no
    defined behaviour in C. *)
Variant sysE : Type -> Type :=
  | SysHalt (status : Z) : sysE Z
  | SysExecute (command : list Z) : sysE Z
  | SysRead (fd : Z) (buf : list Z) (nbytes : Z) : sysE (Z * list Z)
  | SysWrite (fd : Z) (buf : list Z) (nbytes : Z) : sysE Z
  | SysOpen (filename : list Z) : sysE Z
  | SysClose (fd : Z) : sysE Z
  | SysGetargs (buf : list Z) (nbytes : Z) : sysE (Z * list Z)
  | SysVidmap (screen_start : Z) : sysE Z
  | SysSetHandler (signum handler : Z) : sysE Z
  | SysRaw (num : Z) : sysE Z
  | Load (addr : Z) (size : nat) : sysE Z
  | Store (addr : Z) (size : nat) (v : Z) : sysE unit
  | Undefined : sysE void.

Notation prog := (itree sysE).

Definition halt status : prog Z := ITree.trigger (SysHalt status).
Definition execute command : prog Z := ITree.trigger (SysExecute command).
Definition read fd buf nbytes : prog (Z * list Z) := ITree.trigger (SysRead fd buf nbytes).
Definition write fd buf nbytes : prog Z := ITree.trigger (SysWrite fd buf nbytes).
Definition open filename : prog Z := ITree.trigger (SysOpen filename).
Definition close fd : prog Z := ITree.trigger (SysClose fd).
Definition getargs buf nbytes : prog (Z * list Z) := ITree.trigger (SysGetargs buf nbytes).
Definition vidmap a : prog Z := ITree.trigger (SysVidmap a).
Definition set_handler signum h : prog Z := ITree.trigger (SysSetHandler signum h).

Definition defined {A} (o : option A) : prog A :=
  match o with
  | Some a => Ret a
  | None => x <- ITree.trigger Undefined ;; match (x : void) with end
  end.

(** The entry of every program: [main], and a halt with its result. *)
Definition _start (main : prog Z) : prog Z := r <- main ;; halt r.

(** The characters of a string literal, and the array it stands for. *)
Definition chars (s : string) : list Z :=
  map (fun a => Z.of_N (Ascii.N_of_ascii a)) (String.list_ascii_of_string s).
Definition lit (s : string) : list Z := chars s ++ [0].
Definition lit_line (s : string) : list Z := chars s ++ [10; 0].

(** ** ece391support.c *)

Fixpoint ece391_strlen (s : list Z) : option Z :=
  match s with
  | [] => None
  | c :: s => if c =? 0 then Some 0 else n ← ece391_strlen s; Some (u32 (n + 1))
  end.

(** [ece391_strcpy(buf + dst, buf + src)] within one array; [n] bounds the
    rounds by the bytes from [src] on. *)
Fixpoint strcpy_within (n : nat) (buf : list Z) (dst src : Z) : option (list Z) :=
  match n with
  | O => None
  | S n =>
      c ← lget buf src;
      buf ← lset buf dst c;
      if c =? 0 then Some buf else strcpy_within n buf (dst + 1) (src + 1)
  end.
Definition ece391_strcpy (buf : list Z) (dst src : Z) : option (list Z) :=
  strcpy_within (length buf) buf dst src.

Definition ece391_fdputs (fd : Z) (s : list Z) : prog unit :=
  n <- defined (ece391_strlen s) ;; _ <- write fd s (s32 n) ;; Ret tt.

Fixpoint ece391_strcmp (s1 s2 : list Z) : option Z :=
  match s1, s2 with
  | c1 :: s1, c2 :: s2 =>
      if c1 =? c2 then if c1 =? 0 then Some 0 else ece391_strcmp s1 s2
      else Some (c1 - c2)
  | _, _ => None
  end.

Fixpoint strncmp_while (s1 s2 : list Z) (n : Z) : option Z :=
  match s1, s2 with
  | c1 :: s1, c2 :: s2 =>
      if c1 =? c2 then
        if c1 =? 0 then Some 0
        else if u32 (n - 1) =? 0 then Some 0
        else strncmp_while s1 s2 (u32 (n - 1))
      else Some (c1 - c2)
  | _, _ => None
  end.
Definition ece391_strncmp (s1 s2 : list Z) (n : Z) : option Z :=
  if n =? 0 then Some 0 else strncmp_while s1 s2 n.

Definition ece391_strrev (s : list Z) : option (list Z) :=
  n ← ece391_strlen s;
  let end_ := s32 (n - 1) in
  if end_ <=? 0 then Some s else strrev_loop (S (length s)) s 0 end_.

(** The stores [*newbuf = c; newbuf++] for the characters [ds]. *)
Fixpoint put_from (buf : list Z) (i : Z) (ds : list Z) : option (list Z) :=
  match ds with
  | [] => Some buf
  | c :: ds => buf ← lset buf i c; put_from buf (i + 1) ds
  end.

(** The array at [buf] afterwards. *)
Definition ece391_itoa (value : Z) (buf : list Z) (radix : Z) : option (list Z) :=
  if value =? 0 then buf ← lset buf 0 48; lset buf 1 0
  else
    ds ← itoa_loop 33 value (u32 radix);
    buf ← put_from buf 0 (ds ++ [0]);
    ece391_strrev buf.

Section programs.
Context {P : Platform}.

(** An array on the stack that nothing has been stored in. *)
Definition local_array (n : nat) : list Z := replicate n (u8 stack_junk).

(** ** ece391testprint.c, ece391hello.c *)

Definition testprint_main : prog Z :=
  ece391_fdputs 1 (lit_line "Hello, if this ran, the program was correct. Yay!") ;; Ret 0.

Definition hello_main : prog Z :=
  ece391_fdputs 1 (lit "Hi, what's your name? ") ;;
  r_ <- read 0 (local_array 1024) 1023 ;; let '(cnt, buf) := r_ in
  if cnt =? -1 then ece391_fdputs 1 (lit_line "Can't read name from keyboard.") ;; Ret 3
  else
    buf <- defined (lset buf cnt 0) ;;
    ece391_fdputs 1 (lit "Hello, ") ;;
    ece391_fdputs 1 buf ;;
    Ret 0.

(** ** ece391cat.c *)

Definition cat_round (fd : Z) (buf : list Z) : prog (list Z + Z) :=
  r_ <- read fd buf 1024 ;;
  let '(cnt, buf) := r_ in
  if cnt =? 0 then Ret (inr 0)
  else if cnt =? -1 then ece391_fdputs 1 (lit_line "file read failed") ;; Ret (inr 3)
  else
    w <- write 1 buf cnt ;;
    if w =? -1 then Ret (inr 3) else Ret (inl buf).
Definition cat_loop (fd : Z) : list Z -> prog Z := ITree.iter (cat_round fd).

Definition cat_main : prog Z :=
  r_ <- getargs (local_array 1024) 1024 ;; let '(r, buf) := r_ in
  if negb (r =? 0) then ece391_fdputs 1 (lit_line "could not read arguments") ;; Ret 3
  else
    fd <- open buf ;;
    if fd =? -1 then ece391_fdputs 1 (lit_line "file not found") ;; Ret 2
    else cat_loop fd buf.

(** ** ece391ls.c *)

Definition ls_round (fd : Z) (buf : list Z) : prog (list Z + Z) :=
  r_ <- read fd buf 32 ;;
  let '(cnt, buf) := r_ in
  if cnt =? 0 then Ret (inr 0)
  else if cnt =? -1 then
    ece391_fdputs 1 (lit_line "directory entry read failed") ;; Ret (inr 3)
  else
    buf <- defined (lset buf cnt 10) ;;
    w <- write 1 buf (cnt + 1) ;;
    if w =? -1 then Ret (inr 3) else Ret (inl buf).
Definition ls_loop (fd : Z) : list Z -> prog Z := ITree.iter (ls_round fd).

Definition ls_main : prog Z :=
  fd <- open (lit ".") ;;
  if fd =? -1 then ece391_fdputs 1 (lit_line "directory open failed") ;; Ret 2
  else ls_loop fd (local_array 33).

(** ** ece391shell.c *)

(** One round of the loop: the prompt, a line, the command. *)
Definition shell_round (buf : list Z) : prog (list Z + Z) :=
  ece391_fdputs 1 (lit "391OS> ") ;;
  r_ <- read 0 buf 1023 ;; let '(cnt, buf) := r_ in
  if cnt =? -1 then
    ece391_fdputs 1 (lit_line "read from keyboard failed") ;; Ret (inr 3)
  else
    last <- (if 0 <? cnt then defined (lget buf (cnt - 1)) else Ret 0) ;;
    let cnt := if (0 <? cnt) && (last =? 10) then cnt - 1 else cnt in
    buf <- defined (lset buf cnt 0) ;;
    r <- defined (ece391_strcmp buf (lit "exit")) ;;
    if r =? 0 then Ret (inr 0)
    else
      c <- defined (lget buf 0) ;;
      if c =? 0 then Ret (inl buf)
      else
        rval <- execute buf ;;
        (if rval =? -1 then ece391_fdputs 1 (lit_line "no such command")
         else if rval =? 256 then
           ece391_fdputs 1 (lit_line "program terminated by exception")
         else if negb (rval =? 0) then
           ece391_fdputs 1 (lit_line "program terminated abnormally")
         else Ret tt) ;;
        Ret (inl buf).

Definition shell_main : prog Z :=
  ece391_fdputs 1 (lit_line "Starting 391 Shell") ;;
  ITree.iter shell_round (local_array 1024).

(** ** ece391counter.c *)

Fixpoint count_loop (n : nat) (i : Z) (buf : list Z) : prog unit :=
  match n with
  | O => Ret tt
  | S n =>
      buf <- defined (ece391_itoa (u32 (i + 1)) buf 10) ;;
      ece391_fdputs 1 buf ;;
      ece391_fdputs 1 (lit_line "") ;;
      count_loop n (i + 1) buf
  end.

(** The number of a choice; another character leaves [max] at 0. *)
Definition counter_max (c : Z) : Z :=
  if c =? 48 then 100 else if c =? 49 then 10000 else if c =? 50 then 100000 else 0.

Definition counter_main : prog Z :=
  ece391_fdputs 1 (lit_line "Enter the Test Number: (0): 100, (1): 10000, (2): 100000") ;;
  r_ <- read 0 (local_array 1024) 1023 ;; let '(cnt, buf) := r_ in
  if u32 cnt =? u32 (-1) then
    ece391_fdputs 1 (lit_line "Can't read the number from keyboard.") ;; Ret 3
  else
    buf <- defined (lset buf (u32 cnt) 0) ;;
    n <- defined (ece391_strlen buf) ;;
    c <- defined (lget buf 0) ;;
    if (2 <? n) || ((n =? 2) && ((c <? 48) || (50 <? c))) then
      ece391_fdputs 1 (lit_line "Wrong Choice!") ;; Ret 0
    else count_loop (Z.to_nat (counter_max c)) 0 buf ;; Ret 0.

(** ** ece391grep.c *)

(** [while (line_end < last && '\n' != data[line_end]) line_end++], at most
    [n] rounds. *)
Fixpoint find_line_end (n : nat) (data : list Z) (line_end last : Z) : option Z :=
  if line_end <? last then
    c ← lget data line_end;
    if c =? 10 then Some line_end
    else match n with
         | O => None
         | S n => find_line_end n data (line_end + 1) last
         end
  else Some line_end.

(** The search of a line: from [check] on, [n] positions are left. [s] is a
    [char *], whose characters are signed, and [data] is unsigned. *)
Fixpoint search_line (n : nat) (s fname data : list Z) (s_len line_start check : Z) : prog unit :=
  match n with
  | O => Ret tt
  | S n =>
      c0 <- defined (lget s 0) ;;
      c <- defined (lget data check) ;;
      r <- (if s8 c0 =? c
            then defined (ece391_strncmp (drop (Z.to_nat check) data) s s_len) else Ret 1) ;;
      if r =? 0 then
        ece391_fdputs 1 fname ;;
        ece391_fdputs 1 (lit ":") ;;
        ece391_fdputs 1 (drop (Z.to_nat line_start) data) ;;
        ece391_fdputs 1 (lit_line "")
      else search_line n s fname data s_len line_start (check + 1)
  end.

(** The inner [while (1)]: the state is [line_start] and [data]; the result
    is the new [last] with [data]. *)
Definition search_lines (s fname : list Z) (s_len cnt last : Z)
  : Z * list Z -> prog (Z * list Z) :=
  ITree.iter (fun st =>
    let '(line_start, data) := st in
    line_end <- defined (find_line_end (Z.to_nat (last - line_start)) data line_start last) ;;
    c <- defined (lget data line_end) ;;
    if negb (c =? 10) && negb (cnt =? 0) && negb (line_start =? 0) then
      data <- defined (lset data line_end 0) ;;
      data <- defined (ece391_strcpy data 0 line_start) ;;
      Ret (inr (last - line_start, data))
    else
      data <- defined (lset data line_end 0) ;;
      search_line (Z.to_nat (line_end - line_start)) s fname data s_len line_start line_start ;;
      let line_start := line_end + 1 in
      if last <=? line_start then Ret (inr (0, data)) else Ret (inl (line_start, data))).

(** The outer [while (1)]: [Some] is an early [return]. *)
Definition grep_loop (s fname : list Z) (s_len fd : Z) : Z * list Z -> prog (option Z) :=
  ITree.iter (fun st =>
    let '(last, data) := st in
    r_ <- read fd (drop (Z.to_nat last) data) (1024 - last) ;;
    let '(cnt, tail) := r_ in
    let data := take (Z.to_nat last) data ++ tail in
    if cnt =? -1 then
      ece391_fdputs 1 (lit_line "file read failed") ;; Ret (inr (Some (-1)))
    else
      r_ <- search_lines s fname s_len cnt (last + cnt) (0, data) ;;
      let '(last, data) := r_ in
      if cnt =? 0 then Ret (inr None) else Ret (inl (last, data))).

Definition do_one_file (s fname : list Z) : prog Z :=
  n <- defined (ece391_strlen s) ;;
  let s_len := s32 n in
  fd <- open fname ;;
  if fd =? -1 then ece391_fdputs 1 (lit_line "file open failed") ;; Ret (-1)
  else
    r <- grep_loop s fname s_len fd (0, local_array 1025) ;;
    match r with
    | Some r => Ret r
    | None =>
        c <- close fd ;;
        if c =? -1 then ece391_fdputs 1 (lit_line "file close failed") ;; Ret (-1)
        else Ret 0
    end.

Definition grep_files (search : list Z) (fd : Z) : list Z -> prog Z :=
  ITree.iter (fun buf =>
    r_ <- read fd buf 32 ;;
    let '(cnt, buf) := r_ in
    if cnt =? 0 then Ret (inr 0)
    else if cnt =? -1 then
      ece391_fdputs 1 (lit_line "directory entry read failed") ;; Ret (inr 3)
    else
      c <- defined (lget buf 0) ;;
      if c =? 46 then Ret (inl buf)
      else
        buf <- defined (lset buf cnt 0) ;;
        r <- do_one_file search buf ;;
        if negb (r =? 0) then Ret (inr 3) else Ret (inl buf)).

Definition grep_main : prog Z :=
  r_ <- getargs (local_array 1024) 1024 ;;
  let '(r, search) := r_ in
  if negb (r =? 0) then ece391_fdputs 1 (lit_line "could not read argument") ;; Ret 3
  else
    fd <- open (lit ".") ;;
    if fd =? -1 then ece391_fdputs 1 (lit_line "directory open failed") ;; Ret 2
    else grep_files search fd (local_array 33).

(** ** ece391pingpong.c *)

(** [BUFMAX], and [LOOPMAX], which expands to 79 + 2 - 2 - 1. *)
Definition BUFMAX : Z := 81.
Definition STARTLOOP : Z := 2.
Definition LOOPMAX : Z := 78.

(** [buf[i] = ' '] for [i] from [i] on, [n] rounds. *)
Fixpoint blank (n : nat) (i : Z) (buf : list Z) : option (list Z) :=
  match n with
  | O => Some buf
  | S n => buf ← lset buf i 32; blank n (i + 1) buf
  end.

Definition pingpong_init : option (list Z) :=
  buf ← blank (Z.to_nat BUFMAX) 0 (local_array (Z.to_nat BUFMAX));
  buf ← lset buf (BUFMAX - 1) 0;
  buf ← lset buf (BUFMAX - 2) 10;
  buf ← lset buf (BUFMAX - 3) 124;
  lset buf 1 124.

(** The world with [curchar] at [j]. *)
Definition frame (buf : list Z) (j curchar : Z) : option (list Z) :=
  buf ← blank (Z.to_nat (LOOPMAX - STARTLOOP)) STARTLOOP buf; lset buf j curchar.

(** [n] frames, the character moving by [step]. *)
Fixpoint sweep (n : nat) (j step curchar rtc_fd : Z) (buf : list Z) : prog (list Z) :=
  match n with
  | O => Ret buf
  | S n =>
      buf <- defined (frame buf j curchar) ;;
      ece391_fdputs 1 buf ;;
      read rtc_fd (local_array 4) 4 ;;
      sweep n (j + step) step curchar rtc_fd buf
  end.

Definition next_char (curchar : Z) : Z := if curchar =? 90 then 65 else u8 (curchar + 1).

Definition pingpong_round (rtc_fd : Z) (st : Z * list Z) : prog (Z * list Z + void) :=
  let '(curchar, buf) := st in
  let n := Z.to_nat (LOOPMAX - STARTLOOP) in
  buf <- sweep n STARTLOOP 1 curchar rtc_fd buf ;;
  buf <- sweep n (LOOPMAX - 1) (-1) curchar rtc_fd buf ;;
  Ret (inl (next_char curchar, buf)).

Definition pingpong_main : prog void :=
  buf <- defined pingpong_init ;;
  rtc_fd <- open (lit "rtc") ;;
  write rtc_fd [32; 0; 0; 0] 4 ;;
  ITree.iter (pingpong_round rtc_fd) (65, buf).

(** ** ece391sigtest.c *)

Definition SEGFAULT : Z := 1.
Definition ALARM : Z := 3.

(** [badbuf] and [charbuf] are the addresses of the two static variables,
    [segfault] and [alarm] those of the handlers. *)
Definition sigtest_main (badbuf charbuf segfault alarm : Z) : prog Z :=
  r_ <- getargs (local_array 1024) 1024 ;;
  let '(r, buf) := r_ in
  if negb (r =? 0) then ece391_fdputs 1 (lit_line "could not read argument") ;; Ret 3
  else
    c <- defined (lget buf 0) ;;
    (if c =? 49 then
       ece391_fdputs 1 (lit_line "Installing signal handlers") ;;
       set_handler SEGFAULT segfault ;;
       set_handler ALARM alarm ;;
       Ret tt
     else Ret tt) ;;
    ece391_fdputs 1 (lit "Hi, what's your name? ") ;;
    r_ <- read 0 buf 1023 ;;
    let '(cnt, buf) := r_ in
    if cnt =? -1 then ece391_fdputs 1 (lit_line "Can't read name from keyboard.") ;; Ret 3
    else
      p <- ITree.trigger (Load badbuf 4) ;;
      ITree.trigger (Store p 1 1) ;;
      buf <- defined (lset buf cnt 0) ;;
      ece391_fdputs 1 (lit "Hello, ") ;;
      ece391_fdputs 1 buf ;;
      v <- ITree.trigger (Load charbuf 1) ;;
      (if v =? 1 then ece391_fdputs 1 (lit_line "success")
       else ece391_fdputs 1 (lit_line "failure")) ;;
      Ret 0.

(** The [switch] of the two handlers. *)
Definition print_signum (signum : Z) : prog unit :=
  if signum =? 0 then ece391_fdputs 1 (lit_line "0")
  else if signum =? 1 then ece391_fdputs 1 (lit_line "1")
  else if signum =? 2 then ece391_fdputs 1 (lit_line "2")
  else if signum =? 3 then ece391_fdputs 1 (lit_line "3")
  else ece391_fdputs 1 (lit_line "invalid").

(** [arg] is the address of the parameter, seven words below the saved EAX. *)
Definition segfault_sighandler (badbuf charbuf arg signum : Z) : prog unit :=
  ece391_fdputs 1 (lit "Segfault signal handler called, signum: ") ;;
  print_signum signum ;;
  ece391_fdputs 1 (lit_line "Press enter to continue...") ;;
  read 0 (local_array 1) 1 ;;
  ITree.trigger (Store badbuf 4 charbuf) ;;
  ITree.trigger (Store (u32 (arg + 28)) 4 charbuf) ;;
  ece391_fdputs 1 (lit_line "Signal handler returning").

Definition alarm_sighandler (signum : Z) : prog unit :=
  ece391_fdputs 1 (lit "Alarm signal handler called, signum: ") ;;
  print_signum signum.

(** ** ece391syserr.c *)

Definition NEG_FD : Z := -1073741823.
Definition BIG_FD : Z := 1073741823.
Definition NEG_NUM : Z := -1073741823.
Definition BIG_NUM : Z := 1073741823.
Definition call_sys (num : Z) : prog Z := ITree.trigger (SysRaw num).

(** [if (-1 != r) { fail = 2; puts }] for the result [r] of a call. *)
Definition expect_fail (r fail : Z) (msg : list Z) : prog Z :=
  if negb (r =? -1) then ece391_fdputs 1 msg ;; Ret 2 else Ret fail.
Definition verdict (fail : Z) (name : string) : prog Z :=
  (if negb (fail =? 0) then ece391_fdputs 1 (chars name ++ lit_line ": FAIL")
   else ece391_fdputs 1 (chars name ++ lit_line ": PASS")) ;;
  Ret fail.

(** [err_neg_fd] and [err_big_fd] differ in the descriptor. *)
Definition err_fd (fd : Z) (name : string) : prog Z :=
  r_ <- read fd (local_array 32) 31 ;;
  let '(r, buf) := r_ in
  fail <- expect_fail r 0 (lit_line "read fail") ;;
  r <- write fd buf 31 ;;
  fail <- expect_fail r fail (lit_line "write fail") ;;
  r <- close fd ;;
  fail <- expect_fail r fail (lit_line "close fail") ;;
  verdict fail name.
Definition err_neg_fd : prog Z := err_fd NEG_FD "err_neg_fd".
Definition err_big_fd : prog Z := err_fd BIG_FD "err_big_fd".

(** [n] rounds of the loop that opens, from the count [cnt]. *)
Fixpoint open_lots (n : nat) (cnt : Z) : prog Z :=
  match n with
  | O => Ret cnt
  | S n => r <- open (lit ".") ;; open_lots n (if r =? -1 then cnt + 1 else cnt)
  end.
Fixpoint close_from (n : nat) (i : Z) : prog unit :=
  match n with
  | O => Ret tt
  | S n => close i ;; close_from n (i + 1)
  end.
Definition err_open_lots : prog Z :=
  cnt <- open_lots 7 0 ;;
  close_from 6 2 ;;
  if cnt =? 1 then ece391_fdputs 1 (lit_line "err_open_lots: PASS") ;; Ret 0
  else ece391_fdputs 1 (lit_line "err_open_lots: FAIL") ;; Ret 2.

Definition err_open : prog Z :=
  r <- open (lit "helloo") ;;
  fail <- expect_fail r 0 (lit_line "'helloo' fail") ;;
  r <- open (lit "shel") ;;
  fail <- expect_fail r fail (lit_line "'shel' fail") ;;
  r <- open (lit "") ;;
  fail <- expect_fail r fail (lit_line "empty string fail") ;;
  verdict fail "err_open".

(** The loops of [err_unopened]: from [i] on, [n] rounds. *)
Fixpoint close_fails (n : nat) (i fail : Z) : prog Z :=
  match n with
  | O => Ret fail
  | S n =>
      r <- close i ;;
      fail <- expect_fail r fail (lit_line "close unopened or invalid fd fail") ;;
      close_fails n (i + 1) fail
  end.
Fixpoint read_fails (n : nat) (i fail : Z) (buf : list Z) : prog (Z * list Z) :=
  match n with
  | O => Ret (fail, buf)
  | S n =>
      r_ <- read i buf 31 ;;
      let '(r, buf) := r_ in
      fail <- expect_fail r fail (lit_line "read from unopened fd fail") ;;
      read_fails n (i + 1) fail buf
  end.
Fixpoint write_fails (n : nat) (i fail : Z) (buf : list Z) : prog Z :=
  match n with
  | O => Ret fail
  | S n =>
      r <- write i buf 31 ;;
      fail <- expect_fail r fail (lit_line "write to unopened fd fail") ;;
      write_fails n (i + 1) fail buf
  end.
Definition err_unopened : prog Z :=
  fail <- close_fails 8 0 0 ;;
  r_ <- read_fails 6 2 fail (local_array 32) ;;
  let '(fail, buf) := r_ in
  fail <- write_fails 6 2 fail buf ;;
  verdict fail "err_unopened".

Definition err_vidmap : prog Z :=
  r <- vidmap 0 ;;
  fail <- expect_fail r 0 (lit_line "Null pointer fail") ;;
  r <- vidmap 0x400000 ;;
  fail <- expect_fail r fail (lit_line "Kernel pointer fail fail") ;;
  verdict fail "err_vidmap".

Definition err_stdin_out : prog Z :=
  r <- write 0 (local_array 32) 31 ;;
  fail <- expect_fail r 0 (lit_line "write to stdin fail") ;;
  r_ <- read 1 (local_array 32) 31 ;;
  fail <- expect_fail (fst r_) fail (lit_line "read from stdout fail") ;;
  verdict fail "err_stdin_out".

Definition err_syscall_num : prog Z :=
  r <- call_sys BIG_NUM ;;
  fail <- expect_fail r 0 (lit_line "syscall 0 fail") ;;
  r <- call_sys NEG_NUM ;;
  fail <- expect_fail r fail (lit_line "big num syscall fail") ;;
  r <- call_sys 0 ;;
  fail <- expect_fail r fail (lit_line "neg num syscall fail") ;;
  verdict fail "err_syscall_num".

Definition all_tests : prog Z :=
  a <- err_neg_fd ;; b <- err_big_fd ;; c <- err_open_lots ;; d <- err_open ;;
  e <- err_unopened ;; f <- err_vidmap ;; g <- err_stdin_out ;; h <- err_syscall_num ;;
  let fail := a + b + c + d + e + f + g + h in
  (if negb (fail =? 0) then ece391_fdputs 1 (10 :: lit_line "Overall Tests: FAIL")
   else ece391_fdputs 1 (10 :: lit_line "Overall Tests: PASS")) ;;
  Ret fail.

(** The [switch] of [main]. *)
Definition run_tests (select : Z) : prog Z :=
  if select =? 0 then all_tests
  else if select =? 1 then err_neg_fd
  else if select =? 2 then err_big_fd
  else if select =? 3 then err_open_lots
  else if select =? 4 then err_open
  else if select =? 5 then err_unopened
  else if select =? 6 then err_vidmap
  else if select =? 7 then err_stdin_out
  else if select =? 8 then err_syscall_num
  else
    ece391_fdputs 1 (lit "Invalid test number. Choose from tests 1-8 or 0") ;; Ret 0.

Definition syserr_main : prog Z :=
  ece391_fdputs 1 (lit "Choose from tests 1-8. 0 to run all: ") ;;
  r_ <- read 0 (local_array 128) 127 ;;
  let '(cnt, buf) := r_ in
  if cnt =? -1 then ece391_fdputs 1 (lit_line "Can't read test #") ;; Ret 2
  else c <- defined (lget buf 0) ;; run_tests (c - 48).
End programs.
