(* ===== verification/UserLib.v ===== *)
(** * The user library: what its functions compute, and that they agree with
    the kernel's own (lib.c) *)
From ITree Require Import ITree.
From S2P Require Import Prelude State Strings User.

(** ** Strings *)

Lemma ece391_strlen_cstring str t :
  cstring str t -> Z.of_nat (length t) < 4294967296 ->
  ece391_strlen str = Some (Z.of_nat (length t)).
Proof.
  intros [Ht [rest ->]] Hl. induction Ht as [|c t Hc _ IH]; [done|]. cbn [ece391_strlen app length] in *.
  rewrite (proj2 (Z.eqb_neq c 0)), IH by lia. cbn. f_equal. rewrite u32_small; lia.
Qed.

Lemma cstring_length str t : cstring str t -> (length t < length str)%nat.
Proof. intros [_ [r ->]]. rewrite length_app. cbn. lia. Qed.
Lemma cstring_take str t : cstring str t -> take (length t) str = t.
Proof. intros [_ [r ->]]. by rewrite take_app_length. Qed.
Lemma cstring_bytes str t : cstring str t -> Forall (fun c => 0 <= c < 256) t.
Proof. intros [H _]. eapply Forall_impl; [exact H|]. cbv beta. intros. lia. Qed.

(** Two strings are compared character by character: the cases. *)
Lemma cstring_ind2 (Q : list Z -> list Z -> list Z -> list Z -> Prop) :
  (forall r1 r2, Q (0 :: r1) [] (0 :: r2) []) ->
  (forall r1 c s2 t2, 0 < c -> Q (0 :: r1) [] (c :: s2) (c :: t2)) ->
  (forall c s1 t1 r2, 0 < c -> Q (c :: s1) (c :: t1) (0 :: r2) []) ->
  (forall c d s1 t1 s2 t2, 0 < c -> 0 < d -> c <> d -> Q (c :: s1) (c :: t1) (d :: s2) (d :: t2)) ->
  (forall c s1 t1 s2 t2, 0 < c -> Q s1 t1 s2 t2 -> Q (c :: s1) (c :: t1) (c :: s2) (c :: t2)) ->
  forall s1 t1 s2 t2, cstring s1 t1 -> cstring s2 t2 -> Q s1 t1 s2 t2.
Proof.
  intros H1 H2 H3 H4 H5 s1 t1 s2 t2 [A [r1 ->]] [B [r2 ->]]. revert t2 B.
  induction A as [|c t1 Hc A IH]; intros t2 [|d t2' Hd B]; cbn [app];
    [apply H1|apply H2; lia|apply H3; lia|].
  destruct (decide (c = d)) as [->|Hne]; [apply H5; [lia|by apply IH]|apply H4; lia].
Qed.

Lemma ece391_strcmp_cstring s1 s2 t1 t2 :
  cstring s1 t1 -> cstring s2 t2 ->
  exists r, ece391_strcmp s1 s2 = Some r /\ (r = 0 <-> t1 = t2).
Proof.
  intros H1 H2. revert s1 t1 s2 t2 H1 H2. apply cstring_ind2; cbn [ece391_strcmp]; intros.
  - by exists 0.
  - rewrite (proj2 (Z.eqb_neq _ _)) by lia. eexists. split; [done|]. split; [lia|done].
  - rewrite (proj2 (Z.eqb_neq _ _)) by lia. eexists. split; [done|]. split; [lia|done].
  - rewrite (proj2 (Z.eqb_neq c d)) by lia. eexists. split; [done|]. split; [lia|congruence].
  - rewrite Z.eqb_refl, (proj2 (Z.eqb_neq _ _)) by lia. destruct H0 as (r & -> & Hr).
    exists r. split; [done|]. rewrite Hr. split; [by intros ->|by intros [=]].
Qed.

Lemma strncmp_while_cstring s1 s2 t1 t2 :
  cstring s1 t1 -> cstring s2 t2 -> forall n, 0 < n < 4294967296 ->
  exists r, strncmp_while s1 s2 n = Some r /\
    (r = 0 <-> take (Z.to_nat n) t1 = take (Z.to_nat n) t2).
Proof.
  intros H1 H2. revert s1 t1 s2 t2 H1 H2.
  apply (cstring_ind2 (fun s1 t1 s2 t2 => forall n, 0 < n < 4294967296 ->
    exists r, strncmp_while s1 s2 n = Some r /\
      (r = 0 <-> take (Z.to_nat n) t1 = take (Z.to_nat n) t2))); cbn [strncmp_while]; intros.
  - by exists 0.
  - rewrite (proj2 (Z.eqb_neq _ _)) by lia. eexists. split; [done|].
    replace (Z.to_nat n) with (S (Z.to_nat (n - 1))) by lia. split; [lia|done].
  - rewrite (proj2 (Z.eqb_neq _ _)) by lia. eexists. split; [done|].
    replace (Z.to_nat n) with (S (Z.to_nat (n - 1))) by lia. split; [lia|done].
  - rewrite (proj2 (Z.eqb_neq c d)) by lia. eexists. split; [done|].
    replace (Z.to_nat n) with (S (Z.to_nat (n - 1))) by lia. split; [lia|]. cbn. congruence.
  - rewrite Z.eqb_refl, (proj2 (Z.eqb_neq c 0)), u32_small by lia.
    replace (Z.to_nat n) with (S (Z.to_nat (n - 1))) by lia. cbn [take].
    destruct (Z.eqb_spec (n - 1) 0) as [E|E].
    + exists 0. split; [done|]. by rewrite E.
    + destruct (H0 (n - 1)) as (r & -> & Hr); [lia|]. exists r. split; [done|]. rewrite Hr.
      split; [by intros ->|by intros [=]].
Qed.

Lemma ece391_strrev_agrees str t :
  cstring str t -> Z.of_nat (length t) < 2147483648 -> ece391_strrev str = strrev str.
Proof.
  intros Hc Hl. unfold ece391_strrev, strrev.
  rewrite (ece391_strlen_cstring str t), (strlen_cstring str t) by (done || lia).
  cbn [mbind option_bind]. rewrite s32_small by lia. destruct (Z.leb_spec (Z.of_nat (length t) - 1) 0); [|done].
  cbn [strrev_loop]. by rewrite (proj2 (Z.ltb_ge _ _)) by lia.
Qed.

(** Within an array the characters move down, as [memmove] would. *)
Lemma strcpy_within_down t : forall n a x r,
  Forall (fun c => 0 < c < 256) t -> x <> [] -> (length t < n)%nat ->
  strcpy_within n (a ++ x ++ t ++ 0 :: r) (Z.of_nat (length a)) (Z.of_nat (length a + length x)) =
    Some (a ++ t ++ 0 :: drop (S (length t)) (x ++ t ++ 0 :: r)).
Proof.
  induction t as [|c t IH]; intros n a x r Ht Hx Hn; (destruct n as [|n]; [cbn in Hn; lia|]);
    (destruct x as [|y x]; [done|]); cbn [strcpy_within].
  - assert (E : lget (a ++ (y :: x) ++ [] ++ 0 :: r) (Z.of_nat (length a + length (y :: x))) = Some 0).
    { unfold lget. rewrite decide_True, Nat2Z.id by lia.
      rewrite app_assoc, lookup_app_r by (rewrite length_app; lia). by rewrite length_app, Nat.sub_diag. }
    rewrite E. cbn [mbind option_bind]. rewrite lset_Some by (rewrite !length_app; cbn; lia).
    cbn [mbind option_bind]. change (0 =? 0) with true. cbv iota. f_equal.
    by rewrite Nat2Z.id, insert_app_r_alt, Nat.sub_diag by lia.
  - apply Forall_cons in Ht as [Hc Ht].
    assert (E : lget (a ++ (y :: x) ++ (c :: t) ++ 0 :: r) (Z.of_nat (length a + length (y :: x))) = Some c).
    { unfold lget. rewrite decide_True, Nat2Z.id by lia.
      rewrite app_assoc, lookup_app_r by (rewrite length_app; lia). by rewrite length_app, Nat.sub_diag. }
    rewrite E. cbn [mbind option_bind]. rewrite lset_Some by (rewrite !length_app; cbn; lia).
    cbn [mbind option_bind]. rewrite (proj2 (Z.eqb_neq c 0)) by lia.
    rewrite Nat2Z.id, insert_app_r_alt, Nat.sub_diag by lia. cbn [app insert list_insert].
    specialize (IH n (a ++ [c]) (x ++ [c]) r Ht ltac:(by destruct x) ltac:(cbn in Hn; lia)).
    rewrite !length_app in IH. cbn [length] in *.
    replace (Z.of_nat (length a + 1)) with (Z.of_nat (length a) + 1) in IH by lia.
    replace (Z.of_nat (length a + 1 + (length x + 1))) with (Z.of_nat (length a + S (length x)) + 1) in IH
      by lia.
    rewrite <-!app_assoc in IH. cbn [app] in IH. by rewrite IH.
Qed.

(** ** Numbers *)

Lemma put_from_overlay ds : forall a b,
  (length ds <= length b)%nat ->
  put_from (a ++ b) (Z.of_nat (length a)) ds = Some (a ++ ds ++ drop (length ds) b).
Proof.
  induction ds as [|c ds IH]; intros a b Hl; cbn [put_from]; [by rewrite drop_0|].
  destruct b as [|y b]; [cbn in Hl; lia|].
  rewrite lset_Some by (rewrite length_app; cbn; lia). cbn [mbind option_bind].
  rewrite Nat2Z.id, insert_app_r_alt, Nat.sub_diag by lia. cbn [insert list_insert].
  specialize (IH (a ++ [c]) b ltac:(cbn in Hl; lia)). rewrite length_app, <-app_assoc in IH.
  cbn [length app] in IH. replace (Z.of_nat (length a + 1)) with (Z.of_nat (length a) + 1) in IH by lia.
  by rewrite IH, <-app_assoc.
Qed.

(** The digits of a number, from the lowest on, and the string [itoa] makes of them. *)
Lemma ece391_itoa_string value radix buf ds :
  2 <= radix <= 36 -> 0 <= value < 4294967296 -> (33 <= length buf)%nat ->
  itoa value radix = Some (ds ++ [0]) ->
  ece391_itoa value buf radix = Some (ds ++ 0 :: drop (S (length ds)) buf).
Proof.
  intros Hr Hv Hb. unfold itoa, ece391_itoa. autorewrite with width.
  rewrite (proj2 (Z.eqb_neq radix 0)) by lia. destruct (Z.eqb_spec value 0) as [->|Hv0].
  { intros [= E]. apply (app_inv_tail [0] [48] ds) in E as <-.
    destruct buf as [|x [|y buf]]; [cbn in Hb; lia|cbn in Hb; lia|]. rewrite lset_Some by (cbn [length]; lia).
    cbn [mbind option_bind]. rewrite lset_Some by (rewrite length_insert; cbn [length]; lia). reflexivity. }
  destruct (itoa_loop_spec 33 value radix) as (es & -> & Hp & Hd & Hl & Hz & He);
    [done|change (2 ^ _) with 4294967296; lia|lia|]. cbn [mbind option_bind].
  assert (Hes : Forall (fun c => 0 < c < 256) es).
  { eapply Forall_impl; [exact Hd|]. intros c [Hc _]. lia. }
  destruct (strrev_cstring (es ++ [0]) es) as (rest & Hrest & ->); [split; [done|by exists []]|].
  apply app_inv_head in Hrest. injection Hrest as <-. intros [= E].
  apply app_inj_tail in E as [<- _]. rewrite length_rev.
  pose proof (put_from_overlay (es ++ [0]) [] buf ltac:(rewrite length_app; cbn; lia)) as E.
  cbn [app length Z.of_nat] in E. change (Z.of_nat 0) with 0 in E. rewrite E. cbn [mbind option_bind]. rewrite <-app_assoc.
  replace (length (es ++ [0])) with (S (length es)) by (rewrite length_app; cbn; lia).
  set (tail := drop (S (length es)) buf). change ([0] ++ tail) with (0 :: tail).
  assert (Hc : cstring (es ++ 0 :: tail) es) by (split; [done|by exists tail]).
  rewrite (ece391_strrev_agrees _ es) by (done || lia).
  destruct (strrev_cstring _ _ Hc) as (rest & Hrest & ->). f_equal.
  apply app_inv_head in Hrest. by injection Hrest as <-.
Qed.

(** ** Properties *)

(** C32: the user library computes what the kernel's library computes: on C
    strings the lengths and the reversals are the same, the comparisons agree
    on which strings (and which prefixes) are equal although one compares
    signed and the other unsigned characters, and a copy within an array
    moves the string down. *)
Theorem user_strings_agree s1 s2 t1 t2 n a x r :
  cstring s1 t1 -> cstring s2 t2 -> Z.of_nat (length t1) < 2147483648 -> 0 <= n < 4294967296 ->
  x <> [] -> s2 = t2 ++ 0 :: r ->
  ece391_strlen s1 = strlen s1 /\
  ece391_strrev s1 = strrev s1 /\
  (exists c, ece391_strcmp s1 s2 = Some c /\ (c = 0 <-> t1 = t2)) /\
  (exists c k, ece391_strncmp s1 s2 n = Some c /\ strncmp s1 s2 n = Some k /\
    (c = 0 <-> k = 0) /\ (c = 0 <-> take (Z.to_nat n) t1 = take (Z.to_nat n) t2)) /\
  ece391_strcpy (a ++ x ++ s2) (Z.of_nat (length a)) (Z.of_nat (length a + length x)) =
    Some (a ++ t2 ++ 0 :: drop (S (length t2)) (x ++ s2)).
Proof.
  intros H1 H2 Hl Hn Hx Hs2. split; [|split; [|split; [|split]]].
  - rewrite (ece391_strlen_cstring s1 t1), (strlen_cstring s1 t1); [done|done|done|lia].
  - by eapply ece391_strrev_agrees.
  - by apply ece391_strcmp_cstring.
  - destruct (strncmp_loop_cstring (Z.to_nat n) s1 s2 t1 t2 H1 H2) as (k & Hk & Hk0).
    unfold strncmp, ece391_strncmp. rewrite u32_small, Hk by lia.
    destruct (Z.eqb_spec n 0) as [->|Hn0]; [by exists 0, k; split_and!; try done; rewrite Hk0|].
    destruct (strncmp_while_cstring s1 s2 t1 t2 H1 H2 n) as (c & Hc & Hc0); [lia|].
    exists c, k. split_and!; try done. by rewrite Hc0, Hk0.
  - subst s2. unfold ece391_strcpy. apply strcpy_within_down; [apply H2|done|].
    rewrite !length_app. cbn. lia.
Qed.

Lemma user_strings_agree_witness :
  (exists c k, ece391_strncmp (lit "shell") (lit "shelf") 4 = Some c /\
    strncmp (lit "shell") (lit "shelf") 4 = Some k /\ (c = 0 <-> k = 0)) /\
  ece391_strcpy ([65] ++ [66; 66] ++ lit "shelf") 1 3 = Some ([65] ++ lit "shelf" ++ [102; 0]).
Proof.
  destruct (user_strings_agree (lit "shell") (lit "shelf") (chars "shell") (chars "shelf") 4
    [65] [66; 66] []) as (_ & _ & _ & (c & k & H1 & H2 & H3 & _) & H).
  - split; [repeat constructor; lia|by exists []].
  - split; [repeat constructor; lia|by exists []].
  - cbn. lia.
  - lia.
  - done.
  - done.
  - split; [by exists c, k|exact H].
Defined.

(** C31: [ece391_itoa] of a number in a base from 2 to 36 leaves at the start
    of a buffer of 33 bytes or more the same string as the kernel's [itoa],
    the numeral of the number without leading zeros, and nothing else of the
    buffer changes. *)
Theorem ece391_itoa_numeral value radix buf :
  2 <= radix <= 36 -> 0 <= value < 2 ^ 32 -> (33 <= length buf)%nat ->
  exists ds, ece391_itoa value buf radix = Some (ds ++ 0 :: drop (S (length ds)) buf) /\
    itoa value radix = Some (ds ++ [0]) /\
    parse radix ds = value /\ Forall (is_digit radix) ds /\ (0 < length ds <= 32)%nat /\
    (forall c, head ds = Some c -> c = 48 -> ds = [48]).
Proof.
  intros Hr Hv Hb. destruct (itoa_numeral value radix Hr Hv) as (ds & H1 & H2 & H3 & H4 & H5).
  exists ds. split; [|done]. by apply ece391_itoa_string.
Qed.

Lemma ece391_itoa_numeral_witness :
  exists ds, ece391_itoa 391 (replicate 40 7) 10 = Some (ds ++ 0 :: drop (S (length ds)) (replicate 40 7))
    /\ parse 10 ds = 391.
Proof.
  destruct (ece391_itoa_numeral 391 10 (replicate 40 7)) as (ds & H1 & _ & H2 & _);
    [lia|lia|cbn; lia|]. by exists ds.
Defined.
