(* ===== verification/UserRun.v ===== *)
(** * User programs on the kernel

    The calls of a program answered by the system calls of the kernel, through
    [int $0x80], with the program's arrays in its memory. *)
From ITree Require Import ITree.
From S2P Require Import Prelude State Monad Logic Strings Screen Proc Fs Interrupts Syscalls PagingSpec Exceptions Kernel User.

Section run.
Context {P : Platform}.
(** Where the array of a call lies, and what the registers hold that a program
    has not set. *)
Variables (ubuf ebx ecx edx : Z).

(** The [n] bytes of [v], the lowest first. *)
Fixpoint le_bytes (n : nat) (v : Z) : list Z :=
  match n with O => [] | S n => u8 v :: le_bytes n (v / 256) end.

(** An access of the program to the [n] bytes from [a] on: a page fault when
    user mode may not. *)
Fixpoint user_range (a : Z) (n : nat) : M unit :=
  match n with
  | O => ret tt
  | S n =>
      s <- gets id ;;
      match user_phys s a with
      | Some _ => user_range (a + 1) n
      | None => kernel_step (EvException exception_page_fault)
      end
  end.

(** A call answered. *)
Definition handle {T} (e : sysE T) : M T :=
  match e with
  | SysHalt status => system_call on_irq SYS_HALT (u32 status) 0 0
  | SysExecute command =>
      store_bytes ubuf command ;; system_call on_irq SYS_EXECUTE ubuf 0 0
  | SysRead fd buf nbytes =>
      store_bytes ubuf buf ;;
      r <- system_call on_irq SYS_READ (u32 fd) ubuf (u32 nbytes) ;;
      buf <- load_bytes ubuf (length buf) ;;
      ret (r, buf)
  | SysWrite fd buf nbytes =>
      store_bytes ubuf buf ;; system_call on_irq SYS_WRITE (u32 fd) ubuf (u32 nbytes)
  | SysOpen filename =>
      store_bytes ubuf filename ;; system_call on_irq SYS_OPEN ubuf 0 0
  | SysClose fd => system_call on_irq SYS_CLOSE (u32 fd) 0 0
  | SysGetargs buf nbytes =>
      store_bytes ubuf buf ;;
      r <- system_call on_irq SYS_GETARGS ubuf (u32 nbytes) 0 ;;
      buf <- load_bytes ubuf (length buf) ;;
      ret (r, buf)
  | SysVidmap a => system_call on_irq SYS_VIDMAP a 0 0
  | SysSetHandler signum h => system_call on_irq SYS_SET_HANDLER (u32 signum) h 0
  | SysRaw num => system_call on_irq (u32 num) ebx ecx edx
  | Load a n => user_range a n ;; bs <- load_bytes a n ;; ret (le_word bs)
  | Store a n v => user_range a n ;; store_bytes a (le_bytes n v)
  | Undefined => stop_with (Fault OutOfBounds)
  end.

(** What a call puts on the standard output. *)
Definition output_of {T} (e : sysE T) : list Z :=
  match e with
  | SysWrite fd buf nbytes => if fd =? 1 then take (Z.to_nat nbytes) buf else []
  | _ => []
  end.

(** The output of a program and its outcome, [None] when [fuel] steps are not
    enough. *)
Fixpoint run {A} (fuel : nat) (t : itree sysE A) (s : kstate) : option (list Z * out A) :=
  match fuel with
  | O => None
  | S fuel =>
      match observe t with
      | RetF a => Some ([], Monad.Ret a s)
      | TauF t => run fuel t s
      | VisF e k =>
          match handle e s with
          | Monad.Ret x s' => r ← run fuel (k x) s'; Some (output_of e ++ fst r, snd r)
          | Stop w s' => Some (output_of e, Stop w s')
          end
      end
  end.

(** ** Runs *)

(** [says t Q s]: the program comes to its end, with an output, a result and a
    state in [Q]. *)
Definition says {A} (t : itree sysE A) (Q : list Z -> A -> kstate -> Prop) (s : kstate) : Prop :=
  exists n o a s', run n t s = Some (o, Monad.Ret a s') /\ Q o a s'.
Definition runs {A} (t : itree sysE A) (Q : A -> kstate -> Prop) : kstate -> Prop :=
  says t (fun _ => Q).

Lemma run_more {A} n : forall (t : itree sysE A) s o k,
  run n t s = Some o -> run (n + k) t s = Some o.
Proof.
  induction n as [|n IH]; intros t s o k; [done|]. cbn [run Nat.add].
  destruct (observe t) as [a|u|X e h]; [done|by apply IH|].
  destruct (handle e s) as [x s'|w s']; [|done].
  destruct (run n (h x) s') as [r|] eqn:E; [|done]. by rewrite (IH _ _ _ k E).
Qed.

Lemma run_observe {A} n (t u : itree sysE A) s : observe t = observe u -> run n t s = run n u s.
Proof. intros E. destruct n; [done|]. cbn [run]. by rewrite E. Qed.

Lemma run_bind {A B} n : forall m (t : itree sysE A) (k : A -> itree sysE B) s o a s' r,
  run n t s = Some (o, Monad.Ret a s') -> run m (k a) s' = Some r ->
  run (n + m) (ITree.bind t k) s = Some (o ++ fst r, snd r).
Proof.
  induction n as [|n IH]; intros m t k s o a s' r Ht Hk; [done|]. cbn [run Nat.add] in *.
  change (observe (ITree.bind t k)) with
    (observe (match observe t with RetF a => k a | TauF t => go (TauF (ITree.bind t k))
     | VisF e h => go (VisF e (fun x => ITree.bind (h x) k)) end)).
  destruct (observe t) as [b|u|X e h].
  - injection Ht as <- -> ->. apply (run_more _ _ _ _ (S n)) in Hk. rewrite Nat.add_comm in Hk.
    destruct r. exact Hk.
  - by eapply IH.
  - simpl. destruct (handle e s) as [x s1|]; [|done].
    destruct (run n (h x) s1) as [[o1 r1]|] eqn:E; [|done]. cbn in Ht. injection Ht as <- ->.
    rewrite (IH m (h x) k s1 o1 a s' r E Hk). cbn. by rewrite app_assoc.
Qed.

Lemma says_mono {A} (t : itree sysE A) (Q Q' : list Z -> A -> kstate -> Prop) s :
  says t Q s -> (forall o a s', Q o a s' -> Q' o a s') -> says t Q' s.
Proof. intros (n & o & a & s' & H & HQ) HH. exists n, o, a, s'. split; [done|by apply HH]. Qed.

Lemma says_ret {A} (a : A) (Q : list Z -> A -> kstate -> Prop) s :
  Q [] a s -> says (go (RetF a)) Q s.
Proof. intros HQ. by exists 1%nat, [], a, s. Qed.

Lemma says_bind {A B} (t : itree sysE A) (k : A -> itree sysE B) Q s :
  says t (fun o a s' => says (k a) (fun o' => Q (o ++ o')) s') s -> says (ITree.bind t k) Q s.
Proof.
  intros (n & o & a & s' & H & m & o' & b & s2 & H2 & HQ).
  exists (n + m)%nat, (o ++ o'), b, s2. split; [|done].
  exact (run_bind _ _ _ _ _ _ _ _ _ H H2).
Qed.

Lemma says_trigger {T} (e : sysE T) Q s :
  wp (handle e) (Q (output_of e)) s -> says (ITree.trigger e) Q s.
Proof.
  intros (a & s' & H & HQ)%wp_Ret. exists 2%nat, (output_of e), a, s'. split; [|done].
  simpl. rewrite H. cbn. by rewrite app_nil_r.
Qed.

Lemma says_iter {I A} (body : I -> itree sysE (I + A)) i Q s :
  says (body i) (fun o r s' =>
    match r with
    | inl j => says (ITree.iter body j) (fun o' => Q (o ++ o')) s'
    | inr a => Q o a s'
    end) s ->
  says (ITree.iter body i) Q s.
Proof.
  set (again := fun lr : I + A =>
    match lr with inl l => go (TauF (ITree.iter body l)) | inr r => go (RetF r) end).
  intros (n & o & r & s' & H & HQ).
  assert (E : forall k, run k (ITree.iter body i) s = run k (ITree.bind (body i) again) s)
    by (intros k; by apply run_observe).
  destruct r as [j|a].
  - destruct HQ as (m & o' & a & s2 & H2 & HQ). exists (n + S m)%nat, (o ++ o'), a, s2.
    split; [|done]. rewrite E.
    assert (H3 : run (S m) (again (inl j)) s' = Some (o', Monad.Ret a s2)) by exact H2.
    exact (run_bind _ _ _ _ _ _ _ _ _ H H3).
  - exists (n + 1)%nat, o, a, s'. split; [|done]. rewrite E.
    assert (H3 : run 1 (again (inr a)) s' = Some ([], Monad.Ret a s')) by done.
    rewrite (run_bind _ _ _ _ _ _ _ _ _ H H3). cbn. by rewrite app_nil_r.
Qed.

Lemma says_defined {A} (o : option A) a (Q : list Z -> A -> kstate -> Prop) s :
  o = Some a -> Q [] a s -> says (defined o) Q s.
Proof. intros -> HQ. by apply says_ret. Qed.

(** The rules when the output does not matter. *)
Lemma runs_ret {A} (a : A) (Q : A -> kstate -> Prop) s : Q a s -> runs (go (RetF a)) Q s.
Proof. intros HQ. by apply says_ret. Qed.
Lemma runs_bind {A B} (t : itree sysE A) (k : A -> itree sysE B) Q s :
  runs t (fun a s' => runs (k a) Q s') s -> runs (ITree.bind t k) Q s.
Proof. intros HQ. by apply says_bind. Qed.
Lemma runs_trigger {T} (e : sysE T) Q s : wp (handle e) Q s -> runs (ITree.trigger e) Q s.
Proof. intros HQ. by apply says_trigger. Qed.
Lemma runs_defined {A} (o : option A) a (Q : A -> kstate -> Prop) s :
  o = Some a -> Q a s -> runs (defined o) Q s.
Proof. intros -> HQ. by apply runs_ret. Qed.
End run.
