(* ===== verification/Emulate.v ===== *)
(** * ece391emulate.c: the calls of the user library on a Linux host

    The emulation implements the calls of User.v over the calls of the host.
    What the host and its C library do is left to the handler of the events
    [linuxE]; the constants of their headers are the fields of [Headers]. *)
From ITree Require Import ITree.
From S2P Require Import Prelude State Strings User.

Local Notation "x <- t ;; k" := (ITree.bind t (fun x => k))
  (at level 100, t at next level, right associativity).
Local Notation "t ;; k" := (ITree.bind t (fun _ => k))
  (at level 100, right associativity).

Class Headers := {
  O_RDONLY : Z;
  O_RDWR : Z;
  MAP_FAILED : Z;
  WIFEXITED : Z -> bool;
  WEXITSTATUS : Z -> Z;
  WTERMSIG : Z -> Z;
}.

(** The calls of the host. The first five are [int $0x80] with the number of
    the call, and answer the word in EAX; the others are those of its C
    library. A [DIR*] is a number, [NULL] is 0; [CReaddir] answers the memory
    from the name of the entry on. [PutWord] stores a pointer through
    [screen_start]; [Faults] is what has no defined behaviour. *)
Variant linuxE : Type -> Type :=
  | LHalt (status : Z) : linuxE Z
  | LRead (fd : Z) (buf : list Z) (nbytes : Z) : linuxE (Z * list Z)
  | LWrite (fd : Z) (buf : list Z) (nbytes : Z) : linuxE Z
  | LOpen (filename : list Z) (flags : Z) : linuxE Z
  | LClose (fd : Z) : linuxE Z
  | COpen (path : list Z) (flags : Z) : linuxE Z
  | CClose (fd : Z) : linuxE Z
  | COpendir (path : list Z) : linuxE Z
  | CReaddir (dir : Z) : linuxE (option (list Z))
  | CClosedir (dir : Z) : linuxE Z
  | CFork : linuxE Z
  | CExecv (path : list Z) (args : list (list Z)) : linuxE Z
  | CGetpid : linuxE Z
  | CKill (pid sig : Z) : linuxE Z
  | CWait : linuxE Z
  | CMmap (length fd : Z) : linuxE Z
  | CPerror (s : list Z) : linuxE unit
  | PutWord (addr v : Z) : linuxE unit
  | Faults : linuxE void.

Notation host := (itree linuxE).

Definition in_bounds {A} (o : option A) : host A :=
  match o with
  | Some a => Ret a
  | None => x <- ITree.trigger Faults ;; match (x : void) with end
  end.

(** The variables of the file; [start_args] is what [start_esp] leads to, the
    memory from each of the [argc] pointers of [argv] on. *)
Record emu_t := mk_emu {
  start_args : list (list Z);
  dir_fd : Z;
  dir : Z;
  mem_fd : Z;
}.

(** [DO_CALL]: the results from 0xFFFFC001 on are failures. *)
Definition do_call (eax : Z) : Z := if u32 eax <=? 0xFFFFC000 then s32 eax else -1.

Definition __ece391_read (fd : Z) (buf : list Z) (nbytes : Z) : host (Z * list Z) :=
  r <- ITree.trigger (LRead fd buf nbytes) ;; Ret (do_call (fst r), snd r).
Definition __ece391_write (fd : Z) (buf : list Z) (nbytes : Z) : host Z :=
  r <- ITree.trigger (LWrite fd buf nbytes) ;; Ret (do_call r).
Definition __ece391_close (fd : Z) : host Z :=
  r <- ITree.trigger (LClose fd) ;; Ret (do_call r).
Definition ece391_halt (status : Z) : host Z :=
  r <- ITree.trigger (LHalt status) ;; Ret (do_call r).

(** [_start]: the stack pointer is kept, [main] called, and its result handed
    to [ece391_halt]. *)
Definition emu_start (args : list (list Z)) (main : emu_t -> host (emu_t * Z)) : host Z :=
  r <- main (mk_emu args (-1) 0 (-1)) ;; ece391_halt (snd r).

(** [ece391_strcpy(buf + dst, src)] between two objects. *)
Fixpoint strcpy_at (buf : list Z) (dst : Z) (src : list Z) : option (list Z) :=
  match src with
  | [] => None
  | c :: src =>
      buf ← lset buf dst c;
      if c =? 0 then Some buf else strcpy_at buf (dst + 1) src
  end.

(** ** [ece391_execute] *)

Definition word_end (c : Z) : bool := (c =? 0) || (c =? 32) || (c =? 10).

Fixpoint scan_word (n : nat) (buf : list Z) (scan : Z) : option Z :=
  match n with
  | O => None
  | S n => c ← lget buf scan; if word_end c then Some scan else scan_word n buf (scan + 1)
  end.

Fixpoint scan_spaces (n : nat) (buf : list Z) (scan : Z) : option Z :=
  match n with
  | O => None
  | S n => c ← lget buf scan; if c =? 32 then scan_spaces n buf (scan + 1) else Some scan
  end.

(** The loop over the arguments; [args] are the offsets in [buf] of those
    found so far, of which the array holds 1024. *)
Fixpoint parse_args (n : nat) (buf : list Z) (scan : Z) (args : list Z) :
  option (list Z * list Z) :=
  match n with
  | O => None
  | S n =>
      scan ← scan_spaces (length buf) buf scan;
      c ← lget buf scan;
      if (c =? 0) || (c =? 10) then buf ← lset buf scan 0; Some (buf, args)
      else
        if (length args <? 1024)%nat then
          let args := args ++ [scan] in
          scan ← scan_word (length buf) buf scan;
          c ← lget buf scan;
          if c =? 0 then parse_args n buf scan args
          else buf ← lset buf scan 0; parse_args n buf (scan + 1) args
        else None
  end.

(** The path and the arguments, as offsets in [buf]; [buf] has 1026 bytes. *)
Definition parse_command (buf command : list Z) : option (list Z * list Z) :=
  buf ← lset buf 0 46;
  buf ← lset buf 1 47;
  buf ← strcpy_at buf 2 command;
  scan ← scan_word (length buf) buf 2;
  c ← lget buf scan;
  r ← (if c =? 0 then Some (buf, [0])
       else buf ← lset buf scan 0; parse_args (length buf) buf (scan + 1) [0]);
  if (length (snd r) <? 1024)%nat then Some r else None.

(** The memory from offset [o] of an array on. *)
Definition string_at (buf : list Z) (o : Z) : list Z := drop (Z.to_nat o) buf.

Section emulation.
Context {P : Platform} {H : Headers}.

(** The program of [path] runs in a process of its own. *)
Definition fork_and_wait (path : list Z) (args : list (list Z)) : host Z :=
  child <- ITree.trigger CFork ;;
  (if child =? 0 then
     ITree.trigger (CExecv path args) ;;
     me <- ITree.trigger CGetpid ;;
     ITree.trigger (CKill me 9)
   else Ret 0) ;;
  status <- ITree.trigger CWait ;;
  if WIFEXITED status then Ret (WEXITSTATUS status)
  else if WTERMSIG status =? 9 then Ret (-1)
  else Ret 256.

Definition ece391_execute (command : list Z) : host Z :=
  n <- in_bounds (ece391_strlen command) ;;
  if 1023 <? n then Ret (-1)
  else
    r <- in_bounds (parse_command (local_array 1026) command) ;;
    let '(buf, args) := r in
    fork_and_wait buf (map (string_at buf) args).

(** ** The other calls *)

Definition ece391_open (e : emu_t) (filename : list Z) : host (emu_t * Z) :=
  r <- in_bounds (ece391_strcmp filename (lit ".")) ;;
  if r =? 0 then
    d <- ITree.trigger (COpendir (lit ".")) ;;
    fd <- ITree.trigger (COpen (lit "/dev/null") O_RDONLY) ;;
    Ret (mk_emu (start_args e) fd d (mem_fd e), fd)
  else
    rval <- ITree.trigger (LOpen filename O_RDONLY) ;;
    Ret (e, if 0xFFFFC000 <? u32 rval then -1 else s32 rval).

(** [buf] is the memory from the pointer on, [off] how far the copy has come. *)
Definition getargs_end (buf : list Z) (off nbytes : Z) : option (Z * list Z) :=
  if nbytes <? 1 then Some (-1, buf) else buf ← lset buf off 0; Some (0, buf).

Fixpoint getargs_loop (args : list (list Z)) (buf : list Z) (off nbytes : Z) :
  option (Z * list Z) :=
  match args with
  | [] => getargs_end buf off nbytes
  | a :: args =>
      len ← ece391_strlen a;
      if nbytes <? s32 len then Some (-1, buf)
      else
        buf ← strcpy_at buf off a;
        let off := off + s32 len in
        let nbytes := nbytes - s32 len in
        match args with
        | [] => getargs_end buf off nbytes
        | _ =>
            if nbytes <? 1 then Some (-1, buf)
            else buf ← lset buf off 32; getargs_loop args buf (off + 1) (nbytes - 1)
        end
  end.

Definition ece391_getargs (e : emu_t) (buf : list Z) (nbytes : Z) : host (Z * list Z) :=
  in_bounds (getargs_loop (tail (start_args e)) buf 0 nbytes).

Definition ece391_vidmap (e : emu_t) (screen_start : Z) : host (emu_t * Z) :=
  m <- (if mem_fd e =? -1 then ITree.trigger (COpen (lit "/dev/mem") O_RDWR)
        else Ret (mem_fd e)) ;;
  let e := mk_emu (start_args e) (dir_fd e) (dir e) m in
  image <- ITree.trigger (CMmap (1024 * 1024) m) ;;
  if image =? MAP_FAILED then
    ITree.trigger (CPerror (lit "mmap low memory")) ;; Ret (e, -1)
  else ITree.trigger (PutWord screen_start (u32 (image + 0xb8000))) ;; Ret (e, 0).

(** The zeros after a name. *)
Fixpoint fill_zeros (n : nat) (to : list Z) (copied nbytes : Z) : option (Z * list Z) :=
  match n with
  | O => None
  | S n =>
      if (copied <? nbytes) && (copied <? 32) then
        to ← lset to copied 0; fill_zeros n to (copied + 1) nbytes
      else Some (copied, to)
  end.

(** The name of an entry, at most [nbytes] and 32 characters of it. *)
Fixpoint copy_entry (from : list Z) (to : list Z) (copied nbytes : Z) : option (Z * list Z) :=
  match from with
  | [] => None
  | c :: from =>
      if c =? 0 then fill_zeros 33 to copied nbytes
      else
        to ← lset to copied c;
        if copied + 1 =? nbytes then Some (nbytes, to)
        else if copied + 1 =? 32 then Some (32, to)
        else copy_entry from to (copied + 1) nbytes
  end.

Definition is_dir (e : emu_t) (fd : Z) : bool := negb (dir e =? 0) && (dir_fd e =? fd).

Definition ece391_read (e : emu_t) (fd : Z) (buf : list Z) (nbytes : Z) : host (Z * list Z) :=
  if is_dir e fd then
    de <- ITree.trigger (CReaddir (dir e)) ;;
    match de with
    | None => Ret (0, buf)
    | Some d_name => in_bounds (copy_entry d_name buf 0 nbytes)
    end
  else __ece391_read fd buf nbytes.

Definition ece391_write (e : emu_t) (fd : Z) (buf : list Z) (nbytes : Z) : host Z :=
  if is_dir e fd then Ret (-1) else __ece391_write fd buf nbytes.

Definition ece391_close (e : emu_t) (fd : Z) : host (emu_t * Z) :=
  if is_dir e fd then
    ITree.trigger (CClosedir (dir e)) ;;
    ITree.trigger (CClose (dir_fd e)) ;;
    Ret (mk_emu (start_args e) (-1) 0 (mem_fd e), 0)
  else r <- __ece391_close fd ;; Ret (e, r).
End emulation.
