(* ===== verification/EmulateProps.v ===== *)
(** * The arguments of a program under the emulation *)
From ITree Require Import ITree Eq.Eqit.
From S2P Require Import Prelude State Strings Logic EditorSpec User Emulate Demo.

(** ** Words *)

(** The words of a text: its longest parts without a space. *)
Fixpoint words (t : list Z) : list (list Z) :=
  match t with
  | [] => []
  | c :: t =>
      if c =? 32 then words t
      else match t with
           | [] => [[c]]
           | c' :: _ =>
               if c' =? 32 then [c] :: words t
               else match words t with [] => [[c]] | w :: ws => (c :: w) :: ws end
           end
  end.

(** The command's name, up to the first space, and what follows it. *)
Fixpoint name_of (t : list Z) : list Z :=
  match t with [] => [] | c :: t => if c =? 32 then [] else c :: name_of t end.
Definition rest_of (t : list Z) : list Z := drop (length (name_of t)) t.

(** The arguments one after the other, a space between two. *)
Fixpoint joined (ws : list (list Z)) : list Z :=
  match ws with
  | [] => []
  | w :: ws => match ws with [] => w | _ => w ++ 32 :: joined ws end
  end.

Definition in_text (c : Z) : Prop := 0 < c < 256 /\ c <> 10.
Definition letter (c : Z) : Prop := in_text c /\ c <> 32.

(** The memory [m] starts with the string [w]. *)
Definition cstring (m w : list Z) : Prop := exists r, m = w ++ 0 :: r.

Lemma words_space t : words (32 :: t) = words t.
Proof. done. Qed.

Lemma words_word w : w <> [] -> Forall letter w -> words w = [w].
Proof.
  intros Hne Hw. induction Hw as [|c w [_ Hc] Hw IH]; [done|]. cbn [words].
  rewrite (proj2 (Z.eqb_neq c 32)) by done. destruct w as [|c' w]; [done|].
  apply Forall_inv in Hw as [_ Hc']. rewrite (proj2 (Z.eqb_neq c' 32)) by done.
  by rewrite IH.
Qed.

Lemma words_cons w t :
  w <> [] -> Forall letter w -> words (w ++ 32 :: t) = w :: words t.
Proof.
  intros Hne Hw. induction Hw as [|c w [_ Hc] Hw IH]; [done|]. cbn [words app].
  rewrite (proj2 (Z.eqb_neq c 32)) by done. destruct w as [|c' w]; [done|].
  apply Forall_inv in Hw as [_ Hc']. cbn [app].
  rewrite (proj2 (Z.eqb_neq c' 32)) by done. cbn [app] in IH. by rewrite IH.
Qed.

Lemma name_letters t : Forall in_text t -> Forall letter (name_of t).
Proof.
  induction 1 as [|c t Hc _ IH]; [constructor|]. cbn [name_of].
  destruct (Z.eqb_spec c 32); [constructor|]. by constructor.
Qed.

Lemma name_rest t : t = name_of t ++ rest_of t.
Proof.
  unfold rest_of. induction t as [|c t IH]; [done|]. cbn [name_of].
  destruct (c =? 32); [done|]. cbn. by f_equal.
Qed.

Lemma rest_head t : rest_of t = [] \/ exists t', rest_of t = 32 :: t'.
Proof.
  unfold rest_of. induction t as [|c t IH]; [by left|]. cbn [name_of].
  destruct (Z.eqb_spec c 32) as [->|]; [right; by exists t|exact IH].
Qed.

(** ** Strings in memory *)

Lemma cstring_strlen m w :
  cstring m w -> Forall in_text w -> (length w < 4096)%nat ->
  ece391_strlen m = Some (Z.of_nat (length w)).
Proof.
  intros [r ->] Hw. induction Hw as [|c w [Hc _] _ IH]; intros Hl; [done|].
  cbn [app ece391_strlen length] in *. rewrite (proj2 (Z.eqb_neq c 0)) by lia.
  rewrite IH by lia. cbn. rewrite u32_small by lia. f_equal. lia.
Qed.

Lemma lget_mid (pre : list Z) c post : lget (pre ++ c :: post) (Z.of_nat (length pre)) = Some c.
Proof. rewrite lget_app, decide_False, Z.sub_diag by lia. done. Qed.

Lemma lset_mid (pre : list Z) c c' post :
  lset (pre ++ c :: post) (Z.of_nat (length pre)) c' = Some (pre ++ c' :: post).
Proof.
  rewrite lset_Some by (rewrite length_app; cbn [length]; lia).
  f_equal. rewrite Nat2Z.id, insert_app_r_alt, Nat.sub_diag by lia. done.
Qed.

Lemma strcpy_at_cstring m w : forall pre old post,
  cstring m w -> Forall in_text w -> length old = S (length w) ->
  strcpy_at (pre ++ old ++ post) (Z.of_nat (length pre)) m = Some (pre ++ w ++ 0 :: post).
Proof.
  intros pre old post [r ->] Hw. revert pre old.
  induction Hw as [|c w [Hc _] _ IH]; intros pre old Hl;
    destruct old as [|o old]; cbn in Hl; try lia; cbn [app strcpy_at].
  - destruct old; [|done]. rewrite lset_mid. done.
  - rewrite lset_mid. cbn [mbind option_bind]. rewrite (proj2 (Z.eqb_neq c 0)) by lia.
    specialize (IH (pre ++ [c]) old ltac:(lia)).
    rewrite length_app, Nat2Z.inj_add in IH. cbn [length] in IH.
    rewrite <-!app_assoc in IH. exact IH.
Qed.

(** ** The loops of [ece391_execute] *)

Lemma scan_spaces_spec c post k : forall n pre,
  c <> 32 -> (k < n)%nat ->
  scan_spaces n (pre ++ replicate k 32 ++ c :: post) (Z.of_nat (length pre)) =
    Some (Z.of_nat (length pre + k)).
Proof.
  induction k as [|k IH]; intros n pre Hc Hn; (destruct n as [|n]; [lia|]);
    cbn [scan_spaces replicate app]; rewrite lget_mid; cbn [mbind option_bind].
  - rewrite (proj2 (Z.eqb_neq c 32)) by done. by rewrite Nat.add_0_r.
  - rewrite Z.eqb_refl. specialize (IH n (pre ++ [32]) Hc ltac:(lia)).
    rewrite length_app, Nat2Z.inj_add, <-app_assoc in IH. cbn [length app] in IH.
    change (Z.of_nat 1) with 1 in IH. rewrite IH. f_equal. lia.
Qed.

Lemma scan_word_spec w c post : forall n pre,
  Forall letter w -> word_end c = true -> (length w < n)%nat ->
  scan_word n (pre ++ w ++ c :: post) (Z.of_nat (length pre)) =
    Some (Z.of_nat (length pre + length w)).
Proof.
  intros n pre Hw Hc. revert n pre.
  induction Hw as [|d w [[Hd Hd10] Hd32] _ IH]; intros n pre Hn; (destruct n as [|n]; [cbn in Hn; lia|]);
    cbn [scan_word length app] in *; rewrite lget_mid; cbn [mbind option_bind].
  - by rewrite Hc, Nat.add_0_r.
  - unfold word_end at 1.
    rewrite (proj2 (Z.eqb_neq d 0)), (proj2 (Z.eqb_neq d 32)), (proj2 (Z.eqb_neq d 10)) by lia.
    cbn [orb]. specialize (IH n (pre ++ [d]) ltac:(lia)).
    rewrite length_app, Nat2Z.inj_add, <-app_assoc in IH. cbn [length app] in IH.
    change (Z.of_nat 1) with 1 in IH. rewrite IH. f_equal. lia.
Qed.

Lemma split_spaces t :
  exists k u, t = replicate k 32 ++ u /\ words t = words u /\
    (u = [] \/ name_of u <> []).
Proof.
  induction t as [|c t (k & u & -> & Hw & Hu)]; [exists 0%nat, []; by split_and!; [| |left]|].
  destruct (Z.eqb_spec c 32) as [->|Hc].
  - by exists (S k), u.
  - exists 0%nat, (c :: replicate k 32 ++ u). split_and!; [done|done|right].
    cbn [name_of]. by rewrite (proj2 (Z.eqb_neq c 32)).
Qed.

(** What the loop leaves: the text before [scan] as it was, and the offsets of
    the words behind it. *)
Record parsed (pre t post : list Z) (buf : list Z) (offs : list Z) : Prop := {
  pa_length : length buf = length (pre ++ t ++ 0 :: post);
  pa_take : take (length pre) buf = pre;
  pa_words : Forall2 (fun o w => cstring (string_at buf o) w) offs (words t);
  pa_end : t = [] -> buf = pre ++ 0 :: post;
}.

Lemma take_prefix {A} (pre buf : list A) : take (length pre) buf = pre -> exists r, buf = pre ++ r.
Proof. intros Hb. exists (drop (length pre) buf). by rewrite <-Hb at 1; rewrite take_drop. Qed.

Lemma string_at_word pre w r buf n :
  buf = pre ++ w ++ 0 :: r -> n = length pre -> cstring (string_at buf (Z.of_nat n)) w.
Proof.
  intros -> ->. unfold string_at. rewrite Nat2Z.id, drop_app_length. by exists r.
Qed.

Lemma parse_args_end n pre k post args :
  parse_args (S n) (pre ++ replicate k 32 ++ 0 :: post) (Z.of_nat (length pre)) args =
    Some (pre ++ replicate k 32 ++ 0 :: post, args).
Proof.
  cbn [parse_args]. rewrite scan_spaces_spec
    by (rewrite ?length_app, ?length_replicate; cbn [length]; lia).
  cbn [mbind option_bind].
  pose proof (lget_mid (pre ++ replicate k 32) 0 post) as Hg.
  pose proof (lset_mid (pre ++ replicate k 32) 0 0 post) as Hs.
  rewrite <-app_assoc, length_app, length_replicate in Hg, Hs.
  rewrite Hg. cbn [mbind option_bind Z.eqb orb]. by rewrite Hs.
Qed.

(** One word: the loop goes on behind it, its end marked by a zero. *)
Lemma parse_args_word n pre k w c post args :
  w <> [] -> Forall letter w -> word_end c = true -> (length args < 1024)%nat ->
  parse_args (S n) (pre ++ replicate k 32 ++ w ++ c :: post) (Z.of_nat (length pre)) args =
    (let args := args ++ [Z.of_nat (length pre + k)] in
     let scan := Z.of_nat (length pre + k + length w) in
     if c =? 0 then parse_args n (pre ++ replicate k 32 ++ w ++ c :: post) scan args
     else parse_args n (pre ++ replicate k 32 ++ w ++ 0 :: post) (scan + 1) args).
Proof.
  intros Hne Hw Hc Hargs. destruct w as [|d w]; [done|]. cbn zeta.
  pose proof (Forall_inv Hw) as [[Hd Hd10] Hd32]. cbn [parse_args].
  pose proof (scan_spaces_spec d (w ++ c :: post) k) as Hs. cbn [app] in *.
  rewrite Hs by (first [done|rewrite ?length_app, ?length_replicate; cbn [length]; lia]).
  cbn [mbind option_bind].
  pose proof (lget_mid (pre ++ replicate k 32) d (w ++ c :: post)) as Hg.
  rewrite <-app_assoc, length_app, length_replicate in Hg. rewrite Hg.
  cbn [mbind option_bind].
  rewrite (proj2 (Z.eqb_neq d 0)), (proj2 (Z.eqb_neq d 10)) by lia. cbn [orb].
  rewrite (proj2 (Nat.ltb_lt _ _)) by done.
  pose proof (fun n => scan_word_spec (d :: w) c post n (pre ++ replicate k 32) Hw Hc) as Hsw.
  rewrite <-app_assoc, length_app, length_replicate in Hsw. cbn [app] in Hsw.
  rewrite Hsw by (rewrite ?length_app, ?length_replicate; cbn [length]; rewrite ?length_app; cbn [length]; lia).
  cbn [mbind option_bind].
  pose proof (lget_mid (pre ++ replicate k 32 ++ d :: w) c post) as Hg2.
  pose proof (lset_mid (pre ++ replicate k 32 ++ d :: w) c 0 post) as Hs2.
  rewrite !length_app, length_replicate, <-!app_assoc in Hg2, Hs2. cbn [app] in Hg2, Hs2.
  rewrite Nat.add_assoc in Hg2, Hs2. rewrite Hg2. cbn [mbind option_bind].
  destruct (c =? 0); [done|]. rewrite Hs2. by rewrite <-!app_assoc.
Qed.

Lemma parse_args_spec m : forall t pre post args n,
  (length t < m)%nat -> Forall in_text t -> (length t < n)%nat ->
  (length args + length t < 1024)%nat ->
  exists buf offs, parse_args n (pre ++ t ++ 0 :: post) (Z.of_nat (length pre)) args =
    Some (buf, args ++ offs) /\ parsed pre t post buf offs /\ (length offs <= length t)%nat.
Proof.
  induction m as [|m IH]; intros t pre post args n Hm Ht Hn Ha; [lia|].
  destruct n as [|n]; [lia|]. destruct (split_spaces t) as (k & u & -> & Hwords & Hu).
  rewrite <-app_assoc. apply Forall_app in Ht as [_ Ht].
  rewrite length_app, length_replicate in *. destruct (decide (u = [])) as [->|Hne].
  { exists (pre ++ replicate k 32 ++ 0 :: post), [].
    rewrite app_nil_r. split; [apply parse_args_end|]. split; [|cbn; lia].
    constructor; rewrite ?Hwords; [by rewrite <-!app_assoc|by rewrite take_app_length|constructor|].
    intros Hk. rewrite app_nil_r in Hk. by rewrite Hk. }
  destruct Hu as [?|Hname]; [done|]. pose proof (name_letters _ Ht) as Hw.
  pose proof (name_rest u) as Hur. set (w := name_of u) in *.
  assert (Hwl : (0 < length w)%nat) by (destruct w; [done|cbn; lia]).
  destruct (rest_head u) as [Hr|[t' Hr]]; rewrite Hr in Hur; rewrite Hur in *.
  - rewrite app_nil_r in *. destruct n as [|n]; [lia|].
    rewrite parse_args_word by (done || lia). cbn zeta. cbn [Z.eqb].
    pose proof (parse_args_end n (pre ++ replicate k 32 ++ w) 0 post
      (args ++ [Z.of_nat (length pre + k)])) as He.
    rewrite !length_app, length_replicate, Nat.add_assoc, <-!app_assoc in He.
    cbn [replicate app] in He. rewrite He.
    eexists _, [Z.of_nat (length pre + k)]. split; [done|]. split; [|cbn; lia].
    constructor; [by rewrite <-!app_assoc|by rewrite take_app_length| |].
    + rewrite Hwords, words_word by done. constructor; [|constructor].
      apply (string_at_word (pre ++ replicate k 32) w post); [by rewrite <-app_assoc|].
      by rewrite length_app, length_replicate.
    + intros Hk. apply app_eq_nil in Hk as [_ ->]. done.
  - apply Forall_app in Ht as [_ Ht]. apply Forall_inv_tail in Ht.
    rewrite length_app in *. cbn [length] in *.
    rewrite <-app_assoc. cbn [app]. rewrite parse_args_word by (done || lia). cbn zeta.
    cbn [Z.eqb Pos.eqb].
    destruct (IH t' (pre ++ replicate k 32 ++ w ++ [0]) post
      (args ++ [Z.of_nat (length pre + k)]) n) as (buf & offs & He & [Hl Htk Hws _] & Hlo);
      [lia|done|lia|rewrite length_app; cbn [length]; lia|].
    rewrite !length_app, length_replicate in He. cbn [length] in He.
    rewrite <-!app_assoc in He. cbn [app] in He.
    replace (Z.of_nat (length pre + k + length w) + 1)
      with (Z.of_nat (length pre + (k + (length w + 1)))) by lia.
    exists buf, (Z.of_nat (length pre + k) :: offs). rewrite He. split; [done|].
    split; [|cbn [length]; lia]. destruct (take_prefix _ _ Htk) as [r Hbuf].
    rewrite <-!app_assoc in Hbuf. cbn [app] in Hbuf. constructor.
    + rewrite Hl. repeat (rewrite ?length_app; cbn [length app]). lia.
    + rewrite Hbuf. apply take_app_length.
    + rewrite Hwords, words_cons by done. constructor; [|done].
      apply (string_at_word (pre ++ replicate k 32) w r); [by rewrite <-app_assoc|].
      by rewrite length_app, length_replicate.
    + intros Hk. apply app_eq_nil in Hk as [_ Hk]. by apply app_eq_nil in Hk as [_ Hk].
Qed.

Lemma parse_command_spec junk t :
  length junk = 1026%nat -> Forall in_text t -> (length t <= 1023)%nat ->
  exists buf offs, parse_command junk (t ++ [0]) = Some (buf, 0 :: offs) /\
    cstring (string_at buf 0) ([46; 47] ++ name_of t) /\
    Forall2 (fun o w => cstring (string_at buf o) w) offs (words (rest_of t)).
Proof.
  intros Hj Ht Hl. destruct junk as [|j1 [|j2 junk]]; [done|done|].
  cbn [length] in Hj. unfold parse_command.
  pose proof (lset_mid [] j1 46 (j2 :: junk)) as H1. cbn [length app] in H1.
  pose proof (lset_mid [46] j2 47 junk) as H2. cbn [length app] in H2.
  change (Z.of_nat 0) with 0 in H1. change (Z.of_nat 1) with 1 in H2.
  rewrite H1. cbn [mbind option_bind]. rewrite H2. cbn [mbind option_bind].
  rewrite <-(take_drop (S (length t)) junk). set (post := drop (S (length t)) junk).
  pose proof (strcpy_at_cstring (t ++ [0]) t [46; 47] (take (S (length t)) junk) post) as H3.
  cbn [length app] in H3. change (Z.of_nat 2) with 2 in H3.
  rewrite H3 by first [by exists []|done|rewrite length_take; lia]. cbn [mbind option_bind].
  pose proof (name_letters t Ht) as Hw. pose proof (name_rest t) as Htr.
  set (w := name_of t) in *.
  assert (Hsw : forall c rest n, word_end c = true -> (length w < n)%nat ->
    scan_word n ([46; 47] ++ w ++ c :: rest) 2 = Some (Z.of_nat (2 + length w))).
  { intros c rest n Hc Hn. exact (scan_word_spec w c rest n [46; 47] Hw Hc Hn). }
  pose proof (lget_mid ([46; 47] ++ w)) as Hg. pose proof (lset_mid ([46; 47] ++ w)) as Hs.
  assert (Hlt : (length w <= length t)%nat) by (rewrite Htr, length_app; lia).
  assert (Hlen : forall (c : Z) rest, (length w < S (S (length (w ++ c :: rest))))%nat).
  { intros. rewrite length_app. lia. }
  destruct (rest_head t) as [Hr|[t' Hr]]; rewrite Hr in *; rewrite Htr.
  - rewrite app_nil_r. exists ([46; 47] ++ w ++ 0 :: post), [].
    pose proof (Hsw 0 post) as Hsw'. cbn [app] in Hsw'.
    rewrite Hsw' by first [done|apply Hlen]. cbn [mbind option_bind].
    specialize (Hg 0 post). rewrite <-app_assoc in Hg. cbn [app] in Hg.
    change (length (46 :: 47 :: w)) with (2 + length w)%nat in Hg. rewrite Hg.
    cbn [mbind option_bind Z.eqb snd length Nat.ltb Nat.leb]. split; [done|].
    split; [|constructor]. by exists post.
  - assert (Ht' : Forall in_text t' /\ (length t' < length t)%nat).
    { rewrite Htr in Ht |- *. apply Forall_app in Ht as [_ Ht].
      apply Forall_inv_tail in Ht. rewrite length_app. cbn [length]. split; [done|lia]. }
    destruct Ht' as [Ht' Hlt']. rewrite <-app_assoc. cbn [app].
    pose proof (Hsw 32 (t' ++ 0 :: post)) as Hsw'. cbn [app] in Hsw'.
    rewrite Hsw' by first [done|apply Hlen]. cbn [mbind option_bind].
    specialize (Hg 32 (t' ++ 0 :: post)). specialize (Hs 32 0 (t' ++ 0 :: post)).
    rewrite <-app_assoc in Hg, Hs. cbn [app] in Hg, Hs.
    change (length (46 :: 47 :: w)) with (2 + length w)%nat in Hg, Hs.
    rewrite Hg. cbn [mbind option_bind Z.eqb]. rewrite Hs. cbn [mbind option_bind].
    destruct (parse_args_spec (S (length t')) t' ([46; 47] ++ w ++ [0]) post [0]
      (length (46 :: 47 :: w ++ 0 :: t' ++ 0 :: post)))
      as (buf & offs & He & [_ Htk Hws _] & Hlo); [lia|done| |cbn [length]; lia|].
    { cbn [length]. rewrite length_app. cbn [length]. rewrite length_app. lia. }
    rewrite <-!app_assoc in He. cbn [app] in He.
    replace (Z.of_nat (2 + length w) + 1) with (Z.of_nat (length (46 :: 47 :: w ++ [0])))
      by (cbn [length]; rewrite length_app; cbn [length]; lia).
    rewrite He. cbn [mbind option_bind snd].
    rewrite (proj2 (Nat.ltb_lt _ _)) by (cbn [length]; lia).
    destruct (take_prefix _ _ Htk) as [r ->]. exists (([46; 47] ++ w ++ [0]) ++ r), offs.
    split; [done|]. split; [|exact Hws]. exists r. by rewrite <-!app_assoc.
Qed.

(** ** [ece391_getargs] *)

Lemma getargs_end_spec pre r0 rest nbytes :
  1 <= nbytes ->
  getargs_end (pre ++ r0 :: rest) (Z.of_nat (length pre)) nbytes =
    Some (0, pre ++ 0 :: rest).
Proof.
  intros Hn. unfold getargs_end. rewrite (proj2 (Z.ltb_ge _ _)) by lia. by rewrite lset_mid.
Qed.

Lemma getargs_loop_spec ws : forall args pre rest nbytes,
  Forall2 cstring args ws -> Forall (Forall in_text) ws -> (length (joined ws) < 4096)%nat ->
  Z.of_nat (length (joined ws)) < nbytes <= Z.of_nat (length rest) ->
  getargs_loop args (pre ++ rest) (Z.of_nat (length pre)) nbytes =
    Some (0, pre ++ joined ws ++ 0 :: drop (S (length (joined ws))) rest).
Proof.
  induction ws as [|w ws IH]; intros args pre rest nbytes Ha Hw Hl Hn.
  { apply Forall2_nil_inv_r in Ha as ->. cbn [joined length] in *.
    destruct rest as [|r0 rest]; [cbn in Hn; lia|]. cbn [getargs_loop].
    rewrite getargs_end_spec by lia. done. }
  apply Forall2_cons_inv_r in Ha as (a & args' & Ha & Has & ->).
  apply Forall_cons in Hw as [Hw Hws].
  assert (Hjw : (length w <= length (joined (w :: ws)))%nat).
  { cbn [joined]. destruct ws; [lia|rewrite length_app; lia]. }
  cbn [getargs_loop]. rewrite (cstring_strlen a w) by (done || lia).
  cbn [mbind option_bind]. rewrite s32_small by lia.
  rewrite (proj2 (Z.ltb_ge _ _)) by lia.
  rewrite <-(take_drop (S (length w)) rest).
  rewrite (strcpy_at_cstring a w) by first [done|rewrite length_take; lia].
  cbn [mbind option_bind]. set (post := drop (S (length w)) rest).
  assert (Hpl : length post = (length rest - S (length w))%nat) by apply length_drop.
  destruct ws as [|w2 ws].
  - apply Forall2_nil_inv_r in Has as ->. cbn [joined] in *.
    rewrite <-Nat2Z.inj_add, <-length_app, app_assoc, getargs_end_spec by lia.
    rewrite <-app_assoc. unfold post. by rewrite take_drop.
  - apply Forall2_cons_inv_r in Has as (a2 & args2 & Ha2 & Has2 & ->).
    assert (Hj : joined (w :: w2 :: ws) = w ++ 32 :: joined (w2 :: ws)) by done.
    rewrite Hj in *. rewrite length_app in *. cbn [length] in *.
    rewrite (proj2 (Z.ltb_ge _ 1)) by lia.
    pose proof (lset_mid (pre ++ w) 0 32 post) as Hs.
    rewrite <-!app_assoc, length_app, Nat2Z.inj_add in Hs. rewrite Hs.
    cbn [mbind option_bind].
    pose proof (IH (a2 :: args2) (pre ++ w ++ [32]) post
      (nbytes - Z.of_nat (length w) - 1)) as H.
    rewrite <-!app_assoc in H. cbn [app] in H.
    replace (Z.of_nat (length pre) + Z.of_nat (length w) + 1)
      with (Z.of_nat (length (pre ++ w ++ [32])))
      by (rewrite !length_app; cbn [length]; lia).
    rewrite H by first [by constructor|done|lia]. unfold post. rewrite drop_drop, take_drop.
    replace (S (length w) + S (length (joined (w2 :: ws))))%nat
      with (S (length w + S (length (joined (w2 :: ws)))))%nat by lia.
    by rewrite <-(app_assoc w).
Qed.

(** A string longer than the memory left is copied past its end. *)
Lemma strcpy_at_overflow w : forall m buf off,
  cstring m w -> Forall in_text w -> 0 <= off <= Z.of_nat (length buf) ->
  Z.of_nat (length buf) <= off + Z.of_nat (length w) ->
  strcpy_at buf off m = None.
Proof.
  induction w as [|c w IH]; intros m buf off [r ->] Hw Ho Hl; cbn [app strcpy_at length] in *.
  - destruct (lset buf off 0) as [b|] eqn:Hb; [|done].
    pose proof (lget_lset_eq _ _ _ _ Hb) as Hg. apply lget_range in Hg.
    rewrite (lset_length _ _ _ _ Hb) in Hg. lia.
  - apply Forall_cons in Hw as [[Hc _] Hw].
    destruct (lset buf off c) as [b|] eqn:Hb; [|done]. cbn [mbind option_bind].
    rewrite (proj2 (Z.eqb_neq c 0)) by lia. pose proof (lset_length _ _ _ _ Hb) as Hbl.
    pose proof (lget_lset_eq _ _ _ _ Hb) as Hg. apply lget_range in Hg.
    apply IH; [by exists r|done|lia|lia].
Qed.

(** An argument as long as the buffer is not refused: its terminator is stored
    behind the buffer. *)
Lemma getargs_overflow a w buf nbytes :
  cstring a w -> Forall in_text w -> (length w < 4096)%nat ->
  nbytes = Z.of_nat (length w) -> nbytes = Z.of_nat (length buf) ->
  getargs_loop [a] buf 0 nbytes = None.
Proof.
  intros Ha Hw Hl Hn Hb. cbn [getargs_loop]. rewrite (cstring_strlen a w) by done.
  cbn [mbind option_bind]. rewrite s32_small by lia.
  rewrite (proj2 (Z.ltb_ge _ _)) by lia.
  by rewrite (strcpy_at_overflow w) by first [done|lia].
Qed.

(** A read of no bytes from the directory stores a character all the same. *)
Lemma copy_entry_nothing c name : c <> 0 -> copy_entry (c :: name) [] 0 0 = None.
Proof. intros Hc. cbn [copy_entry]. by rewrite (proj2 (Z.eqb_neq c 0)). Qed.

(** ** Properties *)

Lemma words_text t : Forall in_text t -> Forall (Forall in_text) (words t).
Proof.
  induction 1 as [|c t Hc Ht IH]; [constructor|]. cbn [words].
  destruct (c =? 32); [done|]. destruct t as [|c' t]; [by rewrite !Forall_singleton|].
  destruct (c' =? 32); [constructor; [by rewrite Forall_singleton|done]|].
  destruct (words (c' :: t)) as [|w ws]; [by rewrite !Forall_singleton|].
  apply Forall_cons in IH as [? ?]. constructor; [by constructor|done].
Qed.

Lemma joined_cons w ws :
  length (joined (w :: ws)) =
    match ws with [] => length w | _ => (length w + S (length (joined ws)))%nat end.
Proof. destruct ws; [done|]. cbn [joined]. by rewrite length_app. Qed.

Lemma joined_words t :
  (length (joined (words t)) <= length t)%nat /\
  (head t = Some 32 -> (S (length (joined (words t))) <= length t)%nat).
Proof.
  induction t as [|c t [IH1 IH2]]; [by split|]. cbn [words length head].
  destruct (Z.eqb_spec c 32) as [->|Hc]; [split; [lia|intros; lia]|].
  split; [|intros [=]; congruence].
  destruct t as [|c' t]; [cbn; lia|]. destruct (Z.eqb_spec c' 32) as [->|Hc'].
  - specialize (IH2 eq_refl). rewrite joined_cons. destruct (words (32 :: t)); cbn [length] in *; lia.
  - destruct (words (c' :: t)) as [|w ws]; [cbn; lia|]. rewrite joined_cons in *.
    destruct ws; cbn [length] in *; lia.
Qed.

Lemma rest_text t : Forall in_text t -> Forall in_text (rest_of t) /\ (length (rest_of t) <= length t)%nat.
Proof. intros Ht. unfold rest_of. rewrite length_drop. split; [by apply Forall_drop|lia]. Qed.

Section properties.
Context {P : Platform} {H : Headers}.

(** C40: under the Linux emulation the words of a command reach the program
    that it starts. [ece391_execute] of a command of at most 1023 characters
    forks and runs the file in the current directory that the first word
    names, with an argument for each other word; and when the program's stack
    holds these arguments, its [ece391_getargs] succeeds with any buffer that
    has room and stores the words with one space between two, and a
    terminator, whatever spaces the command had. *)
Theorem emulated_arguments_arrive t :
  Forall in_text t -> (length t <= 1023)%nat ->
  exists path argv,
    eq_itree eq (ece391_execute (t ++ [0])) (fork_and_wait path argv) /\
    cstring path ([46; 47] ++ name_of t) /\
    forall e buf nbytes, start_args e = argv ->
      Z.of_nat (length (joined (words (rest_of t)))) < nbytes <= Z.of_nat (length buf) ->
      eq_itree eq (ece391_getargs e buf nbytes)
        (Ret (0, joined (words (rest_of t)) ++
          0 :: drop (S (length (joined (words (rest_of t))))) buf)).
Proof.
  intros Ht Hl. destruct (rest_text t Ht) as [Hr Hrl].
  destruct (parse_command_spec (local_array 1026) t) as (path & offs & Hp & Hpath & Hws);
    [apply length_replicate|done|done|].
  exists path, (map (string_at path) (0 :: offs)). split; [|split; [exact Hpath|]].
  - unfold ece391_execute.
    rewrite (cstring_strlen (t ++ [0]) t) by first [by exists []|done|lia].
    cbn [in_bounds]. rewrite bind_ret_l. rewrite (proj2 (Z.ltb_ge 1023 _)) by lia.
    rewrite Hp. cbn [in_bounds]. rewrite bind_ret_l. reflexivity.
  - intros e buf nbytes Ha Hn. unfold ece391_getargs. rewrite Ha. cbn [map tail].
    pose proof (getargs_loop_spec (words (rest_of t)) (map (string_at path) offs) [] buf nbytes)
      as Hg. cbn [app length] in Hg. change (Z.of_nat 0) with 0 in Hg.
    destruct (joined_words (rest_of t)) as [Hj _].
    rewrite Hg by first [by apply Forall2_fmap_l|by apply words_text|lia].
    reflexivity.
Qed.
End properties.

(** The headers of the GNU C library. *)
Definition gnu_headers : Headers := {|
  O_RDONLY := 0; O_RDWR := 2; MAP_FAILED := 0xFFFFFFFF;
  WIFEXITED := fun status => Z.land status 0x7F =? 0;
  WEXITSTATUS := fun status => Z.shiftr (Z.land status 0xFF00) 8;
  WTERMSIG := fun status => Z.land status 0x7F;
|}.

(** "cat  a b ". *)
Lemma emulated_arguments_arrive_witness :
  exists path argv,
    eq_itree eq (ece391_execute (H := gnu_headers) ([99; 97; 116; 32; 32; 97; 32; 98; 32] ++ [0]))
      (fork_and_wait (H := gnu_headers) path argv) /\
    cstring path [46; 47; 99; 97; 116] /\
    eq_itree eq (ece391_getargs (mk_emu argv (-1) 0 (-1)) (replicate 8 0) 8)
      (Ret (0, [97; 32; 98; 0] ++ replicate 4 0)).
Proof.
  destruct (emulated_arguments_arrive (H := gnu_headers) [99; 97; 116; 32; 32; 97; 32; 98; 32])
    as (path & argv & H1 & H2 & H3).
  - repeat constructor; lia.
  - cbn [length]. lia.
  - exists path, argv. split; [exact H1|]. split; [exact H2|].
    apply (H3 (mk_emu argv (-1) 0 (-1)) (replicate 8 0) 8 eq_refl).
    vm_compute. split; [reflexivity|discriminate].
Defined.
