(* ===== verification/Fish.v ===== *)
(** * The fish demo: blink.S and fish.c

    The list of blinking characters, kept in an array of structures linked by
    pointers, and the program that draws two frames with it. A pointer into
    the array is an index, NULL is [None]. The module only writes to the screen:
    an operation gives the bytes it pokes, in order. *)
From ITree Require Import ITree.
From S2P Require Import Prelude State Strings User.

(** ** blink.h *)

Definition RTC_ADD : Z := 0.
Definition RTC_REMOVE : Z := 1.
Definition RTC_FIND : Z := 2.
Definition RTC_SYNC : Z := 3.

Record mp1_blink_struct := mk_blink {
  location : Z;
  on_char : Z;
  off_char : Z;
  on_length : Z;
  off_length : Z;
  countdown : Z;
  status : Z;
  next : option nat;
}.
#[export] Instance eta_blink : Eta mp1_blink_struct := fun r =>
  mk_blink (location r) (on_char r) (off_char r) (on_length r) (off_length r) (countdown r)
    (status r) (next r).
#[export] Instance on_length_upd : Setter on_length := ltac:(setter).
#[export] Instance off_length_upd : Setter off_length := ltac:(setter).
#[export] Instance countdown_upd : Setter countdown := ltac:(setter).
#[export] Instance status_upd : Setter status := ltac:(setter).
#[export] Instance next_upd : Setter next := ltac:(setter).

(** The structure of zeros. *)
Definition zero_blink : mp1_blink_struct := mk_blink 0 0 0 0 0 0 0 None.
Definition CELLS : nat := 80 * 25.

(** [blink_array] and [mp1_list_head]. *)
Record blink_t := mk_blink_t {
  blink_array : list mp1_blink_struct;
  mp1_list_head : option nat;
}.
#[export] Instance eta_blink_t : Eta blink_t := fun r =>
  mk_blink_t (blink_array r) (mp1_list_head r).
#[export] Instance blink_array_upd : Setter blink_array := ltac:(setter).
#[export] Instance mp1_list_head_upd : Setter mp1_list_head := ltac:(setter).

(** ** Routines of blink.S

    A routine returns, goes round a loop of the list for ever, or follows a
    pointer that is none. *)
Inductive res (A : Type) := Ok (a : A) | Loops | Wild.
Arguments Ok {A} a.
Arguments Loops {A}.
Arguments Wild {A}.

(** The bytes poked: offset from the start of the video memory and byte. *)
Definition B (A : Type) : Type := blink_t -> res (A * list (Z * Z) * blink_t).
Definition bret {A} (a : A) : B A := fun s => Ok (a, [], s).
Definition bbind {A C} (m : B A) (k : A -> B C) : B C := fun s =>
  match m s with
  | Ok (a, o, s) =>
      match k a s with Ok (c, o', s) => Ok (c, o ++ o', s) | Loops => Loops | Wild => Wild end
  | Loops => Loops
  | Wild => Wild
  end.
Definition bget : B blink_t := fun s => Ok (s, [], s).
Definition bput (s : blink_t) : B unit := fun _ => Ok (tt, [], s).

Section blink.
Local Notation "x <- m ;; k" := (bbind m (fun x => k))
  (at level 100, m at next level, right associativity).
Local Notation "m ;; k" := (bbind m (fun _ => k))
  (at level 100, right associativity).

(** The structure a pointer leads to, read and written. *)
Definition deref (p : nat) : B mp1_blink_struct := fun s =>
  match blink_array s !! p with Some b => Ok (b, [], s) | None => Wild end.
Definition assign (p : nat) (b : mp1_blink_struct) : B unit := fun s =>
  Ok (tt, [], set blink_array <[p := b]> s).

Definition mp1_poke (off c : Z) : B unit := fun s => Ok (tt, [(off, c)], s).

(** [jg] after a comparison of 16-bit words with 0. *)
Definition s16 (z : Z) : Z := (z + 32768) mod 65536 - 32768.

(** The body of [tasklet_loop]. *)
Definition tasklet_step (p : nat) : B unit :=
  b <- deref p ;;
  let b := set countdown (fun c => u16 (c - 1)) b in
  if 0 <? s16 (countdown b) then assign p b
  else
    let off := u32 (Z.shiftl (location b) 1) in
    d <- (if Z.testbit (status b) 0 then mp1_poke off (off_char b) ;; bret (off_length b)
          else mp1_poke off (on_char b) ;; bret (on_length b)) ;;
    assign p (set status (fun s => Z.lxor s 1) (set countdown (fun _ => d) b)).

(** The loops over the list, [fuel] being the number of its elements at most. *)
Fixpoint tasklet_loop (fuel : nat) (p : option nat) : B unit :=
  match p with
  | None => bret tt
  | Some i =>
      match fuel with
      | O => fun _ => Loops
      | S fuel => tasklet_step i ;; b <- deref i ;; tasklet_loop fuel (next b)
      end
  end.
Definition mp1_rtc_tasklet : B unit :=
  s <- bget ;; tasklet_loop CELLS (mp1_list_head s).

Fixpoint find_loop (fuel : nat) (ax : Z) (p : option nat) : B (option nat) :=
  match p with
  | None => bret None
  | Some i =>
      match fuel with
      | O => fun _ => Loops
      | S fuel => b <- deref i ;; if location b =? ax then bret (Some i) else find_loop fuel ax (next b)
      end
  end.
(** The comparison is one of the low words. *)
Definition mp1_find_helper (arg : Z) : B (option nat) :=
  s <- bget ;; find_loop CELLS (u16 arg) (mp1_list_head s).

(** ** Allocation (fish.c) *)

Definition mp1_malloc : B (option nat) :=
  s <- bget ;;
  bret (fst <$> list_find (fun b => location b = 0) (take CELLS (blink_array s))).
Definition mp1_free (p : nat) : B unit := assign p zero_blink.

(** ** The four commands *)

Definition mp1_ioctl_add (user : mp1_blink_struct) : B Z :=
  if Z.of_nat CELLS <=? location user then bret (-1)
  else
    let b := set countdown (fun _ => on_length user) (set status (fun _ => 1) user) in
    p <- mp1_malloc ;;
    match p with
    | None => bret (-1)
    | Some i =>
        assign i b ;;
        s <- bget ;;
        assign i (set next (fun _ => mp1_list_head s) b) ;;
        s <- bget ;; bput (set mp1_list_head (fun _ => Some i) s) ;;
        mp1_poke (u32 (Z.shiftl (location b) 1)) (on_char b) ;;
        bret 0
    end.

(** [remove_find_prev]: the link that leads to [i], from the head or from the
    element [prev] on, takes its successor. *)
Fixpoint unlink (fuel : nat) (prev : option nat) (i : nat) : B unit :=
  match fuel with
  | O => fun _ => Loops
  | S fuel =>
      s <- bget ;;
      link <- match prev with None => bret (mp1_list_head s) | Some p => b <- deref p ;; bret (next b) end ;;
      if decide (link = Some i) then
        b <- deref i ;;
        match prev with
        | None => bput (set mp1_list_head (fun _ => next b) s)
        | Some p => q <- deref p ;; assign p (set next (fun _ => next b) q)
        end
      else
        match link with
        | Some p => unlink fuel (Some p) i
        | None => fun _ => Wild
        end
  end.
Definition mp1_ioctl_remove (arg : Z) : B Z :=
  p <- mp1_find_helper arg ;;
  match p with
  | None => bret (-1)
  | Some i => unlink (S CELLS) None i ;; mp1_free i ;; bret 0
  end.

(** [cmovl] after [testb] never moves: the sign and the overflow flag are
    clear. *)
Definition mp1_ioctl_sync (arg : Z) : B Z :=
  p <- mp1_find_helper (Z.shiftr (u32 arg) 16) ;;
  match p with
  | None => bret (-1)
  | Some i =>
      q <- mp1_find_helper (Z.land (u32 arg) 0xFFFF) ;;
      match q with
      | None => bret (-1)
      | Some j =>
          a <- deref i ;; b <- deref j ;; assign j (set on_length (fun _ => on_length a) b) ;;
          a <- deref i ;; b <- deref j ;; assign j (set off_length (fun _ => off_length a) b) ;;
          a <- deref i ;; b <- deref j ;; assign j (set countdown (fun _ => countdown a) b) ;;
          a <- deref i ;; b <- deref j ;; assign j (set status (fun _ => status a) b) ;;
          b <- deref j ;;
          mp1_poke (u32 (Z.shiftl (location b) 1)) (off_char b) ;;
          bret 0
      end
  end.

(** The structure found is copied to the caller's. *)
Definition mp1_ioctl_find (user : mp1_blink_struct) : B (Z * mp1_blink_struct) :=
  p <- mp1_find_helper (location user) ;;
  match p with
  | None => bret (-1, user)
  | Some i => b <- deref i ;; bret (0, b)
  end.
End blink.

(** ** fish.c *)

Section fish.
Context {P : Platform}.
(** The address of the variable [vmem_base_addr]. *)
Variable vmem_base_addr : Z.

Local Notation "x <- t ;; k" := (ITree.bind t (fun x => k))
  (at level 100, t at next level, right associativity).
Local Notation "t ;; k" := (ITree.bind t (fun _ => k))
  (at level 100, right associativity).

(** A routine of the module in the program: the pokes are stores. *)
Fixpoint pokes (o : list (Z * Z)) : prog unit :=
  match o with
  | [] => Ret tt
  | (off, c) :: o =>
      base <- ITree.trigger (Load vmem_base_addr 4) ;;
      ITree.trigger (Store (u32 (base + off)) 1 c) ;;
      pokes o
  end.
Definition perform {A} (m : B A) (s : blink_t) : prog (A * blink_t) :=
  match m s with
  | Ok (a, o, s) => pokes o ;; Ret (a, s)
  | Loops => ITree.spin
  | Wild => defined None
  end.

(** [None] is NULL. *)
Definition mp1_set_video_mode : prog (option Z) :=
  r <- vidmap vmem_base_addr ;;
  if r =? -1 then Ret None
  else p <- ITree.trigger (Load vmem_base_addr 4) ;; Ret (if p =? 0 then None else Some p).

Definition newline : Z := 10.
Definition space : Z := 32.

(** The next character of a frame; a row that has ended is not read on. *)
Definition next_of (fd c eof : Z) : prog (Z * Z) :=
  if c =? newline then Ret (c, eof)
  else
    r_ <- read fd [c] 1 ;; let '(num_bytes, buf) := r_ in
    if num_bytes =? 0 then Ret (newline, 1)
    else c <- defined (lget buf 0) ;; Ret (c, eof).

Definition inked (c : Z) : bool := negb (c =? space) && negb (c =? newline).
(** The structure for a cell of the two frames. *)
Definition cell (row col c0 c1 : Z) : mp1_blink_struct :=
  {| location := u16 (row * 80 + col + 40);
     on_char := if c0 =? newline then space else c0;
     off_char := if c1 =? newline then space else c1;
     on_length := 15; off_length := 15;
     countdown := u16 stack_junk; status := u16 stack_junk; next := None |}.

(** One column of a row: [inl] the next one, [inr] the end of the row. *)
Definition add_column (fd0 fd1 row : Z) (st : Z * Z * Z * Z * Z * blink_t)
    : prog (Z * Z * Z * Z * Z * blink_t + Z * Z * Z * Z * blink_t) :=
  let '(c0, eof0, c1, eof1, col, s) := st in
  r_ <- next_of fd0 c0 eof0 ;; let '(c0, eof0) := r_ in
  r_ <- next_of fd1 c1 eof1 ;; let '(c1, eof1) := r_ in
  if (c0 =? newline) && (c1 =? newline) then Ret (inr (c0, eof0, c1, eof1, s))
  else if inked c0 || inked c1 then
    r_ <- perform (mp1_ioctl_add (cell row col c0 c1)) s ;; let '(_, s) := r_ in
    Ret (inl (c0, eof0, c1, eof1, col + 1, s))
  else Ret (inl (c0, eof0, c1, eof1, col + 1, s)).
(** The character that a frame's next row starts with. *)
Definition next_row (fd eof : Z) : prog Z :=
  if negb (eof =? 0) then close fd ;; Ret newline else Ret 48.
Definition add_row (fd0 fd1 : Z) (st : Z * Z * Z * Z * Z * blink_t)
    : prog (Z * Z * Z * Z * Z * blink_t + blink_t) :=
  let '(c0, eof0, c1, eof1, row, s) := st in
  if (eof0 =? 0) || (eof1 =? 0) then
    r_ <- ITree.iter (add_column fd0 fd1 row) (c0, eof0, c1, eof1, 0, s) ;;
    let '(_, eof0, _, eof1, s) := r_ in
    c0 <- next_row fd0 eof0 ;;
    c1 <- next_row fd1 eof1 ;;
    Ret (inl (c0, eof0, c1, eof1, row + 1, s))
  else Ret (inr s).

Definition open_or_halt (f : list Z) : prog Z :=
  fd <- open f ;; (if fd <? 0 then halt (-1) else Ret 0) ;; Ret fd.
Definition add_frames (f0 f1 : list Z) (s : blink_t) : prog blink_t :=
  fd0 <- open_or_halt f0 ;;
  fd1 <- open_or_halt f1 ;;
  ITree.iter (add_row fd0 fd1) (48, 0, 48, 0, 0, s).

Definition WAIT : nat := 100.
(** [for (i = 0; i < WAIT; i++)] wait for the clock, let the module run. *)
Fixpoint tick_for (n : nat) (rtc_fd : Z) (s : blink_t) : prog blink_t :=
  match n with
  | O => Ret s
  | S n =>
      read rtc_fd (local_array 4) 4 ;;
      r_ <- perform mp1_rtc_tasklet s ;; let '(_, s) := r_ in
      tick_for n rtc_fd s
  end.

Definition fish_blink : mp1_blink_struct :=
  {| location := 6 * 80 + 60; on_char := 73; off_char := 77; on_length := 7; off_length := 6;
     countdown := u16 stack_junk; status := u16 stack_junk; next := None |}.
Definition fish_main : prog Z :=
  let s := mk_blink_t (replicate CELLS zero_blink) None in
  v <- mp1_set_video_mode ;;
  match v with
  | None => Ret (-1)
  | Some _ =>
      rtc_fd <- open (lit "rtc") ;;
      s <- add_frames (lit "frame0.txt") (lit "frame1.txt") s ;;
      write rtc_fd [32; 0; 0; 0] 4 ;;
      s <- tick_for WAIT rtc_fd s ;;
      r_ <- perform (mp1_ioctl_add fish_blink) s ;; let '(_, s) := r_ in
      s <- tick_for WAIT rtc_fd s ;;
      r_ <- perform (mp1_ioctl_sync (Z.lor (Z.shiftl 40 16) (6 * 80 + 60))) s ;; let '(_, s) := r_ in
      s <- tick_for WAIT rtc_fd s ;;
      r_ <- perform (mp1_ioctl_remove (6 * 80 + 60)) s ;; let '(_, s) := r_ in
      tick_for WAIT rtc_fd s ;;
      close rtc_fd ;;
      Ret 0
  end.
End fish.
