(* ===== verification/FishSpec.v ===== *)
(** * The blinking characters of fish: a linked list that implements a list

    The abstract module keeps a list of blinking characters; the commands of
    blink.S implement its operations on the array of linked structures. *)
From S2P Require Import Prelude State Logic User Fish.

(** ** The abstract module *)

Definition forget (b : mp1_blink_struct) : mp1_blink_struct := set next (fun _ => None) b.
Definition at_loc (l : Z) (b : mp1_blink_struct) : Prop := location b = l.
#[export] Instance at_loc_dec l b : Decision (at_loc l b) := Z.eq_dec (location b) l.

Definition offset_of (b : mp1_blink_struct) : Z := u32 (Z.shiftl (location b) 1).
Definition started (b : mp1_blink_struct) : mp1_blink_struct :=
  forget (set countdown (fun _ => on_length b) (set status (fun _ => 1) b)).

(** A tick: the count goes down; at its end the character shown changes. *)
Definition expired (b : mp1_blink_struct) : bool := negb (0 <? s16 (u16 (countdown b - 1))).
Definition ticked (b : mp1_blink_struct) : mp1_blink_struct :=
  if expired b then
    set status (fun s => Z.lxor s 1)
      (set countdown (fun _ => if Z.testbit (status b) 0 then off_length b else on_length b) b)
  else set countdown (fun c => u16 (c - 1)) b.
Definition tick_pokes (b : mp1_blink_struct) : list (Z * Z) :=
  if expired b then [(offset_of b, if Z.testbit (status b) 0 then off_char b else on_char b)] else [].

(** [a]'s rhythm for [b]. *)
Definition synced (a b : mp1_blink_struct) : mp1_blink_struct :=
  set status (fun _ => status a) (set countdown (fun _ => countdown a)
    (set off_length (fun _ => off_length a) (set on_length (fun _ => on_length a) b))).

(** The operations, and what they return: a number and, for a search, the
    structure found. *)
Inductive op :=
  | Add (b : mp1_blink_struct)
  | Remove (loc : Z)
  | Find (b : mp1_blink_struct)
  | Sync (arg : Z)
  | Tick.
Definition answer : Type := Z * option mp1_blink_struct.

Definition spec (o : op) (bs : list mp1_blink_struct)
    : answer * list (Z * Z) * list mp1_blink_struct :=
  match o with
  | Add b =>
      if (Z.of_nat CELLS <=? location b) || (length bs =? CELLS)%nat then ((-1, None), [], bs)
      else ((0, None), [(offset_of b, on_char b)], started b :: bs)
  | Remove loc =>
      match list_find (at_loc (u16 loc)) bs with
      | Some (k, _) => ((0, None), [], delete k bs)
      | None => ((-1, None), [], bs)
      end
  | Find b =>
      match list_find (at_loc (u16 (location b))) bs with
      | Some (_, c) => ((0, Some c), [], bs)
      | None => ((-1, None), [], bs)
      end
  | Sync arg =>
      match list_find (at_loc (u16 (Z.shiftr (u32 arg) 16))) bs,
            list_find (at_loc (u16 (Z.land (u32 arg) 0xFFFF))) bs with
      | Some (_, a), Some (k, b) =>
          ((0, None), [(offset_of b, off_char b)], <[k := synced a b]> bs)
      | _, _ => ((-1, None), [], bs)
      end
  | Tick => ((0, None), concat (map tick_pokes bs), map ticked bs)
  end.

(** The operations of blink.S. *)
Definition exec (o : op) : B answer :=
  match o with
  | Add b => bbind (mp1_ioctl_add b) (fun r => bret (r, None))
  | Remove loc => bbind (mp1_ioctl_remove loc) (fun r => bret (r, None))
  | Find b =>
      bbind (mp1_ioctl_find b) (fun r => bret (fst r, if fst r =? 0 then Some (forget (snd r)) else None))
  | Sync arg => bbind (mp1_ioctl_sync arg) (fun r => bret (r, None))
  | Tick => bbind mp1_rtc_tasklet (fun _ => bret (0, None))
  end.

(** ** The representation *)

Inductive chain (arr : list mp1_blink_struct) : option nat -> list nat -> Prop :=
  | chain_nil : chain arr None []
  | chain_cons i b js : arr !! i = Some b -> chain arr (next b) js -> chain arr (Some i) (i :: js).

Definition cell_at (arr : list mp1_blink_struct) (i : nat) : mp1_blink_struct :=
  default zero_blink (arr !! i).
Definition contents (arr : list mp1_blink_struct) (js : list nat) : list mp1_blink_struct :=
  (fun i => forget (cell_at arr i)) <$> js.

(** The elements of the list are the structures in use; the others have
    location 0, by which [mp1_malloc] finds them. *)
Record represents (s : blink_t) (js : list nat) : Prop := {
  rep_chain : chain (blink_array s) (mp1_list_head s) js;
  rep_nodup : NoDup js;
  rep_length : length (blink_array s) = CELLS;
  rep_used : forall i b, blink_array s !! i = Some b -> i ∈ js <-> location b <> 0;
}.

Lemma chain_lookup arr p js i : chain arr p js -> i ∈ js -> exists b, arr !! i = Some b.
Proof.
  induction 1 as [|j b js Hj _ IH]; [by intros ?%not_elem_of_nil|].
  intros [->|Hi]%elem_of_cons; [by exists b|by apply IH].
Qed.
Lemma cell_at_lookup arr i b : arr !! i = Some b -> cell_at arr i = b.
Proof. unfold cell_at. by intros ->. Qed.

(** A structure changed, but not its link. *)
Lemma chain_insert arr p js i b : chain arr p js -> arr !! i = Some b -> forall c, next c = next b ->
  chain (<[i := c]> arr) p js.
Proof.
  intros H Hb c Hc. assert (Hl : (i < length arr)%nat) by by eapply lookup_lt_Some.
  induction H as [|j d js Hj _ IH]; [constructor|].
  destruct (decide (i = j)) as [<-|Hne].
  - apply (chain_cons _ _ c); [by apply list_lookup_insert_eq|].
    assert (d = b) as -> by congruence. by rewrite Hc.
  - apply (chain_cons _ _ d); [by rewrite list_lookup_insert_ne|done].
Qed.
Lemma chain_insert_out arr p js i c : chain arr p js -> i ∉ js -> chain (<[i := c]> arr) p js.
Proof.
  induction 1 as [|j d js Hj _ IH]; intros Hi; [constructor|]. apply not_elem_of_cons in Hi as [Hne Hi].
  apply (chain_cons _ _ d); [by rewrite list_lookup_insert_ne|by apply IH].
Qed.
Lemma contents_out arr js i c : i ∉ js -> contents (<[i := c]> arr) js = contents arr js.
Proof.
  intros Hi. unfold contents. apply list_fmap_ext. intros k j Hj. unfold cell_at.
  rewrite list_lookup_insert_ne; [done|]. intros ->. apply Hi. by eapply list_elem_of_lookup_2.
Qed.

Lemma rep_size s js : represents s js -> (length js <= CELLS)%nat.
Proof.
  intros R. rewrite <-(rep_length _ _ R), <-(length_seq (length (blink_array s)) 0).
  apply submseteq_length, NoDup_submseteq; [apply R|]. intros i Hi.
  destruct (chain_lookup _ _ _ _ (rep_chain _ _ R) Hi) as [b Hb].
  apply elem_of_seq. split; [lia|]. by eapply lookup_lt_Some.
Qed.

(** ** The routines *)

Lemma deref_eq p b s : blink_array s !! p = Some b -> deref p s = Ok (b, [], s).
Proof. unfold deref. by intros ->. Qed.

Lemma find_loop_spec s ax p js fuel :
  chain (blink_array s) p js -> (length js <= fuel)%nat ->
  find_loop fuel ax p s =
    Ok (list_find (at_loc ax) (contents (blink_array s) js) ≫= fun kb => js !! kb.1, [], s).
Proof.
  intros H. revert fuel. induction H as [|i b js Hi _ IH]; intros [|fuel] Hf; cbn in Hf; try lia; [done..|].
  cbn [find_loop]. unfold bbind. rewrite (deref_eq _ _ _ Hi). cbn [contents fmap list_fmap list_find].
  rewrite (cell_at_lookup _ _ _ Hi). change (at_loc ax (forget b)) with (at_loc ax b).
  unfold at_loc at 1. destruct (Z.eqb_spec (location b) ax) as [E|E].
  - rewrite decide_True by done. done.
  - rewrite decide_False by done. rewrite IH by lia. cbn [app].
    fold (contents (blink_array s) js). by destruct (list_find _ (contents _ js)) as [[k c]|].
Qed.

Lemma find_spec s js arg :
  represents s js ->
  mp1_find_helper arg s =
    Ok (list_find (at_loc (u16 arg)) (contents (blink_array s) js) ≫= fun kb => js !! kb.1, [], s).
Proof.
  intros R. unfold mp1_find_helper, bbind, bget.
  rewrite (find_loop_spec s _ _ js); [done|apply R|by apply (rep_size s)].
Qed.

(** What a search finds. *)
Lemma found s js l k b :
  represents s js -> list_find (at_loc l) (contents (blink_array s) js) = Some (k, b) ->
  exists i c, js !! k = Some i /\ blink_array s !! i = Some c /\ b = forget c /\ i ∈ js.
Proof.
  intros R (Hk & _ & _)%list_find_Some. unfold contents in Hk.
  apply list_lookup_fmap_Some in Hk as (i & -> & Hi). exists i.
  assert (Hin : i ∈ js) by by eapply list_elem_of_lookup_2.
  destruct (chain_lookup _ _ _ _ (rep_chain _ _ R) Hin) as [c Hc]. exists c.
  by rewrite (cell_at_lookup _ _ _ Hc).
Qed.

(** A tick. *)
Lemma tasklet_step_spec s i b :
  blink_array s !! i = Some b ->
  tasklet_step i s = Ok (tt, tick_pokes b, set blink_array <[i := ticked b]> s).
Proof.
  intros Hb. unfold tasklet_step, tick_pokes, ticked, expired, bbind, deref. rewrite Hb.
  change (countdown (set countdown (fun c => u16 (c - 1)) b)) with (u16 (countdown b - 1)).
  destruct (0 <? s16 (u16 (countdown b - 1))); [done|]. cbn [negb].
  change (status (set countdown (fun c => u16 (c - 1)) b)) with (status b).
  destruct (Z.testbit (status b) 0); by destruct b.
Qed.

Lemma next_ticked b : next (ticked b) = next b.
Proof. unfold ticked. by destruct (expired b). Qed.
Lemma location_ticked b : location (ticked b) = location b.
Proof. unfold ticked. by destruct (expired b). Qed.
Lemma forget_ticked b : forget (ticked b) = ticked (forget b).
Proof. unfold ticked. change (expired (forget b)) with (expired b). by destruct (expired b). Qed.

Lemma tasklet_loop_spec js : forall fuel s p,
  chain (blink_array s) p js -> NoDup js -> (length js <= fuel)%nat ->
  exists arr, tasklet_loop fuel p s =
      Ok (tt, concat (map tick_pokes (contents (blink_array s) js)), set blink_array (fun _ => arr) s) /\
    length arr = length (blink_array s) /\
    forall j, arr !! j = if decide (j ∈ js) then ticked <$> blink_array s !! j else blink_array s !! j.
Proof.
  induction js as [|i js IH]; intros fuel s p H Hn Hf.
  - inversion H; subst. exists (blink_array s). destruct s. by destruct fuel.
  - inversion H as [|? b ? Hi Hnext]; subst. apply NoDup_cons in Hn as [Hni Hn].
    destruct fuel as [|fuel]; [cbn in Hf; lia|]. cbn [tasklet_loop]. unfold bbind.
    rewrite (tasklet_step_spec _ _ _ Hi). set (s1 := set blink_array <[i := ticked b]> s).
    assert (Hl : (i < length (blink_array s))%nat) by by eapply lookup_lt_Some.
    assert (Hi1 : blink_array s1 !! i = Some (ticked b)) by by apply list_lookup_insert_eq.
    rewrite (deref_eq _ _ _ Hi1), next_ticked.
    destruct (IH fuel s1 (next b)) as (arr & E & Hlen & Harr); [|done|cbn in Hf; lia|].
    { by apply chain_insert_out. }
    rewrite E. exists arr. split; [|split].
    + change (blink_array s1) with (<[i := ticked b]> (blink_array s)). rewrite contents_out by done.
      cbn [contents fmap list_fmap map concat app]. by rewrite (cell_at_lookup _ _ _ Hi).
    + rewrite Hlen. apply length_insert.
    + intros j. rewrite Harr. change (blink_array s1) with (<[i := ticked b]> (blink_array s)).
      destruct (decide (j = i)) as [->|Hne].
      * rewrite decide_False by done. rewrite decide_True by apply list_elem_of_here.
        by rewrite list_lookup_insert_eq, Hi.
      * rewrite list_lookup_insert_ne by done. destruct (decide (j ∈ js)) as [Hj|Hj].
        -- by rewrite decide_True by by apply list_elem_of_further.
        -- rewrite decide_False; [done|]. by intros [?|?]%elem_of_cons.
Qed.

(** Links as before. *)
Lemma chain_same arr arr' p js :
  chain arr p js ->
  (forall i b, i ∈ js -> arr !! i = Some b -> exists b', arr' !! i = Some b' /\ next b' = next b) ->
  chain arr' p js.
Proof.
  induction 1 as [|i b js Hi _ IH]; intros Hsame; [constructor|].
  destruct (Hsame i b (list_elem_of_here _ _) Hi) as (b' & Hb' & E).
  apply (chain_cons _ _ b'); [done|]. rewrite E. apply IH. intros j c Hj. apply Hsame.
  by apply list_elem_of_further.
Qed.

(** [refines o s js]: the operation on the structures does what the abstract
    one does on the list they represent. *)
Definition refines (o : op) (s : blink_t) (js : list nat) : Prop :=
  exists a ps s' js', exec o s = Ok (a, ps, s') /\ represents s' js' /\
    spec o (contents (blink_array s) js) = (a, ps, contents (blink_array s') js').

Lemma refines_tick s js : represents s js -> refines Tick s js.
Proof.
  intros R. destruct (tasklet_loop_spec js CELLS s (mp1_list_head s)) as (arr & E & Hlen & Harr);
    [apply R|apply R|by apply (rep_size s)|].
  eexists _, _, (set blink_array (fun _ => arr) s), js.
  split; [unfold exec, mp1_rtc_tasklet, bbind, bget, bret; rewrite E; cbn; by rewrite !app_nil_r|].
  assert (Hin : forall i b, i ∈ js -> blink_array s !! i = Some b -> arr !! i = Some (ticked b)).
  { intros i b Hi Hb. by rewrite Harr, decide_True, Hb. }
  split; [split|].
  - eapply chain_same; [apply R|]. intros i b Hi Hb. exists (ticked b).
    split; [by apply Hin|apply next_ticked].
  - apply R.
  - cbn. rewrite Hlen. apply R.
  - intros i b Hb. cbn in Hb. rewrite Harr in Hb. destruct (decide (i ∈ js)) as [Hi|Hi].
    + destruct (blink_array s !! i) as [c|] eqn:Hc; [|done]. injection Hb as <-.
      rewrite location_ticked. by apply (rep_used _ _ R).
    + by apply (rep_used _ _ R).
  - cbn [spec]. f_equal. unfold contents. change (blink_array (set blink_array _ s)) with arr.
    rewrite <-list_fmap_compose. apply Forall_fmap_ext_1, Forall_forall. intros i Hi.
    destruct (chain_lookup _ _ _ _ (rep_chain _ _ R) Hi) as [b Hb]. cbn.
    by rewrite (cell_at_lookup _ _ _ Hb), (cell_at_lookup _ _ _ (Hin _ _ Hi Hb)), forget_ticked.
Qed.

(** Allocation: a free structure, unless all are in use. *)
Lemma malloc_spec s js :
  represents s js ->
  exists r, mp1_malloc s = Ok (r, [], s) /\
    match r with
    | Some i => (i ∉ js) /\ exists c, blink_array s !! i = Some c /\ (length js < CELLS)%nat
    | None => length js = CELLS
    end.
Proof.
  intros R. unfold mp1_malloc, bbind, bget, bret. eexists. split; [done|].
  rewrite take_ge by (by rewrite (rep_length _ _ R)).
  destruct (list_find _ (blink_array s)) as [[i c]|] eqn:E; cbn [fmap option_fmap option_map fst].
  - apply list_find_Some in E as (Hc & Hz & _).
    assert (Hni : i ∉ js) by (intros Hi; by apply (rep_used _ _ R i c Hc)).
    split; [done|]. exists c. split; [done|].
    assert (Hs : (length (i :: js) <= length (blink_array s))%nat); [|rewrite (rep_length _ _ R) in Hs; cbn [length] in Hs; lia].
    rewrite <-(length_seq (length (blink_array s)) 0).
    apply submseteq_length, NoDup_submseteq; [apply NoDup_cons; split; [done|apply R]|].
    intros j [->|Hj]%elem_of_cons; apply elem_of_seq; (split; [lia|]).
    + by eapply lookup_lt_Some.
    + destruct (chain_lookup _ _ _ _ (rep_chain _ _ R) Hj) as [b Hb]. by eapply lookup_lt_Some.
  - apply list_find_None in E. apply Nat.le_antisymm; [by apply (rep_size s)|].
    rewrite <-(rep_length _ _ R), <-(length_seq (length (blink_array s)) 0).
    apply submseteq_length, NoDup_submseteq; [apply NoDup_seq|]. intros i [_ Hi]%elem_of_seq.
    destruct (lookup_lt_is_Some_2 (blink_array s) i Hi) as [b Hb].
    apply (rep_used _ _ R i b Hb). rewrite Forall_forall in E. apply E.
    by eapply list_elem_of_lookup_2.
Qed.

Lemma contents_length arr js : length (contents arr js) = length js.
Proof. apply length_fmap. Qed.

Lemma refines_add b s js : represents s js -> location b <> 0 -> refines (Add b) s js.
Proof.
  intros R Hb. unfold refines. cbn [exec spec]. rewrite contents_length.
  unfold mp1_ioctl_add. destruct (Z.of_nat CELLS <=? location b).
  { eexists _, _, s, js. split; [done|]. by split. }
  cbn [orb]. destruct (malloc_spec s js R) as (r & E & Hr).
  unfold bbind at 1 2. rewrite E. destruct r as [i|].
  2: { rewrite Hr, Nat.eqb_refl. eexists _, _, s, js. split; [done|]. by split. }
  destruct Hr as (Hni & c & Hc & Hlen). rewrite (proj2 (Nat.eqb_neq _ _)) by lia.
  assert (Hl : (i < length (blink_array s))%nat) by by eapply lookup_lt_Some.
  set (b1 := set countdown _ _). set (b2 := set next (fun _ => mp1_list_head s) b1).
  eexists _, _, (mk_blink_t (<[i := b2]> (blink_array s)) (Some i)), (i :: js). split; [|split; [split|]].
  - unfold assign, bget, bput, mp1_poke, bbind, bret. cbn. fold b2.
    change (set mp1_list_head (fun _ => Some i) (set blink_array <[i := b2]> (set blink_array <[i := b1]> s)))
      with (mk_blink_t (<[i := b2]> (<[i := b1]> (blink_array s))) (Some i)).
    by rewrite list_insert_insert_eq.
  - apply (chain_cons _ _ b2); [by apply list_lookup_insert_eq|].
    change (next b2) with (mp1_list_head s). apply chain_insert_out; [apply R|done].
  - apply NoDup_cons. split; [done|apply R].
  - cbn. rewrite length_insert. apply R.
  - cbn. intros j d Hd. destruct (decide (j = i)) as [->|Hne].
    + rewrite list_lookup_insert_eq in Hd by done. injection Hd as <-.
      split; [intros _; exact Hb|intros _; apply list_elem_of_here].
    + rewrite list_lookup_insert_ne in Hd by done. rewrite elem_of_cons.
      rewrite <-(rep_used _ _ R j d Hd). split; [by intros [|]|by right].
  - cbn [blink_array contents fmap list_fmap]. fold (contents (<[i := b2]> (blink_array s)) js).
    rewrite contents_out by done. by rewrite (cell_at_lookup _ _ b2) by by apply list_lookup_insert_eq.
Qed.

Lemma refines_find b s js : represents s js -> refines (Find b) s js.
Proof.
  intros R. unfold refines. cbn [exec spec]. unfold mp1_ioctl_find, bbind, bret.
  rewrite (find_spec s js) by done.
  destruct (list_find _ _) as [[k c]|] eqn:E.
  - destruct (found _ _ _ _ _ R E) as (i & d & Hk & Hd & -> & _). cbn [mbind option_bind fst]. rewrite Hk.
    rewrite (deref_eq _ _ _ Hd). by eexists _, _, s, js.
  - by eexists _, _, s, js.
Qed.

Lemma location_synced a b : location (synced a b) = location b.
Proof. done. Qed.

Lemma represents_alter s js i b c :
  represents s js -> blink_array s !! i = Some b -> i ∈ js -> next c = next b -> location c = location b ->
  represents (set blink_array <[i := c]> s) js.
Proof.
  intros R Hb Hi Hn Hl. split.
  - eapply chain_insert; [apply R|exact Hb|exact Hn].
  - apply R.
  - cbn. rewrite length_insert. apply R.
  - cbn. intros j d Hd. assert (Hlt : (i < length (blink_array s))%nat) by by eapply lookup_lt_Some.
    destruct (decide (j = i)) as [->|Hne].
    + rewrite list_lookup_insert_eq in Hd by done. injection Hd as <-. rewrite Hl. by apply (rep_used _ _ R).
    + rewrite list_lookup_insert_ne in Hd by done. by apply (rep_used _ _ R).
Qed.

Lemma contents_alter s js k i c :
  represents s js -> js !! k = Some i ->
  contents (<[i := c]> (blink_array s)) js = <[k := forget c]> (contents (blink_array s) js).
Proof.
  intros R Hk. assert (Hi : i ∈ js) by by eapply list_elem_of_lookup_2.
  destruct (chain_lookup _ _ _ _ (rep_chain _ _ R) Hi) as [b Hb].
  assert (Hlt : (i < length (blink_array s))%nat) by by eapply lookup_lt_Some.
  apply list_eq. intros n. unfold contents. rewrite list_lookup_fmap.
  destruct (decide (n = k)) as [->|Hne].
  - rewrite list_lookup_insert_eq by (rewrite length_fmap; by eapply lookup_lt_Some).
    rewrite Hk. cbn. by rewrite (cell_at_lookup _ _ c) by by apply list_lookup_insert_eq.
  - rewrite list_lookup_insert_ne, list_lookup_fmap by done.
    destruct (js !! n) as [j|] eqn:Hj; [|done]. cbn. unfold cell_at.
    rewrite list_lookup_insert_ne; [done|]. intros ->. apply Hne.
    by eapply NoDup_lookup; [apply R|..].
Qed.

(** One field copied from [i] to [j], which may be the same. *)
Lemma copy_field (f : mp1_blink_struct -> mp1_blink_struct -> mp1_blink_struct) {A} (k : B A) i j c d s :
  (forall x, f x x = x) -> blink_array s !! i = Some c -> blink_array s !! j = Some d ->
  let s' := set blink_array <[j := f c d]> s in
  bbind (deref i) (fun a => bbind (deref j) (fun b => bbind (assign j (f a b)) (fun _ => k))) s = k s' /\
  blink_array s' !! i = Some c /\ blink_array s' !! j = Some (f c d).
Proof.
  intros Hf Hi Hj s'. assert (Hl : (j < length (blink_array s))%nat) by by eapply lookup_lt_Some.
  split; [|split].
  - unfold bbind. rewrite (deref_eq _ _ _ Hi), (deref_eq _ _ _ Hj). cbn. fold s'.
    by destruct (k s') as [[[a o] s2]| |].
  - cbn. destruct (decide (i = j)) as [->|Hne]; [|by rewrite list_lookup_insert_ne].
    assert (d = c) as -> by congruence. by rewrite list_lookup_insert_eq, Hf.
  - cbn. by apply list_lookup_insert_eq.
Qed.

Lemma copies {A} (k : B A) i j c d s :
  blink_array s !! i = Some c -> blink_array s !! j = Some d ->
  bbind (deref i) (fun a => bbind (deref j) (fun b => bbind (assign j (set on_length (fun _ => on_length a) b)) (fun _ =>
  bbind (deref i) (fun a => bbind (deref j) (fun b => bbind (assign j (set off_length (fun _ => off_length a) b)) (fun _ =>
  bbind (deref i) (fun a => bbind (deref j) (fun b => bbind (assign j (set countdown (fun _ => countdown a) b)) (fun _ =>
  bbind (deref i) (fun a => bbind (deref j) (fun b => bbind (assign j (set status (fun _ => status a) b)) (fun _ =>
    k)))))))))))) s = k (set blink_array <[j := synced c d]> s).
Proof.
  intros Hc Hd.
  destruct (copy_field (fun a b => set on_length (fun _ => on_length a) b) (A := A)
    (bbind (deref i) (fun a => bbind (deref j) (fun b => bbind (assign j (set off_length (fun _ => off_length a) b)) (fun _ =>
     bbind (deref i) (fun a => bbind (deref j) (fun b => bbind (assign j (set countdown (fun _ => countdown a) b)) (fun _ =>
     bbind (deref i) (fun a => bbind (deref j) (fun b => bbind (assign j (set status (fun _ => status a) b)) (fun _ =>
     k)))))))))) i j c d s ltac:(by intros []) Hc Hd) as (-> & Hc1 & Hd1).
  destruct (copy_field (fun a b => set off_length (fun _ => off_length a) b) (A := A)
    (bbind (deref i) (fun a => bbind (deref j) (fun b => bbind (assign j (set countdown (fun _ => countdown a) b)) (fun _ =>
     bbind (deref i) (fun a => bbind (deref j) (fun b => bbind (assign j (set status (fun _ => status a) b)) (fun _ =>
     k))))))) i j c _ _ ltac:(by intros []) Hc1 Hd1) as (-> & Hc2 & Hd2).
  destruct (copy_field (fun a b => set countdown (fun _ => countdown a) b) (A := A)
    (bbind (deref i) (fun a => bbind (deref j) (fun b => bbind (assign j (set status (fun _ => status a) b)) (fun _ => k))))
    i j c _ _ ltac:(by intros []) Hc2 Hd2) as (-> & Hc3 & Hd3).
  destruct (copy_field (fun a b => set status (fun _ => status a) b) (A := A) k
    i j c _ _ ltac:(by intros []) Hc3 Hd3) as (-> & _).
  f_equal. destruct s as [arr h]. cbn. unfold set, blink_array_upd. cbn. f_equal.
  by rewrite !list_insert_insert_eq.
Qed.

Lemma refines_sync arg s js : represents s js -> refines (Sync arg) s js.
Proof.
  intros R. unfold refines. cbn [exec spec]. unfold mp1_ioctl_sync. unfold bbind at 1 2.
  rewrite (find_spec s js) by done.
  destruct (list_find (at_loc (u16 (Z.shiftr (u32 arg) 16))) _) as [[k1 a]|] eqn:E1.
  2: { by eexists _, _, s, js. }
  destruct (found _ _ _ _ _ R E1) as (i & c & Hk1 & Hc & -> & _). cbn [mbind option_bind fst]. rewrite Hk1.
  unfold bbind at 1. rewrite (find_spec s js) by done.
  destruct (list_find (at_loc (u16 (Z.land (u32 arg) 0xFFFF))) _) as [[k2 b]|] eqn:E2.
  2: { by eexists _, _, s, js. }
  destruct (found _ _ _ _ _ R E2) as (j & d & Hk2 & Hd & -> & Hj). cbn [mbind option_bind fst]. rewrite Hk2.
  rewrite (copies _ i j c d s Hc Hd). set (s' := set blink_array <[j := synced c d]> s).
  assert (Hd' : blink_array s' !! j = Some (synced c d)).
  { apply list_lookup_insert_eq. by eapply lookup_lt_Some. }
  unfold bbind. rewrite (deref_eq _ _ _ Hd'). cbn.
  eexists _, _, s', js. split; [done|]. split; [by apply (represents_alter s js j d)|].
  change (blink_array s') with (<[j := synced c d]> (blink_array s)).
  by rewrite (contents_alter s js k2 j).
Qed.

(** *** Removal *)

(** The link that [unlink] looks at. *)
Definition link (s : blink_t) (prev : option nat) : option (option nat) :=
  match prev with None => Some (mp1_list_head s) | Some p => next <$> blink_array s !! p end.

Lemma unlink_spec pre : forall fuel prev i post s p,
  link s prev = Some p -> chain (blink_array s) p (pre ++ i :: post) -> NoDup (pre ++ i :: post) ->
  (forall q, prev = Some q -> q ∉ pre ++ i :: post) -> (length pre < fuel)%nat ->
  exists s' p', unlink fuel prev i s = Ok (tt, [], s') /\
    link s' prev = Some p' /\ chain (blink_array s') p' (pre ++ post) /\
    (forall j, j ∉ pre -> prev <> Some j -> blink_array s' !! j = blink_array s !! j) /\
    (forall j, forget <$> blink_array s' !! j = forget <$> blink_array s !! j) /\
    (prev <> None -> mp1_list_head s' = mp1_list_head s) /\
    length (blink_array s') = length (blink_array s).
Proof.
  induction pre as [|x pre IH]; intros fuel prev i post s p Hl Hc Hn Hq Hf; (destruct fuel as [|fuel]; [lia|]).
  - inversion Hc as [|? b ? Hb Hpost]; subst. cbn [unlink]. unfold bbind, bget.
    destruct prev as [q|]; cbn in Hl.
    + destruct (blink_array s !! q) as [d|] eqn:Hd; [|done]. injection Hl as Hl.
      rewrite (deref_eq _ _ _ Hd). unfold bret. rewrite Hl, decide_True by done.
      rewrite (deref_eq _ _ _ Hb). cbn.
      assert (Hlt : (q < length (blink_array s))%nat) by by eapply lookup_lt_Some.
      eexists (set blink_array <[q := set next (fun _ => next b) d]> s), (next b).
      split; [by rewrite (deref_eq _ _ _ Hd)|]. cbn. split_and!.
      * by rewrite list_lookup_insert_eq.
      * apply chain_insert_out; [done|]. intros Hin. apply (Hq q); [done|]. by right.
      * intros j _ Hj. rewrite list_lookup_insert_ne; congruence.
      * intros j. destruct (decide (j = q)) as [->|]; [|by rewrite list_lookup_insert_ne].
        by rewrite list_lookup_insert_eq, Hd.
      * done.
      * apply length_insert.
    + injection Hl as Hl. unfold bret. rewrite Hl, decide_True by done.
      rewrite (deref_eq _ _ _ Hb). cbn.
      by eexists (set mp1_list_head (fun _ => next b) s), (next b).
  - inversion Hc as [|? b ? Hb Hrest]; subst. cbn [app] in Hn. apply NoDup_cons in Hn as [Hnx Hn].
    assert (Hxi : x <> i).
    { intros ->. apply Hnx, elem_of_app. right. apply list_elem_of_here. }
    destruct (IH fuel (Some x) i post s (next b)) as (s' & p' & E & Hl' & Hc' & Hsame & Hforget & Hhead & Hlen);
      [cbn; by rewrite Hb|done|done|by intros ? [= <-]|cbn in Hf; lia|].
    assert (Hx' : exists x', blink_array s' !! x = Some x' /\ next x' = p').
    { cbn in Hl'. destruct (blink_array s' !! x) as [x'|]; [|done]. exists x'. by injection Hl' as <-. }
    destruct Hx' as (x' & Hx' & Hnext).
    assert (Hchain : chain (blink_array s') (Some x) ((x :: pre) ++ post)).
    { apply (chain_cons _ _ x'); [done|]. by rewrite Hnext. }
    exists s', (Some x). cbn [unlink]. unfold bbind at 1, bget. split.
    + destruct prev as [q|]; cbn in Hl.
      * destruct (blink_array s !! q) as [d|] eqn:Hd; [|done]. injection Hl as Hl.
        unfold bbind. rewrite (deref_eq _ _ _ Hd). unfold bret. rewrite Hl, decide_False by congruence.
        by rewrite E.
      * injection Hl as Hl. unfold bbind, bret. rewrite Hl, decide_False by congruence. by rewrite E.
    + split_and!; try done.
      * destruct prev as [q|]; cbn in Hl |- *.
        -- rewrite Hsame; [done| |].
           ++ intros Hin. apply (Hq q); [done|]. right. apply elem_of_app. by left.
           ++ intros [= ->]. by apply (Hq q); [|left].
        -- rewrite Hhead; done.
      * intros j Hj Hp. apply not_elem_of_cons in Hj as [Hjx Hj]. apply Hsame; congruence.
      * intros Hp. by apply Hhead.
Qed.

Lemma same_location (arr arr' : list mp1_blink_struct) j b :
  forget <$> arr' !! j = forget <$> arr !! j -> arr' !! j = Some b ->
  exists c, arr !! j = Some c /\ location c = location b.
Proof.
  intros E Hb. rewrite Hb in E. destruct (arr !! j) as [c|]; [|done]. exists c. split; [done|].
  change (location (forget c) = location (forget b)). cbn in E. congruence.
Qed.

Lemma refines_remove loc s js : represents s js -> refines (Remove loc) s js.
Proof.
  intros R. unfold refines. cbn [exec spec]. unfold mp1_ioctl_remove. unfold bbind at 1 2.
  rewrite (find_spec s js) by done.
  destruct (list_find (at_loc (u16 loc)) _) as [[k a]|] eqn:E1.
  2: { by eexists _, _, s, js. }
  destruct (found _ _ _ _ _ R E1) as (i & c & Hk & Hc & -> & Hi). cbn [mbind option_bind fst]. rewrite Hk.
  set (pre := take k js). set (post := drop (S k) js).
  assert (Ejs : js = pre ++ i :: post) by (symmetry; by apply take_drop_middle).
  assert (Hdel : delete k js = pre ++ post) by apply delete_take_drop.
  pose proof (rep_nodup _ _ R) as Hn. rewrite Ejs in Hn.
  assert (Hni : i ∉ pre ++ post).
  { apply NoDup_app in Hn as (_ & H1 & H2). apply NoDup_cons in H2 as [H2 _].
    intros [Hp|Hp]%elem_of_app; [apply (H1 i Hp), list_elem_of_here|done]. }
  assert (Hn' : NoDup (pre ++ post)).
  { apply NoDup_app in Hn as (N1 & N2 & N3). apply NoDup_cons in N3 as [_ N3]. apply NoDup_app.
    split_and!; [done| |done]. intros x Hx Hx'. apply (N2 x Hx). by apply list_elem_of_further. }
  assert (Hlen : (length pre < S CELLS)%nat).
  { pose proof (rep_size s js R). unfold pre. rewrite length_take. lia. }
  pose proof (rep_chain _ _ R) as Hch. rewrite Ejs in Hch.
  destruct (unlink_spec pre (S CELLS) None i post s (mp1_list_head s) eq_refl Hch Hn)
    as (s1 & p1 & E & Hl & Hc1 & _ & Hforget & _ & Hlen1); [done|done|].
  injection Hl as <-.
  assert (Hi1 : exists c1, blink_array s1 !! i = Some c1).
  { specialize (Hforget i). rewrite Hc in Hforget. destruct (blink_array s1 !! i) as [c1|]; [by exists c1|done]. }
  destruct Hi1 as [c1 Hi1]. assert (Hlt : (i < length (blink_array s1))%nat) by by eapply lookup_lt_Some.
  unfold bbind. rewrite E. cbn.
  eexists _, _, (set blink_array <[i := zero_blink]> s1), (pre ++ post). split; [done|]. split; [split|].
  - cbn. by apply chain_insert_out.
  - done.
  - cbn. rewrite length_insert, Hlen1. apply R.
  - cbn. intros j b Hb. destruct (decide (j = i)) as [->|Hne].
    { rewrite list_lookup_insert_eq in Hb by done. injection Hb as <-. by split. }
    rewrite list_lookup_insert_ne in Hb by done.
    destruct (same_location _ _ _ _ (Hforget j) Hb) as (d & Hd & <-).
    rewrite <-(rep_used _ _ R j d Hd), Ejs, !elem_of_app, elem_of_cons. tauto.
  - f_equal. cbn. rewrite contents_out by done. rewrite <-Hdel.
    unfold contents. rewrite list_fmap_delete. f_equal. apply list_fmap_ext. intros n j _.
    unfold cell_at. specialize (Hforget j).
    destruct (blink_array s1 !! j), (blink_array s !! j); cbn in Hforget |- *; congruence.
Qed.
