(* ===== verification/FishProps.v ===== *)
(** * Properties of the fish demo *)
From S2P Require Import Prelude State Logic User Fish FishSpec.

(** ** Sequences of operations *)

Definition empty_blinks : blink_t := mk_blink_t (replicate CELLS zero_blink) None.

Fixpoint exec_all (os : list op) : B (list answer) :=
  match os with
  | [] => bret []
  | o :: os => bbind (exec o) (fun a => bbind (exec_all os) (fun l => bret (a :: l)))
  end.
Fixpoint spec_all (os : list op) (bs : list mp1_blink_struct)
    : list answer * list (Z * Z) * list mp1_blink_struct :=
  match os with
  | [] => ([], [], bs)
  | o :: os =>
      let '(a, ps, bs) := spec o bs in
      let '(l, qs, bs) := spec_all os bs in (a :: l, ps ++ qs, bs)
  end.

(** The top left corner of the screen is the mark of a free structure. *)
Definition off_corner (o : op) : Prop :=
  match o with Add b => location b <> 0 | _ => True end.

Lemma refines_op o s js : represents s js -> off_corner o -> refines o s js.
Proof.
  intros R Ho. destruct o; [by apply refines_add|by apply refines_remove|by apply refines_find|
    by apply refines_sync|by apply refines_tick].
Qed.

Lemma represents_empty : represents empty_blinks [].
Proof.
  split; [constructor|constructor|apply length_replicate|].
  intros i b Hb. apply lookup_replicate in Hb as [-> _]. split; [by intros ?%not_elem_of_nil|done].
Qed.

Lemma refines_all os : forall s js,
  represents s js -> Forall off_corner os ->
  exists l ps s' js', exec_all os s = Ok (l, ps, s') /\ represents s' js' /\
    spec_all os (contents (blink_array s) js) = (l, ps, contents (blink_array s') js').
Proof.
  induction os as [|o os IH]; intros s js R Hos.
  - by exists [], [], s, js.
  - apply Forall_cons in Hos as [Ho Hos].
    destruct (refines_op o s js R Ho) as (a & ps & s1 & js1 & E1 & R1 & S1).
    destruct (IH s1 js1 R1 Hos) as (l & qs & s2 & js2 & E2 & R2 & S2).
    exists (a :: l), (ps ++ qs), s2, js2. cbn [exec_all spec_all]. unfold bbind, bret.
    rewrite E1, E2, S1, S2, app_nil_r. done.
Qed.

(** C36: the linked list implements a list. Whatever sequence of commands and
    ticks the module gets, as long as nothing is added in the top left corner,
    every routine ends, the answers and the bytes poked on the screen are those
    of the abstract list of blinking characters, and the structures represent
    that list. *)
Theorem blink_list_refined os :
  Forall off_corner os ->
  exists l ps s' js, exec_all os empty_blinks = Ok (l, ps, s') /\ represents s' js /\
    spec_all os [] = (l, ps, contents (blink_array s') js).
Proof. intros Hos. by apply (refines_all os empty_blinks []); [apply represents_empty|]. Qed.

Definition demo_blink (l c : Z) : mp1_blink_struct := mk_blink l c 77 2 3 0 0 None.
Lemma blink_list_refined_witness :
  exists l ps s' js,
    exec_all [Add (demo_blink 540 73); Add (demo_blink 41 65); Remove 540; Tick; Tick] empty_blinks =
      Ok (l, ps, s') /\ represents s' js /\
    ps = [(1080, 73); (82, 65); (82, 77)] /\ length js = 1%nat.
Proof.
  destruct (blink_list_refined [Add (demo_blink 540 73); Add (demo_blink 41 65); Remove 540; Tick; Tick])
    as (l & ps & s' & js & E & R & S).
  - repeat constructor; done.
  - exists l, ps, s', js. split; [exact E|]. split; [exact R|].
    vm_compute in S. injection S as _ <- S. split; [done|]. by destruct js as [|? []].
Defined.

(** ** The rhythm of a character *)

(** What a cell that shows [c] shows after some bytes have been poked. *)
Definition shows (c : Z) (ps : list (Z * Z)) : Z := from_option snd c (last ps).
Definition shows_at (off c : Z) (ps : list (Z * Z)) : Z :=
  shows c (filter (fun p => p.1 = off) ps).

Definition in_phase (b : mp1_blink_struct) (st cd : Z) : mp1_blink_struct :=
  set status (fun _ => st) (set countdown (fun _ => cd) (forget b)).

Lemma ticked_counting b st cd :
  1 < cd < 32769 ->
  ticked (in_phase b st cd) = in_phase b st (cd - 1) /\ tick_pokes (in_phase b st cd) = [].
Proof.
  intros Hcd. unfold ticked, tick_pokes, expired.
  change (countdown (in_phase b st cd)) with cd.
  assert (E : (0 <? s16 (u16 (cd - 1))) = true).
  { apply Z.ltb_lt. unfold s16, u16. divlia. }
  rewrite E. split; [|done]. unfold u16. rewrite <-(Z.mod_small (cd - 1) 65536) by lia. by destruct b.
Qed.
Lemma ticked_on b :
  ticked (in_phase b 1 1) = in_phase b 0 (off_length b) /\
  tick_pokes (in_phase b 1 1) = [(offset_of b, off_char b)].
Proof. by destruct b. Qed.
Lemma ticked_off b :
  ticked (in_phase b 0 1) = in_phase b 1 (on_length b) /\
  tick_pokes (in_phase b 0 1) = [(offset_of b, on_char b)].
Proof. by destruct b. Qed.

(** The phase after [t] ticks. *)
Lemma rhythm b t :
  1 <= on_length b < 32768 -> 1 <= off_length b < 32768 ->
  let p := on_length b + off_length b in
  let r := Z.of_nat t mod p in
  Nat.iter t ticked (started b) =
    (if r <? on_length b then in_phase b 1 (on_length b - r) else in_phase b 0 (p - r)) /\
  shows (on_char b) (concat (map (fun k => tick_pokes (Nat.iter k ticked (started b))) (seq 0 t))) =
    (if r <? on_length b then on_char b else off_char b).
Proof.
  intros Hon Hoff p. induction t as [|t [IH1 IH2]].
  - cbn [Nat.iter]. rewrite Z.mod_0_l by (unfold p; lia). cbv zeta.
    rewrite (proj2 (Z.ltb_lt 0 _)) by lia. split; [|done]. rewrite Z.sub_0_r. by destruct b.
  - cbv zeta in *. assert (Hp : 0 < p) by (unfold p; lia).
    pose proof (Z.mod_pos_bound (Z.of_nat t) p Hp) as Hr.
    assert (Hnext : Z.of_nat (S t) mod p =
      if Z.of_nat t mod p + 1 =? p then 0 else Z.of_nat t mod p + 1).
    { rewrite Nat2Z.inj_succ, <-Z.add_1_r, Z.add_mod by lia.
      destruct (Z.eq_dec p 1); [unfold p in *; lia|]. rewrite (Z.mod_small 1) by lia.
      destruct (Z.eqb_spec (Z.of_nat t mod p + 1) p) as [->|]; [by rewrite Z.mod_same by lia|].
      by rewrite Z.mod_small by lia. }
    rewrite Hnext, seq_S, map_app, concat_app. cbn [map concat Nat.iter]. rewrite app_nil_r. cbn [Nat.add].
    change (Nat.iter (S t) ticked (started b)) with (ticked (Nat.iter t ticked (started b))).
    rewrite IH1. set (r := Z.of_nat t mod p) in *. clearbody r.
    unfold shows in *. destruct (Z.ltb_spec r (on_length b)) as [H1|H1].
    + rewrite (proj2 (Z.eqb_neq (r + 1) p)) by (unfold p; lia).
      destruct (Z.ltb_spec (r + 1) (on_length b)) as [H2|H2].
      * destruct (ticked_counting b 1 (on_length b - r)) as [-> ->]; [lia|]. rewrite app_nil_r.
        split; [f_equal; lia|done].
      * replace (on_length b - r) with 1 by lia. destruct (ticked_on b) as [-> ->].
        rewrite last_snoc. split; [f_equal; unfold p; lia|done].
    + destruct (Z.eqb_spec (r + 1) p) as [H3|H3].
      * replace (p - r) with 1 by lia. destruct (ticked_off b) as [-> ->]. rewrite last_snoc.
        rewrite (proj2 (Z.ltb_lt 0 _)) by lia. split; [f_equal; lia|done].
      * rewrite (proj2 (Z.ltb_ge (r + 1) _)) by lia.
        destruct (ticked_counting b 0 (p - r)) as [-> ->]; [unfold p in *; lia|]. rewrite app_nil_r.
        split; [f_equal; lia|done].
Qed.

Lemma iter_shift {A} (f : A -> A) n x : Nat.iter n f (f x) = f (Nat.iter n f x).
Proof. by rewrite <-Nat.iter_succ_r. Qed.
Lemma offset_ticked b : offset_of (ticked b) = offset_of b.
Proof. unfold offset_of. by rewrite location_ticked. Qed.
Lemma tick_pokes_own b : filter (fun p => p.1 = offset_of b) (tick_pokes b) = tick_pokes b.
Proof.
  unfold tick_pokes. case_match; [|done].
  by rewrite filter_cons_True, filter_nil by done.
Qed.
Lemma tick_pokes_others off bs :
  Forall (fun c => offset_of c <> off) bs ->
  filter (fun p => p.1 = off) (concat (map tick_pokes bs)) = [].
Proof.
  induction 1 as [|c bs Hc _ IH]; [done|]. cbn [map concat]. rewrite filter_app, IH, app_nil_r.
  unfold tick_pokes. case_match; [|done]. by rewrite filter_cons_False, filter_nil by done.
Qed.

(** Ticks of a list: what is poked in the cell of its first element. *)
Lemma spec_ticks t : forall c bs, Forall (fun b => offset_of b <> offset_of c) bs ->
  exists l ps, spec_all (replicate t Tick) (c :: bs) =
      (l, ps, Nat.iter t ticked c :: Nat.iter t (map ticked) bs) /\
    filter (fun p => p.1 = offset_of c) ps =
      concat (map (fun k => tick_pokes (Nat.iter k ticked c)) (seq 0 t)).
Proof.
  induction t as [|t IH]; intros c bs Hbs; [by exists [], []|].
  destruct (IH (ticked c) (map ticked bs)) as (l & ps & E & F).
  { rewrite offset_ticked. apply Forall_fmap. eapply Forall_impl; [exact Hbs|].
    intros b. cbn. by rewrite offset_ticked. }
  eexists _, _. cbn [replicate spec_all spec map concat]. rewrite E. split.
  - by rewrite !iter_shift.
  - rewrite !filter_app, tick_pokes_own, (tick_pokes_others _ _ Hbs), app_nil_r.
    rewrite offset_ticked in F. rewrite F.
    change (seq 0 (S t)) with (0%nat :: seq 1 t). cbn [map concat]. f_equal. f_equal.
    rewrite <-(fmap_S_seq 0), <-list_fmap_compose. apply map_ext. intros k. cbn.
    by rewrite iter_shift.
Qed.

(** C37: the rhythm. A character added to a list with room for it and no other
    character in its cell, and then ticked [t] times, is, in every period of its
    two lengths, on for [on_length] ticks and then off for [off_length] ticks,
    what its cell shows is the character of the phase, and the other characters
    have had their [t] ticks. The lengths are from 1 to 32767, which the signed
    comparison of [tasklet_loop] counts down. *)
Theorem blink_period s0 js0 b t :
  represents s0 js0 -> (length js0 < CELLS)%nat ->
  let others := contents (blink_array s0) js0 in
  Forall (fun c => offset_of c <> offset_of b) others ->
  0 < location b < 2000 -> 1 <= on_length b < 32768 -> 1 <= off_length b < 32768 ->
  let p := on_length b + off_length b in
  let r := Z.of_nat t mod p in
  exists l ps s js, exec_all (Add b :: replicate t Tick) s0 = Ok (l, ps, s) /\
    represents s js /\
    contents (blink_array s) js =
      (if r <? on_length b then in_phase b 1 (on_length b - r) else in_phase b 0 (p - r))
        :: Nat.iter t (map ticked) others /\
    shows_at (offset_of b) 0 ps = (if r <? on_length b then on_char b else off_char b).
Proof.
  intros R0 Hroom others Hoth Hl Hon Hoff p r.
  destruct (rhythm b t Hon Hoff) as [R1 R2]. fold p r in R1, R2.
  destruct (refines_all (Add b :: replicate t Tick) s0 js0) as (l & ps & s & js & E & R & S);
    [done|constructor; [cbn; lia|by apply Forall_replicate]|].
  exists l, ps, s, js. split; [done|]. split; [done|]. fold others in S.
  cbn [spec_all spec] in S.
  rewrite (proj2 (Z.leb_gt (Z.of_nat CELLS) (location b))) in S by (change (Z.of_nat CELLS) with 2000; lia).
  assert (Hlen : (length others =? CELLS)%nat = false)
    by (apply Nat.eqb_neq; unfold others; rewrite contents_length; lia).
  rewrite Hlen in S. cbn [orb] in S. cbv iota in S.
  destruct (spec_ticks t (started b) others) as (l' & qs & E' & F); [exact Hoth|].
  rewrite E' in S. cbn [app] in S. injection S as <- <- <-. split; [by rewrite R1|].
  rewrite <-R2. unfold shows_at, shows. rewrite filter_cons_True by done.
  change (offset_of (started b)) with (offset_of b) in F. rewrite F, last_cons. by destruct (last _).
Qed.

(** The fish's eye, added after another character. *)
Lemma blink_period_witness :
  exists s0 js0, represents s0 js0 /\ exists l ps s js,
    exec_all (Add (mk_blink 540 73 77 7 6 0 0 None) :: replicate 16 Tick) s0 = Ok (l, ps, s) /\
    represents s js /\
    contents (blink_array s) js =
      mk_blink 540 73 77 7 6 4 1 None :: [mk_blink 41 65 77 2 3 1 1 None] /\
    shows_at 1080 0 ps = 73.
Proof.
  destruct (refines_all [Add (demo_blink 41 65)] empty_blinks []) as (l0 & ps0 & s0 & js0 & E0 & R0 & S0);
    [apply represents_empty|by repeat constructor|].
  assert (HS : spec_all [Add (demo_blink 41 65)] [] =
    ([(0, None)], [(82, 65)], [mk_blink 41 65 77 2 3 2 1 None])) by reflexivity.
  change (contents (blink_array empty_blinks) []) with (@nil mp1_blink_struct) in S0.
  rewrite HS in S0. injection S0 as _ _ H0. symmetry in H0.
  assert (Hlen : length js0 = 1%nat) by (by rewrite <-(contents_length (blink_array s0)), H0).
  exists s0, js0. split; [exact R0|].
  destruct (blink_period s0 js0 (mk_blink 540 73 77 7 6 0 0 None) 16)
    as (l & ps & s & js & H1 & H2 & H3 & H4).
  - exact R0.
  - rewrite Hlen. unfold CELLS. lia.
  - rewrite H0. by repeat constructor.
  - cbn. lia.
  - cbn. lia.
  - cbn. lia.
  - exists l, ps, s, js. split; [exact H1|]. split; [exact H2|]. rewrite H0 in H3.
    split; [exact H3|exact H4].
Defined.

(** ** The corner *)

Definition linked (b : mp1_blink_struct) (p : option nat) : mp1_blink_struct :=
  set next (fun _ => p) (set countdown (fun _ => on_length b) (set status (fun _ => 1) b)).
Lemma location_linked b p : location (linked b p) = location b.
Proof. done. Qed.

Lemma corner_add b rest h c :
  location b = 0 -> location c = 0 ->
  exec (Add b) (mk_blink_t (c :: rest) h) =
    Ok ((0, None), [(0, on_char b)], mk_blink_t (linked b h :: rest) (Some 0%nat)).
Proof.
  intros Hb Hc. cbn [exec]. unfold mp1_ioctl_add. rewrite Hb. unfold mp1_malloc, bbind, bget, bret.
  change CELLS with (S 1999). change (Z.of_nat (S 1999) <=? 0) with false. cbv iota.
  cbn [blink_array take list_find]. rewrite decide_True by done. cbn. by rewrite Hb.
Qed.

Lemma corner_ticks fuel : forall s b,
  blink_array s !! 0%nat = Some b -> next b = Some 0%nat -> tasklet_loop fuel (Some 0%nat) s = Loops.
Proof.
  induction fuel as [|fuel IH]; intros s b Hb Hn; [done|]. cbn [tasklet_loop]. unfold bbind.
  rewrite (tasklet_step_spec _ _ _ Hb). set (s1 := set blink_array <[0%nat := ticked b]> s).
  assert (H1 : blink_array s1 !! 0%nat = Some (ticked b)).
  { apply list_lookup_insert_eq. by eapply lookup_lt_Some. }
  rewrite (deref_eq _ _ _ H1), next_ticked, Hn, (IH s1 (ticked b)); [done|done|by rewrite next_ticked].
Qed.
Lemma corner_finds fuel s b l :
  blink_array s !! 0%nat = Some b -> next b = Some 0%nat -> location b <> l ->
  find_loop fuel l (Some 0%nat) s = Loops.
Proof.
  intros Hb Hn Hl. induction fuel as [|fuel IH]; [done|]. cbn [find_loop]. unfold bbind.
  by rewrite (deref_eq _ _ _ Hb), (proj2 (Z.eqb_neq _ _) Hl), Hn, IH.
Qed.

(** C38: a character added in the top left corner breaks the list. Its structure
    still looks free: a second one there takes the same structure, which then
    leads to itself, and the next tick, like the search for a character that is
    not in the list, goes round for ever. *)
Theorem corner_loops b1 b2 :
  location b1 = 0 -> location b2 = 0 ->
  exists s, exec_all [Add b1; Add b2] empty_blinks =
      Ok ([(0, None); (0, None)], [(0, on_char b1); (0, on_char b2)], s) /\
    forall fuel, tasklet_loop fuel (mp1_list_head s) s = Loops /\
      (forall l, l <> 0 -> find_loop fuel l (mp1_list_head s) s = Loops).
Proof.
  intros H1 H2. assert (Hr : replicate CELLS zero_blink = zero_blink :: replicate 1999 zero_blink) by done.
  unfold empty_blinks. rewrite Hr. generalize (replicate 1999 zero_blink). clear Hr. intros rest.
  cbn [exec_all]. unfold bbind. rewrite (corner_add _ _ _ zero_blink H1 eq_refl).
  rewrite (corner_add _ _ _ _ H2 (eq_trans (location_linked b1 None) H1)).
  eexists. split; [done|]. intros fuel. split; [by eapply corner_ticks|].
  intros l Hl. eapply corner_finds; [done|done|]. change (location (linked b2 (Some 0%nat)) <> l). 
  rewrite location_linked. congruence.
Qed.

Lemma corner_loops_witness :
  exists s, exec_all [Add (demo_blink 0 65); Add (demo_blink 0 66)] empty_blinks =
      Ok ([(0, None); (0, None)], [(0, 65); (0, 66)], s) /\
    tasklet_loop 2000 (mp1_list_head s) s = Loops.
Proof.
  destruct (corner_loops (demo_blink 0 65) (demo_blink 0 66) eq_refl eq_refl) as (s & E & H).
  exists s. split; [exact E|apply H].
Defined.
