(* ===== verification/SchedProps.v ===== *)
(** * Properties of paging and scheduling *)
From S2P Require Import Prelude State Monad Logic Screen Proc Terminal Interrupts Syscalls PagingSpec SchedSpec Kernel Demo Invariant InvariantProps.

Section properties.
Context {P : Platform}.
Implicit Types (s : kstate).

(** C15: the address space of a program. Whatever the page tables were, after
    the paging of [execute] for process [pid] every virtual address leads to
    where [address_space] says, and user mode reaches [user_space] only: the
    program's own 4 MB, the kernel's page, the display's pages and the three
    pages of the terminals in the background, from 0xB9000 to 0xBBFFF. No
    address of the program leads into the 4 MB of another process. *)
Theorem program_paging_address_space s pid :
  length (process_pages (s_pag s)) = 1024%nat ->
  length (process_tables (s_pag s)) = 1024%nat ->
  paging_on (s_pag s) = true -> 1 <= pid < 7 ->
  exists s', program_paging pid s = Ret tt s' /\
    (forall va, phys s' va = address_space pid VIDEO va) /\
    (forall va, user_phys s' va = user_space pid VIDEO va) /\
    (forall va pa other, user_phys s' va = Some pa -> 1 <= other < 7 -> other <> pid ->
       ~ M_4 * (other + 1) <= pa < M_4 * (other + 2)) /\
    s' = set s_pag (fun _ => s_pag s') s.
Proof.
  intros Hp Ht Hon Hpid. eexists. split; [apply program_paging_Ret; (done || lia)|].
  match goal with |- context [phys ?s'_ _] => set (s' := s'_) end.
  assert (R : runs_program s' pid VIDEO).
  { constructor; [reflexivity|reflexivity|exact Hon]. }
  assert (V : display_page VIDEO) by (by left). assert (Hpid' : 0 <= pid < 256) by lia.
  split; [intros va; by eapply runs_program_phys|].
  split; [intros va; by eapply runs_program_user|]. split; [|done].
  intros va pa other. rewrite (runs_program_user s' pid VIDEO) by done.
  intros Hu Ho Hne. destruct (user_space_own pid VIDEO va pa V Hu); unfold M_4 in *; lia.
Qed.

(** C16: a tick of the timer. The interrupted process's context is saved for
    its terminal; the terminal that was asked for, or else the next one in turn
    that runs a process, becomes current; the process at its top is the current
    one, continues where its context says, with its own kernel stack, its own 4
    MB and the display page of its terminal. *)
Theorem timer_tick_switches s t c pid0 vid0 :
  sched_ok s -> next_terminal (s_sched s) = Some t ->
  slot (turned t s) t c -> sl_ebp c <> 0 -> 0 <= sl_pid c < 256 ->
  runs_program s pid0 vid0 ->
  wp timer_handler (fun _ s' =>
    current_process (s_sched s') = t /\ current_pid (s_proc s') = sl_pid c /\
    last_esp (s_sched s') = sl_esp c /\ last_ebp (s_sched s') = sl_ebp c /\
    esp0 (tss (s_hw s')) = kernel_stack_of (sl_pid c) /\
    (forall c0, slot (s_sched s) (current_process (s_sched s)) c0 ->
       slot (s_sched s') (current_process (s_sched s))
         (mk_slot (sl_pid c0) (last_esp (s_sched s)) (last_ebp (s_sched s)) (tss (s_hw s)))) /\
    (forall va, phys s' va = address_space (sl_pid c) (display_of t s) va) /\
    tlb_stale (s_pag s') = false) s.
Proof.
  intros O Hnt Hc Hebp Hpid R.
  pose proof (next_terminal_range _ _ (so_current _ O) Hnt) as Ht.
  eapply wp_timer_handler; try done. intros s' [Hproc Hsched Htss Hhw Hpag Hscr Hrest].
  rewrite Hsched, Hproc, Htss, Hpag. split_and!; upd; try done.
  - intros c0 [H]%(saved_slot _ _ _ (last_esp (s_sched s)) (last_ebp (s_sched s))
      (tss (s_hw s))). by constructor.
  - intros va. apply runs_program_phys; [|by apply display_of_page|done].
    destruct R as [R1 R2 R3].
    constructor; rewrite Hpag; cbn [process_pages process_tables paging_on];
      [rewrite R1|rewrite R2|done].
    + apply program_directory_again.
    + apply program_table_again.
Qed.

(** C17: preemption is transparent. When the timer interrupts the process of
    terminal [a] at [esp], [ebp] in favour of another terminal, and later, with
    [a]'s slot untouched, it is [a]'s turn again, then control goes back to
    [esp], [ebp], with the same current process and task state and with that
    process's kernel stack. *)
Theorem preempted_process_resumes s ebp b cb s1 s2 ebp2 ca :
  sched_ok s -> next_terminal (s_sched s) = Some b -> b <> current_process (s_sched s) ->
  slot (s_sched s) (current_process (s_sched s)) ca -> slot (s_sched s) b cb ->
  sl_ebp cb <> 0 -> 0 <= sl_pid cb < 256 -> sl_esp cb <> cpu_esp (s_hw s) ->
  ebp <> 0 -> 0 <= sl_pid ca < 256 ->
  schedule_entry ebp s = Stop (Resume (sl_esp cb) (sl_ebp cb)) s1 ->
  sched_ok s2 -> (forall c, slot (s_sched s1) (current_process (s_sched s)) c ->
    slot (s_sched s2) (current_process (s_sched s)) c) ->
  current_process (s_sched s2) = b ->
  next_terminal (s_sched s2) = Some (current_process (s_sched s)) ->
  cpu_esp (s_hw s2) <> cpu_esp (s_hw s) ->
  exists s3, schedule_entry ebp2 s2 = Stop (Resume (cpu_esp (s_hw s)) ebp) s3 /\
    current_process (s_sched s3) = current_process (s_sched s) /\
    current_pid (s_proc s3) = sl_pid ca /\
    tss (s_hw s3) = set esp0 (fun _ => kernel_stack_of (sl_pid ca)) (tss (s_hw s)).
Proof.
  intros O Hnt Hne Ha Hb Hbebp Hbpid Hbesp Hebp Hapid H1 O2 Hkeep Hcp2 Hnt2 Hesp2.
  destruct (schedule_entry_switch s ebp b cb) as (s1' & H1' & Sw); try done.
  { apply saved_other; [apply O|done|done]. }
  rewrite H1 in H1'. injection H1' as <-.
  set (a := current_process (s_sched s)) in *.
  set (ca' := mk_slot (sl_pid ca) (cpu_esp (s_hw s)) ebp (tss (s_hw s))).
  assert (Ha1 : slot (s_sched s1) a ca').
  { rewrite (sw_sched _ _ _ _ Sw). unfold turned. upd. fold a.
    pose proof (saved_slot _ _ _ (cpu_esp (s_hw s)) ebp (tss (s_hw s)) Ha) as [H].
    revert H. unfold saved. upd. fold a.
    destruct (lget (schedule_top (s_sched s)) a) as [top|]; [destruct (top =? 0)|];
      intros Hx; constructor; exact Hx. }
  apply Hkeep in Ha1.
  destruct (schedule_entry_switch s2 ebp2 a ca') as (s3 & H3 & Sw3); try done.
  { apply saved_other; [apply O2|done|by rewrite Hcp2]. }
  exists s3. split; [exact H3|].
  rewrite (sw_sched _ _ _ _ Sw3), (sw_proc _ _ _ _ Sw3), (sw_tss _ _ _ _ Sw3).
  split_and!; upd; done.
Qed.
End properties.

(** ** Witnesses *)

(** Process 1 runs on terminal 0, process 2 waits on terminal 1 at stack
    0x7F8000. *)
Definition two_programs : kstate :=
  set s_pag (fun _ => mk_pag (program_directory 1) (program_table VIDEO) true false)
  (set s_hw (set cpu_esp (fun _ => 0x7FFF00))
  (set s_sched (fun sc =>
     set schedule_top (fun _ => [1; 1; 0])
     (set schedule_stack (fun _ => [[1; 0]; [2; 0]; [0; 0]])
     (set schedule_esp (fun _ => [[0; 0]; [0x7F8000; 0]; [0; 0]])
     (set schedule_ebp (fun _ => [[0; 0]; [0x7F8010; 0]; [0; 0]])
     (set schedule_tss (fun _ => replicate 3 (replicate 2 zero_tss))
     (set last_esp (fun _ => 0x7FFF00) (set last_ebp (fun _ => 0x7FFF10)
     (set terminal_request (fun _ => -1) sc)))))))) zero_state)).

Definition waiting : slot_t := mk_slot 2 0x7F8000 0x7F8010 zero_tss.

Lemma program_paging_address_space_witness :
  exists s', program_paging 3 two_programs = Ret tt s' /\
    phys s' 0x8048000 = Some 0x1048000 /\ user_phys s' 0xB8000 = None.
Proof.
  destruct (program_paging_address_space two_programs 3) as (s' & H1 & H2 & H3 & _);
    [reflexivity|reflexivity|reflexivity|lia|].
  exists s'. rewrite H2, H3. split; [exact H1|]. split; reflexivity.
Defined.

Lemma two_programs_ok : sched_ok two_programs.
Proof.
  constructor; [reflexivity|done|right|reflexivity|reflexivity].
  exists (mk_slot 1 0 0 zero_tss). constructor. by exists 1.
Qed.

Lemma timer_tick_switches_witness :
  wp timer_handler (fun _ s' => current_pid (s_proc s') = 2 /\
    last_esp (s_sched s') = 0x7F8000 /\ phys s' 0x8048000 = Some 0xC48000) two_programs.
Proof.
  eapply wp_mono; [apply (timer_tick_switches two_programs 1 waiting 1 VIDEO)|].
  - apply two_programs_ok.
  - reflexivity.
  - constructor. by exists 1.
  - done.
  - done.
  - by constructor.
  - cbv beta. intros _ s' (_ & H2 & H3 & _ & _ & _ & H7 & _). rewrite H7. done.
Defined.

Lemma two_programs_slots :
  slot (s_sched two_programs) 0 (mk_slot 1 0 0 zero_tss) /\ slot (s_sched two_programs) 1 waiting.
Proof. split; constructor; by exists 1. Qed.

(** Process 2 has run for a while when the timer interrupts it at 0x7F7F00. *)
Lemma preempted_process_resumes_witness :
  exists s1 s3, schedule_entry 0x7FFF10 two_programs = Stop (Resume 0x7F8000 0x7F8010) s1 /\
    schedule_entry 0x7F7F10 (set s_hw (set cpu_esp (fun _ => 0x7F7F00)) s1) =
      Stop (Resume 0x7FFF00 0x7FFF10) s3 /\ current_pid (s_proc s3) = 1.
Proof.
  destruct two_programs_slots as [S0 S1].
  destruct (schedule_entry_switch two_programs 0x7FFF10 1 waiting) as (s1 & E & Sw);
    [apply two_programs_ok|reflexivity|constructor; by exists 1|done..|].
  pose proof (sw_sched _ _ _ _ Sw) as Es. pose proof (sw_pag _ _ _ _ Sw) as Ep.
  destruct (preempted_process_resumes two_programs 0x7FFF10 1 waiting s1
    (set s_hw (set cpu_esp (fun _ => 0x7F7F00)) s1) 0x7F7F10 (mk_slot 1 0 0 zero_tss))
    as (s3 & H1 & H2 & H3 & _); try done.
  - apply two_programs_ok.
  - constructor; upd; rewrite ?Es, ?Ep; [reflexivity|done| |reflexivity|reflexivity].
    right. exists waiting. constructor. by exists 1.
  - upd. by rewrite Es.
  - upd. rewrite Es. reflexivity.
  - by exists s1, s3.
Defined.

(** ** The round robin *)

Section round_robin.
Context {P : Platform}.

Definition with_current (t : Z) (s : kstate) : kstate :=
  set s_sched (set current_process (fun _ => t)) s.

Lemma choose_next_round_robin s :
  well_formed s -> terminal_request (s_sched s) = -1 ->
  choose_next s = match round_robin (schedule_top (s_sched s)) (current_process (s_sched s)) with
                  | Some t => Monad.Ret t s
                  | None => Stop Hang s
                  end.
Proof.
  intros W Hr. unfold choose_next. erewrite bind_Ret by reflexivity. erewrite bind_Ret by reflexivity.
  rewrite Hr. change (-1 =? -1) with true. cbv iota. change (Z.to_nat NUM_TERMINALS) with 3%nat.
  apply next_loop_round_robin; apply W.
Qed.

Lemma round_robin_some l cp t :
  0 <= cp < 3 -> 0 <= t < 3 -> occupied l t = true -> exists t1, round_robin l cp = Some t1 /\ 0 <= t1 < 3.
Proof.
  intros Hcp Ht Ho. destruct (round_robin l cp) as [t1|] eqn:E.
  { exists t1. split; [done|]. by apply (round_robin_range l cp). }
  exfalso. unfold round_robin in E. assert (t = (cp + 1) mod 3 \/ t = (cp + 2) mod 3 \/ t = cp) as Hc by divlia.
  destruct Hc as [Hc|[Hc|Hc]]; rewrite <-Hc in E; rewrite Ho in E; [done|by case_match|by repeat case_match].
Qed.

(** A turn goes to the first occupied terminal after [cp]. *)
Lemma round_robin_least l cp t1 t :
  0 <= cp < 3 -> 0 <= t < 3 -> round_robin l cp = Some t1 -> occupied l t = true ->
  (t1 - cp - 1) mod 3 <= (t - cp - 1) mod 3.
Proof.
  intros Hcp Ht E Ho. unfold round_robin in E.
  assert (t = (cp + 1) mod 3 \/ t = (cp + 2) mod 3 \/ t = cp) as Hc by divlia.
  destruct (occupied l ((cp + 1) mod 3)) eqn:E1; [injection E as <-; divlia|].
  destruct (occupied l ((cp + 2) mod 3)) eqn:E2.
  { injection E as <-. destruct (decide (t = (cp + 1) mod 3)) as [->|]; [congruence|divlia]. }
  destruct (occupied l cp) eqn:E3; [|done]. injection E as <-.
  destruct (decide (t = (cp + 1) mod 3)) as [->|]; [congruence|].
  destruct (decide (t = (cp + 2) mod 3)) as [->|]; [congruence|divlia].
Qed.

Lemma round_robin_three l cp t :
  0 <= cp < 3 -> 0 <= t < 3 -> occupied l t = true ->
  exists t1 t2 t3, round_robin l cp = Some t1 /\ round_robin l t1 = Some t2 /\ round_robin l t2 = Some t3 /\
    (t = t1 \/ t = t2 \/ t = t3).
Proof.
  intros Hcp Ht Ho. destruct (round_robin_some l cp t Hcp Ht Ho) as (t1 & H1 & R1).
  destruct (round_robin_some l t1 t R1 Ht Ho) as (t2 & H2 & R2).
  destruct (round_robin_some l t2 t R2 Ht Ho) as (t3 & H3 & R3).
  exists t1, t2, t3. split_and!; try done.
  pose proof (round_robin_least l t1 t2 t R1 Ht H2 Ho). pose proof (round_robin_least l t2 t3 t R2 Ht H3 Ho).
  divlia.
Qed.

(** C19: the scheduler's loop ends, and no terminal starves. Without a request
    the loop comes, in at most three rounds, to a terminal that runs a process,
    and it spins for ever exactly when there is none; of three turns in a row,
    every terminal that runs a process gets one. *)
Theorem no_terminal_starves s :
  well_formed s -> terminal_request (s_sched s) = -1 ->
  ((forall t, 0 <= t < 3 -> occupied (schedule_top (s_sched s)) t = false) <-> choose_next s = Stop Hang s) /\
  forall t, 0 <= t < 3 -> occupied (schedule_top (s_sched s)) t = true ->
    exists t1 t2 t3, choose_next s = Monad.Ret t1 s /\
      choose_next (with_current t1 s) = Monad.Ret t2 (with_current t1 s) /\
      choose_next (with_current t2 s) = Monad.Ret t3 (with_current t2 s) /\
      (t = t1 \/ t = t2 \/ t = t3).
Proof.
  intros W Hr. pose proof (sd_top _ (wf_sched _ W)) as Hl. pose proof (sd_current _ (wf_sched _ W)) as Hcp.
  assert (Hw : forall u, 0 <= u < 3 -> choose_next (with_current u s) =
    match round_robin (schedule_top (s_sched s)) u with
    | Some t => Monad.Ret t (with_current u s) | None => Stop Hang (with_current u s) end).
  { intros u Hu. apply (choose_next_round_robin (with_current u s)); [|done].
    destruct W as [? ? [] ? ? ? ? ?]. by constructor. }
  split.
  - rewrite (choose_next_round_robin s W Hr). split.
    + intros Hnone. unfold round_robin. rewrite !Hnone by divlia. done.
    + intros Hs t Ht. destruct (occupied _ t) eqn:E; [|done].
      destruct (round_robin_three _ _ t Hcp Ht E) as (t1 & _ & _ & H1 & _). by rewrite H1 in Hs.
  - intros t Ht E. destruct (round_robin_three _ _ t Hcp Ht E) as (t1 & t2 & t3 & H1 & H2 & H3 & Hor).
    destruct (round_robin_range _ _ _ Hcp H1) as [R1 _]. destruct (round_robin_range _ _ _ R1 H2) as [R2 _].
    exists t1, t2, t3. rewrite (choose_next_round_robin s W Hr), H1, !Hw, H2, H3 by done. done.
Qed.
End round_robin.

Lemma no_terminal_starves_witness :
  let s := set s_sched (set schedule_top (fun _ => [1; 0; 2]))
             (set s_sched (set terminal_request (fun _ => -1)) zero_state) in
  exists t1 t2 t3, choose_next s = Monad.Ret t1 s /\
    choose_next (with_current t1 s) = Monad.Ret t2 (with_current t1 s) /\
    choose_next (with_current t2 s) = Monad.Ret t3 (with_current t2 s) /\ (2 = t1 \/ 2 = t2 \/ 2 = t3).
Proof.
  cbv zeta. apply no_terminal_starves; [|done|lia|done].
  destruct zero_well_formed as [? ? [] ? ? ? ? ?]. by constructor.
Defined.
