(* ===== verification/DriverSpec.v ===== *)
(** * Descriptors: what the drivers promise to the system calls

    [FdDriver] is the contract of a driver that opens named files: [open] takes
    the lowest free descriptor, [close] gives it back. The clients prove their
    theorems against the contract. *)
From S2P Require Import Prelude State Monad Logic Strings Screen Proc ProcSpec Fs FsSpec Rtc TerminalSpec Syscalls Kernel Demo.

Definition fd_free (s : kstate) (i : Z) : Prop :=
  exists b, cur_fd s i = Some b /\ fd_flags b = -1.
Definition fd_used (s : kstate) (i : Z) : Prop :=
  exists b, cur_fd s i = Some b /\ fd_flags b <> -1.

(** The descriptor a new file gets. *)
Record lowest_free (s : kstate) (i : Z) : Prop := {
  lf_range : 2 <= i < 8;
  lf_free : fd_free s i;
  lf_least : forall j, 2 <= j < i -> fd_used s j;
}.

(** A name in the directory. *)
Record named (s : kstate) (fname : list Z) (d : dir_entry_t) : Prop := {
  nm_bytes : Forall (fun c => 0 < c < 256) fname;
  nm_dir : exists ds, directory (s_fs s) = Some ds /\ lookup_name ds fname = Some d;
}.

Section scan.
Context {P : Platform}.
Implicit Types (s : kstate).

Lemma get_fd_Ret s fd b : cur_fd s fd = Some b -> get_fd fd s = Ret b s.
Proof.
  intros H. pose proof (wp_get_fd s fd b (fun b' s' => b' = b /\ s' = s) H
    (conj eq_refl eq_refl)) as Hw.
  apply wp_Ret in Hw as (b' & s' & -> & -> & ->). done.
Qed.

Lemma upd_fd_Ret s fd f blk :
  cur_fd s fd = Some blk -> upd_fd fd f s = Ret tt (with_cur_fd fd (f blk) s).
Proof.
  intros H. pose proof (wp_upd_fd s fd f blk
    (fun _ s' => s' = with_cur_fd fd (f blk) s) H eq_refl) as Hw.
  apply wp_Ret in Hw as ([] & s' & -> & ->). done.
Qed.

Lemma scan_found s k last n : forall i,
  2 <= i <= k -> k < i + Z.of_nat n -> k <= last -> lowest_free s k ->
  scan_fds n i last s = Ret (ScanFound k) s.
Proof.
  induction n as [|n IH]; intros i Hi Hn Hl L; [lia|]. cbn [scan_fds].
  destruct (decide (i = k)) as [->|Hne].
  - destruct (lf_free _ _ L) as (b & Hb & Hf).
    erewrite bind_Ret by (by apply get_fd_Ret). by rewrite Hf.
  - destruct (lf_least _ _ L i) as (b & Hb & Hf); [lia|].
    erewrite bind_Ret by (by apply get_fd_Ret).
    rewrite (proj2 (Z.eqb_neq _ _)) by done.
    rewrite (proj2 (Z.eqb_neq i last)) by lia. apply IH; [lia|lia|done|done].
Qed.

Lemma scan_slot s k last :
  7 <= last -> lowest_free s k ->
  scan_fds (Z.to_nat (FDT_SIZE - 2)) 2 last s = Ret (ScanFound k) s.
Proof.
  intros Hl L. pose proof (lf_range _ _ L).
  apply scan_found; [lia| |lia|done]. change (Z.to_nat (FDT_SIZE - 2)) with 6%nat. lia.
Qed.

(** Without a free descriptor the loop of the files runs to its end, the one
    of the directories gives up at the last descriptor. *)
Lemma scan_full s last n : forall i,
  2 <= i -> i + Z.of_nat n = 8 -> (forall j, 2 <= j < 8 -> fd_used s j) ->
  i <= last \/ n = O ->
  scan_fds n i last s = Ret (if last <? 8 then if (n =? 0)%nat then ScanEnd else ScanFail else ScanEnd) s.
Proof.
  induction n as [|n IH]; intros i Hi Hn Hu Hl; cbn [scan_fds]; [by case_match|].
  destruct (Hu i) as (b & Hb & Hf); [lia|].
  erewrite bind_Ret by (by apply get_fd_Ret).
  rewrite (proj2 (Z.eqb_neq _ _)) by done.
  destruct (Z.eqb_spec i last) as [->|Hne].
  - by rewrite (proj2 (Z.ltb_lt _ _)) by lia.
  - rewrite IH; [|lia|lia|done|lia]. destruct n; [|done].
    rewrite (proj2 (Z.ltb_ge _ _)) by lia. done.
Qed.

Lemma read_dentry_named s fname d dentry :
  named s fname d -> read_dentry_by_name fname dentry s = Ret (SUCCESS, d) s.
Proof.
  intros [Hb (ds & Hds & Hl)]. rewrite (read_dentry_spec s fname dentry ds) by done.
  by rewrite Hl.
Qed.

Lemma table_pointer_Ret s t o :
  optables (s_proc s) t = Some o -> table_pointer t s = Ret (Some t) s.
Proof. intros H. unfold table_pointer, bind, gets, ret. by rewrite H. Qed.
End scan.

(** ** The contract *)

(** [blk_of]: the block of the open file; [avail]: what the machine must have
    for the type. *)
Class FdDriver `{Platform} (t : optab) (opn : list Z -> M Z) (cls : Z -> M Z)
    (avail : kstate -> Prop) (blk_of : kstate -> dir_entry_t -> fd_block_t) : Prop := {
  drv_block s d :
    avail s -> file_operations_pointer (blk_of s d) = Some t /\
      fd_flags (blk_of s d) <> -1 /\ fd_flags (blk_of s d) <> 0;
  drv_open s fname d i :
    avail s -> named s fname d -> is_Some (optables (s_proc s) t) -> lowest_free s i ->
    wp (opn fname) (fun r s' => r = i /\ quiet (with_cur_fd i (blk_of s d) s) s') s;
  drv_close s fd blk :
    2 <= fd < 8 -> cur_fd s fd = Some blk -> fd_flags blk <> -1 -> fd_flags blk <> 0 ->
    wp (cls fd) (fun r s' => r = 0 /\ quiet (with_cur_fd fd (free_fd blk) s) s') s;
}.

Section drivers.
Context {P : Platform}.
Implicit Types (s : kstate).

(** A file is opened at its start. *)
Definition file_block s (d : dir_entry_t) : fd_block_t := mk_fd (Some file_table) (inode_num d) 0 1.

#[export] Instance file_driver : FdDriver file_table file_open file_close (fun _ => True) file_block.
Proof.
  split.
  - done.
  - intros s fname d i _ Hn [o Ho] L. destruct (lf_free _ _ L) as (b & Hb & _).
    pose proof (lf_range _ _ L). unfold file_open.
    eapply wp_bind_Ret; [by apply read_dentry_named|]. cbv beta iota.
    change (SUCCESS =? -1) with false. cbv iota.
    eapply wp_bind_Ret; [by apply scan_slot|]. cbv beta iota.
    eapply wp_bind_Ret; [by eapply table_pointer_Ret|]. wp_pure.
    eapply wp_put_fd; [exact Hb|]. by wp_pure.
  - intros s fd blk Hfd Hb Hf1 Hf0. unfold file_close.
    rewrite (proj2 (Z.ltb_ge fd 2)), (proj2 (Z.leb_gt FDT_SIZE fd)) by (unfold FDT_SIZE; lia).
    cbn [orb]. wp_pure. eapply wp_get_fd; [exact Hb|].
    rewrite (proj2 (Z.eqb_neq _ _)) by done. wp_pure.
    eapply wp_upd_fd; [exact Hb|]. wp_pure. done.
Qed.

(** A directory's descriptor counts the entries in its flags. *)
Definition dir_count_ok s : Prop :=
  exists n, num_dir_entries (s_fs s) = Some n /\ 0 < n < 2147483648.

Definition directory_block s (d : dir_entry_t) : fd_block_t :=
  mk_fd (Some dir_table) 0 0 (s32 (default 0 (num_dir_entries (s_fs s)))).

#[export] Instance directory_driver :
  FdDriver dir_table directory_open directory_close dir_count_ok directory_block.
Proof.
  split.
  - intros s d (n & Hn & Hrange). unfold directory_block. rewrite Hn. cbn.
    rewrite s32_small by lia. split; [done|lia].
  - intros s fname d i (n & Hn & Hrange) Hd [o Ho] L.
    destruct (lf_free _ _ L) as (b & Hb & _). pose proof (lf_range _ _ L).
    unfold directory_open.
    eapply wp_bind_Ret; [by apply read_dentry_named|]. cbv beta iota.
    change (SUCCESS =? -1) with false. cbv iota.
    eapply wp_bind_Ret; [by apply scan_slot|]. cbv beta iota.
    eapply wp_bind_Ret; [by eapply table_pointer_Ret|]. wp_pure.
    eapply wp_fs_read; [exact Hn|]. wp_pure. eapply wp_put_fd; [exact Hb|]. wp_pure.
    unfold directory_block. by rewrite Hn.
  - intros s fd blk Hfd Hb Hf1 Hf0. unfold directory_close.
    rewrite (proj2 (Z.ltb_ge fd 2)), (proj2 (Z.leb_gt FDT_SIZE fd)) by (unfold FDT_SIZE; lia).
    cbn [orb]. wp_pure. eapply wp_get_fd; [exact Hb|].
    rewrite (proj2 (Z.eqb_neq _ _)) by done. wp_pure.
    eapply wp_upd_fd; [exact Hb|]. wp_pure. done.
Qed.

(** No descriptor is a clock already. *)
Definition no_clock s : Prop :=
  forall i, 2 <= i < 8 -> exists b, cur_fd s i = Some b /\
    (fd_flags b = -1 \/ file_operations_pointer b <> Some rtc_table).

Lemma rtc_not_open s n : forall i,
  2 <= i -> i + Z.of_nat n <= 8 -> no_clock s ->
  rtc_open_already n i (Some rtc_table) s = Ret false s.
Proof.
  induction n as [|n IH]; intros i Hi Hn Hc; cbn [rtc_open_already]; [done|].
  destruct (Hc i) as (b & Hb & Hor); [lia|].
  erewrite bind_Ret by (by apply get_fd_Ret).
  destruct (Z.eqb_spec (fd_flags b) (-1)); [apply IH; [lia|lia|done]|].
  rewrite decide_False by tauto. apply IH; [lia|lia|done].
Qed.

Lemma quietly_rtc_send_rate r : quietly (rtc_send_rate r).
Proof. unfold rtc_send_rate. eauto 10 with kernel. Qed.

Lemma cur_fd_quiet s s' fd : quiet s s' -> cur_fd s' fd = cur_fd s fd.
Proof.
  intros [D _ _ _]. unfold cur_fd, fd_at, pcb_at. by rewrite (draws_proc _ _ D).
Qed.
Lemma quiet_with_cur_fd s s' fd blk :
  quiet s s' -> quiet (with_cur_fd fd blk s) (with_cur_fd fd blk s').
Proof.
  intros [[] S M K]. unfold with_cur_fd, with_fd, with_pcb.
  constructor; upd; try done. constructor; upd; try done. by rewrite draws_proc.
Qed.

(** [rtc_open] leaves the position of the clock's block what was on the stack. *)
Definition clock_block s (d : dir_entry_t) : fd_block_t :=
  mk_fd (Some rtc_table) 0 (u32 stack_junk) 1.

#[export] Instance rtc_driver : FdDriver rtc_table rtc_open rtc_close no_clock clock_block.
Proof.
  split.
  - done.
  - intros s fname d i Hc _ [o Ho] L. destruct (lf_free _ _ L) as (b & Hb & Hfb).
    unfold rtc_open. wp_pure. eapply wp_quiet; [apply quietly_cli_and_save|].
    intros flags s1 Q1. pose proof (draws_proc _ _ (quiet_draws _ _ Q1)) as P1.
    assert (L1 : lowest_free s1 i).
    { destruct L. constructor; [done| |]; unfold fd_free, fd_used in *;
        [|intros j Hj]; rewrite (cur_fd_quiet _ _ _ Q1); auto. }
    eapply wp_bind_Ret; [apply table_pointer_Ret with (o := o); by rewrite P1|].
    eapply wp_bind_Ret.
    { apply rtc_not_open; [lia|change (Z.to_nat (FDT_SIZE - 2)) with 6%nat; lia|].
      intros j Hj. rewrite (cur_fd_quiet _ _ _ Q1). by apply Hc. }
    cbv beta iota. eapply wp_bind_Ret; [by apply scan_slot|]. cbv beta iota zeta.
    wp_pure. eapply wp_quiet; [apply quietly_rtc_send_rate|]. intros _ s2 Q2.
    wp_pure. eapply wp_quiet; [apply quietly_restore_flags|]. intros _ s3 Q3.
    assert (Q13 : quiet s s3) by (etransitivity; [exact Q1|]; by transitivity s2).
    wp_pure. eapply wp_put_fd; [by rewrite (cur_fd_quiet _ _ _ Q13)|].
    wp_pure. eapply wp_quiet; [apply quietly_sti|]. intros _ s4 Q4. wp_pure.
    split; [done|]. etransitivity; [by apply quiet_with_cur_fd|exact Q4].
  - intros s fd blk Hfd Hb Hf1 Hf0. unfold rtc_close.
    wp_pure. eapply wp_quiet; [apply quietly_cli|]. intros _ s1 Q1.
    rewrite (proj2 (Z.ltb_ge fd 2)), (proj2 (Z.leb_gt FDT_SIZE fd)) by (unfold FDT_SIZE; lia).
    cbn [orb]. wp_pure. eapply wp_get_fd; [by rewrite (cur_fd_quiet _ _ _ Q1)|].
    rewrite (proj2 (Z.eqb_neq _ _)) by done. wp_pure.
    eapply wp_upd_fd; [by rewrite (cur_fd_quiet _ _ _ Q1)|].
    wp_pure. eapply wp_quiet; [apply quietly_sti|]. intros _ s2 Q2. wp_pure.
    split; [done|]. etransitivity; [by apply quiet_with_cur_fd|exact Q2].
Qed.
End drivers.

(** ** A client of the contract: open and close as system calls *)

(** The operation tables hold the functions the initialisation stores. *)
Record tables_filled (s : kstate) : Prop := {
  tf_file : optables (s_proc s) file_table =
    Some (mk_optable fn_file_open fn_file_read fn_file_write fn_file_close);
  tf_dir : optables (s_proc s) dir_table =
    Some (mk_optable fn_directory_open fn_directory_read fn_directory_write fn_directory_close);
  tf_rtc : optables (s_proc s) rtc_table =
    Some (mk_optable fn_rtc_open fn_rtc_read fn_rtc_write fn_rtc_close);
}.

Section client.
Context {P : Platform}.
Implicit Types (s : kstate).

Lemma lowest_free_quiet s s' i : quiet s s' -> lowest_free s i -> lowest_free s' i.
Proof.
  intros Q []. constructor; [done| |]; unfold fd_free, fd_used in *;
    [|intros j Hj]; rewrite (cur_fd_quiet _ _ _ Q); auto.
Qed.
Lemma named_quiet s s' fname d : quiet s s' -> named s fname d -> named s' fname d.
Proof. intros [[] _ _ _] []. constructor; [done|]. by rewrite draws_fs. Qed.
Lemma no_clock_quiet s s' : quiet s s' -> no_clock s -> no_clock s'.
Proof. intros Q H i Hi. rewrite (cur_fd_quiet _ _ _ Q). by apply H. Qed.
Lemma dir_count_quiet s s' : quiet s s' -> dir_count_ok s -> dir_count_ok s'.
Proof. intros [[] _ _ _]. unfold dir_count_ok. by rewrite draws_fs. Qed.
Lemma tables_quiet s s' : quiet s s' -> tables_filled s -> tables_filled s'.
Proof. intros [[] _ _ _] []. constructor; by rewrite draws_proc. Qed.

Lemma with_cur_fd_twice s fd blk blk' :
  with_cur_fd fd blk (with_cur_fd fd blk' s) = with_cur_fd fd blk s.
Proof.
  unfold with_cur_fd. change (current_pid (s_proc (with_fd _ _ _ _)))
    with (current_pid (s_proc s)). apply with_fd_twice.
Qed.

(** Whatever the driver: [close] gives back what [open] took. *)
Lemma open_close_driver t opn cls avail blk_of `{!FdDriver t opn cls avail blk_of} s fname d i o :
  avail s -> named s fname d -> optables (s_proc s) t = Some o ->
  (forall fd, call_close (op_close o) fd = cls fd) -> lowest_free s i ->
  wp (opn fname) (fun r s' => r = i /\ quiet (with_cur_fd i (blk_of s d) s) s' /\
    wp (close r) (fun r' s'' => r' = 0 /\ quiet (with_cur_fd i (free_fd (blk_of s d)) s) s'') s') s.
Proof.
  intros Ha Hn Ho Hcls L. pose proof (lf_range _ _ L).
  destruct (lf_free _ _ L) as (b0 & Hb0 & _).
  eapply wp_mono; [eapply drv_open; [exact Ha|exact Hn|by eexists|exact L]|].
  cbv beta. intros r s1 (-> & Q1). destruct (drv_block s d Ha) as (Hp & Hf1 & Hf0).
  set (blk := blk_of s d) in *. split; [done|]. split; [done|].
  assert (Hb1 : cur_fd s1 i = Some blk).
  { rewrite (cur_fd_quiet _ _ _ Q1). rewrite (cur_fd_with _ _ _ b0) by (done || lia).
    by rewrite decide_True. }
  unfold close. wp_pure. eapply wp_quiet; [apply quietly_cli|]. intros _ s2 Q2.
  rewrite (proj2 (Z.ltb_ge i 2)), (proj2 (Z.leb_gt FDT_SIZE i)) by (unfold FDT_SIZE; lia).
  cbn [orb]. wp_pure. eapply wp_get_fd; [by rewrite (cur_fd_quiet _ _ _ Q2)|].
  rewrite Hp. unfold get_optable. wp_pures.
  rewrite (draws_proc _ _ (quiet_draws _ _ Q2)), (draws_proc _ _ (quiet_draws _ _ Q1)).
  change (optables (s_proc (with_cur_fd i blk s))) with (optables (s_proc s)).
  eapply wp_of_opt; [exact Ho|]. rewrite Hcls.
  eapply wp_mono; [eapply drv_close; [lia|by rewrite (cur_fd_quiet _ _ _ Q2)|done|done]|].
  cbv beta. intros r s3 [-> Q3]. split; [done|].
  etransitivity; [|exact Q3]. rewrite <-(with_cur_fd_twice s i (free_fd blk) blk).
  apply quiet_with_cur_fd. by transitivity s1.
Qed.

(** A freed descriptor is the lowest free one again. *)
Lemma lowest_free_freed s i b s' :
  lowest_free s i -> quiet (with_cur_fd i (free_fd b) s) s' -> lowest_free s' i.
Proof.
  intros L Q. apply (lowest_free_quiet _ _ _ Q).
  destruct L as [Lr (b0 & Hb0 & _) Ll].
  assert (E : forall j, 0 <= j -> cur_fd (with_cur_fd i (free_fd b) s) j =
    if decide (i = j) then Some (free_fd b) else cur_fd s j)
    by (intros j Hj; by apply (cur_fd_with _ _ _ b0)).
  constructor; [done| |].
  - exists (free_fd b). rewrite E by lia. by rewrite decide_True.
  - intros j Hj. unfold fd_used. rewrite E, decide_False by lia. by apply Ll.
Qed.

(** The block of an open file, by the type of its directory entry. *)
Definition opened_block s (d : dir_entry_t) : fd_block_t :=
  if file_type d =? TYPE_RTC then clock_block s d
  else if file_type d =? TYPE_DIR then directory_block s d else file_block s d.

(** C7: [open] and [close]. Opening a name of the directory, whatever its type
    (clock, directory or file), returns the lowest free descriptor from 2 on
    and puts there a block with the type's operations: a file's with its inode
    and position 0, the directory's with position 0 and the number of entries
    as its flags, the clock's with the position that was on the stack. Closing
    that descriptor returns 0, calls the type's close and leaves the process
    table as it was but for the block, which is free: the next open gets the
    same descriptor. The only other change is the processor's flag and the
    clock's ports. *)
Theorem open_close_roundtrip s fname d i :
  tables_filled s -> named s fname d -> lowest_free s i ->
  (file_type d = TYPE_RTC /\ no_clock s \/ file_type d = TYPE_DIR /\ dir_count_ok s \/
   file_type d = TYPE_FILE) ->
  wp (open (Some fname)) (fun fd s' =>
    fd = i /\ quiet (with_cur_fd i (opened_block s d) s) s' /\
    wp (close fd) (fun r s'' => r = 0 /\
      quiet (with_cur_fd i (free_fd (opened_block s d)) s) s'' /\ lowest_free s'' i) s') s.
Proof.
  intros T Hn L Hty. unfold open, opened_block. wp_pure.
  eapply wp_quiet; [apply quietly_cli|]. intros _ s1 Q1.
  apply (tables_quiet _ _ Q1) in T. pose proof (lowest_free_quiet _ _ _ Q1 L) as L1.
  pose proof (named_quiet _ _ _ _ Q1 Hn) as Hn1.
  eapply wp_bind_Ret; [by apply read_dentry_named|]. cbv beta iota.
  change (negb (SUCCESS =? 0)) with false. cbv iota zeta.
  assert (Hgoal : forall m blk, wp m (fun r s' => r = i /\ quiet (with_cur_fd i blk s1) s' /\
      wp (close r) (fun r' s'' => r' = 0 /\ quiet (with_cur_fd i (free_fd blk) s1) s'') s') s1 ->
    wp m (fun fd s' => fd = i /\ quiet (with_cur_fd i blk s) s' /\
      wp (close fd) (fun r s'' => r = 0 /\ quiet (with_cur_fd i (free_fd blk) s) s'' /\
        lowest_free s'' i) s') s1).
  { intros m blk Hm. eapply wp_mono; [exact Hm|]. cbv beta. intros r s2 (-> & Q2 & Hw).
    split; [done|]. split; [etransitivity; [by apply quiet_with_cur_fd|exact Q2]|].
    eapply wp_mono; [exact Hw|]. cbv beta. intros r s3 [-> Q3]. split; [done|].
    assert (Q : quiet (with_cur_fd i (free_fd blk) s) s3)
      by (etransitivity; [by apply quiet_with_cur_fd|exact Q3]).
    split; [exact Q|]. by eapply lowest_free_freed. }
  destruct Hty as [[-> Hc]|[[-> Hc]| ->]]; cbn [Z.eqb TYPE_RTC TYPE_DIR TYPE_FILE];
    apply Hgoal.
  - change (clock_block s d) with (clock_block s1 d).
    eapply (open_close_driver rtc_table rtc_open rtc_close no_clock clock_block);
      [|done|apply T|done|done]. by eapply no_clock_quiet.
  - replace (directory_block s d) with (directory_block s1 d)
      by (unfold directory_block; by rewrite (draws_fs _ _ (quiet_draws _ _ Q1))).
    eapply (open_close_driver dir_table directory_open directory_close dir_count_ok directory_block);
      [|done|apply T|done|done]. by eapply dir_count_quiet.
  - change (file_block s d) with (file_block s1 d).
    eapply (open_close_driver file_table file_open file_close (fun _ => True) file_block);
      [done|done|apply T|done|done].
Qed.
End client.

Section full_table.
Context {P : Platform}.
Implicit Types (s : kstate).

(** [file_open] takes the result 0 of the search for descriptor 0. *)
Lemma file_open_full s fname d b0 :
  tables_filled s -> named s fname d -> (forall j, 2 <= j < 8 -> fd_used s j) ->
  cur_fd s 0 = Some b0 ->
  file_open fname s = Ret 0 (with_cur_fd 0 (file_block s d) s).
Proof.
  intros T Hn Hu Hb0.
  unfold file_open. erewrite bind_Ret by (by apply read_dentry_named).
  cbv beta iota. change (SUCCESS =? -1) with false. cbv iota.
  erewrite bind_Ret by (apply (scan_full s FDT_SIZE 6 2);
    [lia|done|exact Hu|unfold FDT_SIZE; lia]). cbn [Z.ltb].
  change (FDT_SIZE <? 8) with false. cbv beta iota.
  erewrite bind_Ret by (eapply table_pointer_Ret, (tf_file _ T)).
  match goal with |- ?m s = _ => pose proof (fun Q => wp_put_fd s 0
    (file_block s d) b0 Q Hb0) as Hw end.
  specialize (Hw (fun _ s' => s' =
    with_cur_fd 0 (file_block s d) s) eq_refl).
  apply wp_Ret in Hw as ([] & s' & Hput & ->). by erewrite bind_Ret by exact Hput.
Qed.

(** C10: a full descriptor table. When descriptors 2 to 7 are all in use,
    opening a directory fails and changes nothing; opening a file returns 0,
    and descriptor 0, the terminal's input, now is the file. *)
Theorem open_with_full_table s fname d b0 :
  tables_filled s -> named s fname d -> (forall j, 2 <= j < 8 -> fd_used s j) ->
  cur_fd s 0 = Some b0 ->
  directory_open fname s = Ret (-1) s /\
  file_open fname s =
    Ret 0 (with_cur_fd 0 (mk_fd (Some file_table) (inode_num d) 0 1) s).
Proof.
  intros T Hn Hu Hb0. split.
  - unfold directory_open. erewrite bind_Ret by (by apply read_dentry_named).
    cbv beta iota. change (SUCCESS =? -1) with false. cbv iota.
    erewrite bind_Ret by (apply (scan_full s (FDT_SIZE - 1) 6 2);
      [lia|done|exact Hu|unfold FDT_SIZE; lia]). done.
  - by eapply file_open_full.
Qed.
End full_table.

(** ** Witnesses *)

Definition small_dir : list dir_entry_t := default [] (directory small_fs).
Lemma small_named name d :
  lookup_name small_dir (text name) = Some d -> Forall (fun c => 0 < c < 256) (text name) ->
  forall fds, named (files_state fds) (text name) d.
Proof.
  intros Hl Hb fds. constructor; [done|]. exists small_dir. split; [|exact Hl].
  change (directory small_fs = Some small_dir). by vm_compute.
Qed.

Definition busy_fd : fd_block_t := mk_fd (Some file_table) 0 0 1.

(** "shell" gets descriptor 3 when 2 is in use. *)
Lemma open_close_roundtrip_witness :
  wp (open (Some (text "shell"))) (fun fd s' => fd = 3 /\
    cur_fd s' 3 = Some (mk_fd (Some file_table) 0 0 1) /\
    wp (close fd) (fun r s'' => r = 0 /\ lowest_free s'' 3) s') (files_state [busy_fd]).
Proof.
  eapply wp_mono; [eapply (open_close_roundtrip (files_state [busy_fd]) (text "shell")
    (mk_dentry "shell" 2 0) 3)|].
  - by constructor.
  - apply small_named; [vm_compute; reflexivity|repeat constructor; lia].
  - constructor; [lia|by eexists|]. intros j Hj. assert (j = 2) as -> by lia.
    by exists busy_fd.
  - by right; right.
  - cbv beta. intros fd s' (-> & Q & Hw). split; [done|]. split.
    + rewrite (cur_fd_quiet _ _ _ Q). reflexivity.
    + eapply wp_mono; [exact Hw|]. by intros r s'' (-> & _ & L).
Defined.

Lemma open_with_full_table_witness :
  exists s', file_open (text "shell") (files_state (replicate 6 busy_fd)) = Ret 0 s' /\
    cur_fd s' 0 = Some (mk_fd (Some file_table) 0 0 1).
Proof.
  eexists. split.
  - apply (open_with_full_table (files_state (replicate 6 busy_fd)) (text "shell")
      (mk_dentry "shell" 2 0) (mk_fd (Some stdin_table) 0 0 1)).
    + by constructor.
    + apply small_named; [vm_compute; reflexivity|repeat constructor; lia].
    + intros j Hj. exists busy_fd. split; [|done].
      assert (j = 2 \/ j = 3 \/ j = 4 \/ j = 5 \/ j = 6 \/ j = 7) as Hcases by lia.
      by destruct Hcases as [->|[->|[->|[->|[->| ->]]]]].
    + reflexivity.
  - vm_compute. reflexivity.
Defined.
