(* ===== verification/KeyboardSpec.v ===== *)
(** * Typing: keyboard interrupts drive an abstract line editor *)
From S2P Require Import Prelude State Monad Logic Screen ScreenSpec Pic Proc Terminal TerminalSpec Keyboard EditorSpec Interrupts Syscalls Kernel Demo.

(** ** The abstract editor *)

Record ed := mk_ed {
  ed_shift : bool; ed_caps : bool; ed_ctrl : bool; ed_alt : bool; ed_line : line;
}.

(** The character of a key, 0 for none. *)
Definition key_char (e : ed) (key : Z) : Z :=
  default 0
    match ed_shift e, ed_caps e, ed_alt e with
    | true, false, false => lget scancode (key + SHIFT)
    | false, true, false => lget CAPScode key
    | true, true, false => lget CAPScode (key + SHIFT)
    | false, false, true => lget altcode (key + SHIFT)
    | _, _, _ => lget scancode key
    end.

Definition type_char (c : Z) (l : line) : line := mk_line (before l ++ [c]) (after l).
Definition move_left (l : line) : line :=
  match last (before l) with
  | None => l
  | Some c => mk_line (removelast (before l)) (c :: after l)
  end.
Definition move_right (l : line) : line :=
  match after l with [] => l | c :: a => mk_line (before l ++ [c]) a end.
Definition delete_left (l : line) : line := mk_line (removelast (before l)) (after l).

Definition with_ed_line (l : line) (e : ed) : ed :=
  mk_ed (ed_shift e) (ed_caps e) (ed_ctrl e) (ed_alt e) l.

(** One key; [None] for the keys that leave the line: Enter, the history and
    the terminal switches. *)
Definition edit_key (key : Z) (e : ed) : option ed :=
  let l := ed_line e in
  if key =? CAPSLOCK then
    Some (mk_ed (ed_shift e) (negb (ed_caps e)) (ed_ctrl e) (ed_alt e) l)
  else if key =? CTRLPRESS then Some (mk_ed (ed_shift e) (ed_caps e) true (ed_alt e) l)
  else if key =? CTRLRELEASE then Some (mk_ed (ed_shift e) (ed_caps e) false (ed_alt e) l)
  else if key =? ALTPRESS then Some (mk_ed (ed_shift e) (ed_caps e) (ed_ctrl e) true l)
  else if key =? ALTRELEASE then Some (mk_ed (ed_shift e) (ed_caps e) (ed_ctrl e) false l)
  else if bool_decide (key ∈ [LSHIFTPRESS; RSHIFTPRESS; LSHIFTRELEASE; RSHIFTRELEASE]) then
    Some (mk_ed (negb (ed_shift e)) (ed_caps e) (ed_ctrl e) (ed_alt e) l)
  else if 128 <=? key then Some e
  else if bool_decide (key ∈ [UP_ARROW; DOWN_ARROW; ENTER]) then None
  else if key =? LEFT_ARROW then Some (with_ed_line (move_left l) e)
  else if key =? RIGHT_ARROW then Some (with_ed_line (move_right l) e)
  else if key =? BACKSPACE then Some (with_ed_line (delete_left l) e)
  else if ed_ctrl e then
    Some (if key =? L_KEY then with_ed_line (mk_line [] []) e else e)
  else if line_size l =? 127 then Some e
  else
    let c := key_char e key in
    if c =? 0 then Some e
    else if bool_decide (c ∈ [ALT_F1; ALT_F2; ALT_F3]) then None
    else Some (with_ed_line (type_char c l) e).

Fixpoint edit_keys (keys : list Z) (e : ed) : option ed :=
  match keys with
  | [] => Some e
  | k :: keys => e' ← edit_key k e; edit_keys keys e'
  end.

(** The keyboard state in which terminal [t] is edited as [e]. *)
Definition with_ed (t : Z) (e : ed) (k : kbd_t) : kbd_t :=
  set shift_down (fun _ => Z.b2z (ed_shift e))
    (set caps_lock (fun _ => Z.b2z (ed_caps e))
      (set ctrl_down (fun _ => Z.b2z (ed_ctrl e))
        (set alt_down (fun _ => Z.b2z (ed_alt e)) (with_line t (ed_line e) k)))).

(** ** The tables *)

Lemma tables_length :
  length scancode = 256%nat /\ length CAPScode = 256%nat /\ length altcode = 256%nat.
Proof. by vm_compute. Qed.

Definition table_char (c : Z) : bool := (0 <=? c) && (c <? 256) && negb (c =? 13).
Lemma tables_chars : forallb table_char (scancode ++ CAPScode ++ altcode) = true.
Proof. by vm_compute. Qed.

Lemma table_char_ok T i c :
  T ∈ [scancode; CAPScode; altcode] -> lget T i = Some c -> c <> 0 -> char_ok c.
Proof.
  intros HT Hc H0. pose proof tables_chars as H. rewrite forallb_forall in H.
  assert (Hin : In c (scancode ++ CAPScode ++ altcode)).
  { unfold lget in Hc. case_decide; [|done]. apply list_elem_of_lookup_2 in Hc.
    apply list_elem_of_In. rewrite !elem_of_app.
    rewrite !elem_of_cons, elem_of_nil in HT.
    destruct HT as [->|[->|[->|[]]]]; tauto. }
  apply H in Hin. unfold table_char in Hin. unfold char_ok.
  rewrite !andb_true_iff, negb_true_iff, Z.leb_le, Z.ltb_lt, Z.eqb_neq in Hin. lia.
Qed.

Definition pressed_ok (n : nat) : bool :=
  Bool.eqb (Z.land (Z.of_nat n) RELEASE =? 0) (Z.of_nat n <? 128).
Lemma pressed_all : forallb pressed_ok (seq 0 256) = true.
Proof. by vm_compute. Qed.
Lemma pressed_spec key : 0 <= key < 256 -> (Z.land key RELEASE =? 0) = (key <? 128).
Proof.
  intros Hk. pose proof pressed_all as H. rewrite forallb_forall in H.
  specialize (H (Z.to_nat key)). unfold pressed_ok in H. rewrite Z2Nat.id in H by lia.
  apply eqb_prop, H, in_seq. lia.
Qed.

Lemma kbd_ext k k' :
  shift_down k = shift_down k' -> caps_lock k = caps_lock k' ->
  ctrl_down k = ctrl_down k' -> alt_down k = alt_down k' -> buffer k = buffer k' ->
  bufferIDX k = bufferIDX k' -> bufferSIZE k = bufferSIZE k' -> history k = history k' ->
  historyIDX k = historyIDX k' -> historyBASE k = historyBASE k' ->
  historySIZE k = historySIZE k' -> key_flag k = key_flag k' -> k = k'.
Proof. destruct k, k'. cbn. by intros; subst. Qed.

Lemma set_kbd_twice s f g h :
  f (g (s_kbd s)) = h (s_kbd s) -> set s_kbd f (set s_kbd g s) = set s_kbd h s.
Proof. intros E. destruct s. unfold set, s_kbd_upd. cbn in *. by rewrite E. Qed.

Lemma set_kbd_id s f : f (s_kbd s) = s_kbd s -> set s_kbd f s = s.
Proof. intros E. destruct s. unfold set, s_kbd_upd. cbn in *. by rewrite E. Qed.

Section typing.
Context {P : Platform}.
Implicit Types (s : kstate) (e : ed).

Record editing_ed (t pv : Z) (e : ed) s : Prop := {
  ee_line : editing t pv (ed_line e) s;
  ee_shift : shift_down (s_kbd s) = Z.b2z (ed_shift e);
  ee_caps : caps_lock (s_kbd s) = Z.b2z (ed_caps e);
  ee_ctrl : ctrl_down (s_kbd s) = Z.b2z (ed_ctrl e);
  ee_alt : alt_down (s_kbd s) = Z.b2z (ed_alt e);
}.

Lemma b2z_eqb b : (Z.b2z b =? 1) = b.
Proof. by destruct b. Qed.

Lemma translate_key_char t pv e s key :
  editing_ed t pv e s -> 0 <= key < 128 ->
  translate_key (s_kbd s) key = Some (key_char e key).
Proof.
  intros E Hk. unfold translate_key, key_char.
  rewrite (ee_shift _ _ _ _ E), (ee_caps _ _ _ _ E), (ee_alt _ _ _ _ E), !b2z_eqb.
  destruct tables_length as (L1 & L2 & L3). unfold SHIFT.
  assert (Hget : forall T i, length T = 256%nat -> 0 <= i < 256 ->
     lget T i = Some (default 0 (lget T i))).
  { intros T i HT Hi. destruct (lget_Some T i) as [v ->]; [lia|done]. }
  destruct (ed_shift e), (ed_caps e), (ed_alt e); cbn [andb negb];
    rewrite ?u16_small by lia; apply Hget; first [done|lia].
Qed.

Lemma key_char_ok e key :
  key_char e key <> 0 -> char_ok (key_char e key).
Proof.
  unfold key_char. intros H0.
  destruct (ed_shift e), (ed_caps e), (ed_alt e);
    match goal with |- char_ok (default 0 ?o) => destruct o eqn:Ho end;
    cbn in *; try done; (eapply table_char_ok; [|exact Ho|done]); set_solver.
Qed.

(** ** One key *)

Definition edited (t pv : Z) (e' : ed) s s' : Prop :=
  editing_ed t pv e' s' /\ draws (set s_kbd (with_ed t e') s) s'.

Lemma with_line_same t pv l s :
  editing t pv l s -> with_line t l (s_kbd s) = s_kbd s.
Proof.
  intros E. rewrite (with_line_index t pv l l s E eq_refl).
  pose proof (ed_index _ _ _ _ E) as Hi. unfold lget in Hi. case_decide; [|done].
  destruct (s_kbd s) as []. cbv [set bufferIDX_upd]. cbn in *.
  by rewrite list_insert_id.
Qed.

Lemma edited_line t pv e l' s s' :
  editing_ed t pv e s -> draws (set s_kbd (with_line t l') s) s' ->
  editing t pv l' s' -> edited t pv (with_ed_line l' e) s s'.
Proof.
  intros [_ Hs Hc Ht Ha] D E'. pose proof (draws_kbd _ _ D) as Hk. upd_in Hk.
  split.
  - constructor; [exact E'|..]; cbn [with_ed_line ed_shift ed_caps ed_ctrl ed_alt].
    + rewrite <-Hs. exact (f_equal shift_down Hk).
    + rewrite <-Hc. exact (f_equal caps_lock Hk).
    + rewrite <-Ht. exact (f_equal ctrl_down Hk).
    + rewrite <-Ha. exact (f_equal alt_down Hk).
  - etransitivity; [|exact D]. constructor; upd; try done. f_equal.
    unfold with_ed, with_ed_line. cbn [ed_shift ed_caps ed_ctrl ed_alt ed_line].
    rewrite <-Hs, <-Hc, <-Ht, <-Ha. by destruct (s_kbd s).
Qed.

Lemma edited_kbd t pv e e' s s' :
  editing_ed t pv e s -> ed_line e' = ed_line e ->
  s' = set s_kbd (with_ed t e') s -> edited t pv e' s s'.
Proof.
  intros [E Hs Hc Ht Ha] Hl ->. split; [|reflexivity].
  constructor; unfold with_ed; upd; try done.
  pose proof (with_line_same _ _ _ _ E) as Hw. rewrite Hl.
  pose proof (f_equal buffer Hw). pose proof (f_equal bufferIDX Hw).
  pose proof (f_equal bufferSIZE Hw). destruct E as [? ? ? ? ? ? Hv ? ? ?].
  constructor; upd; try congruence; try exact Hv.
  eapply cursor_ok_scr; [|eassumption]. done.
Qed.

Lemma edited_same t pv e s : editing_ed t pv e s -> edited t pv e s s.
Proof.
  intros E. eapply edited_kbd; [exact E|done|].
  pose proof (with_line_same _ _ _ _ (ee_line _ _ _ _ E)) as Hw.
  destruct E as [_ Hs Hc Ht Ha]. unfold with_ed.
  destruct s as [? ? ? ? ? k ? ? ? ? ?]. cbv [set s_kbd_upd]. cbn in *.
  rewrite Hw, <-Hs, <-Hc, <-Ht, <-Ha. by destruct k.
Qed.

(** A key that only sets a modifier. *)
Lemma wp_modifier t pv e e' s (f : kbd_t -> kbd_t) :
  editing_ed t pv e s -> ed_line e' = ed_line e ->
  (forall k, shift_down k = Z.b2z (ed_shift e) -> caps_lock k = Z.b2z (ed_caps e) ->
    ctrl_down k = Z.b2z (ed_ctrl e) -> alt_down k = Z.b2z (ed_alt e) ->
    f k = set shift_down (fun _ => Z.b2z (ed_shift e'))
      (set caps_lock (fun _ => Z.b2z (ed_caps e'))
        (set ctrl_down (fun _ => Z.b2z (ed_ctrl e'))
          (set alt_down (fun _ => Z.b2z (ed_alt e')) k)))) ->
  wp (kbd_set f) (fun _ => edited t pv e' s) s.
Proof.
  intros E Hl Hf. unfold kbd_set. wp_pure. eapply edited_kbd; [exact E|done|].
  pose proof (with_line_same _ _ _ _ (ee_line _ _ _ _ E)) as Hw.
  destruct E as [_ Hs Hc Ht Ha]. unfold with_ed. rewrite Hl.
  destruct s as [? ? ? ? ? k ? ? ? ? ?]. cbv [set s_kbd_upd]. cbn in *.
  rewrite Hw, Hf by done. done.
Qed.

Lemma last_snoc_eq (b : list Z) c : last b = Some c -> b = removelast b ++ [c].
Proof.
  intros Hc. destruct b as [|x b] using rev_ind; [done|].
  rewrite last_snoc in Hc. injection Hc as ->. by rewrite removelast_last.
Qed.

Lemma edited_moved t pv e l' s s' :
  editing_ed t pv e s -> moved t pv (ed_line e) l' s s' ->
  edited t pv (with_ed_line l' e) s s'.
Proof. intros E (D & E' & _). by eapply edited_line. Qed.

Lemma line_eta l : l = mk_line (before l) (after l).
Proof. by destruct l. Qed.

Lemma wp_left_key t pv e s :
  editing_ed t pv e s ->
  wp keyboard_left_arrow (fun _ =>
    edited t pv (with_ed_line (move_left (ed_line e)) e) s) s.
Proof.
  intros E. pose proof (ee_line _ _ _ _ E) as El. rewrite (line_eta (ed_line e)) in El.
  unfold move_left. destruct (last (before (ed_line e))) as [c|] eqn:Hl.
  - rewrite (last_snoc_eq _ _ Hl) in El.
    eapply wp_mono; [by apply (wp_keyboard_left_arrow t pv)|]. cbv beta. intros _ s' M.
    eapply edited_moved; [exact E|].
    by rewrite (line_eta (ed_line e)), (last_snoc_eq _ _ Hl) at 1.
  - apply last_None in Hl. rewrite Hl in El.
    eapply wp_mono; [by apply (wp_keyboard_left_arrow_start t pv _ _ El)|].
    cbv beta. intros _ s' ->. replace (with_ed_line (ed_line e) e) with e by (by destruct e).
    by apply edited_same.
Qed.

Lemma wp_right_key t pv e s :
  editing_ed t pv e s ->
  wp keyboard_right_arrow (fun _ =>
    edited t pv (with_ed_line (move_right (ed_line e)) e) s) s.
Proof.
  intros E. pose proof (ee_line _ _ _ _ E) as El. rewrite (line_eta (ed_line e)) in El.
  unfold move_right. destruct (after (ed_line e)) as [|c a] eqn:Hl.
  - eapply wp_mono; [by apply (wp_keyboard_right_arrow_end t pv _ _ El)|].
    cbv beta. intros _ s' ->. replace (with_ed_line (ed_line e) e) with e by (by destruct e).
    by apply edited_same.
  - eapply wp_mono; [by apply (wp_keyboard_right_arrow t pv)|]. cbv beta. intros _ s' M.
    eapply edited_moved; [exact E|]. by rewrite (line_eta (ed_line e)), Hl at 1.
Qed.

Lemma wp_backspace_key t pv e s :
  editing_ed t pv e s ->
  wp (t <- get_current_terminal ;; idx <- get_idx t ;;
      if idx =? 0 then ret tt else keyboard_backspace) (fun _ =>
    edited t pv (with_ed_line (delete_left (ed_line e)) e) s) s.
Proof.
  intros E. pose proof (ee_line _ _ _ _ E) as El. unfold get_current_terminal.
  wp_pures. rewrite (ed_term _ _ _ _ El). eapply wp_get_idx; [apply El|].
  unfold delete_left. destruct (last (before (ed_line e))) as [c|] eqn:Hl.
  - rewrite (line_eta (ed_line e)), (last_snoc_eq _ _ Hl) in El.
    unfold line_index. rewrite (last_snoc_eq _ _ Hl), length_app. cbn [length].
    rewrite (proj2 (Z.eqb_neq _ _)) by lia. rewrite removelast_last.
    eapply wp_mono; [apply (wp_keyboard_backspace t pv _ _ _ _ El)|].
    cbv beta. intros _ s' (D & E' & _). by eapply edited_line.
  - apply last_None in Hl. unfold line_index. rewrite Hl. cbn [length]. wp_pures.
    replace (with_ed_line _ e) with e; [by apply edited_same|].
    unfold with_ed_line. cbn [removelast]. rewrite <-Hl, <-line_eta. by destruct e.
Qed.

Lemma wp_clear_key t pv e s :
  editing_ed t pv e s ->
  wp (clear_keyboard_buffer ;; terminal_clear) (fun _ =>
    edited t pv (with_ed_line (mk_line [] []) e) s) s.
Proof.
  intros E. pose proof (ee_line _ _ _ _ E) as El. wp_pure.
  eapply wp_clear_keyboard_buffer; [apply El|apply El|apply line_row_length, El| | |].
  { eapply lget_range, El. }
  { eapply lget_range, El. }
  eapply wp_terminal_clear; [exact (ed_video _ _ _ _ El)|].
  intros s' D X Y _. eapply edited_line; [exact E|exact D|].
  eapply editing_draws; [exact El|exact D|done|by constructor| |by rewrite X|].
  - constructor; unfold pos; lia.
  - unfold pos. rewrite X, Y. done.
Qed.

Lemma wp_character_key t pv e e' s key oi es :
  editing_ed t pv e s -> 0 <= key < 128 ->
  (if line_size (ed_line e) =? 127 then Some e
   else
     let c := key_char e key in
     if c =? 0 then Some e
     else if bool_decide (c ∈ [ALT_F1; ALT_F2; ALT_F3]) then None
     else Some (with_ed_line (type_char c (ed_line e)) e)) = Some e' ->
  wp (key_character oi es key) (fun _ => edited t pv e' s) s.
Proof.
  intros E Hk He. pose proof (ee_line _ _ _ _ E) as El.
  unfold key_character, get_current_terminal. wp_pures. rewrite (ed_term _ _ _ _ El).
  eapply wp_get_size; [apply El|]. unfold MAX_CHARACTERS.
  destruct (Z.eqb_spec (line_size (ed_line e)) 127) as [Hfull|Hfull].
  { injection He as <-. apply wp_ret. by apply edited_same. }
  unfold get_kbd. wp_pures. eapply wp_of_opt; [by eapply translate_key_char|].
  cbv zeta in He. unfold INVALID_SCANCODE.
  destruct (Z.eqb_spec (key_char e key) 0) as [H0|H0].
  { injection He as <-. apply wp_ret. by apply edited_same. }
  case_bool_decide as Hin; [done|]. injection He as <-.
  rewrite !elem_of_cons, elem_of_nil in Hin.
  rewrite !(proj2 (Z.eqb_neq _ _)) by tauto.
  pose proof (ed_max _ _ _ _ El).
  eapply wp_mono; [apply (wp_keyboard_insert t pv _ _ _ El)|].
  - lia.
  - by apply key_char_ok.
  - cbv beta. intros _ s' (D & E' & _). by eapply edited_line.
Qed.


Lemma wp_shift_key t pv e s f :
  editing_ed t pv e s -> f = press_shift \/ f = release_shift ->
  wp f (fun _ => edited t pv
    (mk_ed (negb (ed_shift e)) (ed_caps e) (ed_ctrl e) (ed_alt e) (ed_line e)) s) s.
Proof.
  intros E Hf. unfold press_shift, release_shift in Hf.
  destruct Hf as [-> | ->]; (eapply wp_modifier; [exact E|done|];
    intros k Hs Hc Ht Ha; destruct k; cbn in *; subst; by destruct (ed_shift e)).
Qed.

Lemma wp_handle_key t pv e e' s key oi es :
  editing_ed t pv e s -> 0 <= key < 256 -> edit_key key e = Some e' ->
  wp (handle_keyboard_input oi es key) (fun _ => edited t pv e' s) s.
Proof.
  intros E Hk He. unfold handle_keyboard_input. unfold edit_key in He.
  repeat match type of He with
  | (if ?k =? ?c then _ else _) = _ =>
      destruct (Z.eqb_spec k c) as [?|?];
      [ injection He as <-; eapply wp_modifier; [exact E|done|];
        intros [] Hs Hc Ht Ha; cbn in *; subst; by destruct (ed_caps e) | ]
  end.
  case_bool_decide as Hshift.
  { injection He as <-. rewrite !elem_of_cons, elem_of_nil in Hshift.
    destruct (Z.eqb_spec key LSHIFTPRESS); [by apply wp_shift_key; [|left]|].
    destruct (Z.eqb_spec key RSHIFTPRESS); [by apply wp_shift_key; [|left]|].
    destruct (Z.eqb_spec key LSHIFTRELEASE); [by apply wp_shift_key; [|right]|].
    destruct (Z.eqb_spec key RSHIFTRELEASE); [by apply wp_shift_key; [|right]|].
    tauto. }
  rewrite !elem_of_cons, elem_of_nil in Hshift.
  do 4 (rewrite (proj2 (Z.eqb_neq _ _)) by tauto).
  rewrite pressed_spec by done. unfold get_kbd.
  destruct (Z.leb_spec 128 key) as [Hrel|Hpress].
  { injection He as <-. rewrite (proj2 (Z.ltb_ge key 128)) by lia. cbn [andb].
    wp_pures. by apply edited_same. }
  rewrite (proj2 (Z.ltb_lt key 128)) by lia. cbn [andb].
  case_bool_decide as Hout; [done|]. rewrite !elem_of_cons, elem_of_nil in Hout.
  do 2 (rewrite (proj2 (Z.eqb_neq _ _)) by tauto).
  case_match; [injection He as <-; by apply wp_left_key|].
  case_match; [injection He as <-; by apply wp_right_key|].
  case_match; [injection He as <-; by apply wp_backspace_key|].
  rewrite (proj2 (Z.eqb_neq _ _)) by tauto.
  wp_pures. rewrite (ee_ctrl _ _ _ _ E), b2z_eqb.
  destruct (ed_ctrl e); cbn [andb negb].
  - injection He as <-. case_match; [by apply wp_clear_key|].
    wp_pures. by apply edited_same.
  - eapply wp_character_key; [exact E|lia|exact He].
Qed.

(** ** Interrupts *)

(** The state the handler edits: the screen is the one at VIDEO. *)
Definition displayed s : kstate := set s_scr (set video_mem (fun _ => VIDEO)) s.

Definition typing (t : Z) (e : ed) s : Prop := editing_ed t VIDEO e (displayed s).

Lemma editing_quiet t pv l s s' : quiet s s' -> editing t pv l s -> editing t pv l s'.
Proof.
  intros [D S M K] [? ? ? ? ? ? Hv ? ? ?]. pose proof (draws_term _ _ D) as HT.
  constructor; unfold pos in *; rewrite ?K, ?S, ?HT; try done.
  - by eapply video_at_draws.
  - by eapply cursor_ok_scr.
Qed.
Lemma editing_ed_quiet t pv e s s' :
  quiet s s' -> editing_ed t pv e s -> editing_ed t pv e s'.
Proof.
  intros Q [E ? ? ? ?]. pose proof (quiet_kbd _ _ Q) as K.
  constructor; rewrite ?K; [by eapply editing_quiet|done..].
Qed.
Lemma displayed_quiet s s' : quiet s s' -> quiet (displayed s) (displayed s').
Proof.
  intros [[] S M K]. unfold displayed. constructor; upd; [|by rewrite S|done..].
  constructor; upd; done.
Qed.

Lemma displayed_back s v :
  video_mem (s_scr s) = VIDEO -> quiet s (displayed (set s_scr (set video_mem (fun _ => v)) s)).
Proof.
  intros Hv. unfold displayed.
  assert (E : set video_mem (fun _ => VIDEO) (set video_mem (fun _ => v) (s_scr s)) = s_scr s).
  { destruct (s_scr s). cbn in *. by subst. }
  constructor; upd; [|exact E|done..]. constructor; upd; done.
Qed.

Lemma draws_displayed e t s s1 s2 s3 v :
  quiet s s1 -> draws (set s_kbd (with_ed t e) (displayed s1)) s2 ->
  v = video_mem (s_scr s1) ->
  quiet (set s_scr (set video_mem (fun _ => v)) s2) s3 ->
  draws (set s_kbd (with_ed t e) s) s3.
Proof.
  intros [D1 S1 _ K1] D2 -> [D3 S3 _ K3]. destruct D1, D2, D3. unfold displayed in *.
  repeat match goal with H : _ = _ |- _ => progress upd_in H end.
  constructor; upd; congruence.
Qed.

(** The interrupt handler around [handle_keyboard_input]. *)
Lemma wp_irq_key s key (R : kstate -> Prop) :
  0 <= key < 256 ->
  (forall s1 oi es, quiet s s1 ->
    wp (handle_keyboard_input oi es key) (fun _ => R) (displayed s1)) ->
  wp (on_irq (IrqKey key)) (fun _ s' => exists s1 s2, quiet s s1 /\ R s2 /\
    quiet (set s_scr (set video_mem (fun _ => video_mem (s_scr s1))) s2) s' /\
    eflags_if (s_hw s') = eflags_if (s_hw s)) s.
Proof.
  intros Hk HR. unfold on_irq. wp_pures. cbn [on_irq_fuel]. unfold hw_set at 1.
  wp_pures. unfold handle_keyboard, cli_and_save, cli, hw_set. wp_pures.
  match goal with |- wp _ _ ?s1 => set (s1_ := s1) end.
  assert (Hps : ps2_data (s_hw s1_) = key) by done.
  assert (Q : quiet s s1_) by (constructor; [draws_tac|done..]).
  assert (Hfl : eflags_if (s_hw (set s_hw (set ps2_data (fun _ => key)) s)) =
    eflags_if (s_hw s)) by done.
  clearbody s1_. rename s1_ into s1.
  unfold get_video_mem, set_video_mem, scr_set. wp_pures. unfold inb. wp_pures.
  change (PS2PORT =? PS2PORT) with true. cbv iota. upd.
  rewrite Hps, u8_small by lia.
  change (set s_scr (set video_mem (fun _ => VIDEO)) s1) with (displayed s1).
  eapply wp_mono; [by apply HR|]. cbv beta. intros _ s2 H2. wp_pures.
  eapply wp_quiet; [apply quietly_send_eoi|]. intros _ s3 Q3.
  unfold restore_flags, hw_set. wp_pure.
  match goal with |- exists _ _, _ /\ _ /\ quiet _ ?s4_ /\ _ => assert (Q4 : quiet s3 s4_)
    by (constructor; [draws_tac|done..]) end.
  exists s1, s2. split; [done|]. split; [done|]. split; [by etransitivity|exact Hfl].
Qed.

Lemma typing_back t e s2 s' v :
  editing_ed t VIDEO e s2 -> video_mem (s_scr s2) = VIDEO ->
  quiet (set s_scr (set video_mem (fun _ => v)) s2) s' -> typing t e s'.
Proof.
  intros E Hv Q. eapply editing_ed_quiet; [by apply displayed_quiet|].
  eapply editing_ed_quiet; [by apply displayed_back|exact E].
Qed.

Lemma wp_key_irq t e e' s key :
  typing t e s -> 0 <= key < 256 -> edit_key key e = Some e' ->
  wp (on_irq (IrqKey key)) (fun _ s' =>
    typing t e' s' /\ draws (set s_kbd (with_ed t e') s) s' /\
    eflags_if (s_hw s') = eflags_if (s_hw s)) s.
Proof.
  intros E Hk He. eapply wp_mono.
  { apply (wp_irq_key s key (fun s2 => exists s1, quiet s s1 /\
      edited t VIDEO e' (displayed s1) s2)); [done|].
    intros s1 oi es Q. eapply wp_mono.
    { apply (wp_handle_key t VIDEO e e'); [|done|done].
      eapply editing_ed_quiet; [by apply displayed_quiet|exact E]. }
    cbv beta. eauto. }
  cbv beta. intros _ s' (s1 & s2 & Q1 & (s1' & Q1' & E2 & D2) & Q3 & Hfl).
  split; [|split]; [|..|done].
  - eapply typing_back; [exact E2|exact (draws_video _ _ D2)|exact Q3].
  - eapply draws_displayed; [exact Q1'|exact D2| |exact Q3].
    rewrite (quiet_scr _ _ Q1'). by rewrite (quiet_scr _ _ Q1).
Qed.

Lemma with_ed_twice t e1 e2 k : with_ed t e2 (with_ed t e1 k) = with_ed t e2 k.
Proof.
  apply kbd_ext; unfold with_ed, with_line; upd; try done; apply list_insert_insert_eq.
Qed.

Lemma draws_with_ed t e1 e2 s s1 s2 :
  draws (set s_kbd (with_ed t e1) s) s1 -> draws (set s_kbd (with_ed t e2) s1) s2 ->
  draws (set s_kbd (with_ed t e2) s) s2.
Proof.
  intros D1 D2. etransitivity; [|exact D2]. destruct D1. constructor; upd; try done.
  upd_in draws_kbd.
  rewrite <-(with_ed_twice t e1 e2 (s_kbd s)).
  exact (f_equal (with_ed t e2) draws_kbd).
Qed.

(** A sequence of keyboard interrupts. *)
Fixpoint key_irqs (keys : list Z) : M unit :=
  match keys with
  | [] => ret tt
  | key :: keys => on_irq (IrqKey key) ;; key_irqs keys
  end.
End typing.

(** ** Properties *)

Section properties.
Context {P : Platform}.
Implicit Types (s : kstate).

(** C1: keyboard interrupts refine the abstract line editor. Whatever keys
    arrive (letters, Backspace, arrows, modifiers, Ctrl-L) while a terminal is
    edited, the handler returns, without an access outside an array or an
    unmapped page, and buffer, index and size then represent exactly the line
    the abstract editor computes; nothing but the keyboard's line and
    modifiers, the screen and the processor changes. *)
Theorem typing_refines_editor t keys e e' s :
  typing t e s -> Forall (fun k => 0 <= k < 256) keys -> edit_keys keys e = Some e' ->
  wp (key_irqs keys) (fun _ s' =>
    typing t e' s' /\ draws (set s_kbd (with_ed t e') s) s') s.
Proof.
  revert e s. induction keys as [|key keys IH]; intros e s Ht Hk He; cbn [edit_keys key_irqs] in *.
  - injection He as <-. apply wp_ret. split; [done|].
    destruct (edited_same _ _ _ _ Ht) as [_ D]. unfold displayed in D.
    destruct D. constructor; upd; done.
  - apply Forall_cons in Hk as [Hkey Hk].
    destruct (edit_key key e) as [e1|] eqn:H1; [|done]. cbn in He.
    wp_pure. eapply wp_mono; [by apply (wp_key_irq t e e1)|].
    cbv beta. intros _ s1 (T1 & D1 & _). eapply wp_mono; [by apply (IH e1)|].
    cbv beta. intros _ s2 (T2 & D2). split; [done|]. by eapply draws_with_ed.
Qed.
End properties.

Definition empty_ed : ed := mk_ed false false false false (mk_line [] []).

Lemma zero_typing : typing 0 empty_ed zero_state.
Proof.
  constructor; [|done..]. constructor.
  1-6: by vm_compute.
  - split; [done|]. intros o Ho. unfold displayed, phys. upd.
    change (paging_on (s_pag zero_state)) with false. cbv iota.
    rewrite u32_small by (unfold VIDEO; lia). done.
  - by constructor.
  - done.
  - done.
Qed.

(** "lx", Left, Backspace, Shift-"s", Right. *)
Lemma typing_refines_editor_witness :
  let keys := [0x26; 0x2D; 0x4B; 0x0E; 0x2A; 0x1F; 0xAA; 0x4D] in
  wp (key_irqs keys) (fun _ s' =>
    lget (buffer (s_kbd s')) 0 = Some ([83; 120] ++ replicate 126 0) /\
    lget (bufferIDX (s_kbd s')) 0 = Some 2) zero_state.
Proof.
  cbv zeta.
  eapply wp_mono; [eapply (typing_refines_editor 0 _ empty_ed
    (mk_ed false false false false (mk_line [83; 120] []))); [apply zero_typing| |]|].
  - repeat constructor; lia.
  - vm_compute. reflexivity.
  - cbv beta. intros _ s' [T _]. split; [apply T|apply T].
Defined.
