(* ===== verification/InputSpec.v ===== *)
(** * Input: Enter hands the edited line to the reading program *)
From S2P Require Import Prelude State Monad Logic Strings Screen ScreenSpec Pic Proc Terminal TerminalSpec Keyboard EditorSpec Interrupts Syscalls Kernel Demo KeyboardSpec.

(** ** Strings in rows *)

(** [strncpy] copies a prefix without NUL, whatever follows it, as long as a
    NUL stops it within [n] bytes. *)
Lemma strncpy_loop_total n dest src i :
  lget src i = Some 0 -> i < Z.of_nat n -> (n <= length dest)%nat ->
  exists d, strncpy_loop n dest src = Some d /\ length d = length dest.
Proof.
  revert n dest i. induction src as [|c src IH]; intros n dest i Hi Hn Hd;
    [apply lget_range in Hi; cbn in Hi; lia|].
  pose proof (lget_range _ _ _ Hi). cbn [strncpy_loop].
  destruct (Z.eqb_spec c 0) as [->|Hc].
  { rewrite decide_True by done. eexists. split; [done|].
    rewrite length_app, length_replicate, length_drop. lia. }
  destruct n as [|n]; [lia|]. destruct dest as [|x dest]; cbn [length] in *; [lia|].
  rewrite lget_cons in Hi by lia. case_decide; [congruence|].
  destruct (IH n dest (i - 1)) as (d & -> & Hl); [done|lia|lia|].
  cbn. eexists. split; [done|]. cbn. lia.
Qed.

Lemma strncpy_prefix u : forall n dest rest i,
  Forall (fun c => c <> 0) u -> lget rest i = Some 0 ->
  Z.of_nat (length u) + i < Z.of_nat n -> (n <= length dest)%nat ->
  exists d, strncpy_loop n dest (u ++ rest) = Some d /\
    take (length u) d = u /\ length d = length dest.
Proof.
  induction u as [|c u IH]; intros n dest rest i Hu Hi Hn Hd; cbn [app length take].
  - destruct (strncpy_loop_total n dest rest i) as (d & ? & ?); [done|cbn in Hn; lia|done|].
    by exists d.
  - apply Forall_cons in Hu as [Hc Hu]. pose proof (lget_range _ _ _ Hi).
    cbn [strncpy_loop]. rewrite (proj2 (Z.eqb_neq c 0)) by done.
    destruct n as [|n]; [cbn in Hn; lia|]. destruct dest as [|x dest]; cbn [length] in *; [lia|].
    destruct (IH n dest rest i) as (d & -> & Ht & Hl); [done|done|lia|lia|].
    cbn. eexists. split; [done|]. cbn. rewrite Ht. split; [done|lia].
Qed.

Lemma find_newline_prefix u rest :
  Forall (fun c => c <> 10) u -> find_newline (u ++ 10 :: rest) = Some (Z.of_nat (length u)).
Proof.
  induction 1 as [|c u Hc _ IH]; [done|]. cbn [app find_newline length].
  rewrite (proj2 (Z.eqb_neq c 10)), IH by done. cbn. f_equal. lia.
Qed.

Lemma kstate_ext s s' :
  s_scr s = s_scr s' -> s_proc s = s_proc s' -> s_pag s = s_pag s' ->
  s_sched s = s_sched s' -> s_term s = s_term s' -> s_kbd s = s_kbd s' ->
  s_rtc s = s_rtc s' -> s_irq s = s_irq s' -> s_fs s = s_fs s' -> s_hw s = s_hw s' ->
  s_mem s = s_mem s' -> s = s'.
Proof. destruct s, s'. cbn. by intros; subst. Qed.

Section input.
Context {P : Platform}.
Implicit Types (s : kstate).

(** ** The history ring *)

(** Entry [j] of process [pid]. *)
Definition hist_at s (pid j : Z) : option (list Z) :=
  h ← lget (history (s_kbd s)) pid; lget h j.
Definition with_hist (pid j : Z) (r : list Z) s : kstate :=
  set s_kbd (set history (alter (fun h => <[Z.to_nat j := r]> h) (Z.to_nat pid))) s.

Lemma hist_at_range s pid j r :
  hist_at s pid j = Some r ->
  0 <= pid < Z.of_nat (length (history (s_kbd s))) /\ 0 <= j.
Proof.
  unfold hist_at. destruct (lget (history (s_kbd s)) pid) as [h|] eqn:Hh; [|done].
  cbn. intros Hr. split; [by eapply lget_range|]. apply lget_range in Hr. lia.
Qed.

Lemma with_hist_get s pid j r r' :
  hist_at s pid j = Some r -> hist_at (with_hist pid j r' s) pid j = Some r'.
Proof.
  intros H. pose proof (hist_at_range _ _ _ _ H). unfold hist_at in *.
  destruct (lget (history (s_kbd s)) pid) as [h|] eqn:Hh; [|done]. cbn in H.
  unfold with_hist. upd. rewrite lget_alter by lia. rewrite decide_True, Hh by done. cbn.
  rewrite lget_insert by (by eapply lget_range). by rewrite decide_True.
Qed.

Lemma with_hist_twice s pid j r r' :
  with_hist pid j r (with_hist pid j r' s) = with_hist pid j r s.
Proof.
  apply set_kbd_twice, kbd_ext; upd; try done.
  rewrite list_alter_alter_eq. apply list_alter_ext; [|done].
  intros h _. cbn. apply list_insert_insert_eq.
Qed.

Lemma with_hist_same s pid j r : hist_at s pid j = Some r -> with_hist pid j r s = s.
Proof.
  intros Hr. pose proof (hist_at_range _ _ _ _ Hr). unfold hist_at in Hr.
  destruct (lget (history (s_kbd s)) pid) as [h|] eqn:Hh; [|done]. cbn in Hr.
  apply set_kbd_id, kbd_ext; upd; try done.
  unfold lget in Hh, Hr. do 2 (case_decide; [|done]). apply list_eq. intros n.
  destruct (decide (n = Z.to_nat pid)) as [->|].
  - rewrite list_lookup_alter_eq, Hh. cbn. f_equal. by apply list_insert_id.
  - by rewrite list_lookup_alter_ne.
Qed.

Lemma wp_put_history s pid j r i c (Q : unit -> kstate -> Prop) :
  hist_at s pid j = Some r -> 0 <= i < Z.of_nat (length r) ->
  Q tt (with_hist pid j (<[Z.to_nat i := c]> r) s) -> wp (put_history pid j i c) Q s.
Proof.
  intros H Hi HQ. pose proof (hist_at_range _ _ _ _ H) as [Hp _]. unfold hist_at in H.
  unfold put_history, get_kbd, kbd_set. wp_pures.
  destruct (lget (history (s_kbd s)) pid) as [h|] eqn:Hh; [|done]. cbn in H.
  pose proof (lget_range _ _ _ H).
  eapply wp_aget_Some; [done|]. wp_pures. eapply wp_of_opt.
  { unfold lset2. rewrite H. cbn. rewrite lset_Some by done. cbn. by apply lset_Some. }
  wp_pures. eapply wp_of_opt; [by eapply (lset_alter _ _
    (fun h => <[Z.to_nat j := <[Z.to_nat i := c]> r]> h))|].
  wp_pures. exact HQ.
Qed.

(** Process [pid] is displayed on terminal [t]; its history has [size]
    entries and the next goes to [base]. *)
Record history_ready (t pid base size : Z) s : Prop := {
  hr_top : exists k, lget (schedule_top (s_sched s)) t = Some k /\
    lget2 (schedule_stack (s_sched s)) t (k - 1) = Some pid;
  hr_base : lget (historyBASE (s_kbd s)) pid = Some base;
  hr_base_range : 0 <= base < 20;
  hr_size : lget (historySIZE (s_kbd s)) pid = Some size;
  hr_index : is_Some (lget (historyIDX (s_kbd s)) pid);
  hr_entry : exists r, hist_at s pid base = Some r /\ length r = 128%nat;
}.

Definition plain (l : line) : Prop := Forall (fun c => c <> 10) (line_text l).

Lemma wp_get_displayed_pid t pid s (Q : Z -> kstate -> Prop) :
  current_terminal (s_term s) = t ->
  (exists k, lget (schedule_top (s_sched s)) t = Some k /\
    lget2 (schedule_stack (s_sched s)) t (k - 1) = Some pid) ->
  Q pid s -> wp get_displayed_pid Q s.
Proof.
  intros Ht (k & Hk & Hp) HQ.
  unfold get_displayed_pid, get_current_terminal. wp_pures. rewrite Ht.
  eapply wp_aget_Some; [done|]. by eapply wp_of_opt.
Qed.

(** The entry receives the line. *)
Lemma wp_copy_to_history t pv l pid base size s (Q : unit -> kstate -> Prop) :
  editing t pv l s -> plain l -> history_ready t pid base size s ->
  Q tt (with_hist pid base (line_row l) s) -> wp copy_to_history Q s.
Proof.
  intros E Hl H HQ. unfold copy_to_history. wp_pure.
  eapply wp_get_displayed_pid; [apply E|apply H|].
  destruct (hr_entry _ _ _ _ _ H) as (r & Hr & Hlen).
  pose proof (line_row_length l (ed_max _ _ _ _ E)) as Hrow.
  eapply wp_mono.
  { apply (wp_for_up _ _ _ (fun i s' => exists r', length r' = 128%nat /\
      (forall j, 0 <= j < i -> lget r' j = lget (line_row l) j) /\
      s' = with_hist pid base r' s /\ (i = 0 -> s' = s))); [done| |].
    - exists r. split; [done|]. split; [lia|]. split; [|done].
      by rewrite with_hist_same.
    - intros i s' Hi (r' & Hl' & Hj & -> & _). unfold MAX_BUFFER_SIZE in Hi.
      unfold get_current_terminal. wp_pures.
      change (s_term (with_hist _ _ _ _)) with (s_term s). rewrite (ed_term _ _ _ _ E).
      destruct (lget_Some (line_row l) i) as [c Hc]; [lia|].
      eapply wp_get_buffer; [exact (ed_buffer _ _ _ _ E)|exact Hc|].
      unfold get_historyBASE, get_kbd. wp_pures.
      eapply wp_aget_Some; [exact (hr_base _ _ _ _ _ H)|].
      eapply wp_put_history; [by eapply with_hist_get|lia|].
      eexists. split; [|split; [|split]]; [|..|lia].
      3: by rewrite with_hist_twice.
      { by rewrite length_insert. }
      intros j Hj'. rewrite lget_insert by lia. case_decide; [subst j|apply Hj; lia].
      rewrite Hc. f_equal. destruct (Z.eqb_spec c 10) as [->|]; cbn [orb].
      + exfalso. revert Hc. rewrite lget_line_row by first [apply E|lia].
        unfold plain, line_text in Hl. apply Forall_app in Hl as [Hb Ha].
        rewrite Forall_forall in Hb, Ha. unfold lget.
        repeat case_decide; try done.
        * intros Hin%list_elem_of_lookup_2. by apply (Hb 10).
        * intros Hin%list_elem_of_lookup_2. by apply (Ha 10).
      + by destruct (Z.eqb_spec c 0) as [->|]. }
  cbv beta. intros [] s' (r' & Hl' & Hj & -> & _).
  replace r' with (line_row l); [exact HQ|]. apply list_eq_lget; [congruence|].
  intros j Hj'. symmetry. apply Hj. unfold MAX_BUFFER_SIZE. lia.
Qed.

(** The history after [row] is appended: the entry at [base] is [row], the
    others are kept, and the indices move on around the ring. *)
Record pushed (pid base size : Z) (row : list Z) (k k' : kbd_t) : Prop := {
  pu_same : set history (fun _ => history k) (set historyBASE (fun _ => historyBASE k)
    (set historyIDX (fun _ => historyIDX k) (set historySIZE (fun _ => historySIZE k) k'))) = k;
  pu_entry : (h ← lget (history k') pid; lget h base) = Some row;
  pu_others : forall pid' j, 0 <= pid' -> 0 <= j -> (pid', j) <> (pid, base) ->
    (h ← lget (history k') pid'; lget h j) = (h ← lget (history k) pid'; lget h j);
  pu_base : lget (historyBASE k') pid = Some (Z.rem (base + 1) 20);
  pu_index : lget (historyIDX k') pid = Some (Z.rem (base + 1) 20);
  pu_size : lget (historySIZE k') pid = Some (if size <? 20 then size + 1 else size);
}.

Lemma with_hist_other s pid j r pid' j' :
  0 <= pid -> 0 <= j -> 0 <= pid' -> 0 <= j' -> (pid', j') <> (pid, j) ->
  hist_at (with_hist pid j r s) pid' j' = hist_at s pid' j'.
Proof.
  intros ???? Hne. unfold hist_at, with_hist. upd. rewrite lget_alter by done.
  case_decide as Hp; [subst pid'|done].
  destruct (lget (history (s_kbd s)) pid) as [h|]; [|done]. cbn.
  unfold lget. rewrite !decide_True by done.
  rewrite list_lookup_insert_ne; [done|]. intros Heq. apply Hne. f_equal. lia.
Qed.

Lemma wp_increment_history t pid base size row s (Q : unit -> kstate -> Prop) :
  current_terminal (s_term s) = t -> history_ready t pid base size s ->
  (forall k', pushed pid base size row (s_kbd s) k' ->
     Q tt (set s_kbd (fun _ => k') s)) ->
  wp increment_history_indices Q (with_hist pid base row s).
Proof.
  intros Ht H HQ. pose proof (hr_base_range _ _ _ _ _ H) as Hb.
  destruct (hr_entry _ _ _ _ _ H) as (r & Hr & Hlen). pose proof (hist_at_range _ _ _ _ Hr).
  pose proof (lget_range _ _ _ (hr_base _ _ _ _ _ H)).
  pose proof (lget_range _ _ _ (hr_size _ _ _ _ _ H)).
  destruct (hr_index _ _ _ _ _ H) as [hi Hi]. pose proof (lget_range _ _ _ Hi).
  unfold increment_history_indices. wp_pure.
  eapply wp_get_displayed_pid; [exact Ht|apply H|].
  unfold get_historyBASE, put_historyBASE, put_historyIDX, get_historySIZE,
    put_historySIZE, get_kbd, kbd_set, NUM_HISTORY_BUFFERS.
  wp_pures. eapply wp_aget_Some; [exact (hr_base _ _ _ _ _ H)|].
  wp_pures. apply wp_aset; [done|]. wp_pures. eapply wp_aget_Some.
  { upd. rewrite lget_insert by done. by rewrite decide_True. }
  wp_pures. apply wp_aset; [done|]. wp_pures.
  eapply wp_aget_Some; [exact (hr_size _ _ _ _ _ H)|].
  assert (Hres : forall k' v,
    set historySIZE (fun _ => <[Z.to_nat pid := v]> (historySIZE (s_kbd s)))
      (set historyIDX (fun _ => <[Z.to_nat pid := Z.rem (base + 1) 20]> (historyIDX (s_kbd s)))
        (set historyBASE (fun _ => <[Z.to_nat pid := Z.rem (base + 1) 20]>
           (historyBASE (s_kbd s))) (s_kbd (with_hist pid base row s)))) = k' ->
    v = (if size <? 20 then size + 1 else size) ->
    pushed pid base size row (s_kbd s) k').
  { intros k' v <- ->. constructor; upd.
    - apply kbd_ext; upd; done.
    - by eapply (with_hist_get s pid base r).
    - intros pid' j ?? Hne. apply (with_hist_other s pid base row pid' j); lia || done.
    - rewrite lget_insert by done. by rewrite decide_True.
    - rewrite lget_insert by done. by rewrite decide_True.
    - rewrite lget_insert by done. by rewrite decide_True. }
  destruct (Z.ltb_spec size 20).
  - wp_pures. apply wp_aset; [done|]. wp_pures.
    match goal with |- Q _ ?s1 => change (Q tt (set s_kbd (fun _ => s_kbd s1) s)) end.
    apply HQ. eapply Hres; [reflexivity|done].
  - wp_pures.
    match goal with |- Q _ ?s1 => change (Q tt (set s_kbd (fun _ => s_kbd s1) s)) end.
    apply HQ. eapply (Hres _ size); [|done]. apply kbd_ext; unfold with_hist; upd; try done.
    apply list_insert_id. pose proof (hr_size _ _ _ _ _ H) as Hz.
    unfold lget in Hz. by case_decide.
Qed.

(** ** Reading the buffer *)

Lemma wp_keyboard_read_loop t row rest s : forall u v n (Q : Z * list Z -> kstate -> Prop),
  current_terminal (s_term s) = t -> lget (buffer (s_kbd s)) t = Some row ->
  row = u ++ v ++ 10 :: rest -> Forall (fun c => c <> 10 /\ c <> 0) v ->
  (length u + length v <= 127)%nat -> (length v < n)%nat ->
  Q (Z.of_nat (length u + length v), v ++ [10]) s ->
  wp (keyboard_read_loop n (Z.of_nat (length u))) Q s.
Proof.
  intros u v. revert u. induction v as [|c v IH]; intros u n Q Ht Hr Hrow Hv Hlen Hn HQ;
    (destruct n as [|n]; [cbn in Hn; lia|]); cbn [keyboard_read_loop];
    unfold get_current_terminal; wp_pures; rewrite Ht.
  - eapply wp_get_buffer; [exact Hr| |].
    { rewrite Hrow, lget_app, decide_False, Z.sub_diag by lia. reflexivity. }
    wp_pures. rewrite Nat.add_0_r in HQ. exact HQ.
  - apply Forall_cons in Hv as [[Hc10 Hc0] Hv]. cbn [length] in *.
    eapply wp_get_buffer; [exact Hr| |].
    { rewrite Hrow, lget_app, decide_False, Z.sub_diag by lia. reflexivity. }
    rewrite (proj2 (Z.eqb_neq c 10)), (proj2 (Z.eqb_neq c 0)) by done. cbn [orb].
    unfold MAX_BUFFER_SIZE. rewrite (proj2 (Z.eqb_neq _ _)) by lia. wp_pure.
    replace (Z.of_nat (length u) + 1) with (Z.of_nat (length (u ++ [c])))
      by (rewrite length_app; cbn [length]; lia).
    apply IH; [done|done| |done|rewrite length_app; cbn [length]; lia|lia|].
    { rewrite Hrow. by rewrite <-!app_assoc. }
    wp_pures. rewrite length_app. cbn [length].
    replace (length u + 1 + length v)%nat with (length u + S (length v))%nat by lia. exact HQ.
Qed.

(** The row with its line feed. *)
Lemma newline_row l :
  line_size l <= 127 ->
  <[Z.to_nat (line_size l) := 10]> (line_row l) =
    line_text l ++ 10 :: replicate (127 - length (line_text l)) 0.
Proof.
  unfold line_size, line_row. intros. rewrite Nat2Z.id.
  replace (128 - length (line_text l))%nat with (S (127 - length (line_text l))) by lia.
  cbn [replicate]. by rewrite insert_app_r_alt, Nat.sub_diag.
Qed.

(** The read buffer of [t] is [row], and its reader waits. *)
Record reader_waits (t : Z) (row : list Z) s : Prop := {
  rw_switch : lget (return_switch (s_term s)) t = Some SWITCH_ON;
  rw_buffer : lget (read_buffer (s_term s)) t = Some row;
  rw_length : length row = 128%nat;
}.

Lemma wp_terminal_return t l row s (Q : unit -> kstate -> Prop) :
  current_terminal (s_term s) = t -> reader_waits t row s ->
  lget (buffer (s_kbd s)) t =
    Some (line_text l ++ 10 :: replicate (127 - length (line_text l)) 0) ->
  line_size l <= 127 -> Forall char_ok (line_text l) -> plain l ->
  Q tt (set s_term (set return_switch (<[Z.to_nat t := 0]>))
    (set s_term (set read_buffer (<[Z.to_nat t :=
      line_text l ++ 10 :: drop (S (length (line_text l))) row]>)) s)) ->
  wp terminal_return Q s.
Proof.
  intros Ht [Hsw Hbuf Hlen] Hrow Hsz Hok Hpl HQ. unfold line_size in Hsz.
  unfold terminal_return, get_current_terminal. wp_pures. rewrite Ht.
  eapply wp_aget_Some; [exact Hsw|]. rewrite Z.eqb_refl. unfold keyboard_read.
  change (MAX_BUFFER_SIZE <? 1) with false. wp_pures.
  eapply (wp_keyboard_read_loop t _ (replicate (127 - length (line_text l)) 0) s []
    (line_text l)); [done|exact Hrow|done| |cbn [length]; lia|unfold MAX_BUFFER_SIZE; lia|].
  { unfold plain in Hpl. rewrite Forall_forall in *. intros c Hc. split; [by apply Hpl|].
    destruct (Hok c Hc). lia. }
  wp_pures. cbn [snd]. eapply wp_aget_Some; [exact Hbuf|].
  rewrite (proj2 (Nat.leb_le _ _)) by (rewrite length_app; cbn [length]; lia).
  wp_pures. apply wp_aset; [by eapply lget_range|]. unfold term_set. wp_pures.
  unfold set_return_switch. cbn [Z.eqb orb]. unfold get_current_terminal, put_return_switch, term_set.
  wp_pures. upd. rewrite Ht. apply wp_aset; [upd; by eapply lget_range|]. wp_pures.
  rewrite length_app, <-app_assoc, Nat.add_1_r in *. exact HQ.
Qed.

(** ** Enter *)

Definition empty_line : line := mk_line [] [].

(** The terminals' state after terminal [t] delivered [bs]. *)
Definition delivered (t : Z) (bs row : list Z) (k : term_t) : term_t :=
  set return_switch (<[Z.to_nat t := 0]>)
    (set read_buffer (<[Z.to_nat t := bs ++ drop (length bs) row]>) k).

(** The history of [k'] is the one of [k], with the line if it is not empty. *)
Definition remembered (pid base size : Z) (l : line) (k k' : kbd_t) : Prop :=
  match line_text l with
  | [] => k' = k
  | _ => pushed pid base size (line_row l) k k'
  end.

(** What Enter does to the terminals' state: the reader that waits gets the
    line, and nothing happens to it without a reader. *)
Definition answers (t : Z) (l : line) (f : term_t -> term_t) s : Prop :=
  (exists row, reader_waits t row s /\ f = delivered t (line_text l ++ [10]) row) \/
  (exists v, lget (return_switch (s_term s)) t = Some v /\ v <> SWITCH_ON /\
     f = (fun k => k)).

Lemma answers_term t l f s s' : s_term s' = s_term s -> answers t l f s -> answers t l f s'.
Proof.
  intros E [(row & [] & ->)|(v & Hv & Hne & ->)]; [left|right].
  - exists row. split; [|done]. constructor; by rewrite ?E.
  - exists v. by rewrite E.
Qed.

Lemma answers_current t l f s k :
  answers t l f s -> current_terminal (f k) = current_terminal k.
Proof. by intros [(row & _ & ->)|(v & _ & _ & ->)]. Qed.

(** [terminal_return] answers the reader or moves to the next line. *)
Lemma wp_terminal_return_answers t l f pv s (Q : unit -> kstate -> Prop) :
  current_terminal (s_term s) = t -> answers t l f s -> video_at s pv -> cursor_ok s ->
  lget (buffer (s_kbd s)) t =
    Some (line_text l ++ 10 :: replicate (127 - length (line_text l)) 0) ->
  line_size l <= 127 -> Forall char_ok (line_text l) -> plain l ->
  (forall s', draws (set s_term f s) s' -> cursor_ok s' -> Q tt s') ->
  wp terminal_return Q s.
Proof.
  intros Ht Ha Hv Hc Hrow Hsz Hok Hpl HQ. destruct Ha as [(row & Hrw & ->)|(v & Hsw & Hne & ->)].
  - eapply wp_terminal_return; try done.
    apply HQ; [|by eapply cursor_ok_scr; [|exact Hc]].
    constructor; unfold delivered; upd; try done.
    by rewrite length_app, Nat.add_1_r, <-app_assoc.
  - replace (set s_term (fun k => k) s) with s in HQ by (by destruct s).
    unfold terminal_return, get_current_terminal. wp_pures. rewrite Ht.
    eapply wp_aget_Some; [exact Hsw|]. rewrite (proj2 (Z.eqb_neq _ _)) by done.
    destruct (v =? SWITCH_OFF); [|wp_pures; by apply HQ]. wp_pure.
    eapply (wp_next_line _ pv); [done|apply Hc|]. intros s1 D1 X1 Y1 _.
    eapply wp_quiet; [apply quietly_cursor_update|]. intros [] s2 [D2 E2 _ _].
    pose proof (cursor_row _ Hc).
    apply HQ; [by transitivity s1|constructor; unfold pos; rewrite E2; lia].
Qed.

Lemma wp_key_enter t pv l pid base size f s (Q : unit -> kstate -> Prop) :
  editing t pv l s -> plain l -> answers t l f s ->
  history_ready t pid base size s ->
  (forall k' s', remembered pid base size l (s_kbd s) k' ->
    draws (set s_kbd (fun _ => with_line t empty_line k') (set s_term f s)) s' ->
    cursor_ok s' -> Q tt s') ->
  wp key_enter Q s.
Proof.
  intros E Hpl Ha Hh HQ. unfold key_enter, get_current_terminal. wp_pures.
  rewrite (ed_term _ _ _ _ E). pose proof (line_row_length l (ed_max _ _ _ _ E)) as Hlen.
  pose proof (line_index_size l). pose proof (ed_max _ _ _ _ E) as Hmax.
  destruct (lget_Some (line_row l) 0) as [c Hc]; [lia|].
  eapply wp_get_buffer; [apply E|exact Hc|].
  (* what follows the history *)
  assert (Hrest : forall k', remembered pid base size l (s_kbd s) k' ->
    buffer k' = buffer (s_kbd s) -> bufferIDX k' = bufferIDX (s_kbd s) ->
    bufferSIZE k' = bufferSIZE (s_kbd s) ->
    wp (sz <- get_size t ;; put_buffer t sz 10 ;; terminal_return ;; clear_keyboard_buffer)
      Q (set s_kbd (fun _ => k') s)).
  { intros k' Hk' Eb Ei Es. wp_pure.
    eapply wp_get_size; [upd; rewrite Es; apply E|]. wp_pure.
    eapply wp_put_buffer; [upd; rewrite Eb; apply E|lia|].
    rewrite newline_row by done. wp_pure.
    pose proof (lget_range _ _ _ (ed_buffer _ _ _ _ E)).
    eapply (wp_terminal_return_answers t l f pv).
    - apply E.
    - eapply answers_term; [|exact Ha]. done.
    - exact (ed_video _ _ _ _ E).
    - by eapply cursor_ok_scr; [|apply E].
    - apply with_row_get. upd. by rewrite Eb.
    - done.
    - apply E.
    - done.
    - intros s2 D2 C2. pose proof (draws_term _ _ D2) as T2. upd_in T2.
      eapply (wp_clear_keyboard_buffer _ t).
      + rewrite T2. change (s_term (with_row _ _ _)) with (s_term s).
        rewrite (answers_current _ _ _ _ _ Ha). apply E.
      + rewrite (draws_buffer _ _ D2). upd. apply with_row_get. upd. by rewrite Eb.
      + rewrite length_app. cbn [length]. rewrite length_replicate.
        unfold line_size in *. lia.
      + rewrite (draws_index _ _ D2). unfold with_row. upd. rewrite Ei. eapply lget_range, E.
      + rewrite (draws_size _ _ D2). unfold with_row. upd. rewrite Es. eapply lget_range, E.
      + apply (HQ k'); [done| |by eapply cursor_ok_scr; [|exact C2]].
        destruct D2. unfold with_row in *.
        repeat match goal with H : _ = _ |- _ => progress upd_in H end.
        constructor; upd; try done.
        pose proof (f_equal (with_line t empty_line) draws_kbd) as K.
        etransitivity; [exact K|]. apply kbd_ext; unfold with_line; upd; try done.
        by rewrite list_insert_insert_eq. }
  destruct (line_text l) as [|c0 u] eqn:Hu.
  - assert (c = 0) as ->.
    { rewrite lget_line_row in Hc by lia. unfold line_size, line_index, line_text in *.
      rewrite Hu in Hc. apply app_nil in Hu as [Hb _]. rewrite Hb in Hc. cbn in Hc. by injection Hc as <-. }
    wp_pures. replace s with (set s_kbd (fun _ => s_kbd s) s) by (by apply set_kbd_id).
    apply Hrest; try done. unfold remembered. by rewrite Hu.
  - (* a line with characters goes to the history *)
    assert (c <> 0) as Hc0.
    { unfold line_row in Hc. rewrite Hu in Hc. cbn in Hc. injection Hc as <-.
      pose proof (ed_chars _ _ _ _ E) as Hok. rewrite Hu in Hok.
      apply Forall_inv in Hok. destruct Hok. lia. }
    rewrite (proj2 (Z.eqb_neq c 0)) by done. cbn [negb]. wp_pures.
    eapply wp_copy_to_history; [exact E|done|exact Hh|].
    eapply wp_increment_history; [apply E|exact Hh|]. intros k' Hk'.
    pose proof (pu_same _ _ _ _ _ _ Hk') as Hs.
    apply Hrest; [unfold remembered; by rewrite Hu| | |].
    + exact (f_equal buffer Hs).
    + exact (f_equal bufferIDX Hs).
    + exact (f_equal bufferSIZE Hs).
Qed.

(** The Enter key as an interrupt. *)
Definition entered (t : Z) (l : line) (pid base size : Z) (f : term_t -> term_t) s s' : Prop :=
  exists k', remembered pid base size l (s_kbd s) k' /\
    draws (set s_kbd (fun _ => with_line t empty_line k') (set s_term f s)) s'.

Lemma editing_enter t pv l k' f s s' :
  editing t pv l s ->
  buffer k' = buffer (s_kbd s) -> bufferIDX k' = bufferIDX (s_kbd s) ->
  bufferSIZE k' = bufferSIZE (s_kbd s) ->
  current_terminal (f (s_term s)) = current_terminal (s_term s) ->
  draws (set s_kbd (fun _ => with_line t empty_line k') (set s_term f s)) s' -> cursor_ok s' ->
  editing t pv empty_line s'.
Proof.
  intros [Hterm Hb Hi Hz _ _ Hv _ _ _] Eb Ei Ez Ef D C.
  pose proof (lget_range _ _ _ Hb). pose proof (lget_range _ _ _ Hi).
  pose proof (lget_range _ _ _ Hz). pose proof (draws_term _ _ D) as T. upd_in T.
  constructor.
  - congruence.
  - rewrite (draws_buffer _ _ D). unfold with_line. upd.
    rewrite Eb, lget_insert by done. by rewrite decide_True.
  - rewrite (draws_index _ _ D). unfold with_line. upd.
    rewrite Ei, lget_insert by done. by rewrite decide_True.
  - rewrite (draws_size _ _ D). unfold with_line. upd.
    rewrite Ez, lget_insert by done. by rewrite decide_True.
  - done.
  - by constructor.
  - eapply video_at_draws; [exact D|exact Hv].
  - done.
  - pose proof (cursor_col _ C). cbn [empty_line after length]. lia.
  - pose proof (cursor_cell _ C). unfold line_index. cbn [empty_line before length]. lia.
Qed.

Lemma remembered_same pid base size l k k' :
  remembered pid base size l k k' ->
  set history (fun _ => history k) (set historyBASE (fun _ => historyBASE k)
    (set historyIDX (fun _ => historyIDX k) (set historySIZE (fun _ => historySIZE k) k'))) = k.
Proof.
  unfold remembered. destruct (line_text l); [intros ->; by apply kbd_ext|]. apply pu_same.
Qed.

Lemma history_ready_draws t pid base size s s' :
  draws s s' -> history_ready t pid base size s -> history_ready t pid base size s'.
Proof.
  intros D []. pose proof (draws_kbd _ _ D) as K.
  pose proof (f_equal history K) as K1. pose proof (f_equal historyBASE K) as K2.
  pose proof (f_equal historySIZE K) as K3. pose proof (f_equal historyIDX K) as K4.
  upd_in K1. upd_in K2. upd_in K3. upd_in K4.
  constructor; unfold hist_at; rewrite ?K1, ?K2, ?K3, ?K4, ?(draws_sched _ _ D); done.
Qed.

Lemma wp_enter_irq t e s pid base size f :
  typing t e s -> plain (ed_line e) -> answers t (ed_line e) f s ->
  history_ready t pid base size s ->
  wp (on_irq (IrqKey ENTER)) (fun _ s' =>
    typing t (with_ed_line empty_line e) s' /\
    entered t (ed_line e) pid base size f s s' /\
    eflags_if (s_hw s') = eflags_if (s_hw s)) s.
Proof.
  intros E Hpl Ha Hh. eapply wp_mono.
  { apply (wp_irq_key s ENTER (fun s2 => exists s1 k', quiet s s1 /\
      remembered pid base size (ed_line e) (s_kbd s) k' /\ cursor_ok s2 /\
      draws (set s_kbd (fun _ => with_line t empty_line k')
        (set s_term f (displayed s1))) s2)); [unfold ENTER; lia|].
    intros s1 oi es Q. unfold handle_keyboard_input. cbn -[key_enter]. wp_pures.
    assert (E1 : editing_ed t VIDEO e (displayed s1)).
    { eapply editing_ed_quiet; [by apply displayed_quiet|exact E]. }
    pose proof (quiet_kbd _ _ Q) as K. pose proof (quiet_draws _ _ Q) as D.
    eapply (wp_key_enter t VIDEO (ed_line e) pid base size f).
    - apply E1.
    - done.
    - eapply answers_term; [|exact Ha]. exact (draws_term _ _ D).
    - pose proof (history_ready_draws _ _ _ _ _ _ D Hh) as []. by constructor.
    - intros k' s2 Hk' D2 C2. exists s1, k'. split; [done|]. split; [|done].
      change (s_kbd (displayed s1)) with (s_kbd s1) in Hk'. by rewrite <-K. }
  cbv beta. intros _ s' (s1 & s2 & Q1 & (s1' & k' & Q1' & Hk' & C2 & D2) & Q3 & Hfl).
  pose proof (remembered_same _ _ _ _ _ _ Hk') as Hs. split; [|split]; [..|done].
  - refine (typing_back _ _ _ _ _ _ _ Q3); [|exact (draws_video _ _ D2)].
    assert (E1 : editing_ed t VIDEO e (displayed s1')).
    { eapply editing_ed_quiet; [by apply displayed_quiet|exact E]. }
    pose proof (quiet_kbd _ _ Q1') as K.
    destruct E1 as [E1 M1 M2 M3 M4]. change (s_kbd (displayed s1')) with (s_kbd s1') in *.
    rewrite K in M1, M2, M3, M4. pose proof (draws_kbd _ _ D2) as K2. upd_in K2.
    constructor; cbn [with_ed_line ed_line ed_shift ed_caps ed_ctrl ed_alt].
    + eapply (editing_enter t VIDEO); [exact E1|..|exact D2|exact C2].
      * change (s_kbd (displayed s1')) with (s_kbd s1'). rewrite K. exact (f_equal buffer Hs).
      * change (s_kbd (displayed s1')) with (s_kbd s1'). rewrite K. exact (f_equal bufferIDX Hs).
      * change (s_kbd (displayed s1')) with (s_kbd s1'). rewrite K. exact (f_equal bufferSIZE Hs).
      * by eapply answers_current.
    + rewrite <-M1. etransitivity; [exact (f_equal shift_down K2)|exact (f_equal shift_down Hs)].
    + rewrite <-M2. etransitivity; [exact (f_equal caps_lock K2)|exact (f_equal caps_lock Hs)].
    + rewrite <-M3. etransitivity; [exact (f_equal ctrl_down K2)|exact (f_equal ctrl_down Hs)].
    + rewrite <-M4. etransitivity; [exact (f_equal alt_down K2)|exact (f_equal alt_down Hs)].
  - exists k'. split; [done|].
    destruct Q1 as [D1 S1 _ _], Q1' as [D1' S1' _ _], Q3 as [D3 S3 _ _].
    destruct D1, D1', D2, D3. unfold displayed in *.
    repeat match goal with H : _ = _ |- _ => progress upd_in H end.
    constructor; upd; congruence.
Qed.

(** ** Waiting for Enter *)

Definition next_irq (rest : list irq) s : kstate := set s_hw (set pending (fun _ => rest)) s.

Lemma typing_next t e rest s : typing t e s -> typing t e (next_irq rest s).
Proof.
  intros [[? ? ? ? ? ? Hv Hc ? ?] ? ? ? ?].
  constructor; [constructor|..]; try done. by eapply cursor_ok_scr; [|exact Hc].
Qed.

Lemma spin_step fuel (cond : kstate -> bool) oi s ev rest (Q : unit -> kstate -> Prop) :
  cond s = true -> eflags_if (s_hw s) = true -> pending (s_hw s) = ev :: rest ->
  wp (oi ev ;; spin fuel cond oi) Q (next_irq rest s) ->
  wp (spin (S fuel) cond oi) Q s.
Proof.
  intros Hc Hf Hp HQ. cbn [spin]. wp_pures. rewrite Hc. wp_pures. rewrite Hf, Hp.
  unfold hw_set. wp_pure. wp_pure. exact HQ.
Qed.

Lemma spin_end fuel (cond : kstate -> bool) oi s (Q : unit -> kstate -> Prop) :
  cond s = false -> Q tt s -> wp (spin fuel cond oi) Q s.
Proof. intros Hc HQ. destruct fuel; cbn [spin]; wp_pures; rewrite Hc; exact HQ. Qed.

Lemma read_waits_on t row s : reader_waits t row s -> read_waits t s = true.
Proof. intros [Hs _ _]. unfold read_waits. by rewrite Hs. Qed.

(** What the reader finds after the keys and Enter. *)
Record line_read (t : Z) (e' : ed) (pid base : Z) (row : list Z) (rest : list irq) s s' : Prop := {
  lr_typing : typing t (with_ed_line empty_line e') s';
  lr_term : s_term s' = delivered t (line_text (ed_line e') ++ [10]) row (s_term s);
  lr_history : line_text (ed_line e') <> [] ->
    hist_at s' pid base = Some (line_row (ed_line e'));
  lr_proc : s_proc s' = s_proc s;
  lr_pag : s_pag s' = s_pag s;
  lr_sched : s_sched s' = s_sched s;
  lr_fs : s_fs s' = s_fs s;
  lr_video : video_mem (s_scr s') = video_mem (s_scr s);
  lr_if : eflags_if (s_hw s') = true;
  lr_pending : pending (s_hw s') = rest;
}.

Lemma reader_waits_term t row s s' :
  s_term s' = s_term s -> reader_waits t row s -> reader_waits t row s'.
Proof. intros E []. constructor; by rewrite ?E. Qed.

Lemma history_ready_ed t pid base size e s s' :
  set key_flag (fun _ => 0) (s_kbd s') = set key_flag (fun _ => 0) (with_ed t e (s_kbd s)) ->
  s_sched s' = s_sched s ->
  history_ready t pid base size s -> history_ready t pid base size s'.
Proof.
  intros K S [].
  pose proof (f_equal history K) as K1. pose proof (f_equal historyBASE K) as K2.
  pose proof (f_equal historySIZE K) as K3. pose proof (f_equal historyIDX K) as K4.
  unfold with_ed, with_line in *. upd_in K1. upd_in K2. upd_in K3. upd_in K4.
  constructor; unfold hist_at; rewrite ?K1, ?K2, ?K3, ?K4, ?S; done.
Qed.

Lemma wp_spin_enter t e s pid base size row rest fuel :
  typing t e s -> plain (ed_line e) -> reader_waits t row s ->
  history_ready t pid base size s -> eflags_if (s_hw s) = true ->
  pending (s_hw s) = IrqKey ENTER :: rest ->
  wp (spin (S fuel) (read_waits t) on_irq) (fun _ => line_read t e pid base row rest s) s.
Proof.
  intros E Hpl Hrw Hh Hif Hp.
  eapply spin_step; [by eapply read_waits_on|done|done|]. wp_pure.
  eapply wp_mono.
  { eapply (wp_enter_irq t e (next_irq rest s)); [by apply typing_next|done|..].
    - left. exists row. split; [|done]. eapply reader_waits_term; [|exact Hrw]. done.
    - destruct Hh. by constructor. }
  cbv beta. intros _ s' (T & (k' & Hk' & D) & Hfl). upd_in Hk'.
  pose proof (draws_term _ _ D) as HT. upd_in HT.
  change (s_term (next_irq rest s)) with (s_term s) in HT.
  apply spin_end.
  { unfold read_waits. rewrite HT. unfold delivered. upd.
    destruct Hrw as [Hsw _ _]. rewrite lget_insert by (by eapply lget_range).
    by rewrite decide_True. }
  constructor; try done.
  - intros Hne. unfold remembered in Hk'.
    destruct (line_text (ed_line e)) eqn:Hl; [done|].
    pose proof (f_equal history (draws_kbd _ _ D)) as K. unfold with_line in K. upd_in K.
    unfold hist_at. rewrite K. apply Hk'.
  - rewrite (draws_proc _ _ D). done.
  - rewrite (draws_pag _ _ D). done.
  - rewrite (draws_sched _ _ D). done.
  - rewrite (draws_fs _ _ D). done.
  - rewrite (draws_video _ _ D). done.
  - rewrite Hfl. exact Hif.
  - rewrite (draws_pending _ _ D). done.
Qed.

Lemma wp_spin_keys t keys e' pid base size row rest : forall e s fuel,
  typing t e s -> Forall (fun k => 0 <= k < 256) keys -> edit_keys keys e = Some e' ->
  plain (ed_line e') -> reader_waits t row s -> history_ready t pid base size s ->
  eflags_if (s_hw s) = true ->
  pending (s_hw s) = map IrqKey keys ++ IrqKey ENTER :: rest ->
  (length keys < fuel)%nat ->
  wp (spin fuel (read_waits t) on_irq) (fun _ => line_read t e' pid base row rest s) s.
Proof.
  induction keys as [|key keys IH]; intros e s fuel E Hks He Hpl Hrw Hh Hif Hp Hfuel;
    (destruct fuel as [|fuel]; [cbn in Hfuel; lia|]); cbn [edit_keys map app length] in *.
  - injection He as ->. by eapply wp_spin_enter.
  - apply Forall_cons in Hks as [Hk Hks].
    destruct (edit_key key e) as [e1|] eqn:H1; [|done]. cbn in He.
    eapply spin_step; [by eapply read_waits_on|done|exact Hp|]. wp_pure.
    eapply wp_mono; [by apply (wp_key_irq t e e1 (next_irq _ s)); [apply typing_next|..]|].
    cbv beta. intros _ s1 (T1 & D1 & F1).
    pose proof (draws_term _ _ D1) as HT. upd_in HT.
    eapply wp_mono; [apply (IH e1 s1 fuel); try done; try lia|].
    + by eapply reader_waits_term; [|exact Hrw].
    + eapply (history_ready_ed t pid base size e1 s); [| |done].
      * exact (draws_kbd _ _ D1).
      * exact (draws_sched _ _ D1).
    + by rewrite F1.
    + by rewrite (draws_pending _ _ D1).
    + cbv beta. intros _ s2 []. constructor; try done.
      * by rewrite lr_term0, HT.
      * by rewrite lr_proc0, (draws_proc _ _ D1).
      * by rewrite lr_pag0, (draws_pag _ _ D1).
      * by rewrite lr_sched0, (draws_sched _ _ D1).
      * by rewrite lr_fs0, (draws_fs _ _ D1).
      * by rewrite lr_video0, (draws_video _ _ D1).
Qed.

(** ** After the wait *)

(** The cursor moved to a place an empty line can have. *)
Lemma typing_cursor t e s s' :
  typing t (with_ed_line empty_line e) s ->
  current_terminal (s_term s') = current_terminal (s_term s) -> s_pag s' = s_pag s ->
  set key_flag (fun _ => 0) (s_kbd s') = set key_flag (fun _ => 0) (s_kbd s) ->
  screen_x (s_scr s') = 0 -> 0 <= screen_y (s_scr s') < 25 ->
  typing t (with_ed_line empty_line e) s'.
Proof.
  intros [[Hterm Hb Hi Hz _ _ Hv Hcur _ _] M1 M2 M3 M4] T G K X Y.
  change (s_kbd (displayed s)) with (s_kbd s) in *.
  change (s_term (displayed s)) with (s_term s) in *.
  pose proof (f_equal buffer K) as K1. pose proof (f_equal bufferIDX K) as K2.
  pose proof (f_equal bufferSIZE K) as K3. pose proof (f_equal shift_down K) as K4.
  pose proof (f_equal caps_lock K) as K5. pose proof (f_equal ctrl_down K) as K6.
  pose proof (f_equal alt_down K) as K7.
  upd_in K1. upd_in K2. upd_in K3. upd_in K4. upd_in K5. upd_in K6. upd_in K7.
  constructor; [constructor|..]; try (change (s_kbd (displayed s')) with (s_kbd s');
    congruence).
  - change (s_term (displayed s')) with (s_term s'). by rewrite T.
  - done.
  - by constructor.
  - eapply linear_pag; [|exact Hv]. unfold displayed. upd. exact G.
  - constructor; unfold pos, displayed; upd; lia.
  - unfold displayed. upd. cbn [with_ed_line ed_line empty_line after length]. lia.
  - unfold pos, displayed. upd. unfold line_index.
    cbn [with_ed_line ed_line empty_line before length]. lia.
Qed.

(** The array [read_buffer]: three rows of 128 bytes. *)
Definition rows_of_128 (b : list (list Z)) : Prop :=
  length b = 3%nat /\ Forall (fun r => length r = 128%nat) b.

Lemma length_concat_rows b : Forall (fun r : list Z => length r = 128%nat) b ->
  length (concat b) = (128 * length b)%nat.
Proof. induction 1 as [|r b Hr _ IH]; cbn; [done|]. rewrite length_app, Hr, IH. lia. Qed.

Lemma concat_insert b : forall i j r v,
  Forall (fun r : list Z => length r = 128%nat) b -> b !! i = Some r -> (j < 128)%nat ->
  concat (<[i := <[j := v]> r]> b) = <[(128 * i + j)%nat := v]> (concat b).
Proof.
  induction b as [|r0 b IH]; intros i j r v Hb Hi Hj; [done|].
  apply Forall_cons in Hb as [H0 Hb]. destruct i as [|i]; cbn [concat] in *.
  - injection Hi as ->. cbn [list_insert insert concat]. rewrite insert_app_l by lia.
    by replace (128 * 0 + j)%nat with j by lia.
  - change (<[S i := ?r']> (r0 :: b)) with (r0 :: <[i := r']> b). cbn [concat].
    rewrite (IH i j r v Hb Hi Hj), insert_app_r_alt by lia. do 2 f_equal. lia.
Qed.

Lemma drop_rows b : forall i r, Forall (fun r : list Z => length r = 128%nat) b ->
  b !! i = Some r -> drop (128 * i) (concat b) = r ++ concat (drop (S i) b).
Proof.
  induction b as [|r0 b IH]; intros i r Hb Hi; [done|].
  apply Forall_cons in Hb as [H0 Hb]. destruct i as [|i]; cbn [concat] in *.
  - by injection Hi as ->.
  - rewrite drop_app_ge by lia. replace (128 * S i - length r0)%nat with (128 * i)%nat by lia.
    by apply IH.
Qed.

Lemma bytes_from_row b t r : rows_of_128 b -> lget b t = Some r ->
  bytes_from b t = r ++ concat (drop (S (Z.to_nat t)) b) ++
    replicate (Z.to_nat unused_after_read_buffer) 0.
Proof.
  intros [_ Hb] Hr. pose proof (lget_range _ _ _ Hr). unfold bytes_from, lget in *.
  rewrite decide_True in Hr by lia. replace (Z.to_nat (MAX_BUFFER_SIZE * t))
    with (128 * Z.to_nat t)%nat by (unfold MAX_BUFFER_SIZE; lia).
  by rewrite (drop_rows _ _ _ Hb Hr), <-app_assoc.
Qed.

(** The terminator is a store at its offset from the row, wherever it lies. *)
Lemma wp_terminate_read t i b s (Q : unit -> kstate -> Prop) :
  read_buffer (s_term s) = b -> rows_of_128 b -> 0 <= t < 3 -> 0 <= i ->
  128 * t + i < 384 + unused_after_read_buffer ->
  (forall b', rows_of_128 b' ->
    bytes_from b' t = <[Z.to_nat i := 0]> (bytes_from b t) ->
    Q tt (set s_term (set read_buffer (fun _ => b')) s)) ->
  wp (terminate_read t i) Q s.
Proof.
  intros Eb [Hl Hb] Ht Hi Ha HQ. pose proof (length_concat_rows _ Hb) as Hc.
  unfold terminate_read. change (MAX_BUFFER_SIZE * NUM_TERMINALS) with 384.
  unfold MAX_BUFFER_SIZE. destruct (Z.leb_spec 384 (128 * t + i)) as [H|H]; cbn [andb].
  - rewrite (proj2 (Z.ltb_lt _ _)) by lia. apply wp_ret.
    replace s with (set s_term (set read_buffer (fun _ => b)) s) by (subst b; by destruct s as [? ? ? ? [] ? ? ? ? ? ?]).
    apply HQ; [by split|]. unfold bytes_from.
    rewrite insert_app_r_alt by (rewrite length_drop; unfold MAX_BUFFER_SIZE; lia). f_equal.
    by rewrite insert_replicate.
  - set (a := 128 * t + i) in *. assert (A : 0 <= a / 128 < 3) by divlia.
    destruct (lget_Some b (a / 128)) as [r Hr]; [lia|]. pose proof Hr as Hr'. unfold lget in Hr'.
    rewrite decide_True in Hr' by lia.
    assert (Hrl : length r = 128%nat).
    { rewrite Forall_forall in Hb. apply Hb. by eapply list_elem_of_lookup_2. }
    unfold put_read_buffer, term_set. wp_pures. rewrite Eb. eapply wp_of_opt.
    { unfold lset2. rewrite Hr. cbn. rewrite lset_Some by divlia. cbn. apply lset_Some. lia. }
    wp_pures. apply HQ.
    + split; [by rewrite length_insert|]. apply Forall_insert; [done|]. by rewrite length_insert.
    + unfold bytes_from. rewrite concat_insert by (done || divlia).
      replace (128 * Z.to_nat (a / 128) + Z.to_nat (a mod 128))%nat with (Z.to_nat a) by divlia.
      rewrite insert_app_l by (rewrite length_drop; unfold MAX_BUFFER_SIZE; lia). f_equal.
      rewrite drop_insert_ge by (unfold MAX_BUFFER_SIZE; lia). f_equal. unfold MAX_BUFFER_SIZE; lia.
Qed.

(** What a read of [nbytes] bytes stores: the line with its line feed if these
    fit, otherwise the line's beginning and a terminator. *)
Definition read_gets (u : list Z) (nbytes : Z) (bytes : list Z) : Prop :=
  length bytes = Z.to_nat nbytes /\
  (Z.of_nat (length u) + 1 < nbytes -> take (S (length u)) bytes = u ++ [10]) /\
  (nbytes <= Z.of_nat (length u) -> bytes = take (Z.to_nat (nbytes - 1)) u ++ [0]).

Lemma read_line u rest nbytes :
  Forall char_ok u -> Forall (fun c => c <> 10) u -> 1 <= nbytes < 2147483648 ->
  nbytes <> Z.of_nat (length u) + 1 -> nbytes <= Z.of_nat (length (u ++ 10 :: rest)) ->
  let row := <[Z.to_nat (nbytes - 1) := 0]> (u ++ 10 :: rest) in
  find_newline row = Some (Z.of_nat (length u)) /\
  exists bytes, strncpy (replicate (Z.to_nat nbytes) 0) row nbytes = Some bytes /\
    read_gets u nbytes bytes.
Proof.
  intros Hok Hpl Hn Hne Hlen row. rewrite length_app in Hlen. cbn [length] in Hlen.
  unfold strncpy. rewrite u32_small by lia.
  destruct (decide (Z.of_nat (length u) + 1 < nbytes)) as [Hbig|Hbig].
  - set (k := (Z.to_nat (nbytes - 1) - S (length u))%nat).
    assert (E : row = u ++ 10 :: <[k := 0]> rest).
    { unfold row. rewrite insert_app_r_alt by lia. f_equal.
      by replace (Z.to_nat (nbytes - 1) - length u)%nat with (S k) by lia. }
    rewrite E. split; [by apply find_newline_prefix|].
    destruct (strncpy_prefix (u ++ [10]) (Z.to_nat nbytes) (replicate (Z.to_nat nbytes) 0)
      (<[k := 0]> rest) (Z.of_nat k)) as (bytes & Hb & Htake & Hbl).
    { apply Forall_app. split; [|by apply Forall_singleton].
      eapply Forall_impl; [exact Hok|]. intros c [? ?]. lia. }
    { unfold lget. rewrite decide_True, Nat2Z.id by lia. apply list_lookup_insert_eq. lia. }
    { rewrite length_app. cbn [length]. lia. }
    { by rewrite length_replicate. }
    exists bytes. rewrite <-app_assoc in Hb. split; [exact Hb|].
    rewrite length_app, Nat.add_1_r in Htake. rewrite length_replicate in Hbl.
    split; [done|]. split; [done|lia].
  - set (k := Z.to_nat (nbytes - 1)) in *.
    assert (E : row = <[k := 0]> u ++ 10 :: rest) by (unfold row; by rewrite insert_app_l by lia).
    split.
    { rewrite E, find_newline_prefix by (by apply Forall_insert). by rewrite length_insert. }
    assert (C : cstring row (take k u)).
    { split; [apply Forall_take; eapply Forall_impl; [exact Hok|]; by intros c []|].
      exists (drop (S k) u ++ 10 :: rest). rewrite E, insert_take_drop by lia.
      by rewrite <-app_assoc. }
    eexists. split; [apply (strncpy_loop_cstring _ _ _ _ C); by rewrite length_replicate|].
    rewrite drop_replicate, Nat.sub_diag, length_take, take_take.
    replace (Z.to_nat nbytes `min` k)%nat with k by lia.
    replace (Z.to_nat nbytes - k `min` length u)%nat with 1%nat by lia. cbn [replicate app].
    split; [rewrite length_app, length_take; cbn [length]; lia|]. split; [lia|done].
Qed.

Lemma wp_terminal_read_finish t e pid base row rest s0 s nbytes pv
    (Q : Z * list Z -> kstate -> Prop) :
  line_read t e pid base row rest s0 s -> plain (ed_line e) ->
  Forall char_ok (line_text (ed_line e)) -> rows_of_128 (read_buffer (s_term s)) ->
  lget (read_buffer (s_term s)) t =
    Some (line_text (ed_line e) ++ 10 :: drop (S (length (line_text (ed_line e)))) row) ->
  video_at s pv -> 1 <= nbytes < 2147483648 -> nbytes <> line_size (ed_line e) + 1 ->
  128 * t + nbytes <= 384 + unused_after_read_buffer ->
  (forall bytes s', read_gets (line_text (ed_line e)) nbytes bytes ->
    typing t (with_ed_line empty_line e) s' ->
    set key_flag (fun _ => 0) (s_kbd s') = set key_flag (fun _ => 0) (s_kbd s) ->
    s_proc s' = s_proc s -> eflags_if (s_hw s') = true ->
    pending (s_hw s') = rest ->
    Q (line_size (ed_line e) + 1, bytes) s') ->
  wp (terminal_read_finish t nbytes) Q s.
Proof.
  intros L Hpl Hok Hrows Hrow Hv Hn Hne Hend HQ. set (u := line_text (ed_line e)) in *.
  pose proof (lget_range _ _ _ Hrow) as Ht. destruct Hrows as [Hl3 Hrows]. rewrite Hl3 in Ht.
  unfold terminal_read_finish. wp_pure. eapply wp_quiet; [apply quietly_cli|].
  intros _ s1 Q1. pose proof (quiet_draws _ _ Q1) as D1.
  pose proof (draws_term _ _ D1) as T1. wp_pure.
  apply (wp_terminate_read t (nbytes - 1) (read_buffer (s_term s)));
    [by rewrite T1|done|lia..|]. intros b' _ Eb'. wp_pures. upd. rewrite Eb'.
  rewrite (bytes_from_row _ t _ (conj Hl3 Hrows) Hrow), <-app_assoc. cbn [app].
  set (tail := drop _ row ++ _).
  destruct (read_line u tail nbytes) as (Hf & bytes & Hb & Hget); [done..| |].
  { pose proof (bytes_from_row _ t _ (conj Hl3 Hrows) Hrow) as B.
    rewrite <-app_assoc in B. cbn [app] in B. fold tail in B. rewrite <-B. unfold bytes_from.
    rewrite length_app, length_drop, length_replicate, (length_concat_rows _ Hrows), Hl3.
    unfold MAX_BUFFER_SIZE. lia. }
  cbv zeta in Hf, Hb. rewrite Hf. wp_pures. eapply wp_of_opt; [exact Hb|].
  wp_pure. pose proof (lr_typing _ _ _ _ _ _ _ _ L) as T.
  pose proof (ed_cursor _ _ _ _ (ee_line _ _ _ _ T)) as [Hc _ _].
  unfold displayed in Hc. upd_in Hc.
  match goal with |- wp _ _ ?s2_ => set (s2 := s2_) end.
  assert (E2 : s_scr s2 = s_scr s1 /\ s_pag s2 = s_pag s1) by done.
  destruct E2 as [E2 E2p]. pose proof (quiet_scr _ _ Q1) as S1.
  eapply (wp_next_line _ pv).
  { unfold video_at. rewrite E2, S1. eapply linear_pag; [|exact Hv].
    rewrite E2p. apply (draws_pag _ _ D1). }
  { by rewrite E2, S1. }
  intros s3 D3 X3 Y3 _. wp_pure.
  eapply wp_quiet; [apply quietly_cursor_update|]. intros _ s4 Q4. wp_pure.
  eapply wp_quiet; [apply quietly_send_eoi|]. intros _ s5 Q5.
  unfold sti, hw_set. wp_pures.
  destruct D1, D3, Q4 as [[] S4 _ _], Q5 as [[] S5 _ _].
  assert (HK : set key_flag (fun _ => 0) (s_kbd s5) = set key_flag (fun _ => 0) (s_kbd s)).
  { change (s_kbd s2) with (s_kbd s1) in *. congruence. }
  apply HQ; upd; try done.
  - eapply typing_cursor; [exact T|..]; upd.
    + assert (H5 : s_term s5 = s_term s2) by congruence.
      rewrite H5. change (current_terminal (s_term s2)) with (current_terminal (s_term s1)).
      by rewrite T1.
    + congruence.
    + exact HK.
    + congruence.
    + rewrite S5, S4, Y3, E2, S1. lia.
  - change (s_proc s2) with (s_proc s1) in *. congruence.
  - change (s_hw s2) with (s_hw s1) in *. rewrite <-(lr_pending _ _ _ _ _ _ _ _ L). congruence.
Qed.
End input.

(** ** Properties *)

Section properties.
Context {P : Platform}.
Implicit Types (s : kstate).

Lemma edit_key_chars t s e e' key :
  typing t e s -> 0 <= key < 256 -> edit_key key e = Some e' ->
  Forall char_ok (line_text (ed_line e')) /\ line_size (ed_line e') <= 127.
Proof.
  intros E Hk He. pose proof (wp_key_irq t e e' s key E Hk He) as H.
  apply wp_Ret in H as (_ & s' & _ & T & _). split; apply T.
Qed.

Lemma edit_keys_chars t s e e' keys :
  typing t e s -> Forall (fun k => 0 <= k < 256) keys -> edit_keys keys e = Some e' ->
  Forall char_ok (line_text (ed_line e')) /\ line_size (ed_line e') <= 127.
Proof.
  revert s e. induction keys as [|key keys IH]; intros s e E Hk He; cbn [edit_keys] in He.
  - injection He as <-. split; apply E.
  - apply Forall_cons in Hk as [Hk Hks].
    destruct (edit_key key e) as [e1|] eqn:H1; [|done]. cbn in He.
    pose proof (wp_key_irq t e e1 s key E Hk H1) as H.
    apply wp_Ret in H as (_ & s' & _ & T & _). by eapply IH.
Qed.

(** C2: a program that reads from the terminal gets the line that is typed.
    [terminal_read] waits while the keys arrive as interrupts; when Enter
    comes it returns the number of characters the abstract editor has, plus
    one. A read of more bytes than that stores the line and a line feed first,
    a read of fewer bytes than the line has stores its beginning and a
    terminator (the result still counts the whole line). The editor is then
    empty again, ready for the next line, and the line is in the history of the
    displayed process. The number of bytes is at least 1, not exactly the
    line's and one (the terminator then overwrites the line feed, and the
    search runs on into what the row held before), and such that the
    terminator the code stores at [nbytes - 1] of the row stays in
    [read_buffer] or in the unused bytes behind it, as for the 1023 bytes the
    shell, hello and counter ask for. *)
Theorem terminal_read_returns_line t e e' s keys rest pid base size row fd nbytes pv :
  typing t e s -> Forall (fun k => 0 <= k < 256) keys -> edit_keys keys e = Some e' ->
  plain (ed_line e') -> current_process (s_sched s) = t ->
  0 <= t < Z.of_nat (length (return_switch (s_term s))) ->
  rows_of_128 (read_buffer (s_term s)) -> lget (read_buffer (s_term s)) t = Some row ->
  history_ready t pid base size s -> video_at s pv ->
  pending (s_hw s) = map IrqKey keys ++ IrqKey ENTER :: rest ->
  1 <= nbytes < 2147483648 -> nbytes <> line_size (ed_line e') + 1 ->
  128 * t + nbytes <= 384 + unused_after_read_buffer ->
  wp (terminal_read on_irq fd nbytes) (fun r s' =>
    fst r = line_size (ed_line e') + 1 /\
    read_gets (line_text (ed_line e')) nbytes (snd r) /\
    typing t (with_ed_line empty_line e') s' /\
    (line_text (ed_line e') <> [] -> hist_at s' pid base = Some (line_row (ed_line e'))) /\
    s_proc s' = s_proc s /\ pending (s_hw s') = rest) s.
Proof.
  intros E Hks He Hpl Hcp Ht [Hl3 Hrows] Hrow Hh Hv Hp Hn Hne Hend.
  pose proof (lget_range _ _ _ Hrow) as Hrt.
  assert (Hlen : length row = 128%nat).
  { unfold lget in Hrow. rewrite decide_True in Hrow by lia. rewrite Forall_forall in Hrows.
    apply Hrows. by eapply list_elem_of_lookup_2. }
  destruct (edit_keys_chars t s e e' keys E Hks He) as [Hok _].
  unfold terminal_read. rewrite (proj2 (Z.ltb_ge nbytes 1)) by lia.
  unfold get_current_process, put_return_switch, term_set, sti, hw_set, spin_while.
  wp_pures. rewrite Hcp. apply wp_aset; [done|]. wp_pures. upd.
  match goal with |- wp _ _ ?s1_ => set (s1 := s1_) end.
  eapply wp_mono.
  { apply (wp_spin_keys t keys e' pid base size row rest e s1); try done.
    - destruct E as [[? ? ? ? ? ? Hv0 Hc ? ?] ? ? ? ?].
      constructor; [constructor|..]; try done. by eapply cursor_ok_scr; [|exact Hc].
    - constructor; [|done|done]. unfold s1. upd. rewrite lget_insert by done.
      by rewrite decide_True.
    - destruct Hh. by constructor.
    - rewrite Hp, length_app, length_map. cbn [length]. lia. }
  cbv beta. intros _ s2 L. pose proof (lr_term _ _ _ _ _ _ _ _ L) as HT.
  assert (Hb2 : read_buffer (s_term s2) = <[Z.to_nat t :=
      (line_text (ed_line e') ++ [10]) ++
        drop (length (line_text (ed_line e') ++ [10])) row]> (read_buffer (s_term s))).
  { rewrite HT. unfold delivered. upd. done. }
  eapply (wp_terminal_read_finish t e' pid base row rest s1 s2 nbytes pv); try done.
  - rewrite Hb2. split; [by rewrite length_insert|]. apply Forall_insert; [done|].
    rewrite length_app, length_drop. unfold line_size in *.
    destruct (edit_keys_chars t s e e' keys E Hks He) as [_ Hsz]. unfold line_size in Hsz.
    rewrite length_app. cbn [length]. lia.
  - rewrite Hb2, lget_insert, decide_True by done.
    rewrite length_app, Nat.add_1_r, <-app_assoc. done.
  - unfold video_at. rewrite (lr_video _ _ _ _ _ _ _ _ L). unfold s1. upd.
    eapply linear_pag; [exact (lr_pag _ _ _ _ _ _ _ _ L)|]. exact Hv.
  - intros bytes s3 H1 H3 H4 H5 H6 H7. cbn [fst snd]. split; [done|].
    split; [done|]. split; [done|]. split; [|split; [|done]].
    + intros Hne'. rewrite <-(lr_history _ _ _ _ _ _ _ _ L Hne'). unfold hist_at.
      pose proof (f_equal history H4) as K. upd_in K. by rewrite K.
    + by rewrite H5, (lr_proc _ _ _ _ _ _ _ _ L).
Qed.
End properties.

(** A machine whose shell, process 1, reads a line on terminal 0. *)
Definition reading_state : kstate :=
  set s_sched (set schedule_top (fun _ => [1; 0; 0]))
    (set s_sched (set schedule_stack (fun _ => [[1; 0; 0; 0; 0; 0; 0];
        replicate 7 0; replicate 7 0]))
      (set s_hw (set pending (fun _ => [IrqKey 0x26; IrqKey 0x1F; IrqKey ENTER; IrqRtc]))
        zero_state)).

(** The shell's read of 1023 bytes: "ls", Enter. *)
Lemma terminal_read_returns_line_witness :
  wp (terminal_read on_irq 0 1023) (fun r s' =>
    fst r = 3 /\ take 3 (snd r) = [108; 115; 10] /\ pending (s_hw s') = [IrqRtc])
    reading_state.
Proof.
  eapply wp_mono.
  - eapply (terminal_read_returns_line 0 empty_ed
      (mk_ed false false false false (mk_line [108; 115] [])) reading_state [0x26; 0x1F] [IrqRtc]
      1 0 0 (replicate 128 0) 0 1023 0).
    + destruct zero_typing as [[]]. constructor; [constructor|..]; done.
    + repeat constructor; lia.
    + vm_compute. reflexivity.
    + repeat constructor; lia.
    + reflexivity.
    + done.
    + split; [reflexivity|]. by repeat constructor.
    + reflexivity.
    + constructor; [by exists 1|reflexivity|lia|reflexivity|by eexists|].
      exists (replicate 128 0). done.
    + split; [done|]. intros o Ho. unfold phys.
      change (paging_on (s_pag reading_state)) with false. cbv iota.
      rewrite u32_small by (change (video_mem (s_scr reading_state)) with 0; lia). done.
    + reflexivity.
    + lia.
    + by vm_compute.
    + by vm_compute.
  - cbv beta. intros r s' (H1 & (_ & H2 & _) & _ & _ & _ & H6).
    split; [exact H1|]. split; [apply H2; by vm_compute|exact H6].
Defined.
