(* ===== verification/HistorySpec.v ===== *)
(** * The history of a terminal: recalling lines with the arrows

    The abstract history is a list of entered lines and a place in it; the
    driver keeps it in a ring of rows, with the line that is being typed in
    the row at the base of the ring. *)
From S2P Require Import Prelude State Monad Logic Screen ScreenSpec Pic Proc Terminal TerminalSpec Keyboard EditorSpec Interrupts Syscalls Kernel Demo KeyboardSpec InputSpec.

(** A line with the cursor at its end. *)
Definition whole (b : list Z) : line := mk_line b [].

Lemma whole_text b : line_text (whole b) = b.
Proof. apply app_nil_r. Qed.
Lemma whole_size b : line_size (whole b) = Z.of_nat (length b).
Proof. unfold line_size. by rewrite whole_text. Qed.
Lemma line_row_text l l' : line_text l = line_text l' -> line_row l = line_row l'.
Proof. unfold line_row. by intros ->. Qed.

(** A line that the history may hold. *)
Record entry_ok (b : list Z) : Prop := {
  eo_length : (length b <= 127)%nat;
  eo_chars : Forall char_ok b;
  eo_plain : Forall (fun c => c <> 10) b;
}.

Section recall.
Context {P : Platform}.
Implicit Types (s : kstate).

(** ** Replacing the line *)

(** The cursor goes back to where the line began. *)
Lemma wp_reset_input t pv l s (Q : unit -> kstate -> Prop) :
  editing t pv l s ->
  (forall s', draws s s' -> cursor_ok s' -> pos s' = pos s - line_index l ->
    (one_row l s -> screen_x (s_scr s') = screen_x (s_scr s) - line_index l) -> Q tt s') ->
  wp (reset_terminal_keyboard_input (line_index l) (line_size l)) Q s.
Proof.
  intros E HQ. pose proof (line_size_after l) as Hsz. pose proof (line_index_size l).
  pose proof (ed_right _ _ _ _ E). pose proof (ed_left _ _ _ _ E).
  pose proof (ed_cursor _ _ _ _ E) as Hc. pose proof (cursor_row _ Hc).
  unfold reset_terminal_keyboard_input. wp_pure.
  apply wp_cursor_update_right. intros s1 D1 X1 Y1 _ _.
  eapply wp_mono.
  { apply (wp_for_up _ _ _ (fun i s' => draws s s' /\ cursor_ok s' /\
      pos s' = pos s - line_index l + line_size l - i /\
      (one_row l s ->
        screen_x (s_scr s') = screen_x (s_scr s) - line_index l + line_size l - i)));
      [lia| |].
    - split; [done|]. split; [constructor|]; unfold pos in *; lia.
    - intros i s' Hi (D & C & Hp & Hx).
      apply (wp_terminal_backspace _ pv); [|done|lia|].
      + eapply video_at_draws; [exact D|exact (ed_video _ _ _ _ E)].
      + intros s2 D2 C2 P2 X2 _. split; [by transitivity s'|]. split; [done|].
        split; [lia|]. intros Hrow. specialize (Hx Hrow). unfold one_row in Hrow.
        rewrite (proj2 (Z.eqb_neq _ _)) in X2 by lia. lia. }
  cbv beta. intros [] s' (D & C & Hp & Hx). apply HQ; [done|done|lia|].
  intros Hrow. specialize (Hx Hrow). lia.
Qed.

Lemma wp_get_historyIDX s pid v (Q : Z -> kstate -> Prop) :
  lget (historyIDX (s_kbd s)) pid = Some v -> Q v s -> wp (get_historyIDX pid) Q s.
Proof. intros Hv HQ. unfold get_historyIDX, get_kbd. wp_pures. by eapply wp_aget_Some. Qed.

Lemma wp_get_history s pid j i r v (Q : Z -> kstate -> Prop) :
  hist_at s pid j = Some r -> lget r i = Some v -> Q v s -> wp (get_history pid j i) Q s.
Proof.
  intros H Hv HQ. unfold get_history, get_kbd, hist_at in *. wp_pures.
  destruct (lget (history (s_kbd s)) pid) as [h|] eqn:Hh; [|done]. cbn in H.
  eapply wp_aget_Some; [done|]. eapply wp_of_opt; [|exact HQ].
  unfold lget2. by rewrite H.
Qed.

(** The row of the first [n + 1] characters. *)
Lemma line_row_snoc u c :
  (length u < 128)%nat ->
  <[length u := c]> (line_row (whole u)) = line_row (whole (u ++ [c])).
Proof.
  intros Hu. unfold line_row. rewrite !whole_text, length_app. cbn [length].
  rewrite insert_app_r_alt, Nat.sub_diag by lia.
  replace (128 - length u)%nat with (S (128 - (length u + 1))) by lia.
  cbn [replicate]. rewrite <-app_assoc. done.
Qed.

Lemma with_line_step s t u c :
  0 <= t < Z.of_nat (length (buffer (s_kbd s))) ->
  0 <= t < Z.of_nat (length (bufferIDX (s_kbd s))) ->
  0 <= t < Z.of_nat (length (bufferSIZE (s_kbd s))) -> (length u < 127)%nat ->
  forall (k : M unit) (Q : unit -> kstate -> Prop),
  wp k Q (set s_kbd (with_line t (whole (u ++ [c]))) s) ->
  wp (put_buffer t (Z.of_nat (length u)) c ;;
      idx <- get_idx t ;; put_idx t (idx + 1) ;;
      sz <- get_size t ;; put_size t (sz + 1) ;; k) Q
    (set s_kbd (with_line t (whole u)) s).
Proof.
  intros Hb Hi Hz Hu k Q HQ. wp_pure. eapply wp_put_buffer.
  { unfold with_line. upd. rewrite lget_insert by done. by rewrite decide_True. }
  { rewrite line_row_length by (rewrite whole_size; lia). lia. }
  rewrite Nat2Z.id, line_row_snoc by lia. unfold with_row. wp_pure.
  eapply wp_get_idx.
  { unfold with_line. upd. rewrite lget_insert by done. by rewrite decide_True. }
  unfold line_index. cbn [whole before]. wp_pure.
  apply wp_put_idx; [unfold with_line; upd; by rewrite length_insert|lia|]. wp_pure.
  eapply wp_get_size.
  { unfold with_line. upd. rewrite lget_insert by done. by rewrite decide_True. }
  rewrite whole_size. wp_pure.
  apply wp_put_size; [unfold with_line; upd; by rewrite length_insert|lia|].
  match goal with |- wp _ _ ?s1 =>
    replace s1 with (set s_kbd (with_line t (whole (u ++ [c]))) s); [exact HQ|] end.
  apply kstate_ext; upd; try done.
  apply kbd_ext; unfold with_line; upd; try done; rewrite list_insert_insert_eq.
  - done.
  - f_equal. unfold line_index. cbn [whole before]. rewrite length_app. cbn [length]. lia.
  - f_equal. rewrite whole_size, length_app. cbn [length]. lia.
Qed.

(** The loop copies the row up to its first zero. *)
Lemma wp_copy_from_history t pid j b s : forall u v n (Q : unit -> kstate -> Prop),
  current_terminal (s_term s) = t -> 0 <= t < Z.of_nat (length (buffer (s_kbd s))) ->
  0 <= t < Z.of_nat (length (bufferIDX (s_kbd s))) ->
  0 <= t < Z.of_nat (length (bufferSIZE (s_kbd s))) ->
  lget (historyIDX (s_kbd s)) pid = Some j ->
  hist_at s pid j = Some (line_row (whole b)) -> entry_ok b ->
  b = u ++ v -> (length v < n)%nat ->
  Q tt (set s_kbd (with_line t (whole b)) s) ->
  wp (copy_from_history n (Z.of_nat (length u)) pid) Q (set s_kbd (with_line t (whole u)) s).
Proof.
  intros u v. revert u. induction v as [|c v IH];
    intros u n Q Ht Hb Hi Hz Hj Hr Hok Huv Hn HQ;
    (destruct n as [|n]; [cbn in Hn; lia|]); cbn [copy_from_history];
    pose proof (eo_length _ Hok) as Hlen; wp_pure;
    (eapply wp_get_historyIDX; [exact Hj|]); wp_pure.
  - rewrite app_nil_r in Huv. subst u.
    eapply wp_get_history; [exact Hr| |].
    { unfold line_row. rewrite whole_text, lget_app, decide_False by lia.
      rewrite Z.sub_diag. by rewrite lget_replicate by lia. }
    cbn [Z.eqb orb]. wp_pures. exact HQ.
  - pose proof (eo_chars _ Hok) as Hch. pose proof (eo_plain _ Hok) as Hpl.
    rewrite Huv, length_app in Hlen. cbn [length] in *. rewrite Huv in Hch, Hpl.
    eapply wp_get_history; [exact Hr| |].
    { unfold line_row. rewrite whole_text, Huv, <-app_assoc.
      rewrite lget_app, decide_False, Z.sub_diag by lia. reflexivity. }
    apply Forall_app in Hch as [_ Hc], Hpl as [_ Hp]. apply Forall_inv in Hc, Hp.
    destruct Hc as [Hc _].
    rewrite (proj2 (Z.eqb_neq c 0)), (proj2 (Z.eqb_neq c 10)) by lia. cbn [orb].
    unfold get_current_terminal. wp_pure. wp_pure. upd. rewrite Ht.
    apply with_line_step; [done..|lia|].
    replace (Z.of_nat (length u) + 1) with (Z.of_nat (length (u ++ [c])))
      by (rewrite length_app; cbn [length]; lia).
    apply IH; try done; [|lia]. by rewrite Huv, <-app_assoc.
Qed.
(** The line is replaced by the entry, the cursor at its end; on the screen
    the entry stands where the line began. *)
Lemma wp_show_history t pv l pid j b s :
  editing t pv l s -> lget (historyIDX (s_kbd s)) pid = Some j ->
  hist_at s pid j = Some (line_row (whole b)) -> entry_ok b ->
  wp (show_history pid) (fun _ s' =>
    draws (set s_kbd (with_line t (whole b)) s) s' /\ editing t pv (whole b) s' /\
    (one_row l s -> screen_x (s_scr s) - line_index l + Z.of_nat (length b) <= 79 ->
      pos s' = pos s - line_index l + Z.of_nat (length b) /\
      exists m, s_mem s' = put_text m pv (pos s - line_index l) b)) s.
Proof.
  intros E Hj Hr Hok. pose proof (lget_range _ _ _ (ed_buffer _ _ _ _ E)) as Hb.
  pose proof (lget_range _ _ _ (ed_index _ _ _ _ E)) as Hi.
  pose proof (lget_range _ _ _ (ed_size _ _ _ _ E)) as Hz.
  pose proof (eo_length _ Hok) as Hlen. pose proof (ed_left _ _ _ _ E).
  unfold show_history, get_current_terminal. wp_pures. rewrite (ed_term _ _ _ _ E).
  eapply wp_get_idx; [apply E|]. wp_pure. eapply wp_get_size; [apply E|]. wp_pure.
  eapply (wp_reset_input t pv l); [exact E|]. intros s1 D1 C1 P1 X1. wp_pure.
  pose proof (draws_kbd _ _ D1) as K1.
  eapply (wp_clear_keyboard_buffer _ t).
  { rewrite (draws_term _ _ D1). apply E. }
  { rewrite (draws_buffer _ _ D1). apply E. }
  { apply line_row_length, E. }
  { by rewrite (draws_index _ _ D1). }
  { by rewrite (draws_size _ _ D1). }
  wp_pure. change (mk_line [] []) with (whole []).
  apply (wp_copy_from_history t pid j b s1 [] b); try done.
  { rewrite (draws_term _ _ D1). apply E. }
  { by rewrite (draws_buffer _ _ D1). }
  { by rewrite (draws_index _ _ D1). }
  { by rewrite (draws_size _ _ D1). }
  { by rewrite (f_equal historyIDX K1 : historyIDX (s_kbd s1) = historyIDX (s_kbd s)). }
  { unfold hist_at. by rewrite (f_equal history K1 : history (s_kbd s1) = history (s_kbd s)). }
  { unfold MAX_BUFFER_SIZE. lia. }
  set (s2 := set s_kbd (with_line t (whole b)) s1).
  assert (D2 : draws (set s_kbd (with_line t (whole b)) s) s2).
  { destruct D1. unfold s2. constructor; upd; try done.
    exact (f_equal (with_line t (whole b)) K1). }
  assert (C2 : cursor_ok s2) by (by eapply cursor_ok_scr; [|exact C1]).
  assert (Hpos2 : pos s2 = pos s - line_index l) by exact P1.
  assert (Hfin : forall s', draws s2 s' -> cursor_ok s' ->
    Z.min (pos s2 + Z.of_nat (length b)) 1920 <= pos s' -> editing t pv (whole b) s').
  { intros s' D C Hp. eapply editing_draws; [exact E|by etransitivity| | |exact C| |].
    - rewrite whole_size. lia.
    - rewrite whole_text. apply Hok.
    - pose proof (cursor_col _ C). cbn [whole after length]. lia.
    - unfold line_index. cbn [whole before]. lia. }
  assert (V2 : video_at s2 pv).
  { eapply video_at_draws; [exact D2|]. exact (ed_video _ _ _ _ E). }
  assert (T2 : current_terminal (s_term s2) = t).
  { change (s_term s2) with (s_term s1). rewrite (draws_term _ _ D1). apply E. }
  assert (B2 : lget (buffer (s_kbd s2)) t = Some (line_row (whole b))).
  { unfold s2, with_line. upd. rewrite (draws_buffer _ _ D1), lget_insert by done.
    by rewrite decide_True. }
  assert (Z2 : lget (bufferSIZE (s_kbd s2)) t = Some (Z.of_nat (length b))).
  { unfold s2, with_line. upd. rewrite (draws_size _ _ D1), lget_insert by done.
    by rewrite decide_True, whole_size. }
  wp_pure. wp_pure. rewrite T2. wp_pure. eapply wp_buffer_from; [exact B2|]. wp_pure.
  eapply wp_get_size; [exact Z2|]. wp_pure.
  destruct b as [|c b'] eqn:Hbb.
  - unfold terminal_write. cbn [length Z.of_nat Z.ltb Z.compare]. wp_pures.
    split; [done|]. split; [apply Hfin; [done|done|cbn [length]; lia]|].
    intros _ _. cbn [length]. split; [lia|]. by exists (s_mem s2).
  - rewrite <-Hbb in *. assert (Hne : (1 <= length b)%nat) by (rewrite Hbb; cbn [length]; lia).
    change (drop (Z.to_nat 0) ?r) with r.
    eapply (wp_terminal_write _ pv); [done|done| | |].
    { rewrite line_row_length by (rewrite whole_size; lia). lia. }
    { apply char_ok_not_13. rewrite whole_text. apply Hok. }
    unfold line_row. rewrite Nat2Z.id, whole_text, take_app_length.
    intros s3 (D3 & C3 & P3 & W3). wp_pures.
    split; [by transitivity s2|]. split; [by apply Hfin|].
    intros Hrow Hfit. specialize (X1 Hrow). unfold one_row in Hrow.
    change (s_scr s2) with (s_scr s1) in W3.
    destruct W3 as (W1 & W2 & W3); [apply Hok|lia|lia|].
    change (pos s2) with (pos s1) in W3. rewrite P1 in W3.
    split; [unfold pos in *; lia|]. by exists (s_mem s2).
Qed.
End recall.
