(* ===== verification/HistoryProps.v ===== *)
(** * The arrows give back the entered lines *)
From S2P Require Import Prelude State Monad Logic Screen ScreenSpec Pic Proc Terminal TerminalSpec Keyboard EditorSpec Interrupts Syscalls Kernel Demo KeyboardSpec InputSpec HistorySpec.

(** ** The abstract history *)

(** [past] holds the entered lines, the latest first; [place] is how far back
    the arrows have gone, and [draft] the line that was being typed when they
    began. *)
Record hist := mk_hist { past : list (list Z); place : nat; draft : list Z }.

Definition HISTORY_DEPTH : nat := 19.

Definition recall_up (x : ed * hist) : ed * hist :=
  let '(e, h) := x in
  match past h !! place h with
  | None => x
  | Some b =>
      (with_ed_line (whole b) e,
       mk_hist (past h) (S (place h))
         (match place h with O => line_text (ed_line e) | S _ => draft h end))
  end.

Definition recall_down (x : ed * hist) : ed * hist :=
  let '(e, h) := x in
  match place h with
  | O => x
  | S O => (with_ed_line (whole (draft h)) e, mk_hist (past h) 0 [])
  | S (S k) =>
      (with_ed_line (whole (default [] (past h !! k))) e, mk_hist (past h) (S k) (draft h))
  end.

Definition recall_enter (x : ed * hist) : ed * hist :=
  let '(e, h) := x in
  (with_ed_line empty_line e,
   match line_text (ed_line e) with
   | [] => h
   | b => mk_hist (take HISTORY_DEPTH (b :: past h)) 0 []
   end).

#[export] Instance plain_dec l : Decision (plain l).
Proof. unfold plain. apply _. Defined.

(** One key; [None] for the switches of the terminal, and for a line with a
    line feed in it. *)
Definition recall_key (key : Z) (x : ed * hist) : option (ed * hist) :=
  if bool_decide (plain (ed_line (fst x))) then
    if key =? UP_ARROW then Some (recall_up x)
    else if key =? DOWN_ARROW then Some (recall_down x)
    else if key =? ENTER then Some (recall_enter x)
    else e' ← edit_key key (fst x); Some (e', snd x)
  else None.

Fixpoint recall_keys (keys : list Z) (x : ed * hist) : option (ed * hist) :=
  match keys with
  | [] => Some x
  | k :: keys => x' ← recall_key k x; recall_keys keys x'
  end.

Section ring.
Context {P : Platform}.
Implicit Types (s : kstate).

(** ** The ring *)

(** The slots of the ring: [n] lines lie below the base. *)
Definition ring_size (base size n : Z) : Prop :=
  (size < 20 /\ base = size /\ n = size) \/ (size = 20 /\ n = 19).

Record ring (t pid base size : Z) (h : hist) s : Prop := {
  ri_ready : history_ready t pid base size s;
  ri_size : ring_size base size (Z.of_nat (length (past h)));
  ri_rows : forall j, 0 <= j < 20 -> exists r, hist_at s pid j = Some r /\ length r = 128%nat;
  ri_past : forall k b, past h !! k = Some b ->
    hist_at s pid ((base - 1 - Z.of_nat k) mod 20) = Some (line_row (whole b)) /\ entry_ok b;
  ri_place : (place h <= length (past h))%nat;
  ri_index : lget (historyIDX (s_kbd s)) pid = Some ((base - Z.of_nat (place h)) mod 20);
  ri_draft : (0 < place h)%nat ->
    hist_at s pid base = Some (line_row (whole (draft h))) /\ entry_ok (draft h);
}.

Definition recalls (t pid : Z) (h : hist) s : Prop := exists base size, ring t pid base size h s.

Definition same_history s s' : Prop :=
  history (s_kbd s') = history (s_kbd s) /\ historyBASE (s_kbd s') = historyBASE (s_kbd s) /\
  historyIDX (s_kbd s') = historyIDX (s_kbd s) /\
  historySIZE (s_kbd s') = historySIZE (s_kbd s) /\ s_sched s' = s_sched s.

Lemma ring_same t pid base size h s s' :
  same_history s s' -> ring t pid base size h s -> ring t pid base size h s'.
Proof.
  intros (H1 & H2 & H3 & H4 & H5) [[] ? ? ? ? ? ?].
  constructor; [constructor|..]; unfold hist_at in *; rewrite ?H1, ?H2, ?H3, ?H4, ?H5; done.
Qed.

Lemma same_history_draws f s s' :
  (forall k, history (f k) = history k /\ historyBASE (f k) = historyBASE k /\
    historyIDX (f k) = historyIDX k /\ historySIZE (f k) = historySIZE k) ->
  draws (set s_kbd f s) s' -> same_history s s'.
Proof.
  intros Hf D. destruct (Hf (s_kbd s)) as (F1 & F2 & F3 & F4).
  pose proof (draws_kbd _ _ D) as K. upd_in K.
  repeat split; [rewrite <-F1; exact (f_equal history K)|
    rewrite <-F2; exact (f_equal historyBASE K)|
    rewrite <-F3; exact (f_equal historyIDX K)|
    rewrite <-F4; exact (f_equal historySIZE K)|exact (draws_sched _ _ D)].
Qed.

Lemma ring_bounds t pid base size h s :
  ring t pid base size h s ->
  0 <= base < 20 /\ 0 <= size <= 20 /\ (length (past h) <= 19)%nat.
Proof.
  intros []. pose proof (hr_base_range _ _ _ _ _ ri_ready0).
  destruct ri_size0 as [|]; lia.
Qed.

(** The state before a line is shown: the draft is saved and the index moved. *)
Definition with_index (pid v : Z) s : kstate :=
  set s_kbd (set historyIDX (<[Z.to_nat pid := v]>)) s.

Lemma wp_put_historyIDX s pid v (Q : unit -> kstate -> Prop) :
  is_Some (lget (historyIDX (s_kbd s)) pid) -> Q tt (with_index pid v s) ->
  wp (put_historyIDX pid v) Q s.
Proof.
  intros [x Hx] HQ. unfold put_historyIDX, get_kbd, kbd_set. wp_pures.
  apply wp_aset; [by eapply lget_range|]. wp_pures. exact HQ.
Qed.

Lemma with_index_get pid v s :
  is_Some (lget (historyIDX (s_kbd s)) pid) ->
  lget (historyIDX (s_kbd (with_index pid v s))) pid = Some v.
Proof.
  intros [x Hx]. unfold with_index. upd. rewrite lget_insert by (by eapply lget_range).
  by rewrite decide_True.
Qed.

(** ** Slots *)

Lemma slot_below base p :
  0 <= base < 20 -> 0 <= p <= 20 ->
  (base - p) mod 20 = if p <=? base then base - p else base - p + 20.
Proof.
  intros Hb Hp. destruct (Z.leb_spec p base); [apply Z.mod_small; lia|].
  symmetry. apply (Z.mod_unique _ _ (-1)); lia.
Qed.

Lemma slot_up base p :
  0 <= base < 20 -> 0 <= p <= 19 ->
  (if (base - p) mod 20 - 1 <? 0 then 20 - 1 else (base - p) mod 20 - 1) =
    (base - 1 - p) mod 20.
Proof.
  intros Hb Hp. replace (base - 1 - p) with (base - (p + 1)) by lia.
  rewrite !slot_below by lia.
  destruct (Z.leb_spec p base), (Z.leb_spec (p + 1) base); case_match; lia.
Qed.

Lemma slot_down base p :
  0 <= base < 20 -> 0 <= p <= 18 ->
  Z.rem ((base - (p + 1)) mod 20 + 1) 20 = (base - p) mod 20.
Proof.
  intros Hb Hp. pose proof (Z.mod_pos_bound (base - (p + 1)) 20).
  rewrite Z.rem_mod_nonneg, Z.add_mod_idemp_l by lia. f_equal. lia.
Qed.

Lemma slot_base base p :
  0 <= base < 20 -> 0 <= p <= 19 -> ((base - p) mod 20 =? base) = (p =? 0).
Proof.
  intros Hb Hp. rewrite slot_below by lia.
  destruct (Z.leb_spec p base), (Z.eqb_spec p 0); lia.
Qed.

(** ** Changes of the history leave the line *)

Lemma editing_ed_history t pv e f s :
  (forall k, set history (fun _ => history k) (set historyBASE (fun _ => historyBASE k)
    (set historyIDX (fun _ => historyIDX k) (set historySIZE (fun _ => historySIZE k) (f k))))
    = k) ->
  editing_ed t pv e s -> editing_ed t pv e (set s_kbd f s).
Proof.
  intros Hf [[? Hb Hi Hz ? ? Hv Hc ? ?] Hs Hca Hct Ha]. specialize (Hf (s_kbd s)).
  constructor; [constructor|..]; upd; try done.
  - rewrite <-Hb. f_equal. exact (f_equal buffer Hf).
  - rewrite <-Hi. f_equal. exact (f_equal bufferIDX Hf).
  - rewrite <-Hz. f_equal. exact (f_equal bufferSIZE Hf).
  - by eapply cursor_ok_scr; [|exact Hc].
  - rewrite <-Hs. exact (f_equal shift_down Hf).
  - rewrite <-Hca. exact (f_equal caps_lock Hf).
  - rewrite <-Hct. exact (f_equal ctrl_down Hf).
  - rewrite <-Ha. exact (f_equal alt_down Hf).
Qed.

Lemma editing_ed_with_hist t pv e pid j r s :
  editing_ed t pv e s -> editing_ed t pv e (with_hist pid j r s).
Proof. apply editing_ed_history. by intros []. Qed.
Lemma editing_ed_with_index t pv e pid v s :
  editing_ed t pv e s -> editing_ed t pv e (with_index pid v s).
Proof. apply editing_ed_history. by intros []. Qed.

Lemma entry_ok_editing t pv e s :
  editing_ed t pv e s -> plain (ed_line e) -> entry_ok (line_text (ed_line e)).
Proof.
  intros [E _ _ _ _] Hp. pose proof (ed_max _ _ _ _ E) as H. unfold line_size in H.
  constructor; [lia|apply E|exact Hp].
Qed.

(** Nothing but the keyboard, the screen and the processor. *)
Definition line_only s s' : Prop := draws (set s_kbd (fun _ => s_kbd s') s) s'.

Lemma line_only_draws f s s' : draws (set s_kbd f s) s' -> line_only s s'.
Proof. intros []. constructor; upd; done. Qed.
#[export] Instance line_only_refl : Reflexive line_only.
Proof. intros s. apply (line_only_draws (fun k => k)). by destruct s. Qed.
#[export] Instance line_only_trans : Transitive line_only.
Proof.
  intros s1 s2 s3 D D'. destruct D, D'. 
  repeat match goal with H : _ = _ |- _ => progress upd_in H end.
  constructor; upd; congruence.
Qed.

(** ** The moves on the ring *)

Lemma ring_saved t pid base size h l s :
  ring t pid base size h s -> place h = 0%nat -> line_size l <= 127 ->
  ring t pid base size h (with_hist pid base (line_row l) s).
Proof.
  intros R Hp Hl. pose proof (ring_bounds _ _ _ _ _ _ R) as (Hb & _ & Hn).
  destruct R as [[Htop Hba Hbr Hsz Hix (r0 & Hr0 & Hl0)] Hrs Hrows Hpast Hpl Hidx Hd].
  pose proof (hist_at_range _ _ _ _ Hr0) as [Hpid _].
  assert (Hrow : hist_at (with_hist pid base (line_row l) s) pid base = Some (line_row l))
    by (by eapply with_hist_get).
  constructor; try done.
  - constructor; try done. exists (line_row l). split; [done|by apply line_row_length].
  - intros j Hj. destruct (decide (j = base)) as [->|Hne].
    + exists (line_row l). split; [done|by apply line_row_length].
    + destruct (Hrows j Hj) as (r & Hr & Hlr). exists r. split; [|done].
      rewrite with_hist_other; [done|lia..|congruence].
  - intros k b Hk. destruct (Hpast k b Hk) as [H1 H2]. split; [|done].
    apply lookup_lt_Some in Hk. rewrite with_hist_other; [done|lia|lia|lia| |].
    + apply Z.mod_pos_bound. lia.
    + intros Heq. injection Heq as Heq.
      replace (base - 1 - Z.of_nat k) with (base - (Z.of_nat k + 1)) in Heq by lia.
      pose proof (slot_base base (Z.of_nat k + 1)) as Hs.
      rewrite Heq, Z.eqb_refl in Hs. specialize (Hs ltac:(lia) ltac:(lia)). lia.
  - rewrite Hp. lia.
Qed.

Lemma ring_moved t pid base size h p d s :
  ring t pid base size h s -> (p <= length (past h))%nat ->
  ((0 < p)%nat -> hist_at s pid base = Some (line_row (whole d)) /\ entry_ok d) ->
  ring t pid base size (mk_hist (past h) p d)
    (with_index pid ((base - Z.of_nat p) mod 20) s).
Proof.
  intros [[Htop Hba Hbr Hsz Hix Hrow] Hrs Hrows Hpast Hpl Hidx Hd] Hp Hdp.
  constructor; cbn [past place draft]; try done.
  - constructor; try done. eexists. by apply with_index_get.
  - by apply with_index_get.
Qed.

Lemma wp_show_entry t pv e pid j b s :
  editing_ed t pv e s -> is_Some (lget (historyIDX (s_kbd s)) pid) ->
  hist_at s pid j = Some (line_row (whole b)) -> entry_ok b ->
  wp (put_historyIDX pid j ;; show_history pid) (fun _ s' =>
    editing_ed t pv (with_ed_line (whole b) e) s' /\
    same_history (with_index pid j s) s' /\ line_only s s') s.
Proof.
  intros E Hi Hr Hok. wp_pure. apply wp_put_historyIDX; [done|].
  assert (E1 := editing_ed_with_index t pv e pid j s E).
  eapply wp_mono.
  { apply (wp_show_history t pv (ed_line e) pid j b); [apply E1|by apply with_index_get|done..]. }
  cbv beta. intros _ s' (D & E' & _). split; [|split].
  - exact (proj1 (edited_line _ _ _ _ _ _ E1 D E')).
  - eapply same_history_draws; [|exact D]. intros k. done.
  - eapply (line_only_draws (fun k => with_line t (whole b)
      (set historyIDX (<[Z.to_nat pid := j]>) k))). exact D.
Qed.

Lemma wp_get_historySIZE s pid v (Q : Z -> kstate -> Prop) :
  lget (historySIZE (s_kbd s)) pid = Some v -> Q v s -> wp (get_historySIZE pid) Q s.
Proof. intros Hv HQ. unfold get_historySIZE, get_kbd. wp_pures. by eapply wp_aget_Some. Qed.
Lemma wp_get_historyBASE s pid v (Q : Z -> kstate -> Prop) :
  lget (historyBASE (s_kbd s)) pid = Some v -> Q v s -> wp (get_historyBASE pid) Q s.
Proof. intros Hv HQ. unfold get_historyBASE, get_kbd. wp_pures. by eapply wp_aget_Some. Qed.

(** What a key does to the line and the ring. *)
Definition recalled (t pv pid base size : Z) (x : ed * hist) s s' : Prop :=
  editing_ed t pv (fst x) s' /\ ring t pid base size (snd x) s' /\ line_only s s'.

Lemma recalled_same t pv pid base size e h s :
  editing_ed t pv e s -> ring t pid base size h s ->
  recalled t pv pid base size (e, h) s s.
Proof. intros E R. split; [exact E|]. split; [exact R|reflexivity]. Qed.

(** The draft is saved when the arrows leave it. *)
Lemma wp_save_draft t pv e h pid base size s (Q : unit -> kstate -> Prop) :
  editing_ed t pv e s -> ring t pid base size h s -> plain (ed_line e) ->
  (forall s1 d, d = match place h with O => line_text (ed_line e) | S _ => draft h end ->
    editing_ed t pv e s1 -> ring t pid base size h s1 -> line_only s s1 ->
    hist_at s1 pid base = Some (line_row (whole d)) -> entry_ok d -> Q tt s1) ->
  wp (if (base - Z.of_nat (place h)) mod 20 =? base then copy_to_history else ret tt) Q s.
Proof.
  intros E R Hp HQ. pose proof (ring_bounds _ _ _ _ _ _ R) as (Hb & _ & Hn).
  pose proof (ri_place _ _ _ _ _ _ R) as Hpl.
  rewrite slot_base by lia. destruct (place h) as [|p] eqn:Hpp.
  - rewrite Z.eqb_refl. pose proof (ee_line _ _ _ _ E) as El.
    eapply (wp_copy_to_history t pv (ed_line e)); [exact El|exact Hp|apply R|].
    pose proof (ri_ready _ _ _ _ _ _ R) as HR.
    destruct (hr_entry _ _ _ _ _ HR) as (r & Hr & _).
    apply (HQ _ (line_text (ed_line e))); [done| | | | |].
    + by apply editing_ed_with_hist.
    + apply ring_saved; [done|done|apply El].
    + by eapply line_only_draws.
    + rewrite (line_row_text (whole _) (ed_line e)) by apply whole_text.
      by eapply with_hist_get.
    + by eapply entry_ok_editing.
  - rewrite (proj2 (Z.eqb_neq _ _)) by lia. wp_pures.
    destruct (ri_draft _ _ _ _ _ _ R) as [H1 H2]; [lia|].
    by apply (HQ _ (draft h)).
Qed.

Lemma wp_up_history t pv e h pid base size s :
  editing_ed t pv e s -> ring t pid base size h s -> plain (ed_line e) ->
  wp up_history (fun _ => recalled t pv pid base size (recall_up (e, h)) s) s.
Proof.
  intros E R Hp. pose proof (ring_bounds _ _ _ _ _ _ R) as (Hb & Hsz & Hn).
  pose proof (ri_place _ _ _ _ _ _ R) as Hpl. pose proof (ri_ready _ _ _ _ _ _ R) as HR.
  pose proof (ri_size _ _ _ _ _ _ R) as HS. unfold up_history. wp_pure.
  eapply wp_get_displayed_pid; [apply E|apply HR|]. wp_pure.
  eapply wp_get_historySIZE; [apply HR|]. wp_pure.
  eapply wp_get_historyIDX; [apply R|]. unfold NUM_HISTORY_BUFFERS, recall_up.
  destruct (past h !! place h) as [b|] eqn:Hpast.
  - pose proof (lookup_lt_Some _ _ _ Hpast).
    replace ((size <? 20) && _) with false.
    2: { destruct HS as [(? & -> & ?)|(-> & ?)]; [|done].
         rewrite slot_below by lia. rewrite (proj2 (Z.leb_le _ _)) by lia. 
         by rewrite (proj2 (Z.eqb_neq _ _)), andb_false_r by lia. }
    wp_pure. eapply wp_get_historyBASE; [apply HR|]. wp_pure.
    eapply wp_save_draft; [done|exact R|done|]. intros s1 d -> E1 R1 L1 Hd1 Hok.
    set (d := match place h with O => _ | S _ => _ end) in *.
    pose proof (ri_ready _ _ _ _ _ _ R1) as HR1.
    wp_pure. eapply wp_get_historyIDX; [apply R1|]. wp_pure.
    eapply wp_get_historyBASE; [apply HR1|].
    rewrite slot_up by lia. replace (base - 1 - Z.of_nat (place h))
      with (base - Z.of_nat (S (place h))) by lia.
    rewrite slot_base, (proj2 (Z.eqb_neq _ 0)) by lia.
    destruct (ri_past _ _ _ _ _ _ R1 _ _ Hpast) as [Hrow Hbok].
    replace (base - 1 - Z.of_nat (place h))
      with (base - Z.of_nat (S (place h))) in Hrow by lia.
    eapply wp_mono; [eapply wp_show_entry; [exact E1|apply HR1|exact Hrow|done]|].
    cbv beta. intros _ s' (E' & H' & L'). split; [exact E'|]. split; [|by transitivity s1].
    eapply ring_same; [exact H'|]. apply (ring_moved _ _ _ _ h); [done|lia|done].
  - apply lookup_ge_None in Hpast. assert (place h = length (past h)) as Hpe by lia.
    destruct HS as [(? & -> & Hs)|(-> & Hs)].
    + rewrite Hpe, Hs, Z.sub_diag, (proj2 (Z.ltb_lt size 20)) by lia.
      cbn [andb Z.modulo Z.eqb]. wp_pures. by apply recalled_same.
    + rewrite Z.ltb_irrefl. cbn [andb]. wp_pure. eapply wp_get_historyBASE; [apply HR|]. wp_pure.
      rewrite slot_base, (proj2 (Z.eqb_neq _ 0)) by lia. wp_pures.
      eapply wp_get_historyIDX; [apply R|]. wp_pure.
      eapply wp_get_historyBASE; [apply HR|].
      rewrite slot_up, Hpe, Hs by lia.
      replace (base - 1 - 19) with (base - 20) by lia. rewrite slot_below by lia.
      rewrite (proj2 (Z.leb_gt _ _)), (proj2 (Z.eqb_eq _ base)) by lia.
      wp_pures. by apply recalled_same.
Qed.

Lemma wp_down_history t pv e h pid base size s :
  editing_ed t pv e s -> ring t pid base size h s ->
  wp down_history (fun _ => recalled t pv pid base size (recall_down (e, h)) s) s.
Proof.
  intros E R. pose proof (ring_bounds _ _ _ _ _ _ R) as (Hb & Hsz & Hn).
  pose proof (ri_place _ _ _ _ _ _ R) as Hpl. pose proof (ri_ready _ _ _ _ _ _ R) as HR.
  unfold down_history. wp_pure.
  eapply wp_get_displayed_pid; [apply E|apply HR|]. wp_pure.
  eapply wp_get_historySIZE; [apply HR|]. wp_pure.
  eapply wp_get_historyIDX; [apply R|]. wp_pure.
  eapply wp_get_historyBASE; [apply HR|].
  unfold NUM_HISTORY_BUFFERS, recall_down. rewrite slot_base by lia.
  destruct (place h) as [|p] eqn:Hpp.
  { rewrite Z.eqb_refl, andb_true_r. destruct (size <? 20); wp_pures; by apply recalled_same. }
  rewrite (proj2 (Z.eqb_neq _ 0)), andb_false_r by lia.
  replace (base - Z.of_nat (S p)) with (base - (Z.of_nat p + 1)) by lia.
  rewrite slot_down by lia. rewrite <-Hpp in *.
  (* the entry shown *)
  set (b := match p with O => draft h | S k => default [] (past h !! k) end).
  assert (Hent : hist_at s pid ((base - Z.of_nat p) mod 20) = Some (line_row (whole b)) /\
      entry_ok b).
  { unfold b. destruct p as [|k].
    - rewrite Z.sub_0_r, Z.mod_small by lia. apply (ri_draft _ _ _ _ _ _ R). lia.
    - destruct (lookup_lt_is_Some_2 (past h) k) as [c Hc]; [lia|]. rewrite Hc.
      change (default [] (Some c)) with c.
      destruct (ri_past _ _ _ _ _ _ R _ _ Hc) as [H1 H2]. split; [|done].
      rewrite <-H1. f_equal. f_equal. lia. }
  destruct Hent as [Hrow Hok].
  eapply wp_mono; [eapply wp_show_entry; [exact E|apply HR|exact Hrow|exact Hok]|].
  cbv beta. intros _ s' (E' & H' & L').
  destruct p as [|k]; (split; [exact E'|]; split; [|done]); cbn [snd].
  - eapply ring_same; [exact H'|]. apply (ring_moved _ _ _ _ h); [done|lia|lia].
  - eapply ring_same; [exact H'|]. apply (ring_moved _ _ _ _ h); [done|lia|].
    intros _. apply R. lia.
Qed.

(** ** Enter *)

Lemma slot_next base j :
  0 <= base < 20 -> (Z.rem (base + 1) 20 - j) mod 20 = (base + 1 - j) mod 20.
Proof.
  intros Hb. rewrite Z.rem_mod_nonneg by lia. by rewrite Zminus_mod_idemp_l.
Qed.

Lemma ring_pushed t pid base size h l b k' s :
  ring t pid base size h s -> line_text l = b -> b <> [] -> entry_ok b ->
  pushed pid base size (line_row l) (s_kbd s) k' ->
  recalls t pid (mk_hist (take HISTORY_DEPTH (b :: past h)) 0 []) (set s_kbd (fun _ => k') s).
Proof.
  intros R Hl Hne Hok [_ Hent Hoth Hba Hix Hsz].
  pose proof (ring_bounds _ _ _ _ _ _ R) as (Hb & Hs & Hn).
  destruct R as [HR HS Hrows Hpast _ _ _]. set (s1 := set s_kbd (fun _ => k') s).
  pose proof (Z.rem_bound_pos (base + 1) 20 ltac:(lia) ltac:(lia)) as Hb'.
  assert (Hrow : hist_at s1 pid base = Some (line_row (whole b))).
  { rewrite (line_row_text _ l) by (by rewrite whole_text). exact Hent. }
  assert (Hlr : length (line_row (whole b)) = 128%nat).
  { apply line_row_length. rewrite whole_size. pose proof (eo_length _ Hok). lia. }
  destruct (hr_entry _ _ _ _ _ HR) as (r0 & Hr0 & _).
  destruct (hist_at_range _ _ _ _ Hr0) as [Hpid _].
  assert (Hother : forall j, 0 <= j -> j <> base -> hist_at s1 pid j = hist_at s pid j).
  { intros j Hj Hjb. apply (Hoth pid j); [lia|done|congruence]. }
  assert (Hrows1 : forall j, 0 <= j < 20 ->
    exists r, hist_at s1 pid j = Some r /\ length r = 128%nat).
  { intros j Hj. destruct (decide (j = base)) as [->|Hjb]; [by eexists|].
    rewrite Hother by lia. by apply Hrows. }
  exists (Z.rem (base + 1) 20), (if size <? 20 then size + 1 else size).
  constructor; cbn [past place draft]; try done.
  - constructor; [apply HR|done|lia|done|by eexists|]. apply Hrows1. lia.
  - rewrite length_take. cbn [length]. unfold ring_size, HISTORY_DEPTH.
    rewrite Z.rem_mod_nonneg in * by lia.
    destruct HS as [(? & -> & ?)|(-> & ?)]; [|right; rewrite Z.ltb_irrefl; lia].
    rewrite (proj2 (Z.ltb_lt size 20)) by lia.
    destruct (decide (size = 19)) as [->|]; [right; lia|left].
    rewrite Z.mod_small by lia. lia.
  - intros k c Hk. apply lookup_take_Some in Hk as [Hk Hlt]. unfold HISTORY_DEPTH in Hlt.
    rewrite <-Z.sub_add_distr, slot_next by done. destruct k as [|k]; cbn in Hk.
    + injection Hk as <-. split; [|done].
      replace (base + 1 - (1 + Z.of_nat 0)) with base by lia. by rewrite Z.mod_small.
    + replace (base + 1 - (1 + Z.of_nat (S k))) with (base - 1 - Z.of_nat k) by lia.
      destruct (Hpast k c Hk) as [H1 H2]. split; [|done]. rewrite Hother; [done| |].
      * apply Z.mod_pos_bound. lia.
      * replace (base - 1 - Z.of_nat k) with (base - (Z.of_nat k + 1)) by lia.
        apply Z.eqb_neq. rewrite slot_base by lia. apply Z.eqb_neq. lia.
  - lia.
  - change (s_kbd s1) with k'. rewrite Hix, slot_next by done.
    f_equal. rewrite Z.rem_mod_nonneg by lia. f_equal. lia.
  - lia.
Qed.

Lemma recalls_same t pid h s s' :
  same_history s s' -> recalls t pid h s -> recalls t pid h s'.
Proof. intros H (base & size & R). exists base, size. by eapply ring_same. Qed.

(** The terminal that is shown has a read buffer. *)
Definition answerable (t : Z) s : Prop :=
  exists v row, lget (return_switch (s_term s)) t = Some v /\
    lget (read_buffer (s_term s)) t = Some row /\ length row = 128%nat.

Lemma answerable_term t s s' : s_term s' = s_term s -> answerable t s -> answerable t s'.
Proof. unfold answerable. by intros ->. Qed.

Lemma answerable_answers t l s :
  answerable t s -> line_size l <= 127 ->
  exists f, answers t l f s /\ forall s', s_term s' = f (s_term s) -> answerable t s'.
Proof.
  intros (v & row & Hv & Hrow & Hlen) Hl. destruct (decide (v = SWITCH_ON)) as [->|Hne].
  - eexists. split; [left; exists row; split; [by constructor|done]|].
    intros s' Hs. unfold answerable. rewrite Hs. exists 0. eexists. unfold delivered. upd.
    rewrite !lget_insert by (by eapply lget_range). rewrite !decide_True by done.
    split; [done|]. split; [done|]. unfold line_size in Hl.
    rewrite length_app, length_drop, !length_app. cbn [length]. lia.
  - exists (fun k => k). split; [right; by exists v|]. intros s' Hs. by exists v, row; rewrite Hs.
Qed.

(** Terminal [t] shows the line, and its process [pid] has the history. *)
Record recalling (t pid : Z) (x : ed * hist) s : Prop := {
  rg_typing : typing t (fst x) s;
  rg_history : recalls t pid (snd x) s;
  rg_term : answerable t s;
}.

(** What the keys leave as it is. *)
Record kept s s' : Prop := {
  kp_proc : s_proc s' = s_proc s;
  kp_pag : s_pag s' = s_pag s;
  kp_sched : s_sched s' = s_sched s;
  kp_fs : s_fs s' = s_fs s;
  kp_video : video_mem (s_scr s') = video_mem (s_scr s);
  kp_pending : pending (s_hw s') = pending (s_hw s);
}.
#[export] Instance kept_refl : Reflexive kept.
Proof. by constructor. Qed.
#[export] Instance kept_trans : Transitive kept.
Proof. intros s1 s2 s3 [] []. constructor; congruence. Qed.
Lemma kept_line_only s s' : line_only s s' -> kept s s'.
Proof. intros []. by constructor. Qed.

Lemma wp_recall_enter t pid e h s :
  recalling t pid (e, h) s -> plain (ed_line e) ->
  wp (on_irq (IrqKey ENTER)) (fun _ s' =>
    recalling t pid (recall_enter (e, h)) s' /\ kept s s') s.
Proof.
  intros [T (base & size & R) A] Hp. cbn [fst snd] in *.
  pose proof (ed_max _ _ _ _ (ee_line _ _ _ _ T)) as Hmax.
  assert (Hok : entry_ok (line_text (ed_line e))) by (by eapply entry_ok_editing).
  destruct (answerable_answers t (ed_line e) s A Hmax) as (f & Hf & Hans).
  eapply wp_mono; [by apply (wp_enter_irq t e s pid base size f); [| | |apply R]|].
  cbv beta. intros _ s' (T' & (k' & Hk' & D) & _).
  assert (Hsame : same_history (set s_kbd (fun _ => k') s) s').
  { pose proof (draws_kbd _ _ D) as K. unfold with_line in K. upd_in K.
    repeat split; [exact (f_equal history K)|exact (f_equal historyBASE K)|
      exact (f_equal historyIDX K)|exact (f_equal historySIZE K)|exact (draws_sched _ _ D)]. }
  split; [|destruct D; by constructor]. constructor; cbn [recall_enter fst snd].
  - exact T'.
  - eapply recalls_same; [exact Hsame|]. unfold remembered in Hk'.
    destruct (line_text (ed_line e)) as [|c u] eqn:Hu.
    + subst k'. exists base, size. eapply ring_same; [|exact R]. done.
    + by eapply (ring_pushed t pid base size h (ed_line e) (c :: u)).
  - apply Hans. exact (draws_term _ _ D).
Qed.

(** ** The arrows as interrupts *)

Lemma line_only_displayed s s1 s2 s3 v :
  quiet s s1 -> line_only (displayed s1) s2 -> v = video_mem (s_scr s) ->
  quiet (set s_scr (set video_mem (fun _ => v)) s2) s3 -> line_only s s3.
Proof.
  intros [D1 _ _ _] D2 -> [D3 _ _ K3]. destruct D1, D2, D3. unfold displayed in *.
  repeat match goal with H : _ = _ |- _ => progress upd_in H end.
  constructor; upd; congruence.
Qed.

Lemma wp_arrow_irq t e s pid base size h x key (prog : M unit) :
  typing t e s -> ring t pid base size h s -> 0 <= key < 256 ->
  (forall oi es, handle_keyboard_input oi es key = prog) ->
  (forall s1, editing_ed t VIDEO e s1 -> ring t pid base size h s1 ->
    wp prog (fun _ => recalled t VIDEO pid base size x s1) s1) ->
  wp (on_irq (IrqKey key)) (fun _ s' =>
    typing t (fst x) s' /\ ring t pid base size (snd x) s' /\ line_only s s') s.
Proof.
  intros T R Hk Hprog Hwp. eapply wp_mono.
  { apply (wp_irq_key s key (fun s2 => exists s1, quiet s s1 /\
      recalled t VIDEO pid base size x (displayed s1) s2)); [done|].
    intros s1 oi es Q. rewrite Hprog. eapply wp_mono; [apply Hwp|].
    - eapply editing_ed_quiet; [by apply displayed_quiet|exact T].
    - eapply ring_same; [|exact R]. unfold same_history.
      change (s_kbd (displayed s1)) with (s_kbd s1). rewrite (quiet_kbd _ _ Q).
      repeat split. exact (draws_sched _ _ (quiet_draws _ _ Q)).
    - cbv beta. intros _ s2 H. by exists s1. }
  cbv beta. intros _ s' (s1 & s2 & Q1 & (s1' & Q1' & E2 & R2 & L2) & Q3 & _).
  split; [|split].
  - eapply typing_back; [exact E2|exact (draws_video _ _ L2)|exact Q3].
  - eapply ring_same; [|exact R2]. unfold same_history.
    rewrite (quiet_kbd _ _ Q3). repeat split. exact (draws_sched _ _ (quiet_draws _ _ Q3)).
  - eapply line_only_displayed; [exact Q1'|exact L2| |exact Q3].
    by rewrite (quiet_scr _ _ Q1).
Qed.

Lemma wp_recall_key t pid x x' s key :
  recalling t pid x s -> 0 <= key < 256 -> recall_key key x = Some x' ->
  wp (on_irq (IrqKey key)) (fun _ s' => recalling t pid x' s' /\ kept s s') s.
Proof.
  intros H Hk Hx. destruct x as [e h]. unfold recall_key in Hx. cbn [fst snd] in Hx.
  case_bool_decide as Hp; [|done].
  destruct (Z.eqb_spec key UP_ARROW) as [->|]; [|destruct (Z.eqb_spec key DOWN_ARROW) as [->|];
    [|destruct (Z.eqb_spec key ENTER) as [->|]]].
  - injection Hx as <-. destruct H as [T (base & size & R) A].
    eapply wp_mono.
    { eapply (wp_arrow_irq t e s pid base size h (recall_up (e, h)) _ up_history T R Hk); [done|].
      intros s1 E1 R1. by apply wp_up_history. }
    cbv beta. intros _ s' (T' & R' & L). split; [|by apply kept_line_only].
    constructor; [done|by exists base, size|].
    eapply answerable_term; [exact (draws_term _ _ L)|done].
  - injection Hx as <-. destruct H as [T (base & size & R) A].
    eapply wp_mono.
    { eapply (wp_arrow_irq t e s pid base size h (recall_down (e, h)) _ down_history T R Hk);
        [done|]. intros s1 E1 R1. by apply wp_down_history. }
    cbv beta. intros _ s' (T' & R' & L). split; [|by apply kept_line_only].
    constructor; [done|by exists base, size|].
    eapply answerable_term; [exact (draws_term _ _ L)|done].
  - injection Hx as <-. by apply wp_recall_enter.
  - destruct (edit_key key e) as [e'|] eqn:He; [|done]. injection Hx as <-.
    destruct H as [T R A]. eapply wp_mono; [by apply (wp_key_irq t e e' s key)|].
    cbv beta. intros _ s' (T' & D & _).
    split; [|apply kept_line_only; by eapply line_only_draws].
    constructor; [done| |].
    + eapply recalls_same; [|exact R]. by eapply same_history_draws; [|exact D].
    + eapply answerable_term; [exact (draws_term _ _ D)|done].
Qed.

Lemma wp_recall_keys t pid keys : forall x x' s,
  recalling t pid x s -> Forall (fun k => 0 <= k < 256) keys -> recall_keys keys x = Some x' ->
  wp (key_irqs keys) (fun _ s' => recalling t pid x' s' /\ kept s s') s.
Proof.
  induction keys as [|key keys IH]; intros x x' s H Hk Hx; cbn [recall_keys key_irqs] in *.
  - injection Hx as <-. apply wp_ret. split; [done|reflexivity].
  - apply Forall_cons in Hk as [Hkey Hk].
    destruct (recall_key key x) as [x1|] eqn:H1; [|done]. cbn in Hx.
    wp_pure. eapply wp_mono; [by apply (wp_recall_key t pid x x1)|].
    cbv beta. intros _ s1 (R1 & K1). eapply wp_mono; [by apply (IH x1)|].
    cbv beta. intros _ s2 (R2 & K2). split; [done|]. by transitivity s1.
Qed.
End ring.

(** ** Walking up and down the abstract history *)

Lemma plain_entry b : entry_ok b -> plain (whole b).
Proof. intros [_ _ H]. unfold plain. by rewrite whole_text. Qed.

Lemma recall_key_up e h :
  plain (ed_line e) -> recall_key UP_ARROW (e, h) = Some (recall_up (e, h)).
Proof. intros Hp. unfold recall_key. by rewrite bool_decide_eq_true_2. Qed.
Lemma recall_key_down e h :
  plain (ed_line e) -> recall_key DOWN_ARROW (e, h) = Some (recall_down (e, h)).
Proof. intros Hp. unfold recall_key. by rewrite bool_decide_eq_true_2. Qed.

Lemma recall_ups p e d n : forall k b b',
  Forall entry_ok p -> p !! k = Some b -> p !! (k + n)%nat = Some b' ->
  recall_keys (replicate n UP_ARROW) (with_ed_line (whole b) e, mk_hist p (S k) d) =
    Some (with_ed_line (whole b') e, mk_hist p (S (k + n)) d).
Proof.
  induction n as [|n IH]; intros k b b' Hp Hb Hb'; cbn [replicate recall_keys].
  - rewrite Nat.add_0_r in *. congruence.
  - destruct (lookup_lt_is_Some_2 p (S k)) as [c Hc].
    { apply lookup_lt_Some in Hb'. lia. }
    rewrite recall_key_up by (eapply plain_entry, Forall_lookup_1; [exact Hp|exact Hb]).
    unfold recall_up. cbn [past place draft]. rewrite Hc.
    change (Some ?x ≫= ?f) with (f x). cbv beta.
    replace (k + S n)%nat with (S k + n)%nat in * by lia.
    exact (IH (S k) c b' Hp Hc Hb').
Qed.

Lemma recall_downs p e d n : forall l,
  Forall entry_ok p -> (S n <= length p)%nat -> entry_ok d -> plain l ->
  recall_keys (replicate (S n) DOWN_ARROW) (with_ed_line l e, mk_hist p (S n) d) =
    Some (with_ed_line (whole d) e, mk_hist p 0 []).
Proof.
  induction n as [|n IH]; intros l Hp Hn Hd Hl.
  - cbn [replicate recall_keys]. by rewrite recall_key_down.
  - destruct (lookup_lt_is_Some_2 p n) as [c Hc]; [lia|].
    change (replicate (S (S n)) DOWN_ARROW) with (DOWN_ARROW :: replicate (S n) DOWN_ARROW).
    cbn [recall_keys]. rewrite recall_key_down by done. unfold recall_down.
    cbn [past place draft]. rewrite Hc. change (Some ?x ≫= ?f) with (f x). cbv beta.
    apply (IH (whole c) Hp); [lia|done|].
    eapply plain_entry, Forall_lookup_1; [exact Hp|exact Hc].
Qed.

Section properties.
Context {P : Platform}.
Implicit Types (s : kstate).

Lemma recalling_reached t pid keys x x' s :
  recalling t pid x s -> Forall (fun k => 0 <= k < 256) keys ->
  recall_keys keys x = Some x' -> exists s', recalling t pid x' s'.
Proof.
  intros R Hk Hx. pose proof (wp_recall_keys t pid keys x x' s R Hk Hx) as H.
  apply wp_Ret in H as (_ & s' & _ & R' & _). by exists s'.
Qed.

(** A history that was just cleared. *)
Lemma recalls_cleared t pid s :
  (exists k, lget (schedule_top (s_sched s)) t = Some k /\
    lget2 (schedule_stack (s_sched s)) t (k - 1) = Some pid) ->
  lget (historyBASE (s_kbd s)) pid = Some 0 -> lget (historySIZE (s_kbd s)) pid = Some 0 ->
  lget (historyIDX (s_kbd s)) pid = Some 0 ->
  (forall j, 0 <= j < 20 -> exists r, hist_at s pid j = Some r /\ length r = 128%nat) ->
  recalls t pid (mk_hist [] 0 []) s.
Proof.
  intros Ht Hb Hz Hi Hrows. exists 0, 0. constructor; cbn [past place draft length]; try done.
  - constructor; [done|done|lia|done|by eexists|]. apply Hrows. lia.
  - left. lia.
  - lia.
Qed.

Lemma recalling_past t pid e h s : recalling t pid (e, h) s -> Forall entry_ok (past h).
Proof.
  intros [_ (base & size & R) _]. apply Forall_lookup. intros k b Hk.
  apply (ri_past _ _ _ _ _ _ R k b Hk).
Qed.

(** C3: the keyboard driver refines a line editor with a history. For every
    sequence of key interrupts, with Enter and the arrows Up and Down in any
    place, the driver ends with the line and the history that the abstract
    editor computes: an entered line that is not empty becomes the latest of
    the history and the oldest is forgotten when nineteen are there, Up
    replaces the line by the next older one and Down by the next newer one or,
    at the end, by the line that was being typed. The processes, the pages,
    the schedule, the file system and the pending interrupts are as before. *)
Theorem keys_refine_history t pid keys x x' s :
  recalling t pid x s -> Forall (fun k => 0 <= k < 256) keys ->
  recall_keys keys x = Some x' ->
  wp (key_irqs keys) (fun _ s' => recalling t pid x' s' /\ kept s s') s.
Proof. intros. by apply (wp_recall_keys t pid keys x). Qed.

(** C4: going up and down the history is a round trip. After [n] times Up the
    line is the [n]-th last entered one, and as many times Down give back the
    line that was being typed, whatever it was, with the history as before. *)
Theorem up_down_gives_back_line t pid e h n b s :
  recalling t pid (e, h) s -> place h = 0%nat -> plain (ed_line e) ->
  past h !! n = Some b ->
  wp (key_irqs (replicate (S n) UP_ARROW)) (fun _ s1 =>
    typing t (with_ed_line (whole b) e) s1 /\
    wp (key_irqs (replicate (S n) DOWN_ARROW)) (fun _ s2 =>
      recalling t pid (with_ed_line (whole (line_text (ed_line e))) e, mk_hist (past h) 0 []) s2
      /\ kept s s2) s1) s.
Proof.
  intros R Hpl Hp Hb. pose proof (recalling_past _ _ _ _ _ R) as Hpast.
  assert (Hok : entry_ok (line_text (ed_line e))) by (eapply entry_ok_editing; [apply R|done]).
  destruct h as [p k d]. cbn [past place] in *. subst k.
  destruct (lookup_lt_is_Some_2 p 0) as [c Hc]; [apply lookup_lt_Some in Hb; lia|].
  eapply wp_mono.
  { eapply (wp_recall_keys t pid _ _
      (with_ed_line (whole b) e, mk_hist p (S n) (line_text (ed_line e)))); [exact R| |].
    - apply Forall_replicate. unfold UP_ARROW. lia.
    - cbn [replicate recall_keys]. rewrite recall_key_up by done. unfold recall_up.
      cbn [past place]. rewrite Hc. change (Some ?x ≫= ?f) with (f x). cbv beta.
      by apply (recall_ups p e _ n 0 c b). }
  cbv beta. intros _ s1 (R1 & K1). split; [exact (rg_typing _ _ _ _ R1)|].
  eapply wp_mono.
  { eapply (wp_recall_keys t pid _ _ _ _ R1).
    - apply Forall_replicate. unfold DOWN_ARROW. lia.
    - apply recall_downs; [done|by apply lookup_lt_Some in Hb|done|].
      eapply plain_entry, Forall_lookup_1; [exact Hpast|exact Hb]. }
  cbv beta. intros _ s2 (R2 & K2). split; [done|by transitivity s1].
Qed.
End properties.

(** A shell, process 1, on terminal 0, with an empty history. *)
Definition prompt_state : kstate :=
  set s_sched (set schedule_top (fun _ => [1; 0; 0]))
    (set s_sched (set schedule_stack (fun _ => [[1; 0; 0; 0; 0; 0; 0];
        replicate 7 0; replicate 7 0])) zero_state).

Lemma prompt_recalling : recalling 0 1 (empty_ed, mk_hist [] 0 []) prompt_state.
Proof.
  constructor; cbn [fst snd].
  - destruct zero_typing as [[]]. constructor; [constructor|..]; done.
  - apply recalls_cleared; [by exists 1|reflexivity..|].
    intros j Hj. exists (replicate 128 0). split; [|done].
    unfold hist_at. change (lget (history (s_kbd prompt_state)) 1)
      with (Some (replicate 20 (replicate 128 0))). cbn [mbind option_bind].
    apply lget_replicate. lia.
  - exists 0, (replicate 128 0). done.
Qed.

(** "ls", Enter, "x", Up. *)
Lemma keys_refine_history_witness :
  wp (key_irqs [0x26; 0x1F; ENTER; 0x2D; UP_ARROW]) (fun _ s' =>
    lget (buffer (s_kbd s')) 0 = Some ([108; 115] ++ replicate 126 0)) prompt_state.
Proof.
  eapply wp_mono.
  - eapply (keys_refine_history 0 1 _ (empty_ed, mk_hist [] 0 [])
      (with_ed_line (whole [108; 115]) empty_ed, mk_hist [[108; 115]] 1 [120])).
    + exact prompt_recalling.
    + repeat constructor; unfold ENTER, UP_ARROW; lia.
    + vm_compute. reflexivity.
  - cbv beta. intros _ s' [[T _ _] _]. exact (ed_buffer _ _ _ _ (ee_line _ _ _ _ T)).
Defined.

(** The same terminal after "ls" was entered and "x" typed. *)
Definition x_typed : ed := with_ed_line (whole [120]) empty_ed.

Lemma entered_recalling : exists s, recalling 0 1 (x_typed, mk_hist [[108; 115]] 0 []) s.
Proof.
  assert (Hk : recall_keys [0x26; 0x1F; ENTER; 0x2D] (empty_ed, mk_hist [] 0 []) =
    Some (x_typed, mk_hist [[108; 115]] 0 [])) by (vm_compute; reflexivity).
  eapply (recalling_reached 0 1 [0x26; 0x1F; ENTER; 0x2D]); [exact prompt_recalling| |exact Hk].
  repeat constructor; unfold ENTER; lia.
Qed.

Lemma up_down_gives_back_line_witness :
  exists s, wp (key_irqs [UP_ARROW]) (fun _ s1 =>
    lget (buffer (s_kbd s1)) 0 = Some ([108; 115] ++ replicate 126 0) /\
    wp (key_irqs [DOWN_ARROW]) (fun _ s2 =>
      lget (buffer (s_kbd s2)) 0 = Some ([120] ++ replicate 127 0)) s1) s.
Proof.
  destruct entered_recalling as [s R]. exists s. eapply wp_mono.
  - apply (up_down_gives_back_line 0 1 x_typed (mk_hist [[108; 115]] 0 []) 0 [108; 115] s R);
      [reflexivity|by constructor|reflexivity].
  - cbv beta. intros _ s1 [T1 H]. split; [exact (ed_buffer _ _ _ _ (ee_line _ _ _ _ T1))|].
    eapply wp_mono; [exact H|]. cbv beta. intros _ s2 [[T2 _ _] _].
    exact (ed_buffer _ _ _ _ (ee_line _ _ _ _ T2)).
Defined.
