(* ===== verification/RtcSpec.v ===== *)
(** * The real-time clock: the rates it accepts, and waiting for a tick *)
From S2P Require Import Prelude State Monad Logic Strings Screen Pic Proc Fs Rtc Terminal TerminalSpec Interrupts Kernel Demo InputSpec.

(** The device: the frequency in Hz that the clock generates for the low four
    bits of its register A, as its data sheet has it. *)
Record documented_rates (frequency : Z -> Z) : Prop := {
  dr_divided : forall code, 3 <= code <= 15 -> frequency code = 32768 / 2 ^ (code - 1);
  dr_one : frequency 1 = 256;
  dr_two : frequency 2 = 128;
}.

(** What a program gets that asks for [2 ^ k] ticks a second. *)
Definition granted (k : Z) : Z := if k <=? 13 then 2 ^ k else 2 ^ (k - 7).

Lemma rate_loop_power k : 1 <= k <= 15 -> rtc_rate_loop 16 2 0x0F (2 ^ k) = Some (16 - k).
Proof.
  intros Hk. assert (H : Forall (fun k => rtc_rate_loop 16 2 0x0F (2 ^ k) = Some (16 - k)) (seqZ 1 15))
    by (apply (bool_decide_unpack _); vm_compute; exact I).
  rewrite Forall_forall in H. apply H, elem_of_seqZ. lia.
Qed.
Lemma rate_loop_other v : (forall k, 1 <= k <= 15 -> v <> 2 ^ k) -> rtc_rate_loop 16 2 0x0F v = None.
Proof.
  intros H. assert (Hn : forall k n, 1 <= k <= 15 -> 2 ^ k = n -> (n =? v) = false).
  { intros k n Hk <-. apply Z.eqb_neq. specialize (H k Hk). congruence. }
  unfold rtc_rate_loop, MAX_RTC_RATE.
  repeat match goal with |- context [?n =? v] =>
    let k := eval vm_compute in (Z.log2 n) in rewrite (Hn k n) by (lia || reflexivity) end.
  reflexivity.
Qed.

Lemma frequency_power frequency k :
  documented_rates frequency -> 1 <= k <= 15 -> frequency (16 - k) = granted k.
Proof.
  intros [Hd H1 H2] Hk. unfold granted. destruct (Z.leb_spec k 13) as [H|H].
  - rewrite Hd by lia. replace (16 - k - 1) with (15 - k) by lia.
    change 32768 with (2 ^ 15). rewrite <-Z.pow_sub_r by lia. f_equal. lia.
  - destruct (decide (k = 14)) as [->|?]; [exact H2|]. assert (k = 15) as -> by lia. exact H1.
Qed.

Definition lookup_default (l : list Z) (i : nat) : Z := default 0 (l !! i).

Section rtc.
Context {P : Platform}.

Definition clock_ok (s : kstate) : Prop :=
  length (rtc_running (s_rtc s)) = 3%nat /\ length (rtc_virtual_interupt (s_rtc s)) = 3%nat /\
  0 <= current_process (s_sched s) < 3.
(** The tick counter of a terminal. *)
Definition ticks (s : kstate) (t : Z) : option Z := lget (rtc_virtual_interupt (s_rtc s)) t.

Lemma rtc_passed_word bs s : length bs = 4%nat -> rtc_passed bs 4 s = Ret (s32 (le_word bs)) s.
Proof. destruct bs as [|? [|? [|? [|? [|]]]]]; done. Qed.

Lemma wp_set_virtual t v (Q : unit -> kstate -> Prop) s :
  0 <= t < 3 -> length (rtc_virtual_interupt (s_rtc s)) = 3%nat ->
  Q tt (set s_rtc (set rtc_virtual_interupt (fun a => <[Z.to_nat t := v]> a)) s) ->
  wp (set_virtual t v) Q s.
Proof.
  intros Ht Hl HQ. unfold set_virtual. wp_pures. apply wp_aset; [lia|]. unfold rtc_set. wp_pures. exact HQ.
Qed.

Lemma rate_nibble e k : 1 <= k <= 15 -> Z.land (u8 (Z.lor (Z.land e 0xF0) k)) 15 = k.
Proof.
  intros Hk. unfold u8. change 256 with (2 ^ 8). rewrite <-Z.land_ones, <-Z.land_assoc by lia.
  change (Z.land (Z.ones 8) 15) with 15. rewrite Z.land_lor_distr_l, <-Z.land_assoc.
  change (Z.land 0xF0 15) with 0.
  rewrite Z.land_0_r, Z.lor_0_l. change 15 with (Z.ones 4). rewrite Z.land_ones, Z.mod_small; lia.
Qed.

Lemma wp_rtc_write_power frequency fd bs k s :
  documented_rates frequency -> clock_ok s -> length bs = 4%nat -> 1 <= k <= 15 -> s32 (le_word bs) = 2 ^ k ->
  wp (rtc_write fd bs 4) (fun r s' => r = 0 /\
    lget (rtc_running (s_rtc s')) (current_process (s_sched s)) = Some (2 ^ k) /\
    ticks s' (current_process (s_sched s)) = Some 0 /\
    exists reg, port_trace (s_hw s') = (RTC_REG, reg) :: (CMOS_REG, 0x8A) :: (CMOS_REG, 0x8A) :: port_trace (s_hw s)
      /\ frequency (Z.land reg 15) = granted k) s.
Proof.
  intros Hdev (H1 & H2 & Hcp) Hb Hk Hv. unfold rtc_write, cli_and_save, cli, hw_set. wp_pures.
  eapply (wp_Ret (rtc_passed bs 4)). eexists _, _. split; [by apply rtc_passed_word|].
  rewrite Hv, rate_loop_power by done. wp_pures. upd.
  apply wp_aset; [lia|]. unfold rtc_set. wp_pures. apply wp_set_virtual; [by upd|by upd|].
  unfold rtc_send_rate, outb, inb, hw_set, restore_flags. wp_pures. upd.
  unfold hw_set. wp_pures. match goal with |- context [Z.land (if ?c then ?a else ?b) 240] =>
    generalize (if c then a else b) end. intros e.
  unfold ticks. upd. rewrite !lget_insert by lia. rewrite !decide_True by done.
  split_and!; try done. eexists. split; [reflexivity|]. rewrite rate_nibble by lia.
  by apply frequency_power.
Qed.

Lemma rtc_write_other fd bs s :
  length bs = 4%nat -> (forall k, 1 <= k <= 15 -> s32 (le_word bs) <> 2 ^ k) ->
  rtc_write fd bs 4 s = Ret (-1) (set s_hw (set eflags_if (fun _ => false)) s).
Proof.
  intros Hb Hv. unfold rtc_write, cli_and_save, cli, hw_set, gets, modify, ret, bind.
  by rewrite rtc_passed_word, rate_loop_other by done.
Qed.

(** *** Waiting *)

Lemma bump_cells (l : list Z) : length l = 3%nat ->
  (<[2%nat := s32 (lookup_default l 2 + 1)]> (<[1%nat := s32 (lookup_default l 1 + 1)]>
    (<[0%nat := s32 (lookup_default l 0 + 1)]> l))) = map (fun v => s32 (v + 1)) l.
Proof. by destruct l as [|? [|? [|? []]]]. Qed.

Lemma wp_bump i s (Q : unit -> kstate -> Prop) :
  0 <= i < 3 -> length (rtc_virtual_interupt (s_rtc s)) = 3%nat ->
  Q tt (set s_rtc (set rtc_virtual_interupt (fun a =>
    <[Z.to_nat i := s32 (lookup_default a (Z.to_nat i) + 1)]> a)) s) ->
  wp (a <- gets (fun s => rtc_virtual_interupt (s_rtc s)) ;; v <- aget a i ;; set_virtual i (s32 (v + 1))) Q s.
Proof.
  intros Hi Hl HQ. wp_pures. apply wp_aget; [lia|]. intros v Hv. apply wp_set_virtual; [done|done|].
  unfold lget in Hv. rewrite decide_True in Hv by lia.
  assert (E : set s_rtc (set rtc_virtual_interupt (fun a => <[Z.to_nat i := s32 (v + 1)]> a)) s =
    set s_rtc (set rtc_virtual_interupt (fun a => <[Z.to_nat i := s32 (lookup_default a (Z.to_nat i) + 1)]> a)) s).
  { destruct s as [? ? ? ? ? ? [r w] ? ? ? ?]. cbn in Hv |- *. unfold set, s_rtc_upd, rtc_virtual_interupt_upd. cbn.
    unfold lookup_default. by rewrite Hv. }
  by rewrite E.
Qed.

(** The processor's flag is no part of a frame. *)
Lemma quiet_flag b s : quiet s (set s_hw (set eflags_if (fun _ => b)) s).
Proof. constructor; upd; [draws_tac|done..]. Qed.

Definition bump (i : nat) (a : list Z) : list Z := <[i := s32 (lookup_default a i + 1)]> a.

Lemma three_bumps s : length (rtc_virtual_interupt (s_rtc s)) = 3%nat ->
  set s_rtc (set rtc_virtual_interupt (bump 2)) (set s_rtc (set rtc_virtual_interupt (bump 1))
    (set s_rtc (set rtc_virtual_interupt (bump 0)) (set s_hw (set eflags_if (fun _ => false)) s))) =
  set s_hw (set eflags_if (fun _ => false))
    (set s_rtc (set rtc_virtual_interupt (map (fun v => s32 (v + 1)))) s).
Proof.
  destruct s as [? ? ? ? ? ? [r w] ? ? ? ?]. cbn. intros H.
  unfold set, s_rtc_upd, s_hw_upd, rtc_virtual_interupt_upd. cbn.
  by destruct w as [|? [|? [|? []]]].
Qed.

(** What the clock's handler does: every terminal's counter goes up, and the
    interrupt flag is as before. *)
Definition ticked (s s' : kstate) : Prop :=
  quiet (set s_rtc (set rtc_virtual_interupt (map (fun v => s32 (v + 1)))) s) s' /\
  eflags_if (s_hw s') = eflags_if (s_hw s).

Lemma lget_map_list {A B} (f : A -> B) l i : lget (map f l) i = f <$> lget l i.
Proof. unfold lget. case_decide; [|done]. apply list_lookup_fmap. Qed.

Lemma wp_handle_RTC s : length (rtc_virtual_interupt (s_rtc s)) = 3%nat ->
  wp handle_RTC (fun _ => ticked s) s.
Proof.
  intros Hl. unfold handle_RTC, cli_and_save, cli, hw_set. wp_pures.
  change (for_up 0 3) with (for_step 3 0 1). cbn [for_step]. wp_pure.
  apply wp_bump; [lia|by upd|]. wp_pure.
  apply wp_bump; [lia|upd; by rewrite length_insert|]. wp_pure.
  apply wp_bump; [lia|upd; by rewrite !length_insert|]. wp_pures.
  eapply wp_quiet; [apply quietly_send_eoi|]. intros _ s1 Q1. wp_pure.
  eapply wp_quiet; [apply quietly_outb|]. intros _ s2 Q2. wp_pure.
  eapply wp_quiet; [apply quietly_inb|]. intros _ s3 Q3. unfold restore_flags, hw_set. wp_pures.
  split; [|by upd]. etransitivity; [apply (quiet_flag false)|].
  rewrite <-three_bumps by done. etransitivity; [|apply quiet_flag].
  etransitivity; [exact Q1|]. by transitivity s2.
Qed.

(** ** Reading *)

Section reading.
Variable s : kstate.
Let cp := current_process (s_sched s).
Hypothesis OK : clock_ok s.

Lemma wp_rtc_read fd n rest :
  pending (s_hw s) = IrqRtc :: rest ->
  wp (rtc_read on_irq fd n) (fun r s' => r = (0, []) /\ pending (s_hw s') = rest /\
    s_sched s' = s_sched s /\ s_scr s' = s_scr s /\ s_mem s' = s_mem s /\
    forall t, 0 <= t < 3 -> ticks s' t =
      if decide (t = cp) then Some 0 else (fun v => s32 (v + 1)) <$> ticks s t) s.
Proof.
  destruct OK as (H1 & H2 & Hcp). intros Hp. unfold rtc_read, sti, hw_set. wp_pures.
  apply wp_set_virtual; [done|by upd|]. unfold spin_while. wp_pure. wp_pure. wp_pure. upd. rewrite Hp.
  cbn [length]. 
  eapply spin_step; [|by upd|upd; exact Hp|].
  { unfold rtc_waits. upd. rewrite lget_insert by lia. by rewrite decide_True. }
  wp_pure. change (on_irq IrqRtc) with (n <- gets (fun s => length (pending (s_hw s))) ;; handle_RTC). unfold next_irq.
  wp_pures. eapply wp_mono; [apply wp_handle_RTC; upd; by rewrite length_insert|].
  cbv beta. intros _ s1 ([D E2 E3 _] & _).
  pose proof (draws_rtc _ _ D) as ER. pose proof (draws_pending _ _ D) as EP.
  pose proof (draws_sched _ _ D) as ES. upd_in ER. upd_in EP. upd_in ES. upd_in E2. upd_in E3.
  apply spin_end.
  { unfold rtc_waits. rewrite ER. upd. rewrite lget_map_list, lget_insert by lia. by rewrite decide_True. }
  unfold cli, hw_set. wp_pures. apply wp_set_virtual; [done|upd; rewrite ER; upd; by rewrite length_map, length_insert|].
  wp_pures. split_and!; upd; try done. intros t Ht. unfold ticks. upd. rewrite ER. upd.
  rewrite lget_insert, lget_map_list, lget_insert by (rewrite ?length_map, ?length_insert; lia).
  destruct (decide (current_process (s_sched s) = t)) as [E|E].
  - by rewrite (decide_True (P := t = cp)) by done.
  - by rewrite (decide_False (P := t = cp)) by (unfold cp; congruence).
Qed.

Lemma rtc_read_blocks fd n :
  pending (s_hw s) = [] -> stops (rtc_read on_irq fd n) (fun w _ => w = Blocked) s.
Proof.
  destruct OK as (H1 & H2 & Hcp). intros Hp. unfold rtc_read, sti, hw_set. wp_pures.
  apply wp_set_virtual; [done|by upd|]. apply stops_stop_first.
  unfold spin_while. apply stops_bind, wp_gets. upd. rewrite Hp. cbn [length spin].
  apply stops_bind, wp_gets. unfold rtc_waits. upd.
  rewrite lget_insert by lia. rewrite decide_True by done. apply stops_bind, wp_gets. upd. by apply stops_stop.
Qed.
End reading.

(** C39: the clock paces a program.  A write of a power of two from 2 to 32768
    is accepted: it records the rate, resets the counter of the terminal, and
    sends the clock the code of that rate in the low bits of register A, at
    which the device, by its data sheet, ticks that often a second for a rate
    up to 8192, but 128 times for 16384 and 256 times for 32768. Any other four
    bytes are refused and no port, no counter and no recorded rate changes.  A
    read returns at the first tick, which the other terminals count as well,
    and takes no other interrupt; with no interrupt to come it waits for
    good. *)
Theorem rtc_paces frequency fd bs n s :
  documented_rates frequency -> clock_ok s -> length bs = 4%nat ->
  let cp := current_process (s_sched s) in
  (forall k, 1 <= k <= 15 -> s32 (le_word bs) = 2 ^ k ->
    wp (rtc_write fd bs 4) (fun r s' => r = 0 /\
      lget (rtc_running (s_rtc s')) cp = Some (2 ^ k) /\ ticks s' cp = Some 0 /\
      exists reg, port_trace (s_hw s') =
          (RTC_REG, reg) :: (CMOS_REG, 0x8A) :: (CMOS_REG, 0x8A) :: port_trace (s_hw s) /\
        frequency (Z.land reg 15) = granted k) s) /\
  ((forall k, 1 <= k <= 15 -> s32 (le_word bs) <> 2 ^ k) ->
    rtc_write fd bs 4 s = Ret (-1) (set s_hw (set eflags_if (fun _ => false)) s)) /\
  (forall rest, pending (s_hw s) = IrqRtc :: rest ->
    wp (rtc_read on_irq fd n) (fun r s' => r = (0, []) /\ pending (s_hw s') = rest /\
      s_sched s' = s_sched s /\ s_scr s' = s_scr s /\ s_mem s' = s_mem s /\
      forall t, 0 <= t < 3 -> ticks s' t =
        if decide (t = cp) then Some 0 else (fun v => s32 (v + 1)) <$> ticks s t) s) /\
  (pending (s_hw s) = [] -> stops (rtc_read on_irq fd n) (fun w _ => w = Blocked) s).
Proof.
  intros Hdev OK Hb cp. split_and!; intros.
  - by apply wp_rtc_write_power.
  - by apply rtc_write_other.
  - by apply wp_rtc_read.
  - by apply rtc_read_blocks.
Qed.
End rtc.

(** The table of the data sheet. *)
Definition data_sheet (code : Z) : Z :=
  lookup_default [0; 256; 128; 8192; 4096; 2048; 1024; 512; 256; 128; 64; 32; 16; 8; 4; 2]
    (Z.to_nat code).
Lemma data_sheet_documented : documented_rates data_sheet.
Proof.
  constructor; [|done..]. intros code Hc.
  assert (H : Forall (fun code => data_sheet code = 32768 / 2 ^ (code - 1)) (seqZ 3 13))
    by (apply (bool_decide_unpack _); vm_compute; exact I).
  rewrite Forall_forall in H. apply H, elem_of_seqZ. lia.
Qed.

Lemma rtc_paces_witness :
  let s := set s_hw (set pending (fun _ => [IrqRtc; IrqTimer])) zero_state in
  wp (rtc_write 2 [0; 4; 0; 0] 4) (fun r s' => r = 0 /\
    lget (rtc_running (s_rtc s')) 0 = Some 1024 /\
    exists reg rest, port_trace (s_hw s') = (RTC_REG, reg) :: rest /\
      data_sheet (Z.land reg 15) = 1024) s /\
  rtc_write 2 [3; 0; 0; 0] 4 s = Ret (-1) (set s_hw (set eflags_if (fun _ => false)) s) /\
  wp (rtc_read on_irq 2 4) (fun r s' => r = (0, []) /\ pending (s_hw s') = [IrqTimer] /\
    ticks s' 1 = Some 1) s /\
  stops (rtc_read on_irq 2 4) (fun w _ => w = Blocked) zero_state.
Proof.
  intros s. assert (OK : clock_ok s) by (split_and!; done || lia).
  assert (Hp : pending (s_hw s) = [IrqRtc; IrqTimer]) by reflexivity.
  assert (Hcp : current_process (s_sched s) = 0) by reflexivity.
  assert (Ht : ticks s 1 = Some 0) by reflexivity.
  assert (OK0 : clock_ok zero_state) by (split_and!; done || lia).
  clearbody s. pose proof (rtc_paces data_sheet 2 [0; 4; 0; 0] 4 s data_sheet_documented OK eq_refl) as (HW & _ & HR & _).
  pose proof (rtc_paces data_sheet 2 [3; 0; 0; 0] 4 s data_sheet_documented OK eq_refl) as (_ & HF & _).
  rewrite Hcp in HW, HR. split_and!.
  - eapply wp_mono; [apply (HW 10); [lia|done]|]. cbv beta.
    intros r s' (-> & H & _ & reg & Htr & Hf). split; [done|]. split; [exact H|].
    exists reg. eexists. split; [exact Htr|exact Hf].
  - apply HF. intros k Hk H. change (s32 (le_word [3; 0; 0; 0])) with 3 in H.
    assert (2 ^ k = 2 * 2 ^ (k - 1)) by (rewrite <-Z.pow_succ_r by lia; f_equal; lia). lia.
  - eapply wp_mono; [exact (HR _ Hp)|]. cbv beta. intros r s' (-> & H & _ & _ & _ & T).
    split_and!; [done|done|]. rewrite T, Ht by lia. done.
  - apply (rtc_paces data_sheet 2 [0; 4; 0; 0] 4 zero_state data_sheet_documented OK0 eq_refl). reflexivity.
Defined.
