(* ===== verification/SwitchSpec.v ===== *)
(** * Switching terminals: every terminal keeps its screen and its cursor *)
From S2P Require Import Prelude State Monad Logic Screen Pic Mem MemSpec Proc Terminal TerminalSpec Interrupts Syscalls PagingSpec SchedSpec Kernel Demo InputSpec SchedProps.

Section switching.
Context {P : Platform}.
Implicit Types (s : kstate).

(** The byte at [o] in the screen of terminal [t], shown or kept in the
    terminal's own page, and the place of its cursor. *)
Definition screen_byte s (t o : Z) : Z := u8 (mem_get (s_mem s) (display_of t s + o)).
Definition position s (t : Z) : option (Z * Z) :=
  if t =? current_terminal (s_term s) then Some (screen_x (s_scr s), screen_y (s_scr s))
  else (fun d => (cursor_x d, cursor_y d)) <$> lget (switch_data_arr (s_term s)) t.

(** Terminal [num], another one than the one shown, can be switched to. *)
Record switchable s (num : Z) : Prop := {
  sb_terms : length (switch_data_arr (s_term s)) = 3%nat;
  sb_current : 0 <= current_terminal (s_term s) < 3;
  sb_num : 0 <= num < 3 /\ num <> current_terminal (s_term s);
  sb_running : lget (terminal_running (s_term s)) num = Some 1;
  sb_position : 0 <= screen_x (s_scr s) < 256 /\ 0 <= screen_y (s_scr s) < 256;
  sb_space : exists pid vid, runs_program s pid vid /\ 0 <= pid < 256 /\ display_page vid;
  sb_tlb : tlb_stale (s_pag s) = false;
}.

(** The four pages of the displays lie where they are seen. *)
Lemma displays_linear s num : switchable s num -> linear s VIDEO 0x4000 VIDEO.
Proof.
  intros [_ _ _ _ _ (pid & vid & R & Hp & Hv) Ht]. split; [done|]. intros o Ho.
  rewrite (runs_program_phys s pid vid) by done. unfold address_space, table_space, VIDEO.
  rewrite !u32_small by lia. repeat case_decide; done || lia.
Qed.

(** After the exchange of the two pages, and of the cursors. *)
Record exchanged (num : Z) s s' : Prop := {
  ex_mem : forall t o, 0 <= t < 3 -> 0 <= o < 0x1000 -> screen_byte s' t o = screen_byte s t o;
  ex_position : forall t, 0 <= t < 3 -> position s' t = position s t;
  ex_term : current_terminal (s_term s') = num;
  ex_sched : s_sched s' = set terminal_request (fun _ => num) (s_sched s);
  ex_video : video_mem (s_scr s') = video_mem (s_scr s);
  ex_pag : s_pag s' = s_pag s;
  ex_proc : s_proc s' = s_proc s;
  ex_hw : cpu_esp (s_hw s') = cpu_esp (s_hw s) /\ cpu_ebp (s_hw s') = cpu_ebp (s_hw s) /\
    tss (s_hw s') = tss (s_hw s) /\ pending (s_hw s') = pending (s_hw s);
}.

Lemma wp_upd_switch_data t (f : switch_data -> switch_data) s (Q : unit -> kstate -> Prop) :
  0 <= t < 3 -> length (switch_data_arr (s_term s)) = 3%nat ->
  Q tt (set s_term (set switch_data_arr (alter f (Z.to_nat t))) s) ->
  wp (upd_switch_data t (fun d => ret (f d))) Q s.
Proof.
  intros Ht Hl HQ. unfold upd_switch_data, term_set. wp_pures. apply wp_aget; [lia|].
  intros d Hd. wp_pures. apply wp_aset; [lia|]. wp_pures.
  replace (<[Z.to_nat t:=f d]> (switch_data_arr (s_term s)))
    with (alter f (Z.to_nat t) (switch_data_arr (s_term s))).
  { destruct s as [? ? ? ? [] ? ? ? ? ? ?]. exact HQ. }
  unfold lget in Hd. rewrite decide_True in Hd by lia. apply list_eq. intros i.
  destruct (decide (i = Z.to_nat t)) as [->|Hi].
  - rewrite list_lookup_alter_eq, Hd, list_lookup_insert_eq; [done|by eapply lookup_lt_Some].
  - by rewrite list_lookup_alter_ne, list_lookup_insert_ne.
Qed.
(** A page of a display copied over another one. *)
Lemma wp_copy_display s x y a b (Q : Z -> kstate -> Prop) :
  linear s VIDEO 0x4000 VIDEO -> 0 <= x < 4 -> 0 <= y < 4 -> x <> y ->
  a = VIDEO + 0x1000 * x -> b = VIDEO + 0x1000 * y ->
  (forall r s', copied a b 0x1000 s s' -> Q r s') -> wp (memcpy a b 0x1000) Q s.
Proof.
  intros L Hx Hy Hxy -> -> HQ. eapply wp_mono.
  - eapply (wp_memcpy_copied s VIDEO 0x4000 VIDEO (0x1000 * x) (0x1000 * y)); try exact L;
      unfold VIDEO; lia.
  - cbv beta. intros r s' [_ C]. by apply HQ.
Qed.

(** The displayed page to the page of [old], then the page of [num] to the
    displayed one: every terminal keeps its contents. *)
Lemma pages_exchanged old num s s1 s2 :
  0 <= old < 3 -> 0 <= num < 3 -> old <> num ->
  copied (VIDEO_1 + 0x1000 * old) VIDEO 0x1000 s s1 ->
  copied VIDEO (VIDEO_1 + 0x1000 * num) 0x1000 s1 s2 ->
  forall t o, 0 <= t < 3 -> 0 <= o < 0x1000 ->
    u8 (mem_get (s_mem s2) ((if t =? num then VIDEO else VIDEO_1 + 0x1000 * t) + o)) =
    u8 (mem_get (s_mem s) ((if t =? old then VIDEO else VIDEO_1 + 0x1000 * t) + o)).
Proof.
  intros Ho Hn Hne (m1 & -> & H1) (m2 & -> & H2) t o Ht Hoff. unfold with_mem in *. upd. upd_in H2.
  rewrite H2. unfold VIDEO, VIDEO_1 in *.
  destruct (Z.eqb_spec t num) as [->|Htn].
  - rewrite decide_True by lia. rewrite (proj2 (Z.eqb_neq num old)) by lia.
    rewrite H1, decide_False by lia. rewrite (u8_small (u8 _)) by apply u8_range. do 2 f_equal. lia.
  - rewrite decide_False by lia. rewrite H1. destruct (Z.eqb_spec t old) as [->|Hto].
    + rewrite decide_True by lia. rewrite (u8_small (u8 _)) by apply u8_range. do 2 f_equal. lia.
    + by rewrite decide_False by lia.
Qed.
(** A timer interrupt reaches a routine that waits. *)
Lemma spin_first cond oi s ev rest :
  cond s = true -> eflags_if (s_hw s) = true -> pending (s_hw s) = ev :: rest ->
  spin_while cond oi s = (oi ev ;; spin (length rest) cond oi) (next_irq rest s).
Proof.
  intros Hc Hf Hp. unfold spin_while. unfold bind at 1, gets at 1. rewrite Hp. cbn [length spin].
  unfold bind at 1, gets at 1. rewrite Hc. unfold bind at 1, gets at 1. rewrite Hf, Hp. reflexivity.
Qed.
Lemma on_irq_timer s : on_irq IrqTimer s = schedule_entry (cpu_ebp (s_hw s)) s.
Proof.
  unfold on_irq. unfold bind at 1, gets at 1. cbn [on_irq_fuel]. unfold bind, gets. reflexivity.
Qed.
Lemma spin_tick cond s rest :
  cond s = true -> eflags_if (s_hw s) = true -> pending (s_hw s) = IrqTimer :: rest ->
  spin_while cond on_irq s =
    (schedule_entry (cpu_ebp (s_hw s)) ;; spin (length rest) cond on_irq) (next_irq rest s).
Proof.
  intros Hc Hf Hp. rewrite (spin_first cond on_irq s IrqTimer rest) by done.
  unfold bind. by rewrite on_irq_timer.
Qed.

Lemma leads_bind2 {A B C} R (m : M A) (f : A -> M B) (g : B -> M C) s :
  wp m (fun a s' => leads R (bind (f a) g) s') s -> leads R (bind (bind m f) g) s.
Proof. unfold wp, leads, bind. by destruct (m s). Qed.
Lemma leads_assoc {A B C} R (m : M A) (f : A -> M B) (g : B -> M C) s :
  leads R (bind m (fun a => bind (f a) g)) s -> leads R (bind (bind m f) g) s.
Proof. unfold leads, bind. by destruct (m s). Qed.
Ltac lead := repeat
  (apply leads_bind2; cbv beta; wp_pure; repeat lazymatch goal with |- wp _ _ _ => wp_pure end).

Lemma wp_exchange num s (R : out Z -> Prop) oi sh :
  switchable s num ->
  (forall s' tick, exchanged num s s' -> eflags_if (s_hw s') = true -> tick = schedule_tick (s_sched s) ->
     leads R (spin_while (fun s => tick =? schedule_tick (s_sched s)) oi ;; cli ;; sti ;; ret SUCCESS) s') ->
  leads R (terminal_switch oi sh num) s.
Proof.
  intros W HR. pose proof (displays_linear _ _ W) as L. destruct W as [Ld Hct [Hn Hne] Hr [Hx Hy] _ _].
  unfold terminal_switch, get_current_terminal, NUM_TERMINALS.
  rewrite (proj2 (Z.ltb_ge 3 num)) by lia. wp_pures.
  rewrite (proj2 (Z.eqb_neq num _)) by done. wp_pures.
  apply wp_mono with (Q := fun b s' => b = false /\ s' = s).
  { case_match; wp_pures; [|done]. eapply wp_aget_Some; [exact Hr|]. wp_pures. done. }
  intros _ _ [-> ->]. unfold cli, hw_set, get_screen_x, get_screen_y, term_set. wp_pures.
  apply wp_upd_switch_data; [done|by upd|]. wp_pure.
  apply wp_upd_switch_data; [done|upd; by rewrite length_alter|]. wp_pures.
  eapply wp_aget_Some; [exact Hr|]. change (1 =? 1) with true. cbv iota.
  apply leads_bind2. match goal with |- wp _ _ ?s0 => set (s1 := s0) end.
  apply (wp_copy_display s1 (1 + current_terminal (s_term s)) 0); try done; try (unfold VIDEO_1, VIDEO; lia).
  intros _ s2 C1. apply leads_bind2.
  assert (P2 : s_pag s2 = s_pag s) by (by destruct C1 as (? & -> & _)).
  apply (wp_copy_display s2 0 (1 + num)); try done; try (unfold VIDEO_1, VIDEO; lia).
  { eapply linear_pag; [|exact L]. done. }
  intros _ s3 C2. 
  pose proof (pages_exchanged _ num s1 s2 s3 Hct Hn ltac:(congruence) C1 C2) as X.
  destruct C1 as (m1 & -> & _), C2 as (m2 & -> & _). unfold with_mem in *. clear P2. lead. apply leads_bind2. upd.
  destruct (lget_Some (switch_data_arr (s_term s)) num) as [d Hd]; [lia|].
  apply (wp_aget_Some _ _ d).
  { unfold s1. upd. rewrite !lget_alter by lia. rewrite !decide_False by congruence. exact Hd. }
  unfold set_screen_x, set_screen_y, scr_set, cursor_update, cursor_update_spec,
    get_screen_x, sched_set, send_eoi, outb, sti, hw_set.
  change (IRQ1 <? 8) with true. cbv iota.
  lead. apply leads_assoc. unfold s1 in *. apply HR; [|by upd|by upd].
  constructor; upd; try done.
  intros t Ht. unfold position. upd. destruct (Z.eqb_spec t num) as [->|Htn].
  - rewrite (proj2 (Z.eqb_neq num _)) by done. by rewrite Hd.
  - rewrite !lget_alter by lia. destruct (Z.eqb_spec t (current_terminal (s_term s))) as [E|E].
    + rewrite !decide_True by congruence. destruct (lget_Some (switch_data_arr (s_term s)) t) as [d' Hd']; [lia|].
      rewrite Hd'. cbn. upd. by rewrite !u8_small.
    + by rewrite !decide_False by congruence.
Qed.
(** What is shown after the switch to [num], where the process of context [c]
    runs: every terminal has kept its screen and its cursor, and the process
    sees and writes the display itself. *)
Record shown (num : Z) (c : slot_t) s s' : Prop := {
  sh_terminal : current_terminal (s_term s') = num /\ current_process (s_sched s') = num;
  sh_process : current_pid (s_proc s') = sl_pid c /\ terminal_request (s_sched s') = -1;
  sh_screens : forall t o, 0 <= t < 3 -> 0 <= o < 0x1000 -> screen_byte s' t o = screen_byte s t o;
  sh_cursors : forall t, 0 <= t < 3 -> position s' t = position s t;
  sh_space : forall va, phys s' va = address_space (sl_pid c) VIDEO va;
  sh_video : video_mem (s_scr s') = VIDMAP;
}.

Lemma saved_tick t esp ebp ts sc : schedule_tick (saved t esp ebp ts sc) = schedule_tick sc.
Proof. unfold saved. destruct (lget _ t) as [v|]; [|done]. by case_match. Qed.
Lemma slot_request sc t c f esp ebp ts cp :
  slot (saved cp esp ebp ts sc) t c -> slot (saved cp esp ebp ts (set terminal_request f sc)) t c.
Proof.
  unfold saved. upd. destruct (lget (schedule_top sc) cp) as [top|];
    [destruct (top =? 0)|]; intros [Hx]; constructor; exact Hx.
Qed.

Lemma switched_shown num c s s1 f g rest s2 :
  switchable s num -> exchanged num s s1 ->
  switched num c (set s_sched f (set s_sched g (next_irq rest s1))) s2 -> 0 <= sl_pid c < 256 ->
  shown num c s s2.
Proof.
  intros W X [Hproc Hsched _ _ Hpag Hscr (Ht & _ & _ & _ & _ & Hm)] Hpid.
  unfold next_irq in *. upd_in Hproc. upd_in Hsched. upd_in Hpag. upd_in Hscr. upd_in Ht. upd_in Hm.
  unfold display_of, kernel_display_of in Hpag, Hscr. upd_in Hpag. upd_in Hscr.
  destruct X as [Xm Xp Xt Xs Xv Xg Xpr _]. rewrite Xt, Z.eqb_refl in Hpag, Hscr. destruct W as [_ _ _ _ _ (pid & vid & R & _ & _) _].
  constructor.
  - rewrite Ht, Xt, Hsched. by upd.
  - rewrite Hproc, Hsched. by upd.
  - intros t o H1 H2. rewrite <-Xm by done. unfold screen_byte, display_of. by rewrite Hm, Ht.
  - intros t H1. rewrite <-Xp by done. unfold position. by rewrite Hscr, Ht.
  - intros va. apply runs_program_phys; [|by left|done]. destruct R as [R1 R2 R3].
    constructor; rewrite Hpag; cbn [process_pages process_tables paging_on]; rewrite ?Xg.
    + rewrite R1. apply program_directory_again.
    + rewrite R2. apply program_table_again.
    + done.
  - rewrite Hscr. by upd.
Qed.
Lemma shown_hw num c s s' f : shown num c s s' -> shown num c s (set s_hw f s').
Proof. intros []. constructor; done. Qed.
Lemma spin_off n cond oi s : cond s = false -> spin n cond oi s = Ret tt s.
Proof. intros Hc. destruct n; cbn [spin]; unfold bind, gets; by rewrite Hc. Qed.

(** C20: switching terminals. When the keyboard asks for terminal [num], which
    runs a process, the timer's next interrupt gives the processor to that
    process, or back to it when it was the one interrupted, and every terminal
    has kept the contents of its screen and the place of its cursor, the one
    that was shown in its own page of memory; [num] is the one shown, and its
    process sees the display itself. *)
Theorem terminal_switch_shows num c s rest :
  switchable s num -> sched_ok s -> pending (s_hw s) = IrqTimer :: rest ->
  slot (saved (current_process (s_sched s)) (cpu_esp (s_hw s)) (cpu_ebp (s_hw s)) (tss (s_hw s))
    (s_sched s)) num c -> sl_ebp c <> 0 -> 0 <= sl_pid c < 256 ->
  exists s', terminal_switch on_irq (exec_shell on_irq) num s =
      (if sl_esp c =? cpu_esp (s_hw s) then Ret SUCCESS s'
       else Stop (Resume (sl_esp c) (sl_ebp c)) s') /\ shown num c s s'.
Proof.
  intros W [O1 O2 O3 O4 O5] Hp Hc Hebp Hpid.
  apply (wp_exchange num s (fun o => exists s', o = _ /\ shown num c s s')); [done|].
  intros s1 tick X Hif ->. pose proof X as [_ _ _ Xs _ Xg _ (He & Hb & Hts & Hpe)].
  pose proof (sb_num _ _ W) as [Hn _]. rewrite <-Hpe in Hp.
  destruct (schedule_entry_turn (next_irq rest s1) (cpu_ebp (s_hw s1)) num c) as (s2 & E & Sw).
  { unfold next_irq. constructor; upd; rewrite ?Xs, ?Xg; upd; try done.
    destruct O3 as [?|[c0 [H0]]]; [by left|right]. exists c0. by constructor. }
  { unfold next_irq, next_terminal. upd. rewrite Xs. upd. rewrite (proj2 (Z.eqb_neq num (-1))) by lia.
    by rewrite decide_True by lia. }
  { unfold next_irq. upd. rewrite Xs, He, Hb, Hts. upd. by apply slot_request. }
  { done. } { done. }
  pose proof (switched_shown _ _ _ _ _ _ _ _ W X Sw Hpid) as Sh.
  unfold leads. unfold bind at 1. rewrite (spin_tick _ _ rest); [|rewrite Xs; upd; by rewrite Z.eqb_refl|done|done].
  unfold bind at 1. rewrite E. unfold next_irq at 1. upd. rewrite He.
  destruct (sl_esp c =? cpu_esp (s_hw s)); [|by exists s2].
  rewrite spin_off.
  - eexists. split; [reflexivity|]. by do 3 apply shown_hw.
  - upd. rewrite (sw_sched _ _ _ _ Sw). unfold turned, next_irq. upd. rewrite Xs.
    match goal with |- context [saved ?a ?b ?c ?d ?e] => pose proof (saved_tick a b c d e) as T end.
    rewrite T. upd. destruct (Z.eqb_spec (schedule_tick (s_sched s)) 0) as [->|]; [done|].
    by apply Z.eqb_neq.
Qed.
End switching.

(** Process 1 has written an A in the corner of the screen, process 2 waits on
    terminal 1 and has written a B. *)
Definition two_screens : kstate :=
  set s_term (set terminal_running (fun _ => [1; 1; 0]))
    (set s_hw (set pending (fun _ => [IrqTimer]))
      (set s_mem (fun _ => {[0xB8000 := 65; 0xBA000 := 66]}) two_programs)).

Lemma two_screens_ok : switchable two_screens 1 /\ sched_ok two_screens.
Proof.
  split.
  - constructor; try done. exists 1, VIDEO. split; [by constructor|]. split; [lia|by left].
  - constructor; [reflexivity|done|right|reflexivity|reflexivity].
    exists (mk_slot 1 0 0 zero_tss). constructor. by exists 1.
Qed.

Lemma terminal_switch_shows_witness :
  exists s', terminal_switch on_irq (exec_shell on_irq) 1 two_screens =
      Stop (Resume 0x7F8000 0x7F8010) s' /\ current_terminal (s_term s') = 1 /\
    screen_byte s' 0 0 = 65 /\ screen_byte s' 1 0 = 66 /\
    phys s' 0x84B8000 = Some 0xB8000.
Proof.
  destruct two_screens_ok as [W O].
  destruct (terminal_switch_shows 1 waiting two_screens [] W O) as (s' & E & [[H1 H2] _ H3 H4 H5 _]);
    [reflexivity|constructor; by exists 1|done|done|].
  exists s'. split; [exact E|]. split; [exact H1|]. rewrite !H3, H5 by lia. split_and!; reflexivity.
Defined.
