(* ===== verification/DisplaySpec.v ===== *)
(** * The screen as a display of 25 rows

    What the output routines do to the page of video memory, refined to an
    abstract display: its characters and the place of the cursor. *)
From S2P Require Import Prelude State Monad Logic Screen ScreenSpec Pic Proc Terminal TerminalSpec Demo EditorSpec.

(** The characters row by row, and the cursor. *)
Record display := mk_display { cells : list Z; row : Z; col : Z }.

Definition cell (d : display) (i : Z) : option Z := lget (cells d) i.
Definition place (d : display) : Z := 80 * row d + col d.
Definition write_cell (i c : Z) (d : display) : display :=
  mk_display (<[Z.to_nat i := c]> (cells d)) (row d) (col d).
Definition move_to (r c : Z) (d : display) : display := mk_display (cells d) r c.

(** The next row, which is a new blank one when the last is full. *)
Definition new_row (d : display) : display :=
  if row d <? 24 then move_to (row d + 1) 0 d
  else mk_display (drop 80 (cells d) ++ replicate 80 32) 24 0.

(** A character typed at the cursor. *)
Definition put_char (d : display) (c : Z) : display :=
  if c =? 10 then new_row d
  else
    let d := write_cell (place d) c d in
    if col d =? 79 then new_row d else move_to (row d) (col d + 1) d.
Definition put_chars (d : display) (bs : list Z) : display := fold_left put_char bs d.

(** The last character taken back. *)
Definition erase_char (d : display) : display :=
  if place d =? 0 then d
  else
    let d := write_cell (place d - 1) 32 d in
    if col d =? 0 then move_to (row d - 1) 79 d else move_to (row d) (col d - 1) d.
Definition blank : display := mk_display (replicate 2000 32) 0 0.

Section display.
Context {P : Platform}.
Implicit Types (s : kstate).

(** The page at [pv] is seen at [video_mem] and displays [d]. *)
Record displays (pv : Z) (d : display) s : Prop := {
  sw_video : video_at s pv;
  sw_cells : length (cells d) = 2000%nat;
  sw_bytes : Forall (fun c => 0 <= c < 256) (cells d);
  sw_row : 0 <= row d < 25;
  sw_col : 0 <= col d < 80;
  sw_cursor : screen_x (s_scr s) = col d /\ screen_y (s_scr s) = row d;
  sw_mem : forall i, 0 <= i < 2000 ->
    cell d i = Some (mem_get (s_mem s) (pv + 2 * i)) /\ mem_get (s_mem s) (pv + 2 * i + 1) = 7;
}.

(** Nothing but the display and the processor's flag has changed: not a byte
    outside the page. *)
Record painted (pv : Z) s s' : Prop := {
  pt_draws : draws s s';
  pt_mem : forall a, ~ pv <= a < pv + 4000 -> mem_get (s_mem s') a = mem_get (s_mem s) a;
}.
#[export] Instance painted_refl pv : Reflexive (painted pv).
Proof. by constructor. Qed.
#[export] Instance painted_trans pv : Transitive (painted pv).
Proof.
  intros s1 s2 s3 [D1 M1] [D2 M2]. constructor; [by transitivity s2|]. intros a Ha. by rewrite M2, M1.
Qed.
Lemma quiet_painted pv s s' : quiet s s' -> painted pv s s'.
Proof. intros [D _ M _]. constructor; [done|]. by rewrite M. Qed.
Lemma cell_painted pv s s' i c :
  0 <= i < 2000 -> draws s s' -> s_mem s' = <[pv + 2 * i + 1 := 7]> (<[pv + 2 * i := c]> (s_mem s)) ->
  painted pv s s'.
Proof.
  intros Hi D Hm. constructor; [done|]. intros a Ha. rewrite Hm, !mem_get_insert.
  by rewrite !decide_False by lia.
Qed.

Lemma shows_quiet pv d s s' : quiet s s' -> displays pv d s -> displays pv d s'.
Proof.
  intros [D E M _] []. constructor; rewrite ?E, ?M; try done. by eapply video_at_draws.
Qed.

Lemma shows_pos pv d s : displays pv d s -> pos s = place d.
Proof. intros [_ _ _ _ _ [Hx Hy] _]. unfold pos, place. by rewrite Hx, Hy. Qed.

(** A cell is written and the cursor moved. *)
Lemma shows_write pv d s i c r k s' :
  displays pv d s -> 0 <= i < 2000 -> 0 <= c < 256 -> 0 <= r < 25 -> 0 <= k < 80 -> draws s s' ->
  screen_x (s_scr s') = k -> screen_y (s_scr s') = r ->
  s_mem s' = <[pv + 2 * i + 1 := 7]> (<[pv + 2 * i := c]> (s_mem s)) ->
  displays pv (move_to r k (write_cell i c d)) s'.
Proof.
  intros [] Hi Hc Hr Hk D Hx Hy Hm. constructor; cbn [move_to write_cell cells row col]; try done.
  - by eapply video_at_draws.
  - by rewrite length_insert.
  - by apply Forall_insert.
  - intros j Hj. unfold cell. cbn [move_to write_cell cells]. rewrite Hm, !mem_get_insert, lget_insert by lia.
    destruct (sw_mem0 j Hj) as [H1 H2]. split.
    + rewrite (decide_False (P := pv + 2 * i + 1 = _)) by lia.
      destruct (decide (i = j)) as [->|Hij]; [by rewrite decide_True|].
      rewrite decide_False by lia. exact H1.
    + destruct (decide (i = j)) as [->|Hij]; [by rewrite decide_True|].
      by rewrite !decide_False by lia.
Qed.

(** ** The routines *)

Lemma wp_next_line_shows pv d s :
  displays pv d s -> wp next_line (fun _ s' => painted pv s s' /\ displays pv (new_row d) s') s.
Proof.
  intros W. pose proof W as [Wv Wl Wb Wr Wc [Wx Wy] Wm].
  unfold next_line, get_screen_y, new_row. wp_pures. rewrite Wy. change (NUM_ROWS - 1) with 24.
  destruct (Z.leb_spec 24 (row d)) as [H|H].
  - rewrite (proj2 (Z.ltb_ge (row d) 24)) by lia. apply (wp_scroll s pv); [done|].
    intros s' D E M. split.
    { constructor; [done|]. intros a Ha. rewrite M. by rewrite !decide_False by lia. }
    constructor; cbn [cells row col]; try done.
    + by eapply video_at_draws.
    + rewrite length_app, length_drop, length_replicate. lia.
    + apply Forall_app. split; [by apply Forall_drop|]. by apply Forall_replicate.
    + rewrite E. upd. lia.
    + intros i Hi. unfold cell. cbn [cells]. rewrite !M.
      rewrite lget_app, length_drop by lia. split.
      * destruct (decide (i < 1920)).
        -- rewrite decide_True, (decide_True (P := _ <= _ < _)) by lia.
           destruct (Wm (80 + i)) as [H1 _]; [lia|]. unfold cell, lget in *.
           rewrite decide_True in H1 by lia. rewrite decide_True by lia. rewrite lookup_drop.
           replace (80 + Z.to_nat i)%nat with (Z.to_nat (80 + i)) by lia. rewrite H1. f_equal.
           replace (pv + 2 * i + 160) with (pv + 2 * (80 + i)) by lia. symmetry. apply u8_small.
           rewrite Forall_forall in Wb. apply Wb. by eapply list_elem_of_lookup_2.
        -- rewrite decide_False, (decide_False (P := pv <= _ < _)), decide_True by lia.
           rewrite lget_replicate by lia. by rewrite (proj2 (Z.eqb_eq _ _)) by divlia.
      * case_decide.
        -- destruct (Wm (80 + i)) as [_ H1]; [lia|].
           replace (pv + 2 * i + 1 + 160) with (pv + 2 * (80 + i) + 1) by lia. by rewrite H1.
        -- rewrite decide_True by lia. by rewrite (proj2 (Z.eqb_neq _ _)) by divlia.
  - rewrite (proj2 (Z.ltb_lt (row d) 24)) by lia. unfold set_screen_x, set_screen_y, scr_set.
    wp_pures. split; [constructor; [draws_tac|done]|].
    constructor; cbn [move_to cells row col]; upd; try done; lia.
Qed.

Lemma wp_type_char pv d s c :
  displays pv d s -> 0 <= c < 256 -> c <> 13 ->
  wp (terminal_write_char c) (fun _ s' => painted pv s s' /\ displays pv (put_char d c) s') s.
Proof.
  intros W Hc Hcr. pose proof W as [Wv Wl Wb Wr Wc [Wx Wy] Wm].
  unfold terminal_write_char, get_screen_x, put_char. wp_pures. rewrite Wx. change (NUM_COLS - 1) with 79.
  assert (Hnew : forall d' s1, painted pv s s1 -> displays pv d' s1 ->
    wp (sti ;; next_line ;; cli) (fun _ s' => painted pv s s' /\ displays pv (new_row d') s') s1).
  { intros d' s1 D1 W1. wp_pure. eapply wp_quiet; [apply quietly_sti|]. intros _ s2 Q2.
    wp_pure. eapply wp_mono; [apply (wp_next_line_shows pv d'); by eapply shows_quiet|].
    cbv beta. intros _ s3 [D3 W3]. eapply wp_quiet; [apply quietly_cli|]. intros _ s4 Q4.
    split; [|by eapply shows_quiet]. transitivity s1; [done|]. transitivity s2; [by apply quiet_painted|].
    transitivity s3; [done|by apply quiet_painted]. }
  destruct (Z.eqb_spec c 10) as [->|Hlf].
  { wp_pures. rewrite orb_true_r. by apply Hnew. }
  rewrite orb_false_r. wp_pures. pose proof (shows_pos _ _ _ W) as Hp.
  apply (wp_putc _ pv); [done..|rewrite Hp; unfold place; lia|].
  intros s1 D1 Hx1 Hy1 Hm1. apply wp_key_flag_off. intros s2 D2 E2 M2.
  assert (D : draws s s2) by (by transitivity s1). rewrite Hp, u8_small in Hm1 by done.
  rewrite Wx in Hx1. rewrite Wy, Z.rem_small in Hy1 by lia. rewrite <-E2 in Hx1, Hy1. rewrite <-M2 in Hm1.
  assert (W2 : forall k, Z.rem (col d + 1) 80 = k -> 0 <= k < 80 ->
    displays pv (move_to (row d) k (write_cell (place d) c d)) s2).
  { intros k Hk ?. apply (shows_write pv d s); try done; [unfold place; lia|by rewrite Hx1]. }
  assert (D' : painted pv s s2) by (apply (cell_painted pv s s2 (place d) c); [unfold place; lia|done..]).
  cbn [col write_cell row]. destruct (Z.eqb_spec (col d) 79) as [E|E].
  - eapply wp_mono; [apply (Hnew _ s2 D' (W2 0 ltac:(by rewrite E) ltac:(lia)))|].
    cbv beta. intros _ s3 [D3 W3]. split; [done|]. exact W3.
  - wp_pures. split; [done|]. apply W2; [apply Z.rem_small; lia|lia].
Qed.
Lemma wp_type_text pv d s fd bs :
  displays pv d s -> Forall (fun c => 0 <= c < 256 /\ c <> 13) bs ->
  wp (terminal_write fd bs (Z.of_nat (length bs))) (fun r s' =>
    r = (if decide (bs = []) then -1 else Z.of_nat (length bs)) /\
    painted pv s s' /\ displays pv (put_chars d bs) s') s.
Proof.
  intros W Hbs. unfold terminal_write. destruct bs as [|b bs']; [by split_and!|].
  set (bs := b :: bs') in *. assert (Hn : 1 <= Z.of_nat (length bs)) by (cbn; lia).
  rewrite (proj2 (Z.ltb_ge _ 1)) by done. rewrite decide_False by done.
  wp_pure. eapply wp_quiet; [apply quietly_cli|]. intros _ s1 Q1. wp_pure. eapply wp_mono.
  { apply (wp_for_up _ _ _ (fun i s' => painted pv s s' /\ displays pv (put_chars d (take (Z.to_nat i) bs)) s')); [lia| |].
    - split; [by apply quiet_painted|by eapply shows_quiet].
    - intros i s' Hi [D' W']. destruct (lget_Some bs i) as [c Hc]; [lia|]. wp_pure.
      eapply wp_aget_Some; [exact Hc|]. unfold lget in Hc. rewrite decide_True in Hc by lia.
      pose proof (proj1 (Forall_forall _ _) Hbs c ltac:(by eapply list_elem_of_lookup_2)) as [H1 H2].
      eapply wp_mono; [by apply (wp_type_char pv (put_chars d (take (Z.to_nat i) bs)))|].
      cbv beta. intros _ s2 [D2 W2]. split; [by transitivity s'|].
      replace (Z.to_nat (i + 1)) with (S (Z.to_nat i)) by lia. erewrite take_S_r by exact Hc.
      unfold put_chars in *. by rewrite fold_left_app. }
  cbv beta. intros _ s2 [D2 W2]. rewrite Nat2Z.id, firstn_all in W2.
  wp_pure. eapply wp_quiet; [apply quietly_cursor_update|]. intros _ s3 Q3.
  wp_pure. eapply wp_quiet; [apply quietly_send_eoi|]. intros _ s4 Q4.
  wp_pure. eapply wp_quiet; [apply quietly_sti|]. intros _ s5 Q5. wp_pures.
  assert (Q : quiet s2 s5) by (by transitivity s3; [|transitivity s4]).
  split; [done|]. split; [transitivity s2; [done|by apply quiet_painted]|by eapply shows_quiet].
Qed.

Lemma wp_erase_char pv d s :
  displays pv d s -> wp terminal_backspace (fun _ s' => painted pv s s' /\ displays pv (erase_char d) s') s.
Proof.
  intros W. pose proof W as [Wv Wl Wb Wr Wc [Wx Wy] Wm]. pose proof (shows_pos _ _ _ W) as Hp.
  unfold terminal_backspace. wp_pure. eapply wp_mono with (Q := fun _ s' => painted pv s s' /\ displays pv (erase_char d) s').
  - unfold erase_char. destruct (Z.eqb_spec (place d) 0) as [E|E].
    { unfold place in E. assert (col d = 0 /\ row d = 0) as [E1 E2] by lia.
      unfold backspace, get_screen_x, get_screen_y, get_video_mem. wp_pures. rewrite Wx, Wy, E1, E2.
      by cbn. }
    apply (wp_backspace s pv); [done|constructor; unfold pos; lia|unfold place in *; lia|].
    intros s' D [R1 R2 R3] Hp' Hx' Hm'. rewrite Hp in Hp'. rewrite Hp' in Hm'.
    split; [apply (cell_painted pv s s' (place d - 1) 32); [unfold place in *; lia|done..]|].
    rewrite Wx in Hx'. cbn [write_cell col row]. unfold pos, place in *.
    destruct (Z.eqb_spec (col d) 0); (apply (shows_write pv d s); try done; lia).
  - cbv beta. intros _ s1 [D1 W1]. eapply wp_quiet; [apply quietly_cursor_update|]. intros _ s2 Q2.
    split; [transitivity s1; [done|by apply quiet_painted]|by eapply shows_quiet].
Qed.

Lemma wp_blank pv s :
  video_at s pv -> wp terminal_clear (fun _ s' => painted pv s s' /\ displays pv blank s') s.
Proof.
  intros Wv. unfold terminal_clear, set_screen_x, set_screen_y, scr_set. wp_pure.
  apply (wp_clear s pv); [done|]. intros s1 D1 E1 M1. wp_pures.
  match goal with |- wp _ _ ?s0 => set (s2 := s0) end.
  assert (D2 : draws s s2) by (transitivity s1; [done|draws_tac]).
  assert (D3 : painted pv s s2).
  { constructor; [done|]. intros a Ha. change (s_mem s2) with (s_mem s1). rewrite M1. by rewrite decide_False. }
  eapply wp_quiet; [apply quietly_cursor_update|]. intros _ s3 Q3.
  split; [transitivity s2; [done|by apply quiet_painted]|]. eapply shows_quiet; [exact Q3|].
  constructor; unfold blank; cbn [cells row col]; try done; try lia.
  - by eapply video_at_draws.
  - by apply Forall_replicate.
  - intros i Hi. unfold cell. cbn [cells]. rewrite lget_replicate by lia.
    assert (Em : s_mem s2 = s_mem s1) by done. rewrite Em, !M1, !decide_True by lia.
    by rewrite (proj2 (Z.eqb_eq _ _)), (proj2 (Z.eqb_neq _ _)) by divlia.
Qed.

(** ** Sequences of operations *)

Inductive screen_op := Write (bs : list Z) | Erase | Clear | NextLine.

Definition op_ok (o : screen_op) : Prop :=
  match o with Write bs => Forall (fun c => 0 <= c < 256 /\ c <> 13) bs | _ => True end.
Definition do_op (o : screen_op) : M unit :=
  match o with
  | Write bs => terminal_print bs
  | Erase => terminal_backspace
  | Clear => terminal_clear
  | NextLine => next_line
  end.
Definition op_display (d : display) (o : screen_op) : display :=
  match o with
  | Write bs => put_chars d bs
  | Erase => erase_char d
  | Clear => blank
  | NextLine => new_row d
  end.
Fixpoint do_ops (os : list screen_op) : M unit :=
  match os with [] => ret tt | o :: os => do_op o ;; do_ops os end.

Lemma wp_do_op pv d s o :
  displays pv d s -> op_ok o -> wp (do_op o) (fun _ s' => painted pv s s' /\ displays pv (op_display d o) s') s.
Proof.
  intros W Ho. destruct o as [bs| | |]; cbn [do_op op_display].
  - unfold terminal_print. wp_pure. eapply wp_mono; [by apply wp_type_text|].
    cbv beta. intros r s1 (_ & H1 & H2). by wp_pures.
  - by apply wp_erase_char.
  - apply wp_blank, W.
  - by apply wp_next_line_shows.
Qed.

(** C21: the screen. Whatever sequence of texts without carriage returns (which
    [putc] lets run out of the page), erasures, clearings and line feeds the
    drivers output, on the display or on the page of a terminal that
    is not shown, the page holds what an abstract display of 25 rows of 80
    characters holds that wraps at the end of a row and scrolls at the end of
    the last one, the cursor is where that display has it, all cells have the
    normal attribute, and no byte outside the page and no other variable of the
    kernel has changed, the processor's flag and the keyboard's [key_flag] apart. *)
Theorem screen_refines_display pv os : forall d s,
  displays pv d s -> Forall op_ok os ->
  wp (do_ops os) (fun _ s' => painted pv s s' /\ displays pv (fold_left op_display os d) s') s.
Proof.
  induction os as [|o os IH]; intros d s W Hos; cbn [do_ops fold_left]; [by wp_pures|].
  apply Forall_cons in Hos as [Ho Hos]. wp_pure. eapply wp_mono; [by apply (wp_do_op pv d)|].
  cbv beta. intros _ s1 [D1 W1]. eapply wp_mono; [by apply IH|].
  cbv beta. intros _ s2 [D2 W2]. split; [by transitivity s1|done].
Qed.
End display.

(** A machine with paging off and a cleared screen; the text is longer than a
    row, and its last character is taken back. *)
Definition blank_mem : gmap Z Z :=
  list_to_map (concat (map (fun n => [(VIDEO + 2 * Z.of_nat n, 32); (VIDEO + 2 * Z.of_nat n + 1, 7)]) (seq 0 2000))).
Definition cleared : kstate :=
  set s_scr (fun _ => mk_scr 0 0 VIDEO) (set s_mem (fun _ => blank_mem) zero_state).

Lemma cleared_shows : displays VIDEO blank cleared.
Proof.
  assert (H : Forall (fun i => mem_get blank_mem (VIDEO + 2 * i) = 32 /\ mem_get blank_mem (VIDEO + 2 * i + 1) = 7)
    (seqZ 0 2000)) by (apply (bool_decide_unpack _); vm_compute; exact I).
  assert (V : forall m, video_at (set s_scr (fun _ => mk_scr 0 0 VIDEO) (set s_mem (fun _ => m) zero_state)) VIDEO).
  { intros m. split; [reflexivity|]. intros o Ho. unfold phys. upd.
    change (paging_on (s_pag zero_state)) with false. cbv iota. cbn [video_mem].
    rewrite u32_small by (unfold VIDEO; lia). done. }
  unfold cleared. generalize dependent blank_mem. intros m H.
  constructor; unfold blank; cbn [cells row col]; upd; try done; try lia.
  - by apply Forall_replicate.
  - intros i Hi. unfold cell. cbn [cells]. rewrite Forall_forall in H.
    destruct (H i) as [H1 H2]; [by apply elem_of_seqZ|]. rewrite lget_replicate by (change (Z.of_nat 2000) with 2000; lia). by rewrite H1, H2.
Qed.

Lemma screen_refines_display_witness :
  wp (do_ops [Write (replicate 81 65); Erase; Write [66]; NextLine]) (fun _ s' =>
    screen_y (s_scr s') = 2 /\ screen_x (s_scr s') = 0 /\
    mem_get (s_mem s') (VIDEO + 158) = 65 /\ mem_get (s_mem s') (VIDEO + 160) = 66) cleared.
Proof.
  eapply wp_mono.
  { apply (screen_refines_display VIDEO _ blank cleared cleared_shows).
    apply Forall_cons. split; [by apply Forall_replicate|]. apply Forall_cons. split; [exact I|].
    apply Forall_cons. split; [by apply Forall_singleton|]. by apply Forall_singleton. }
  cbv beta. intros _ s' [_ [_ _ _ _ _ [Hx Hy] M]].
  destruct (M 79 ltac:(lia)) as [M1 _]. destruct (M 80 ltac:(lia)) as [M2 _].
  assert (E : fold_left op_display [Write (replicate 81 65); Erase; Write [66]; NextLine] blank =
    mk_display (replicate 80 65 ++ 66 :: replicate 1919 32) 2 0) by (vm_compute; reflexivity).
  rewrite E in Hx, Hy, M1, M2. split; [exact Hy|]. split; [exact Hx|].
  change (cell _ 79) with (Some 65) in M1. change (cell _ 80) with (Some 66) in M2.
  change (VIDEO + 2 * 79) with (VIDEO + 158) in M1. change (VIDEO + 2 * 80) with (VIDEO + 160) in M2.
  split; congruence.
Defined.
