(* ===== verification/ProcessSpec.v ===== *)
(** * The life of a process: creation, program start, halt *)
From S2P Require Import Prelude State Monad Logic Strings Screen Proc ProcSpec Fs FsSpec Terminal Keyboard EditorSpec KeyboardSpec Interrupts Syscalls PagingSpec SchedSpec Kernel Demo DriverSpec InputSpec.

(** Abbreviates the current state. *)
Ltac name_state x :=
  cbv beta; match goal with
  | |- wp _ _ ?s => set (x := s)
  | |- stops _ _ ?s => set (x := s)
  end.

(** ** Control blocks *)

Lemma with_pcb_twice pid f g s :
  with_pcb pid f (with_pcb pid g s) = with_pcb pid (fun b => f (g b)) s.
Proof.
  unfold with_pcb. etransitivity.
  - instantiate (1 := set s_proc (fun p => set control_blocks (alter f (Z.to_nat pid))
      (set control_blocks (alter g (Z.to_nat pid)) p)) s).
    by destruct s.
  - apply set_proc_ext. destruct (s_proc s). unfold set, control_blocks_upd. cbn.
    by rewrite list_alter_alter_eq.
Qed.

Lemma with_pcb_same pid f s b : pcb_at s pid = Some b -> f b = b -> with_pcb pid f s = s.
Proof.
  intros Hb Hf. rewrite (with_pcb_ext pid f (fun b => b) s b) by done.
  destruct s as [? p ? ? ? ? ? ? ? ? ?]. destruct p.
  unfold with_pcb, set, s_proc_upd, control_blocks_upd. cbn. by rewrite list_alter_id.
Qed.

Lemma pcb_at_with_pcb_eq s pid f b :
  pcb_at s pid = Some b -> pcb_at (with_pcb pid f s) pid = Some (f b).
Proof.
  intros H. pose proof (pcb_at_range _ _ _ H). rewrite pcb_at_with_pcb by done.
  by rewrite decide_True, H.
Qed.
Lemma pcb_at_with_pcb_ne s pid f pid' :
  0 <= pid -> 0 <= pid' -> pid <> pid' -> pcb_at (with_pcb pid f s) pid' = pcb_at s pid'.
Proof. intros. rewrite pcb_at_with_pcb by done. by rewrite decide_False. Qed.

Lemma set_args_ext b f g :
  f (pcb_args b) = g (pcb_args b) -> set pcb_args f b = set pcb_args g b.
Proof. intros E. destruct b. unfold set, pcb_args_upd. cbn in *. by rewrite E. Qed.
Lemma pcb_at_set_current s f p : pcb_at (set s_proc (set current_pid f) s) p = pcb_at s p.
Proof. unfold pcb_at. by upd. Qed.
Lemma pcb_at_set_count s f p :
  pcb_at (set s_proc (set num_active_processes f) s) p = pcb_at s p.
Proof. unfold pcb_at. by upd. Qed.

(** Descriptors from 2 on, free; and those before [i] only. *)
Definition freed_before (i : nat) (l : list fd_block_t) : list fd_block_t :=
  imap (fun j b => if decide (2 <= j < i)%nat then free_fd b else b) l.

Lemma freed_before_length i l : length (freed_before i l) = length l.
Proof. apply length_imap. Qed.

Lemma freed_before_lget i l j :
  0 <= j ->
  lget (freed_before i l) j =
    (fun b => if decide (2 <= Z.to_nat j < i)%nat then free_fd b else b) <$> lget l j.
Proof.
  intros Hj. unfold lget. rewrite !decide_True by done.
  unfold freed_before. by rewrite list_lookup_imap.
Qed.

Lemma freed_before_start l : freed_before 2 l = l.
Proof.
  apply list_eq_lget; [apply freed_before_length|]. intros j Hj.
  rewrite freed_before_lget by lia. rewrite freed_before_length in Hj.
  destruct (lget_Some l j Hj) as [b ->]. cbn. by rewrite decide_False by lia.
Qed.

Lemma freed_before_step i l b :
  2 <= i -> lget l i = Some b ->
  <[Z.to_nat i := free_fd b]> (freed_before (Z.to_nat i) l) = freed_before (Z.to_nat (i + 1)) l.
Proof.
  intros Hi Hb. pose proof (lget_range _ _ _ Hb). apply list_eq_lget.
  { by rewrite length_insert, !freed_before_length. }
  intros j Hj. rewrite length_insert, freed_before_length in Hj.
  rewrite lget_insert by (rewrite freed_before_length; lia).
  rewrite !freed_before_lget by lia. destruct (lget_Some l j Hj) as [b' Hb'].
  case_decide as Hij; [subst j|].
  - rewrite Hb. cbn. by rewrite decide_True by lia.
  - rewrite Hb'. cbn. repeat case_decide; done || lia.
Qed.

Section process_table.
Context {P : Platform}.
Implicit Types (s : kstate).

(** The loop that frees the descriptors of a new process. *)
Lemma wp_free_fds s pid b (Q : unit -> kstate -> Prop) :
  pcb_at s pid = Some b -> length (fd_table b) = 8%nat ->
  Q tt (with_pcb pid (set fd_table (freed_before 8)) s) ->
  wp (for_up 2 FDT_SIZE (fun i => upd_fd_of pid i free_fd)) Q s.
Proof.
  intros Hb Hl HQ. eapply wp_mono.
  { apply (wp_for_up 2 FDT_SIZE _ (fun i s' =>
      s' = with_pcb pid (set fd_table (freed_before (Z.to_nat i))) s)); [done| |].
    - symmetry. eapply with_pcb_same; [exact Hb|].
      rewrite (set_fd_table_ext b _ (fun l => l)); [by destruct b|].
      apply freed_before_start.
    - unfold FDT_SIZE. intros i s' Hi ->.
      destruct (lget_Some (fd_table b) i) as [blk Hblk]; [lia|].
      eapply wp_upd_fd_of with (blk := blk).
      { unfold fd_at. erewrite pcb_at_with_pcb_eq by exact Hb. cbn. upd.
        rewrite freed_before_lget, Hblk by lia. cbn. by rewrite decide_False by lia. }
      unfold with_fd. rewrite with_pcb_twice. eapply with_pcb_ext; [exact Hb|].
      destruct b. unfold set, fd_table_upd. cbn in *. f_equal.
      by apply freed_before_step; [lia|]. }
  cbv beta. by intros [] s' ->.
Qed.

(** ** Choice of the process number *)

(** The lowest free process number. *)
Definition free_pid s (pid : Z) : Prop :=
  1 <= pid < 7 /\ (exists b, pcb_at s pid = Some b /\ pcb_pid b = -1) /\
  forall j, 1 <= j < pid -> exists b, pcb_at s j = Some b /\ pcb_pid b <> -1.

Lemma get_pcb_Ret s pid b : pcb_at s pid = Some b -> get_pcb pid s = Ret b s.
Proof.
  intros H. pose proof (wp_get_pcb s pid b (fun b' s' => b' = b /\ s' = s) H
    (conj eq_refl eq_refl)) as Hw.
  apply wp_Ret in Hw as (b' & s' & -> & -> & ->). done.
Qed.

Lemma find_free_pid_found s pid n : forall i,
  free_pid s pid -> 1 <= i <= pid -> pid < i + Z.of_nat n ->
  find_free_pid n i s = Ret (Some pid) s.
Proof.
  induction n as [|n IH]; intros i F Hi Hn; [lia|]. cbn [find_free_pid].
  destruct F as (Hr & (b & Hb & Hfree) & Hless).
  destruct (decide (i = pid)) as [->|Hne].
  - erewrite bind_Ret by (by apply get_pcb_Ret). by rewrite Hfree.
  - destruct (Hless i) as (b' & Hb' & Hused); [lia|].
    erewrite bind_Ret by (by apply get_pcb_Ret).
    rewrite (proj2 (Z.eqb_neq _ _)) by done. apply IH; [|lia|lia].
    split; [done|]. eauto.
Qed.

Lemma find_free_pid_none s n : forall i,
  (forall j, i <= j < i + Z.of_nat n -> exists b, pcb_at s j = Some b /\ pcb_pid b <> -1) ->
  find_free_pid n i s = Ret None s.
Proof.
  induction n as [|n IH]; intros i Hused; [done|]. cbn [find_free_pid].
  destruct (Hused i) as (b & Hb & Hne); [lia|].
  erewrite bind_Ret by (by apply get_pcb_Ret). rewrite (proj2 (Z.eqb_neq _ _)) by done.
  apply IH. intros j Hj. apply Hused. lia.
Qed.

(** ** Arguments *)

(** The arguments of [pid] are [a]. *)
Definition with_args (pid : Z) (a : list Z) s : kstate :=
  with_pcb pid (set pcb_args (fun _ => a)) s.

Lemma with_args_twice pid a a' s : with_args pid a (with_args pid a' s) = with_args pid a s.
Proof. unfold with_args. rewrite with_pcb_twice. done. Qed.
Lemma with_args_same pid s b : pcb_at s pid = Some b -> with_args pid (pcb_args b) s = s.
Proof. intros H. eapply with_pcb_same; [exact H|]. by destruct b. Qed.
Lemma pcb_at_with_args s pid a b :
  pcb_at s pid = Some b -> pcb_at (with_args pid a s) pid = Some (set pcb_args (fun _ => a) b).
Proof. apply pcb_at_with_pcb_eq. Qed.

Lemma wp_set_nth_arg s pid i c b (Q : unit -> kstate -> Prop) :
  pcb_at s pid = Some b -> 0 <= i < Z.of_nat (length (pcb_args b)) ->
  Q tt (with_args pid (<[Z.to_nat i := c]> (pcb_args b)) s) -> wp (set_nth_arg pid i c) Q s.
Proof.
  intros Hb Hi HQ. unfold set_nth_arg. wp_pure. eapply wp_get_pcb; [exact Hb|]. wp_pure.
  apply wp_aset; [done|]. by eapply wp_upd_pcb.
Qed.

Lemma strlen_zero a : forall k, strlen a = Some k ->
  0 <= k /\ lget a k = Some 0 /\ forall i, 0 <= i < k -> exists c, lget a i = Some c /\ c <> 0.
Proof.
  induction a as [|c a IH]; intros k; cbn [strlen]; [done|].
  destruct (Z.eqb_spec c 0) as [->|Hc].
  { intros [= <-]. split; [lia|]. split; [done|]. intros; lia. }
  destruct (strlen a) as [n|]; [|done]. intros [= <-].
  destruct (IH n eq_refl) as (Hn & Hz & Hnz). split; [lia|].
  rewrite lget_cons by lia. rewrite decide_False by lia.
  split; [by rewrite Z.add_simpl_r|]. intros i Hi. rewrite lget_cons by lia.
  case_decide; [by exists c|]. apply Hnz. lia.
Qed.

Lemma wp_clear_args_loop pid b k s n : forall i,
  pcb_at s pid = Some b -> strlen (pcb_args b) = Some k ->
  0 <= i <= k -> k - i < Z.of_nat n ->
  wp (clear_args_loop n i pid)
    (fun _ s' => s' = with_args pid (replicate (Z.to_nat k) 0 ++ drop (Z.to_nat k) (pcb_args b)) s)
    (with_args pid (replicate (Z.to_nat i) 0 ++ drop (Z.to_nat i) (pcb_args b)) s).
Proof.
  intros i Hb Hk. destruct (strlen_zero _ _ Hk) as (Hk0 & Hz & Hnz).
  pose proof (lget_range _ _ _ Hz) as Hlen. revert i.
  induction n as [|n IH]; intros i Hi Hn; [lia|]. cbn [clear_args_loop].
  set (row := replicate (Z.to_nat i) 0 ++ drop (Z.to_nat i) (pcb_args b)).
  assert (Hget : lget row i = lget (pcb_args b) i).
  { unfold row, lget. rewrite !decide_True by lia.
    rewrite lookup_app_r by (rewrite length_replicate; lia).
    rewrite length_replicate, Nat.sub_diag, lookup_drop. f_equal. lia. }
  wp_pure. eapply wp_get_pcb; [by eapply pcb_at_with_args|]. upd.
  destruct (decide (i = k)) as [->|Hne].
  - wp_pure. eapply wp_aget_Some; [by rewrite Hget|]. cbn. by apply wp_ret.
  - destruct (Hnz i) as (c & Hc & Hc0); [lia|].
    wp_pure. eapply wp_aget_Some; [by rewrite Hget|]. rewrite (proj2 (Z.eqb_neq c 0)) by done.
    wp_pure. eapply wp_set_nth_arg; [by eapply pcb_at_with_args| |]; upd.
    { unfold row. autorewrite with arr. lia. }
    rewrite with_args_twice. unfold row. rewrite fill_step by lia.
    replace (S (Z.to_nat i)) with (Z.to_nat (i + 1)) by lia. apply IH; lia.
Qed.

(** [clear_args] blanks the arguments up to their end. *)
Lemma wp_clear_args s b k (Q : unit -> kstate -> Prop) :
  pcb_at s (current_pid (s_proc s)) = Some b -> strlen (pcb_args b) = Some k ->
  (length (pcb_args b) <= 1024)%nat ->
  Q tt (with_args (current_pid (s_proc s))
    (replicate (Z.to_nat k) 0 ++ drop (Z.to_nat k) (pcb_args b)) s) ->
  wp clear_args Q s.
Proof.
  intros Hb Hk Hl HQ. destruct (strlen_zero _ _ Hk) as (Hk0 & Hz & _).
  pose proof (lget_range _ _ _ Hz). unfold clear_args, get_current_pid. wp_pures.
  eapply wp_mono.
  { pose proof (wp_clear_args_loop (current_pid (s_proc s)) b k s
      (Z.to_nat ARGS_BUFFER_SIZE) 0 Hb Hk ltac:(lia)) as W.
    change (Z.to_nat 0) with 0%nat in W. cbn [replicate app] in W. rewrite drop_0 in W.
    rewrite (with_args_same _ _ _ Hb) in W. apply W. unfold ARGS_BUFFER_SIZE. lia. }
  cbv beta. by intros [] s' ->.
Qed.

(** ** A new process *)

(** The control block of process [pid], started by [parent]. *)
Definition new_block (pid parent : Z) (b : pcb_t) : pcb_t :=
  set fd_table (freed_before 8) (set pcb_parent (fun _ => parent)
    (set pcb_pid (fun _ => pid) b)).

(** One more process; the arguments of the current one are cleared. *)
Definition created (pid parent : Z) (args : list Z) s : kstate :=
  with_args (current_pid (s_proc s)) args
    (set s_proc (set num_active_processes (fun n => n + 1))
      (with_pcb pid (new_block pid parent) s)).

Lemma wp_create_new_pcb s pid parent cur k (Q : Z -> kstate -> Prop) :
  free_pid s pid -> (forall b, pcb_at s pid = Some b -> length (fd_table b) = 8%nat) ->
  pcb_at s (current_pid (s_proc s)) = Some cur -> current_pid (s_proc s) <> pid ->
  strlen (pcb_args cur) = Some k -> (length (pcb_args cur) <= 1024)%nat ->
  Q pid (created pid parent
    (replicate (Z.to_nat k) 0 ++ drop (Z.to_nat k) (pcb_args cur)) s) ->
  wp (create_new_pcb parent) Q s.
Proof.
  intros F Hfds Hcur Hne Hk Hl HQ. pose proof F as (Hr & (b & Hb & _) & _).
  specialize (Hfds b Hb). pose proof (pcb_at_range _ _ _ Hcur). unfold create_new_pcb.
  eapply wp_bind_Ret.
  { apply (find_free_pid_found s pid); [done|lia|].
    change (Z.to_nat (TOTAL_PROCESSES - 1)) with 6%nat. lia. }
  cbv beta iota. wp_pure. eapply wp_upd_pcb; [exact Hb|].
  wp_pure. eapply wp_upd_pcb; [by apply pcb_at_with_pcb_eq|]. rewrite with_pcb_twice.
  wp_pure. eapply wp_free_fds; [by apply pcb_at_with_pcb_eq|by upd|]. rewrite with_pcb_twice.
  unfold proc_set. wp_pures.
  match goal with |- wp _ _ ?s1_ => set (s1 := s1_) end.
  assert (Hcur1 : pcb_at s1 (current_pid (s_proc s1)) = Some cur).
  { change (pcb_at s1 (current_pid (s_proc s1))) with
      (pcb_at (with_pcb pid (new_block pid parent) s) (current_pid (s_proc s))).
    rewrite pcb_at_with_pcb_ne by (done || lia). done. }
  eapply wp_clear_args; [exact Hcur1|exact Hk|done|]. wp_pure. exact HQ.
Qed.

(** ** Clearing the history of a process *)

Definition with_history (pid : Z) (h : list (list Z)) s : kstate :=
  set s_kbd (set history (alter (fun _ => h) (Z.to_nat pid))) s.
Definition history_of s (pid : Z) : option (list (list Z)) := lget (history (s_kbd s)) pid.

Lemma set_kbd_chain s f g : set s_kbd f (set s_kbd g s) = set s_kbd (fun k => f (g k)) s.
Proof. by destruct s. Qed.
Lemma set_kbd_ext s f g : f (s_kbd s) = g (s_kbd s) -> set s_kbd f s = set s_kbd g s.
Proof. intros E. destruct s. unfold set, s_kbd_upd. cbn in *. by rewrite E. Qed.

Lemma with_history_twice s pid h h' :
  with_history pid h (with_history pid h' s) = with_history pid h s.
Proof.
  apply set_kbd_twice, kbd_ext; upd; try done. by rewrite list_alter_alter_eq.
Qed.
Lemma with_history_same s pid h : history_of s pid = Some h -> with_history pid h s = s.
Proof.
  unfold history_of, lget. case_decide; [|done]. intros Hh.
  apply set_kbd_id, kbd_ext; upd; try done. apply list_eq. intros n.
  destruct (decide (n = Z.to_nat pid)) as [->|].
  - by rewrite list_lookup_alter_eq, Hh.
  - by rewrite list_lookup_alter_ne.
Qed.
Lemma history_of_with s pid h h0 :
  history_of s pid = Some h0 -> history_of (with_history pid h s) pid = Some h.
Proof.
  unfold history_of, with_history. intros H. pose proof (lget_range _ _ _ H). upd.
  rewrite lget_alter by lia. by rewrite decide_True, H.
Qed.

Lemma wp_put_history_row s pid j i c h (Q : unit -> kstate -> Prop) :
  history_of s pid = Some h -> is_Some (lget2 h j i) ->
  Q tt (with_history pid (row_set j i c h) s) -> wp (put_history pid j i c) Q s.
Proof.
  unfold history_of. intros Hh [w Hw] HQ. unfold put_history, get_kbd, kbd_set. wp_pures.
  eapply wp_aget_Some; [exact Hh|]. wp_pures.
  eapply wp_of_opt; [by eapply lset2_row_set|]. wp_pures.
  eapply wp_of_opt; [by eapply (lset_alter _ _ (fun _ => row_set j i c h))|].
  wp_pures. exact HQ.
Qed.

(** 20 entries of 128 bytes; the first [n] cells, in order, are blank. *)
Definition blank_before (n : Z) (h : list (list Z)) : Prop :=
  forall a b, 0 <= a < 20 -> 0 <= b < 128 ->
    is_Some (lget2 h a b) /\ (a * 128 + b < n -> lget2 h a b = Some 0).

Lemma blank_step h a b :
  blank_before (a * 128 + b) h -> 0 <= a < 20 -> 0 <= b < 128 ->
  blank_before (a * 128 + b + 1) (row_set a b 0 h).
Proof.
  intros H Ha Hb a' b' Ha' Hb'. destruct (H a b Ha Hb) as [[w Hw] _].
  erewrite lget2_row_set by (done || lia). case_decide as E; [by split|].
  destruct (H a' b' Ha' Hb') as [H1 H2]. split; [done|]. intros. apply H2.
  destruct (decide (a = a')), (decide (b = b')); subst; tauto || lia.
Qed.

Lemma wp_clear_history_buffer s pid h (Q : unit -> kstate -> Prop) :
  history_of s pid = Some h -> blank_before 0 h ->
  0 <= pid < Z.of_nat (length (historyIDX (s_kbd s))) ->
  0 <= pid < Z.of_nat (length (historyBASE (s_kbd s))) ->
  0 <= pid < Z.of_nat (length (historySIZE (s_kbd s))) ->
  (forall h', blank_before 2560 h' ->
    Q tt (set s_kbd (fun k =>
      set historySIZE (<[Z.to_nat pid := 0]>) (set historyBASE (<[Z.to_nat pid := 0]>)
        (set historyIDX (<[Z.to_nat pid := 0]>) k))) (with_history pid h' s))) ->
  wp (clear_history_buffer pid) Q s.
Proof.
  intros Hh Hb Hi1 Hi2 Hi3 HQ. unfold clear_history_buffer. wp_pure. eapply wp_mono.
  { apply (wp_for_up 0 NUM_HISTORY_BUFFERS _ (fun i s' => exists h',
      blank_before (i * 128) h' /\ s' = with_history pid h' s)); [done| |].
    - exists h. split; [done|]. by rewrite with_history_same.
    - unfold NUM_HISTORY_BUFFERS. intros i s' Hi (h1 & Hb1 & ->). eapply wp_mono.
      { apply (wp_for_up 0 MAX_BUFFER_SIZE _ (fun j s' => exists h',
          blank_before (i * 128 + j) h' /\ s' = with_history pid h' s)); [done| |].
        - exists h1. by rewrite Z.add_0_r.
        - unfold MAX_BUFFER_SIZE. intros j s' Hj (h2 & Hb2 & ->).
          eapply wp_put_history_row; [by eapply history_of_with|by apply (Hb2 i j)|].
          rewrite with_history_twice. eexists. split; [|done]. rewrite Z.add_assoc.
          by apply blank_step. }
      cbv beta. unfold MAX_BUFFER_SIZE. intros _ s' (h2 & Hb2 & ->). exists h2.
      split; [|done]. by replace ((i + 1) * 128) with (i * 128 + 128) by lia. }
  cbv beta. unfold NUM_HISTORY_BUFFERS. intros _ s' (h' & Hb' & ->).
  unfold put_historyIDX, put_historyBASE, put_historySIZE, get_kbd, kbd_set. wp_pures.
  apply wp_aset; [exact Hi1|]. wp_pures. apply wp_aset; [exact Hi2|]. wp_pures.
  apply wp_aset; [exact Hi3|]. wp_pures. specialize (HQ h' Hb').
  rewrite !set_kbd_chain. erewrite set_kbd_ext; [exact HQ|]. by apply kbd_ext; upd.
Qed.

(** ** Starting a program *)

(** [strncmp] with "shell" tells the shell from every other name. *)
Lemma shell_name cmd :
  Forall (fun c => 0 < c < 256) cmd ->
  exists r, strncmp (cmd ++ [0]) (text "shell" ++ [0]) 5 = Some r /\
    (r =? 0) && (length cmd =? length (text "shell"))%nat = bool_decide (cmd = text "shell").
Proof.
  intros Hcmd. unfold strncmp. change (Z.to_nat (u32 5)) with 5%nat.
  destruct (strncmp_loop_cstring 5 (cmd ++ [0]) (text "shell" ++ [0]) cmd (text "shell"))
    as (r & Hr & Hiff).
  { split; [done|]. by exists []. }
  { split; [|by exists []]. by repeat constructor. }
  exists r. split; [done|]. symmetry. destruct (decide (cmd = text "shell")) as [->|Hne].
  - rewrite bool_decide_eq_true_2 by done. rewrite (proj2 Hiff eq_refl). done.
  - rewrite bool_decide_eq_false_2 by done. symmetry. apply not_true_iff_false.
    intros [H1%Z.eqb_eq H2%Nat.eqb_eq]%andb_prop. apply Hne. apply Hiff in H1.
    rewrite !take_ge in H1; [done|done|]. by rewrite H2.
Qed.

Lemma wp_note_shell s cmd pid (Q : unit -> kstate -> Prop) :
  Forall (fun c => 0 < c < 256) cmd ->
  0 <= current_terminal (s_term s) < Z.of_nat (length (shell_pid (s_sched s))) ->
  Q tt (set s_sched (set shell_pid (fun l => if bool_decide (cmd = text "shell")
    then <[Z.to_nat (current_terminal (s_term s)) := pid]> l else l)) s) ->
  wp (note_shell cmd pid) Q s.
Proof.
  intros Hcmd Hct HQ. destruct (shell_name cmd Hcmd) as (r & Hr & Hiff).
  unfold note_shell. wp_pure. eapply wp_of_opt; [exact Hr|]. rewrite Hiff.
  destruct (bool_decide (cmd = text "shell")).
  - unfold get_current_terminal, sched_set. wp_pures. apply wp_aset; [done|]. wp_pures.
    erewrite set_sched_ext; [exact HQ|]. by destruct (s_sched s).
  - wp_pures. erewrite <-(set_sched_id s). erewrite set_sched_ext; [exact HQ|].
    by destruct (s_sched s).
Qed.

(** The arguments of a new process: what follows the spaces after the command
    word, over what the block held. *)
Definition args_after (rest old : list Z) (k : Z) : list Z :=
  match skip_spaces rest with
  | [] => replicate (Z.to_nat k) 0 ++ drop (Z.to_nat k) old
  | a => a ++ drop (length a) old
  end.

Lemma skip_spaces_Forall (R : Z -> Prop) l : Forall R l -> Forall R (skip_spaces l).
Proof.
  induction 1 as [|c l Hc Hl IH]; cbn; [done|]. case_match; [done|]. by constructor.
Qed.
Lemma skip_spaces_length l : (length (skip_spaces l) <= length l)%nat.
Proof. induction l as [|c l IH]; cbn; [done|]. case_match; cbn; lia. Qed.

Lemma wp_copy_args s pid rest b k (Q : unit -> kstate -> Prop) :
  pcb_at s pid = Some b -> current_pid (s_proc s) = pid ->
  strlen (pcb_args b) = Some k -> length (pcb_args b) = 1024%nat ->
  Forall (fun c => 0 < c < 256) rest -> (length rest < 128)%nat ->
  Q tt (with_args pid (args_after rest (pcb_args b) k) s) ->
  wp (copy_args pid rest) Q s.
Proof.
  intros Hb Hcur Hk Hl Hrest Hlen HQ. unfold copy_args, args_after in *.
  pose proof (skip_spaces_Forall _ _ Hrest) as Ha. pose proof (skip_spaces_length rest).
  destruct (skip_spaces rest) as [|c a'].
  - subst pid. by eapply wp_clear_args; [exact Hb|exact Hk|lia|].
  - set (a := c :: a') in *. wp_pure. eapply wp_get_pcb; [exact Hb|]. wp_pure.
    eapply wp_of_opt; [|eapply wp_upd_pcb; [exact Hb|exact HQ]].
    unfold strncpy. rewrite u32_small by lia. rewrite Nat2Z.id.
    rewrite (strncpy_loop_cstring _ _ _ a) by (lia || (split; [done|by exists []])).
    rewrite take_ge, Nat.sub_diag by done. done.
Qed.

Lemma wp_put_schedule_top s t v (Q : unit -> kstate -> Prop) :
  0 <= t < Z.of_nat (length (schedule_top (s_sched s))) ->
  Q tt (set s_sched (set schedule_top (<[Z.to_nat t := v]>)) s) -> wp (put_schedule_top t v) Q s.
Proof.
  intros Ht HQ. unfold put_schedule_top, sched_set. wp_pures. apply wp_aset; [done|]. wp_pures.
  erewrite set_sched_ext; [exact HQ|]. by destruct (s_sched s).
Qed.
Lemma wp_put_schedule_stack s t j v w (Q : unit -> kstate -> Prop) :
  lget2 (schedule_stack (s_sched s)) t j = Some w ->
  Q tt (set s_sched (set schedule_stack (row_set t j v)) s) ->
  wp (put_schedule_stack t j v) Q s.
Proof.
  intros Hw HQ. unfold put_schedule_stack, sched_set. wp_pures.
  eapply wp_of_opt; [by eapply lset2_row_set|]. wp_pures.
  erewrite set_sched_ext; [exact HQ|]. by destruct (s_sched s).
Qed.

(** [schedule] pushes the current process on the displayed terminal's stack. *)
Lemma wp_schedule s top (Q : unit -> kstate -> Prop) :
  let ct := current_terminal (s_term s) in
  let pid := current_pid (s_proc s) in
  lget (schedule_top (s_sched s)) ct = Some top ->
  is_Some (lget2 (schedule_stack (s_sched s)) ct top) -> 0 <= pid < 256 ->
  Q tt (set s_sched (fun sc => set schedule_stack (row_set ct top pid)
    (set schedule_top (<[Z.to_nat ct := top + 1]>) sc)) s) ->
  wp schedule Q s.
Proof.
  intros ct pid Htop [w Hw] Hpid HQ. unfold schedule, get_current_terminal, get_schedule_top,
    get_current_pid.
  wp_pures. eapply wp_aget_Some; [exact Htop|]. wp_pures.
  apply wp_put_schedule_top; [by eapply lget_range|]. wp_pures.
  eapply wp_put_schedule_stack; [upd; exact Hw|]. upd. fold pid ct.
  rewrite u8_small by done. rewrite set_sched_twice. exact HQ.
Qed.

(** What a new process needs: a free block whose arguments end, the tables of
    the pages, the displayed terminal's line and schedule. *)
Record spawn_ready s (pid top : Z) (b cur : pcb_t) : Prop := {
  sr_free : free_pid s pid;
  sr_block : pcb_at s pid = Some b;
  sr_fds : length (fd_table b) = 8%nat;
  sr_args : length (pcb_args b) = 1024%nat /\ is_Some (strlen (pcb_args b));
  sr_parent : pcb_at s (current_pid (s_proc s)) = Some cur;
  sr_parent_args : (length (pcb_args cur) <= 1024)%nat /\ is_Some (strlen (pcb_args cur));
  sr_distinct : current_pid (s_proc s) <> pid;
  sr_terminal : 0 <= current_terminal (s_term s) < 3;
  sr_lengths : length (shell_pid (s_sched s)) = 3%nat /\
    length (terminal_running (s_term s)) = 3%nat /\
    length (bufferIDX (s_kbd s)) = 3%nat /\ length (bufferSIZE (s_kbd s)) = 3%nat /\
    length (historyIDX (s_kbd s)) = 7%nat /\ length (historyBASE (s_kbd s)) = 7%nat /\
    length (historySIZE (s_kbd s)) = 7%nat;
  sr_pages : length (process_pages (s_pag s)) = 1024%nat;
  sr_tables : length (process_tables (s_pag s)) = 1024%nat;
  sr_paging : paging_on (s_pag s) = true;
  sr_line : exists row, lget (buffer (s_kbd s)) (current_terminal (s_term s)) = Some row /\
    length row = 128%nat;
  sr_history : exists h, history_of s pid = Some h /\ blank_before 0 h;
  sr_top : lget (schedule_top (s_sched s)) (current_terminal (s_term s)) = Some top;
  sr_stack : is_Some (lget2 (schedule_stack (s_sched s)) (current_terminal (s_term s)) top);
}.

(** The block of the program: [temp] is the parent's stack, [rest] the command
    line after the command word. *)
Definition program_block (pid parent temp : Z) (rest : list Z) (b : pcb_t) : pcb_t :=
  set pcb_args (fun old => args_after rest old (default 0 (strlen old)))
    (set pcb_esp (fun _ => kernel_stack_of pid) (set pcb_ss (fun _ => KERNEL_DS)
      (set stack_pos (fun _ => temp) (new_block pid parent b)))).

(** Process [pid] has been started on [image], from [s]. *)
Record started s (pid top temp : Z) (rest image : list Z) (b : pcb_t) s' : Prop := {
  st_pid : current_pid (s_proc s') = pid;
  st_count : num_active_processes (s_proc s') = num_active_processes (s_proc s) + 1;
  st_block : pcb_at s' pid = Some (program_block pid (current_pid (s_proc s)) temp rest b);
  st_others : forall p, 0 <= p -> p <> pid -> p <> current_pid (s_proc s) ->
    pcb_at s' p = pcb_at s p;
  st_parent : exists cur fds args, pcb_at s (current_pid (s_proc s)) = Some cur /\
    pcb_at s' (current_pid (s_proc s)) =
      Some (set pcb_args (fun _ => args) (set fd_table (fun _ => fds) cur));
  st_runs : runs_program s' pid VIDEO;
  st_fresh : tlb_stale (s_pag s') = false;
  st_mem : s_mem s' = put_bytes (M_4 * (pid + 1) + 0x48000) image (s_mem s);
  st_top : schedule_top (s_sched s') =
    <[Z.to_nat (current_terminal (s_term s)) := top + 1]> (schedule_top (s_sched s));
  st_stack : schedule_stack (s_sched s') =
    row_set (current_terminal (s_term s)) top pid (schedule_stack (s_sched s));
  st_tss : esp0 (tss (s_hw s')) = kernel_stack_of pid /\ ss0 (tss (s_hw s')) = KERNEL_DS;
  st_video : video_mem (s_scr s') = VIDMAP;
  st_fs : s_fs s' = s_fs s;
}.

Lemma with_pcb_proc pid f s s' : s_proc s' = s_proc s ->
  s_proc (with_pcb pid f s') = s_proc (with_pcb pid f s).
Proof. intros E. unfold with_pcb. upd. by rewrite E. Qed.

(** The window of the program, once its tables are loaded. *)
Lemma program_window s pid vid :
  runs_program s pid vid -> display_page vid -> 0 <= pid < 256 -> tlb_stale (s_pag s) = false ->
  linear s VIRTUAL_START 0x3B8000 (M_4 * (pid + 1) + 0x48000).
Proof.
  intros R V Hpid Ht. split; [done|]. intros o Ho.
  rewrite (runs_program_phys s pid vid) by done. unfold address_space, VIRTUAL_START, M_4.
  rewrite u32_small by lia. repeat (rewrite decide_False by lia).
  rewrite decide_True by lia. f_equal. lia.
Qed.

Lemma wp_mark_running s t r :
  0 <= t < Z.of_nat (length (terminal_running (s_term s))) ->
  wp (if r =? 0 then put_terminal_running t 1 else ret tt)
    (fun _ s' => exists l, s' = set s_term (set terminal_running (fun _ => l)) s) s.
Proof.
  intros Ht. case_match.
  - unfold put_terminal_running, term_set. wp_pures. apply wp_aset; [done|]. wp_pures. by eexists.
  - apply wp_ret. exists (terminal_running (s_term s)).
    destruct s as [? ? ? ? tm ? ? ? ? ? ?]. by destruct tm.
Qed.

(** The last part of [execute]: the image is copied, the process scheduled, and
    the processor enters it. *)
Lemma stops_load_program s pid top h row buf (Q : stop -> kstate -> Prop) :
  let ct := current_terminal (s_term s) in
  current_pid (s_proc s) = pid -> 0 <= pid < 7 -> 0 <= ct < 3 ->
  length (process_pages (s_pag s)) = 1024%nat ->
  length (process_tables (s_pag s)) = 1024%nat -> paging_on (s_pag s) = true ->
  lget (buffer (s_kbd s)) ct = Some row -> length row = 128%nat ->
  length (bufferIDX (s_kbd s)) = 3%nat -> length (bufferSIZE (s_kbd s)) = 3%nat ->
  history_of s pid = Some h -> blank_before 0 h ->
  length (historyIDX (s_kbd s)) = 7%nat -> length (historyBASE (s_kbd s)) = 7%nat ->
  length (historySIZE (s_kbd s)) = 7%nat -> length (terminal_running (s_term s)) = 3%nat ->
  lget (schedule_top (s_sched s)) ct = Some top ->
  is_Some (lget2 (schedule_stack (s_sched s)) ct top) ->
  (Z.to_nat exec_length <= length buf)%nat ->
  let image := take (Z.to_nat exec_length) buf in
  (forall s', s_proc s' = s_proc s -> runs_program s' pid VIDEO -> tlb_stale (s_pag s') = false ->
    s_mem s' = put_bytes (M_4 * (pid + 1) + 0x48000) image (s_mem s) ->
    s_sched s' = set schedule_stack (row_set ct top pid)
      (set schedule_top (<[Z.to_nat ct := top + 1]>) (s_sched s)) ->
    tss (s_hw s') = tss (s_hw s) -> video_mem (s_scr s') = VIDMAP -> s_fs s' = s_fs s ->
    Q (Iret (le_word (mem_bytes (s_mem s') (M_4 * (pid + 1) + 0x48018) 4))) s') ->
  stops (program_paging pid ;; clear_keyboard_buffer ;; clear_history_buffer pid ;;
    flush_tlb ;; set_video_mem VIDMAP ;; store_bytes VIRTUAL_START image ;;
    entry <- load_bytes ENTRY_START 4 ;;
    ct <- get_current_terminal ;;
    tr <- gets (fun s => terminal_running (s_term s)) ;;
    r <- aget tr ct ;;
    (if r =? 0 then put_terminal_running ct 1 else ret tt) ;;
    schedule ;;
    hw_set (set cpu_ds (fun _ => USER_DS)) ;;
    @stop_with Z (Iret (le_word entry))) Q s.
Proof.
  intros ct Hcp Hpid Hct Lp Lt Hon Hrow Lrow Li Ls Hh Hbl L1 L2 L3 Ltr Htop Hst Hbuf image HQ.
  eapply stops_bind_Ret; [apply program_paging_Ret; (done || lia)|].
  set (s1 := with_paging _ _ s).
  wp_pure. eapply (wp_clear_keyboard_buffer s1 ct row); try done;
    [change (s_kbd s1) with (s_kbd s); rewrite ?Li, ?Ls; lia..|].
  name_state s2.
  wp_pure. eapply (wp_clear_history_buffer s2 pid h); try done;
    [change (historyIDX _) with (historyIDX (s_kbd s)); rewrite L1; lia
    |change (historyBASE _) with (historyBASE (s_kbd s)); rewrite L2; lia
    |change (historySIZE _) with (historySIZE (s_kbd s)); rewrite L3; lia|].
  intros h' _.
  unfold flush_tlb, pag_set, set_video_mem, scr_set. wp_pures.
  name_state s3.
  assert (R3 : runs_program s3 pid VIDEO) by (constructor; [reflexivity|reflexivity|exact Hon]).
  assert (V : display_page VIDEO) by (by left).
  assert (W3 := program_window s3 pid VIDEO R3 V ltac:(lia) eq_refl).
  assert (Limg : Z.of_nat (length image) <= 10000).
  { unfold image. rewrite length_take. change (Z.to_nat exec_length) with (Z.to_nat 10000). lia. }
  replace VIRTUAL_START with (VIRTUAL_START + 0) by lia.
  eapply wp_store_bytes_linear; [exact W3|lia|lia|]. rewrite Z.add_0_r. wp_pures.
  name_state s4.
  replace ENTRY_START with (VIRTUAL_START + 24) by done.
  apply (wp_load_bytes_linear s4 VIRTUAL_START 0x3B8000 (M_4 * (pid + 1) + 0x48000) 4 24);
    [apply (linear_pag s3); [unfold s4; clearbody s3; by upd|exact W3]|lia|lia|].
  unfold get_current_terminal. wp_pures.
  change (current_terminal (s_term s4)) with ct. change (s_term s4) with (s_term s).
  apply wp_aget; [rewrite Ltr; lia|]. intros r _. wp_pures.
  eapply wp_mono; [apply (wp_mark_running s4 ct r); change (s_term s4) with (s_term s);
    rewrite Ltr; lia|].
  cbv beta. intros _ s5 [l ->]. wp_pure.
  eapply (wp_schedule _ top); [exact Htop|exact Hst|change (0 <= current_pid (s_proc s) < 256); lia|].
  unfold hw_set. wp_pures.
  replace (M_4 * (pid + 1) + 0x48000 + 24) with (M_4 * (pid + 1) + 0x48018) by lia.
  match goal with |- Q _ ?s6_ => set (s6 := s6_) end. change (s_mem s4) with (s_mem s6).
  apply HQ; try done.
  change (s_sched s6) with (set schedule_stack (row_set ct top (current_pid (s_proc s)))
    (set schedule_top (<[Z.to_nat ct := top + 1]>) (s_sched s))). by rewrite Hcp.
Qed.

Lemma free_pid_range s pid : free_pid s pid -> 1 <= pid < 7.
Proof. by intros []. Qed.

(** The first part: the block of the new process. *)
Lemma stops_new_process {A} s pid top b cur cmd rest temp (k : Z -> M A) Q :
  spawn_ready s pid top b cur ->
  Forall (fun c => 0 < c < 256) cmd -> Forall (fun c => 0 < c < 256) rest ->
  (length rest < 128)%nat ->
  (forall s1, current_pid (s_proc s1) = pid ->
    num_active_processes (s_proc s1) = num_active_processes (s_proc s) + 1 ->
    pcb_at s1 pid = Some (program_block pid (current_pid (s_proc s)) temp rest b) ->
    (forall p, 0 <= p -> p <> pid -> p <> current_pid (s_proc s) -> pcb_at s1 p = pcb_at s p) ->
    (exists args, pcb_at s1 (current_pid (s_proc s)) = Some (set pcb_args (fun _ => args) cur)) ->
    s_pag s1 = s_pag s -> s_mem s1 = s_mem s -> s_kbd s1 = s_kbd s -> s_term s1 = s_term s ->
    s_fs s1 = s_fs s -> (exists l, s_sched s1 = set shell_pid (fun _ => l) (s_sched s)) ->
    esp0 (tss (s_hw s1)) = kernel_stack_of pid -> ss0 (tss (s_hw s1)) = KERNEL_DS ->
    stops (k pid) Q s1) ->
  stops (parent <- get_current_pid ;; pid <- create_new_pcb parent ;;
    proc_set (set current_pid (fun _ => pid)) ;;
    upd_pcb pid (set stack_pos (fun _ => temp)) ;;
    note_shell cmd pid ;;
    set_tss (set esp0 (fun _ => kernel_stack_of pid)) ;;
    set_tss (set ss0 (fun _ => KERNEL_DS)) ;;
    load_pcb pid KERNEL_DS (kernel_stack_of pid) ;;
    copy_args pid rest ;; k pid) Q s.
Proof.
  intros [F Hb Hfd [La [ka Hka]] Hcur [Lc [kc Hkc]] Hne Hct [Lsh _] _ _ _ _ _ _ _] Hcmd Hrest Hlen HQ.
  pose proof (free_pid_range _ _ F) as Hpid. pose proof (pcb_at_range _ _ _ Hcur) as Hcp.
  unfold get_current_pid. wp_pures.
  eapply (wp_create_new_pcb s pid (current_pid (s_proc s)) cur kc); try done.
  { intros b'. rewrite Hb. by intros [= <-]. }
  unfold proc_set. wp_pures. name_state s1.
  assert (B1 : pcb_at s1 pid = Some (new_block pid (current_pid (s_proc s)) b)).
  { unfold s1. rewrite pcb_at_set_current. unfold created, with_args.
    rewrite pcb_at_with_pcb_ne by (done || lia). rewrite pcb_at_set_count.
    by apply pcb_at_with_pcb_eq. }
  assert (O1 : forall p, 0 <= p -> p <> pid -> p <> current_pid (s_proc s) ->
    pcb_at s1 p = pcb_at s p).
  { intros p Hp Hp1 Hp2. unfold s1. rewrite pcb_at_set_current. unfold created, with_args.
    rewrite pcb_at_with_pcb_ne by (done || lia). rewrite pcb_at_set_count.
    apply pcb_at_with_pcb_ne; done || lia. }
  assert (C1 : exists args, pcb_at s1 (current_pid (s_proc s)) =
    Some (set pcb_args (fun _ => args) cur)).
  { eexists. unfold s1. rewrite pcb_at_set_current. unfold created. apply pcb_at_with_args.
    rewrite pcb_at_set_count. rewrite pcb_at_with_pcb_ne by (done || lia). exact Hcur. }
  eapply wp_upd_pcb; [exact B1|].
  wp_pure. apply wp_note_shell; [done|unfold s1, created, with_args, with_pcb; upd; lia|].
  unfold set_tss, hw_set. wp_pures. unfold load_pcb. wp_pures. name_state s2.
  set (f1 := set stack_pos (fun _ => temp)) in *.
  assert (B2 : pcb_at s2 pid = Some (f1 (new_block pid (current_pid (s_proc s)) b))).
  { transitivity (pcb_at (with_pcb pid f1 s1) pid); [unfold s2, pcb_at; by upd|].
    by apply pcb_at_with_pcb_eq. }
  assert (O2 : forall p, 0 <= p -> p <> pid -> pcb_at s2 p = pcb_at s1 p).
  { intros p Hp Hp1. transitivity (pcb_at (with_pcb pid f1 s1) p); [unfold s2, pcb_at; by upd|].
    apply pcb_at_with_pcb_ne; (done || lia). }
  eapply wp_upd_pcb; [exact B2|]. cbv beta. eapply wp_upd_pcb; [by apply pcb_at_with_pcb_eq|].
  rewrite with_pcb_twice. cbv beta.
  wp_pure. eapply (wp_copy_args _ pid rest _ ka); [by apply pcb_at_with_pcb_eq|..]; try done.
  unfold with_args. rewrite with_pcb_twice. apply HQ.
  all: try (unfold with_pcb, s2, s1, created, with_args, with_pcb; upd; done).
  - rewrite (pcb_at_with_pcb_eq _ _ _ _ B2). f_equal. apply set_args_ext.
    transitivity (args_after rest (pcb_args b) (default 0 (strlen (pcb_args b))));
      [by rewrite Hka|done].
  - intros p Hp Hp1 Hp2. rewrite pcb_at_with_pcb_ne by (done || lia).
    rewrite O2 by done. by apply O1.
  - rewrite pcb_at_with_pcb_ne by (done || lia). by rewrite O2 by done.
  - exists (if bool_decide (cmd = text "shell")
      then <[Z.to_nat (current_terminal (s_term s)) := pid]> (shell_pid (s_sched s))
      else shell_pid (s_sched s)).
    unfold with_pcb, s2, s1, created, with_args, with_pcb. upd. by destruct (s_sched s).
Qed.

Lemma mem_bytes_put pa bs m o n :
  Forall (fun c => 0 <= c < 256) bs -> (o + n <= length bs)%nat ->
  mem_bytes (put_bytes pa bs m) (pa + Z.of_nat o) n = take n (drop o bs).
Proof.
  intros Hb Hn. apply list_eq_lget.
  { unfold mem_bytes. rewrite length_map, length_seq, length_take, length_drop. lia. }
  intros i Hi. unfold mem_bytes in *. rewrite length_map, length_seq in Hi.
  unfold lget. rewrite !decide_True by lia.
  rewrite list_lookup_fmap, lookup_seq_lt by lia. cbn [fmap option_fmap option_map].
  rewrite put_bytes_get. unfold lget. rewrite decide_True by lia.
  rewrite lookup_take_lt, lookup_drop by lia.
  replace (Z.to_nat (pa + Z.of_nat o + Z.of_nat (0 + Z.to_nat i) - pa))
    with (o + Z.to_nat i)%nat by lia.
  destruct (lookup_lt_is_Some_2 bs (o + Z.to_nat i)) as [c Hc]; [lia|]. rewrite Hc.
  f_equal. apply u8_small. eapply Forall_lookup_1 in Hb; [|exact Hc]. done.
Qed.

(** From the new block on, [execute] does not fail. *)
Lemma stops_execute_start s command cmd buf temp pid top b cur :
  spawn_ready s pid top b cur ->
  Forall (fun c => 0 < c < 256) cmd -> Forall (fun c => 0 < c < 256) command ->
  (length command < 128)%nat -> (Z.to_nat exec_length <= length buf)%nat ->
  Forall (fun c => 0 <= c < 256) buf ->
  stops (execute_start command cmd buf temp) (fun w s' =>
    w = Iret (le_word (take 4 (drop 24 buf))) /\
    started s pid top temp (drop (length cmd) command) (take (Z.to_nat exec_length) buf) b s') s.
Proof.
  intros S Hcmd Hcommand Hlen Hbuf Hbytes. pose proof (free_pid_range _ _ (sr_free _ _ _ _ _ S)).
  unfold execute_start. eapply stops_new_process; [exact S|done|by apply Forall_drop| |].
  { rewrite length_drop. lia. }
  intros s1 P1 N1 B1 O1 [args C1] Epag Emem Ekbd Eterm Efs [l Esched] T1 T2. cbv beta.
  pose proof (sr_lengths _ _ _ _ _ S) as (L1 & L2 & L3 & L4 & L5 & L6 & L7).
  destruct (sr_line _ _ _ _ _ S) as (row & Hrow & Lrow).
  destruct (sr_history _ _ _ _ _ S) as (h & Hh & Hbl).
  eapply (stops_load_program s1 pid top h row buf); rewrite ?Eterm; try done.
  all: rewrite ?Epag, ?Ekbd, ?Esched; try apply S; try done; try lia.
  { unfold history_of. by rewrite Ekbd. }
  intros s' Eproc R Fr M Sch Ts V Fs. split.
  - do 2 f_equal. rewrite M.
    replace (M_4 * (pid + 1) + 0x48018) with (M_4 * (pid + 1) + 0x48000 + Z.of_nat 24) by lia.
    assert (28 <= Z.to_nat exec_length)%nat by (unfold exec_length; lia).
    rewrite mem_bytes_put by (try (by apply Forall_take); rewrite length_take; lia).
    rewrite !take_drop_commute, take_take. by rewrite Nat.min_l by lia.
  - pose proof (free_pid_range _ _ (sr_free _ _ _ _ _ S)).
    constructor; unfold pcb_at in *; rewrite ?Eproc, ?Sch, ?Ts, ?Fs; try done; upd.
    + exists cur, (fd_table cur), args. split; [apply S|]. rewrite C1. by destruct cur.
    + by rewrite M, Emem.
Qed.
End process_table.
