(* ===== verification/HaltSpec.v ===== *)
(** * The end of a process *)
From S2P Require Import Prelude State Monad Logic Screen Proc ProcSpec Fs Terminal Keyboard EditorSpec KeyboardSpec Interrupts Syscalls PagingSpec SchedSpec Kernel Demo DriverSpec InputSpec ProcessSpec.

Section halt.
Context {P : Platform}.
Variable on_irq : irq -> M unit.
Implicit Types (s : kstate).

(** [deschedule] pops the top of the running terminal's schedule. *)
Definition descheduled (t top : Z) (sc : sched_t) : sched_t :=
  set schedule_top (<[Z.to_nat t := top - 1]>)
    (set schedule_esp (row_set t (top - 1) 0)
      (set schedule_ebp (row_set t (top - 1) 0)
        (set schedule_stack (row_set t (top - 1) 0) sc))).

Lemma wp_deschedule s c top (Q : unit -> kstate -> Prop) :
  let t := current_process (s_sched s) in
  slot (s_sched s) t c -> lget (schedule_top (s_sched s)) t = Some top ->
  Q tt (set s_sched (descheduled t top) s) -> wp deschedule Q s.
Proof.
  intros t [(top' & Ht & Hne & Hp & He & Hb & _)] Htop HQ. rewrite Htop in Ht. injection Ht as <-.
  unfold deschedule, get_current_process, get_schedule_top. wp_pures. fold t.
  eapply wp_aget_Some; [exact Htop|]. cbv beta zeta. wp_pures.
  eapply wp_put_schedule_stack; [exact Hp|]. wp_pures.
  eapply wp_put_schedule_ebp; [upd; exact Hb|]. wp_pures.
  eapply wp_put_schedule_esp; [upd; exact He|].
  apply wp_put_schedule_top; [upd; by eapply lget_range|].
  rewrite !set_sched_twice. exact HQ.
Qed.

(** What the parent's [execute] returns. *)
Lemma halt_eax_value status :
  halt_eax status = if decide (halt_status_register = AL) then 0 else u8 status.
Proof. unfold halt_eax. by destruct halt_status_register. Qed.

Lemma halt_eax_0 : halt_eax 0 = 0.
Proof. rewrite halt_eax_value. by case_decide. Qed.

(** Process [p], a child of [q] started from the stack [stack_pos b], is gone:
    its number is free, the parent is current, with its kernel stack and its 4
    MB, and the stack pointer is the one [execute] was called with. *)
Record released (p q top : Z) (b pb : pcb_t) s s' : Prop := {
  re_current : current_pid (s_proc s') = q;
  re_count : num_active_processes (s_proc s') = num_active_processes (s_proc s) - 1;
  re_free : pcb_at s' p = Some (set pcb_pid (fun _ => -1) b);
  re_others : forall r, 0 <= r -> r <> p -> pcb_at s' r = pcb_at s r;
  re_tables : optables (s_proc s') = optables (s_proc s);
  re_esp0 : tss (s_hw s') = set esp0 (fun _ => u32 (pcb_esp pb)) (tss (s_hw s));
  re_stack : cpu_esp (s_hw s') = stack_pos b;
  re_if : eflags_if (s_hw s') = true;
  re_pag : s_pag s' = mk_pag (<[32%nat := program_page q]> (process_pages (s_pag s)))
    (process_tables (s_pag s)) (paging_on (s_pag s)) false;
  re_sched : s_sched s' = descheduled (current_process (s_sched s)) top (s_sched s);
  re_rest : s_scr s' = s_scr s /\ s_term s' = s_term s /\ s_kbd s' = s_kbd s /\
    s_rtc s' = s_rtc s /\ s_irq s' = s_irq s /\ s_fs s' = s_fs s /\ s_mem s' = s_mem s;
}.

Lemma for_pcb_close s : for_up 2 FDT_SIZE pcb_close s = Ret tt s.
Proof. reflexivity. Qed.

Lemma program_directory_switch p q :
  <[32%nat := program_page q]> (program_directory p) = program_directory q.
Proof.
  unfold program_directory.
  rewrite (list_insert_insert_ne _ 32 33 (program_page q)) by done.
  by rewrite list_insert_insert_eq.
Qed.

Lemma released_runs p q top b pb s s' vid :
  released p q top b pb s s' -> runs_program s p vid -> runs_program s' q vid.
Proof.
  intros R [R1 R2 R3]. constructor; rewrite (re_pag _ _ _ _ _ _ _ R);
    cbn [process_pages process_tables paging_on]; [|done..].
  rewrite R1. apply program_directory_switch.
Qed.

Lemma halt_releases s status b pb c top :
  let p := current_pid (s_proc s) in
  let q := pcb_parent b in
  pcb_at s p = Some b -> pcb_at s q = Some pb -> p <> q -> 0 <= q < 256 ->
  length (process_pages (s_pag s)) = 1024%nat ->
  slot (s_sched s) (current_process (s_sched s)) c ->
  lget (schedule_top (s_sched s)) (current_process (s_sched s)) = Some top ->
  exists s1, released p q top b pb s s1 /\
    halt on_irq status s =
      ((if q =? SENTINEL_PROCESS then exec_shell on_irq ;; ret tt else ret tt) ;;
       stop_with (ExecuteReturns (halt_eax status))) s1.
Proof.
  intros p q Hb Hpb Hne Hq Hl Hslot Htop. pose proof (pcb_at_range _ _ _ Hb) as Hp.
  set (tail := (if q =? SENTINEL_PROCESS then exec_shell on_irq ;; ret tt else ret tt) ;;
    stop_with (ExecuteReturns (halt_eax status))).
  enough (W : leads (fun o => exists s1, released p q top b pb s s1 /\ o = tail s1)
    (halt on_irq status) s) by (destruct W as (s1 & ? & ?); by exists s1).
  unfold halt, cli, hw_set, get_current_pid, proc_set, set_tss, pag_set, flush_tlb, destroy_pcb.
  wp_pures. eapply wp_get_pcb; [exact Hb|]. fold q. wp_pures.
  eapply wp_upd_pcb; [exact Hb|]. unfold proc_set. wp_pures.
  eapply wp_get_pcb.
  { unfold pcb_at. upd. unfold with_pcb. upd.
    rewrite lget_alter by (done || lia). case_decide as E; [by destruct (Hne E)|]. exact Hpb. }
  unfold hw_set. wp_pures. unfold wp at 1. rewrite for_pcb_close. wp_pures.
  name_state s1.
  assert (B1 : pcb_at s1 p = Some (set pcb_pid (fun _ => -1) b)).
  { transitivity (pcb_at (with_pcb p (set pcb_pid (fun _ => -1)) s) p);
      [unfold s1, pcb_at, with_pcb; by upd|by apply pcb_at_with_pcb_eq]. }
  assert (O1 : forall r, 0 <= r -> r <> p -> pcb_at s1 r = pcb_at s r).
  { intros r Hr Hrp. transitivity (pcb_at (with_pcb p (set pcb_pid (fun _ => -1)) s) r);
      [unfold s1, pcb_at, with_pcb; by upd|apply pcb_at_with_pcb_ne; congruence || done]. }
  apply wp_put_page; [unfold s1, with_pcb; upd; rewrite Hl; by split|].
  unfold pag_set, halted, hw_set. wp_pures.
  eapply wp_get_pcb; [unfold pcb_at, with_pages, s1, with_pcb; upd; exact B1|].
  unfold hw_set. wp_pures. eapply (wp_deschedule _ c top).
  { unfold with_pages, s1, with_pcb. upd. exact Hslot. }
  { unfold with_pages, s1, with_pcb. upd. exact Htop. }
  unfold sti, get_current_pid, hw_set. do 4 wp_pure.
  match goal with |- leads _ _ ?s2_ => exists s2_ end. split; [|done].
  constructor.
  all: unfold with_pages, s1, with_pcb; upd; try done.
  by rewrite u32_program_page by done.
Qed.
End halt.
