(* ===== verification/FsProps.v ===== *)
(** * The file system: properties *)
From S2P Require Import Prelude State Monad Logic Strings Screen Proc ProcSpec Fs FsSpec Kernel Demo DriverSpec.

Section properties.
Context {P : Platform}.
Implicit Types (s : kstate).

Lemma file_read_Ret s fd blk size len :
  cur_fd s fd = Some blk -> file_ok (s_fs s) (fd_inode blk) size ->
  0 <= file_position blk <= size ->
  let '(r, n, pos') := read_plan size (file_position blk) (u32 len) in
  exists bs, file_bytes (s_fs s) (fd_inode blk) (file_position blk) (Z.to_nat n) = Some bs /\
    file_read fd len s =
      Ret (r, bs) (with_cur_fd fd (set file_position (fun _ => pos') blk) s).
Proof.
  intros Hfd F Hpos.
  destruct (read_plan size (file_position blk) (u32 len)) as [[r n] pos'] eqn:Hplan.
  assert (H : wp (file_read fd len) (fun v s' => exists bs,
    file_bytes (s_fs s) (fd_inode blk) (file_position blk) (Z.to_nat n) = Some bs /\
    v = (r, bs) /\ s' = with_cur_fd fd (set file_position (fun _ => pos') blk) s) s).
  { eapply wp_file_read; [done|done|done|]. intros bs. rewrite Hplan. eauto. }
  apply wp_Ret in H as (v & s' & -> & bs & Hbs & -> & ->). eauto.
Qed.

(** C5: what a read of an open file does, in every case. With [size] bytes in
    the file and the descriptor at [file_position], the call returns (never
    faults), gives the result and the bytes of [read_plan], taken in order
    from the blocks of the inode, and changes nothing but the position: the
    bytes asked for if they are there; all of the file, with one byte more,
    when a longer read starts at its beginning; 0 otherwise, with the position
    left where it was. *)
Theorem file_read_cases s fd blk size len :
  cur_fd s fd = Some blk -> file_ok (s_fs s) (fd_inode blk) size ->
  0 <= file_position blk <= size ->
  let '(r, n, pos') := read_plan size (file_position blk) (u32 len) in
  exists bs, file_bytes (s_fs s) (fd_inode blk) (file_position blk) (Z.to_nat n) = Some bs /\
    file_read fd len s =
      Ret (r, bs) (with_cur_fd fd (set file_position (fun _ => pos') blk) s).
Proof. apply file_read_Ret. Qed.

(** [k] reads of [len] bytes, one after another: the bytes the program gets. *)
Fixpoint read_chunks (k : nat) (fd len : Z) : M (list Z) :=
  match k with
  | O => ret []
  | S k =>
      r <- file_read fd len ;;
      rest <- read_chunks k fd len ;;
      ret (take (Z.to_nat (fst r)) (snd r) ++ rest)
  end.

Lemma with_position_twice s fd blk p p' :
  with_cur_fd fd (set file_position (fun _ => p) (set file_position (fun _ => p') blk))
    (with_cur_fd fd (set file_position (fun _ => p') blk) s) =
  with_cur_fd fd (set file_position (fun _ => p) blk) s.
Proof. rewrite with_cur_fd_twice. by destruct blk. Qed.

(** Chunks from a position past the start. *)
Lemma read_chunks_from size len k : forall s fd blk q,
  cur_fd s fd = Some blk -> file_ok (s_fs s) (fd_inode blk) size ->
  0 < len <= size -> file_position blk = q * len -> 1 <= q -> q * len <= size ->
  size / len - q <= Z.of_nat k ->
  exists bs, file_bytes (s_fs s) (fd_inode blk) (q * len)
      (Z.to_nat ((size / len - q) * len)) = Some bs /\
    read_chunks k fd len s =
      Ret bs (with_cur_fd fd (set file_position (fun _ => size / len * len) blk) s).
Proof.
  induction k as [|k IH]; intros s fd blk q Hfd F Hlen Hpos Hq Hqs Hk.
  { assert (Hd : size / len = q).
    { pose proof (Z.div_le_lower_bound size len q ltac:(lia)). lia. }
    rewrite Hd, Z.sub_diag. exists []. split; [done|]. cbn [read_chunks].
    rewrite <-Hpos, set_position_same. unfold with_cur_fd. by rewrite with_fd_same. }
  pose proof (fo_range _ _ _ F). cbn [read_chunks].
  pose proof (file_read_Ret s fd blk size len Hfd F ltac:(lia)) as Hr.
  rewrite u32_small in Hr by lia. unfold read_plan in Hr.
  rewrite (proj2 (Z.eqb_neq size 0)), (proj2 (Z.ltb_ge size _)) in Hr by lia. cbn [orb] in Hr.
  destruct (Z.leb_spec len (size - file_position blk)) as [Hfit|Hfit].
  - destruct Hr as (bs & Hbs & Hr). rewrite Hpos in Hr, Hbs.
    replace (q * len + len) with ((q + 1) * len) in Hr by lia.
    set (s1 := with_cur_fd fd (set file_position (fun _ => (q + 1) * len) blk) s) in *.
    set (blk1 := set file_position (fun _ => (q + 1) * len) blk) in *.
    assert (Hfd1 : cur_fd s1 fd = Some blk1).
    { unfold s1. pose proof (fd_at_range _ _ _ _ Hfd) as [_ ?].
      rewrite (cur_fd_with _ _ _ blk) by done. by rewrite decide_True. }
    assert (q + 1 <= size / len) by (apply Z.div_le_lower_bound; lia).
    destruct (IH s1 fd blk1 (q + 1)) as (bs' & Hbs' & Hr'); try done; try lia.
    exists (bs ++ bs'). split.
    + assert (0 <= (size / len - (q + 1)) * len) by (apply Z.mul_nonneg_nonneg; lia).
      replace (Z.to_nat ((size / len - q) * len))
        with (Z.to_nat len + Z.to_nat ((size / len - (q + 1)) * len))%nat by lia.
      rewrite file_bytes_app, Hbs. cbn [mbind option_bind].
      rewrite Z2Nat.id by lia. replace (q * len + len) with ((q + 1) * len) by lia.
      change (s_fs s) with (s_fs s1). change (fd_inode blk) with (fd_inode blk1).
      by rewrite Hbs'.
    + erewrite bind_Ret by exact Hr. cbv beta. erewrite bind_Ret by exact Hr'.
      unfold ret. cbn [fst snd]. pose proof (file_bytes_length _ _ _ _ _ Hbs) as Hl.
      rewrite firstn_all2 by lia. f_equal. unfold blk1, s1. apply with_position_twice.
  - rewrite (proj2 (Z.eqb_neq (file_position blk) 0)) in Hr by nia.
    destruct Hr as (bs & Hbs & Hr). rewrite set_position_same in Hr.
    unfold with_cur_fd at 1 in Hr. rewrite with_fd_same in Hr by exact Hfd.
    assert (Hd : size / len = q).
    { symmetry. apply Z.div_unique with (size - q * len); [left; lia|lia]. }
    destruct (IH s fd blk q) as (bs' & Hbs' & Hr'); try done; try lia.
    exists bs'. split; [done|]. erewrite bind_Ret by exact Hr.
    erewrite bind_Ret by exact Hr'. done.
Qed.

(** The chunks of a file that is at least one chunk long. *)
Lemma read_chunks_long s fd blk size len k :
  cur_fd s fd = Some blk -> file_ok (s_fs s) (fd_inode blk) size ->
  file_position blk = 0 -> 0 < len <= size -> size / len <= Z.of_nat k ->
  exists bs, file_bytes (s_fs s) (fd_inode blk) 0 (Z.to_nat (size / len * len)) = Some bs /\
    read_chunks k fd len s =
      Ret bs (with_cur_fd fd (set file_position (fun _ => size / len * len) blk) s).
Proof.
  intros Hfd F Hpos Hlen Hk. pose proof (fo_range _ _ _ F).
  assert (Hq : 1 <= size / len) by (apply Z.div_le_lower_bound; lia).
  destruct k as [|k]; [lia|]. cbn [read_chunks].
  pose proof (file_read_Ret s fd blk size len Hfd F ltac:(lia)) as Hr.
  rewrite u32_small in Hr by lia. unfold read_plan in Hr.
  rewrite (proj2 (Z.eqb_neq size 0)), (proj2 (Z.ltb_ge size _)) in Hr by lia. cbn [orb] in Hr.
  rewrite Hpos, Z.sub_0_r, (proj2 (Z.leb_le len size)) in Hr by lia.
  destruct Hr as (bs & Hbs & Hr). rewrite Z.add_0_l in Hr.
  set (blk1 := set file_position (fun _ => len) blk) in *.
  assert (Hfd1 : cur_fd (with_cur_fd fd blk1 s) fd = Some blk1).
  { pose proof (fd_at_range _ _ _ _ Hfd) as [_ ?].
    rewrite (cur_fd_with _ _ _ blk) by done. by rewrite decide_True. }
  destruct (read_chunks_from size len k (with_cur_fd fd blk1 s) fd blk1 1)
    as (bs' & Hbs' & Hr'); try done; try lia.
  { unfold blk1. upd. lia. }
  exists (bs ++ bs'). split.
  - assert (0 <= (size / len - 1) * len) by (apply Z.mul_nonneg_nonneg; lia).
    replace (Z.to_nat (size / len * len))
      with (Z.to_nat len + Z.to_nat ((size / len - 1) * len))%nat by lia.
    rewrite file_bytes_app, Hbs. cbn [mbind option_bind].
    rewrite Z2Nat.id, Z.add_0_l by lia. rewrite Z.mul_1_l in Hbs'.
    change (s_fs (with_cur_fd fd blk1 s)) with (s_fs s) in Hbs'.
    change (fd_inode blk1) with (fd_inode blk) in Hbs'. by rewrite Hbs'.
  - erewrite bind_Ret by exact Hr. cbv beta. erewrite bind_Ret by exact Hr'.
    unfold ret. cbn [fst snd]. pose proof (file_bytes_length _ _ _ _ _ Hbs) as Hl.
    rewrite firstn_all2 by lia. f_equal. unfold blk1. apply with_position_twice.
Qed.

(** A read where fewer than [len] bytes are left, past the beginning of the
    file or in an empty one. *)
Lemma read_at_end s fd blk size len :
  cur_fd s fd = Some blk -> file_ok (s_fs s) (fd_inode blk) size ->
  0 <= file_position blk <= size -> size - file_position blk < len < 2147483648 ->
  file_position blk <> 0 \/ size = 0 -> exists bs, file_read fd len s = Ret (0, bs) s.
Proof.
  intros Hfd F Hpos Hlen Hp. pose proof (file_read_Ret s fd blk size len Hfd F Hpos) as Hr.
  rewrite u32_small in Hr by lia. unfold read_plan in Hr.
  rewrite (proj2 (Z.ltb_ge size _)), orb_false_r in Hr by lia.
  assert (Hs : with_cur_fd fd (set file_position (fun _ => file_position blk) blk) s = s).
  { rewrite set_position_same. by apply with_fd_same. }
  destruct (Z.eqb_spec size 0) as [H0|H0].
  - destruct Hr as (bs & _ & Hr). rewrite Hs in Hr. by exists bs.
  - rewrite (proj2 (Z.leb_gt _ _)), (proj2 (Z.eqb_neq (file_position blk) 0)) in Hr by lia.
    destruct Hr as (bs & _ & Hr). rewrite Hs in Hr. by exists bs.
Qed.

Lemma read_chunks_end fd len s bs k :
  file_read fd len s = Ret (0, bs) s -> read_chunks k fd len s = Ret [] s.
Proof.
  intros H. induction k as [|k IH]; cbn [read_chunks]; [done|].
  erewrite bind_Ret by exact H. by erewrite bind_Ret by exact IH.
Qed.

(** How much of a file arrives in chunks of [len] bytes. *)
Definition delivered_chunks (size len : Z) : Z :=
  if size <? len then size else size / len * len.

(** The chunks of a file that is shorter than one. *)
Lemma read_chunks_short s fd blk size len k :
  cur_fd s fd = Some blk -> file_ok (s_fs s) (fd_inode blk) size ->
  file_position blk = 0 -> size < len < 2147483648 ->
  exists bs, file_bytes (s_fs s) (fd_inode blk) 0 (Z.to_nat size) = Some bs /\
    read_chunks (S k) fd len s = Ret bs (with_cur_fd fd (set file_position (fun _ => size) blk) s).
Proof.
  intros Hfd F Hpos Hlen. pose proof (fo_range _ _ _ F).
  destruct (decide (size = 0)) as [->|H0].
  { destruct (read_at_end s fd blk 0 len) as (bs & Hr); try done; [lia..|by right|].
    exists []. split; [done|]. rewrite (read_chunks_end _ _ _ bs) by done.
    rewrite <-Hpos, set_position_same. f_equal. symmetry. by apply with_fd_same. }
  pose proof (file_read_Ret s fd blk size len Hfd F ltac:(lia)) as Hr.
  rewrite u32_small in Hr by lia. unfold read_plan in Hr.
  rewrite (proj2 (Z.eqb_neq size 0)), (proj2 (Z.ltb_ge size _)) in Hr by lia. cbn [orb] in Hr.
  rewrite Hpos, Z.sub_0_r, (proj2 (Z.leb_gt len size)), Z.eqb_refl in Hr by lia.
  destruct Hr as (bs & Hbs & Hr). set (blk1 := set file_position (fun _ => size) blk) in *.
  assert (Hfd1 : cur_fd (with_cur_fd fd blk1 s) fd = Some blk1).
  { pose proof (fd_at_range _ _ _ _ Hfd) as [_ ?].
    rewrite (cur_fd_with _ _ _ blk) by done. by rewrite decide_True. }
  destruct (read_at_end (with_cur_fd fd blk1 s) fd blk1 size len) as (bs' & Hr'); try done.
  { unfold blk1. upd. lia. }
  { unfold blk1. upd. lia. }
  { unfold blk1. upd. by left. }
  exists (take (Z.to_nat size) bs). cbn [read_chunks].
  replace (Z.to_nat (size + 1)) with (Z.to_nat size + 1)%nat in Hbs by lia.
  rewrite file_bytes_app in Hbs.
  destruct (file_bytes (s_fs s) (fd_inode blk) 0 (Z.to_nat size)) as [u|] eqn:Hu; [|done].
  cbn [mbind option_bind] in Hbs. destruct (file_bytes _ _ _ 1) as [w|]; [|done].
  injection Hbs as <-. pose proof (file_bytes_length _ _ _ _ _ Hu) as Hl.
  rewrite take_app_length' by lia. split; [done|].
  erewrite bind_Ret by exact Hr. erewrite bind_Ret by (apply (read_chunks_end _ _ _ bs'); exact Hr').
  unfold ret. cbn [fst snd]. by rewrite take_app_length', app_nil_r by lia.
Qed.

(** C6: what a program gets that asks for [len] bytes at a time until a read
    returns 0. With [k] reads or more, [k] as large as the number of chunks, it
    has all of the file if the file is shorter than a chunk, and otherwise, in
    order and without a gap, the largest multiple of [len] bytes of it; the
    next read returns 0 and changes nothing, so that the rest, when [len] does
    not divide the size, is never delivered, however often it reads. *)
Theorem chunked_read_prefix s fd blk size len k :
  cur_fd s fd = Some blk -> file_ok (s_fs s) (fd_inode blk) size ->
  file_position blk = 0 -> 0 < len < 2147483648 -> (1 <= k)%nat -> size / len <= Z.of_nat k ->
  let n := delivered_chunks size len in
  let s' := with_cur_fd fd (set file_position (fun _ => n) blk) s in
  exists bs, file_bytes (s_fs s) (fd_inode blk) 0 (Z.to_nat n) = Some bs /\
    read_chunks k fd len s = Ret bs s' /\ exists bs', file_read fd len s' = Ret (0, bs') s'.
Proof.
  intros Hfd F Hpos Hlen Hk1 Hk n s'. pose proof (fo_range _ _ _ F).
  assert (Hn : 0 <= n <= size /\ size - n < len /\ (n <> 0 \/ size = 0)).
  { unfold n, delivered_chunks. destruct (Z.ltb_spec size len); [lia|].
    pose proof (Z.div_mod size len). pose proof (Z.mod_pos_bound size len).
    assert (1 <= size / len) by (apply Z.div_le_lower_bound; lia). nia. }
  set (blk' := set file_position (fun _ => n) blk) in *.
  assert (Hfd' : cur_fd s' fd = Some blk').
  { pose proof (fd_at_range _ _ _ _ Hfd) as [_ ?].
    unfold s'. rewrite (cur_fd_with _ _ _ blk) by done. by rewrite decide_True. }
  enough (Hr : exists bs, file_bytes (s_fs s) (fd_inode blk) 0 (Z.to_nat n) = Some bs /\
      read_chunks k fd len s = Ret bs s').
  { destruct Hr as (bs & Hb & Hr). exists bs. split; [done|]. split; [done|].
    apply (read_at_end s' fd blk' size len); try done; unfold blk'; upd; lia. }
  unfold s', blk', n, delivered_chunks in *. destruct (Z.ltb_spec size len) as [Hs|Hs].
  - destruct k as [|k]; [lia|]. apply read_chunks_short; (done || lia).
  - apply read_chunks_long; (done || lia).
Qed.

(** C8: the search for a name. It returns the first entry of the boot block
    whose name, a field of 32 bytes ended by a NUL if it is shorter, is the
    one given; an empty name, a name of more than 32 characters and a name
    that no entry has are refused, and the caller's entry is left alone. *)
Theorem read_dentry_by_name_spec s fname dentry ds :
  directory (s_fs s) = Some ds -> Forall (fun c => 0 < c < 256) fname ->
  read_dentry_by_name fname dentry s =
    Ret (match lookup_name ds fname with
         | Some d => (SUCCESS, d) | None => (FAILURE, dentry) end) s.
Proof. apply read_dentry_spec. Qed.
End properties.

(** ** Witnesses *)

(** Descriptor 2 is the file of inode 0, 48 bytes, at its start. *)
Definition shell_fd : fd_block_t := mk_fd (Some file_table) 0 0 1.

Definition bytes_present (f : fs_t) (inode : Z) (n : nat) : bool :=
  forallb (fun i => match file_byte f inode (Z.of_nat i) with Some _ => true | None => false end)
    (seq 0 n).
Lemma bytes_present_spec f inode n i :
  bytes_present f inode n = true -> 0 <= i < Z.of_nat n -> is_Some (file_byte f inode i).
Proof.
  unfold bytes_present. rewrite forallb_forall. intros H Hi.
  specialize (H (Z.to_nat i)). rewrite Z2Nat.id in H by lia.
  destruct (file_byte f inode i); [by eexists|]. exfalso.
  enough (false = true) by done. apply H, in_seq. lia.
Qed.

Lemma shell_ok : file_ok small_fs 0 48.
Proof.
  constructor.
  - exists 2. split; [by vm_compute|lia].
  - by vm_compute.
  - intros i Hi. apply bytes_present_spec with (n := 49%nat); [by vm_compute|lia].
  - lia.
Qed.

Lemma file_read_cases_witness :
  exists s', file_read 2 100 (files_state [shell_fd]) = Ret (48, elf_image ++ [0]) s'.
Proof.
  pose proof (file_read_cases (files_state [shell_fd]) 2 shell_fd 48 100 eq_refl shell_ok
    ltac:(cbn; lia)) as H.
  destruct H as (bs & Hbs & H). eexists. etransitivity; [exact H|]. f_equal. f_equal.
  assert (Hc : file_bytes small_fs 0 0 49 = Some (elf_image ++ [0])) by (vm_compute; reflexivity).
  change (file_bytes small_fs 0 0 49 = Some bs) in Hbs. congruence.
Defined.

(** Ten bytes at a time: 40 of the 48 bytes; a hundred at a time: all of them. *)
Lemma chunked_read_prefix_witness :
  (exists s', read_chunks 9 2 10 (files_state [shell_fd]) = Ret (take 40 elf_image) s') /\
  (exists s', read_chunks 9 2 100 (files_state [shell_fd]) = Ret elf_image s').
Proof.
  split.
  - destruct (chunked_read_prefix (files_state [shell_fd]) 2 shell_fd 48 10 9 eq_refl shell_ok
      eq_refl ltac:(lia) ltac:(lia) ltac:(vm_compute; discriminate)) as (bs & Hbs & H & _).
    eexists. etransitivity; [exact H|]. f_equal.
    assert (Hc : file_bytes small_fs 0 0 40 = Some (take 40 elf_image)) by (vm_compute; reflexivity).
    change (file_bytes small_fs 0 0 40 = Some bs) in Hbs. congruence.
  - destruct (chunked_read_prefix (files_state [shell_fd]) 2 shell_fd 48 100 9 eq_refl shell_ok
      eq_refl ltac:(lia) ltac:(lia) ltac:(vm_compute; discriminate)) as (bs & Hbs & H & _).
    eexists. etransitivity; [exact H|]. f_equal.
    assert (Hc : file_bytes small_fs 0 0 48 = Some elf_image) by (vm_compute; reflexivity).
    change (file_bytes small_fs 0 0 48 = Some bs) in Hbs. congruence.
Defined.

Lemma small_dir_eq : directory small_fs = Some small_dir.
Proof. by vm_compute. Qed.

Lemma read_dentry_by_name_spec_witness :
  read_dentry_by_name (text "shell") [] (files_state []) =
    Ret (0, mk_dentry "shell" 2 0) (files_state []).
Proof.
  rewrite (read_dentry_by_name_spec (files_state []) (text "shell") [] small_dir
    small_dir_eq ltac:(repeat constructor; lia)).
  reflexivity.
Defined.
