(* ===== verification/ProcessProps.v ===== *)
(** * Properties of the life of a process *)
From S2P Require Import Prelude State Monad Logic Strings Screen Proc ProcSpec Fs FsSpec Terminal Keyboard EditorSpec KeyboardSpec Interrupts Syscalls PagingSpec SchedSpec Kernel Demo DriverSpec InputSpec ProcessSpec FsProps.

Section load.
Context {P : Platform}.
Variable on_irq : irq -> M unit.
Implicit Types (s : kstate).

(** Interrupts off. *)
Definition masked s : kstate := set s_hw (set eflags_if (fun _ => false)) s.

Lemma masked_twice s : masked (masked s) = masked s.
Proof. destruct s as [? ? ? ? ? ? ? ? ? h ?]. by destruct h. Qed.
Lemma masked_with_cur_fd s fd blk : masked (with_cur_fd fd blk s) = with_cur_fd fd blk (masked s).
Proof. by destruct s. Qed.
Lemma cur_fd_masked s fd : cur_fd (masked s) fd = cur_fd s fd.
Proof. done. Qed.
Lemma quiet_masked s : quiet s (masked s).
Proof. constructor; unfold masked; upd; [draws_tac|done..]. Qed.

Definition open_file (d : dir_entry_t) : fd_block_t := mk_fd (Some file_table) (inode_num d) 0 1.

(** The system calls on a file, with the state they leave. *)
Lemma open_file_Ret s fname d i :
  tables_filled s -> named s fname d -> file_type d = TYPE_FILE -> lowest_free s i ->
  open (Some fname) s = Ret i (with_cur_fd i (open_file d) (masked s)).
Proof.
  intros T Hn Hty L. pose proof (quiet_masked s) as Q.
  apply (named_quiet _ _ _ _ Q) in Hn. apply (lowest_free_quiet _ _ _ Q) in L.
  apply (tables_quiet _ _ Q) in T.
  destruct (lf_free _ _ L) as (b0 & Hb0 & _). pose proof (lf_range _ _ L).
  unfold open. erewrite bind_Ret by reflexivity.
  erewrite bind_Ret by (by apply read_dentry_named). cbv beta iota.
  change (negb (SUCCESS =? 0)) with false. cbv iota zeta. rewrite Hty.
  change (TYPE_FILE =? TYPE_RTC) with false. change (TYPE_FILE =? TYPE_DIR) with false.
  change (TYPE_FILE =? TYPE_FILE) with true. cbv iota. unfold file_open.
  erewrite bind_Ret by (by apply read_dentry_named). cbv beta iota.
  change (SUCCESS =? -1) with false. cbv iota.
  erewrite bind_Ret by (by apply scan_slot). cbv beta iota.
  erewrite bind_Ret by (eapply table_pointer_Ret, (tf_file _ T)).
  match goal with |- bind ?m _ _ = _ => pose proof (fun Q => wp_put_fd (masked s) i
    (open_file d) b0 Q Hb0) as Hw end.
  specialize (Hw (fun _ s' => s' = with_cur_fd i (open_file d) (masked s)) eq_refl).
  apply wp_Ret in Hw as ([] & s' & Hput & ->). by erewrite bind_Ret by exact Hput.
Qed.

Lemma read_file_Ret s fd blk size len :
  tables_filled s -> 0 <= fd < 8 -> cur_fd s fd = Some blk ->
  file_operations_pointer blk = Some file_table -> fd_flags blk = 1 ->
  file_ok (s_fs s) (fd_inode blk) size -> 0 <= file_position blk <= size ->
  let '(r, n, pos') := read_plan size (file_position blk) (u32 len) in
  exists bs, file_bytes (s_fs s) (fd_inode blk) (file_position blk) (Z.to_nat n) = Some bs /\
    read_into on_irq fd len s =
      Ret (r, bs) (with_cur_fd fd (set file_position (fun _ => pos') blk) s).
Proof.
  intros T Hfd Hb Hop Hfl F Hpos. pose proof (file_read_Ret s fd blk size len Hb F Hpos) as Hr.
  destruct (read_plan size (file_position blk) (u32 len)) as [[r n] pos'].
  destruct Hr as (bs & Hbs & Hr). exists bs. split; [done|]. unfold read_into.
  rewrite (proj2 (Z.ltb_ge fd 0)), (proj2 (Z.leb_gt FDT_SIZE fd)) by (unfold FDT_SIZE; lia).
  cbn [orb]. erewrite bind_Ret by (by apply get_fd_Ret). rewrite Hfl, Hop.
  change (1 =? -1) with false. cbv iota. unfold get_optable.
  erewrite bind_Ret; [|erewrite bind_Ret by done; apply of_opt_Some, (tf_file _ T)].
  exact Hr.
Qed.

Lemma close_file_Ret s fd blk :
  tables_filled s -> 2 <= fd < 8 -> cur_fd s fd = Some blk ->
  file_operations_pointer blk = Some file_table -> fd_flags blk = 1 ->
  close fd s = Ret 0 (with_cur_fd fd (free_fd blk) (masked s)).
Proof.
  intros T Hfd Hb Hop Hfl. unfold close. erewrite bind_Ret by reflexivity. cbv beta.
  fold (masked s).
  rewrite (proj2 (Z.ltb_ge fd 2)), (proj2 (Z.leb_gt FDT_SIZE fd)) by (unfold FDT_SIZE; lia).
  cbn [orb]. erewrite bind_Ret by (apply get_fd_Ret; exact Hb). rewrite Hop.
  unfold get_optable.
  erewrite bind_Ret; [|erewrite bind_Ret by done; apply of_opt_Some, (tf_file _ T)].
  cbn [call_close op_close]. unfold file_close.
  rewrite (proj2 (Z.ltb_ge fd 2)), (proj2 (Z.leb_gt FDT_SIZE fd)) by (unfold FDT_SIZE; lia).
  cbn [orb]. erewrite bind_Ret by (apply get_fd_Ret; exact Hb). rewrite Hfl.
  change (1 =? -1) with false. cbv iota.
  by erewrite bind_Ret by (apply upd_fd_Ret; exact Hb).
Qed.

(** Opening and closing a file of the parent's does not matter for the new
    process. *)
Definition with_parent_fd (fd : Z) (blk : fd_block_t) s : kstate := with_cur_fd fd blk (masked s).

Lemma parent_fd_pcb s fd blk cur p :
  pcb_at s (current_pid (s_proc s)) = Some cur -> 0 <= p ->
  pcb_at (with_parent_fd fd blk s) p =
    if decide (current_pid (s_proc s) = p) then set fd_table (<[Z.to_nat fd := blk]>) <$> pcb_at s p
    else pcb_at s p.
Proof.
  intros Hcur Hp. pose proof (pcb_at_range _ _ _ Hcur).
  unfold with_parent_fd, with_cur_fd, with_fd. by rewrite pcb_at_with_pcb.
Qed.

Lemma spawn_ready_fd s pid top b cur fd blk :
  spawn_ready s pid top b cur ->
  spawn_ready (with_parent_fd fd blk s) pid top b (set fd_table (<[Z.to_nat fd := blk]>) cur).
Proof.
  intros S. pose proof (sr_parent _ _ _ _ _ S) as Hcur. pose proof (sr_distinct _ _ _ _ _ S).
  pose proof (free_pid_range _ _ (sr_free _ _ _ _ _ S)).
  constructor; try apply S.
  - destruct (sr_free _ _ _ _ _ S) as (Hr & (b' & Hb' & Hf) & Hless). split; [done|]. split.
    + exists b'. by rewrite (parent_fd_pcb _ _ _ cur), decide_False by (done || lia).
    + intros j Hj. destruct (Hless j Hj) as (b1 & Hb1 & Hn).
      rewrite (parent_fd_pcb _ _ _ cur) by (done || lia). case_decide; [|by exists b1].
      rewrite Hb1. eexists. split; [done|]. by destruct b1.
  - rewrite (parent_fd_pcb _ _ _ cur), decide_False by (done || lia). apply S.
  - change (current_pid _) with (current_pid (s_proc s)).
    rewrite (parent_fd_pcb _ _ _ cur), decide_True by (done || by eapply pcb_at_range).
    by rewrite Hcur.
Qed.

Lemma started_fd s pid top temp rest image b cur fd blk s' :
  pcb_at s (current_pid (s_proc s)) = Some cur ->
  started (with_parent_fd fd blk s) pid top temp rest image b s' ->
  started s pid top temp rest image b s'.
Proof.
  intros Hcur [S1 S2 S3 S4 S13 S5 S6 S7 S8 S9 S10 S11 S12]. constructor; try done.
  - intros p Hp Hp1 Hp2. rewrite (S4 p Hp Hp1 Hp2).
    rewrite (parent_fd_pcb _ _ _ cur) by done. by rewrite decide_False by done.
  - change (current_pid (s_proc (with_parent_fd fd blk s))) with (current_pid (s_proc s)) in S13.
    destruct S13 as (cur' & fds & args & Hcur' & Hnew). exists cur, fds, args. split; [done|].
    rewrite (parent_fd_pcb _ _ _ cur), decide_True, Hcur in Hcur'
      by (done || by eapply pcb_at_range).
    injection Hcur' as <-. exact Hnew.
Qed.

(** A file's bytes are bytes. *)
Lemma file_bytes_range f inode n : forall i bs,
  file_bytes f inode i n = Some bs -> Forall (fun c => 0 <= c < 256) bs.
Proof.
  induction n as [|n IH]; intros i bs; cbn [file_bytes]; [by intros [= <-]|].
  destruct (file_byte f inode i) as [c|] eqn:Hc; [|done]. cbn.
  destruct (file_bytes f inode (i + 1) n) as [cs|] eqn:E; [|done]. intros [= <-].
  constructor; [|by eapply IH]. apply file_byte_block in Hc as (blk & _ & Hc).
  unfold fs_byte in Hc. case_decide; [|done]. injection Hc as <-. apply u8_range.
Qed.

(** [buf] of [execute] after the file has been read into it. *)
Lemma exec_buffer f inode size img n bs :
  file_bytes f inode 0 (Z.to_nat (Z.min size 10000)) = Some img ->
  file_bytes f inode 0 (Z.to_nat n) = Some bs -> 0 < size -> Z.min size 10000 <= n <= 10000 ->
  let buf := bs ++ replicate (Z.to_nat exec_buf_size - length bs) (u8 stack_junk) in
  Forall (fun c => 0 <= c < 256) buf /\ (Z.to_nat exec_length <= length buf)%nat /\
  take (length img) (take (Z.to_nat exec_length) buf) = img /\
  Z.of_nat (length img) = Z.min size 10000.
Proof.
  intros Himg Hbs Hsize Hn buf. pose proof (file_bytes_length _ _ _ _ _ Himg) as L1.
  pose proof (file_bytes_length _ _ _ _ _ Hbs) as L2. unfold exec_length, exec_buf_size in *.
  split; [|split; [|split]].
  - apply Forall_app. split; [by eapply file_bytes_range|]. apply Forall_replicate, u8_range.
  - unfold buf. autorewrite with arr. lia.
  - rewrite take_take, Nat.min_l by lia. unfold buf. rewrite take_app_le by lia.
    replace (Z.to_nat n) with (Z.to_nat (Z.min size 10000) + Z.to_nat (n - Z.min size 10000))%nat
      in Hbs by lia.
    rewrite file_bytes_app, Himg in Hbs. cbn in Hbs.
    destruct (file_bytes f inode _ (Z.to_nat (n - Z.min size 10000))) as [cs|]; [|done].
    injection Hbs as <-. by rewrite take_app_length.
  - lia.
Qed.

Lemma first_word_Forall (R : Z -> Prop) l : Forall R l -> Forall R (first_word l).
Proof. induction 1 as [|c l Hc Hl IH]; cbn; [done|]. case_match; [done|]. by constructor. Qed.

(** The part of [execute] that reads the file: the first bytes of [buf] are
    the image, and nothing but the descriptor has changed. *)
Lemma read_image s name d i size img :
  tables_filled s -> named s name d -> file_type d = TYPE_FILE ->
  lowest_free s i -> file_ok (s_fs s) (inode_num d) size -> 0 < size ->
  file_bytes (s_fs s) (inode_num d) 0 (Z.to_nat (Z.min size 10000)) = Some img ->
  exists s1 s2 r bs blk,
    open (Some name) s = Ret i s1 /\ masked s1 = s1 /\
    read_into on_irq i exec_length s1 = Ret (r, bs) s2 /\
    close i s2 = Ret 0 (with_parent_fd i blk s) /\ fd_flags blk = -1 /\
    let buf := bs ++ replicate (Z.to_nat exec_buf_size - length bs) (u8 stack_junk) in
    Forall (fun c => 0 <= c < 256) buf /\ (Z.to_nat exec_length <= length buf)%nat /\
    take (length img) (take (Z.to_nat exec_length) buf) = img /\
    Z.of_nat (length img) = Z.min size 10000.
Proof.
  intros T Hn Hty L F Hsize Himg.
  pose proof (lf_range _ _ L) as Hi. destruct (lf_free _ _ L) as (b0 & Hb0 & _).
  set (s1 := with_parent_fd i (open_file d) s).
  assert (Hb1 : cur_fd s1 i = Some (open_file d)).
  { unfold s1, with_parent_fd. rewrite (cur_fd_with _ _ _ b0) by (done || lia).
    by rewrite decide_True. }
  assert (T1 : tables_filled s1) by (destruct T; by constructor).
  pose proof (read_file_Ret s1 i (open_file d) size exec_length T1 ltac:(lia) Hb1 eq_refl eq_refl
    F ltac:(cbn; lia)) as Hr. cbn [open_file fd_inode file_position] in Hr.
  change (u32 exec_length) with 10000 in Hr.
  destruct (read_plan size 0 10000) as [[r n] pos'] eqn:Hplan.
  destruct Hr as (bs & Hbs & Hr). change (s_fs s1) with (s_fs s) in Hbs.
  set (blk1 := set file_position (fun _ => pos') (open_file d)) in *.
  set (s2 := with_cur_fd i blk1 s1) in *.
  assert (Hb2 : cur_fd s2 i = Some blk1).
  { unfold s2. rewrite (cur_fd_with _ _ _ (open_file d)) by (done || lia). by rewrite decide_True. }
  assert (T2 : tables_filled s2) by (destruct T; by constructor).
  exists s1, s2, r, bs, (free_fd blk1). split; [by apply (open_file_Ret s _ d i)|].
  split; [unfold s1, with_parent_fd; by rewrite masked_with_cur_fd, masked_twice|].
  split; [exact Hr|]. split.
  { rewrite (close_file_Ret s2 i blk1) by done. unfold s2, s1, with_parent_fd.
    rewrite !masked_with_cur_fd, masked_twice. by rewrite !with_cur_fd_twice. }
  split; [done|]. apply (exec_buffer (s_fs s) (inode_num d) size img n bs); try done.
  unfold read_plan in Hplan.
  rewrite (proj2 (Z.eqb_neq size 0)), (proj2 (Z.ltb_ge size 0)) in Hplan by lia.
  cbn [orb] in Hplan. destruct (Z.leb_spec 10000 (size - 0)); injection Hplan as _ <- _; lia.
Qed.

Lemma stops_execute s command d i size img pid top b cur :
  tables_filled s -> named s (first_word command) d -> file_type d = TYPE_FILE ->
  lowest_free s i -> file_ok (s_fs s) (inode_num d) size -> 28 <= size ->
  Forall (fun c => 0 < c < 256) command -> (length command < 128)%nat ->
  num_active_processes (s_proc s) < 6 -> spawn_ready s pid top b cur ->
  file_bytes (s_fs s) (inode_num d) 0 (Z.to_nat (Z.min size 10000)) = Some img ->
  le_word (take 4 img) = MAGIC_LEAD ->
  stops (execute on_irq (Some command)) (fun w s' =>
    w = Iret (le_word (take 4 (drop 24 img))) /\
    exists image, take (length img) image = img /\ Forall (fun c => 0 <= c < 256) image /\
      Z.of_nat (length image) = 10000 /\
      started s pid top (cpu_esp (s_hw s)) (drop (length (first_word command)) command)
        image b s') s.
Proof.
  intros T Hn Hty L F Hsize Hcommand Hlen Hact S Himg Hmagic.
  destruct (read_image s (first_word command) d i size img)
    as (s1 & s2 & r & bs & blk & H1 & H2 & H3 & H4 & _ & B1 & B2 & B3 & B4); try done; [lia|].
  assert (B4' : (28 <= length img <= Z.to_nat exec_length)%nat) by (unfold exec_length; lia).
  unfold execute. wp_pures. rewrite (proj2 (Z.leb_gt MAX_PROCESSES _)) by done. wp_pures.
  rewrite (proj2 (Z.leb_gt EXEC_BUFFER_SIZE _)) by (unfold EXEC_BUFFER_SIZE; lia).
  eapply stops_bind_Ret; [exact H1|]. pose proof (lf_range _ _ L).
  rewrite (proj2 (Z.eqb_neq i FAILURE)) by (unfold FAILURE; lia).
  eapply stops_bind_Ret; [reflexivity|]. cbv beta. fold (masked s1). rewrite H2.
  eapply stops_bind_Ret; [exact H3|]. cbv beta. cbn [snd].
  eapply stops_bind_Ret; [exact H4|]. cbv beta zeta. set (buf := bs ++ replicate _ _) in *.
  assert (B5 : forall k m, (k + m <= 28)%nat -> take k (drop m buf) = take k (drop m img)).
  { intros k m Hkm. rewrite <-B3 at 1. rewrite !take_drop_commute, !take_take.
    by rewrite !Nat.min_l by lia. }
  pose proof (B5 4%nat 0%nat ltac:(lia)) as B6. rewrite !drop_0 in B6. rewrite B6, Hmagic.
  change (negb (MAGIC_LEAD =? MAGIC_LEAD)) with false. cbv iota.
  eapply stops_mono; [eapply stops_execute_start;
    [by apply spawn_ready_fd|by apply first_word_Forall|done..]|].
  cbv beta. intros w s' [-> St]. split; [by rewrite B5 by lia|].
  exists (take (Z.to_nat exec_length) buf). split; [done|]. split; [by apply Forall_take|].
  split; [rewrite length_take, Nat.min_l by lia; unfold exec_length; lia|].
  eapply started_fd; [apply S|exact St].
Qed.

(** C11: starting a program. When the command word names a program of the
    file system (its first word is the magic number), a process and a
    descriptor are free and the command line fits, [execute] does not return:
    the processor enters the program at the entry point its image holds, as the
    lowest free process, child of the caller, with the caller's stack
    remembered, the rest of the command line as its arguments, descriptors 2 to
    7 closed, its own address space, on top of the displayed terminal's
    schedule; and every byte of the image (10000 at most) can be read by the
    program at its place from 0x8048000 on. *)
Theorem execute_enters_program s command d i size img pid top b cur :
  tables_filled s -> named s (first_word command) d -> file_type d = TYPE_FILE ->
  lowest_free s i -> file_ok (s_fs s) (inode_num d) size -> 28 <= size ->
  Forall (fun c => 0 < c < 256) command -> (length command < 128)%nat ->
  num_active_processes (s_proc s) < 6 -> spawn_ready s pid top b cur ->
  file_bytes (s_fs s) (inode_num d) 0 (Z.to_nat (Z.min size 10000)) = Some img ->
  le_word (take 4 img) = MAGIC_LEAD ->
  exists s', execute on_irq (Some command) s = Stop (Iret (le_word (take 4 (drop 24 img)))) s' /\
    current_pid (s_proc s') = pid /\
    num_active_processes (s_proc s') = num_active_processes (s_proc s) + 1 /\
    pcb_at s' pid = Some (program_block pid (current_pid (s_proc s)) (cpu_esp (s_hw s))
      (drop (length (first_word command)) command) b) /\
    (forall va, user_phys s' va = user_space pid VIDEO va) /\
    (forall o c, lget img o = Some c -> exists pa,
       user_phys s' (VIRTUAL_START + o) = Some pa /\ mem_get (s_mem s') pa = c) /\
    schedule_top (s_sched s') =
      <[Z.to_nat (current_terminal (s_term s)) := top + 1]> (schedule_top (s_sched s)) /\
    lget2 (schedule_stack (s_sched s')) (current_terminal (s_term s)) top = Some pid /\
    esp0 (tss (s_hw s')) = kernel_stack_of pid.
Proof.
  intros T Hn Hty L F Hsize Hcommand Hlen Hact S Himg Hmagic.
  pose proof (stops_execute s command d i size img pid top b cur T Hn Hty L F Hsize Hcommand Hlen
    Hact S Himg Hmagic) as H.
  apply stops_Stop in H as (w & s' & H & -> & image & Hpre & Hbytes & Hl & St).
  exists s'. split; [exact H|]. pose proof (free_pid_range _ _ (sr_free _ _ _ _ _ S)).
  assert (U : forall va, user_phys s' va = user_space pid VIDEO va).
  { intros va. apply runs_program_user; [apply St|by left|lia]. }
  split_and!; try apply St; try exact U.
  - intros o c Hc. pose proof (lget_range _ _ _ Hc) as Ho.
    assert (Hi : lget image o = Some c).
    { rewrite <-Hpre in Hc. unfold lget in *. rewrite decide_True in * by lia.
      by rewrite lookup_take_lt in Hc by lia. }
    pose proof (lget_range _ _ _ Hi).
    exists (M_4 * (pid + 1) + 0x48000 + o). split.
    + rewrite U. apply image_space. lia.
    + rewrite (st_mem _ _ _ _ _ _ _ _ St), put_bytes_get.
      replace (M_4 * (pid + 1) + 0x48000 + o - (M_4 * (pid + 1) + 0x48000)) with o by lia.
      rewrite Hi. apply u8_small. unfold lget in Hi. rewrite decide_True in Hi by lia.
      eapply Forall_lookup_1 in Hbytes; [|exact Hi]. done.
  - rewrite (st_stack _ _ _ _ _ _ _ _ St).
    destruct (sr_stack _ _ _ _ _ S) as [w Hw]. destruct (lget2_row _ _ _ _ Hw) as (rw & R1 & R2).
    apply lget_range in R1. apply lget_range in R2.
    erewrite lget2_row_set by (done || lia). by rewrite decide_True.
Qed.
End load.

(** ** Witnesses *)

(** Process 1 runs with paging on; process 2 is free. *)
Definition shell_state : kstate :=
  set s_pag (fun p => mk_pag (process_pages p) (process_tables p) true false) (files_state []).

Lemma blank_zeros : blank_before 0 (replicate 20 (replicate 128 0)).
Proof.
  intros a b Ha Hb. unfold lget2. rewrite lget_replicate by lia. cbn [mbind option_bind].
  rewrite lget_replicate by lia. split; [by eexists|]. lia.
Qed.

Lemma shell_state_ready :
  spawn_ready shell_state 2 0 std_pcb (set pcb_pid (fun _ => 1) std_pcb).
Proof.
  constructor; try done; try (cbn; lia).
  - split; [lia|]. split; [by exists std_pcb|]. intros j Hj. assert (j = 1) as -> by lia.
    eexists. split; [reflexivity|]. done.
  - by exists (replicate 128 0).
  - exists (replicate 20 (replicate 128 0)). split; [reflexivity|apply blank_zeros].
Qed.

Lemma small_tables s : optables (s_proc s) = std_tables -> tables_filled s.
Proof. intros E. by constructor; rewrite E. Qed.
Lemma small_shell s : s_fs s = small_fs -> named s (text "shell") (mk_dentry "shell" 2 0).
Proof.
  intros E. constructor; [repeat constructor; lia|]. exists small_dir. rewrite E.
  split; [exact small_dir_eq|by vm_compute].
Qed.
Lemma small_image : file_bytes small_fs 0 0 48 = Some elf_image.
Proof. by vm_compute. Qed.
Lemma first_free s b : cur_fd s 2 = Some b -> fd_flags b = -1 -> lowest_free s 2.
Proof. intros Hb Hf. constructor; [lia|by exists b|lia]. Qed.

(** "shell x" starts process 2 at the entry point of the image. *)
Lemma execute_enters_program_witness :
  exists s', execute on_irq (Some (text "shell x")) shell_state = Stop (Iret 0x08048020) s' /\
    current_pid (s_proc s') = 2 /\ schedule_top (s_sched s') = [1; 0; 0].
Proof.
  destruct (execute_enters_program on_irq shell_state (text "shell x") (mk_dentry "shell" 2 0) 2 48
    elf_image 2 0 std_pcb (set pcb_pid (fun _ => 1) std_pcb))
    as (s' & H1 & H2 & _ & _ & _ & _ & H3 & _).
  - by apply small_tables.
  - by apply small_shell.
  - by vm_compute.
  - by eapply first_free.
  - apply shell_ok.
  - lia.
  - repeat constructor; lia.
  - cbn. lia.
  - done.
  - apply shell_state_ready.
  - apply small_image.
  - by vm_compute.
  - exists s'. split; [exact H1|]. split; [exact H2|]. rewrite H3. reflexivity.
Defined.
