(* ===== verification/ExecProps.v ===== *)
(** * The commands that execute refuses *)
From S2P Require Import Prelude State Monad Logic Strings Screen Proc ProcSpec Fs FsSpec Terminal Keyboard EditorSpec KeyboardSpec Interrupts Syscalls PagingSpec SchedSpec Kernel Demo DriverSpec InputSpec ProcessSpec FsProps ProcessProps.

(** ** What is not a program *)

Definition elf_magic : list Z := [127; 69; 76; 70].

(** One of the first four bytes is not the one of the magic number. *)
Definition no_program (img : list Z) : Prop :=
  exists k c, 0 <= k < 4 /\ lget img k = Some c /\ lget elf_magic k <> Some c.

Lemma le_word_bytes a b c d a' b' c' d' :
  Forall (fun c => 0 <= c < 256) [a; b; c; d] -> Forall (fun c => 0 <= c < 256) [a'; b'; c'; d'] ->
  le_word [a; b; c; d] = le_word [a'; b'; c'; d'] -> [a; b; c; d] = [a'; b'; c'; d'].
Proof.
  rewrite !Forall_cons. intros (? & ? & ? & ? & _) (? & ? & ? & ? & _). cbn [le_word fold_right].
  intros E. repeat f_equal; lia.
Qed.

Lemma no_program_word buf img :
  Forall (fun c => 0 <= c < 256) buf -> (4 <= length buf)%nat ->
  take (length img) buf = img -> no_program img -> le_word (take 4 buf) <> MAGIC_LEAD.
Proof.
  intros Hb Hl Hpre (k & c & Hk & Hc & Hne) Hm. apply Hne.
  destruct buf as [|x0 [|x1 [|x2 [|x3 buf]]]]; cbn [length] in Hl; try lia.
  assert (E : [x0; x1; x2; x3] = elf_magic).
  { apply le_word_bytes; [|repeat constructor; lia|exact Hm].
    change [x0; x1; x2; x3] with (take 4 (x0 :: x1 :: x2 :: x3 :: buf)). by apply Forall_take. }
  pose proof (lget_range _ _ _ Hc). rewrite <-E, <-Hc, <-Hpre.
  assert (Hi : forall j, 0 <= j < 4 -> lget [x0; x1; x2; x3] j = lget (x0 :: x1 :: x2 :: x3 :: buf) j).
  { intros j Hj. change (x0 :: x1 :: x2 :: x3 :: buf) with ([x0; x1; x2; x3] ++ buf).
    symmetry. apply lget_app_l. cbn. lia. }
  rewrite Hi by lia. unfold lget. rewrite !decide_True by lia.
  rewrite lookup_take_lt by lia. done.
Qed.

Section refuse.
Context {P : Platform}.
Variable on_irq : irq -> M unit.
Implicit Types (s : kstate).

(** [execute] cannot start a program from [command]. *)
Inductive refused s : option (list Z) -> Prop :=
  | ref_null : refused s None
  | ref_full command : 6 <= num_active_processes (s_proc s) -> refused s (Some command)
  | ref_long command : (128 <= length command)%nat -> refused s (Some command)
  | ref_absent command ds :
      Forall (fun c => 0 < c < 256) command -> directory (s_fs s) = Some ds ->
      lookup_name ds (first_word command) = None -> refused s (Some command)
  | ref_no_program command d i size img :
      tables_filled s -> named s (first_word command) d -> file_type d = TYPE_FILE ->
      lowest_free s i -> file_ok (s_fs s) (inode_num d) size -> 0 < size ->
      file_bytes (s_fs s) (inode_num d) 0 (Z.to_nat (Z.min size 10000)) = Some img ->
      no_program img -> refused s (Some command).

(** No process, page, line or file has changed: only what a free descriptor
    held and whether interrupts are on. *)
Record unstarted s s' : Prop := {
  us_scr : s_scr s' = s_scr s;
  us_pag : s_pag s' = s_pag s;
  us_sched : s_sched s' = s_sched s;
  us_term : s_term s' = s_term s;
  us_kbd : s_kbd s' = s_kbd s;
  us_rtc : s_rtc s' = s_rtc s;
  us_irq : s_irq s' = s_irq s;
  us_fs : s_fs s' = s_fs s;
  us_mem : s_mem s' = s_mem s;
  us_hw : s_hw s' = s_hw s \/ s_hw s' = set eflags_if (fun _ => false) (s_hw s);
  us_current : current_pid (s_proc s') = current_pid (s_proc s);
  us_active : num_active_processes (s_proc s') = num_active_processes (s_proc s);
  us_blocks : forall p, 0 <= p -> p <> current_pid (s_proc s) -> pcb_at s' p = pcb_at s p;
  us_files : forall j b, cur_fd s j = Some b -> 0 <= j ->
    exists b', cur_fd s' j = Some b' /\ (b' = b \/ fd_flags b = -1 /\ fd_flags b' = -1);
}.

Lemma unstarted_refl s : unstarted s s.
Proof. constructor; try done; [by left|]. intros j b Hb _. exists b. auto. Qed.
Lemma unstarted_masked s : unstarted s (masked s).
Proof. constructor; try done; [by right|]. intros j b Hb _. exists b. auto. Qed.

Lemma unstarted_free_fd s i b :
  fd_free s i -> fd_flags b = -1 -> 0 <= i -> unstarted s (with_parent_fd i b s).
Proof.
  intros (b0 & Hb0 & Hf0) Hf Hi. constructor; try done; [by right| |].
  - intros p Hp Hne. pose proof Hb0 as Hc. unfold cur_fd, fd_at in Hc.
    destruct (pcb_at s (current_pid (s_proc s))) as [cur|] eqn:Hcur; [|done].
    rewrite (parent_fd_pcb _ _ _ cur) by done. by rewrite decide_False.
  - intros j bj Hj Hj0. unfold with_parent_fd. rewrite (cur_fd_with _ _ _ b0) by done.
    case_decide; [subst j|by exists bj; auto]. exists b. split; [done|right].
    by rewrite Hb0 in Hj; injection Hj as <-.
Qed.

(** The first tests of [execute]. *)
Lemma execute_some command s :
  execute on_irq (Some command) s =
    if MAX_PROCESSES <=? num_active_processes (s_proc s) then Ret (-1) s
    else if EXEC_BUFFER_SIZE <=? Z.of_nat (length command) then Ret (-1) s
    else execute on_irq (Some command) s.
Proof.
  unfold execute. erewrite bind_Ret by reflexivity. case_match; [done|].
  erewrite bind_Ret by reflexivity. case_match; done.
Qed.

Lemma refused_early s command :
  (MAX_PROCESSES <= num_active_processes (s_proc s) \/
   EXEC_BUFFER_SIZE <= Z.of_nat (length command)) ->
  execute on_irq (Some command) s = Ret (-1) s.
Proof.
  intros H. rewrite execute_some. destruct (Z.leb_spec MAX_PROCESSES (num_active_processes (s_proc s)));
    [done|]. rewrite (proj2 (Z.leb_le _ _)) by lia. done.
Qed.

(** Once a process is free and the command fits, the file is opened. *)
Lemma execute_opens s command :
  num_active_processes (s_proc s) < MAX_PROCESSES ->
  Z.of_nat (length command) < EXEC_BUFFER_SIZE ->
  execute on_irq (Some command) s =
    (fd <- open (Some (first_word command)) ;;
     if fd =? FAILURE then ret FAILURE
     else
       cli ;; r <- read_into on_irq fd exec_length ;;
       let buf := snd r ++ replicate (Z.to_nat exec_buf_size - length (snd r)) (u8 stack_junk) in
       close fd ;;
       if negb (le_word (take 4 buf) =? MAGIC_LEAD) then ret FAILURE
       else execute_start command (first_word command) buf (cpu_esp (s_hw s))) s.
Proof.
  intros Hn Hl. unfold execute at 1. erewrite bind_Ret by reflexivity.
  rewrite (proj2 (Z.leb_gt _ _)) by done. erewrite bind_Ret by reflexivity.
  by rewrite (proj2 (Z.leb_gt _ _)) by done.
Qed.

Lemma open_absent s fname ds :
  Forall (fun c => 0 < c < 256) fname -> directory (s_fs s) = Some ds ->
  lookup_name ds fname = None -> open (Some fname) s = Ret FAILURE (masked s).
Proof.
  intros Hb Hds Hno. unfold open. erewrite bind_Ret by reflexivity. fold (masked s).
  erewrite bind_Ret by (by apply (read_dentry_spec (masked s) _ _ ds)). cbv beta. by rewrite Hno.
Qed.

(** With descriptors 2 to 7 in use the file that is not a program stays open
    as descriptor 0 of the caller, which [open] has replaced and [close]
    refuses to close. *)
Lemma execute_full_table s command d size img b0 :
  tables_filled s -> named s (first_word command) d -> file_type d = TYPE_FILE ->
  (forall j, 2 <= j < 8 -> fd_used s j) -> cur_fd s 0 = Some b0 ->
  file_ok (s_fs s) (inode_num d) size -> 0 < size ->
  file_bytes (s_fs s) (inode_num d) 0 (Z.to_nat (Z.min size 10000)) = Some img ->
  no_program img -> num_active_processes (s_proc s) < 6 -> (length command < 128)%nat ->
  exists s' blk, execute on_irq (Some command) s = Ret (-1) s' /\ cur_fd s' 0 = Some blk /\
    file_operations_pointer blk = Some file_table /\ fd_inode blk = inode_num d.
Proof.
  intros T Hn Hty Hu Hb0 F Hsize Himg Hnp Hact Hlen.
  set (s1 := with_parent_fd 0 (open_file d) s).
  assert (Ho : open (Some (first_word command)) s = Ret 0 s1).
  { unfold open. erewrite bind_Ret by reflexivity. fold (masked s).
    erewrite bind_Ret by (by apply (read_dentry_named (masked s) _ d); destruct Hn; constructor).
    cbv beta iota. change (negb (SUCCESS =? 0)) with false. cbv iota zeta. rewrite Hty.
    change (TYPE_FILE =? TYPE_RTC) with false. change (TYPE_FILE =? TYPE_DIR) with false.
    change (TYPE_FILE =? TYPE_FILE) with true. cbv iota.
    apply (file_open_full (masked s) _ d b0); try done; [by destruct T; constructor|by destruct Hn; constructor]. }
  assert (Hb1 : cur_fd s1 0 = Some (open_file d)).
  { unfold s1, with_parent_fd. rewrite (cur_fd_with _ _ _ b0) by (done || lia). by rewrite decide_True. }
  assert (T1 : tables_filled s1) by (destruct T; by constructor).
  pose proof (read_file_Ret on_irq s1 0 (open_file d) size exec_length T1 ltac:(lia) Hb1 eq_refl eq_refl
    F ltac:(cbn; pose proof (fo_range _ _ _ F); lia)) as Hr.
  cbn [open_file fd_inode file_position] in Hr. change (u32 exec_length) with 10000 in Hr.
  destruct (read_plan size 0 10000) as [[r n] pos'] eqn:Hplan.
  destruct Hr as (bs & Hbs & Hr). change (s_fs s1) with (s_fs s) in Hbs.
  set (blk1 := set file_position (fun _ => pos') (open_file d)) in *.
  exists (masked (with_cur_fd 0 blk1 s1)), blk1. split_and!; try done.
  2: { rewrite cur_fd_masked, (cur_fd_with _ _ _ (open_file d)) by (done || lia). by rewrite decide_True. }
  destruct (exec_buffer (s_fs s) (inode_num d) size img n bs) as (B1 & B2 & B3 & B4); try done.
  { unfold read_plan in Hplan.
    rewrite (proj2 (Z.eqb_neq size 0)), (proj2 (Z.ltb_ge size 0)) in Hplan by lia.
    cbn [orb] in Hplan. destruct (Z.leb_spec 10000 (size - 0)); injection Hplan as _ <- _; lia. }
  rewrite execute_opens by (unfold MAX_PROCESSES, EXEC_BUFFER_SIZE; lia).
  erewrite bind_Ret by exact Ho. change (0 =? FAILURE) with false. cbv iota.
  erewrite bind_Ret by reflexivity. fold (masked s1).
  replace (masked s1) with s1 by (unfold s1, with_parent_fd; by rewrite masked_with_cur_fd, masked_twice).
  erewrite bind_Ret by exact Hr. cbv beta. cbn [snd]. cbv zeta.
  erewrite bind_Ret by reflexivity. cbv beta. rewrite (proj2 (Z.eqb_neq _ MAGIC_LEAD)); [done|].
  apply (no_program_word _ img); [exact B1| | |exact Hnp].
  - unfold exec_length in B2. lia.
  - rewrite <-B3 at 2. rewrite take_take, Nat.min_l; [done|]. unfold exec_length. lia.
Qed.

(** C13: [execute] fails cleanly. For no command, with six processes, for a
    command line of 128 characters or more, when no file has the name of its
    first word and when the file with that name does not start with the magic
    number of a program, [execute] returns -1, and no process was made: the
    control blocks, the schedule, the page tables, the screen, the line being
    typed, the memory and the file system are as before, and so are the
    caller's open files. In the last case one of the caller's descriptors 2 to
    7 is free; [execute_full_table] is the case that none is. *)
Theorem execute_refuses s command :
  refused s command ->
  exists s', execute on_irq command s = Ret (-1) s' /\ unstarted s s'.
Proof.
  intros R. destruct R as [|command Hfull|command Hlong|command ds Hb Hds Hno|
    command d i size img T Hn Hty L F Hsize Himg Hnp].
  - exists s. split; [done|apply unstarted_refl].
  - exists s. split; [apply refused_early; by left|apply unstarted_refl].
  - exists s. split; [apply refused_early; right; unfold EXEC_BUFFER_SIZE; lia|].
    apply unstarted_refl.
  - destruct (decide (MAX_PROCESSES <= num_active_processes (s_proc s) \/
      EXEC_BUFFER_SIZE <= Z.of_nat (length command))) as [He|He].
    { exists s. split; [by apply refused_early|apply unstarted_refl]. }
    exists (masked s). split; [|apply unstarted_masked].
    rewrite execute_opens by lia. erewrite bind_Ret by (eapply open_absent; [by apply first_word_Forall|done|done]).
    done.
  - destruct (decide (MAX_PROCESSES <= num_active_processes (s_proc s) \/
      EXEC_BUFFER_SIZE <= Z.of_nat (length command))) as [He|He].
    { exists s. split; [by apply refused_early|apply unstarted_refl]. }
    destruct (read_image on_irq s (first_word command) d i size img)
      as (s1 & s2 & r & bs & blk & H1 & H2 & H3 & H4 & Hfree & B1 & B2 & B3 & B4); try done.
    pose proof (lf_range _ _ L).
    exists (with_parent_fd i blk s). split; [|apply unstarted_free_fd; [apply L|exact Hfree|lia]].
    + rewrite execute_opens by lia. erewrite bind_Ret by exact H1. cbv beta.
      rewrite (proj2 (Z.eqb_neq i FAILURE)) by (unfold FAILURE; lia).
      erewrite bind_Ret by reflexivity. fold (masked s1). rewrite H2.
      erewrite bind_Ret by exact H3. cbv beta. cbn [snd]. cbv zeta.
      erewrite bind_Ret by exact H4. cbv beta.
      rewrite (proj2 (Z.eqb_neq _ MAGIC_LEAD)); [done|].
      apply (no_program_word _ img); [exact B1| | |exact Hnp].
      * unfold exec_length in B2. lia.
      * rewrite <-B3 at 2. rewrite take_take, Nat.min_l; [done|].
        unfold exec_length. lia.
Qed.
End refuse.

(** ** Witness *)

Lemma note_ok : file_ok small_fs 1 3.
Proof.
  constructor.
  - exists 2. split; [by vm_compute|lia].
  - by vm_compute.
  - intros i Hi. apply bytes_present_spec with (n := 4%nat); [by vm_compute|lia].
  - lia.
Qed.

(** A text file with a long name, with an argument. *)
Lemma execute_refuses_witness :
  exists s', execute on_irq (Some (text "verylargetextwithverylongname.tx now")) shell_state =
      Ret (-1) s' /\ s_mem s' = s_mem shell_state /\
    num_active_processes (s_proc s') = num_active_processes (s_proc shell_state).
Proof.
  destruct (execute_refuses on_irq shell_state
    (Some (text "verylargetextwithverylongname.tx now"))) as (s' & H & U).
  - apply (ref_no_program _ _ (mk_dentry "verylargetextwithverylongname.tx" 2 1) 2 3
      [72; 105; 10]).
    + by apply small_tables.
    + constructor; [repeat constructor; lia|]. exists small_dir.
      split; [exact small_dir_eq|by vm_compute].
    + by vm_compute.
    + by eapply first_free.
    + exact note_ok.
    + lia.
    + by vm_compute.
    + exists 0, 72. split; [lia|]. split; [reflexivity|discriminate].
  - exists s'. split; [exact H|]. split; [exact (us_mem _ _ U)|exact (us_active _ _ U)].
Defined.
