(* ===== verification/LifeProps.v ===== *)
(** * Properties of the end of a process *)
From S2P Require Import Prelude State Monad Logic Strings Screen ScreenSpec Proc ProcSpec Fs FsSpec Terminal Keyboard EditorSpec KeyboardSpec Interrupts Syscalls PagingSpec SchedSpec Exceptions Kernel Demo DriverSpec InputSpec ProcessSpec HaltSpec FsProps ProcessProps.

Section life.
Context {P : Platform}.
Variable on_irq : irq -> M unit.
Implicit Types (s : kstate).

(** A process that can halt: its block, its parent's, and the slot of the
    running terminal that it occupies. *)
Record halts s (b pb : pcb_t) (top vid : Z) : Prop := {
  ha_block : pcb_at s (current_pid (s_proc s)) = Some b;
  ha_parent : pcb_at s (pcb_parent b) = Some pb;
  ha_distinct : current_pid (s_proc s) <> pcb_parent b;
  ha_range : 0 <= pcb_parent b < 7;
  ha_slot : exists c, slot (s_sched s) (current_process (s_sched s)) c;
  ha_top : lget (schedule_top (s_sched s)) (current_process (s_sched s)) = Some top;
  ha_runs : runs_program s (current_pid (s_proc s)) vid;
  ha_vid : display_page vid;
}.

Lemma halts_pages s b pb top vid : halts s b pb top vid -> length (process_pages (s_pag s)) = 1024%nat.
Proof.
  intros H. destruct (ha_runs _ _ _ _ _ H) as [R _ _]. rewrite R. unfold program_directory.
  by autorewrite with arr.
Qed.

(** The state in which [halt] leaves the kernel, and what it does next. *)
Lemma halt_state s status b pb top vid :
  halts s b pb top vid ->
  exists s1, released (current_pid (s_proc s)) (pcb_parent b) top b pb s s1 /\
    runs_program s1 (pcb_parent b) vid /\
    halt on_irq status s =
      ((if pcb_parent b =? SENTINEL_PROCESS then exec_shell on_irq ;; ret tt else ret tt) ;;
       stop_with (ExecuteReturns (halt_eax status))) s1.
Proof.
  intros H. pose proof (halts_pages _ _ _ _ _ H) as Hl. destruct H as [Hb Hpb Hne Hr [c Hc] Ht R V].
  destruct (halt_releases on_irq s status b pb c top) as (s1 & Rel & E); try done; [lia|].
  exists s1. split; [exact Rel|]. split; [by eapply released_runs|exact E].
Qed.

(** C25: the end of a program. [halt] of a process that was started by another
    one does not return: the process's number is free again and the other
    blocks are untouched, its parent is the current process with its own kernel
    stack and address space and again on top of its terminal's schedule, the
    stack pointer is the one [execute] had recorded, interrupts are on, and
    [execute] returns the low byte of the status if the compiler keeps the
    status outside [eax], and 0 if it keeps it there, as in the shipped image,
    since [halt]'s assembly clears [eax] before it reads the status. *)
Theorem halt_returns_to_parent s status b pb top vid :
  halts s b pb top vid -> pcb_parent b <> SENTINEL_PROCESS ->
  exists s', halt on_irq status s = Stop (ExecuteReturns
    (if decide (halt_status_register = AL) then 0 else u8 status)) s' /\
    current_pid (s_proc s') = pcb_parent b /\
    num_active_processes (s_proc s') = num_active_processes (s_proc s) - 1 /\
    pcb_at s' (current_pid (s_proc s)) = Some (set pcb_pid (fun _ => -1) b) /\
    (forall r, 0 <= r -> r <> current_pid (s_proc s) -> pcb_at s' r = pcb_at s r) /\
    esp0 (tss (s_hw s')) = u32 (pcb_esp pb) /\ cpu_esp (s_hw s') = stack_pos b /\
    eflags_if (s_hw s') = true /\
    (forall va, user_phys s' va = user_space (pcb_parent b) vid va) /\
    s_sched s' = descheduled (current_process (s_sched s)) top (s_sched s).
Proof.
  intros H Hq. destruct (halt_state s status b pb top vid H) as (s1 & [R1 R2 R3 R4 R5 R6 R7 R8 R9 R10 R11] & R & E).
  exists s1. rewrite E, (proj2 (Z.eqb_neq _ _)), halt_eax_value by done. split; [done|].
  pose proof (ha_range _ _ _ _ _ H). split_and!; try done.
  - by rewrite R6.
  - intros va. apply runs_program_user; [done|apply H|lia].
Qed.


(** ** The shell of a terminal *)

(** The kernel as the root process sees it when its child has halted. *)
Definition reaped s (top : Z) : kstate :=
  set s_sched (descheduled (current_process (s_sched s)) top)
    (set s_proc (set current_pid (fun _ => SENTINEL_PROCESS))
      (with_pcb (current_pid (s_proc s)) (set pcb_pid (fun _ => -1)) s)).

(** What readiness to start a program depends on. *)
Lemma spawn_ready_ext s s' pid top b cur :
  (forall r, pcb_at s' r = pcb_at s r) -> current_pid (s_proc s') = current_pid (s_proc s) ->
  s_term s' = s_term s -> s_kbd s' = s_kbd s -> s_sched s' = s_sched s ->
  length (process_pages (s_pag s')) = length (process_pages (s_pag s)) ->
  length (process_tables (s_pag s')) = length (process_tables (s_pag s)) ->
  paging_on (s_pag s') = paging_on (s_pag s) ->
  spawn_ready s pid top b cur -> spawn_ready s' pid top b cur.
Proof.
  intros Ep Ec Et Ek Es E1 E2 E3 [[F1 [F2 F3]] S2 S3 S4 S5 S6 S7 S8 S9 S10 S11 S12 S13 S14 S15 S16].
  constructor; unfold history_of in *; rewrite ?Ep, ?Ec, ?Et, ?Ek, ?Es, ?E1, ?E2, ?E3; try done.
  split; [done|]. rewrite Ep. split; [done|]. intros j Hj. rewrite Ep. by apply F3.
Qed.

Lemma reaped_pcb s b top r :
  pcb_at s (current_pid (s_proc s)) = Some b -> 0 <= r ->
  pcb_at (reaped s top) r = if decide (r = current_pid (s_proc s))
    then Some (set pcb_pid (fun _ => -1) b) else pcb_at s r.
Proof.
  intros Hb Hr. transitivity (pcb_at (with_pcb (current_pid (s_proc s)) (set pcb_pid (fun _ => -1)) s) r);
    [done|].
  case_decide as E; [subst r; by apply pcb_at_with_pcb_eq|].
  apply pcb_at_with_pcb_ne; [|done..]. by eapply pcb_at_range.
Qed.

Lemma released_pcb s s1 q b pb top r :
  pcb_at s (current_pid (s_proc s)) = Some b ->
  released (current_pid (s_proc s)) q top b pb s s1 -> pcb_at s1 r = pcb_at (reaped s top) r.
Proof.
  intros Hb R. destruct (decide (0 <= r)) as [Hr|Hr].
  - rewrite (reaped_pcb s b) by done. case_decide as E.
    + subst r. by apply R.
    + by apply R.
  - unfold pcb_at, lget. by rewrite !decide_False by lia.
Qed.

(** C26: a terminal never loses its shell. When a process whose parent is the
    root process halts, [execute] starts "shell" anew: the processor enters the
    image of the program of that name, as a child of the root process, in its
    own address space and scheduled on the displayed terminal, and the number
    of processes is the one from before. *)
Theorem base_shell_restarts s status b pb top vid d i size img pid top' b' :
  halts s b pb top vid -> pcb_parent b = SENTINEL_PROCESS ->
  tables_filled s -> named s (text "shell") d -> file_type d = TYPE_FILE ->
  lowest_free (reaped s top) i -> file_ok (s_fs s) (inode_num d) size -> 28 <= size ->
  num_active_processes (s_proc s) <= 6 -> spawn_ready (reaped s top) pid top' b' pb ->
  file_bytes (s_fs s) (inode_num d) 0 (Z.to_nat (Z.min size 10000)) = Some img ->
  le_word (take 4 img) = MAGIC_LEAD ->
  exists s', halt on_irq status s = Stop (Iret (le_word (take 4 (drop 24 img)))) s' /\
    current_pid (s_proc s') = pid /\
    num_active_processes (s_proc s') = num_active_processes (s_proc s) /\
    pcb_at s' pid = Some (program_block pid SENTINEL_PROCESS (stack_pos b) [] b') /\
    (forall va, user_phys s' va = user_space pid VIDEO va) /\
    lget (schedule_top (s_sched s')) (current_terminal (s_term s)) = Some (top' + 1) /\
    lget2 (schedule_stack (s_sched s')) (current_terminal (s_term s)) top' = Some pid.
Proof.
  intros H Hq T Hn Hty L F Hsize Hact S Himg Hmagic.
  destruct (halt_state s status b pb top vid H) as (s1 & R & _ & E).
  pose proof (ha_block _ _ _ _ _ H) as Hb. rewrite Hq in R, E.
  assert (Epcb : forall r, pcb_at (masked s1) r = pcb_at (reaped s top) r)
    by (intros r; by apply (released_pcb s s1 SENTINEL_PROCESS b pb top)).
  pose proof (halts_pages _ _ _ _ _ H) as Hl.
  destruct R as [R1 R2 R3 R4 R5 R6 R7 R8 R9 R10 (R11 & R12 & R13 & R14 & R15 & R16 & R17)].
  assert (S1 : spawn_ready (masked s1) pid top' b' pb).
  { revert S. apply spawn_ready_ext; try done; unfold masked; upd; try done;
      rewrite R9; cbn [process_pages process_tables paging_on]; by rewrite ?length_insert. }
  assert (W : stops (exec_shell on_irq) (fun w s' =>
    w = Iret (le_word (take 4 (drop 24 img))) /\
    exists image, started (masked s1) pid top' (cpu_esp (s_hw (masked s1))) [] image b' s') s1).
  { unfold exec_shell, int_0x80, cli_and_save, hw_set. wp_pures. fold (masked s1).
    apply stops_stop_first. eapply stops_mono; [apply (stops_execute on_irq (masked s1) (text "shell") d i size img
      pid top' b' pb); try done|].
    - destruct T. constructor; unfold masked; upd; by rewrite R5.
    - destruct Hn as [N1 N2]. constructor; [done|]. unfold masked. upd. by rewrite R16.
    - destruct L as [L1 L2 L3].
      assert (Ef : forall j, cur_fd (masked s1) j = cur_fd (reaped s top) j).
      { intros j. unfold cur_fd, fd_at. rewrite Epcb. unfold masked. upd. by rewrite R1. }
      constructor; [done| |]; unfold fd_free, fd_used in *;
        [by rewrite Ef|intros j Hj; rewrite Ef; by apply L3].
    - unfold masked. upd. by rewrite R16.
    - repeat constructor.
    - cbn. lia.
    - unfold masked. upd. lia.
    - unfold masked. upd. by rewrite R16.
    - cbv beta. intros w s' [-> (image & _ & _ & _ & St)]. split; [done|]. by exists image. }
  apply stops_Stop in W as (w & s' & W & -> & image & St).
  exists s'. split.
  { rewrite E. unfold bind. cbn [Z.eqb SENTINEL_PROCESS]. by rewrite W. }
  pose proof (free_pid_range _ _ (sr_free _ _ _ _ _ S)).
  destruct St as [C1 C2 C3 _ _ C4 _ _ C5 C6 _ _ _].
  change (s_proc (masked s1)) with (s_proc s1) in *. change (s_term (masked s1)) with (s_term s1) in *.
  change (s_sched (masked s1)) with (s_sched s1) in *.
  rewrite R1, R12, R2 in *. unfold masked in C3. upd_in C3. rewrite R7 in C3.
  pose proof (lget_range _ _ _ (sr_top _ _ _ _ _ S)) as Ht.
  destruct (sr_stack _ _ _ _ _ S) as [v Hv]. destruct (lget2_row _ _ _ _ Hv) as (rw & W1 & W2).
  apply lget_range in W1. apply lget_range in W2. change (s_term (reaped s top)) with (s_term s) in *.
  change (s_sched (reaped s top)) with (descheduled (current_process (s_sched s)) top (s_sched s)) in *.
  split_and!; try done.
  - lia.
  - intros va. apply runs_program_user; [done|by left|lia].
  - rewrite C5, R10. rewrite lget_insert by done. by rewrite decide_True.
  - rewrite C6, R10. erewrite lget2_row_set by (exact Hv || lia). by rewrite decide_True.
Qed.

(** ** Exceptions *)

(** The screen of a program is the display page of its terminal. *)
Lemma program_video s pid vid :
  runs_program s pid vid -> display_page vid -> 0 <= pid < 256 -> tlb_stale (s_pag s) = false ->
  video_mem (s_scr s) = VIDMAP -> video_at s vid.
Proof.
  intros R V Hpid Hs Hv. unfold video_at. rewrite Hv. split; [done|]. intros o Ho.
  rewrite (runs_program_phys s pid vid) by done. unfold address_space, VIDMAP.
  rewrite u32_small by lia. repeat (rewrite decide_False by lia). rewrite decide_True by lia.
  unfold table_space. rewrite decide_True by lia. f_equal. lia.
Qed.

Lemma halts_ext s s' b pb top vid :
  s_proc s' = s_proc s -> s_pag s' = s_pag s -> s_sched s' = s_sched s ->
  halts s b pb top vid -> halts s' b pb top vid.
Proof.
  intros E1 E2 E3 [H1 H2 H3 H4 H5 H6 [R1 R2 R3] H8].
  constructor; unfold pcb_at in *; rewrite ?E1, ?E3; try done. by constructor; rewrite E2.
Qed.

Lemma halts_scr s f b pb top vid : halts s b pb top vid -> halts (set s_scr f s) b pb top vid.
Proof. apply halts_ext; by upd. Qed.

Lemma plain_message h : plain_text (text (exception_message h)).
Proof. destruct h; apply (bool_decide_unpack _); by vm_compute. Qed.

(** [do_call(SYS_HALT, 256, 0, 0)] is [halt(0)]. *)
Lemma halt_call s :
  do_call on_irq SYS_HALT 256 0 0 s =
    match halt on_irq 0 (masked s) with
    | Ret r s' => (restore_flags (eflags_if (s_hw s)) ;; ret r) s'
    | Stop w s' => Stop w s'
    end.
Proof. reflexivity. Qed.

(** C27: an exception in a program. The handler prints its message on the
    program's screen, in the row of the cursor and from the cursor on (at the
    end of the row it goes on at the row's beginning), and moves the cursor to
    the next row; for a divide error, an overflow, a bound error, an
    invalid opcode, a stack, protection or page fault the process then ends and
    its parent's [execute] returns 0, since the status 256 that the handlers
    pass does not fit the byte that [halt] takes; the other handlers never
    return. *)
Theorem exception_ends_program s h b pb top vid pv :
  halts s b pb top vid -> pcb_parent b <> SENTINEL_PROCESS ->
  video_at s pv -> 0 <= screen_y (s_scr s) < 25 -> 0 <= screen_x (s_scr s) < 80 ->
  exists s', exception_handler on_irq h s =
      Stop (if exception_halts h then ExecuteReturns 0 else Hang) s' /\
    s_mem s' = put_row (s_mem s) pv (screen_y (s_scr s)) (screen_x (s_scr s))
      (text (exception_message h)) /\
    screen_x (s_scr s') = 0 /\ screen_y (s_scr s') = screen_y (s_scr s) + 1 /\
    (exception_halts h = true ->
      current_pid (s_proc s') = pcb_parent b /\
      pcb_at s' (current_pid (s_proc s)) = Some (set pcb_pid (fun _ => -1) b) /\
      cpu_esp (s_hw s') = stack_pos b /\
      (forall va, user_phys s' va = user_space (pcb_parent b) vid va)) /\
    (exception_halts h = false -> s_proc s' = s_proc s).
Proof.
  intros H Hq Hv Hy Hx.
  assert (W : wp (printf (text (exception_message h) ++ [10]) []) (fun _ s1 => draws s s1 /\
    screen_x (s_scr s1) = 0 /\ screen_y (s_scr s1) = screen_y (s_scr s) + 1 /\
    s_mem s1 = put_row (s_mem s) pv (screen_y (s_scr s)) (screen_x (s_scr s))
      (text (exception_message h))) s).
  { unfold printf. wp_pure. apply (wp_printf_plain pv); [done|apply plain_message|done|done|].
    intros s1 D X Y Mm. by apply wp_ret. }
  apply wp_Ret in W as (n & s1 & W & D & X & Y & Mm). unfold exception_handler.
  rewrite (bind_Ret _ _ _ _ _ W). destruct (exception_halts h).
  - assert (H1 : halts (masked s1) b pb top vid) by (eapply halts_ext; [apply D..|exact H]).
    destruct (halt_state (masked s1) 0 b pb top vid H1)
      as (s2 & [R1 R2 R3 R4 R5 R6 R7 R8 R9 R10 (R11 & R12 & R13 & R14 & R15 & R16 & R17)] & R & E).
    rewrite (proj2 (Z.eqb_neq _ _)), halt_eax_0 in E by done.
    exists s2. split; [unfold bind; by rewrite halt_call, E|].
    change (s_mem (masked s1)) with (s_mem s1) in R17. change (s_scr (masked s1)) with (s_scr s1) in R11.
    change (s_proc (masked s1)) with (s_proc s1) in *. rewrite (draws_proc _ _ D) in R3.
    rewrite R17, R11. split_and!; try done. intros _. split_and!; try done.
    pose proof (ha_range _ _ _ _ _ H). intros va. apply runs_program_user; [done|apply H|lia].
  - exists s1. split; [done|]. split_and!; try done. intros _. apply D.
Qed.
End life.

(** ** Witnesses *)

Definition child_pcb (parent : Z) : pcb_t :=
  set pcb_parent (fun _ => parent) (set stack_pos (fun _ => 0x7FBF00) std_pcb).

(** Process [pid], started by [parent], runs alone on terminal 0. *)
Definition child_state (pid parent : Z) : kstate :=
  set s_pag (fun _ => mk_pag (program_directory pid) (program_table VIDEO) true false)
  (set s_sched (set schedule_top (fun _ => [1; 0; 0]))
  (set s_sched (set schedule_stack (fun _ => [[pid; 0; 0; 0; 0; 0; 0]; replicate 7 0; replicate 7 0]))
  (set s_proc (fun p => mk_proc
    (<[Z.to_nat pid := set pcb_pid (fun _ => pid) (child_pcb parent)]> (control_blocks p))
    pid pid 0 std_tables) (files_state [])))).

Definition child_block (pid parent : Z) : pcb_t := set pcb_pid (fun _ => pid) (child_pcb parent).

Lemma child_halts :
  halts (child_state 2 1) (child_block 2 1) (set pcb_pid (fun _ => 1) std_pcb) 1 VIDEO.
Proof.
  constructor; try done.
  - exists (mk_slot 2 0 0 zero_tss). constructor. by exists 1.
  - by left.
Qed.

Lemma halt_returns_to_parent_witness :
  exists s', halt on_irq 259 (child_state 2 1) = Stop (ExecuteReturns 0) s' /\
    current_pid (s_proc s') = 1 /\ cpu_esp (s_hw s') = 0x7FBF00 /\
    user_phys s' 0x8048000 = Some 0x848000.
Proof.
  destruct (halt_returns_to_parent on_irq (child_state 2 1) 259 (child_block 2 1)
    (set pcb_pid (fun _ => 1) std_pcb) 1 VIDEO) as (s' & H1 & H2 & _ & _ & _ & _ & H3 & _ & H4 & _);
    [apply child_halts|done|].
  exists s'. rewrite H1, H2, H3, H4. split; [reflexivity|]. split; [reflexivity|]. by split.
Defined.

Lemma exception_ends_program_witness :
  exists s', exception_handler on_irq exception_page_fault (set s_scr (set video_mem (fun _ => VIDMAP))
      (child_state 2 1)) = Stop (ExecuteReturns 0) s' /\ current_pid (s_proc s') = 1.
Proof.
  destruct (exception_ends_program on_irq (set s_scr (set video_mem (fun _ => VIDMAP)) (child_state 2 1))
    exception_page_fault (child_block 2 1) (set pcb_pid (fun _ => 1) std_pcb) 1 VIDEO VIDEO)
    as (s' & H1 & _ & _ & _ & H2 & _).
  - apply halts_scr, child_halts.
  - done.
  - apply (program_video _ 2); [by constructor|by left|lia|done|done].
  - split; [done|reflexivity].
  - split; [done|reflexivity].
  - exists s'. split; [exact H1|]. by apply H2.
Defined.

Lemma child_reaped :
  spawn_ready (reaped (child_state 1 0) 1) 1 0 (set pcb_pid (fun _ => -1) (child_block 1 0))
    (set pcb_pid (fun _ => 0) std_pcb).
Proof.
  constructor; try done; try (cbn; lia).
  - split; [lia|]. split; [by eexists|lia].
  - by exists (replicate 128 0).
  - exists (replicate 20 (replicate 128 0)). split; [reflexivity|apply blank_zeros].
Qed.
Lemma shell_halts :
  halts (child_state 1 0) (child_block 1 0) (set pcb_pid (fun _ => 0) std_pcb) 1 VIDEO.
Proof.
  constructor; try done.
  - exists (mk_slot 1 0 0 zero_tss). constructor. by exists 1.
  - by left.
Qed.

(** The shell of terminal 0 halts. *)
Lemma base_shell_restarts_witness :
  exists s', halt on_irq 0 (child_state 1 0) = Stop (Iret 0x08048020) s' /\
    current_pid (s_proc s') = 1 /\ num_active_processes (s_proc s') = 1.
Proof.
  destruct (base_shell_restarts on_irq (child_state 1 0) 0 (child_block 1 0)
    (set pcb_pid (fun _ => 0) std_pcb) 1 VIDEO (mk_dentry "shell" 2 0) 2 48 elf_image 1 0
    (set pcb_pid (fun _ => -1) (child_block 1 0))) as (s' & H1 & H2 & H3 & _).
  - apply shell_halts.
  - done.
  - by apply small_tables.
  - by apply small_shell.
  - by vm_compute.
  - by eapply first_free.
  - apply shell_ok.
  - lia.
  - done.
  - apply child_reaped.
  - apply small_image.
  - by vm_compute.
  - exists s'. split; [exact H1|]. split; [exact H2|]. rewrite H3. reflexivity.
Defined.



