(* ===== verification/ArgsProps.v ===== *)
(** * The arguments of a program, from execute to getargs *)
From S2P Require Import Prelude State Monad Logic Strings Screen Proc ProcSpec Fs FsSpec FsProps Terminal Interrupts Syscalls PagingSpec Kernel Demo DriverSpec ProcessSpec ProcessProps LifeProps.

Section getargs.
Context {P : Platform}.
Implicit Types (s : kstate).

(** Arguments that end in the block are copied to the buffer with their
    terminator, and blanked. *)
Lemma wp_getargs_at s b t n a pa (Q : Z -> kstate -> Prop) :
  let pid := current_pid (s_proc s) in let k := length t in
  pcb_at s pid = Some b -> cstring (pcb_args b) t -> (length (pcb_args b) <= 1024)%nat ->
  t <> [] -> Z.of_nat k <= n -> a <> 0 -> linear s a (Z.of_nat k + 1) pa ->
  Q 0 (with_args pid (replicate k 0 ++ drop k (pcb_args b))
    (set s_mem (put_bytes pa (t ++ [0])) (masked s))) ->
  wp (getargs a n) Q s.
Proof.
  intros pid k Hb Hc Hl Hne Hn Ha L HQ. assert (0 < k)%nat by (unfold k; destruct t; [done|cbn; lia]).
  assert (Hk : (k < 1024)%nat).
  { destruct Hc as [_ [r E]]. rewrite E, length_app in Hl. cbn in Hl. unfold k. lia. }
  unfold getargs. eapply wp_bind_Ret; [reflexivity|]. cbv beta. fold (masked s).
  rewrite (proj2 (Z.eqb_neq a 0)), (proj2 (Z.leb_gt n 0)) by lia. unfold get_current_pid. wp_pures.
  change (current_pid (s_proc (masked s))) with pid.
  eapply wp_get_pcb; [exact Hb|]. wp_pure. eapply wp_of_opt; [by apply strlen_cstring|]. fold k.
  rewrite (proj2 (Z.ltb_ge n _)), (proj2 (Z.leb_gt _ 0)) by lia. cbn [orb]. wp_pure.
  eapply wp_of_opt.
  { unfold strncpy. rewrite u32_small, Nat2Z.id by lia.
    rewrite (strncpy_loop_cstring _ _ _ t Hc) by (rewrite length_replicate; lia). reflexivity. }
  unfold k. rewrite firstn_all, Nat.sub_diag, drop_ge by (rewrite length_replicate; lia). fold k.
  cbn [replicate app]. rewrite app_nil_r. wp_pure.
  assert (L1 : linear (masked s) a (Z.of_nat k + 1) pa) by (by eapply linear_pag; [|exact L]).
  rewrite <-(Z.add_0_r a) at 1. eapply wp_store_bytes_linear; [exact L1|lia|fold k; lia|].
  rewrite Z.add_0_r. wp_pure. eapply wp_store8_linear; [by eapply linear_pag; [|exact L1]|lia|].
  match goal with |- wp _ _ ?s0 => assert (E : s0 = set s_mem (put_bytes pa (t ++ [0])) (masked s)) end.
  { clear. unfold masked, k. destruct s. unfold set, s_mem_upd, s_hw_upd. cbn.
    by rewrite put_bytes_snoc. }
  rewrite E. wp_pure.
  eapply wp_clear_args; [exact Hb|by apply strlen_cstring|done|]. rewrite Nat2Z.id. wp_pures. exact HQ.
Qed.

(** No arguments, or more than the caller has room for. *)
Lemma getargs_refused s b t n a :
  pcb_at s (current_pid (s_proc s)) = Some b -> cstring (pcb_args b) t ->
  t = [] \/ n < Z.of_nat (length t) -> getargs a n s = Ret (-1) (masked s).
Proof.
  intros Hb Hc Ht. unfold getargs. erewrite bind_Ret by reflexivity. cbv beta. fold (masked s).
  destruct (a =? 0); [done|]. destruct (Z.leb_spec n 0); [done|].
  unfold get_current_pid. erewrite bind_Ret by reflexivity. cbv beta.
  erewrite bind_Ret by (apply get_pcb_Ret; exact Hb). cbv beta.
  erewrite bind_Ret by (by apply of_opt_Some, strlen_cstring).
  destruct Ht as [->|Ht]; [by rewrite orb_true_r|]. by rewrite (proj2 (Z.ltb_lt n _)).
Qed.

(** ** The arguments a block holds *)

(** A block with the arguments [t]: they are followed by zeros. *)
Definition padded (t : list Z) : list Z := t ++ replicate (1024 - length t) 0.

Lemma padded_cstring t : Forall (fun c => 0 < c < 256) t -> (length t < 1024)%nat -> cstring (padded t) t.
Proof.
  intros Ht Hl. split; [done|]. unfold padded. destruct (1024 - length t)%nat as [|n] eqn:E; [lia|].
  by exists (replicate n 0).
Qed.
Lemma padded_cleared t : (length t <= 1024)%nat ->
  replicate (length t) 0 ++ drop (length t) (padded t) = padded [].
Proof.
  intros Hl. unfold padded. rewrite drop_app_length. rewrite <-replicate_add. cbn [length app].
  f_equal. lia.
Qed.

(** What the program is given: the text after the spaces; when the last
    process of the same number has not fetched its arguments [old], what they
    have beyond it comes after it. *)
Definition given (rest old : list Z) : list Z :=
  match skip_spaces rest with [] => [] | a => a ++ drop (length a) old end.

Lemma args_after_padded rest old :
  (length rest < 128)%nat -> (length old < 1024)%nat ->
  args_after rest (padded old) (Z.of_nat (length old)) = padded (given rest old).
Proof.
  intros Hr Ho. pose proof (skip_spaces_length rest) as Hs. unfold args_after, given.
  destruct (skip_spaces rest) as [|c a]; [rewrite Nat2Z.id; apply padded_cleared; lia|].
  set (l := c :: a) in *. unfold padded. rewrite drop_app, drop_replicate, app_assoc.
  do 2 f_equal. rewrite length_app, length_drop. lia.
Qed.
Lemma given_ok rest old :
  Forall (fun c => 0 < c < 256) rest -> Forall (fun c => 0 < c < 256) old ->
  (length rest < 128)%nat -> (length old < 1024)%nat ->
  Forall (fun c => 0 < c < 256) (given rest old) /\ (length (given rest old) < 1024)%nat.
Proof.
  intros Hr Ho L1 L2. pose proof (skip_spaces_Forall _ _ Hr) as H. pose proof (skip_spaces_length rest) as Hs.
  unfold given. destruct (skip_spaces rest) as [|c a]; [split; [done|cbn; lia]|]. set (l := c :: a) in *.
  split; [apply Forall_app; split; [done|by apply Forall_drop]|].
  rewrite length_app, length_drop. lia.
Qed.

(** A program whose block holds the arguments [t]. *)
Lemma getargs_once s pid b t n buf :
  current_pid (s_proc s) = pid -> pcb_at s pid = Some b -> pcb_args b = padded t ->
  Forall (fun c => 0 < c < 256) t -> (length t < 1024)%nat ->
  runs_program s pid VIDEO -> tlb_stale (s_pag s) = false -> 0 <= pid < 256 ->
  t <> [] -> Z.of_nat (length t) <= n ->
  VIRTUAL_START <= buf -> buf + Z.of_nat (length t) < 0x8400000 ->
  exists s2, getargs buf n s = Ret 0 s2 /\
    (forall j c, lget (t ++ [0]) j = Some c -> exists pa,
       user_phys s2 (buf + j) = Some pa /\ mem_get (s_mem s2) pa = c) /\
    (exists b2, pcb_at s2 pid = Some b2 /\ pcb_args b2 = padded []) /\
    forall buf2 n2, getargs buf2 n2 s2 = Ret (-1) (masked s2).
Proof.
  intros Ep B A Ht Lt R Hs Hpid Hne Hlt Hbuf Htop. set (pa := M_4 * (pid + 1) + 0x48000 + (buf - VIRTUAL_START)).
  assert (W : linear s buf (Z.of_nat (length t) + 1) pa).
  { destruct (program_window s pid VIDEO) as [_ W]; [done|by left|done|done|]. split; [done|].
    intros o Ho. replace (buf + o) with (VIRTUAL_START + (buf - VIRTUAL_START + o)) by lia.
    rewrite W by (unfold VIRTUAL_START in *; lia). unfold pa. f_equal. lia. }
  assert (G : wp (getargs buf n) (fun r s2 => r = 0 /\ s2 = with_args pid (padded [])
      (set s_mem (put_bytes pa (t ++ [0])) (masked s))) s).
  { eapply (wp_getargs_at s b t n buf pa); rewrite ?Ep; try done.
    - rewrite A. by apply padded_cstring.
    - rewrite A. unfold padded. rewrite length_app, length_replicate. lia.
    - unfold VIRTUAL_START in Hbuf. lia.
    - rewrite A, padded_cleared by lia. done. }
  apply wp_Ret in G as (r & s2 & E & -> & E2). exists s2. split; [exact E|].
  assert (B2 : pcb_at s2 pid = Some (set pcb_args (fun _ => padded []) b)).
  { rewrite E2. by apply pcb_at_with_args. }
  assert (R2 : runs_program s2 pid VIDEO) by (destruct R; rewrite E2; by constructor).
  assert (Ep2 : current_pid (s_proc s2) = pid) by (rewrite E2; exact Ep).
  split; [|split].
  - intros j c Hj. pose proof (lget_range _ _ _ Hj) as Hr. rewrite length_app in Hr. cbn in Hr.
    exists (pa + j). split.
    + rewrite (runs_program_user _ pid VIDEO) by (done || by left).
      replace (buf + j) with (VIRTUAL_START + (buf - VIRTUAL_START + j)) by lia.
      rewrite image_space by (unfold VIRTUAL_START in *; lia). unfold pa. f_equal. lia.
    + rewrite E2. unfold with_args, with_pcb. upd. rewrite put_bytes_get.
      replace (pa + j - pa) with j by lia. rewrite Hj. apply u8_small.
      unfold lget in Hj. rewrite decide_True in Hj by lia. apply lookup_app_Some in Hj as [Hj|[_ Hj]].
      * eapply Forall_lookup_1 in Ht; [|exact Hj]. lia.
      * apply list_elem_of_lookup_2 in Hj. set_unfold in Hj. lia.
  - eexists. split; [exact B2|done].
  - intros buf2 n2. apply (getargs_refused s2 (set pcb_args (fun _ => padded []) b) []).
    + rewrite Ep2. exact B2.
    + apply (padded_cstring []); [done|cbn; lia].
    + by left.
Qed.

(** C14: the arguments of a command reach the program. The text after the
    command word and the spaces is what getargs stores in the program's buffer,
    with its terminator, once: the arguments are then blank and a second call
    fails, as the call does when there are none or the buffer is too short. The
    text is the new program's own when the last process of its number has
    fetched its arguments; otherwise the end of those follows it. *)
Theorem arguments_arrive s command d i size img pid top b cur old buf n :
  tables_filled s -> named s (first_word command) d -> file_type d = TYPE_FILE ->
  lowest_free s i -> file_ok (s_fs s) (inode_num d) size -> 28 <= size ->
  Forall (fun c => 0 < c < 256) command -> (length command < 128)%nat ->
  num_active_processes (s_proc s) < 6 -> spawn_ready s pid top b cur ->
  file_bytes (s_fs s) (inode_num d) 0 (Z.to_nat (Z.min size 10000)) = Some img ->
  le_word (take 4 img) = MAGIC_LEAD ->
  pcb_args b = padded old -> Forall (fun c => 0 < c < 256) old -> (length old < 1024)%nat ->
  let t := given (drop (length (first_word command)) command) old in
  VIRTUAL_START <= buf -> buf + Z.of_nat (length t) < 0x8400000 ->
  exists e s', execute on_irq (Some command) s = Stop (Iret e) s' /\
    if bool_decide (t = [] \/ n < Z.of_nat (length t)) then getargs buf n s' = Ret (-1) (masked s')
    else exists s2, getargs buf n s' = Ret 0 s2 /\
      (forall j c, lget (t ++ [0]) j = Some c -> exists pa,
         user_phys s2 (buf + j) = Some pa /\ mem_get (s_mem s2) pa = c) /\
      (exists b2, pcb_at s2 pid = Some b2 /\ pcb_args b2 = padded []) /\
      forall buf2 n2, getargs buf2 n2 s2 = Ret (-1) (masked s2).
Proof.
  intros T Hn Hty L F Hsize Hcommand Hlen Hact S Himg Hmagic Hargs Hold Lold t Hbuf Htop.
  pose proof (stops_execute on_irq s command d i size img pid top b cur T Hn Hty L F Hsize Hcommand
    Hlen Hact S Himg Hmagic) as H.
  apply stops_Stop in H as (w & s' & H & -> & image & _ & _ & _ & St). eexists _, s'. split; [exact H|].
  destruct (given_ok (drop (length (first_word command)) command) old) as [Ht Lt];
    [by apply Forall_drop|done|rewrite length_drop; lia|done|]. fold t in Ht, Lt.
  pose proof (st_block _ _ _ _ _ _ _ _ St) as B. pose proof (st_pid _ _ _ _ _ _ _ _ St) as Ep.
  set (b1 := program_block _ _ _ _ _) in B.
  assert (A : pcb_args b1 = padded t).
  { unfold b1, program_block, new_block. upd. rewrite Hargs.
    rewrite (strlen_cstring _ old) by (by apply padded_cstring). cbn [default].
    apply args_after_padded; [rewrite length_drop; lia|done]. }
  assert (C : cstring (pcb_args b1) t) by (rewrite A; by apply padded_cstring).
  case_bool_decide as Hc; [by eapply getargs_refused; [rewrite Ep|..]|].
  apply (getargs_once s' pid b1 t n buf); try done; [apply St|apply St| |tauto|lia].
  pose proof (free_pid_range _ _ (sr_free _ _ _ _ _ S)). lia.
Qed.
End getargs.

(** ** Witnesses *)

Lemma given_fresh : given (text "  frame.txt") [] = text "frame.txt".
Proof. reflexivity. Qed.
(** Three characters were left by a process that never called getargs. *)
Lemma given_leftover : given (text " a") (text "xyz") = text "ayz".
Proof. reflexivity. Qed.

Lemma arguments_arrive_witness :
  exists e s', execute on_irq (Some (text "shell x")) shell_state = Stop (Iret e) s' /\
    exists s2, getargs 0x8100000 32 s' = Ret 0 s2 /\
      (exists pa, user_phys s2 0x8100000 = Some pa /\ mem_get (s_mem s2) pa = 120) /\
      getargs 0x8100000 32 s2 = Ret (-1) (masked s2).
Proof.
  destruct (arguments_arrive shell_state (text "shell x") (mk_dentry "shell" 2 0) 2 48
    elf_image 2 0 std_pcb (set pcb_pid (fun _ => 1) std_pcb) [] 0x8100000 32)
    as (e & s' & H1 & H2).
  - by apply small_tables.
  - by apply small_shell.
  - by vm_compute.
  - by eapply first_free.
  - apply shell_ok.
  - lia.
  - repeat constructor; lia.
  - cbn. lia.
  - done.
  - apply shell_state_ready.
  - apply small_image.
  - by vm_compute.
  - reflexivity.
  - constructor.
  - cbn. lia.
  - unfold VIRTUAL_START. lia.
  - by vm_compute.
  - exists e, s'. split; [exact H1|].
    change (given (drop (length (first_word (text "shell x"))) (text "shell x")) []) with [120] in H2.
    rewrite bool_decide_false in H2 by (intros [E|E]; [discriminate|cbn in E; lia]).
    destruct H2 as (s2 & G & M & _ & Again). exists s2. split; [exact G|]. split; [|apply Again].
    destruct (M 0 120 eq_refl) as (pa & M1 & M2). exists pa. rewrite Z.add_0_r in M1. split; [exact M1|exact M2].
Defined.
