(* ===== verification/DirSpec.v ===== *)
(** * Listing a directory *)
From S2P Require Import Prelude State Monad Logic Strings Screen Proc ProcSpec Fs FsSpec TerminalSpec Syscalls Kernel Demo DriverSpec.

(** [nonempty d]: the entry has a name. *)
Definition nonempty (d : dir_entry_t) : bool :=
  match d with [] => false | c :: _ => negb (c =? 0) end.

(** The next named entry of a list of entries: how many are skipped, the entry
    and the ones after it. *)
Fixpoint next_named (ds : list dir_entry_t) : option (nat * dir_entry_t * list dir_entry_t) :=
  match ds with
  | [] => None
  | d :: ds =>
      if nonempty d then Some (O, d, ds)
      else match next_named ds with
           | Some (k, d', ds') => Some (S k, d', ds')
           | None => None
           end
  end.

Definition field_text (n : Z) (d : dir_entry_t) : list Z := upto0 (take (Z.to_nat n) d).

Lemma upto0_length l : (length (upto0 l) <= length l)%nat.
Proof. induction l as [|c l IH]; cbn; [lia|]. case_match; cbn; lia. Qed.

Lemma copy_name_spec n : forall d,
  (n <= length d)%nat ->
  copy_name n d = Some (Z.of_nat (length (upto0 (take n d))),
    upto0 (take n d) ++ (if decide (length (upto0 (take n d)) < n)%nat then [0] else [])).
Proof.
  induction n as [|n IH]; intros d Hd; [by destruct d|].
  destruct d as [|c d]; [cbn in Hd; lia|]. cbn [copy_name take upto0].
  destruct (Z.eqb_spec c 0) as [->|Hc].
  - cbn [length app]. by rewrite decide_True by lia.
  - rewrite IH by (cbn in Hd; lia). cbn [mbind option_bind length app].
    f_equal. f_equal; [lia|]. f_equal. f_equal.
    destruct (decide (length (upto0 (take n d)) < n)%nat);
      [by rewrite decide_True by lia|by rewrite decide_False by lia].
Qed.

Lemma entries_drop f n : forall i k ds,
  entries f n i = Some ds -> (k < n)%nat ->
  exists d, dir_entries f (i + Z.of_nat k) = Some d /\ drop k ds = d :: drop (S k) ds.
Proof.
  induction n as [|n IH]; intros i k ds Hds Hk; [lia|]. cbn [entries] in Hds.
  destruct (dir_entries f i) as [d|] eqn:Hd; [|done]. cbn in Hds.
  destruct (entries f n (i + 1)) as [ds'|] eqn:Hds'; [|done]. injection Hds as <-.
  destruct k as [|k].
  - exists d. by rewrite Z.add_0_r.
  - destruct (IH (i + 1) k ds' Hds') as (d' & Hd' & Hdrop); [lia|].
    exists d'. split; [|done]. by replace (i + Z.of_nat (S k)) with (i + 1 + Z.of_nat k) by lia.
Qed.

Lemma entries_length f n : forall i ds, entries f n i = Some ds -> length ds = n.
Proof.
  induction n as [|n IH]; intros i ds; cbn [entries]; [by intros [= <-]|].
  destruct (dir_entries f i); [|done]. cbn.
  destruct (entries f n (i + 1)) eqn:E; [|done]. cbn. intros [= <-].
  cbn. f_equal. by eapply IH.
Qed.

Section dir_facts.
Context {P : Platform}.
Implicit Types (s : kstate).

(** The module has a directory and enough inodes for every index. *)
Record dir_ok (s : kstate) (ds : list dir_entry_t) : Prop := {
  do_dir : directory (s_fs s) = Some ds;
  do_inodes : exists n, inodes (s_fs s) = Some n /\ 63 <= n < 4294967296;
}.

Lemma read_dentry_by_index_spec s ds p dentry :
  dir_ok s ds -> 0 <= p < 63 ->
  exists d, drop (Z.to_nat p) ds = d :: drop (S (Z.to_nat p)) ds /\
    length d = 64%nat /\ read_dentry_by_index p dentry s = Ret (0, d) s.
Proof.
  intros [Hds (n & Hn & Hr)] Hp. unfold directory in Hds.
  destruct (entries_drop _ _ _ (Z.to_nat p) _ Hds) as (d & Hd & Hdrop).
  { unfold MAX_DIR_ENTRIES. lia. }
  exists d. split; [done|]. split; [by apply (fs_bytes_range _ _ _ _ Hd)|].
  unfold read_dentry_by_index.
  assert (Hin : fs_read inodes s = Ret n s).
  { unfold fs_read. erewrite bind_Ret by reflexivity. by apply of_opt_Some. }
  erewrite bind_Ret by exact Hin. rewrite !u32_small by lia.
  rewrite (proj2 (Z.ltb_ge _ _)) by lia.
  assert (Hr' : fs_read (fun f => dir_entries f p) s = Ret d s).
  { unfold fs_read. erewrite bind_Ret by reflexivity. apply of_opt_Some.
    by replace p with (0 + Z.of_nat (Z.to_nat p)) by lia. }
  by erewrite bind_Ret by exact Hr'.
Qed.

(** What one call gives, for the entries from the position on. *)
Definition dir_result (blk : fd_block_t) (rest : list dir_entry_t) (nbytes : Z)
  : (Z * list Z) * fd_block_t :=
  if fd_flags blk =? 0 then ((0, []), blk)
  else
    match next_named rest with
    | None => ((0, []), set file_position (fun _ => 63) blk)
    | Some (k, d, _) =>
        let name := field_text nbytes d in
        ((Z.of_nat (length name),
          name ++ (if decide (length name < Z.to_nat nbytes)%nat then [0] else [])),
         set fd_flags (fun n => s32 (n - 1))
           (set file_position (fun p => p + Z.of_nat k + 1) blk))
    end.

(** One round of the loop at a position before the end. *)
Lemma directory_read_round s fuel fd blk nbytes dentry d :
  cur_fd s fd = Some blk -> fd_flags blk <> 0 -> file_position blk <> 63 ->
  0 <= nbytes <= 64 -> length d = 64%nat ->
  read_dentry_by_index (file_position blk) dentry s = Ret (0, d) s ->
  directory_read_loop (S fuel) fd nbytes dentry s =
    if nonempty d then
      let name := field_text nbytes d in
      Ret (Z.of_nat (length name),
           name ++ (if decide (length name < Z.to_nat nbytes)%nat then [0] else []))
        (with_cur_fd fd (set fd_flags (fun n => s32 (n - 1)) (dir_step blk)) s)
    else directory_read_loop fuel fd nbytes d (with_cur_fd fd (dir_step blk) s).
Proof.
  intros Hfd H0 H63 Hn Hdl Hread. pose proof (fd_at_range _ _ _ _ Hfd) as [_ Hfd0].
  cbn [directory_read_loop]. erewrite bind_Ret by (by apply get_fd_Ret).
  rewrite (proj2 (Z.eqb_neq (fd_flags blk) 0)) by done.
  rewrite (proj2 (Z.eqb_neq (file_position blk) MAX_DIR_ENTRIES)) by done. cbn [orb].
  erewrite bind_Ret by exact Hread. cbv beta iota zeta. cbn [snd].
  destruct d as [|c d]; [done|]. cbn [nonempty].
  erewrite bind_Ret by (by apply of_opt_Some).
  destruct (Z.eqb_spec c 0) as [->|Hc]; cbn [negb].
  { by erewrite bind_Ret by (by apply upd_fd_Ret). }
  rewrite (proj2 (Z.ltb_ge nbytes 0)) by lia.
  erewrite bind_Ret by (apply of_opt_Some, copy_name_spec; rewrite Hdl; lia).
  erewrite bind_Ret by (by apply upd_fd_Ret).
  erewrite bind_Ret.
  2: { apply upd_fd_Ret. rewrite (cur_fd_with _ _ _ blk) by done. by rewrite decide_True. }
  unfold ret, field_text. f_equal. apply with_cur_fd_twice.
Qed.

Lemma dir_step_position blk :
  0 <= file_position blk <= 63 ->
  dir_step blk = set file_position (fun _ => file_position blk + 1) blk.
Proof.
  intros H. unfold dir_step. destruct blk. unfold set, file_position_upd. cbn in *.
  by rewrite u32_small by lia.
Qed.

Lemma directory_read_loop_spec fuel : forall s fd blk ds nbytes dentry,
  cur_fd s fd = Some blk -> dir_ok s ds -> 0 <= file_position blk <= 63 ->
  0 <= nbytes <= 64 -> (Z.to_nat (63 - file_position blk) < fuel)%nat ->
  let '(r, blk') := dir_result blk (drop (Z.to_nat (file_position blk)) ds) nbytes in
  directory_read_loop fuel fd nbytes dentry s = Ret r (with_cur_fd fd blk' s).
Proof.
  induction fuel as [|fuel IH]; intros s fd blk ds nbytes dentry Hfd D Hp Hn Hf; [lia|].
  unfold dir_result. pose proof (fd_at_range _ _ _ _ Hfd) as [_ Hfd0].
  assert (Hsame : with_cur_fd fd blk s = s) by (by apply with_fd_same).
  destruct (Z.eqb_spec (fd_flags blk) 0) as [H0|H0].
  { cbn [directory_read_loop]. erewrite bind_Ret by (by apply get_fd_Ret).
    by rewrite H0, Hsame. }
  destruct (decide (file_position blk = 63)) as [H63|H63].
  { rewrite H63, drop_ge.
    2: { pose proof (entries_length _ _ _ _ (do_dir _ _ D)) as Hl.
         unfold MAX_DIR_ENTRIES in Hl. lia. }
    cbn [next_named directory_read_loop].
    erewrite bind_Ret by (by apply get_fd_Ret). rewrite H63, orb_true_r.
    replace (set file_position (fun _ => 63) blk) with blk; [by rewrite Hsame|].
    rewrite <-(set_position_same blk) at 1. by rewrite H63. }
  destruct (read_dentry_by_index_spec s ds (file_position blk) dentry D) as
    (d & Hdrop & Hdl & Hread); [lia|].
  rewrite Hdrop. cbn [next_named].
  rewrite (directory_read_round s fuel fd blk nbytes dentry d) by done.
  rewrite (dir_step_position blk) by lia. destruct (nonempty d).
  - cbv zeta. f_equal. f_equal. destruct blk. unfold set, fd_flags_upd, file_position_upd.
    cbn. f_equal. lia.
  - set (blk1 := set file_position (fun _ => file_position blk + 1) blk).
    specialize (IH (with_cur_fd fd blk1 s) fd blk1 ds nbytes d).
    assert (Hp1 : file_position blk1 = file_position blk + 1) by done. rewrite Hp1 in IH.
    specialize (IH ltac:(rewrite (cur_fd_with _ _ _ blk) by done; by rewrite decide_True)
      ltac:(by destruct D) ltac:(lia) Hn ltac:(lia)).
    replace (Z.to_nat (file_position blk + 1)) with (S (Z.to_nat (file_position blk))) in IH
      by lia.
    unfold dir_result in IH. change (fd_flags blk1) with (fd_flags blk) in IH.
    rewrite (proj2 (Z.eqb_neq _ _)) in IH by done.
    destruct (next_named (drop (S (Z.to_nat (file_position blk))) ds)) as [[[k d'] ds']|];
      rewrite IH, with_cur_fd_twice; do 2 f_equal; unfold blk1.
    + destruct blk. unfold set, fd_flags_upd, file_position_upd. cbn. f_equal. lia.
Qed.
End dir_facts.

(** ** Properties *)

Section properties.
Context {P : Platform}.
Implicit Types (s : kstate).

Lemma directory_read_next s fd blk ds nbytes :
  cur_fd s fd = Some blk -> dir_ok s ds -> 0 <= file_position blk <= 63 ->
  0 <= nbytes <= 64 ->
  let '(r, blk') := dir_result blk (drop (Z.to_nat (file_position blk)) ds) nbytes in
  directory_read fd nbytes s = Ret r (with_cur_fd fd blk' s).
Proof.
  intros Hfd D Hp Hn. unfold directory_read.
  pose proof (directory_read_loop_spec
    (S (Z.to_nat (u32 (MAX_DIR_ENTRIES - file_position blk)))) s fd blk ds nbytes
    junk_dentry Hfd D Hp Hn) as H.
  unfold MAX_DIR_ENTRIES in *. rewrite u32_small in H by lia. specialize (H ltac:(lia)).
  destruct (dir_result blk _ nbytes) as [r blk'].
  erewrite bind_Ret by (by apply get_fd_Ret). rewrite u32_small by lia.
  exact H.
Qed.

(** The loop of the program [ls]: names of at most 32 bytes until a read
    returns 0. *)
Fixpoint list_names (k : nat) (fd : Z) : M (list (list Z)) :=
  match k with
  | O => ret []
  | S k =>
      r <- directory_read fd 32 ;;
      if fst r =? 0 then ret []
      else rest <- list_names k fd ;; ret (take (Z.to_nat (fst r)) (snd r) :: rest)
  end.

Definition names (ds : list dir_entry_t) : list (list Z) :=
  map name_of (List.filter nonempty ds).

Lemma names_next ds :
  names ds = match next_named ds with
             | Some (_, d, ds') => name_of d :: names ds'
             | None => []
             end.
Proof.
  induction ds as [|d ds IH]; [done|]. unfold names. cbn [List.filter next_named].
  destruct (nonempty d); [done|]. fold (names ds). rewrite IH.
  by destruct (next_named ds) as [[[]]|].
Qed.

Lemma next_named_drop ds k d ds' :
  next_named ds = Some (k, d, ds') ->
  nonempty d = true /\ ds' = drop (S k) ds /\ (k < length ds)%nat.
Proof.
  revert k. induction ds as [|x ds IH]; intros k; cbn [next_named]; [done|].
  destruct (nonempty x) eqn:Hx.
  { intros [= <- <- <-]. split; [done|]. split; [done|cbn; lia]. }
  destruct (next_named ds) as [[[k' d'] ds'']|] eqn:Hn; [|done].
  intros [= <- <- <-]. destruct (IH k' eq_refl) as (H1 & -> & H3).
  split; [done|]. split; [done|cbn; lia].
Qed.

Lemma name_nonempty d : nonempty d = true -> 0 < Z.of_nat (length (name_of d)).
Proof.
  unfold nonempty, name_of, filename. destruct d as [|c d]; [done|].
  intros H%negb_true_iff. cbn [take upto0]. rewrite H. cbn [length]. lia.
Qed.

Lemma take_name d r :
  length d = 64%nat -> take (length (name_of d)) (name_of d ++ r) = name_of d.
Proof. intros _. apply take_app_length. Qed.

Lemma list_names_from k : forall s fd blk ds p,
  cur_fd s fd = Some blk -> dir_ok s ds -> file_position blk = p -> 0 <= p <= 63 ->
  (length (names (drop (Z.to_nat p) ds)) < k)%nat ->
  Z.of_nat (length (names (drop (Z.to_nat p) ds))) <= fd_flags blk < 2147483648 ->
  exists s', list_names k fd s = Ret (names (drop (Z.to_nat p) ds)) s'.
Proof.
  induction k as [|k IH]; intros s fd blk ds p Hfd D Hpos Hp Hk Hfl; [lia|].
  cbn [list_names]. pose proof (fd_at_range _ _ _ _ Hfd) as [_ Hfd0].
  pose proof (entries_length _ _ _ _ (do_dir _ _ D)) as Hdl. unfold MAX_DIR_ENTRIES in Hdl.
  pose proof (directory_read_next s fd blk ds 32 Hfd D ltac:(lia) ltac:(lia)) as Hr.
  rewrite Hpos in Hr. unfold dir_result in Hr. rewrite (names_next (drop _ ds)) in *.
  destruct (next_named (drop (Z.to_nat p) ds)) as [[[n d] ds']|] eqn:Hn; cbn [length] in *.
  - destruct (next_named_drop _ _ _ _ Hn) as (Hne & Hds' & Hlt).
    rewrite (proj2 (Z.eqb_neq _ _)) in Hr by lia.
    change (field_text 32 d) with (name_of d) in Hr. pose proof (name_nonempty d Hne).
    erewrite bind_Ret by exact Hr. cbn [fst snd]. rewrite (proj2 (Z.eqb_neq _ _)) by lia.
    rewrite length_drop in Hlt.
    set (blk' := set fd_flags _ _) in *.
    assert (Hrest : drop (Z.to_nat (p + Z.of_nat n + 1)) ds = ds').
    { rewrite Hds', drop_drop. f_equal. lia. }
    destruct (IH (with_cur_fd fd blk' s) fd blk' ds (p + Z.of_nat n + 1)) as (s' & Hs').
    + rewrite (cur_fd_with _ _ _ blk) by done. by rewrite decide_True.
    + by destruct D.
    + unfold blk'. upd. lia.
    + lia.
    + rewrite Hrest. lia.
    + rewrite Hrest. unfold blk'. upd. rewrite s32_small by lia. lia.
    + exists s'. rewrite Hrest in Hs'. erewrite bind_Ret by exact Hs'. unfold ret.
      rewrite Nat2Z.id. by rewrite take_app_length.
  - exists (if fd_flags blk =? 0 then with_cur_fd fd blk s
            else with_cur_fd fd (set file_position (fun _ => 63) blk) s).
    destruct (fd_flags blk =? 0); by erewrite bind_Ret by exact Hr.
Qed.

(** A directory of the file system opened by name. *)
Lemma wp_open_listing s fname d i n :
  tables_filled s -> named s fname d -> file_type d = TYPE_DIR -> lowest_free s i ->
  num_dir_entries (s_fs s) = Some n -> 0 < n < 2147483648 ->
  wp (open (Some fname)) (fun fd s' => fd = i /\
    cur_fd s' i = Some (mk_fd (Some dir_table) 0 0 n) /\ s_fs s' = s_fs s) s.
Proof.
  intros T Hn Hty L Hcnt Hr. unfold open. wp_pure.
  eapply wp_quiet; [apply quietly_cli|]. intros _ s1 Q1.
  apply (tables_quiet _ _ Q1) in T. pose proof (lowest_free_quiet _ _ _ Q1 L) as L1.
  pose proof (named_quiet _ _ _ _ Q1 Hn) as Hn1. pose proof (draws_fs _ _ (quiet_draws _ _ Q1)) as F1.
  eapply wp_bind_Ret; [by apply read_dentry_named|]. cbv beta iota.
  change (negb (SUCCESS =? 0)) with false. cbv iota zeta. rewrite Hty.
  change (TYPE_DIR =? TYPE_RTC) with false. change (TYPE_DIR =? TYPE_DIR) with true. cbv iota.
  eapply wp_mono; [eapply drv_open; [exists n; by rewrite F1|exact Hn1|eexists; apply T|exact L1]|].
  cbv beta. intros r s2 [-> Q2]. split; [done|]. destruct (lf_free _ _ L1) as (b0 & Hb0 & _).
  pose proof (lf_range _ _ L1). split.
  - rewrite (cur_fd_quiet _ _ _ Q2), (cur_fd_with _ _ _ b0) by (done || lia).
    rewrite decide_True by done. unfold directory_block. rewrite F1, Hcnt. cbn.
    by rewrite s32_small by lia.
  - by rewrite (draws_fs _ _ (quiet_draws _ _ Q2)).
Qed.

(** C9: listing a directory. A program that opens the directory and calls its
    read with 32 bytes until it gets 0 sees every named entry of the boot block
    exactly once, in order, under its full name (32 characters included);
    empty entries are skipped, and the loop ends. The module has 63 inodes or
    more, with which the index of an entry is compared, and the boot block's
    count of entries, which [directory_open] keeps in the descriptor's flags,
    is at least the number of named entries. *)
Theorem listing_is_complete s fname d i n ds k :
  tables_filled s -> named s fname d -> file_type d = TYPE_DIR -> lowest_free s i ->
  dir_ok s ds -> num_dir_entries (s_fs s) = Some n -> 0 < n < 2147483648 ->
  Z.of_nat (length (names ds)) <= n -> (length (names ds) < k)%nat ->
  exists s', (fd <- open (Some fname) ;; list_names k fd) s = Ret (names ds) s'.
Proof.
  intros T Hn Hty L [Hd Hi] Hcnt Hr Hle Hk.
  pose proof (wp_open_listing s fname d i n T Hn Hty L Hcnt Hr) as Hw.
  apply wp_Ret in Hw as (fd & s1 & Ho & -> & Hfd & F). erewrite bind_Ret by exact Ho. cbv beta.
  assert (D1 : dir_ok s1 ds) by (constructor; by rewrite F).
  destruct (list_names_from k s1 i (mk_fd (Some dir_table) 0 0 n) ds 0 Hfd D1) as [s2 Hs2];
    rewrite ?drop_0; try done; cbn [fd_flags]; [lia|].
  by exists s2.
Qed.
End properties.

(** A module with 64 inodes, as the ones the project's tool builds. *)
Definition wide_module : gmap Z Z := <[fs_base + 4 := 64]> small_module.
Definition wide_state : kstate :=
  set s_fs (set mod_bytes (fun _ => wide_module)) (files_state []).
Definition wide_dir : list dir_entry_t := default [] (directory (s_fs wide_state)).
Lemma wide_dir_eq : directory (s_fs wide_state) = Some wide_dir.
Proof. by vm_compute. Qed.

Lemma wide_lowest : lowest_free wide_state 2.
Proof. constructor; [lia|by eexists|]. intros j Hj. lia. Qed.

Lemma listing_is_complete_witness :
  exists s', (fd <- open (Some (text ".")) ;; list_names 5 fd) wide_state = Ret
    [text "."; text "rtc"; text "shell"; text "verylargetextwithverylongname.tx"] s'.
Proof.
  assert (E : names wide_dir = [text "."; text "rtc"; text "shell";
    text "verylargetextwithverylongname.tx"]) by (vm_compute; reflexivity).
  rewrite <-E. eapply (listing_is_complete wide_state (text ".") (mk_dentry "." 1 0) 2 4 wide_dir 5).
  - by constructor.
  - constructor; [repeat constructor; lia|]. exists wide_dir. split; [apply wide_dir_eq|].
    by vm_compute.
  - by vm_compute.
  - exact wide_lowest.
  - split; [apply wide_dir_eq|]. exists 64. split; [by vm_compute|lia].
  - by vm_compute.
  - lia.
  - rewrite E. cbn [length]. lia.
  - rewrite E. cbn [length]. lia.
Defined.
