(* ===== verification/UserSpec.v ===== *)
(** * What the system calls do for a program

    The state in which a program runs, the rule for [int $0x80], and the calls
    of the user programs: output, and the calls that must fail. *)
From ITree Require Import ITree.
From S2P Require Import Prelude State Monad Logic Strings Screen ScreenSpec Proc ProcSpec Fs FsSpec Rtc Terminal TerminalSpec Keyboard Interrupts Syscalls PagingSpec Kernel Demo DriverSpec ProcessSpec FsProps ProcessProps LifeProps User UserLib UserRun.

Lemma s32_u32 z : -2147483648 <= z < 2147483648 -> s32 (u32 z) = z.
Proof. intros. unfold s32, u32. divlia. Qed.

(** A step of a program: a call, a test, the next statement. *)
Ltac user_pure :=
  lazymatch goal with
  | |- runs _ _ _ _ (ITree.bind _ _) _ _ => apply runs_bind
  | |- runs _ _ _ _ (go (RetF _)) _ _ => apply runs_ret
  | |- says _ _ _ _ (ITree.bind _ _) _ _ => apply says_bind
  | |- says _ _ _ _ (go (RetF _)) _ _ => apply says_ret
  end; cbv beta.
Ltac user_pures := repeat user_pure.

Section user.
Context {P : Platform}.
Variables (ubuf ebx ecx edx : Z).
Implicit Types (s : kstate).

(** The 4 KB for the arrays of the calls are in the program's memory. *)
Hypothesis ubuf_range : VIRTUAL_START <= ubuf <= VIRTUAL_START + 0x3B7000.

(** Process [pid] runs, its screen at [vid]. *)
Record user_at s (pid vid : Z) : Prop := {
  ua_pid : current_pid (s_proc s) = pid;
  ua_range : 0 <= pid < 256;
  ua_runs : runs_program s pid vid;
  ua_vid : display_page vid;
  ua_fresh : tlb_stale (s_pag s) = false;
  ua_video : video_at s vid;
  ua_cursor : cursor_ok s;
  ua_stdout : exists b, cur_fd s 1 = Some b /\
    file_operations_pointer b = Some stdout_table /\ fd_flags b <> -1;
  ua_table : optables (s_proc s) stdout_table =
    Some (mk_optable fn_terminal_open fn_terminal_read_fail fn_terminal_write fn_terminal_close);
}.

Lemma draws_cur_fd s s' fd : draws s s' -> cur_fd s' fd = cur_fd s fd.
Proof. intros D. unfold cur_fd, fd_at, pcb_at. by rewrite (draws_proc _ _ D). Qed.

Lemma user_at_draws s s' pid vid : draws s s' -> cursor_ok s' -> user_at s pid vid -> user_at s' pid vid.
Proof.
  intros D C [U1 U2 [U3 U4 U5] U6 U7 U8 U9 U10 U11].
  constructor; rewrite ?(draws_proc _ _ D), ?(draws_pag _ _ D), ?(draws_cur_fd _ _ _ D); try done.
  - constructor; by rewrite (draws_pag _ _ D).
  - by eapply video_at_draws.
Qed.

(** Where the array of a call lies in memory. *)
Definition ubuf_phys (pid : Z) : Z := M_4 * (pid + 1) + 0x48000 + (ubuf - VIRTUAL_START).
Definition stored (pid : Z) (bs : list Z) s : kstate :=
  set s_mem (put_bytes (ubuf_phys pid) bs) s.

Lemma draws_stored pid bs s : draws s (stored pid bs s).
Proof. unfold stored. draws_tac. Qed.
Lemma user_at_stored s pid vid bs : user_at s pid vid -> user_at (stored pid bs s) pid vid.
Proof.
  intros U. eapply user_at_draws; [apply draws_stored| |exact U].
  apply (cursor_ok_scr s); [done|apply U].
Qed.

Lemma user_window s pid vid : user_at s pid vid ->
  linear s VIRTUAL_START 0x3B8000 (M_4 * (pid + 1) + 0x48000).
Proof. intros U. eapply program_window; apply U. Qed.

Lemma wp_store_array s pid vid bs (Q : unit -> kstate -> Prop) :
  user_at s pid vid -> Z.of_nat (length bs) <= 4096 -> Q tt (stored pid bs s) ->
  wp (store_bytes ubuf bs) Q s.
Proof.
  intros U Hl HQ. replace ubuf with (VIRTUAL_START + (ubuf - VIRTUAL_START)) by lia.
  eapply wp_store_bytes_linear; [by eapply user_window|lia|lia|exact HQ].
Qed.

Lemma wp_load_array s pid vid n (Q : list Z -> kstate -> Prop) :
  user_at s pid vid -> Z.of_nat n <= 4096 -> Q (mem_bytes (s_mem s) (ubuf_phys pid) n) s ->
  wp (load_bytes ubuf n) Q s.
Proof.
  intros U Hl HQ. replace ubuf with (VIRTUAL_START + (ubuf - VIRTUAL_START)) by lia.
  eapply wp_load_bytes_linear; [by eapply user_window|lia|lia|exact HQ].
Qed.

(** ** [int $0x80] *)

Lemma wp_system_call num a b c s (Q : Z -> kstate -> Prop) :
  1 <= num <= 10 ->
  wp (dispatch on_irq num a b c) (fun r s' =>
    Q r (set s_hw (set eflags_if (fun _ => eflags_if (s_hw s))) s')) (masked s) ->
  wp (system_call on_irq num a b c) Q s.
Proof.
  intros Hn H. unfold system_call, int_0x80, cli_and_save, restore_flags, cli, hw_set.
  rewrite s32_small, u32_small by lia.
  rewrite (proj2 (Z.ltb_ge num 1)), (proj2 (Z.ltb_ge 10 num)) by lia.
  wp_pures. fold (masked s). eapply wp_mono; [exact H|]. cbv beta. intros r s' HQ. by wp_pures.
Qed.

Lemma draws_flags s b : draws s (set s_hw (set eflags_if (fun _ => b)) s).
Proof. draws_tac. Qed.
Lemma draws_masked s : draws s (masked s).
Proof. unfold masked. draws_tac. Qed.

(** The number of a call that does not exist. *)
Lemma wp_bad_call num a b c s (Q : Z -> kstate -> Prop) :
  s32 num < 1 \/ 10 < u32 num -> (forall s', quiet s s' -> Q (-1) s') ->
  wp (system_call on_irq num a b c) Q s.
Proof.
  intros Hn HQ. unfold system_call, int_0x80. wp_pure.
  eapply wp_quiet; [apply quietly_cli_and_save|]. intros f s1 Q1.
  assert (E : wp (if s32 num <? 1 then ret (-1) else if 10 <? u32 num then ret (-1)
    else dispatch on_irq (u32 num) a b c) (fun r s' => r = -1 /\ s' = s1) s1).
  { destruct (Z.ltb_spec (s32 num) 1); [by apply wp_ret|].
    rewrite (proj2 (Z.ltb_lt 10 _)) by lia. by apply wp_ret. }
  wp_pure. eapply wp_mono; [exact E|]. cbv beta. intros r s2 [-> ->].
  wp_pure. eapply wp_quiet; [apply quietly_restore_flags|]. intros _ s3 Q3.
  apply wp_ret, HQ. by transitivity s1.
Qed.

(** ** Output *)

Lemma written_quiet pv bs s s1 s2 s3 :
  draws s s1 -> s_scr s1 = s_scr s -> s_mem s1 = s_mem s ->
  written pv bs s1 s2 ->
  draws s2 s3 -> s_scr s3 = s_scr s2 -> s_mem s3 = s_mem s2 -> written pv bs s s3.
Proof.
  intros D1 E1 M1 (D & C & Hp & W) D3 E3 M3. unfold written, pos in *.
  rewrite E3, M3. rewrite E1, M1 in *.
  split; [transitivity s1; [done|]; by transitivity s2|].
  split; [by apply (cursor_ok_scr s2)|]. done.
Qed.

Lemma stored_bytes pid buf n s :
  Forall (fun c => 0 <= c < 256) buf -> (n <= length buf)%nat ->
  mem_bytes (s_mem (stored pid buf s)) (ubuf_phys pid) n = take n buf.
Proof.
  intros Hb Hn. unfold stored. upd. replace (ubuf_phys pid) with (ubuf_phys pid + Z.of_nat 0) at 2 by lia.
  rewrite mem_bytes_put; [by rewrite drop_0|done|lia].
Qed.

Lemma fd_check fd : 0 <= fd < 8 -> (fd <? 0) || (FDT_SIZE <=? fd) = false.
Proof.
  intros H. by rewrite (proj2 (Z.ltb_ge fd 0)), (proj2 (Z.leb_gt FDT_SIZE fd)) by (unfold FDT_SIZE; lia).
Qed.
Lemma ubuf_not_null : (ubuf =? 0) = false.
Proof. apply Z.eqb_neq. unfold VIRTUAL_START in *. lia. Qed.

(** [write] of the first [n] bytes of an array to the standard output. *)
Lemma wp_write_out s pid vid buf n (Q : Z -> kstate -> Prop) :
  user_at s pid vid -> Forall (fun c => 0 <= c < 256) buf ->
  1 <= n <= Z.of_nat (length buf) -> Z.of_nat (length buf) <= 4096 ->
  Forall (fun c => c <> 13) (take (Z.to_nat n) buf) ->
  (forall s', user_at s' pid vid -> written vid (take (Z.to_nat n) buf) (stored pid buf s) s' -> Q n s') ->
  wp (handle ubuf ebx ecx edx (SysWrite 1 buf n)) Q s.
Proof.
  intros U Hb Hn Hl Hcr HQ.
  unfold handle. wp_pure. eapply wp_store_array; [exact U|done|].
  apply (user_at_stored _ _ _ buf) in U.
  apply wp_system_call; [done|]. rewrite (u32_small n) by lia.
  change (dispatch on_irq SYS_WRITE (u32 1) ubuf n) with (Syscalls.write 1 ubuf (s32 n)).
  rewrite s32_small by lia.
  set (s1 := stored pid buf s) in *. destruct (ua_stdout _ _ _ U) as (b & Hfd & Hop & Hfl).
  unfold Syscalls.write. wp_pure. eapply wp_quiet; [apply quietly_cli|]. intros _ s2 Q2.
  assert (D2 : draws s1 s2) by (transitivity (masked s1); [apply draws_masked|apply Q2]).
  assert (E2 : s_scr s2 = s_scr s1) by (transitivity (s_scr (masked s1)); [apply Q2|done]).
  assert (M2 : s_mem s2 = s_mem s1) by (transitivity (s_mem (masked s1)); [apply Q2|done]).
  assert (U2 : user_at s2 pid vid).
  { eapply user_at_draws; [exact D2| |exact U]. apply (cursor_ok_scr s1); [done|apply U]. }
  rewrite ubuf_not_null, fd_check by lia.
  wp_pure. eapply wp_get_fd; [by rewrite (draws_cur_fd _ _ _ D2)|].
  rewrite (proj2 (Z.eqb_neq _ _)), Hop by done. unfold get_optable. wp_pures.
  eapply wp_of_opt; [apply U2|]. cbn [call_write op_write].
  wp_pure. eapply wp_load_array; [exact U2|lia|]. rewrite M2. unfold s1.
  rewrite stored_bytes by (done || lia).
  eapply (wp_terminal_write _ vid); [apply U2|apply U2|rewrite length_take; lia|done|].
  intros s3 W. rewrite take_take, Nat.min_id in W. apply HQ.
  - eapply user_at_draws; [etransitivity; [apply W|apply draws_flags]| |exact U2].
    apply (cursor_ok_scr s3); [done|apply W].
  - eapply written_quiet; [exact D2|done|done|exact W|apply draws_flags|done|done].
Qed.

Lemma says_fdputs s pid vid str t (Q : list Z -> unit -> kstate -> Prop) :
  user_at s pid vid -> cstring str t -> Forall (fun c => 0 <= c < 256) str ->
  Z.of_nat (length str) <= 4096 -> t <> [] -> Forall (fun c => c <> 13) t ->
  (forall s', user_at s' pid vid -> written vid t (stored pid str s) s' -> Q t tt s') ->
  says ubuf ebx ecx edx (ece391_fdputs 1 str) Q s.
Proof.
  intros U Hc Hb Hl Hne Hcr HQ. pose proof (cstring_length str t Hc).
  unfold ece391_fdputs. user_pure. eapply says_defined.
  { apply (ece391_strlen_cstring str t); [done|lia]. }
  user_pure. rewrite s32_small by lia. apply says_trigger.
  assert (0 < length t)%nat by (destruct t; [done|cbn; lia]).
  eapply wp_write_out; [exact U|done|lia|done|..].
  { by rewrite Nat2Z.id, (cstring_take str t). }
  rewrite Nat2Z.id, (cstring_take str t) by done. intros s' U' W. user_pure. cbn [output_of app].
  change (1 =? 1) with true. cbv iota. rewrite Nat2Z.id, (cstring_take str t), app_nil_r by done.
  by apply HQ.
Qed.
Lemma runs_fdputs s pid vid str t (Q : unit -> kstate -> Prop) :
  user_at s pid vid -> cstring str t -> Forall (fun c => 0 <= c < 256) str ->
  Z.of_nat (length str) <= 4096 -> t <> [] -> Forall (fun c => c <> 13) t ->
  (forall s', user_at s' pid vid -> written vid t (stored pid str s) s' -> Q tt s') ->
  runs ubuf ebx ecx edx (ece391_fdputs 1 str) Q s.
Proof. intros. by eapply says_fdputs. Qed.

(** The text of a literal. *)
Lemma chars_bytes str : Forall (fun c => 0 <= c < 256) (chars str).
Proof.
  unfold chars. apply Forall_map, Forall_forall. intros a _.
  pose proof (Ascii.N_ascii_bounded a). lia.
Qed.

(** ** Calls that fail *)

Lemma user_at_masked s pid vid : user_at s pid vid -> user_at (masked s) pid vid.
Proof.
  intros U. eapply user_at_draws; [apply draws_masked| |exact U].
  apply (cursor_ok_scr s); [done|apply U].
Qed.
Lemma user_at_flags s pid vid b :
  user_at s pid vid -> user_at (set s_hw (set eflags_if (fun _ => b)) s) pid vid.
Proof.
  intros U. eapply user_at_draws; [apply draws_flags| |exact U].
  apply (cursor_ok_scr s); [done|apply U].
Qed.

Definition bad_fd (fd : Z) : Prop := fd < 0 \/ 8 <= fd.
Definition fd_closed s (fd : Z) : Prop :=
  exists b, cur_fd s fd = Some b /\ file_operations_pointer b = None /\ fd_flags b = -1.

(** The calls on descriptors that are refused. *)
Definition read_refused s (fd : Z) : Prop := bad_fd fd \/ fd_closed s fd \/ fd = 1.
Definition write_refused s (fd : Z) : Prop := bad_fd fd \/ fd_closed s fd \/
  fd = 0 /\ exists b o, cur_fd s 0 = Some b /\ file_operations_pointer b = Some stdin_table /\
    optables (s_proc s) stdin_table = Some o /\ op_write o = fn_keyboard_write.
Definition close_refused s (fd : Z) : Prop := fd < 2 \/ 8 <= fd \/ fd_closed s fd.

Lemma fd_out fd : bad_fd fd -> (fd <? 0) || (FDT_SIZE <=? fd) = true.
Proof.
  unfold bad_fd, FDT_SIZE. intros H. destruct (Z.ltb_spec fd 0); [done|].
  by rewrite (proj2 (Z.leb_le 8 fd)) by lia.
Qed.
Lemma fd_closed_range s fd : fd_closed s fd -> 0 <= fd.
Proof. intros (b & H & _). unfold cur_fd, fd_at in H. destruct (pcb_at _ _); [|done].
  by apply lget_range in H as []. Qed.
Lemma fd_closed_draws s s' fd : draws s s' -> fd_closed s fd -> fd_closed s' fd.
Proof. intros D. unfold fd_closed. by rewrite (draws_cur_fd _ _ _ D). Qed.

Lemma read_into_refused s pid vid fd n :
  user_at s pid vid -> read_refused s fd -> read_into on_irq fd n s = Monad.Ret (-1, []) s.
Proof.
  intros U H. unfold read_into.
  destruct H as [H|[(b & Hb & Hp & Hf)| ->]].
  - by rewrite fd_out.
  - destruct ((fd <? 0) || (FDT_SIZE <=? fd)); [done|].
    erewrite bind_Ret by (by apply get_fd_Ret). by rewrite Hf.
  - destruct (ua_stdout _ _ _ U) as (b & Hb & Hp & Hf). rewrite fd_check by lia.
    erewrite bind_Ret by (by apply get_fd_Ret). rewrite (proj2 (Z.eqb_neq _ _)), Hp by done.
    unfold get_optable. erewrite bind_Ret; [|erewrite bind_Ret by done; apply of_opt_Some, U].
    done.
Qed.

Lemma refused_read s pid vid fd buf n (Q : Z * list Z -> kstate -> Prop) :
  user_at s pid vid -> read_refused s fd -> -2147483648 <= fd < 2147483648 ->
  Z.of_nat (length buf) <= 4096 ->
  (forall buf' s', user_at s' pid vid -> draws s s' -> length buf' = length buf ->
    Q (-1, buf') s') ->
  wp (handle ubuf ebx ecx edx (SysRead fd buf n)) Q s.
Proof.
  intros U H Hfd Hl HQ. unfold handle. wp_pure. eapply wp_store_array; [exact U|done|].
  apply (user_at_stored _ _ _ buf) in U. set (s1 := stored pid buf s) in *.
  wp_pure. apply wp_system_call; [done|].
  change (dispatch on_irq SYS_READ (u32 fd) ubuf (u32 n))
    with (Syscalls.read on_irq (s32 (u32 fd)) ubuf (s32 (u32 n))). rewrite s32_u32 by done.
  apply user_at_masked in U. assert (H1 : read_refused (masked s1) fd) by exact H.
  unfold Syscalls.read. eapply wp_bind_Ret; [reflexivity|]. cbv beta. fold (masked (masked s1)).
  rewrite masked_twice, ubuf_not_null.
  eapply wp_bind_Ret; [by eapply read_into_refused|]. cbv beta. cbn [fst snd store_bytes].
  wp_pures. apply (user_at_flags _ _ _ (eflags_if (s_hw s1))) in U.
  eapply wp_load_array; [exact U|done|]. wp_pures. apply HQ; [done| |].
  - etransitivity; [apply draws_stored|]. etransitivity; [apply draws_masked|]. apply draws_flags.
  - unfold mem_bytes. by rewrite length_map, length_seq.
Qed.

Lemma refused_write s pid vid fd buf n (Q : Z -> kstate -> Prop) :
  user_at s pid vid -> write_refused s fd -> -2147483648 <= fd < 2147483648 ->
  Z.of_nat (length buf) <= 4096 ->
  (forall s', user_at s' pid vid -> draws s s' -> Q (-1) s') ->
  wp (handle ubuf ebx ecx edx (SysWrite fd buf n)) Q s.
Proof.
  intros U H Hfd Hl HQ. unfold handle. wp_pure. eapply wp_store_array; [exact U|done|].
  apply (user_at_stored _ _ _ buf) in U. set (s1 := stored pid buf s) in *.
  apply wp_system_call; [done|].
  change (dispatch on_irq SYS_WRITE (u32 fd) ubuf (u32 n))
    with (Syscalls.write (s32 (u32 fd)) ubuf (s32 (u32 n))). rewrite s32_u32 by done.
  apply user_at_masked in U. assert (H1 : write_refused (masked s1) fd) by exact H.
  unfold Syscalls.write. eapply wp_bind_Ret; [reflexivity|]. cbv beta. fold (masked (masked s1)).
  rewrite masked_twice, ubuf_not_null.
  assert (E : forall s', s' = masked s1 ->
    Q (-1) (set s_hw (set eflags_if (fun _ => eflags_if (s_hw s1))) s')).
  { intros s' ->. apply HQ; [by apply user_at_flags|].
    etransitivity; [apply draws_stored|]. etransitivity; [apply draws_masked|]. apply draws_flags. }
  destruct H1 as [H1|[(b & Hb & Hp & Hf)|(-> & b & o & Hb & Hp & Ho & Hw)]].
  - rewrite fd_out by done. apply wp_ret. by apply E.
  - destruct ((fd <? 0) || (FDT_SIZE <=? fd)); [apply wp_ret; by apply E|].
    wp_pure. eapply wp_get_fd; [exact Hb|]. rewrite Hf. apply wp_ret. by apply E.
  - rewrite fd_check by lia. wp_pure. eapply wp_get_fd; [exact Hb|].
    destruct (fd_flags b =? -1); [apply wp_ret; by apply E|].
    rewrite Hp. unfold get_optable. wp_pures. eapply wp_of_opt; [exact Ho|].
    rewrite Hw. apply wp_ret. by apply E.
Qed.

Lemma refused_close s pid vid fd (Q : Z -> kstate -> Prop) :
  user_at s pid vid -> close_refused s fd -> -2147483648 <= fd < 2147483648 ->
  (forall s', user_at s' pid vid -> draws s s' -> Q (-1) s') ->
  wp (handle ubuf ebx ecx edx (SysClose fd)) Q s.
Proof.
  intros U H Hfd HQ. unfold handle. apply wp_system_call; [done|].
  change (dispatch on_irq SYS_CLOSE (u32 fd) 0 0) with (Syscalls.close (s32 (u32 fd))).
  rewrite s32_u32 by done. apply user_at_masked in U.
  unfold Syscalls.close. eapply wp_bind_Ret; [reflexivity|]. cbv beta. fold (masked (masked s)).
  rewrite masked_twice.
  assert (E : Q (-1) (set s_hw (set eflags_if (fun _ => eflags_if (s_hw s))) (masked s))).
  { apply HQ; [by apply user_at_flags|]. etransitivity; [apply draws_masked|]. apply draws_flags. }
  destruct ((fd <? 2) || (FDT_SIZE <=? fd)) eqn:Hr; [by apply wp_ret|].
  apply orb_false_iff in Hr as [Hr1%Z.ltb_ge Hr2%Z.leb_gt]. unfold FDT_SIZE in Hr2.
  destruct H as [H|[H|(b & Hb & Hp & Hf)]]; [lia|lia|].
  wp_pure. eapply wp_get_fd; [exact Hb|]. rewrite Hp. by apply wp_ret.
Qed.

Lemma refused_vidmap s pid vid a (Q : Z -> kstate -> Prop) :
  user_at s pid vid -> a = 0 \/ PROGMEM_LOWER <= a <= PROGMEM_UPPER ->
  (forall s', user_at s' pid vid -> draws s s' -> Q (-1) s') ->
  wp (handle ubuf ebx ecx edx (SysVidmap a)) Q s.
Proof.
  intros U H HQ. unfold handle. apply wp_system_call; [done|].
  change (dispatch on_irq SYS_VIDMAP a 0 0) with (Syscalls.vidmap a). apply user_at_masked in U.
  unfold Syscalls.vidmap. eapply wp_bind_Ret; [reflexivity|]. cbv beta. fold (masked (masked s)).
  rewrite masked_twice.
  assert (E : Q (-1) (set s_hw (set eflags_if (fun _ => eflags_if (s_hw s))) (masked s))).
  { apply HQ; [by apply user_at_flags|]. etransitivity; [apply draws_masked|]. apply draws_flags. }
  destruct H as [->|[H1 H2]]; [by apply wp_ret|].
  rewrite (proj2 (Z.leb_le _ _) H1), (proj2 (Z.leb_le _ _) H2).
  destruct (a =? 0); by apply wp_ret.
Qed.

Lemma refused_raw s pid vid num (Q : Z -> kstate -> Prop) :
  user_at s pid vid -> s32 (u32 num) < 1 \/ 10 < u32 (u32 num) ->
  (forall s', user_at s' pid vid -> draws s s' -> Q (-1) s') ->
  wp (handle ubuf ebx ecx edx (SysRaw num)) Q s.
Proof.
  intros U H HQ. unfold handle. apply wp_bad_call; [done|]. intros s' [D E _ _]. apply HQ; [|done].
  eapply user_at_draws; [exact D| |exact U]. apply (cursor_ok_scr s); [done|apply U].
Qed.

(** ** [open] *)

Lemma put_bytes_some pa bs m k :
  (k < length bs)%nat -> is_Some (put_bytes pa bs m !! (pa + Z.of_nat k)).
Proof.
  revert pa m k. induction bs as [|b bs IH]; intros pa m k Hk; cbn [put_bytes length] in *; [lia|].
  destruct k as [|k].
  - rewrite Z.add_0_r. clear IH Hk.
    assert (H : forall bs pa' m, pa < pa' -> is_Some (m !! pa) -> is_Some (put_bytes pa' bs m !! pa)).
    { induction bs0 as [|c cs IH]; intros pa' m' Hlt Hm; [done|]. cbn [put_bytes]. apply IH; [lia|].
      by rewrite lookup_insert_ne by lia. }
    apply H; [lia|]. rewrite lookup_insert_eq. by eexists.
  - replace (pa + Z.of_nat (S k)) with (pa + 1 + Z.of_nat k) by lia. apply IH. lia.
Qed.

Lemma put_bytes_size pa bs m : (length bs <= size (put_bytes pa bs m))%nat.
Proof.
  rewrite <-size_dom. set (l := map (fun k => pa + Z.of_nat k) (seq 0 (length bs))).
  assert (Hnd : NoDup l).
  { apply NoDup_fmap_2; [intros ?? ?; lia|apply NoDup_seq]. }
  replace (length bs) with (size (list_to_set l : gset Z)).
  - apply subseteq_size. intros x. rewrite elem_of_list_to_set, elem_of_dom.
    intros (k & -> & Hk%elem_of_seq)%list_elem_of_fmap. apply put_bytes_some. lia.
  - rewrite size_list_to_set by done. unfold l. by rewrite length_map, length_seq.
Qed.

Lemma wp_load_cstr_stored s a n pa t rest : forall o (Q : list Z -> kstate -> Prop) fuel,
  linear s a n pa -> 0 <= o -> o + Z.of_nat (length t) < n -> (length t < fuel)%nat ->
  Forall (fun c => 0 < c < 256) t ->
  mem_bytes (s_mem s) (pa + o) (S (length t)) = t ++ [rest] -> rest = 0 -> Q t s ->
  wp (load_cstr_fuel fuel (a + o)) Q s.
Proof.
  induction t as [|c t IH]; intros o Q fuel L Ho Hn Hf Ht Hm -> HQ;
    (destruct fuel as [|fuel]; [cbn in Hf; lia|]); cbn [load_cstr_fuel length app] in *;
    rewrite mem_bytes_S in Hm.
  - injection Hm as Hc.
    wp_pure. eapply wp_load8_linear; [exact L|lia|]. rewrite Hc. by apply wp_ret.
  - injection Hm as Hc Hm. apply Forall_cons_1 in Ht as [Hc0 Ht].
    wp_pure. eapply wp_load8_linear; [exact L|lia|]. rewrite Hc, (proj2 (Z.eqb_neq c 0)) by lia.
    wp_pure. replace (a + o + 1) with (a + (o + 1)) by lia.
    eapply IH; [done|lia|lia|lia|done| |done|].
    { replace (pa + (o + 1)) with (pa + o + 1) by lia. exact Hm. }
    by apply wp_ret.
Qed.

(** The string the kernel sees is the one the program passes. *)
Lemma wp_user_string s pid vid str t (Q : option (list Z) -> kstate -> Prop) :
  user_at s pid vid -> cstring str t -> Forall (fun c => 0 <= c < 256) str ->
  Z.of_nat (length str) <= 4096 -> (exists m, s_mem s = put_bytes (ubuf_phys pid) str m) ->
  Q (Some t) s -> wp (user_string ubuf) Q s.
Proof.
  intros U Hc Hb Hl [m Hm] HQ. pose proof (cstring_length str t Hc). destruct (Hc) as [Ht [r Hr]].
  unfold user_string. rewrite ubuf_not_null. unfold load_cstr. wp_pures.
  replace ubuf with (VIRTUAL_START + (ubuf - VIRTUAL_START)) by lia.
  eapply (wp_load_cstr_stored s VIRTUAL_START 0x3B8000 (M_4 * (pid + 1) + 0x48000) t 0);
    [by eapply user_window|lia|lia| |done| |done|by wp_pures].
  - rewrite Hm. pose proof (put_bytes_size (ubuf_phys pid) str m). lia.
  - rewrite Hm. fold (ubuf_phys pid).
    replace (ubuf_phys pid) with (ubuf_phys pid + Z.of_nat 0) at 2 by lia.
    rewrite mem_bytes_put; [|done|lia]. rewrite drop_0, Hr. 
    replace (S (length t)) with (length t + 1)%nat by lia.
    by rewrite take_app_add.
Qed.

(** [open] of a name, up to the call of [open] in the kernel. *)
Lemma wp_handle_open s pid vid str t (Q : Z -> kstate -> Prop) :
  user_at s pid vid -> cstring str t -> Forall (fun c => 0 <= c < 256) str ->
  Z.of_nat (length str) <= 4096 ->
  (forall s1, user_at s1 pid vid -> draws s s1 ->
    wp (Syscalls.open (Some t)) (fun r s' =>
      Q r (set s_hw (set eflags_if (fun _ => eflags_if (s_hw s))) s')) s1) ->
  wp (handle ubuf ebx ecx edx (SysOpen str)) Q s.
Proof.
  intros U Hc Hb Hl HQ. unfold handle. wp_pure. eapply wp_store_array; [exact U|done|].
  apply (user_at_stored _ _ _ str), user_at_masked in U. set (s1 := stored pid str s) in *.
  apply wp_system_call; [done|].
  change (dispatch on_irq SYS_OPEN ubuf 0 0) with (c <- user_string ubuf ;; Syscalls.open c).
  wp_pure. eapply wp_user_string; [exact U|exact Hc|done|done|by eexists|].
  apply HQ; [done|]. etransitivity; [apply draws_stored|]. apply draws_masked.
Qed.

Lemma refused_open s pid vid str t ds (Q : Z -> kstate -> Prop) :
  user_at s pid vid -> cstring str t -> Forall (fun c => 0 <= c < 256) str ->
  Z.of_nat (length str) <= 4096 -> directory (s_fs s) = Some ds -> lookup_name ds t = None ->
  (forall s', user_at s' pid vid -> draws s s' -> Q (-1) s') ->
  wp (handle ubuf ebx ecx edx (SysOpen str)) Q s.
Proof.
  intros U Hc Hb Hl Hds Hnone HQ. eapply wp_handle_open; [done..|]. intros s1 U1 D1.
  unfold Syscalls.open. eapply wp_bind_Ret; [reflexivity|]. cbv beta. fold (masked s1).
  eapply wp_bind_Ret.
  { apply (read_dentry_spec (masked s1) t junk_dentry ds); [|apply Hc].
    unfold masked. upd. by rewrite (draws_fs _ _ D1). }
  rewrite Hnone. apply wp_ret. apply HQ; [by apply user_at_flags, user_at_masked|].
  etransitivity; [exact D1|]. etransitivity; [apply draws_masked|]. apply draws_flags.
Qed.

(** ** Directories opened by a program *)

Lemma user_at_with_fd s pid vid fd blk :
  2 <= fd < 8 -> is_Some (cur_fd s fd) -> user_at s pid vid ->
  user_at (with_cur_fd fd blk s) pid vid.
Proof.
  intros Hfd [blk0 Hblk0] [U1 U2 [U3 U4 U5] U6 U7 U8 U9 (b & Hb & Hp & Hf) U11].
  constructor; try done; [by apply (cursor_ok_scr s)|].
  exists b. rewrite (cur_fd_with s fd blk blk0) by (done || lia). by rewrite decide_False by lia.
Qed.

Definition dir_open s (fd : Z) : Prop :=
  exists b, cur_fd s fd = Some b /\ file_operations_pointer b = Some dir_table /\
    fd_flags b <> -1 /\ fd_flags b <> 0.

(** What the tests of the calls need to know about the kernel. *)
Record test_ready s (pid vid : Z) : Prop := {
  tr_user : user_at s pid vid;
  tr_stdin : exists b o, cur_fd s 0 = Some b /\ file_operations_pointer b = Some stdin_table /\
    optables (s_proc s) stdin_table = Some o /\ op_write o = fn_keyboard_write;
  tr_tables : tables_filled s;
  tr_dir : dir_count_ok s;
  tr_dot : exists d, named s (text ".") d /\ file_type d = TYPE_DIR;
  tr_names : exists ds, directory (s_fs s) = Some ds /\
    lookup_name ds (text "helloo") = None /\ lookup_name ds (text "shel") = None;
}.

Lemma test_ready_draws s s' pid vid :
  draws s s' -> user_at s' pid vid -> test_ready s pid vid -> test_ready s' pid vid.
Proof.
  intros D U [_ (b & o & H) [T1 T2 T3] [n R4] (d & [N1 N2] & R5) R6].
  constructor; unfold dir_count_ok; rewrite ?(draws_proc _ _ D), ?(draws_fs _ _ D); try done.
  - exists b, o. by rewrite (draws_cur_fd _ _ _ D).
  - constructor; by rewrite (draws_proc _ _ D).
  - by exists n.
  - exists d. split; [|done]. constructor; [done|]. by rewrite (draws_fs _ _ D).
Qed.

Lemma test_ready_with_fd s pid vid fd blk :
  2 <= fd < 8 -> is_Some (cur_fd s fd) -> test_ready s pid vid ->
  test_ready (with_cur_fd fd blk s) pid vid.
Proof.
  intros Hfd Hs [R1 (b & o & Hb & H) [T1 T2 T3] R4 R5 R6].
  destruct R5 as (d & [] & ?).
  constructor; [by apply user_at_with_fd| |by constructor|done|exists d; by repeat constructor|done].
  destruct Hs as [blk0 Hblk0]. exists b, o. rewrite (cur_fd_with s fd blk blk0) by (done || lia).
  by rewrite decide_False by lia.
Qed.

Lemma open_fd_used s j : dir_open s j -> fd_used s j.
Proof. intros (b & Hb & _ & H & _). by exists b. Qed.
Lemma closed_fd_free s j : fd_closed s j -> fd_free s j.
Proof. intros (b & Hb & _ & H). by exists b. Qed.

(** Descriptors 2 to [k - 1] are open directories, [k] to 7 closed. *)
Definition opened_upto s (k : Z) : Prop :=
  (forall j, 2 <= j < k -> dir_open s j) /\ (forall j, k <= j < 8 -> fd_closed s j).
(** Descriptors 2 to [k - 1] are closed, [k] to 7 open directories. *)
Definition closed_upto s (k : Z) : Prop :=
  (forall j, 2 <= j < k -> fd_closed s j) /\ (forall j, k <= j < 8 -> dir_open s j).

Lemma fd_states_draws s s' j : draws s s' ->
  (dir_open s j -> dir_open s' j) /\ (fd_closed s j -> fd_closed s' j).
Proof. intros D. unfold dir_open, fd_closed. by rewrite (draws_cur_fd _ _ _ D). Qed.

Lemma opened_lowest s k : 2 <= k < 8 -> opened_upto s k -> lowest_free s k.
Proof.
  intros Hk [H1 H2]. constructor; [done|apply closed_fd_free, H2; lia|].
  intros j Hj. by apply open_fd_used, H1.
Qed.

(** [open] of the directory: the next descriptor, or failure when the table is full. *)
Lemma wp_open_dot s pid vid k (Q : Z -> kstate -> Prop) :
  test_ready s pid vid -> 2 <= k <= 8 -> opened_upto s k ->
  (forall s', test_ready s' pid vid ->
    opened_upto s' (if k =? 8 then 8 else k + 1) -> Q (if k =? 8 then -1 else k) s') ->
  wp (handle ubuf ebx ecx edx (SysOpen (lit "."))) Q s.
Proof.
  intros T Hk O HQ. pose proof (tr_user _ _ _ T) as U.
  assert (Hcs : cstring (lit ".") (text ".")) by (split; [repeat constructor; lia|by exists []]).
  eapply wp_handle_open; [exact U|exact Hcs|repeat constructor; lia|cbn; lia|].
  intros s1 U1 D1. apply (test_ready_draws _ _ _ _ D1 U1) in T.
  assert (O1 : opened_upto s1 k).
  { destruct O as [O1 O2]. split; intros j Hj; apply (fd_states_draws _ _ j D1); auto. }
  clear O D1 U. destruct (tr_dot _ _ _ T) as (d & Hn & Hty).
  assert (Tm : test_ready (masked s1) pid vid)
    by (eapply test_ready_draws; [apply draws_masked|by apply user_at_masked|done]).
  assert (Hnm : named (masked s1) (text ".") d) by (destruct Hn; by constructor).
  unfold Syscalls.open. eapply wp_bind_Ret; [reflexivity|]. cbv beta. fold (masked s1).
  eapply wp_bind_Ret; [apply (read_dentry_named (masked s1) _ d); exact Hnm|]. cbv beta iota.
  change (negb (SUCCESS =? 0)) with false. cbv iota zeta. rewrite Hty.
  change (TYPE_DIR =? TYPE_RTC) with false. change (TYPE_DIR =? TYPE_DIR) with true. cbv iota.
  destruct (Z.eqb_spec k 8) as [->|Hk8].
  - assert (E : directory_open (text ".") (masked s1) = Monad.Ret (-1) (masked s1)).
    { unfold directory_open. erewrite bind_Ret by (apply (read_dentry_named (masked s1) _ d); exact Hnm).
      cbv beta iota. change (SUCCESS =? -1) with false. cbv iota.
      erewrite bind_Ret by (apply (scan_full (masked s1) (FDT_SIZE - 1) 6 2);
        [lia|done| |unfold FDT_SIZE; lia]; intros j Hj; apply open_fd_used; by apply O1). done. }
    apply wp_Ret. exists (-1), (masked s1). split; [exact E|].
    assert (U2 := user_at_flags _ _ _ (eflags_if (s_hw s)) (user_at_masked _ _ _ U1)).
    apply HQ; [eapply test_ready_draws; [apply draws_flags|exact U2|exact Tm]|exact O1].
  - assert (L : lowest_free (masked s1) k) by (apply opened_lowest; [lia|exact O1]).
    eapply wp_mono; [eapply drv_open; [apply (tr_dir _ _ _ Tm)|exact Hnm|eexists; apply Tm|exact L]|].
    cbv beta. intros r s2 (-> & Q2).
    destruct (drv_block (masked s1) d (tr_dir _ _ _ Tm)) as (Hp & Hf1 & Hf0).
    set (blk := directory_block (masked s1) d) in *.
    destruct (lf_free _ _ L) as (b0 & Hb0 & _).
    assert (T2 : test_ready s2 pid vid).
    { pose proof (test_ready_with_fd (masked s1) pid vid k blk ltac:(lia) ltac:(by eexists) Tm) as T2.
      eapply test_ready_draws; [apply Q2| |exact T2].
      eapply user_at_draws; [apply Q2| |apply T2]. apply (cursor_ok_scr (with_cur_fd k blk (masked s1)));
        [apply Q2|apply T2]. }
    apply HQ.
    + eapply test_ready_draws; [apply draws_flags|by apply user_at_flags, T2|exact T2].
    + assert (Ecur : forall j, 0 <= j -> cur_fd s2 j = if decide (k = j) then Some blk else cur_fd s1 j).
      { intros j Hj. rewrite (cur_fd_quiet _ _ _ Q2). by apply (cur_fd_with (masked s1) k blk b0). }
      destruct O1 as [O1 O2]. split; intros j Hj; unfold dir_open, fd_closed;
        change (cur_fd (set s_hw (set eflags_if (fun _ => eflags_if (s_hw s))) s2) j) with (cur_fd s2 j);
        rewrite Ecur by lia; case_decide; [by exists blk|apply O1; lia|lia|apply O2; lia].
Qed.

Lemma wp_close_dir s pid vid k (Q : Z -> kstate -> Prop) :
  test_ready s pid vid -> 2 <= k < 8 -> closed_upto s k ->
  (forall s', test_ready s' pid vid -> closed_upto s' (k + 1) -> Q 0 s') ->
  wp (handle ubuf ebx ecx edx (SysClose k)) Q s.
Proof.
  intros T Hk C HQ. pose proof (tr_user _ _ _ T) as U. unfold handle.
  apply wp_system_call; [done|].
  change (dispatch on_irq SYS_CLOSE (u32 k) 0 0) with (Syscalls.close (s32 (u32 k))).
  rewrite s32_u32 by lia.
  assert (Tm : test_ready (masked s) pid vid)
    by (eapply test_ready_draws; [apply draws_masked|by apply user_at_masked|done]).
  unfold Syscalls.close. eapply wp_bind_Ret; [reflexivity|]. cbv beta. fold (masked (masked s)).
  rewrite masked_twice.
  rewrite (proj2 (Z.ltb_ge k 2)), (proj2 (Z.leb_gt FDT_SIZE k)) by (unfold FDT_SIZE; lia).
  cbn [orb]. destruct C as [C1 C2]. destruct (C2 k) as (b & Hb & Hp & Hf1 & Hf0); [lia|].
  wp_pure. eapply wp_get_fd; [exact Hb|]. rewrite Hp. unfold get_optable. wp_pures.
  eapply wp_of_opt; [apply (tr_tables _ _ _ Tm)|]. cbn [call_close op_close].
  eapply wp_mono; [eapply drv_close; [lia|exact Hb|done|done]|].
  cbv beta. intros r s2 [-> Q2].
  assert (T2 : test_ready s2 pid vid).
  { pose proof (test_ready_with_fd (masked s) pid vid k (free_fd b) ltac:(lia) ltac:(by eexists) Tm) as T2.
    eapply test_ready_draws; [apply Q2| |exact T2].
    eapply user_at_draws; [apply Q2| |apply T2].
    apply (cursor_ok_scr (with_cur_fd k (free_fd b) (masked s))); [apply Q2|apply T2]. }
  apply HQ; [eapply test_ready_draws; [apply draws_flags|by apply user_at_flags, T2|exact T2]|].
  assert (Ecur : forall j, 0 <= j -> cur_fd s2 j = if decide (k = j) then Some (free_fd b) else cur_fd s j).
  { intros j Hj. rewrite (cur_fd_quiet _ _ _ Q2). by apply (cur_fd_with (masked s) k (free_fd b) b). }
  split; intros j Hj; unfold dir_open, fd_closed;
    change (cur_fd (set s_hw (set eflags_if (fun _ => eflags_if (s_hw s))) s2) j) with (cur_fd s2 j);
    rewrite Ecur by lia; case_decide; [by eexists|apply C1; lia|lia|apply C2; lia].
Qed.
End user.
