(* ===== verification/UserProps.v ===== *)
(** * Properties of the user programs *)
From ITree Require Import ITree.
From S2P Require Import Prelude State Monad Logic Strings Screen ScreenSpec Proc ProcSpec Fs FsSpec Terminal TerminalSpec Interrupts Syscalls PagingSpec Kernel Demo DriverSpec ProcessSpec FsProps ProcessProps LifeProps User UserLib UserRun UserSpec.

Section tests.
Context {P : Platform}.
Variables (ubuf ebx ecx edx : Z).
Hypothesis ubuf_range : VIRTUAL_START <= ubuf <= VIRTUAL_START + 0x3B7000.
Implicit Types (s : kstate).

(** The kernel is ready for a test: the caller's descriptors 2 to 7 are closed. *)
Definition ready s (pid vid : Z) : Prop := test_ready s pid vid /\ opened_upto s 2.

Lemma ready_draws s s' pid vid : draws s s' -> user_at s' pid vid -> ready s pid vid -> ready s' pid vid.
Proof.
  intros D U [T [O1 O2]]. split; [by eapply test_ready_draws|].
  split; intros j Hj; [lia|]. apply (fd_states_draws s s' j D). by apply O2.
Qed.

Lemma ready_closed s pid vid j : ready s pid vid -> 2 <= j < 8 -> fd_closed s j.
Proof. intros [_ [_ O]] Hj. apply O. lia. Qed.

Lemma passed r fail msg (Q : Z -> kstate -> Prop) s :
  r = -1 -> Q fail s -> runs ubuf ebx ecx edx (expect_fail r fail msg) Q s.
Proof. intros -> HQ. by apply runs_ret. Qed.

Lemma runs_puts s pid vid str t (Q : unit -> kstate -> Prop) :
  ready s pid vid -> cstring str t -> Forall (fun c => 0 <= c < 256) str ->
  Z.of_nat (length str) <= 4096 -> t <> [] -> Forall (fun c => c <> 13) t ->
  (forall s', ready s' pid vid -> Q tt s') ->
  runs ubuf ebx ecx edx (ece391_fdputs 1 str) Q s.
Proof.
  intros R Hc Hb Hl Hne Hcr HQ. pose proof (tr_user _ _ _ (proj1 R)) as U.
  eapply runs_fdputs; try done. intros s' U' W. apply HQ.
  eapply ready_draws; [|exact U'|exact R].
  etransitivity; [apply draws_stored|apply W].
Qed.

(** A text that can be put on the screen, as a test. *)
Definition printable (t : list Z) : bool :=
  forallb (fun c => (0 <? c) && (c <? 256) && negb (c =? 13)) t &&
  negb (length t =? 0)%nat && (Z.of_nat (length t) <? 4096).

Lemma printable_spec t : printable t = true ->
  Forall (fun c => 0 < c < 256) t /\ Forall (fun c => c <> 13) t /\ t <> [] /\
  Z.of_nat (length t) < 4096.
Proof.
  unfold printable. rewrite !andb_true_iff, forallb_forall, negb_true_iff, Nat.eqb_neq, Z.ltb_lt.
  intros [[H Hn] Hl]. split_and!; [..|by destruct t|done]; apply List.Forall_forall; intros c Hc;
    apply H in Hc; rewrite !andb_true_iff, negb_true_iff, Z.eqb_neq, !Z.ltb_lt in Hc; lia.
Qed.

Lemma runs_say s pid vid t (Q : unit -> kstate -> Prop) :
  ready s pid vid -> printable t = true -> (forall s', ready s' pid vid -> Q tt s') ->
  runs ubuf ebx ecx edx (ece391_fdputs 1 (t ++ [0])) Q s.
Proof.
  intros R (H1 & H2 & H3 & H4)%printable_spec HQ. eapply (runs_puts _ _ _ _ t); try done.
  - split; [done|]. by exists [].
  - apply Forall_app. split; [|repeat constructor; lia].
    eapply Forall_impl; [exact H1|]. cbv beta. intros; lia.
  - rewrite length_app. cbn. lia.
Qed.

Lemma lit_line_text (l : list Z) str : l ++ lit_line str = (l ++ chars str ++ [10]) ++ [0].
Proof. unfold lit_line. by rewrite <-!app_assoc. Qed.

Lemma runs_pass s pid vid name (Q : Z -> kstate -> Prop) :
  ready s pid vid -> printable (chars name ++ chars ": PASS" ++ [10]) = true ->
  (forall s', ready s' pid vid -> Q 0 s') -> runs ubuf ebx ecx edx (verdict 0 name) Q s.
Proof.
  intros R Hp HQ. unfold verdict. change (negb (0 =? 0)) with false. cbv iota. user_pure.
  rewrite lit_line_text. eapply runs_say; [exact R|done|]. intros s' R'. user_pure. by apply HQ.
Qed.

(** ** The calls of the tests *)

Lemma test_read s pid vid fd buf n (Q : Z * list Z -> kstate -> Prop) :
  ready s pid vid -> read_refused s fd -> -2147483648 <= fd < 2147483648 ->
  Z.of_nat (length buf) <= 4096 ->
  (forall buf' s', ready s' pid vid -> length buf' = length buf -> Q (-1, buf') s') ->
  runs ubuf ebx ecx edx (User.read fd buf n) Q s.
Proof.
  intros R H Hfd Hl HQ. apply runs_trigger. eapply refused_read; try done; [apply R|].
  intros buf' s' U' D Hl'. apply HQ; [by eapply ready_draws|done].
Qed.

Lemma test_write s pid vid fd buf n (Q : Z -> kstate -> Prop) :
  ready s pid vid -> write_refused s fd -> -2147483648 <= fd < 2147483648 ->
  Z.of_nat (length buf) <= 4096 -> (forall s', ready s' pid vid -> Q (-1) s') ->
  runs ubuf ebx ecx edx (User.write fd buf n) Q s.
Proof.
  intros R H Hfd Hl HQ. apply runs_trigger. eapply refused_write; try done; [apply R|].
  intros s' U' D. apply HQ. by eapply ready_draws.
Qed.

Lemma test_close s pid vid fd (Q : Z -> kstate -> Prop) :
  ready s pid vid -> close_refused s fd -> -2147483648 <= fd < 2147483648 ->
  (forall s', ready s' pid vid -> Q (-1) s') ->
  runs ubuf ebx ecx edx (User.close fd) Q s.
Proof.
  intros R H Hfd HQ. apply runs_trigger. eapply refused_close; try done; [apply R|].
  intros s' U' D. apply HQ. by eapply ready_draws.
Qed.

Lemma test_open s pid vid name ds (Q : Z -> kstate -> Prop) :
  ready s pid vid -> directory (s_fs s) = Some ds -> lookup_name ds (chars name) = None ->
  Forall (fun c => 0 < c < 256) (chars name) -> Z.of_nat (length (chars name)) < 4096 ->
  (forall s', ready s' pid vid -> s_fs s' = s_fs s -> Q (-1) s') ->
  runs ubuf ebx ecx edx (User.open (lit name)) Q s.
Proof.
  intros R Hds Hn Hb Hl HQ. apply runs_trigger.
  apply (refused_open ubuf ebx ecx edx ubuf_range s pid vid (lit name) (chars name) ds); try done; [apply R|..].
  - split; [done|]. by exists [].
  - apply Forall_app. split; [apply chars_bytes|repeat constructor; lia].
  - unfold lit. rewrite length_app. cbn. lia.
  - intros s' U' D. apply HQ; [by eapply ready_draws|apply D].
Qed.

Lemma test_vidmap s pid vid a (Q : Z -> kstate -> Prop) :
  ready s pid vid -> a = 0 \/ PROGMEM_LOWER <= a <= PROGMEM_UPPER ->
  (forall s', ready s' pid vid -> Q (-1) s') -> runs ubuf ebx ecx edx (User.vidmap a) Q s.
Proof.
  intros R H HQ. apply runs_trigger. eapply refused_vidmap; try done; [apply R|].
  intros s' U' D. apply HQ. by eapply ready_draws.
Qed.

Lemma test_raw s pid vid num (Q : Z -> kstate -> Prop) :
  ready s pid vid -> s32 (u32 num) < 1 \/ 10 < u32 (u32 num) ->
  (forall s', ready s' pid vid -> Q (-1) s') -> runs ubuf ebx ecx edx (call_sys num) Q s.
Proof.
  intros R H HQ. apply runs_trigger. eapply refused_raw; try done; [apply R|].
  intros s' U' D. apply HQ. by eapply ready_draws.
Qed.

(** ** The tests *)

Definition passes (t : itree sysE Z) : Prop := forall s pid vid (Q : Z -> kstate -> Prop),
  ready s pid vid -> (forall s', ready s' pid vid -> Q 0 s') -> runs ubuf ebx ecx edx t Q s.

Lemma local_length n : length (local_array n) = n.
Proof. apply length_replicate. Qed.

Lemma err_fd_passes fd name :
  bad_fd fd -> -2147483648 <= fd < 2147483648 ->
  printable (chars name ++ chars ": PASS" ++ [10]) = true -> passes (err_fd fd name).
Proof.
  intros Hb Hfd Hp s pid vid Q R HQ. unfold err_fd.
  user_pure. eapply test_read; [exact R|by left|done|rewrite local_length; lia|].
  intros buf s1 R1 Hl. rewrite local_length in Hl. user_pure. apply passed; [done|].
  user_pure. eapply test_write; [exact R1|by left|done|lia|]. intros s2 R2.
  user_pure. apply passed; [done|].
  user_pure. eapply test_close; [exact R2| |done|].
  { destruct Hb; [left; lia|by right; left]. }
  intros s3 R3. user_pure. apply passed; [done|]. by eapply runs_pass.
Qed.

Lemma opened_closed s : opened_upto s 8 <-> closed_upto s 2.
Proof.
  unfold opened_upto, closed_upto. split; intros [H1 H2]; split; (done || (intros; lia)).
Qed.

Lemma open_lots_fills n : forall s pid vid k cnt (Q : Z -> kstate -> Prop),
  test_ready s pid vid -> opened_upto s k -> 2 <= k <= 8 -> k + Z.of_nat n = 9 ->
  (forall s', test_ready s' pid vid -> opened_upto s' 8 -> Q (cnt + 1) s') ->
  runs ubuf ebx ecx edx (open_lots n cnt) Q s.
Proof.
  induction n as [|n IH]; intros s pid vid k cnt Q T O Hk Hn HQ; [lia|]. cbn [open_lots].
  user_pure. apply runs_trigger. eapply wp_open_dot; [done|exact T|exact Hk|exact O|].
  intros s' T' O'. destruct (Z.eqb_spec k 8) as [->|Hk8].
  - assert (n = 0%nat) as -> by lia. cbn [open_lots]. change (-1 =? -1) with true. cbv iota.
    user_pure. by apply HQ.
  - rewrite (proj2 (Z.eqb_neq k (-1))) by lia. eapply IH; [exact T'|exact O'|lia|lia|exact HQ].
Qed.

Lemma close_from_closes n : forall s pid vid k (Q : unit -> kstate -> Prop),
  test_ready s pid vid -> closed_upto s k -> 2 <= k -> k + Z.of_nat n = 8 ->
  (forall s', test_ready s' pid vid -> closed_upto s' 8 -> Q tt s') ->
  runs ubuf ebx ecx edx (close_from n k) Q s.
Proof.
  induction n as [|n IH]; intros s pid vid k Q T C Hk Hn HQ; cbn [close_from].
  - user_pure. assert (k = 8) as -> by lia. by apply HQ.
  - user_pure. apply runs_trigger. eapply wp_close_dir; [exact T|lia|exact C|].
    intros s' T' C'. eapply IH; [exact T'|exact C'|lia|lia|exact HQ].
Qed.

Lemma err_open_lots_passes : passes err_open_lots.
Proof.
  intros s pid vid Q [T O] HQ. unfold err_open_lots. user_pure.
  eapply open_lots_fills; [exact T|exact O|lia|done|]. intros s1 T1 O1.
  apply opened_closed in O1. user_pure.
  eapply close_from_closes; [exact T1|exact O1|lia|done|]. intros s2 T2 [C2 _].
  change (0 + 1 =? 1) with true. cbv iota. user_pure.
  change (lit_line "err_open_lots: PASS") with ((chars "err_open_lots: PASS" ++ [10]) ++ [0]).
  eapply runs_say; [split; [exact T2|split; [intros; lia|exact C2]]|done|].
  intros s3 R3. user_pure. by apply HQ.
Qed.

Lemma err_open_passes : passes err_open.
Proof.
  intros s pid vid Q R HQ. destruct (tr_names _ _ _ (proj1 R)) as (ds & Hds & H1 & H2).
  unfold err_open. user_pure.
  eapply test_open; [exact R|exact Hds|exact H1|repeat constructor|done|]. intros s1 R1 E1.
  user_pure. apply passed; [done|]. user_pure.
  eapply test_open; [exact R1|by rewrite E1|exact H2|repeat constructor|done|]. intros s2 R2 E2.
  user_pure. apply passed; [done|]. user_pure.
  eapply test_open; [exact R2|by rewrite E2, E1|done|constructor|done|]. intros s3 R3 E3.
  user_pure. apply passed; [done|]. by eapply runs_pass.
Qed.

Lemma close_fails_passes n : forall s pid vid i (Q : Z -> kstate -> Prop),
  ready s pid vid -> 0 <= i -> i + Z.of_nat n = 8 ->
  (forall s', ready s' pid vid -> Q 0 s') -> runs ubuf ebx ecx edx (close_fails n i 0) Q s.
Proof.
  induction n as [|n IH]; intros s pid vid i Q R Hi Hn HQ; cbn [close_fails].
  - user_pure. by apply HQ.
  - user_pure. eapply test_close; [exact R| |lia|].
    { destruct (decide (i < 2)); [by left|]. right; right. eapply ready_closed; [exact R|lia]. }
    intros s1 R1. user_pure. apply passed; [done|]. eapply IH; [exact R1|lia|lia|exact HQ].
Qed.

Lemma read_fails_passes n : forall s pid vid i buf (Q : Z * list Z -> kstate -> Prop),
  ready s pid vid -> 2 <= i -> i + Z.of_nat n = 8 -> Z.of_nat (length buf) <= 4096 ->
  (forall buf' s', ready s' pid vid -> Z.of_nat (length buf') <= 4096 -> Q (0, buf') s') ->
  runs ubuf ebx ecx edx (read_fails n i 0 buf) Q s.
Proof.
  induction n as [|n IH]; intros s pid vid i buf Q R Hi Hn Hl HQ; cbn [read_fails].
  - user_pure. by apply HQ.
  - user_pure. eapply test_read; [exact R| |lia|done|].
    { right; left. eapply ready_closed; [exact R|lia]. }
    intros buf1 s1 R1 Hl1. user_pure. apply passed; [done|].
    eapply IH; [exact R1|lia|lia|lia|exact HQ].
Qed.

Lemma write_fails_passes n : forall s pid vid i buf (Q : Z -> kstate -> Prop),
  ready s pid vid -> 2 <= i -> i + Z.of_nat n = 8 -> Z.of_nat (length buf) <= 4096 ->
  (forall s', ready s' pid vid -> Q 0 s') ->
  runs ubuf ebx ecx edx (write_fails n i 0 buf) Q s.
Proof.
  induction n as [|n IH]; intros s pid vid i buf Q R Hi Hn Hl HQ; cbn [write_fails].
  - user_pure. by apply HQ.
  - user_pure. eapply test_write; [exact R| |lia|done|].
    { right; left. eapply ready_closed; [exact R|lia]. }
    intros s1 R1. user_pure. apply passed; [done|].
    eapply IH; [exact R1|lia|lia|done|exact HQ].
Qed.

Lemma err_unopened_passes : passes err_unopened.
Proof.
  intros s pid vid Q R HQ. unfold err_unopened. user_pure.
  eapply close_fails_passes; [exact R|lia|done|]. intros s1 R1. user_pure.
  eapply read_fails_passes; [exact R1|lia|done|rewrite local_length; lia|].
  intros buf s2 R2 Hl. user_pure.
  eapply write_fails_passes; [exact R2|lia|done|done|]. intros s3 R3. by eapply runs_pass.
Qed.

Lemma err_vidmap_passes : passes err_vidmap.
Proof.
  intros s pid vid Q R HQ. unfold err_vidmap. user_pure.
  eapply test_vidmap; [exact R|by left|]. intros s1 R1. user_pure. apply passed; [done|].
  user_pure. eapply test_vidmap; [exact R1|right; done|]. intros s2 R2. user_pure.
  apply passed; [done|]. by eapply runs_pass.
Qed.

Lemma err_stdin_out_passes : passes err_stdin_out.
Proof.
  intros s pid vid Q R HQ. unfold err_stdin_out. user_pure.
  destruct (tr_stdin _ _ _ (proj1 R)) as (b & o & Hb & Hp & Ho & Hw).
  eapply test_write; [exact R| |done|rewrite local_length; lia|].
  { right; right. split; [done|]. by exists b, o. }
  intros s1 R1. user_pure. apply passed; [done|].
  user_pure. eapply test_read; [exact R1|by right; right|done|rewrite local_length; lia|].
  intros buf s2 R2 _. user_pure. apply passed; [done|]. by eapply runs_pass.
Qed.

Lemma err_syscall_num_passes : passes err_syscall_num.
Proof.
  intros s pid vid Q R HQ. unfold err_syscall_num. user_pure.
  eapply test_raw; [exact R|by right|]. intros s1 R1. user_pure. apply passed; [done|]. user_pure.
  eapply test_raw; [exact R1|by left|]. intros s2 R2. user_pure. apply passed; [done|]. user_pure.
  eapply test_raw; [exact R2|by left|]. intros s3 R3. user_pure. apply passed; [done|].
  by eapply runs_pass.
Qed.

Lemma err_neg_fd_passes : passes err_neg_fd.
Proof. unfold err_neg_fd. apply err_fd_passes; [left; reflexivity|unfold NEG_FD; lia|by vm_compute]. Qed.
Lemma err_big_fd_passes : passes err_big_fd.
Proof. unfold err_big_fd. apply err_fd_passes; [right; unfold BIG_FD; lia|unfold BIG_FD; lia|by vm_compute]. Qed.

Lemma all_tests_pass : passes all_tests.
Proof.
  intros s pid vid Q R HQ. unfold all_tests.
  user_pure. eapply err_neg_fd_passes; [exact R|]. intros s1 R1.
  user_pure. eapply err_big_fd_passes; [exact R1|]. intros s2 R2.
  user_pure. eapply err_open_lots_passes; [exact R2|]. intros s3 R3.
  user_pure. eapply err_open_passes; [exact R3|]. intros s4 R4.
  user_pure. eapply err_unopened_passes; [exact R4|]. intros s5 R5.
  user_pure. eapply err_vidmap_passes; [exact R5|]. intros s6 R6.
  user_pure. eapply err_stdin_out_passes; [exact R6|]. intros s7 R7.
  user_pure. eapply err_syscall_num_passes; [exact R7|]. intros s8 R8.
  cbv zeta. change (negb (0 + 0 + 0 + 0 + 0 + 0 + 0 + 0 =? 0)) with false. cbv iota. user_pure.
  change (10 :: lit_line "Overall Tests: PASS") with ((10 :: chars "Overall Tests: PASS" ++ [10]) ++ [0]).
  eapply runs_say; [exact R8|done|]. intros s9 R9. user_pure. by apply HQ.
Qed.

(** C28: the error tests pass. Whatever test of syserr is chosen, 0 (all of
    them) to 8, a process that runs it with its descriptors 2 to 7 closed, on a
    file system that has "." and neither "helloo" nor "shel", gets 0: every
    call with a bad descriptor, name, pointer, number or direction fails, and
    six directories can be opened at once but not seven. *)
Theorem error_tests_pass s pid vid select :
  ready s pid vid -> 0 <= select <= 8 ->
  exists n o s', run ubuf ebx ecx edx n (run_tests select) s = Some (o, Monad.Ret 0 s') /\
    ready s' pid vid.
Proof.
  intros R Hs.
  assert (W : runs ubuf ebx ecx edx (run_tests select) (fun r s' => r = 0 /\ ready s' pid vid) s).
  { assert (select = 0 \/ select = 1 \/ select = 2 \/ select = 3 \/ select = 4 \/ select = 5 \/
      select = 6 \/ select = 7 \/ select = 8) as Hc by lia.
    destruct Hc as [->|[->|[->|[->|[->|[->|[->|[->| ->]]]]]]]].
    - by eapply all_tests_pass.
    - by eapply err_neg_fd_passes.
    - by eapply err_big_fd_passes.
    - by eapply err_open_lots_passes.
    - by eapply err_open_passes.
    - by eapply err_unopened_passes.
    - by eapply err_vidmap_passes.
    - by eapply err_stdin_out_passes.
    - by eapply err_syscall_num_passes. }
  destruct W as (n & o & r & s' & W & -> & R'). by exists n, o, s'.
Qed.
End tests.

(** ** Witnesses *)

(** Process 1 runs on the displayed terminal with its descriptors closed. *)
Definition tester : kstate :=
  set s_scr (set video_mem (fun _ => VIDMAP))
    (set s_pag (fun _ => mk_pag (program_directory 1) (program_table VIDEO) true false)
      (files_state [])).

Lemma tester_runs : runs_program tester 1 VIDEO.
Proof. by constructor. Qed.

Lemma tester_user : user_at tester 1 VIDEO.
Proof.
  constructor; [reflexivity|lia|apply tester_runs|by left|reflexivity| | |
    by exists (mk_fd (Some stdout_table) 0 0 1)|reflexivity].
  - apply (program_video _ 1); [apply tester_runs|by left|lia|reflexivity|reflexivity].
  - by constructor.
Qed.

Lemma tester_closed j : 2 <= j < 8 -> fd_closed tester j.
Proof.
  intros Hj. exists free_block. split; [|by split].
  assert (j = 2 \/ j = 3 \/ j = 4 \/ j = 5 \/ j = 6 \/ j = 7) as Hc by lia.
  by destruct Hc as [->|[->|[->|[->|[->| ->]]]]].
Qed.

Lemma tester_ready : ready tester 1 VIDEO.
Proof.
  split; [|split; intros j Hj; [lia|by apply tester_closed]].
  constructor.
  - apply tester_user.
  - exists (mk_fd (Some stdin_table) 0 0 1). eexists. by repeat split.
  - by apply small_tables.
  - exists 4. split; [by vm_compute|lia].
  - exists (mk_dentry "." 1 0). split; [|by vm_compute].
    constructor; [repeat constructor|]. exists small_dir. split; [exact small_dir_eq|by vm_compute].
  - exists small_dir. split; [exact small_dir_eq|]. split; by vm_compute.
Qed.

Lemma error_tests_pass_witness :
  exists n o s', run 0x8050000 0 0 0 n (run_tests 0) tester = Some (o, Monad.Ret 0 s').
Proof.
  destruct (error_tests_pass 0x8050000 0 0 0 ltac:(unfold VIRTUAL_START; lia) tester 1 VIDEO 0)
    as (n & o & s' & H & _); [apply tester_ready|lia|].
  by exists n, o, s'.
Defined.
