(* ===== verification/UserFiles.v ===== *)
(** * Programs that read files: cat and ls on the kernel *)
From ITree Require Import ITree.
From S2P Require Import Prelude State Monad Logic Strings Screen ScreenSpec Proc ProcSpec Fs FsSpec Terminal TerminalSpec Interrupts Syscalls PagingSpec Kernel Demo DriverSpec ProcessSpec FsProps ProcessProps LifeProps ArgsProps DirSpec User UserLib UserRun UserSpec UserProps.

Section files.
Context {P : Platform}.
Variables (ubuf ebx ecx edx : Z).
Hypothesis ubuf_range : VIRTUAL_START <= ubuf <= VIRTUAL_START + 0x3B7000.
Implicit Types (s : kstate).

Definition bytes (l : list Z) : Prop := Forall (fun c => 0 <= c < 256) l.

(** [bs] over the first bytes of [buf]. *)
Definition overlay (bs buf : list Z) : list Z := bs ++ drop (length bs) buf.

Lemma overlay_length bs buf : (length bs <= length buf)%nat -> length (overlay bs buf) = length buf.
Proof. intros. unfold overlay. autorewrite with arr. lia. Qed.
Lemma overlay_bytes bs buf : bytes bs -> bytes buf -> bytes (overlay bs buf).
Proof. intros. apply Forall_app. split; [done|by apply Forall_drop]. Qed.

Lemma mem_bytes_overlay pa bs buf m :
  bytes bs -> bytes buf -> (length bs <= length buf)%nat ->
  mem_bytes (put_bytes pa bs (put_bytes pa buf m)) pa (length buf) = overlay bs buf.
Proof.
  intros Hbs Hbuf Hl. apply list_eq_lget.
  { unfold mem_bytes. rewrite length_map, length_seq. by rewrite overlay_length. }
  intros i Hi. unfold mem_bytes in *. rewrite length_map, length_seq in Hi.
  unfold lget at 1. rewrite decide_True by lia. rewrite list_lookup_fmap, lookup_seq_lt by lia.
  cbn [fmap option_fmap option_map]. rewrite !put_bytes_get.
  replace (pa + Z.of_nat (0 + Z.to_nat i) - pa) with i by lia.
  unfold overlay. destruct (decide (i < Z.of_nat (length bs))) as [H|H].
  - rewrite lget_app_l by done. destruct (lget_Some bs i) as [c Hc]; [lia|]. rewrite Hc. f_equal.
    apply u8_small. unfold lget in Hc. rewrite decide_True in Hc by lia.
    by eapply Forall_lookup_1 in Hbs.
  - rewrite (lget_None bs) by lia. destruct (lget_Some buf i) as [c Hc]; [lia|]. rewrite Hc.
    unfold lget in *. rewrite decide_True in * by lia.
    rewrite lookup_app_r by lia. rewrite lookup_drop.
    replace (length bs + (Z.to_nat i - length bs))%nat with (Z.to_nat i) by lia. rewrite Hc. f_equal.
    apply u8_small. by eapply Forall_lookup_1 in Hbuf.
Qed.

(** ** [read] of a file *)

Lemma draws_with_fd s s' fd blk :
  draws s s' -> draws (with_cur_fd fd blk s) (with_cur_fd fd blk s').
Proof.
  intros D. constructor; try apply D.
  unfold with_cur_fd, with_fd, with_pcb. upd. by rewrite (draws_proc _ _ D).
Qed.

(** A read whose driver moves the descriptor to [blk'] and gives [bs]. *)
Lemma wp_read_fd s pid vid fd len buf r bs blk' (Q : Z * list Z -> kstate -> Prop) :
  user_at s pid vid -> 2 <= fd < 8 -> is_Some (cur_fd s fd) ->
  0 <= len < 2147483648 -> Z.of_nat (length buf) <= 4096 -> bytes buf ->
  (forall s1, draws s s1 -> read_into on_irq fd len s1 = Monad.Ret (r, bs) (with_cur_fd fd blk' s1)) ->
  bytes bs -> (length bs <= length buf)%nat ->
  (forall s', user_at s' pid vid -> draws (with_cur_fd fd blk' s) s' -> Q (r, overlay bs buf) s') ->
  wp (handle ubuf ebx ecx edx (SysRead fd buf len)) Q s.
Proof.
  intros U Hfd Hblk Hlen Hl Hbuf Hr Hbs Lbs HQ. unfold handle. wp_pure.
  eapply wp_store_array; [done|exact U|done|].
  apply (user_at_stored ubuf _ _ _ buf), user_at_masked in U. set (s1 := stored ubuf pid buf s) in *.
  wp_pure. apply wp_system_call; [done|].
  change (dispatch on_irq SYS_READ (u32 fd) ubuf (u32 len))
    with (Syscalls.read on_irq (s32 (u32 fd)) ubuf (s32 (u32 len))). rewrite !s32_u32 by lia.
  unfold Syscalls.read. eapply wp_bind_Ret; [reflexivity|]. cbv beta. fold (masked (masked s1)).
  rewrite masked_twice, (ubuf_not_null ubuf ubuf_range).
  assert (D : draws s (masked s1)).
  { transitivity s1; [apply draws_stored|apply draws_masked]. }
  eapply wp_bind_Ret; [by apply Hr|]. cbv beta. cbn [fst snd].
  set (s2 := with_cur_fd fd blk' (masked s1)).
  assert (U2 : user_at s2 pid vid).
  { apply user_at_with_fd; [lia| |done]. by rewrite (draws_cur_fd _ _ _ D). }
  wp_pure. eapply wp_store_array; [done|exact U2|lia|].
  apply (user_at_stored ubuf _ _ _ bs) in U2. wp_pures.
  set (s3 := stored ubuf pid bs s2) in *.
  apply (user_at_flags _ _ _ (eflags_if (s_hw s1))) in U2.
  eapply wp_load_array; [done|exact U2|lia|]. wp_pures.
  change (s_mem (set s_hw (set eflags_if (fun _ => eflags_if (s_hw s1))) s3)) with
    (put_bytes (ubuf_phys ubuf pid) bs (put_bytes (ubuf_phys ubuf pid) buf (s_mem s))).
  rewrite mem_bytes_overlay by done. apply HQ; [exact U2|].
  transitivity s3; [|apply draws_flags]. transitivity s2; [|apply draws_stored].
  by apply draws_with_fd.
Qed.

Record file_open_at s (fd size pos inode : Z) : Prop := {
  fa_fd : 2 <= fd < 8;
  fa_tables : tables_filled s;
  fa_block : cur_fd s fd = Some (mk_fd (Some file_table) inode pos 1);
  fa_file : file_ok (s_fs s) inode size;
  fa_pos : 0 <= pos <= size;
}.

Lemma file_open_draws s s' fd size pos inode :
  draws s s' -> file_open_at s fd size pos inode -> file_open_at s' fd size pos inode.
Proof.
  intros D [F1 [T1 T2 T3] F3 F4 F5]. constructor; try done.
  - constructor; by rewrite (draws_proc _ _ D).
  - by rewrite (draws_cur_fd _ _ _ D).
  - by rewrite (draws_fs _ _ D).
Qed.

Lemma wp_read_file s pid vid fd size pos inode len buf (Q : Z * list Z -> kstate -> Prop) :
  user_at s pid vid -> file_open_at s fd size pos inode ->
  0 <= len < 2147483648 -> Z.of_nat (length buf) <= 4096 -> bytes buf ->
  (let '(r, n, pos') := read_plan size pos len in
   n <= Z.of_nat (length buf) /\
   forall bs s', file_bytes (s_fs s) inode pos (Z.to_nat n) = Some bs ->
     user_at s' pid vid -> file_open_at s' fd size pos' inode -> s_fs s' = s_fs s ->
     Q (r, overlay bs buf) s') ->
  wp (handle ubuf ebx ecx edx (SysRead fd buf len)) Q s.
Proof.
  intros U F Hlen Hl Hbuf HQ. pose proof (fa_fd _ _ _ _ _ F) as Hfd.
  pose proof (fa_pos _ _ _ _ _ F) as Hpos.
  assert (Hr : forall s1, draws s s1 ->
    let '(r, n, pos') := read_plan size pos len in
    exists bs, file_bytes (s_fs s1) inode pos (Z.to_nat n) = Some bs /\
      read_into on_irq fd len s1 = Monad.Ret (r, bs)
        (with_cur_fd fd (mk_fd (Some file_table) inode pos' 1) s1)).
  { intros s1 D. apply (file_open_draws _ _ _ _ _ _ D) in F. destruct F as [_ F2 F3 F4 F5].
    pose proof (read_file_Ret on_irq s1 fd _ size len F2 ltac:(lia) F3 eq_refl eq_refl F4 F5) as Hr.
    cbn [file_position fd_inode] in Hr. rewrite (u32_small len) in Hr by lia. exact Hr. }
  destruct (read_plan size pos len) as [[r n] pos'] eqn:Hplan. destruct HQ as [Hn HQ].
  destruct (Hr s ltac:(reflexivity)) as (bs & Hbs & _).
  pose proof (file_bytes_length _ _ _ _ _ Hbs) as Hlbs.
  assert (0 <= n).
  { clear - Hplan Hlen Hpos. unfold read_plan in Hplan. repeat case_match; simplify_eq; lia. }
  eapply (wp_read_fd s pid vid fd len buf r bs); [exact U|done|eexists; apply F|done|done|done| | |lia|].
  - intros s1 D. destruct (Hr s1 D) as (bs' & Hbs' & E).
    rewrite (draws_fs _ _ D) in Hbs'. assert (bs' = bs) as -> by congruence. exact E.
  - by eapply file_bytes_range.
  - intros s' U' D. apply HQ; [exact Hbs|exact U'| |apply D].
    eapply file_open_draws; [exact D|]. destruct F as [F1 [T1 T2 T3] F3 F4 F5].
    constructor; [done|by constructor| |done|].
    + rewrite (cur_fd_with s fd _ _ fd F3) by lia. by rewrite decide_True.
    + clear - Hplan Hlen Hpos. unfold read_plan in Hplan. repeat case_match; simplify_eq; lia.
Qed.

(** ** cat *)

(** No carriage return in the file. *)
Definition no_cr s (inode size : Z) : Prop :=
  forall i, 0 <= i <= size -> file_byte (s_fs s) inode i <> Some 13.

Lemma no_cr_bytes s inode size n : forall i bs,
  no_cr s inode size -> 0 <= i -> i + Z.of_nat n <= size + 1 ->
  file_bytes (s_fs s) inode i n = Some bs -> Forall (fun c => c <> 13) bs.
Proof.
  induction n as [|n IH]; intros i bs H Hi Hn; cbn [file_bytes]; [by intros [= <-]|].
  destruct (file_byte (s_fs s) inode i) as [c|] eqn:Hc; [|done]. cbn.
  destruct (file_bytes (s_fs s) inode (i + 1) n) as [cs|] eqn:E; [|done]. intros [= <-].
  constructor; [|eapply IH; [exact H| | |exact E]; lia]. intros ->. by apply (H i); [lia|].
Qed.

(** One round that reads [r] bytes, of [n] stored, and prints them. *)
Lemma says_cat_round s pid vid fd size pos inode buf r n pos'
    (Q : list Z -> list Z + Z -> kstate -> Prop) :
  user_at s pid vid -> file_open_at s fd size pos inode -> no_cr s inode size ->
  length buf = 1024%nat -> bytes buf -> read_plan size pos 1024 = (r, n, pos') ->
  0 <= pos -> pos + n <= size + 1 -> 1 <= r <= 1024 -> r <= n <= 1024 ->
  (forall bs s', file_bytes (s_fs s) inode pos (Z.to_nat n) = Some bs ->
    user_at s' pid vid -> file_open_at s' fd size pos' inode -> s_fs s' = s_fs s ->
    Q (take (Z.to_nat r) bs) (inl (overlay bs buf)) s') ->
  says ubuf ebx ecx edx (cat_round fd buf) Q s.
Proof.
  intros U F Hcr Hl Hb Hplan Hp0 Hp1 Hr Hn HQ. unfold cat_round. user_pure. apply says_trigger.
  eapply wp_read_file; [exact U|exact F|lia|lia|done|]. rewrite Hplan.
  split; [lia|]. intros bs s1 Hbs U1 F1 E1. cbn [output_of].
  pose proof (file_bytes_length _ _ _ _ _ Hbs) as Lbs.
  rewrite (proj2 (Z.eqb_neq r 0)), (proj2 (Z.eqb_neq r (-1))) by lia.
  assert (Ht : take (Z.to_nat r) (overlay bs buf) = take (Z.to_nat r) bs)
    by (unfold overlay; apply take_app_le; lia).
  assert (Lo : length (overlay bs buf) = 1024%nat) by (rewrite overlay_length; lia).
  assert (Bo : bytes (overlay bs buf)).
  { apply overlay_bytes; [|done]. by eapply file_bytes_range. }
  user_pure. apply says_trigger. eapply wp_write_out; [done|exact U1|exact Bo|lia|lia|..].
  { rewrite Ht. apply Forall_take. eapply no_cr_bytes; [exact Hcr| | |exact Hbs]; lia. }
  intros s2 U2 W2. rewrite (proj2 (Z.eqb_neq r (-1))) by lia. user_pure.
  cbn [output_of app]. change (1 =? 1) with true. cbv iota. rewrite Ht, app_nil_r.
  apply HQ; [done|done| |].
  - eapply file_open_draws; [etransitivity; [apply draws_stored|apply W2]|exact F1].
  - rewrite <-E1. apply (draws_fs (stored ubuf pid (overlay bs buf) s1)), W2.
Qed.

(** The round that finds the end. *)
Lemma says_cat_end s pid vid fd size pos inode buf n pos' (Q : list Z -> list Z + Z -> kstate -> Prop) :
  user_at s pid vid -> file_open_at s fd size pos inode ->
  length buf = 1024%nat -> bytes buf -> read_plan size pos 1024 = (0, n, pos') -> n <= 1024 ->
  (forall s', user_at s' pid vid -> Q [] (inr 0) s') ->
  says ubuf ebx ecx edx (cat_round fd buf) Q s.
Proof.
  intros U F Hl Hb Hplan Hn HQ. unfold cat_round. user_pure. apply says_trigger.
  eapply wp_read_file; [exact U|exact F|lia|lia|done|]. rewrite Hplan.
  split; [lia|]. intros bs s1 _ U1 _ _. cbn [output_of]. change (0 =? 0) with true. cbv iota.
  user_pure. by apply HQ.
Qed.

(** From the chunk [q] on. *)
Lemma cat_loop_from k : forall s pid vid fd size q inode buf,
  user_at s pid vid -> file_open_at s fd size (q * 1024) inode -> no_cr s inode size ->
  length buf = 1024%nat -> bytes buf -> 0 <= q -> (q = 0 -> 1024 <= size) ->
  size / 1024 - q < Z.of_nat k ->
  says ubuf ebx ecx edx (cat_loop fd buf) (fun o r s' => r = 0 /\ user_at s' pid vid /\
    file_bytes (s_fs s) inode (q * 1024) (Z.to_nat ((size / 1024 - q) * 1024)) = Some o) s.
Proof.
  induction k as [|k IH]; intros s pid vid fd size q inode buf U F Hcr Hl Hb Hq Hq0 Hk.
  { pose proof (fa_pos _ _ _ _ _ F). assert (q <= size / 1024) by (apply Z.div_le_lower_bound; lia).
    lia. }
  pose proof (fa_pos _ _ _ _ _ F) as Hpos.
  unfold cat_loop. apply says_iter. fold (cat_loop fd).
  destruct (Z.leb_spec 1024 (size - q * 1024)) as [Hfit|Hfit].
  - assert (Hplan : read_plan size (q * 1024) 1024 = (1024, 1024, (q + 1) * 1024)).
    { unfold read_plan. rewrite (proj2 (Z.eqb_neq size 0)), (proj2 (Z.ltb_ge size _)) by lia.
      cbn [orb]. rewrite (proj2 (Z.leb_le _ _)) by lia. do 2 f_equal. lia. }
    assert (q + 1 <= size / 1024) by (apply Z.div_le_lower_bound; lia).
    eapply says_cat_round; [exact U|exact F|exact Hcr|done|done|exact Hplan|lia|lia|lia|lia|].
    intros bs s1 Hbs U1 F1 E1. pose proof (file_bytes_length _ _ _ _ _ Hbs) as Lbs.
    eapply says_mono; [eapply (IH s1 pid vid fd size (q + 1) inode); try done; try lia|].
    + intros i Hi. rewrite E1. by apply Hcr.
    + rewrite overlay_length; lia.
    + apply overlay_bytes; [by eapply file_bytes_range|done].
    + cbv beta. intros o r s2 (-> & U2 & Ho). split; [done|]. split; [done|].
      rewrite firstn_all2 by lia. rewrite E1 in Ho.
      replace (Z.to_nat ((size / 1024 - q) * 1024))
        with (Z.to_nat 1024 + Z.to_nat ((size / 1024 - (q + 1)) * 1024))%nat by lia.
      rewrite file_bytes_app, Hbs. cbn [mbind option_bind]. rewrite Z2Nat.id by lia.
      replace (q * 1024 + 1024) with ((q + 1) * 1024) by lia. by rewrite Ho.
  - assert (q <> 0) by lia. assert (Hd : size / 1024 = q).
    { symmetry. apply Z.div_unique with (size - q * 1024); [left; lia|lia]. }
    assert (Hplan : read_plan size (q * 1024) 1024 = (0, size - q * 1024, q * 1024)).
    { unfold read_plan. rewrite (proj2 (Z.eqb_neq size 0)), (proj2 (Z.ltb_ge size _)) by lia.
      cbn [orb]. rewrite (proj2 (Z.leb_gt _ _)), (proj2 (Z.eqb_neq _ 0)) by lia. done. }
    eapply says_cat_end; [exact U|exact F|done|done|exact Hplan|lia|].
    intros s1 U1. split; [done|]. split; [done|]. by rewrite Hd, Z.sub_diag.
Qed.

(** What cat gets of a file. *)
Definition delivered (size : Z) : Z := if size <? 1024 then size else size / 1024 * 1024.

Lemma cat_loop_says s pid vid fd size inode buf :
  user_at s pid vid -> file_open_at s fd size 0 inode -> no_cr s inode size ->
  length buf = 1024%nat -> bytes buf ->
  says ubuf ebx ecx edx (cat_loop fd buf) (fun o r s' => r = 0 /\ user_at s' pid vid /\
    file_bytes (s_fs s) inode 0 (Z.to_nat (delivered size)) = Some o) s.
Proof.
  intros U F Hcr Hl Hb. pose proof (fa_pos _ _ _ _ _ F). unfold delivered.
  destruct (Z.ltb_spec size 1024) as [Hlt|Hge].
  - destruct (Z.eqb_spec size 0) as [->|Hne].
    { unfold cat_loop. apply says_iter. fold (cat_loop fd).
      eapply says_cat_end; [exact U|exact F|done|done|done|lia|].
      intros s1 U1. split; [done|]. by split. }
    unfold cat_loop. apply says_iter. fold (cat_loop fd).
    assert (Hplan : read_plan size 0 1024 = (size, size + 1, size)).
    { unfold read_plan. rewrite (proj2 (Z.eqb_neq size 0)), (proj2 (Z.ltb_ge size _)) by lia.
      cbn [orb]. by rewrite (proj2 (Z.leb_gt _ _)) by lia. }
    eapply says_cat_round; [exact U|exact F|exact Hcr|done|done|exact Hplan|lia|lia|lia|lia|].
    intros bs s1 Hbs U1 F1 E1. pose proof (file_bytes_length _ _ _ _ _ Hbs) as Lbs.
    apply says_iter.
    assert (Hplan2 : read_plan size size 1024 = (0, 0, size)).
    { unfold read_plan. rewrite (proj2 (Z.eqb_neq size 0)), (proj2 (Z.ltb_ge size _)) by lia.
      cbn [orb]. rewrite (proj2 (Z.leb_gt _ _)), Z.sub_diag by lia. done. }
    eapply says_cat_end; [exact U1|exact F1| | |exact Hplan2|lia|].
    + rewrite overlay_length; lia.
    + apply overlay_bytes; [by eapply file_bytes_range|done].
    + intros s2 U2. split; [done|]. split; [done|]. rewrite app_nil_r.
      replace (Z.to_nat (size + 1)) with (Z.to_nat size + 1)%nat in Hbs by lia.
      rewrite file_bytes_app in Hbs.
      destruct (file_bytes (s_fs s) inode 0 (Z.to_nat size)) as [cs|] eqn:Hcs; [|done].
      cbn [mbind option_bind] in Hbs. pose proof (file_bytes_length _ _ _ _ _ Hcs) as Lcs.
      destruct (file_bytes _ _ _ 1); [|done]. injection Hbs as <-. f_equal.
      rewrite take_app_le, firstn_all2 by lia. done.
  - eapply says_mono; [apply (cat_loop_from (S (Z.to_nat (size / 1024))) s pid vid fd size 0);
      try done; lia|].
    cbv beta. intros o r s' (-> & U' & Ho). by rewrite Z.sub_0_r in Ho.
Qed.

(** ** getargs *)

(** The files look the same: what does not depend on the arguments. *)
Record same_files s s' : Prop := {
  sf_fs : s_fs s' = s_fs s;
  sf_tables : optables (s_proc s') = optables (s_proc s);
  sf_fds : forall fd, cur_fd s' fd = cur_fd s fd;
}.

Lemma same_files_draws s s' : draws s s' -> same_files s s'.
Proof. intros D. constructor; [apply D|by rewrite (draws_proc _ _ D)|]. intros. by apply draws_cur_fd. Qed.
Lemma same_files_trans s s' s'' : same_files s s' -> same_files s' s'' -> same_files s s''.
Proof. intros [A1 A2 A3] [B1 B2 B3]. constructor; [congruence|congruence|]. intros. by rewrite B3. Qed.

Lemma same_files_args s b a :
  pcb_at s (current_pid (s_proc s)) = Some b -> same_files s (with_args (current_pid (s_proc s)) a s).
Proof.
  intros Hb. constructor; [done|done|]. intros fd. unfold cur_fd, fd_at.
  change (current_pid (s_proc (with_args _ a s))) with (current_pid (s_proc s)).
  rewrite (pcb_at_with_args _ _ _ b Hb), Hb. by destruct b.
Qed.
Lemma user_at_args s pid vid b a :
  pcb_at s pid = Some b -> user_at s pid vid -> user_at (with_args pid a s) pid vid.
Proof.
  intros Hb [U1 U2 [U3 U4 U5] U6 U7 U8 U9 U10 U11]. subst pid.
  constructor; try done; [by apply (cursor_ok_scr s)|].
  by rewrite (sf_fds _ _ (same_files_args s b a Hb)).
Qed.

(** A process whose arguments are [t]. *)
Definition args_are s (pid : Z) (t : list Z) : Prop :=
  exists b, pcb_at s pid = Some b /\ cstring (pcb_args b) t /\ (length (pcb_args b) <= 1024)%nat.

Lemma wp_getargs s pid vid t n buf (Q : Z * list Z -> kstate -> Prop) :
  user_at s pid vid -> args_are s pid t -> t <> [] ->
  Z.of_nat (length t) < n <= Z.of_nat (length buf) -> Z.of_nat (length buf) <= 4096 -> bytes buf ->
  (forall s', user_at s' pid vid -> same_files s s' -> Q (0, overlay (t ++ [0]) buf) s') ->
  wp (handle ubuf ebx ecx edx (SysGetargs buf n)) Q s.
Proof.
  intros U (b & Hb & Hc & Hl1) Hne Hn Hl Hbuf HQ. pose proof (ua_pid _ _ _ U) as Hpid.
  unfold handle. wp_pure. eapply wp_store_array; [done|exact U|done|].
  apply (user_at_stored ubuf _ _ _ buf), user_at_masked in U. set (s1 := stored ubuf pid buf s) in *.
  wp_pure. apply wp_system_call; [done|].
  change (dispatch on_irq SYS_GETARGS ubuf (u32 n) 0) with (Syscalls.getargs ubuf (s32 (u32 n))).
  rewrite s32_u32 by lia.
  assert (L : linear (masked s1) ubuf (Z.of_nat (length t) + 1) (ubuf_phys ubuf pid)).
  { pose proof (user_window _ _ _ U) as [Ls L]. split; [done|]. intros o Ho.
    replace (ubuf + o) with (VIRTUAL_START + (ubuf - VIRTUAL_START + o)) by lia.
    rewrite L by lia. unfold ubuf_phys. f_equal. lia. }
  assert (Hcur : current_pid (s_proc (masked s1)) = pid) by (by rewrite <-Hpid).
  eapply (wp_getargs_at (masked s1) b t n); try exact L; rewrite ?Hcur; try done; try lia.
  { by apply Z.eqb_neq, ubuf_not_null. }
  rewrite masked_twice. set (s3 := set s_mem _ (masked s1)).
  assert (D : draws s s3).
  { transitivity s1; [apply draws_stored|]. transitivity (masked s1); [apply draws_masked|].
    apply draws_stored. }
  assert (U3 : user_at s3 pid vid).
  { eapply user_at_draws; [apply draws_stored|apply (cursor_ok_scr (masked s1)); [done|apply U]|exact U]. }
  assert (M3 : s_mem s3 = put_bytes (ubuf_phys ubuf pid) (t ++ [0])
      (put_bytes (ubuf_phys ubuf pid) buf (s_mem s))) by done.
  assert (B3 : pcb_at s3 pid = Some b) by (unfold pcb_at; by rewrite (draws_proc _ _ D)).
  assert (P3 : current_pid (s_proc s3) = pid) by (by rewrite (draws_proc _ _ D)).
  clearbody s3.
  match goal with |- context [with_args pid ?a s3] => set (a0 := a) end.
  assert (U4 : user_at (with_args pid a0 s3) pid vid) by (by eapply user_at_args).
  apply (user_at_flags _ _ _ (eflags_if (s_hw s1))) in U4.
  wp_pure. eapply wp_load_array; [done|exact U4|lia|]. wp_pures.
  change (s_mem (set s_hw (set eflags_if (fun _ => eflags_if (s_hw s1))) (with_args pid a0 s3)))
    with (s_mem s3). rewrite M3, mem_bytes_overlay; [|..].
  - apply HQ; [exact U4|]. eapply same_files_trans; [apply (same_files_draws _ _ D)|].
    eapply same_files_trans; [|apply same_files_draws, draws_flags].
    rewrite <-P3. apply (same_files_args s3 b). by rewrite P3.
  - apply Forall_app. split; [by eapply cstring_bytes|repeat constructor; lia].
  - done.
  - rewrite length_app. cbn. lia.
Qed.

(** ** open *)

Lemma same_files_named s s' t d : same_files s s' -> named s t d -> named s' t d.
Proof. intros [E _ _] [N1 N2]. constructor; [done|]. by rewrite E. Qed.
Lemma same_files_tables s s' : same_files s s' -> tables_filled s -> tables_filled s'.
Proof. intros [_ E _] [T1 T2 T3]. by constructor; rewrite E. Qed.
Lemma same_files_lowest s s' i : same_files s s' -> lowest_free s i -> lowest_free s' i.
Proof.
  intros [_ _ E] [L1 L2 L3]. constructor; [done| |]; unfold fd_free, fd_used in *;
    [|intros j Hj]; rewrite E; auto.
Qed.

Lemma wp_open_file s pid vid str t d i size (Q : Z -> kstate -> Prop) :
  user_at s pid vid -> cstring str t -> bytes str -> Z.of_nat (length str) <= 4096 ->
  tables_filled s -> named s t d -> file_type d = TYPE_FILE -> lowest_free s i ->
  file_ok (s_fs s) (inode_num d) size -> 0 <= size ->
  (forall s', user_at s' pid vid -> file_open_at s' i size 0 (inode_num d) -> s_fs s' = s_fs s -> Q i s') ->
  wp (handle ubuf ebx ecx edx (SysOpen str)) Q s.
Proof.
  intros U Hc Hb Hl T Hn Hty L F Hsz HQ. eapply wp_handle_open; [done|exact U|exact Hc|done|done|].
  intros s1 U1 D1. pose proof (same_files_draws _ _ D1) as S1.
  apply (same_files_tables _ _ S1) in T. apply (same_files_named _ _ _ _ S1) in Hn.
  apply (same_files_lowest _ _ _ S1) in L. pose proof (lf_range _ _ L) as Hi.
  destruct (lf_free _ _ L) as (b0 & Hb0 & _).
  apply wp_Ret. exists i, (with_cur_fd i (open_file d) (masked s1)).
  split; [by apply open_file_Ret|].
  assert (U2 : user_at (with_cur_fd i (open_file d) (masked s1)) pid vid).
  { apply user_at_with_fd; [done|by eexists|by apply user_at_masked]. }
  apply HQ; [by apply user_at_flags| |].
  - eapply file_open_draws; [apply draws_flags|]. constructor; [done|by destruct T; constructor| | |lia].
    + rewrite (cur_fd_with (masked s1) i (open_file d) b0 i) by (done || lia). by rewrite decide_True.
    + rewrite <-(draws_fs _ _ D1) in F. exact F.
  - apply D1.
Qed.

Lemma local_bytes n : bytes (local_array n).
Proof. apply Forall_replicate, u8_range. Qed.

(** C29: cat on this kernel. A process runs cat with the name of a file without
    carriage returns (which [putc] lets run out of the screen's page) as its
    argument and a descriptor free: cat ends with 0, and what it has written to the standard output
    is the file, when the file has less than 1024 bytes, and otherwise the
    largest multiple of 1024 bytes of it: the kernel does not deliver the last,
    shorter chunk of a longer file. *)
Theorem cat_prints_file s pid vid t d i size :
  user_at s pid vid -> args_are s pid t -> t <> [] -> (length t < 1024)%nat ->
  tables_filled s -> named s t d -> file_type d = TYPE_FILE -> lowest_free s i ->
  file_ok (s_fs s) (inode_num d) size -> 0 <= size -> no_cr s (inode_num d) size ->
  exists n o s', run ubuf ebx ecx edx n cat_main s = Some (o, Monad.Ret 0 s') /\
    file_bytes (s_fs s) (inode_num d) 0 (Z.to_nat (delivered size)) = Some o /\
    user_at s' pid vid.
Proof.
  intros U A Hne Hl T Hn Hty L F Hsz Hcr. destruct (A) as (b & _ & [Ht _] & _).
  assert (W : says ubuf ebx ecx edx cat_main (fun o r s' => r = 0 /\ user_at s' pid vid /\
    file_bytes (s_fs s) (inode_num d) 0 (Z.to_nat (delivered size)) = Some o) s).
  { unfold cat_main. user_pure. apply says_trigger.
    pose proof (local_length 1024) as L0. pose proof (local_bytes 1024) as B0.
    eapply wp_getargs; [exact U|exact A|done|lia|lia|done|].
    intros s1 U1 S1. cbn [output_of]. change (negb (0 =? 0)) with false. cbv iota.
    set (buf := overlay (t ++ [0]) (local_array 1024)).
    assert (Bb : bytes buf).
    { apply overlay_bytes; [|done]. apply Forall_app. split; [|repeat constructor; lia].
      eapply Forall_impl; [exact Ht|]. cbv beta. intros; lia. }
    assert (Lb : length buf = 1024%nat).
    { unfold buf. rewrite overlay_length; [done|]. rewrite length_app. cbn. lia. }
    assert (Cb : cstring buf t).
    { split; [done|]. unfold buf, overlay. exists (drop (length (t ++ [0])) (local_array 1024)).
      by rewrite <-app_assoc. }
    user_pure. apply says_trigger. pose proof (sf_fs _ _ S1) as E1.
    eapply (wp_open_file s1 pid vid buf t d i size); [exact U1|exact Cb|done|lia| | |done| | |done|].
    { by eapply same_files_tables. }
    { by eapply same_files_named. }
    { by eapply same_files_lowest. }
    { by rewrite E1. }
    intros s2 U2 F2 E2. cbn [output_of]. pose proof (fa_fd _ _ _ _ _ F2).
    rewrite (proj2 (Z.eqb_neq i (-1))) by lia.
    eapply says_mono; [apply (cat_loop_says s2 pid vid i size (inode_num d)); [done|done| |done|done]|].
    { intros j Hj. rewrite E2, E1. by apply Hcr. }
    cbv beta. intros o r s3 (-> & U3 & Ho). by rewrite E2, E1 in Ho. }
  destruct W as (n & o & r & s' & W & -> & U' & Ho). by exists n, o, s'.
Qed.
End files.

(** ** Witnesses *)

(** The tester with the argument "verylarge..." (3 bytes: "Hi" and a newline). *)
Definition long_name : list Z := text "verylargetextwithverylongname.tx".
Definition reader : kstate := with_args 1 (long_name ++ replicate 992 0) tester.

Lemma tester_block :
  pcb_at tester 1 = Some (set pcb_pid (fun _ => 1)
    (set fd_table (fun _ => take 8 (std_fds ++ replicate 6 free_block)) std_pcb)).
Proof. reflexivity. Qed.

Lemma long_ok : file_ok small_fs 1 3.
Proof.
  constructor.
  - exists 2. split; [by vm_compute|lia].
  - by vm_compute.
  - intros i Hi. apply bytes_present_spec with (n := 4%nat); [by vm_compute|lia].
  - lia.
Qed.

Lemma reader_same : same_files tester reader.
Proof. exact (same_files_args tester _ (long_name ++ replicate 992 0) tester_block). Qed.

Lemma cat_prints_file_witness :
  exists n s', run 0x8050000 0 0 0 n cat_main reader = Some ([72; 105; 10], Monad.Ret 0 s').
Proof.
  destruct (cat_prints_file 0x8050000 0 0 0 ltac:(unfold VIRTUAL_START; lia) reader 1 VIDEO long_name
    (mk_dentry "verylargetextwithverylongname.tx" 2 1) 2 3) as (n & o & s' & H & Ho & _).
  - eapply user_at_args; [exact tester_block|apply tester_user].
  - eexists. split; [apply pcb_at_with_args, tester_block|]. split.
    + split; [repeat constructor; lia|by exists (replicate 991 0)].
    + cbn. lia.
  - done.
  - cbn. lia.
  - apply (same_files_tables _ _ reader_same). by apply small_tables.
  - apply (same_files_named _ _ _ _ reader_same). constructor; [repeat constructor; lia|].
    exists small_dir. split; [exact small_dir_eq|by vm_compute].
  - by vm_compute.
  - apply (same_files_lowest _ _ _ reader_same). by eapply first_free.
  - apply long_ok.
  - lia.
  - intros i Hi. assert (i = 0 \/ i = 1 \/ i = 2 \/ i = 3) as Hc by lia.
    destruct Hc as [->|[->|[->| ->]]]; by vm_compute.
  - assert (E : file_bytes small_fs 1 0 3 = Some [72; 105; 10]) by (by vm_compute).
    change (file_bytes small_fs 1 0 3 = Some o) in Ho. rewrite E in Ho. injection Ho as <-.
    by exists n, s'.
Defined.
