(* ===== verification/UserDirs.v ===== *)
(** * Programs that read directories: ls on the kernel *)
From ITree Require Import ITree.
From S2P Require Import Prelude State Monad Logic Strings Screen ScreenSpec Proc ProcSpec Fs FsSpec Terminal TerminalSpec Interrupts Syscalls PagingSpec Kernel Demo DriverSpec ProcessSpec FsProps ProcessProps LifeProps DirSpec User UserLib UserRun UserSpec UserProps UserFiles.

Lemma upto0_Forall (Q : Z -> Prop) l : Forall Q l -> Forall Q (upto0 l).
Proof. induction 1 as [|c l Hc Hl IH]; cbn; [done|]. case_match; by constructor. Qed.

Lemma entries_bytes f n : forall i ds, entries f n i = Some ds -> Forall bytes ds.
Proof.
  induction n as [|n IH]; intros i ds; cbn [entries]; [by intros [= <-]|].
  destruct (dir_entries f i) as [d|] eqn:Hd; [|done]. cbn.
  destruct (entries f n (i + 1)) as [ds'|] eqn:E; [|done]. intros [= <-].
  constructor; [by apply (fs_bytes_range _ _ _ _ Hd)|by eapply IH].
Qed.

Lemma next_named_Forall (Q : dir_entry_t -> Prop) ds k d ds' :
  next_named ds = Some (k, d, ds') -> Forall Q ds -> Q d.
Proof.
  intros Hn H. revert k Hn. induction H as [|x l Hx Hl IH]; intros k; cbn [next_named]; [done|].
  destruct (nonempty x); [by intros [= _ <- _]|].
  destruct (next_named l) as [[[k' d'] l']|]; [|done]. intros [= _ <- <-]. by eapply IH.
Qed.

Section dirs.
Context {P : Platform}.
Variables (ubuf ebx ecx edx : Z).
Hypothesis ubuf_range : VIRTUAL_START <= ubuf <= VIRTUAL_START + 0x3B7000.
Implicit Types (s : kstate).

(** Descriptor [fd] reads the directory [ds] and has [rest] left. *)
Record listing s (fd : Z) (ds rest : list dir_entry_t) : Prop := {
  ls_fd : 2 <= fd < 8;
  ls_tables : tables_filled s;
  ls_dir : dir_ok s ds;
  ls_block : exists blk, cur_fd s fd = Some blk /\
    file_operations_pointer blk = Some dir_table /\ 0 <= file_position blk <= 63 /\
    rest = drop (Z.to_nat (file_position blk)) ds /\
    Z.of_nat (length (names rest)) <= fd_flags blk < 2147483648;
}.

Lemma listing_draws s s' fd ds rest : draws s s' -> listing s fd ds rest -> listing s' fd ds rest.
Proof.
  intros D [L1 [T1 T2 T3] [L3 L4] L5]. constructor; try done.
  - constructor; by rewrite (draws_proc _ _ D).
  - constructor; by rewrite (draws_fs _ _ D).
  - by rewrite (draws_cur_fd _ _ _ D).
Qed.

Lemma listing_moved s fd ds rest blk b :
  cur_fd s fd = Some b -> listing s fd ds rest ->
  file_operations_pointer blk = Some dir_table -> 0 <= file_position blk <= 63 ->
  Z.of_nat (length (names (drop (Z.to_nat (file_position blk)) ds))) <= fd_flags blk < 2147483648 ->
  listing (with_cur_fd fd blk s) fd ds (drop (Z.to_nat (file_position blk)) ds).
Proof.
  intros Hb [L1 [T1 T2 T3] [L3 L4] _] H1 H2 H3. constructor; [done|by constructor|by constructor|].
  exists blk. rewrite (cur_fd_with s fd blk b fd Hb) by lia. by rewrite decide_True.
Qed.

(** A read of 32 bytes: the next name, or 0 when there is none. *)
Lemma wp_read_dir s pid vid fd ds rest buf (Q : Z * list Z -> kstate -> Prop) :
  user_at s pid vid -> listing s fd ds rest -> length buf = 33%nat -> bytes buf ->
  (forall s', user_at s' pid vid -> s_fs s' = s_fs s ->
    match next_named rest with
    | None => Q (0, buf) s'
    | Some (_, d, rest') =>
        forall tail, length tail = (33 - length (name_of d))%nat -> bytes tail ->
          listing s' fd ds rest' ->
          Q (Z.of_nat (length (name_of d)), name_of d ++ tail) s'
    end) ->
  wp (handle ubuf ebx ecx edx (SysRead fd buf 32)) Q s.
Proof.
  intros U L Hl Hb HQ. destruct (ls_block _ _ _ _ L) as (blk & Hblk & Hop & Hp & Hrest & Hfl).
  pose proof (ls_fd _ _ _ _ L) as Hfd.
  assert (Hr : forall s1, draws s s1 ->
    let '(r, blk') := dir_result blk rest 32 in
    read_into on_irq fd 32 s1 = Monad.Ret r (with_cur_fd fd blk' s1)).
  { intros s1 D. apply (listing_draws _ _ _ _ _ D) in L. rewrite <-(draws_cur_fd _ _ _ D) in Hblk.
    pose proof (directory_read_next s1 fd blk ds 32 Hblk (ls_dir _ _ _ _ L) Hp ltac:(lia)) as E.
    rewrite <-Hrest in E. destruct (dir_result blk rest 32) as [r blk'].
    unfold read_into. rewrite fd_check by lia. erewrite bind_Ret by (by apply get_fd_Ret).
    rewrite (proj2 (Z.eqb_neq _ _)), Hop by lia. unfold get_optable.
    erewrite bind_Ret; [|erewrite bind_Ret by reflexivity; by apply of_opt_Some, L]. exact E. }
  unfold dir_result in Hr. destruct (next_named rest) as [[[k d] rest']|] eqn:Hn.
  - destruct (next_named_drop _ _ _ _ Hn) as (Hne & Hr' & Hk).
    pose proof (names_next rest) as Hnm. rewrite Hn in Hnm. rewrite Hnm in Hfl. cbn [length] in Hfl.
    rewrite (proj2 (Z.eqb_neq _ _)) in Hr by lia. cbv zeta in Hr.
    change (field_text 32 d) with (name_of d) in Hr.
    assert (Hnl : (length (name_of d) <= 32)%nat).
    { unfold name_of, filename. pose proof (upto0_length (take 32 d)).
      rewrite length_take in *. lia. }
    assert (Bd : bytes (name_of d)).
    { apply upto0_Forall, Forall_take. eapply (next_named_Forall bytes); [exact Hn|].
      rewrite Hrest. apply Forall_drop. eapply entries_bytes, L. }
    set (z := if decide (length (name_of d) < Z.to_nat 32)%nat then [0] else []) in *.
    assert (Lz : (length (name_of d ++ z) <= 33)%nat).
    { rewrite length_app. unfold z. case_decide; cbn; lia. }
    assert (Bz : bytes (name_of d ++ z)).
    { apply Forall_app. split; [done|]. unfold z. case_decide; repeat constructor; lia. }
    eapply wp_read_fd; [done|exact U|done|by eexists|lia|lia|done|exact Hr|done|lia|].
    intros s' U' D. specialize (HQ s' U' (draws_fs _ _ D)). unfold overlay. rewrite <-app_assoc.
    apply HQ.
    + autorewrite with arr in *. lia.
    + apply Forall_app in Bz as [_ Bz]. apply Forall_app. split; [done|by apply Forall_drop].
    + eapply listing_draws; [exact D|].
      set (blk' := set fd_flags _ _) in *.
      assert (Hpos : file_position blk' = file_position blk + Z.of_nat k + 1) by done.
      assert (Hflg : fd_flags blk' = fd_flags blk - 1) by (unfold blk'; upd; apply s32_small; lia).
      assert (Hdrop : rest' = drop (Z.to_nat (file_position blk')) ds).
      { rewrite Hr', Hrest, drop_drop, Hpos. f_equal. lia. }
      rewrite Hdrop. pose proof (entries_length _ _ _ _ (do_dir _ _ (ls_dir _ _ _ _ L))) as Hdl.
      unfold MAX_DIR_ENTRIES in Hdl. rewrite Hrest, length_drop in Hk.
      eapply listing_moved; [exact Hblk|exact L|done|lia|]. rewrite <-Hdrop, Hflg. lia.
  - assert (Hr0 : exists blk', forall s1, draws s s1 ->
      read_into on_irq fd 32 s1 = Monad.Ret (0, []) (with_cur_fd fd blk' s1)).
    { destruct (fd_flags blk =? 0); by eexists. }
    destruct Hr0 as [blk' Hr0].
    eapply wp_read_fd; [done|exact U|done|by eexists|lia|lia|done|exact Hr0|constructor|cbn; lia|].
    intros s' U' D. unfold overlay. cbn [length app]. rewrite drop_0. by apply HQ; [|apply D].
Qed.
(** ** ls *)

Definition line_of (name : list Z) : list Z := name ++ [10].

Lemma says_ls_loop n : forall s pid vid fd ds rest buf,
  user_at s pid vid -> listing s fd ds rest -> (length (names rest) < n)%nat ->
  length buf = 33%nat -> bytes buf -> Forall (Forall (fun c => c <> 13)) (names rest) ->
  says ubuf ebx ecx edx (ls_loop fd buf)
    (fun o r s' => r = 0 /\ o = concat (map line_of (names rest)) /\ user_at s' pid vid) s.
Proof.
  induction n as [|n IH]; intros s pid vid fd ds rest buf U L Hn Hl Hb Hcr; [lia|].
  unfold ls_loop. apply says_iter. fold (ls_loop fd). unfold ls_round. user_pure.
  apply says_trigger. eapply wp_read_dir; [exact U|exact L|done|done|].
  intros s1 U1 _. cbn [output_of]. rewrite (names_next rest) in *.
  destruct (next_named rest) as [[[k d] rest']|] eqn:Hnm;
    [|change (0 =? 0) with true; cbv iota; user_pure; by split_and!].
  intros tail Ht Bt L1. destruct (next_named_drop _ _ _ _ Hnm) as (Hne & _ & _).
  pose proof (name_nonempty d Hne). cbn [length] in Hn. apply Forall_cons in Hcr as [Hcr1 Hcr2].
  set (name := name_of d) in *.
  rewrite (proj2 (Z.eqb_neq _ 0)), (proj2 (Z.eqb_neq _ (-1))) by lia.
  destruct tail as [|c tail]; [cbn in Ht; unfold name, name_of, filename in *;
    pose proof (upto0_length (take 32 d)); rewrite length_take in *; lia|].
  apply Forall_cons in Bt as [_ Bt].
  assert (El : lset (name ++ c :: tail) (Z.of_nat (length name)) 10 = Some (name ++ 10 :: tail)).
  { rewrite lset_Some by (rewrite length_app; cbn; lia). f_equal. rewrite Nat2Z.id.
    rewrite insert_app_r_alt by lia. by rewrite Nat.sub_diag. }
  assert (Bn : bytes (name ++ 10 :: tail)).
  { apply Forall_app. split; [|by constructor; [lia|]].
    apply upto0_Forall, Forall_take. eapply (next_named_Forall bytes); [exact Hnm|].
    destruct (ls_block _ _ _ _ L) as (blk & _ & _ & _ & -> & _).
    apply Forall_drop. eapply entries_bytes, L. }
  assert (Et : take (Z.to_nat (Z.of_nat (length name) + 1)) (name ++ 10 :: tail) = line_of name).
  { rewrite (cons_middle 10 name tail), app_assoc. apply take_app_length'.
    unfold line_of. rewrite length_app. cbn. lia. }
  assert (Ln : length (name ++ 10 :: tail) = 33%nat) by (rewrite length_app; cbn in *; lia).
  user_pure. eapply says_defined; [exact El|]. user_pure. apply says_trigger.
  eapply wp_write_out; [done|exact U1|exact Bn|rewrite length_app; cbn; lia|lia|..].
  { rewrite Et. apply Forall_app. split; [done|by repeat constructor]. }
  rewrite Et. intros s2 U2 W2. rewrite (proj2 (Z.eqb_neq _ (-1))) by lia. user_pure.
  cbn [output_of]. change (1 =? 1) with true. cbv iota. rewrite Et, app_nil_r.
  eapply says_mono; [eapply (IH s2 pid vid fd ds rest'); [done| |lia|done|done|done]|].
  - eapply listing_draws; [|exact L1]. etransitivity; [apply draws_stored|apply W2].
  - cbv beta. intros o r s' (-> & -> & U'). by split_and!.
Qed.

Lemma wp_open_directory s pid vid d i ds n (Q : Z -> kstate -> Prop) :
  user_at s pid vid -> tables_filled s -> named s (text ".") d -> file_type d = TYPE_DIR ->
  lowest_free s i -> dir_ok s ds -> num_dir_entries (s_fs s) = Some n ->
  Z.of_nat (length (names ds)) <= n < 2147483648 ->
  (forall s', user_at s' pid vid -> listing s' i ds ds -> Q i s') ->
  wp (handle ubuf ebx ecx edx (SysOpen (lit "."))) Q s.
Proof.
  intros U T Hn Hty L D Hcnt Hrange HQ.
  assert (Hcs : cstring (lit ".") (text ".")) by (split; [repeat constructor; lia|by exists []]).
  eapply wp_handle_open; [done|exact U|exact Hcs|repeat constructor; lia|cbn; lia|].
  intros s1 U1 D1. pose proof (same_files_draws _ _ D1) as S1.
  apply (same_files_tables _ _ S1) in T. apply (same_files_named _ _ _ _ S1) in Hn.
  apply (same_files_lowest _ _ _ S1) in L. pose proof (lf_range _ _ L) as Hi.
  destruct (lf_free _ _ L) as (b0 & Hb0 & _).
  assert (Hnm : named (masked s1) (text ".") d) by (destruct Hn; by constructor).
  unfold Syscalls.open. eapply wp_bind_Ret; [reflexivity|]. cbv beta. fold (masked s1).
  eapply wp_bind_Ret; [apply (read_dentry_named (masked s1) _ d); exact Hnm|]. cbv beta iota.
  change (negb (SUCCESS =? 0)) with false. cbv iota zeta. rewrite Hty.
  change (TYPE_DIR =? TYPE_RTC) with false. change (TYPE_DIR =? TYPE_DIR) with true. cbv iota.
  unfold directory_open. eapply wp_bind_Ret; [by apply (read_dentry_named (masked s1) _ d)|].
  cbv beta iota. change (SUCCESS =? -1) with false. cbv iota.
  eapply wp_bind_Ret; [apply scan_slot; by destruct L|]. cbv beta iota.
  eapply wp_bind_Ret; [eapply table_pointer_Ret, T|]. wp_pure.
  eapply wp_fs_read; [change (s_fs (masked s1)) with (s_fs s1); by rewrite (draws_fs _ _ D1)|].
  wp_pure. eapply wp_put_fd; [exact Hb0|]. wp_pure.
  set (blk := mk_fd (Some dir_table) 0 0 (s32 n)).
  assert (U2 : user_at (with_cur_fd i blk (masked s1)) pid vid).
  { apply user_at_with_fd; [done|by eexists|by apply user_at_masked]. }
  apply HQ; [by apply user_at_flags|].
  eapply listing_draws; [apply draws_flags|]. constructor; [done|by destruct T; constructor| |].
  - destruct D as [Dd Di]. constructor; change (s_fs (with_cur_fd i blk (masked s1))) with (s_fs s1);
      by rewrite (draws_fs _ _ D1).
  - exists blk. rewrite (cur_fd_with (masked s1) i blk b0 i) by (done || lia).
    rewrite decide_True by done. split_and!; try done; cbn [fd_flags blk]; rewrite s32_small; lia.
Qed.

(** C30: ls on this kernel. A process that runs ls ends with 0 and has written
    to the standard output the name of every named entry of the directory,
    once, in the order of the directory, each on a line of its own. *)
Theorem ls_prints_names s pid vid d i ds n :
  user_at s pid vid -> tables_filled s -> named s (text ".") d -> file_type d = TYPE_DIR ->
  lowest_free s i -> dir_ok s ds -> num_dir_entries (s_fs s) = Some n ->
  Z.of_nat (length (names ds)) <= n < 2147483648 ->
  Forall (Forall (fun c => c <> 13)) (names ds) ->
  exists k s', run ubuf ebx ecx edx k ls_main s =
      Some (concat (map line_of (names ds)), Monad.Ret 0 s') /\ user_at s' pid vid.
Proof.
  intros U T Hn Hty L D Hcnt Hrange Hcr.
  assert (W : says ubuf ebx ecx edx ls_main (fun o r s' => r = 0 /\
    o = concat (map line_of (names ds)) /\ user_at s' pid vid) s).
  { unfold ls_main. user_pure. apply says_trigger.
    eapply (wp_open_directory s pid vid d i ds n); [done..|]. intros s1 U1 L1.
    cbn [output_of]. pose proof (lf_range _ _ L). rewrite (proj2 (Z.eqb_neq i (-1))) by lia.
    eapply says_ls_loop; [exact U1|exact L1|apply Nat.lt_succ_diag_r|apply local_length|
      apply local_bytes|done]. }
  destruct W as (k & o & r & s' & W & -> & -> & U'). by exists k, s'.
Qed.
End dirs.

(** ** Witnesses *)

(** The tester with the module of 64 inodes. *)
Definition lister : kstate := set s_fs (fun _ => s_fs wide_state) tester.

Lemma user_at_fs f s pid vid : user_at s pid vid -> user_at (set s_fs f s) pid vid.
Proof.
  intros [U1 U2 [U3 U4 U5] U6 U7 U8 U9 U10 U11].
  constructor; try done; by apply (cursor_ok_scr s).
Qed.
Lemma lister_user : user_at lister 1 VIDEO.
Proof. unfold lister. apply user_at_fs, tester_user. Qed.

Lemma lister_fs : s_fs lister = s_fs wide_state.
Proof. unfold lister. generalize tester. intros s. by upd. Qed.
Lemma lister_dir : directory (s_fs lister) = Some wide_dir.
Proof. rewrite lister_fs. exact wide_dir_eq. Qed.

Lemma ls_prints_names_witness :
  exists k s', run 0x8050000 0 0 0 k ls_main lister = Some
    (chars "." ++ [10] ++ chars "rtc" ++ [10] ++ chars "shell" ++ [10] ++
     chars "verylargetextwithverylongname.tx" ++ [10], Monad.Ret 0 s').
Proof.
  assert (E : names wide_dir = [text "."; text "rtc"; text "shell";
    text "verylargetextwithverylongname.tx"]) by (vm_compute; reflexivity).
  destruct (ls_prints_names 0x8050000 0 0 0 ltac:(unfold VIRTUAL_START; lia) lister 1 VIDEO
    (mk_dentry "." 1 0) 2 wide_dir 4) as (k & s' & H & _).
  - exact lister_user.
  - by apply small_tables.
  - constructor; [repeat constructor; lia|]. exists wide_dir. split; [exact lister_dir|by vm_compute].
  - by vm_compute.
  - by eapply first_free.
  - split; [exact lister_dir|]. exists 64. rewrite lister_fs. split; [by vm_compute|lia].
  - rewrite lister_fs. by vm_compute.
  - rewrite E. cbn. lia.
  - rewrite E. repeat constructor; done.
  - exists k, s'. rewrite H, E. reflexivity.
Defined.
