(* ===== verification/UserPrints.v ===== *)
(** * Programs that print: counter, pingpong, testprint *)
From ITree Require Import ITree.
From S2P Require Import Prelude State Monad Logic Strings Screen ScreenSpec Proc ProcSpec Syscalls Demo DriverSpec PagingSpec LifeProps User UserLib UserRun UserSpec UserProps UserFiles UserDirs.

Section prints.
Context {P : Platform}.
Variables (ubuf ebx ecx edx : Z).
Hypothesis ubuf_range : VIRTUAL_START <= ubuf <= VIRTUAL_START + 0x3B7000.
Implicit Types (s : kstate).

(** ** counter *)

(** [lines] are the numerals, in base 10, of the numbers from [i + 1] on. *)
Definition numerals_from (i : Z) (lines : list (list Z)) : Prop :=
  forall j ds, lines !! j = Some ds ->
    parse 10 ds = i + 1 + Z.of_nat j /\ Forall (is_digit 10) ds /\
    (forall c, head ds = Some c -> c = 48 -> ds = [48]).

Lemma digits_plain ds : Forall (is_digit 10) ds -> Forall (fun c => 0 < c < 256) ds /\ Forall (fun c => c <> 13) ds.
Proof. intros H. split; (eapply Forall_impl; [exact H|]; intros c [Hc _]; cbv beta; lia). Qed.

Lemma says_count_loop n : forall s pid vid i buf,
  user_at s pid vid -> length buf = 1024%nat -> bytes buf ->
  0 <= i -> i + Z.of_nat n < 2 ^ 32 ->
  says ubuf ebx ecx edx (count_loop n i buf) (fun o _ s' => user_at s' pid vid /\
    exists lines, o = concat (map line_of lines) /\ length lines = n /\ numerals_from i lines) s.
Proof.
  induction n as [|n IH]; intros s pid vid i buf U Hl Hb Hi Hn; cbn [count_loop].
  { user_pure. split; [done|]. exists []. by split_and!. }
  destruct (itoa_numeral (i + 1) 10) as (ds & Hit & Hp & Hd & Hdl & Hz); [lia|lia|].
  change (2 ^ 32) with 4294967296 in *. rewrite u32_small by lia.
  destruct (digits_plain _ Hd) as [Hd1 Hd2].
  user_pure. eapply says_defined; [apply ece391_itoa_string; [lia|lia|lia|exact Hit]|].
  set (buf1 := ds ++ 0 :: drop (S (length ds)) buf).
  assert (L1 : length buf1 = 1024%nat) by (unfold buf1; rewrite length_app; cbn; rewrite length_drop; lia).
  assert (C1 : cstring buf1 ds) by (split; [done|by eexists]).
  assert (B1 : bytes buf1).
  { apply Forall_app. split; [by eapply cstring_bytes|]. constructor; [lia|by apply Forall_drop]. }
  user_pure. eapply says_fdputs; [done|exact U|exact C1|exact B1|lia|by destruct ds; [cbn in Hdl; lia|]|done|].
  intros s1 U1 _. user_pure.
  eapply (says_fdputs _ _ _ _ ubuf_range _ _ _ _ [10]); [exact U1|split; [repeat constructor; lia|by exists []]|
    repeat constructor; lia|cbn; lia|done|repeat constructor; lia|].
  intros s2 U2 _. eapply says_mono; [apply (IH s2 pid vid (i + 1) buf1); try done; lia|].
  cbv beta. intros o _ s' (U' & lines & -> & Hlen & Hnum). split; [done|].
  exists (ds :: lines). split; [cbn [map concat]; unfold line_of; by rewrite <-app_assoc|]. split; [cbn; by f_equal|].
  intros [|j] es Hj; [injection Hj as <-; split_and!; try done; lia|].
  destruct (Hnum j es Hj) as (H1 & H2 & H3). split_and!; try done. lia.
Qed.

(** C33: counting. The loop of counter writes, one per line, the decimal
    numerals of the next [n] numbers in order, without leading zeros, however
    many of them its buffer has held before. *)
Theorem counter_counts s pid vid n i buf :
  user_at s pid vid -> length buf = 1024%nat -> bytes buf ->
  0 <= i -> i + Z.of_nat n < 2 ^ 32 ->
  exists k lines s', run ubuf ebx ecx edx k (count_loop n i buf) s =
      Some (concat (map line_of lines), Monad.Ret tt s') /\
    length lines = n /\ numerals_from i lines /\ user_at s' pid vid.
Proof.
  intros U Hl Hb Hi Hn.
  destruct (says_count_loop n s pid vid i buf U Hl Hb Hi Hn)
    as (k & o & [] & s' & H & U' & lines & -> & Hlen & Hnum).
  by exists k, lines, s'.
Qed.
End prints.

(** ** pingpong *)

Lemma blank_app n : forall a mid b,
  length mid = n ->
  blank n (Z.of_nat (length a)) (a ++ mid ++ b) = Some (a ++ replicate n 32 ++ b).
Proof.
  induction n as [|n IH]; intros a mid b Hm; destruct mid as [|x mid]; try done.
  cbn [blank app]. rewrite lset_Some by (rewrite length_app; cbn [length]; lia). cbn [mbind option_bind].
  rewrite Nat2Z.id, insert_app_r_alt, Nat.sub_diag by lia. cbn [insert list_insert].
  specialize (IH (a ++ [32]) mid b ltac:(cbn in Hm; lia)). rewrite length_app in IH. cbn [length] in IH.
  replace (Z.of_nat (length a + 1)) with (Z.of_nat (length a) + 1) in IH by lia.
  rewrite <-!app_assoc in IH. exact IH.
Qed.

Section pingpong.
Context {P : Platform}.

(** A line with its walls: 80 characters and a NUL. *)
Definition walled (mid buf : list Z) : Prop :=
  length mid = 76%nat /\ buf = [32; 124] ++ mid ++ [124; 10; 0].
(** The line with [c] at [j] and nothing else. *)
Definition world (c j : Z) : list Z :=
  replicate (Z.to_nat (j - 2)) 32 ++ c :: replicate (Z.to_nat (77 - j)) 32.

(** C34: the world of pingpong. The buffer starts as an empty line between two
    walls. Whatever a frame has left between the walls, the next frame shows
    the character at its place, blanks elsewhere and the walls untouched, for
    every place the two loops use; the text that is printed has 80 characters,
    one row of the screen with its newline; and the character stays a capital
    letter. *)
Theorem pingpong_frames c j mid buf :
  STARTLOOP <= j < LOOPMAX -> 65 <= c <= 90 -> walled mid buf ->
  pingpong_init = Some ([32; 124] ++ replicate 76 32 ++ [124; 10; 0]) /\
  (exists buf', frame buf j c = Some buf' /\ walled (world c j) buf' /\
    cstring buf' ([32; 124] ++ world c j ++ [124; 10]) /\
    length ([32; 124] ++ world c j ++ [124; 10]) = 80%nat) /\
  65 <= next_char c <= 90.
Proof.
  unfold STARTLOOP, LOOPMAX. intros Hj Hc [Hm ->]. split; [|split; [|unfold next_char]].
  - unfold pingpong_init. change BUFMAX with 81. unfold local_array. change (Z.to_nat 81) with 81%nat.
    pose proof (blank_app 81 [] (replicate 81 (u8 stack_junk)) [] (length_replicate _ _)) as E.
    cbn [app length] in E. rewrite !app_nil_r in E. change (Z.of_nat 0) with 0 in E. by rewrite E.
  - exists ([32; 124] ++ world c j ++ [124; 10; 0]). assert (Hw : length (world c j) = 76%nat).
    { unfold world. rewrite length_app. cbn [length]. autorewrite with arr. lia. }
    split; [|split; [by split|split; [split; [|by exists []; rewrite <-!app_assoc]|by rewrite !length_app, Hw]]].
    + unfold frame, STARTLOOP, LOOPMAX. change (Z.to_nat (78 - 2)) with 76%nat.
      change 2 with (Z.of_nat (length [32; 124])). rewrite blank_app by done. cbn [mbind option_bind].
      rewrite lset_Some.
      2: { rewrite !length_app, length_replicate. cbn [length]. lia. }
      f_equal. rewrite insert_app_r_alt by (cbn [length]; lia). f_equal.
      rewrite insert_app_l by (rewrite length_replicate; cbn [length]; lia). f_equal. unfold world.
      replace 76%nat with (Z.to_nat (j - 2) + S (Z.to_nat (77 - j)))%nat by lia.
      rewrite replicate_add. rewrite insert_app_r_alt by (rewrite length_replicate; cbn [length]; lia).
      f_equal. rewrite length_replicate. cbn [length].
      by replace (Z.to_nat j - 2 - Z.to_nat (j - 2))%nat with 0%nat by lia.
    + unfold world. rewrite !Forall_app, !Forall_cons.
      split_and!; repeat constructor; try lia; apply Forall_replicate; lia.
  - destruct (Z.eqb_spec c 90); [lia|]. rewrite u8_small; lia.
Qed.
End pingpong.

Lemma pingpong_frames_witness :
  exists buf', frame ([32; 124] ++ replicate 76 32 ++ [124; 10; 0]) 77 65 = Some buf' /\
    walled (world 65 77) buf'.
Proof.
  destruct (pingpong_frames 65 77 (replicate 76 32) ([32; 124] ++ replicate 76 32 ++ [124; 10; 0]))
    as (_ & (buf' & H & W & _) & _).
  - unfold STARTLOOP, LOOPMAX. lia.
  - lia.
  - by split.
  - exists buf'. split; [exact H|exact W].
Defined.

Lemma counter_counts_witness :
  exists k lines s', run 0x8050000 0 0 0 k (count_loop 100 0 (local_array 1024)) tester =
    Some (concat (map line_of lines), Monad.Ret tt s') /\ length lines = 100%nat /\
    numerals_from 0 lines.
Proof.
  destruct (counter_counts 0x8050000 0 0 0 ltac:(unfold VIRTUAL_START; lia) tester 1 VIDEO 100 0
    (local_array 1024)) as (k & lines & s' & H1 & H2 & H3 & _).
  - apply tester_user.
  - apply local_length.
  - apply local_bytes.
  - lia.
  - lia.
  - by exists k, lines, s'.
Defined.
